(* ===== verification/_CoqProject ===== *)
-Q . S2P
Prelude.v
Memory.v
V1alpha1.v
GoStrings.v
Scanner.v
Types.v
InternalApi.v
Bridge.v
Host.v
HttpFile.v
Semver.v
Validation.v
Capture.v
Main.v
Retry.v
Artifact.v
Tracker.v
Installers.v
PackageManager.v
Aws.v
E2e.v
GoTime.v
Cloud.v
VpcCleaner.v
Cleaners.v
SweepLogic.v
Sweeper.v
SweepProps.v
E2eCommands.v
Daemon.v
Ssm.v
Api.v
Node.v
Flows.v
FlowProps.v
Lifecycle.v
Commands.v
CommandProps.v
Validators.v
Swap.v
Resources.v
Base64.v
Net.v
Network.v
Proxy.v
Aspects.v
AspectProps.v
Reserve.v
ContainerdDaemon.v
KubeletConfig.v
KubeletDaemon.v
KubeClient.v
KubeletProps.v
Credentials.v
CredentialProps.v
KubeAccess.v
HybridProvider.v
HybridProps.v
Ec2Provider.v
SyncArtifacts.v
ConfigSource.v
Debug.v
InitProps.v
Ec2InitProps.v
ConfigCheck.v
Skips.v
SkipProps.v
DebugProps.v
CommandLine.v
