(* ===== verification/Prelude.v ===== *)
(** * nodeadm, the node manager of EKS hybrid nodes: a verification library

    nodeadm turns a machine into a node of an EKS cluster: [install] puts
    the binaries and packages on it, [init] configures and starts them,
    [upgrade] and [uninstall] replace and remove them, [debug] diagnoses the
    node and [sync-artifacts] prepares a private copy of what is installed.
    Beside it the repository has e2e-test, which creates clusters, tests
    nodeadm on them and takes them away.  The library models the Go code of
    cmd/, internal/ and api/ as programs over a host, in the code's own
    structure and under its own names, and proves what the components promise
    to one another and to the operator.
    Paths below are relative to src/internal unless they start with cmd.

    ** How the code is represented

    - This file: Go errors as an inductive type with the dynamic types the
      code tells apart; fallible results ([result]); stateful code as the
      monad [M S A], whose outcome is a value, an error or a run-time panic
      and whose state is kept in every case; lists and automation.
    - GoStrings, Base64, Net, Semver: the parts of Go's strings, strconv,
      base64 and net packages, and of x/mod/semver (a class, with a concrete
      order), that the code uses.  Integers have the code's width.
    - Types: the node configuration (api/types.go), the cluster as the EKS API
      gives it, and the state of a node provider.
    - Host: the state of the process and the machine: the file system, the
      tracker value in memory, the journal of every call that leaves the
      process, and the shared state of the node provider (the configuration
      its daemons and validations point to, the AWS configuration and the
      cluster read).  The class [Env] answers the calls: every call may fail
      and a failing call may leave any files, so a theorem over all [Env]
      covers every fault and every interleaving the process can observe.
      [journaled], [preserves] and [keeps_tracker] are the frame properties
      the theorems about whole flows are built from, with [host_tac].
    - HttpFile: downloads (util/net.go).
    - Memory: memory behind pointers, as finite maps from addresses to cells,
      for the code whose contract is about sharing.  [Copies] says that a deep
      copy denotes the original's value in cells of its own.
    - Scanner and Capture: lines read through a pipe, and the goroutines that
      share it, as a step relation with reachable states.

    ** The parts of the program

    - Main: which command runs and how the process ends (cmd/nodeadm/main.go,
      cmd/e2e-test/main.go, cli/).  CommandLine: what the commands register
      with flaggy, their flags, positional values and help texts.
    - V1alpha1, InternalApi, Bridge: the two versions of the node
      configuration as they lie in memory, their generated deep copies and
      conversions (api/, api/bridge/, api/v1alpha1 of the repository).
    - Validation: the runner, its errors and the informers (validation/).
      Capture: the capture of stderr around a validation (validation/
      reader.go, printer.go).
      Retry: retriers, Kubernetes requests and waits, command retries
      (retry/, kubernetes/retry.go and wait.go, util/).
    - Artifact, Tracker, Installers, PackageManager, Aws, Ssm: what is
      installed, from which source and how it is verified and recorded
      (artifact/, tracker/, the install.go of each package, packagemanager/,
      containerd/install.go, iptables/, aws/, ssm/).
    - Daemon: the daemon manager, systemd and the waits for a daemon (daemon/).
      Node and Api: the node and its pods, the credential provider (node/,
      creds/).
    - Flows: install, uninstall, upgrade and init (flows/), over the
      components and the interface [NodeProvider].  Commands: the checks the
      commands make before a flow (cmd/nodeadm).  FlowProps and CommandProps
      hold their theorems; Lifecycle composes install with uninstall.
    - Validators, Swap, Network, Proxy: the checks of a host (system/,
      certificate/, network/).  Aspects and Swap: what init sets up on it
      (system/, firewall/).  Resources and Reserve: its CPUs and memory and
      what is kept of them for the kubelet (system/resources.go,
      kubelet/config.go).
    - ContainerdDaemon, KubeletConfig, KubeletDaemon: the two daemons of a
      node and everything they read (containerd/, kubelet/).  KubeletProps
      holds the theorems.  KubeClient: the client made of the kubeconfig.
    - Credentials: the SSM agent and the signing helper as daemons, the waits
      for credentials and the checks of AWS services (iamrolesanywhere/, ssm/,
      aws/sts/, creds/).  KubeAccess: reading the cluster and reaching it
      (aws/eks/, kubernetes/).
    - HybridProvider and Ec2Provider: the two implementations of
      [NodeProvider] (node/hybrid, node/ec2, aws/ec2).  ConfigSource: where
      the configuration comes from and which provider it gets
      (configprovider/, api/merge.go, node/node.go).  InitProps and
      Ec2InitProps: the init flow over each provider as a whole.  ConfigCheck:
      config check against init's own validation.  Skips: the names that
      --skip accepts, and the two commands as far as the list reaches;
      SkipProps: for each of them a machine on which it is seen.
    - Debug: the debug command and the node validators (nodevalidator/);
      DebugProps: what its success says.  SyncArtifacts: the copies for
      private installations (cmd/nodeadm/sync_artifacts).
    - Cloud, VpcCleaner, Cleaners, Sweeper: the sweeper of what tests left in
      an AWS account, over a transcript of requests whose answers the class
      [CloudEnv] gives (test/e2e/cleanup, cfn, errors).  GoTime is what it
      needs of package time, SweepLogic a program logic for its changes,
      SweepProps the theorem.
    - E2e, E2eCommands: the driver of the end-to-end tests, which calls the
      sweeper, and the commands for test clusters and nodes
      (cmd/e2e-test, test/e2e: run, cleanup, peered).

    ** What the theorems show

    - Commands and flows.  Before the checks of uninstall and upgrade pass
      nothing on the host is touched, and a running kubelet needs a drained
      and unschedulable node unless the operator skips the check; install
      tracks exactly what it installed and a later command reads it back;
      a successful init of a hybrid node started the daemons of exactly the
      configuration it validated, for a cluster that accepts its kubelet
      when it had to ask for the cluster's details and was not told to skip
      that check, given that informer, network and daemon manager leave the provider's
      state alone ([QuietInformer], [QuietNetwork], [QuietManager]); one of an
      EC2 node those of the instance it described; config check succeeds
      exactly when init's validation would, for a configuration that writes
      its defaults out; debug succeeds only when each of its validators did;
      init and upgrade heed of --skip exactly the names the parts look for;
      uninstall removes only what tracked components own and forgets the
      tracker last; after an install every file nodeadm itself put there is
      gone once an uninstall from that tracker succeeds, save gpg's settings and
      the docker repository's ([settings_files]).  No flag of a command fills
      in another's field.
    - What is installed.  Binaries are the bytes of a download whose checksum
      verified, the SSM installer of one whose signature did; archives stay
      inside their directory; upgrades replace a file exactly when its
      checksum differs; the source chosen answers the version asked for.
      After a sync every URL of the custom manifest is an object of the
      bucket with the original's bytes, and the manifest reads back to the
      same release.
    - Memory and concurrency.  A deep copy of a configuration shares no memory
      with it; conversions denote the converted value in the memory they are
      given and invert one another.  The capture of stderr delivers exactly
      the lines written, in order, and closing it ends exactly when there are
      not more lines than the channel takes: with more, debug hangs.
    - Configuration.  User data are the NodeConfig parts in order; a
      configuration that static validation accepts is well formed; completion
      takes from the EKS API only what was missing; the kubelet's
      configuration and command line are as specified, with the user's flags
      last, so that a flag with one value has the user's, for every parser with
      two laws of pflag's; CPU and memory reservations follow their tables, the latter
      against the exact rational table; the sandbox image read back is the
      one written.
    - The host.  The ports aspect refines the opening of three port ranges
      for both firewalls, through the interface [FirewallView]; the swap
      aspect deals with every area in use before it rewrites fstab, of which it
      keeps what the scanner delivered but for swap; certificates accepted are
      valid.
    - Waiting.  The loops end: the waits for credentials and for an EC2
      instance, the listing of access entries, retries, which end with the
      operation's own answer; the active-node check ends only with a node
      that is ready.
    - Test clusters.  What a run of the end-to-end tests creates it takes
      away, whatever fails, in the time kept for it; waiting for a node leaves
      no serial console open; a sweep forgets no failure.  It changes nothing
      in a dry run and otherwise only resources that its filter selects by
      their own tags and age, or what hangs on one, for every account whose
      services answer the truth ([Truthful]); one that succeeds has run the
      deletion of everything it listed ([sweep_reaches]).

    Theorems that are properties of the program are numbered C1, C2, ... in
    the order of their importance; the others are the lemmas and the
    component specifications they rest on.  A property with hypotheses is
    followed by a witness that applies it to a concrete configuration.

    ** Bounds and assumptions

    - Back-off polling is the class [BackoffLoop] with the documented laws of
      ExponentialBackoffWithContext; loops over a context get the number of
      waits, [ticks], before the context is done, which is arbitrary.  The
      listing of access entries stops after [max_pages] pages, and its
      theorem says what it returns for every bound.  The EC2 waiter has one
      turn of fuel per nanosecond of its time, proved to be enough.
    - A listing of AWS has finitely many pages, each fetched when asked for;
      a deletion is tried three times for a stack, and a condition polled an
      arbitrary number of times.
    - During a wait other processes may change the files ([elapsed]).  A
      symbolic link is an entry of its own, never followed; the topology
      under /sys is read as the directories its links lead to.
    - The memory table is proved up to 1024 GiB and the CPU tiers up to 2^58
      CPUs; the counter of a retrier's attempts is not wrapped at 64 bits.
    - Closing files and response bodies is not modelled.  A read may fail after
      a successful open; where the code scans lines and does not look at the
      error, any text may have been delivered before ([read_part]).  Logging leaves no trace; help texts that end
      the process are errors.
    - Outside code is a parameter: YAML, JSON, mail and multipart parsing,
      PGP, X.509, SHA-256, gzip and tar, mergo, D-Bus, the Kubernetes client,
      the AWS SDK and the services behind it.

    ** Not modelled

    How flaggy splits the arguments and reads a value from its text, and its
    help template; loggers; options of constructors that only tests use; the
    registration of the API types with apimachinery's scheme and its code
    generators, which have no behaviour of their own.  Of the end-to-end
    tests the suites themselves, the add-ons, and the workflows that create
    clusters, credentials and instances: they are sequences of calls to AWS
    and Kubernetes whose effect is the services' own ([E2eEnv] and [E2eCloud]
    are the interface to them, also to the sweeper, which runs over an
    account of its own); build scripts. *)

From Stdlib Require Export Bool List Ascii ZArith Lia.
From stdpp Require Export base tactics option list strings gmap numbers sets.

#[global] Arguments Z.leb : simpl never.
#[global] Arguments Z.ltb : simpl never.
#[global] Arguments Z.eqb : simpl never.

(** ** Go errors

    A Go [error] is an interface value; [nil] is the absence of an error
    and is modelled by [Ok], [None] or [Return], so a value of type [error]
    is never nil.  The constructors are the dynamic types the code
    distinguishes with type assertions, [errors.Is] and [errors.As]. *)

(** The error types of internal/certificate, matched by a type switch. *)
Inductive cert_error_kind :=
  | CertNotFoundError
  | CertFileError
  | CertReadError
  | CertInvalidFormatError
  | CertClockSkewError
  | CertExpiredError
  | CertParseCAError
  | CertInvalidCAError.

Inductive error :=
  (** [errors.New], or [fmt.Errorf] without [%w]. *)
  | ENew (msg : string)
  (** [fmt.Errorf(msg: %w, cause)] and [errors.Wrap(cause, msg)]. *)
  | EWrap (msg : string) (cause : error)
  (** [errors.Join(es...)]: the one error here with [Unwrap() []error]. *)
  | EJoin (es : list error)
  (** [validation.WithRemediation(err, remediation)]. *)
  | ERemediable (err : error) (remediation : string)
  (** [validation.WithWarning(err, remediation)]. *)
  | EWarning (err : error) (remediation : string)
  (** [errors.NewSilent(err)] of internal/errors. *)
  | ESilent (err : error)
  (** An error of internal/certificate. *)
  | ECert (kind : cert_error_kind) (msg : string) (cause : option error)
  (** A [*fs.PathError] whose cause is [fs.ErrNotExist]. *)
  | ENotExist (path : string)
  (** [context.Canceled] or [context.DeadlineExceeded]. *)
  | ECtx (deadline : bool)
  (** A Kubernetes API error with reason NotFound. *)
  | EApiNotFound (name : string)
  (** The [ntp] validator's two wrapper types. *)
  | EChronyc (cause : error)
  | ETimedatectl (cause : error).

(** [os.IsNotExist]: looks at the error itself, not through wrapping. *)
Definition os_IsNotExist (e : error) : bool :=
  match e with ENotExist _ => true | _ => false end.

(** [errors.Is(err, fs.ErrNotExist)]: looks through every wrapper. *)
Fixpoint errors_Is_NotExist (e : error) : bool :=
  match e with
  | ENotExist _ => true
  | EWrap _ c => errors_Is_NotExist c
  | ECert _ _ (Some c) => errors_Is_NotExist c
  | EChronyc c | ETimedatectl c => errors_Is_NotExist c
  | EJoin es => existsb errors_Is_NotExist es
  | _ => false
  end.

(** [err.Error()]: the text an error prints as.  [errors.Join] separates
    its members by newlines. *)
Fixpoint error_text (e : error) : string :=
  match e with
  | ENew msg => msg
  | EWrap msg c => msg +:+ ": " +:+ error_text c
  | EJoin es =>
      (fix go es :=
         match es with
         | [] => ""
         | [e] => error_text e
         | e :: es => error_text e +:+ String "010"%char (go es)
         end) es
  | ERemediable e _ | EWarning e _ | ESilent e => error_text e
  | ECert _ msg None => msg
  | ECert _ msg (Some c) => msg +:+ ": " +:+ error_text c
  | ENotExist path => "open " +:+ path +:+ ": no such file or directory"
  | ECtx false => "context canceled"
  | ECtx true => "context deadline exceeded"
  | EApiNotFound name => name +:+ " not found"
  | EChronyc c | ETimedatectl c => error_text c
  end.

(** [errors.Join(errs...)]: nil ([None]) when no error is left. *)
Definition errors_Join (es : list error) : option error :=
  match es with [] => None | _ => Some (EJoin es) end.

(** ** Fallible results: Go's [(T, error)] *)

Inductive result (A : Type) :=
  | Ok (a : A)
  | Err (e : error).
Arguments Ok {_} _.
Arguments Err {_} _.

#[export] Instance result_ret : MRet result := λ A a, Ok a.
#[export] Instance result_bind : MBind result :=
  λ A B f r, match r with Ok a => f a | Err e => Err e end.
#[export] Instance result_fmap : FMap result :=
  λ A B f r, match r with Ok a => Ok (f a) | Err e => Err e end.

Definition is_ok {A} (r : result A) : bool :=
  match r with Ok _ => true | Err _ => false end.

(** [if err != nil { return errors.Wrap(err, msg) }]. *)
Definition wrap_err {A} (msg : string) (r : result A) : result A :=
  match r with Ok a => Ok a | Err e => Err (EWrap msg e) end.

Lemma result_bind_Ok {A B} (f : A → result B) (r : result A) b :
  r ≫= f = Ok b ↔ ∃ a, r = Ok a ∧ f a = Ok b.
Proof. destruct r; cbn; naive_solver. Qed.

Lemma result_bind_Err {A B} (f : A → result B) (r : result A) e :
  r ≫= f = Err e ↔ r = Err e ∨ ∃ a, r = Ok a ∧ f a = Err e.
Proof. destruct r; cbn; naive_solver. Qed.

Lemma is_ok_spec {A} (r : result A) : is_ok r = true ↔ ∃ a, r = Ok a.
Proof. destruct r; naive_solver. Qed.

(** ** Stateful code

    A Go function with side effects is a state transformer whose outcome
    is a value, an error, or a run-time panic (nil dereference, index out
    of range); the state reached is kept in every case, since Go does not
    roll back. *)

Inductive outcome (A : Type) :=
  | Return (a : A)
  | Throw (e : error)
  | Panic.
Arguments Return {_} _.
Arguments Throw {_} _.
Arguments Panic {_}.

Definition M (S A : Type) : Type := S → outcome A * S.

#[export] Instance M_ret {S} : MRet (M S) := λ A a s, (Return a, s).
#[export] Instance M_bind {S} : MBind (M S) :=
  λ A B f m s,
    match m s with
    | (Return a, s') => f a s'
    | (Throw e, s') => (Throw e, s')
    | (Panic, s') => (Panic, s')
    end.

Definition throw {S A} (e : error) : M S A := λ s, (Throw e, s).
Definition panic {S A} : M S A := λ s, (Panic, s).
Definition gets {S A} (f : S → A) : M S A := λ s, (Return (f s), s).
Definition modify {S} (f : S → S) : M S unit := λ s, (Return tt, f s).
Definition of_result {S A} (r : result A) : M S A :=
  λ s, (match r with Ok a => Return a | Err e => Throw e end, s).

(** [*p]: a nil pointer is a run-time panic. *)
Definition deref {S A} (p : option A) : M S A :=
  match p with Some a => mret a | None => panic end.

(** [v, err := m()]: the error becomes a value the caller inspects. *)
Definition try {S A} (m : M S A) : M S (result A) :=
  λ s, match m s with
       | (Return a, s') => (Return (Ok a), s')
       | (Throw e, s') => (Return (Err e), s')
       | (Panic, s') => (Panic, s')
       end.

(** [if err := m(); err != nil { return wrap(err) }]. *)
Definition map_err {S A} (f : error → error) (m : M S A) : M S A :=
  λ s, match m s with
       | (Throw e, s') => (Throw (f e), s')
       | o => o
       end.

Definition when {S} (b : bool) (m : M S unit) : M S unit :=
  if b then m else mret tt.

(** [for _, x := range l { if err := f(x); err != nil { return err } }]. *)
Fixpoint for_each {S A} (f : A → M S unit) (l : list A) : M S unit :=
  match l with
  | [] => mret tt
  | x :: l => f x ≫= λ _, for_each f l
  end.

Lemma bind_Return {S A B} (m : M S A) (f : A → M S B) s b s'' :
  (m ≫= f) s = (Return b, s'') ↔
  ∃ a s', m s = (Return a, s') ∧ f a s' = (Return b, s'').
Proof.
  unfold mbind, M_bind. destruct (m s) as [[a|e|] s']; naive_solver.
Qed.

Lemma bind_Throw {S A B} (m : M S A) (f : A → M S B) s e s'' :
  (m ≫= f) s = (Throw e, s'') ↔
  m s = (Throw e, s'') ∨
  ∃ a s', m s = (Return a, s') ∧ f a s' = (Throw e, s'').
Proof.
  unfold mbind, M_bind. destruct (m s) as [[a|e'|] s']; naive_solver.
Qed.

Lemma map_err_Return {S A} f (m : M S A) s a s' :
  map_err f m s = (Return a, s') ↔ m s = (Return a, s').
Proof. unfold map_err. destruct (m s) as [[b|e|] s1]; naive_solver. Qed.

(** A Go [error] result as an option: [None] is nil. *)
Definition of_option {S} (o : option error) : M S unit :=
  match o with None => mret tt | Some e => throw e end.
Definition err_of {A} (r : result A) : option error :=
  match r with Ok _ => None | Err e => Some e end.

(** ** Automation *)

(** [inv_m] takes apart a hypothesis that a monadic program returned. *)
Ltac inv_m :=
  repeat match goal with
  | H : (_ ≫= _) _ = (Return _, _) |- _ =>
      apply bind_Return in H; destruct H as (? & ? & ? & ?)
  | H : mret _ _ = (_, _) |- _ => cbv [mret M_ret] in H
  | H : mret _ = Ok _ |- _ => cbv [mret result_ret] in H
  | H : throw _ _ = (_, _) |- _ => cbv [throw] in H
  | H : (_ ≫= _) = Ok _ |- _ =>
      apply result_bind_Ok in H; destruct H as (? & ? & ?)
  | H : (Return _, _) = (Return _, _) |- _ => injection H as ?; subst
  | H : Ok _ = Ok _ |- _ => injection H as ?; subst
  | H : (Throw _, _) = (Return _, _) |- _ => discriminate H
  | H : (Panic, _) = (Return _, _) |- _ => discriminate H
  | H : Err _ = Ok _ |- _ => discriminate H
  | H : Ok _ = Err _ |- _ => discriminate H
  end.

(** [split_ifs] cases on the boolean tests of the goal. *)
Ltac split_ifs :=
  repeat match goal with
  | |- context [if ?b then _ else _] =>
      lazymatch type of b with bool => destruct b eqn:? end
  end.

Create HintDb nodeadm discriminated.
Create Rewrite HintDb nodeadm_rw.

(** ** Lists *)

Lemma Forall_elem {A} (P : A → Prop) l : Forall P l ↔ ∀ x, x ∈ l → P x.
Proof.
  induction l as [|y l IH]; [by split; [set_solver|]|].
  rewrite Forall_cons_iff, IH. setoid_rewrite elem_of_cons. naive_solver.
Qed.

Lemma existsb_filter_nil {A} (f : A → bool) l :
  existsb f l = false ↔ Forall (λ x, f x = false) l.
Proof.
  induction l as [|x l IH]; cbn; [naive_solver|].
  rewrite Forall_cons_iff, <- IH. destruct (f x), (existsb f l); naive_solver.
Qed.

(** The elements of [l] for which [f] is true, as Go's filter loops
    ([for .. { if cond { out = append(out, x) } }]) build them. *)
Fixpoint keep {A} (f : A → bool) (l : list A) : list A :=
  match l with
  | [] => []
  | x :: l => if f x then x :: keep f l else keep f l
  end.

Lemma elem_of_keep {A} (f : A → bool) l x :
  x ∈ keep f l ↔ x ∈ l ∧ f x = true.
Proof.
  induction l as [|y l IH]; cbn; [set_solver|].
  destruct (f y) eqn:E; rewrite ?elem_of_cons, IH; naive_solver congruence.
Qed.

Lemma keep_app {A} (f : A → bool) l k : keep f (l ++ k) = keep f l ++ keep f k.
Proof. induction l as [|x l IH]; cbn; [done|]. destruct (f x); cbn; congruence. Qed.

Lemma keep_all {A} (f : A → bool) l :
  Forall (λ x, f x = true) l → keep f l = l.
Proof. induction 1 as [|x l E _ IH]; cbn; [done|]. by rewrite E, IH. Qed.

Lemma keep_nil_iff {A} (f : A → bool) l :
  keep f l = [] ↔ Forall (λ x, f x = false) l.
Proof.
  induction l as [|x l IH]; cbn; [done|].
  rewrite Forall_cons_iff, <- IH. destruct (f x); naive_solver.
Qed.

Lemma keep_idemp {A} (f : A → bool) l : keep f (keep f l) = keep f l.
Proof.
  induction l as [|x l IH]; cbn; [done|].
  destruct (f x) eqn:E; cbn; rewrite ?E; congruence.
Qed.

Lemma keep_sublist {A} (f : A → bool) l : keep f l `sublist_of` l.
Proof. induction l as [|x l IH]; cbn; [done|]. destruct (f x); by constructor. Qed.

#[export] Hint Resolve keep_sublist : nodeadm.
#[export] Hint Rewrite @keep_app @keep_idemp : nodeadm_rw.

(** [slices.Contains] on strings. *)
Definition slices_Contains (l : list string) (x : string) : bool :=
  existsb (String.eqb x) l.

Lemma slices_Contains_spec l x : slices_Contains l x = true ↔ x ∈ l.
Proof.
  unfold slices_Contains. rewrite existsb_exists.
  setoid_rewrite String.eqb_eq. setoid_rewrite <- list_elem_of_In. naive_solver.
Qed.

Lemma slices_Contains_false l x : slices_Contains l x = false ↔ x ∉ l.
Proof. rewrite <- slices_Contains_spec. destruct (slices_Contains l x); naive_solver. Qed.

(** The order in which Go ranges over a map, any permutation of it. *)
Class MapOrder := {
  map_order {A} : gmap string A → list (string * A);
  map_order_perm {A} (m : gmap string A) : map_order m ≡ₚ map_to_list m;
}.
#[refine] Example plain_order : MapOrder := {| map_order _ m := map_to_list m |}.
Proof. reflexivity. Defined.
