(* ===== verification/Memory.v ===== *)
(** * The memory behind Go's pointers, slices and maps

    The rest of the library reads an API object as a value.  The generated
    code of the API is about the objects themselves: which memory a deep copy
    shares with its original (none) and a conversion with its argument (all
    of it).  This file has the memory, what it means for an object in it to
    denote a value, and rules for programs that only allocate. *)

From S2P Require Import Prelude.

Definition loc := positive.

(** ** Types of apimachinery

    [runtime.RawExtension] and the metadata of an object are outside types.
    Each is given with the values it denotes; [outside_cell] is whatever
    else they keep in memory. *)
Class MetaTypes := {
  RawExtension : Type;
  RawValue : Type;
  ObjectMeta : Type;
  zero_ObjectMeta : ObjectMeta;
  ObjectValue : Type;
  ListMeta : Type;
  ListValue : Type;
  outside_cell : Type;
}.

(** [metav1.TypeMeta], two strings. *)
Record TypeMeta := { Kind : string; APIVersion : string }.

(** A typed pointer, slice or map: its address, nil being [None].  Slices
    are those of whole arrays, as decoders and [make] give them. *)
#[projections(primitive)] Record ref (A : Type) := Ref { addr : option loc }.
Arguments Ref {A} addr.
Arguments addr {A} r.

Section Memory.
Context `{MetaTypes}.

(** The struct types are written once for both readings: as they are stored,
    with pointers into memory, and as the values they denote, with options. *)
Record view := {
  ptr : Type → Type;
  raw : Type;
  meta : Type;
  list_meta : Type;
}.
Definition stored : view :=
  {| ptr := ref; raw := RawExtension; meta := ObjectMeta; list_meta := ListMeta |}.
Definition value : view :=
  {| ptr := option; raw := RawValue; meta := ObjectValue; list_meta := ListValue |}.

(** A conversion between pointer types through [unsafe.Pointer]. *)
Definition unsafe_Pointer {A B} (p : ptr stored A) : ptr stored B := Ref (addr p).

Definition nilp {A} : ptr stored A := Ref None.
Definition at_ {A} (l : loc) : ptr stored A := Ref (Some l).

(** What one variable or array holds.  A struct is the words of its fields in
    order, embedded structs in place: the layout that makes a conversion by
    [unsafe.Pointer] meaningful. *)
Inductive word :=
  | w_string (s : string)
  | w_bool (b : bool)
  | w_ref (p : option loc)
  | w_ObjectMeta (o : ObjectMeta)
  | w_ListMeta (o : ListMeta).
Inductive cell :=
  | c_struct (ws : list word)
  | c_structs (wss : list (list word))
  | c_bytes (b : string)
  | c_strings (l : list string)
  | c_map (m : gmap string RawExtension)
  | c_outside (x : outside_cell).
Abbreviation mem := (gmap loc cell).

(** *** Layouts *)

Class Layout (A : Type) := {
  encode : A → list word;
  parse : list word → option (A * list word);
  parse_encode a ws : parse (encode a ++ ws) = Some (a, ws);
}.
#[export, refine] Instance string_layout : Layout string := {|
  encode s := [w_string s];
  parse ws := match ws with w_string s :: ws => Some (s, ws) | _ => None end |}.
Proof. done. Defined.
#[export, refine] Instance bool_layout : Layout bool := {|
  encode b := [w_bool b];
  parse ws := match ws with w_bool b :: ws => Some (b, ws) | _ => None end |}.
Proof. done. Defined.
#[export, refine] Instance ref_layout {A} : Layout (ref A) := {|
  encode p := [w_ref (addr p)];
  parse ws := match ws with w_ref p :: ws => Some (Ref p, ws) | _ => None end |}.
Proof. intros p ws. by destruct p. Defined.
#[export, refine] Instance ObjectMeta_layout : Layout ObjectMeta := {|
  encode o := [w_ObjectMeta o];
  parse ws := match ws with w_ObjectMeta o :: ws => Some (o, ws) | _ => None end |}.
Proof. done. Defined.
#[export, refine] Instance ListMeta_layout : Layout ListMeta := {|
  encode o := [w_ListMeta o];
  parse ws := match ws with w_ListMeta o :: ws => Some (o, ws) | _ => None end |}.
Proof. done. Defined.
#[export, refine] Instance TypeMeta_layout : Layout TypeMeta := {|
  encode t := encode (Kind t) ++ encode (APIVersion t);
  parse ws := '(k, ws) ← parse ws; '(a, ws) ← parse ws;
    Some ({| Kind := k; APIVersion := a |}, ws) |}.
Proof. intros t ws. by destruct t. Defined.

(** What a pointer to an [A] points to. *)
Class Cell (A : Type) := {
  to_cell : A → cell;
  of_cell : cell → option A;
  of_to_cell a : of_cell (to_cell a) = Some a;
}.
#[export] Instance to_cell_inj `{Cell A} : Inj (=) (=) (to_cell (A := A)).
Proof. intros x y Hxy. apply (f_equal of_cell) in Hxy. rewrite !of_to_cell in Hxy. congruence. Qed.

Definition parse_all `{Layout A} (ws : list word) : option A :=
  match parse ws with Some (a, []) => Some a | _ => None end.
Lemma parse_all_encode `{Layout A} (a : A) : parse_all (encode a) = Some a.
Proof. unfold parse_all. by rewrite <- (app_nil_r (encode a)), parse_encode. Qed.

(** A variable of a struct type, an array of structs, of bytes, of strings,
    and a map. *)
#[export, refine] Instance struct_cell `{Layout A} : Cell A | 10 := {|
  to_cell a := c_struct (encode a);
  of_cell c := match c with c_struct ws => parse_all ws | _ => None end |}.
Proof. intros. apply parse_all_encode. Defined.
#[export, refine] Instance structs_cell `{Layout A} : Cell (list A) | 10 := {|
  to_cell l := c_structs (encode <$> l);
  of_cell c := match c with c_structs wss => mapM parse_all wss | _ => None end |}.
Proof.
  intros l. apply mapM_Some. induction l; constructor; [apply parse_all_encode|done].
Defined.
#[export, refine] Instance bytes_cell : Cell string | 0 := {|
  to_cell b := c_bytes b;
  of_cell c := match c with c_bytes b => Some b | _ => None end |}.
Proof. done. Defined.
#[export, refine] Instance strings_cell : Cell (list string) | 0 := {|
  to_cell l := c_strings l;
  of_cell c := match c with c_strings l => Some l | _ => None end |}.
Proof. done. Defined.
#[export, refine] Instance map_cell : Cell (gmap string RawExtension) := {|
  to_cell m := c_map m;
  of_cell c := match c with c_map m => Some m | _ => None end |}.
Proof. done. Defined.

(** *** What an object denotes

    [denotes m a v]: in memory [m] the object [a], followed through its
    pointers, is the value [v].  More memory makes no difference, and an
    object denotes one value. *)
Class Denotes (A V : Type) := {
  denotes : mem → A → V → Prop;
  denotes_mono m m' a v : m ⊆ m' → denotes m a v → denotes m' a v;
  denotes_fun m a v v' : denotes m a v → denotes m a v' → v = v';
}.

(** Data without pointers denote themselves. *)
Definition flat_denotes (A : Type) : Denotes A A.
Proof. by refine {| denotes _ a v := a = v |}; [|intros; congruence]. Defined.
#[export] Instance string_denotes : Denotes string string := flat_denotes string.
#[export] Instance bool_denotes : Denotes bool bool := flat_denotes bool.
#[export] Instance strings_denotes : Denotes (list string) (list string) | 0 :=
  flat_denotes (list string).
#[export] Instance TypeMeta_denotes : Denotes TypeMeta TypeMeta := flat_denotes TypeMeta.

#[export, refine] Instance ref_denotes `{Cell A, Denotes A V} : Denotes (ref A) (option V) := {|
  denotes m p v :=
    match addr p, v with
    | None, None => True
    | Some l, Some v => ∃ a, m !! l = Some (to_cell a) ∧ denotes m a v
    | _, _ => False
    end |}.
Proof.
  - intros m m' [[l|]] [v|] Hm; [|done..]. intros (a & Hl & Ha).
    exists a. split; [by eapply lookup_weaken|by eapply denotes_mono].
  - intros m [[l|]] [v|] [v'|]; cbn; [|done..]. intros (a & Hl & Ha) (a' & Hl' & Ha').
    rewrite Hl in Hl'. injection Hl' as <-%to_cell_inj. f_equal. by eapply denotes_fun.
Defined.

#[export, refine] Instance list_denotes `{Denotes A V} : Denotes (list A) (list V) | 10 := {|
  denotes m := Forall2 (denotes m) |}.
Proof.
  - intros m m' l k Hm HF. eapply Forall2_impl; [exact HF|]. intros. by eapply denotes_mono.
  - intros m l k k' H1. revert k'. induction H1; inversion 1; subst; f_equal; [by eapply denotes_fun|auto].
Defined.

#[export, refine] Instance map_denotes `{Denotes A V} : Denotes (gmap string A) (gmap string V) := {|
  denotes m d v := ∀ k, option_Forall2 (denotes m) (d !! k) (v !! k) |}.
Proof.
  - intros m m' d v Hm Hd k. destruct (Hd k); constructor. by eapply denotes_mono.
  - intros m d v v' H1 H2. apply map_eq. intros k. specialize (H1 k). specialize (H2 k).
    inversion H1 as [x y Hxy Hx Hy|Hx Hy]; inversion H2 as [x' y' Hxy' Hx' Hy'|Hx' Hy']; try congruence.
    f_equal. assert (x' = x) as -> by congruence. by eapply denotes_fun.
Defined.

Lemma map_denotes_singleton `{Denotes A V} m k a (v : V) :
  denotes m a v → denotes m ({[k := a]} : gmap string A) ({[k := v]} : gmap string V).
Proof.
  intros Ha k'. destruct (decide (k' = k)) as [->|Hk].
  - rewrite !lookup_singleton_eq. by constructor.
  - rewrite !lookup_singleton_ne by done. constructor.
Qed.

(** ** Programs that allocate

    [allocates p m Q]: from [m] the program returns, leaves what was there as
    it was, and [Q] holds of the memory it added, alone, and its result. *)
Definition allocates {B} (p : M mem B) (m : mem) (Q : mem → B → Prop) : Prop :=
  ∃ b m', p m = (Return b, m ∪ m') ∧ m ##ₘ m' ∧ Q m' b.

Lemma allocates_ret {B} (b : B) m (Q : mem → B → Prop) : Q ∅ b → allocates (mret b) m Q.
Proof.
  intros HQ. exists b, ∅. rewrite (right_id_L ∅ (∪)). split; [done|]. split; [apply map_disjoint_empty_r|done].
Qed.
Lemma allocates_bind {B C} (p : M mem B) (k : B → M mem C) m P Q :
  allocates p m P →
  (∀ b m', P m' b → m ##ₘ m' → allocates (k b) (m ∪ m') (λ m'' c, m' ##ₘ m'' → Q (m' ∪ m'') c)) →
  allocates (p ≫= k) m Q.
Proof.
  intros (b & m1 & Hp & Hd & HP) Hk. destruct (Hk b m1 HP Hd) as (c & m2 & Hkb & Hd2 & HQ).
  apply map_disjoint_union_l in Hd2 as [Hd2 Hd2']. exists c, (m1 ∪ m2).
  unfold mbind, M_bind. rewrite Hp, Hkb, map_union_assoc. split; [done|].
  split; [by apply map_disjoint_union_r_2|by apply HQ].
Qed.
Lemma allocates_impl {B} (p : M mem B) m (P Q : mem → B → Prop) :
  allocates p m P → (∀ m' b, P m' b → Q m' b) → allocates p m Q.
Proof. intros (b & m' & ? & ? & ?) HQ. exists b, m'. auto. Qed.

(** [new] and [make], with what is then stored there. *)
Definition alloc (c : cell) : M mem loc :=
  λ m, let l := fresh (dom m) in (Return l, <[l := c]> m).
Lemma allocates_alloc c m : allocates (alloc c) m (λ m' l, m' = {[l := c]}).
Proof.
  assert (m !! fresh (dom m) = None) as Hf by (apply not_elem_of_dom, is_fresh).
  exists (fresh (dom m)), {[fresh (dom m) := c]}. split; [|split; [|done]].
  - unfold alloc. f_equal. rewrite insert_union_singleton_r; done.
  - by apply map_disjoint_singleton_r.
Qed.
(** Reading through a pointer that is not nil. *)
Definition load `{Cell A} (l : loc) : M mem A :=
  λ m, match m !! l ≫= of_cell with Some a => (Return a, m) | None => (Panic, m) end.
Lemma load_spec `{Cell A} l a m : m !! l = Some (to_cell a) → load l m = (Return a, m).
Proof. intros Hl. unfold load. rewrite Hl. cbn. by rewrite of_to_cell. Qed.
(** Steps that only read. *)
Lemma allocates_read {B C} (p : M mem B) (k : B → M mem C) m b Q :
  p m = (Return b, m) → allocates (k b) m Q → allocates (p ≫= k) m Q.
Proof. unfold allocates, mbind, M_bind. by intros ->. Qed.

(** *** Deep copies

    A program that copies an object: the copy denotes the same value in the
    memory the program added, without the rest. *)
Class Copies `{D : Denotes A V} (f : A → M mem A) : Prop :=
  copies m a v : denotes m a v → allocates (f a) m (λ m' a', denotes m' a' v).

#[export] Instance flat_copies A : Copies (D := flat_denotes A) (λ a : A, mret a).
Proof. intros m a v Ha. by apply allocates_ret. Qed.

(** The generated [DeepCopy] of a type, and the copy of a field that is a
    pointer, a slice or a map: nil for nil, otherwise a new variable that
    [f], the [DeepCopyInto] of what it holds, fills. *)
Definition copy_ref `{Cell A} (f : A → M mem A) (p : ref A) : M mem (ref A) :=
  match addr p with
  | None => mret (Ref None)
  | Some l => a ← load l; a' ← f a; l' ← alloc (to_cell a'); mret (Ref (Some l'))
  end.
#[export] Instance copy_ref_copies `{Cell A, Denotes A V} f :
  Copies f → Copies (copy_ref (A := A) f).
Proof.
  intros Hf m [[l|]] [v|]; cbn; try done; [|intros _; by apply allocates_ret].
  intros (a & Hl & Ha). unfold copy_ref; cbn [addr].
  eapply allocates_read; [by apply load_spec|].
  eapply allocates_bind; [by apply copies|]. intros a' m1 Ha' Hd.
  eapply allocates_bind; [apply allocates_alloc|]. intros l' m2 -> Hd2. apply allocates_ret.
  intros _ Hd1. rewrite (right_id_L ∅ (∪)) in *. exists a'. split.
  - apply lookup_union_Some_r; [done|]. apply lookup_singleton_eq.
  - eapply denotes_mono; [apply map_union_subseteq_l|exact Ha'].
Qed.

(** Takes apart a program that copies field after field. *)
Lemma copies_bind `{Denotes A V} {B} (f : A → M mem A) `{!Copies f} (k : A → M mem B) m a v Q :
  denotes m a v →
  (∀ a' m', denotes m' a' v → allocates (k a') (m ∪ m') (λ m'' b, m' ##ₘ m'' → Q (m' ∪ m'') b)) →
  allocates (f a ≫= k) m Q.
Proof. intros Ha Hk. eapply allocates_bind; [by apply copies|]. intros. by apply Hk. Qed.

(** [for i := range in { in[i].DeepCopyInto(&out[i]) }]. *)
Fixpoint copy_list {A} (f : A → M mem A) (l : list A) : M mem (list A) :=
  match l with
  | [] => mret []
  | a :: l => a' ← f a; l' ← copy_list f l; mret (a' :: l')
  end.
#[export] Instance copy_list_copies `{Denotes A V} f :
  Copies (V := V) f → Copies (V := list V) (copy_list (A := A) f).
Proof.
  intros Hf m l v Hl. revert m Hl. induction l as [|a l IH] in v |- *; intros m Hl; inversion Hl; subst; cbn.
  { by apply allocates_ret. }
  eapply copies_bind; [done|done|]. intros a' m1 Ha'.
  eapply allocates_bind; [apply IH; eapply Forall2_impl; [done|]|].
  { intros. eapply denotes_mono; [apply map_union_subseteq_l|done]. }
  intros k m2 Hk _. apply allocates_ret. intros _ Hd. rewrite (right_id_L ∅ (∪)) in *. constructor.
  - eapply denotes_mono; [apply map_union_subseteq_l|done].
  - eapply Forall2_impl; [exact Hk|]. intros. eapply denotes_mono; [by apply map_union_subseteq_r|done].
Qed.

(** [for key, val := range in { out[key] = f(val) }], in Go's order. *)
Context `{MapOrder}.
Fixpoint copy_entries {A} (f : A → M mem A) (l : list (string * A)) (out : gmap string A)
    : M mem (gmap string A) :=
  match l with
  | [] => mret out
  | (key, val) :: l => val' ← f val; copy_entries f l (<[key := val']> out)
  end.
Definition copy_map {A} (f : A → M mem A) (d : gmap string A) : M mem (gmap string A) :=
  copy_entries f (map_order d) ∅.

Lemma copy_entries_spec `{Denotes A V} f `{!Copies (V := V) f} l : NoDup l.*1 → ∀ m out (v : gmap string V),
  (∀ k a, (k, a) ∈ l → ∃ x, v !! k = Some x ∧ denotes m a x) →
  allocates (copy_entries f l out) m (λ m' out',
    ∀ k, match (list_to_map l : gmap string A) !! k, v !! k with
         | Some _, Some x => ∃ a', out' !! k = Some a' ∧ denotes m' a' x
         | None, _ => out' !! k = out !! k
         | _, _ => False
         end).
Proof.
  induction l as [|[key val] l IH]; intros Hnd m out v Hl; cbn.
  { by apply allocates_ret. }
  apply NoDup_cons in Hnd as [Hk Hnd].
  destruct (Hl key val) as (x & Hx & Hval); [by left|].
  eapply copies_bind; [done|done|]. intros val' m1 Hval'.
  eapply allocates_impl; [apply (IH Hnd _ _ v)|].
  - intros k a Hin. destruct (Hl k a) as (y & Hy & Ha); [by right|]. exists y. split; [done|].
    eapply denotes_mono; [apply map_union_subseteq_l|done].
  - intros m2 out' Hout Hd k. specialize (Hout k). destruct (decide (k = key)) as [->|Hne].
    + rewrite lookup_insert_eq, Hx. rewrite not_elem_of_list_to_map_1 in Hout by done.
      rewrite lookup_insert_eq in Hout. exists val'. split; [done|].
      eapply denotes_mono; [apply map_union_subseteq_l|done].
    + rewrite lookup_insert_ne by done.
      destruct (list_to_map l !! k), (v !! k); try done.
      * destruct Hout as (a' & Ha' & Hden). exists a'. split; [done|].
        eapply denotes_mono; [by apply map_union_subseteq_r|done].
      * by rewrite Hout, lookup_insert_ne.
      * by rewrite Hout, lookup_insert_ne.
Qed.
#[export] Instance copy_map_copies `{Denotes A V} f :
  Copies (V := V) f → Copies (V := gmap string V) (copy_map (A := A) f).
Proof.
  intros Hf m d v Hd. unfold copy_map.
  assert (NoDup (map_order d).*1) as Hnd by (rewrite map_order_perm; apply NoDup_fst_map_to_list).
  eapply allocates_impl; [apply (copy_entries_spec f _ Hnd m ∅ v)|].
  - intros k a. rewrite map_order_perm, elem_of_map_to_list. intros Hk. specialize (Hd k).
    rewrite Hk in Hd. inversion Hd; subst. eauto.
  - cbn. intros m' d' Hd' k. specialize (Hd' k).
    rewrite (list_to_map_proper _ _ Hnd (map_order_perm d)), list_to_map_to_list in Hd'.
    specialize (Hd k). destruct (d !! k), (v !! k); inversion Hd; subst.
    + destruct Hd' as (a' & -> & Ha'). by constructor.
    + rewrite Hd'. constructor.
Qed.

(** *** Writing

    What happens to memory afterwards: any number of stores. *)
Definition stores (ws : list (loc * cell)) (m : mem) : mem := foldr (λ w, <[w.1 := w.2]>) m ws.

Lemma stores_other ws m l : l ∉ ws.*1 → stores ws m !! l = m !! l.
Proof.
  induction ws as [|[l' c] ws IH]; [done|]. cbn. rewrite not_elem_of_cons. intros [Hl Hws].
  rewrite lookup_insert_ne by done. by apply IH.
Qed.
Lemma stores_weaken ws m m' :
  m' ⊆ m → (∀ l, l ∈ ws.*1 → m' !! l = None) → m' ⊆ stores ws m.
Proof.
  intros Hm Hws. apply map_subseteq_spec. intros l c Hl. rewrite stores_other.
  - by eapply lookup_weaken.
  - intros Hin. apply Hws in Hin. congruence.
Qed.

(** A deep copy shares nothing with its original: it denotes the same value,
    and goes on to whatever is stored in memory that was there before the
    copy was made; what there was denotes what it did whatever is stored in
    memory that was not. *)
Definition isolated `{Denotes A V} (m m' : mem) (a' : A) (v : V) : Prop :=
  ∀ ws,
    ((∀ l, l ∈ ws.*1 → l ∈ dom m) → denotes (stores ws m') a' v) ∧
    ((∀ l, l ∈ ws.*1 → l ∉ dom m) → ∀ B W (D : Denotes B W) (b : B) (w : W),
       denotes m b w → denotes (stores ws m') b w).

Lemma copies_isolated `{Denotes A V} (f : A → M mem A) `{!Copies f} m a (v : V) :
  denotes m a v →
  ∃ a' m', f a m = (Return a', m') ∧ isolated m m' a' v.
Proof.
  intros Ha. destruct (copies m a v Ha) as (a' & m' & Hf & Hd & Ha').
  exists a', (m ∪ m'). split; [done|]. intros ws. split.
  - intros Hws. eapply denotes_mono; [|exact Ha']. apply stores_weaken; [by apply map_union_subseteq_r|].
    intros l Hl%Hws%elem_of_dom. destruct Hl as [c Hl]. by eapply map_disjoint_Some_l.
  - intros Hws B W HB b w Hb. eapply denotes_mono; [|exact Hb]. apply stores_weaken; [apply map_union_subseteq_l|].
    intros l Hl%Hws. by apply not_elem_of_dom.
Qed.

(** ** The contract of apimachinery

    What its deep copies promise. *)
Class Apimachinery := {
  #[global] RawExtension_denotes :: Denotes RawExtension RawValue;
  #[global] ObjectMeta_denotes :: Denotes ObjectMeta ObjectValue;
  #[global] ListMeta_denotes :: Denotes ListMeta ListValue;
  RawExtension_DeepCopy : RawExtension → M mem RawExtension;
  ObjectMeta_DeepCopyInto : ObjectMeta → M mem ObjectMeta;
  ListMeta_DeepCopyInto : ListMeta → M mem ListMeta;
  #[global] RawExtension_copies :: Copies RawExtension_DeepCopy;
  #[global] ObjectMeta_copies :: Copies ObjectMeta_DeepCopyInto;
  #[global] ListMeta_copies :: Copies ListMeta_DeepCopyInto;
}.
End Memory.
Abbreviation mem := (gmap loc cell).

(** A concrete apimachinery: raw JSON is its bytes, metadata are a name. *)
Module Plain.
#[export] Instance types : MetaTypes := {|
  RawExtension := ref string; RawValue := option string;
  ObjectMeta := string; zero_ObjectMeta := ""; ObjectValue := string;
  ListMeta := string; ListValue := string; outside_cell := Empty_set |}.
#[export] Instance machinery : Apimachinery := {|
  RawExtension_denotes := ref_denotes (A := string) (V := string);
  ObjectMeta_denotes := string_denotes;
  ListMeta_denotes := string_denotes;
  RawExtension_DeepCopy := copy_ref (A := string) (λ b, mret b);
  ObjectMeta_DeepCopyInto b := mret b;
  ListMeta_DeepCopyInto b := mret b;
  RawExtension_copies := _;
  ObjectMeta_copies := flat_copies string;
  ListMeta_copies := flat_copies string |}.
#[export] Existing Instance plain_order.
End Plain.

(** ** Automation for the types of the API *)

Ltac layout_tac :=
  intros x ws; rewrite <- ?(assoc_L (++));
  repeat (rewrite parse_encode; cbn [mbind option_bind]); by destruct x.
Ltac split_hyps :=
  repeat match goal with Hx : _ ∧ _ |- _ => destruct Hx end.
Ltac split_goal := repeat match goal with |- _ ∧ _ => split end.
Ltac denotes_tac :=
  first
    [ intros m m' x v Hm Hx; split_hyps; split_goal; eapply denotes_mono; eassumption
    | intros m x v v' Hx Hx'; split_hyps; destruct v, v';
      f_equal; eapply denotes_fun; eassumption ].

(** Copies the fields in turn: each copy lies in memory added after the
    copies before it. *)
Ltac in_part :=
  first
    [ eassumption
    | eapply denotes_mono; [apply map_union_subseteq_l|in_part]
    | eapply denotes_mono; [apply map_union_subseteq_r; assumption|in_part] ].
Ltac copies_tac f :=
  intros m x v Hx; unfold f; hnf in Hx; split_hyps;
  repeat (eapply copies_bind; [|in_part|]; [apply _|intros]);
  apply allocates_ret; intros; rewrite ?(right_id_L ∅ (∪)) in *;
  hnf; split_goal; in_part.
