(* ===== verification/V1alpha1.v ===== *)
(** * The versioned API types and their deep copies (api/v1alpha1)

    The types of nodeconfig_types.go as they lie in memory, which is what the
    decoder fills, with the generated zz_generated.deepcopy.go. *)

From S2P Require Import Prelude Memory.

(** ** Types *)

Record ClusterDetails (V : view) := {
  cluster_Name : string;
  cluster_Region : string;
  APIServerEndpoint : string;
  CertificateAuthority : ptr V string;
  CIDR : string;
  EnableOutpost : ptr V bool;
  cluster_ID : string;
}.

Record KubeletOptions (V : view) := {
  Config : ptr V (gmap string (raw V));
  Flags : ptr V (list string);
}.

Record ContainerdOptions := {
  containerd_Config : string;
}.

Record LocalStorageOptions := {
  Strategy : string;
}.

Record InstanceOptions := {
  LocalStorage : LocalStorageOptions;
}.

Record IAMRolesAnywhere := {
  iam_NodeName : string;
  TrustAnchorARN : string;
  ProfileARN : string;
  RoleARN : string;
  AwsConfigPath : string;
  CertificatePath : string;
  PrivateKeyPath : string;
}.

Record SSM := {
  ActivationCode : string;
  ActivationID : string;
}.

Record HybridOptions (V : view) := {
  EnableCredentialsFile : bool;
  hybrid_IAMRolesAnywhere : ptr V IAMRolesAnywhere;
  hybrid_SSM : ptr V SSM;
}.

Record NodeConfigSpec (V : view) := {
  Cluster : ClusterDetails V;
  Containerd : ContainerdOptions;
  Instance : InstanceOptions;
  Kubelet : KubeletOptions V;
  Hybrid : ptr V (HybridOptions V);
}.

Record NodeConfig (V : view) := {
  config_TypeMeta : TypeMeta;
  config_ObjectMeta : meta V;
  Spec : NodeConfigSpec V;
}.

Record NodeConfigList (V : view) := {
  list_TypeMeta : TypeMeta;
  list_ListMeta : list_meta V;
  Items : ptr V (list (NodeConfig V));
}.

Arguments cluster_Name {_}.
Arguments cluster_Region {_}.
Arguments APIServerEndpoint {_}.
Arguments CertificateAuthority {_}.
Arguments CIDR {_}.
Arguments EnableOutpost {_}.
Arguments cluster_ID {_}.
Arguments Config {_}.
Arguments Flags {_}.
Arguments EnableCredentialsFile {_}.
Arguments hybrid_IAMRolesAnywhere {_}.
Arguments hybrid_SSM {_}.
Arguments Cluster {_}.
Arguments Containerd {_}.
Arguments Instance {_}.
Arguments Kubelet {_}.
Arguments Hybrid {_}.
Arguments config_TypeMeta {_}.
Arguments config_ObjectMeta {_}.
Arguments Spec {_}.
Arguments list_TypeMeta {_}.
Arguments list_ListMeta {_}.
Arguments Items {_}.

Section Layouts.
Context `{MetaTypes}.

(** *** Layouts, field after field *)

#[export, refine] Instance ClusterDetails_layout : Layout (ClusterDetails stored) := {|
  encode x := encode (cluster_Name x) ++ encode (cluster_Region x) ++
              encode (APIServerEndpoint x) ++ encode (CertificateAuthority x) ++
              encode (CIDR x) ++ encode (EnableOutpost x) ++ encode (cluster_ID x);
  parse ws := '(name, ws) ← parse ws; '(region, ws) ← parse ws; '(endpoint, ws) ← parse ws;
    '(ca, ws) ← parse ws; '(cidr, ws) ← parse ws; '(outpost, ws) ← parse ws;
    '(id, ws) ← parse ws;
    Some ({| cluster_Name := name; cluster_Region := region; APIServerEndpoint := endpoint;
             CertificateAuthority := ca; CIDR := cidr; EnableOutpost := outpost;
             cluster_ID := id |}, ws) |}.
Proof. layout_tac. Defined.

#[export, refine] Instance KubeletOptions_layout : Layout (KubeletOptions stored) := {|
  encode x := encode (Config x) ++ encode (Flags x);
  parse ws := '(config, ws) ← parse ws; '(flags, ws) ← parse ws;
    Some ({| Config := config; Flags := flags |}, ws) |}.
Proof. layout_tac. Defined.

#[export, refine] Instance ContainerdOptions_layout : Layout ContainerdOptions := {|
  encode x := encode (containerd_Config x);
  parse ws := '(config, ws) ← parse ws;
    Some ({| containerd_Config := config |}, ws) |}.
Proof. layout_tac. Defined.

#[export, refine] Instance LocalStorageOptions_layout : Layout LocalStorageOptions := {|
  encode x := encode (Strategy x);
  parse ws := '(strategy, ws) ← parse ws;
    Some ({| Strategy := strategy |}, ws) |}.
Proof. layout_tac. Defined.

#[export, refine] Instance InstanceOptions_layout : Layout InstanceOptions := {|
  encode x := encode (LocalStorage x);
  parse ws := '(localStorage, ws) ← parse ws;
    Some ({| LocalStorage := localStorage |}, ws) |}.
Proof. layout_tac. Defined.

#[export, refine] Instance IAMRolesAnywhere_layout : Layout IAMRolesAnywhere := {|
  encode x := encode (iam_NodeName x) ++ encode (TrustAnchorARN x) ++
              encode (ProfileARN x) ++ encode (RoleARN x) ++ encode (AwsConfigPath x) ++
              encode (CertificatePath x) ++ encode (PrivateKeyPath x);
  parse ws := '(nodeName, ws) ← parse ws; '(anchor, ws) ← parse ws; '(profile, ws) ← parse ws;
    '(role, ws) ← parse ws; '(aws, ws) ← parse ws; '(cert, ws) ← parse ws;
    '(key, ws) ← parse ws;
    Some ({| iam_NodeName := nodeName; TrustAnchorARN := anchor; ProfileARN := profile;
             RoleARN := role; AwsConfigPath := aws; CertificatePath := cert;
             PrivateKeyPath := key |}, ws) |}.
Proof. layout_tac. Defined.

#[export, refine] Instance SSM_layout : Layout SSM := {|
  encode x := encode (ActivationCode x) ++ encode (ActivationID x);
  parse ws := '(activationCode, ws) ← parse ws; '(activationID, ws) ← parse ws;
    Some ({| ActivationCode := activationCode; ActivationID := activationID |}, ws) |}.
Proof. layout_tac. Defined.

#[export, refine] Instance HybridOptions_layout : Layout (HybridOptions stored) := {|
  encode x := encode (EnableCredentialsFile x) ++ encode (hybrid_IAMRolesAnywhere x) ++
              encode (hybrid_SSM x);
  parse ws := '(file, ws) ← parse ws; '(iam, ws) ← parse ws; '(ssm, ws) ← parse ws;
    Some ({| EnableCredentialsFile := file; hybrid_IAMRolesAnywhere := iam;
             hybrid_SSM := ssm |}, ws) |}.
Proof. layout_tac. Defined.

#[export, refine] Instance NodeConfigSpec_layout : Layout (NodeConfigSpec stored) := {|
  encode x := encode (Cluster x) ++ encode (Containerd x) ++ encode (Instance x) ++
              encode (Kubelet x) ++ encode (Hybrid x);
  parse ws := '(cluster, ws) ← parse ws; '(containerd, ws) ← parse ws; '(instance, ws) ← parse ws;
    '(kubelet, ws) ← parse ws; '(hybrid, ws) ← parse ws;
    Some ({| Cluster := cluster; Containerd := containerd; Instance := instance;
             Kubelet := kubelet; Hybrid := hybrid |}, ws) |}.
Proof. layout_tac. Defined.

#[export, refine] Instance NodeConfig_layout : Layout (NodeConfig stored) := {|
  encode x := encode (config_TypeMeta x) ++ encode (config_ObjectMeta x) ++ encode (Spec x);
  parse ws := '(tm, ws) ← parse ws; '(om, ws) ← parse ws; '(spec, ws) ← parse ws;
    Some ({| config_TypeMeta := tm; config_ObjectMeta := om; Spec := spec |}, ws) |}.
Proof. layout_tac. Defined.

#[export, refine] Instance NodeConfigList_layout : Layout (NodeConfigList stored) := {|
  encode x := encode (list_TypeMeta x) ++ encode (list_ListMeta x) ++ encode (Items x);
  parse ws := '(tm, ws) ← parse ws; '(lm, ws) ← parse ws; '(items, ws) ← parse ws;
    Some ({| list_TypeMeta := tm; list_ListMeta := lm; Items := items |}, ws) |}.
Proof. layout_tac. Defined.

(** *** What they denote *)

#[export] Instance ContainerdOptions_denotes : Denotes ContainerdOptions ContainerdOptions := flat_denotes ContainerdOptions.
#[export] Instance LocalStorageOptions_denotes : Denotes LocalStorageOptions LocalStorageOptions := flat_denotes LocalStorageOptions.
#[export] Instance InstanceOptions_denotes : Denotes InstanceOptions InstanceOptions := flat_denotes InstanceOptions.
#[export] Instance IAMRolesAnywhere_denotes : Denotes IAMRolesAnywhere IAMRolesAnywhere := flat_denotes IAMRolesAnywhere.
#[export] Instance SSM_denotes : Denotes SSM SSM := flat_denotes SSM.
End Layouts.

Section Denotations.
Context `{Apimachinery}.

#[export, refine] Instance ClusterDetails_denotes : Denotes (ClusterDetails stored) (ClusterDetails value) := {|
  denotes m x v :=
    denotes m (cluster_Name x) (cluster_Name v) ∧
    denotes m (cluster_Region x) (cluster_Region v) ∧
    denotes m (APIServerEndpoint x) (APIServerEndpoint v) ∧
    denotes m (CertificateAuthority x) (CertificateAuthority v) ∧
    denotes m (CIDR x) (CIDR v) ∧
    denotes m (EnableOutpost x) (EnableOutpost v) ∧
    denotes m (cluster_ID x) (cluster_ID v) |}.
Proof. all: denotes_tac. Defined.

#[export, refine] Instance KubeletOptions_denotes : Denotes (KubeletOptions stored) (KubeletOptions value) := {|
  denotes m x v :=
    denotes m (Config x) (Config v) ∧
    denotes m (Flags x) (Flags v) |}.
Proof. all: denotes_tac. Defined.

#[export, refine] Instance HybridOptions_denotes : Denotes (HybridOptions stored) (HybridOptions value) := {|
  denotes m x v :=
    denotes m (EnableCredentialsFile x) (EnableCredentialsFile v) ∧
    denotes m (hybrid_IAMRolesAnywhere x) (hybrid_IAMRolesAnywhere v) ∧
    denotes m (hybrid_SSM x) (hybrid_SSM v) |}.
Proof. all: denotes_tac. Defined.

#[export, refine] Instance NodeConfigSpec_denotes : Denotes (NodeConfigSpec stored) (NodeConfigSpec value) := {|
  denotes m x v :=
    denotes m (Cluster x) (Cluster v) ∧
    denotes m (Containerd x) (Containerd v) ∧
    denotes m (Instance x) (Instance v) ∧
    denotes m (Kubelet x) (Kubelet v) ∧
    denotes m (Hybrid x) (Hybrid v) |}.
Proof. all: denotes_tac. Defined.

#[export, refine] Instance NodeConfig_denotes : Denotes (NodeConfig stored) (NodeConfig value) := {|
  denotes m x v :=
    denotes m (config_TypeMeta x) (config_TypeMeta v) ∧
    denotes m (config_ObjectMeta x) (config_ObjectMeta v) ∧
    denotes m (Spec x) (Spec v) |}.
Proof. all: denotes_tac. Defined.

#[export, refine] Instance NodeConfigList_denotes : Denotes (NodeConfigList stored) (NodeConfigList value) := {|
  denotes m x v :=
    denotes m (list_TypeMeta x) (list_TypeMeta v) ∧
    denotes m (list_ListMeta x) (list_ListMeta v) ∧
    denotes m (Items x) (Items v) |}.
Proof. all: denotes_tac. Defined.

End Denotations.

(** ** Deep copies

    [DeepCopyInto] writes the whole of its target, so it is a function to
    what the target then holds; [DeepCopy] is [copy_ref] of it. *)

Section DeepCopy.
Context `{Apimachinery} `{MapOrder}.

Definition ClusterDetails_DeepCopyInto (in_ : ClusterDetails stored) : M mem (ClusterDetails stored) :=
  out_CertificateAuthority ← copy_ref (λ b, mret b) (CertificateAuthority in_);
  out_EnableOutpost ← copy_ref (λ b, mret b) (EnableOutpost in_);
  mret {| cluster_Name := cluster_Name in_; cluster_Region := cluster_Region in_;
          APIServerEndpoint := APIServerEndpoint in_;
          CertificateAuthority := out_CertificateAuthority; CIDR := CIDR in_;
          EnableOutpost := out_EnableOutpost; cluster_ID := cluster_ID in_ |}.
Definition ClusterDetails_DeepCopy : ref (ClusterDetails stored) → M mem (ref (ClusterDetails stored)) :=
  copy_ref ClusterDetails_DeepCopyInto.
#[export] Instance ClusterDetails_copies : Copies ClusterDetails_DeepCopyInto.
Proof. copies_tac ClusterDetails_DeepCopyInto. Qed.

Definition ContainerdOptions_DeepCopyInto (in_ : ContainerdOptions) : M mem ContainerdOptions :=
  mret in_.
Definition ContainerdOptions_DeepCopy : ref ContainerdOptions → M mem (ref ContainerdOptions) :=
  copy_ref ContainerdOptions_DeepCopyInto.
#[export] Instance ContainerdOptions_copies : Copies ContainerdOptions_DeepCopyInto.
Proof. copies_tac ContainerdOptions_DeepCopyInto. Qed.

Definition IAMRolesAnywhere_DeepCopyInto (in_ : IAMRolesAnywhere) : M mem IAMRolesAnywhere :=
  mret in_.
Definition IAMRolesAnywhere_DeepCopy : ref IAMRolesAnywhere → M mem (ref IAMRolesAnywhere) :=
  copy_ref IAMRolesAnywhere_DeepCopyInto.
#[export] Instance IAMRolesAnywhere_copies : Copies IAMRolesAnywhere_DeepCopyInto.
Proof. copies_tac IAMRolesAnywhere_DeepCopyInto. Qed.

Definition SSM_DeepCopyInto (in_ : SSM) : M mem SSM :=
  mret in_.
Definition SSM_DeepCopy : ref SSM → M mem (ref SSM) :=
  copy_ref SSM_DeepCopyInto.
#[export] Instance SSM_copies : Copies SSM_DeepCopyInto.
Proof. copies_tac SSM_DeepCopyInto. Qed.

Definition HybridOptions_DeepCopyInto (in_ : HybridOptions stored) : M mem (HybridOptions stored) :=
  out_hybrid_IAMRolesAnywhere ← copy_ref (λ i, mret i) (hybrid_IAMRolesAnywhere in_);
  out_hybrid_SSM ← copy_ref (λ s, mret s) (hybrid_SSM in_);
  mret {| EnableCredentialsFile := EnableCredentialsFile in_;
          hybrid_IAMRolesAnywhere := out_hybrid_IAMRolesAnywhere;
          hybrid_SSM := out_hybrid_SSM |}.
Definition HybridOptions_DeepCopy : ref (HybridOptions stored) → M mem (ref (HybridOptions stored)) :=
  copy_ref HybridOptions_DeepCopyInto.
#[export] Instance HybridOptions_copies : Copies HybridOptions_DeepCopyInto.
Proof. copies_tac HybridOptions_DeepCopyInto. Qed.

Definition LocalStorageOptions_DeepCopyInto (in_ : LocalStorageOptions) : M mem LocalStorageOptions :=
  mret in_.
Definition LocalStorageOptions_DeepCopy : ref LocalStorageOptions → M mem (ref LocalStorageOptions) :=
  copy_ref LocalStorageOptions_DeepCopyInto.
#[export] Instance LocalStorageOptions_copies : Copies LocalStorageOptions_DeepCopyInto.
Proof. copies_tac LocalStorageOptions_DeepCopyInto. Qed.

Definition InstanceOptions_DeepCopyInto (in_ : InstanceOptions) : M mem InstanceOptions :=
  mret in_.
Definition InstanceOptions_DeepCopy : ref InstanceOptions → M mem (ref InstanceOptions) :=
  copy_ref InstanceOptions_DeepCopyInto.
#[export] Instance InstanceOptions_copies : Copies InstanceOptions_DeepCopyInto.
Proof. copies_tac InstanceOptions_DeepCopyInto. Qed.

Definition KubeletOptions_DeepCopyInto (in_ : KubeletOptions stored) : M mem (KubeletOptions stored) :=
  out_Config ← copy_ref (A := gmap string RawExtension) (copy_map RawExtension_DeepCopy) (Config in_);
  out_Flags ← copy_ref (λ l, mret l) (Flags in_);
  mret {| Config := out_Config; Flags := out_Flags |}.
Definition KubeletOptions_DeepCopy : ref (KubeletOptions stored) → M mem (ref (KubeletOptions stored)) :=
  copy_ref KubeletOptions_DeepCopyInto.
#[export] Instance KubeletOptions_copies : Copies KubeletOptions_DeepCopyInto.
Proof. copies_tac KubeletOptions_DeepCopyInto. Qed.

Definition NodeConfigSpec_DeepCopyInto (in_ : NodeConfigSpec stored) : M mem (NodeConfigSpec stored) :=
  out_Cluster ← ClusterDetails_DeepCopyInto (Cluster in_);
  out_Kubelet ← KubeletOptions_DeepCopyInto (Kubelet in_);
  out_Hybrid ← copy_ref HybridOptions_DeepCopyInto (Hybrid in_);
  mret {| Cluster := out_Cluster; Containerd := Containerd in_; Instance := Instance in_;
          Kubelet := out_Kubelet; Hybrid := out_Hybrid |}.
Definition NodeConfigSpec_DeepCopy : ref (NodeConfigSpec stored) → M mem (ref (NodeConfigSpec stored)) :=
  copy_ref NodeConfigSpec_DeepCopyInto.
#[export] Instance NodeConfigSpec_copies : Copies NodeConfigSpec_DeepCopyInto.
Proof. copies_tac NodeConfigSpec_DeepCopyInto. Qed.

Definition NodeConfig_DeepCopyInto (in_ : NodeConfig stored) : M mem (NodeConfig stored) :=
  out_config_ObjectMeta ← ObjectMeta_DeepCopyInto (config_ObjectMeta in_);
  out_Spec ← NodeConfigSpec_DeepCopyInto (Spec in_);
  mret {| config_TypeMeta := config_TypeMeta in_;
          config_ObjectMeta := out_config_ObjectMeta; Spec := out_Spec |}.
Definition NodeConfig_DeepCopy : ref (NodeConfig stored) → M mem (ref (NodeConfig stored)) :=
  copy_ref NodeConfig_DeepCopyInto.
#[export] Instance NodeConfig_copies : Copies NodeConfig_DeepCopyInto.
Proof. copies_tac NodeConfig_DeepCopyInto. Qed.

Definition NodeConfigList_DeepCopyInto (in_ : NodeConfigList stored) : M mem (NodeConfigList stored) :=
  out_list_ListMeta ← ListMeta_DeepCopyInto (list_ListMeta in_);
  out_Items ← copy_ref (copy_list NodeConfig_DeepCopyInto) (Items in_);
  mret {| list_TypeMeta := list_TypeMeta in_; list_ListMeta := out_list_ListMeta;
          Items := out_Items |}.
Definition NodeConfigList_DeepCopy : ref (NodeConfigList stored) → M mem (ref (NodeConfigList stored)) :=
  copy_ref NodeConfigList_DeepCopyInto.
#[export] Instance NodeConfigList_copies : Copies NodeConfigList_DeepCopyInto.
Proof. copies_tac NodeConfigList_DeepCopyInto. Qed.

(** The copy as a [runtime.Object], nil for a nil pointer. *)
Definition NodeConfig_DeepCopyObject (in_ : ref (NodeConfig stored)) : M mem (option (ref (NodeConfig stored))) :=
  c ← NodeConfig_DeepCopy in_; mret (match addr c with Some _ => Some c | None => None end).

(** The copy as a [runtime.Object], nil for a nil pointer. *)
Definition NodeConfigList_DeepCopyObject (in_ : ref (NodeConfigList stored)) : M mem (option (ref (NodeConfigList stored))) :=
  c ← NodeConfigList_DeepCopy in_; mret (match addr c with Some _ => Some c | None => None end).

End DeepCopy.

(** ** The kind of the node *)

Section Methods.
Context `{MetaTypes}.

Definition IsHybridNode (nc : NodeConfig value) : bool :=
  if Hybrid (Spec nc) is Some _ then true else false.
Definition IsOutpostNode (nc : NodeConfig value) : bool :=
  match EnableOutpost (Cluster (Spec nc)) with Some enabled => enabled | None => false end.
End Methods.
