(* ===== verification/GoStrings.v ===== *)
(** * Go's strings and strconv packages

    The functions of Go's [strings], [strconv] and [fmt] packages that the
    modelled code calls, on byte strings.  Every separator the code passes
    to [strings.Split], [SplitN] and [Cut] is a single byte, so these take
    an [ascii].  White space is the ASCII set; Go also counts U+0085 and
    U+00A0, which none of the files and command outputs read here hold. *)


From S2P Require Import Prelude.

(** ** Concatenation *)

#[local] Arguments String.append !_ _ : simpl nomatch.

Lemma app_nil_r_str (s : string) : s +:+ "" = s.
Proof. induction s as [|c s IH]; cbn; congruence. Qed.

Lemma app_assoc_str (a b c : string) : (a +:+ b) +:+ c = a +:+ (b +:+ c).
Proof. induction a as [|x a IH]; cbn; congruence. Qed.

Lemma app_cons_str c (a b : string) : String c a +:+ b = String c (a +:+ b).
Proof. done. Qed.

Lemma app_nil_l_str (s : string) : "" +:+ s = s.
Proof. done. Qed.

Lemma length_app_str (a b : string) :
  String.length (a +:+ b) = String.length a + String.length b.
Proof. induction a as [|x a IH]; cbn; congruence. Qed.

Lemma app_inj_l_str (a b c : string) : a +:+ b = a +:+ c → b = c.
Proof. induction a as [|x a IH]; [done|]. intros [= H]. auto. Qed.

#[export] Hint Rewrite app_nil_r_str app_assoc_str app_cons_str app_nil_l_str
  : nodeadm_rw.

(** ** Prefixes, suffixes and substrings *)

(** [strings.HasPrefix(s, p)]. *)
Fixpoint HasPrefix (s p : string) : bool :=
  match p, s with
  | "", _ => true
  | String c p, String d s => Ascii.eqb c d && HasPrefix s p
  | String _ _, "" => false
  end.

(** [s[n:]]. *)
Fixpoint drop_str (n : nat) (s : string) : string :=
  match n, s with
  | S n, String _ s => drop_str n s
  | _, _ => s
  end.

(** [s[:n]]. *)
Fixpoint take_str (n : nat) (s : string) : string :=
  match n, s with
  | S n, String c s => String c (take_str n s)
  | _, _ => ""
  end.

(** [strings.TrimPrefix] and [strings.CutPrefix]. *)
Definition TrimPrefix (s p : string) : string :=
  if HasPrefix s p then drop_str (String.length p) s else s.
Definition CutPrefix (s p : string) : string * bool :=
  if HasPrefix s p then (drop_str (String.length p) s, true) else (s, false).

(** [strings.HasSuffix(s, p)]: [len(s) >= len(p) && s[len(s)-len(p):] == p]. *)
Definition HasSuffix (s p : string) : bool :=
  (String.length p <=? String.length s) &&
  String.eqb (drop_str (String.length s - String.length p) s) p.

(** [strings.TrimSuffix]. *)
Definition TrimSuffix (s p : string) : string :=
  if HasSuffix s p then take_str (String.length s - String.length p) s else s.

(** [strings.Contains(s, sub)]. *)
Fixpoint Contains (s sub : string) : bool :=
  HasPrefix s sub || match s with "" => false | String _ s => Contains s sub end.

(** [strings.Count(s, c)] and [strings.ReplaceAll(s, c, "")] for one byte. *)
Fixpoint CountByte (c : ascii) (s : string) : nat :=
  match s with
  | "" => 0
  | String d s => (if Ascii.eqb c d then 1 else 0) + CountByte c s
  end.
Fixpoint RemoveByte (c : ascii) (s : string) : string :=
  match s with
  | "" => ""
  | String d s => if Ascii.eqb c d then RemoveByte c s else String d (RemoveByte c s)
  end.

Lemma HasPrefix_spec s p : HasPrefix s p = true ↔ ∃ t, s = p +:+ t.
Proof.
  revert s. induction p as [|c p IH]; intros [|d s]; cbn.
  - naive_solver.
  - split; [intros _; by exists (String d s)|done].
  - split; [done|]. intros [t [=]].
  - rewrite andb_true_iff, IH, Ascii.eqb_eq. split.
    + intros [-> [t ->]]. by exists t.
    + intros [t [= -> ->]]. eauto.
Qed.

Lemma HasPrefix_app p t : HasPrefix (p +:+ t) p = true.
Proof. apply HasPrefix_spec. eauto. Qed.

Lemma drop_app_str p t : drop_str (String.length p) (p +:+ t) = t.
Proof. induction p as [|c p IH]; [done|]. cbn. done. Qed.

Lemma take_app_str p t : take_str (String.length p) (p +:+ t) = p.
Proof. induction p as [|c p IH]; [by destruct t|]. cbn. by f_equal. Qed.

Lemma TrimPrefix_app p t : TrimPrefix (p +:+ t) p = t.
Proof. unfold TrimPrefix. by rewrite HasPrefix_app, drop_app_str. Qed.

Lemma CutPrefix_app p t : CutPrefix (p +:+ t) p = (t, true).
Proof. unfold CutPrefix. by rewrite HasPrefix_app, drop_app_str. Qed.

Lemma Contains_spec s sub :
  Contains s sub = true ↔ ∃ a b, s = a +:+ sub +:+ b.
Proof.
  induction s as [|c s IH]; cbn [Contains].
  - rewrite orb_false_r, HasPrefix_spec. split; [intros [t ->]; by exists "", t|].
    intros ([|c a] & b & [=E]). by exists b.
  - rewrite orb_true_iff, HasPrefix_spec, IH. split.
    + intros [[t ->]|(a & b & ->)]; [by exists "", t|by exists (String c a), b].
    + intros ([|d a] & b & E); [left; by exists b|]. injection E as -> ->. eauto.
Qed.

Lemma take_drop_str n s : take_str n s +:+ drop_str n s = s.
Proof. revert s. induction n as [|n IH]; intros [|c s]; cbn; [done..|]. by f_equal. Qed.

Lemma HasSuffix_spec s p : HasSuffix s p = true ↔ ∃ t, s = t +:+ p.
Proof.
  unfold HasSuffix. rewrite andb_true_iff, Nat.leb_le, String.eqb_eq. split.
  - intros [_ E]. eexists.
    rewrite <- (take_drop_str (String.length s - String.length p) s) at 1. by rewrite E.
  - intros [t ->]. rewrite length_app_str. split; [lia|].
    replace (_ - _) with (String.length t) by lia. apply drop_app_str.
Qed.

#[export] Hint Rewrite HasPrefix_app TrimPrefix_app CutPrefix_app drop_app_str
  take_app_str : nodeadm_rw.

(** ** Splitting and joining *)

(** [strings.Cut(s, sep)]. *)
Fixpoint Cut (sep : ascii) (s : string) : option (string * string) :=
  match s with
  | "" => None
  | String c s =>
      if Ascii.eqb c sep then Some ("", s)
      else match Cut sep s with
           | Some (a, b) => Some (String c a, b)
           | None => None
           end
  end.

(** [strings.Split(s, sep)]. *)
Fixpoint Split (sep : ascii) (s : string) : list string :=
  match s with
  | "" => [""]
  | String c s =>
      if Ascii.eqb c sep then "" :: Split sep s
      else match Split sep s with
           | w :: ws => String c w :: ws
           | [] => [String c ""]
           end
  end.

(** [strings.SplitN(s, sep, n)] for [n >= 0]. *)
Fixpoint SplitN (sep : ascii) (n : nat) (s : string) : list string :=
  match n with
  | 0 => []
  | 1 => [s]
  | S n =>
      match Cut sep s with
      | Some (a, b) => a :: SplitN sep n b
      | None => [s]
      end
  end.

(** [strings.Join(l, sep)]. *)
Fixpoint Join (l : list string) (sep : string) : string :=
  match l with
  | [] => ""
  | [x] => x
  | x :: l => x +:+ sep +:+ Join l sep
  end.

(** The byte [c] does not occur in [s]. *)
Fixpoint free_of (c : ascii) (s : string) : bool :=
  match s with
  | "" => true
  | String d s => negb (Ascii.eqb d c) && free_of c s
  end.

Lemma free_of_app c a b : free_of c (a +:+ b) = free_of c a && free_of c b.
Proof. induction a as [|x a IH]; [done|]. cbn. by rewrite IH, andb_assoc. Qed.

Lemma free_of_false c s : free_of c s = false → ∃ a b, s = a +:+ String c b ∧ free_of c a = true.
Proof.
  induction s as [|d s IH]; cbn; [done|]. destruct (Ascii.eqb_spec d c) as [->|Hne]; cbn.
  - intros _. by exists "", s.
  - intros (a & b & -> & Ha)%IH. exists (String d a), b. cbn.
    by rewrite (proj2 (Ascii.eqb_neq _ _) Hne), Ha.
Qed.

Lemma Split_nonempty sep s : Split sep s ≠ [].
Proof. destruct s as [|c s]; cbn; [done|]. by destruct (Ascii.eqb c sep), (Split sep s). Qed.

Lemma Split_app sep a b :
  free_of sep a = true →
  Split sep (a +:+ String sep b) = a :: Split sep b.
Proof.
  induction a as [|c a IH]; cbn.
  - by rewrite Ascii.eqb_refl.
  - rewrite andb_true_iff, negb_true_iff. intros [-> H]. by rewrite IH.
Qed.

Lemma Split_free sep a : free_of sep a = true → Split sep a = [a].
Proof.
  induction a as [|c a IH]; cbn; [done|].
  rewrite andb_true_iff, negb_true_iff. intros [-> H]. by rewrite IH.
Qed.

Lemma Join_Split sep s : Join (Split sep s) (String sep "") = s.
Proof.
  induction s as [|c s IH]; [done|]. cbn. pose proof (Split_nonempty sep s).
  destruct (Ascii.eqb_spec c sep) as [->|_].
  - destruct (Split sep s); [done|]. by rewrite <- IH.
  - destruct (Split sep s) as [|w [|v ws]]; [done|..]; by rewrite <- IH.
Qed.

Lemma Split_parts_free sep s : Forall (λ w, free_of sep w = true) (Split sep s).
Proof.
  induction s as [|c s IH]; cbn; [by repeat constructor|].
  destruct (Ascii.eqb c sep) eqn:E; [by constructor|].
  destruct (Split sep s) as [|w ws]; inversion IH; subst; constructor; cbn;
    rewrite ?E; auto.
Qed.

Lemma Split_Join sep ws :
  ws ≠ [] → Forall (λ w, free_of sep w = true) ws →
  Split sep (Join ws (String sep "")) = ws.
Proof.
  intros Hne. induction 1 as [|w ws Hw Hws IH]; [done|].
  destruct ws as [|v ws]; [by apply Split_free|].
  change (Join (w :: v :: ws) ?sp) with (w +:+ sp +:+ Join (v :: ws) sp).
  change (String sep "" +:+ ?t) with (String sep t). rewrite Split_app by done.
  f_equal. by apply IH.
Qed.

Lemma Join_cons x y l sep : Join (x :: y :: l) sep = x +:+ sep +:+ Join (y :: l) sep.
Proof. done. Qed.

Lemma Join_app a b sep :
  a ≠ [] → b ≠ [] → Join (a ++ b) sep = Join a sep +:+ sep +:+ Join b sep.
Proof.
  intros Ha Hb. induction a as [|x a IH]; [done|].
  destruct a as [|y a]; [by destruct b|].
  change ((x :: y :: a) ++ b) with (x :: y :: (a ++ b)). rewrite !Join_cons.
  change (y :: a ++ b) with ((y :: a) ++ b). rewrite IH by done.
  by rewrite !app_assoc_str.
Qed.

Lemma Cut_spec sep s a b :
  Cut sep s = Some (a, b) ↔ s = a +:+ String sep b ∧ free_of sep a = true.
Proof.
  revert a. induction s as [|c s IH]; intros a; cbn.
  - split; [done|]. intros [E _]. by destruct a.
  - destruct (Ascii.eqb_spec c sep) as [->|Hne].
    + split; [intros [= <- <-]; done|]. intros [E Hf].
      destruct a as [|d a]; [by injection E as ->|].
      injection E as -> _. cbn in Hf. by rewrite Ascii.eqb_refl in Hf.
    + destruct (Cut sep s) as [[a' b']|] eqn:HC.
      * split.
        -- intros [= <- <-].
           destruct (proj1 (IH a') eq_refl) as [-> Hf]. split; [done|].
           cbn. apply Ascii.eqb_neq in Hne. by rewrite Hne.
        -- intros [E Hf]. destruct a as [|d a]; [by injection E as ->|].
           injection E as -> E. cbn in Hf. apply andb_true_iff in Hf as [_ Hf].
           assert (Some (a', b') = Some (a, b)) by (by apply IH). congruence.
      * split; [done|]. intros [E Hf].
        destruct a as [|d a]; [by injection E as ->|].
        injection E as -> E. cbn in Hf. apply andb_true_iff in Hf as [_ Hf].
        assert (None = Some (a, b)) by (by apply IH). congruence.
Qed.

(** ** White space *)

(** [unicode.IsSpace] on ASCII: tab, newline, vertical tab, form feed,
    carriage return and space. *)
Definition is_space (c : ascii) : bool :=
  match nat_of_ascii c with
  | 9 | 10 | 11 | 12 | 13 | 32 => true
  | _ => false
  end.

Fixpoint trim_left (f : ascii → bool) (s : string) : string :=
  match s with
  | "" => ""
  | String c s' => if f c then trim_left f s' else s
  end.

Fixpoint trim_right (f : ascii → bool) (s : string) : string :=
  match s with
  | "" => ""
  | String c s =>
      match trim_right f s with
      | "" => if f c then "" else String c ""
      | t => String c t
      end
  end.

(** [strings.TrimSpace] and [strings.Trim(s, cutset)]. *)
Definition TrimSpace (s : string) : string :=
  trim_right is_space (trim_left is_space s).
Definition TrimChars (cutset : list ascii) (s : string) : string :=
  let f c := existsb (Ascii.eqb c) cutset in trim_right f (trim_left f s).

(** [strings.Fields]. *)
Fixpoint Fields (s : string) : list string :=
  match s with
  | "" => []
  | String c s =>
      if is_space c then Fields s
      else match s with
           | String d _ =>
               if is_space d then String c "" :: Fields s
               else match Fields s with
                    | w :: ws => String c w :: ws
                    | [] => [String c ""]
                    end
           | "" => [String c ""]
           end
  end.

(** [strings.ToLower] on ASCII. *)
Definition lower (c : ascii) : ascii :=
  let n := nat_of_ascii c in
  if (65 <=? n) && (n <=? 90) then ascii_of_nat (n + 32) else c.
Fixpoint ToLower (s : string) : string :=
  match s with "" => "" | String c s => String (lower c) (ToLower s) end.

Definition dquote : string := String "034" "".
Definition newline : string := String "010" "".
Definition tab : string := String "009" "".
Definition quoted (s : string) : string := dquote +:+ s +:+ dquote.
(** A file of whole lines. *)
Definition lines (ls : list string) : string := Join ls newline +:+ newline.

(** [strings.LastIndex(s, c)] as the cut at the last occurrence. *)
Fixpoint CutLast (sep : ascii) (s : string) : option (string * string) :=
  match s with
  | "" => None
  | String c s =>
      match CutLast sep s with
      | Some (a, b) => Some (String c a, b)
      | None => if Ascii.eqb c sep then Some ("", s) else None
      end
  end.

(** ** strconv

    Decimal printing and parsing, on [Z] with the range check of the bit
    size.  [parse_digits] is the loop of [strconv.ParseUint] for base 10:
    left to right, reporting the first of a bad digit or an overflow. *)

#[local] Open Scope Z_scope.

Definition digit_char (d : Z) : ascii := ascii_of_N (48 + Z.to_N d)%N.

Definition digit_val (c : ascii) : option Z :=
  let n := Z.of_N (N_of_ascii c) in
  if (48 <=? n) && (n <=? 57) then Some (n - 48) else None.

Fixpoint parse_digits (max acc : Z) (s : string) : result Z :=
  match s with
  | "" => Ok acc
  | String c s =>
      match digit_val c with
      | None => Err (ENew "strconv: invalid syntax")
      | Some d =>
          let n := acc * 10 + d in
          if max <? n then Err (ENew "strconv: value out of range")
          else parse_digits max n s
      end
  end.

(** [strconv.ParseUint(s, 10, bits)]. *)
Definition ParseUint (s : string) (bits : Z) : result Z :=
  match s with
  | "" => Err (ENew "strconv: invalid syntax")
  | _ => parse_digits (2 ^ bits - 1) 0 s
  end.

(** [strconv.ParseInt(s, 10, bits)]; [strconv.Atoi] is the 64-bit case. *)
Definition ParseInt (s : string) (bits : Z) : result Z :=
  match s with
  | String "+" s => n ← ParseUint s 64;
      if 2 ^ (bits - 1) <=? n then Err (ENew "strconv: value out of range") else mret n
  | String "-" s => n ← ParseUint s 64;
      if 2 ^ (bits - 1) <? n then Err (ENew "strconv: value out of range") else mret (- n)
  | s => n ← ParseUint s 64;
      if 2 ^ (bits - 1) <=? n then Err (ENew "strconv: value out of range") else mret n
  end.
Definition Atoi (s : string) : result Z := ParseInt s 64.

(** [strconv.Itoa] and [%d]. *)
Fixpoint dec_go (fuel : nat) (n : Z) (acc : string) : string :=
  match fuel with
  | O => acc
  | S fuel =>
      let acc := String (digit_char (n mod 10)) acc in
      if n / 10 =? 0 then acc else dec_go fuel (n / 10) acc
  end.
Definition itoa_nonneg (n : Z) : string := dec_go (S (Z.to_nat (Z.log2 n))) n "".
Definition Itoa (n : Z) : string :=
  if n <? 0 then String "-" (itoa_nonneg (- n)) else itoa_nonneg n.

Lemma digit_val_char d : 0 <= d < 10 → digit_val (digit_char d) = Some d.
Proof.
  intros H. unfold digit_val, digit_char.
  rewrite N_ascii_embedding by lia.
  replace (Z.of_N (48 + Z.to_N d)) with (48 + d) by lia.
  rewrite !(proj2 (Z.leb_le _ _)) by lia. cbn. f_equal. lia.
Qed.

Lemma parse_dec_go fuel max n acc :
  0 <= n < 2 ^ Z.of_nat fuel → n <= max →
  parse_digits max 0 (dec_go fuel n acc) = parse_digits max n acc.
Proof.
  revert n acc. induction fuel as [|fuel IH]; intros n acc Hn Hm.
  - replace n with 0; [done|]. cbn in Hn. lia.
  - rewrite Nat2Z.inj_succ, Z.pow_succ_r in Hn by lia.
    assert (0 <= n mod 10 < 10) by (apply Z.mod_pos_bound; lia).
    pose proof (Z.div_mod n 10).
    assert (parse_digits max (n / 10) (String (digit_char (n mod 10)) acc)
            = parse_digits max n acc) as Hstep.
    { cbn [parse_digits]. rewrite digit_val_char by done.
      replace (n / 10 * 10 + n mod 10) with n by lia.
      by rewrite (proj2 (Z.ltb_ge _ _)) by lia. }
    cbn [dec_go]. destruct (Z.eqb_spec (n / 10) 0) as [E|E].
    + by rewrite E in Hstep.
    + rewrite IH; [done| |]; lia.
Qed.

Lemma dec_go_nonempty fuel n acc : acc ≠ "" → dec_go fuel n acc ≠ "".
Proof.
  revert n acc. induction fuel as [|fuel IH]; intros n acc H; [done|].
  cbn. destruct (_ =? _); [done|]. by apply IH.
Qed.

Lemma itoa_nonneg_nonempty n : itoa_nonneg n ≠ "".
Proof.
  unfold itoa_nonneg. cbn [dec_go].
  destruct (_ =? _); [done|]. by apply dec_go_nonempty.
Qed.

Lemma log2_fuel n : 0 <= n → n < 2 ^ Z.of_nat (S (Z.to_nat (Z.log2 n))).
Proof.
  intros H. rewrite Nat2Z.inj_succ, Z2Nat.id by apply Z.log2_nonneg.
  destruct (Z.eq_dec n 0) as [->|]; [done|]. apply Z.log2_spec. lia.
Qed.

Lemma ParseUint_itoa n bits :
  0 <= n < 2 ^ bits → ParseUint (itoa_nonneg n) bits = Ok n.
Proof.
  intros H. unfold ParseUint. pose proof (itoa_nonneg_nonempty n).
  destruct (itoa_nonneg n) eqn:E; [done|]. rewrite <- E. unfold itoa_nonneg.
  rewrite parse_dec_go; [done| |lia].
  split; [lia|]. apply log2_fuel. lia.
Qed.

(** A decimal digit; every character [dec_go] adds is one. *)
Definition is_digit (c : ascii) : bool :=
  match digit_val c with Some _ => true | None => false end.

Fixpoint all_chars (f : ascii → bool) (s : string) : bool :=
  match s with "" => true | String c s => f c && all_chars f s end.

Lemma dec_go_digits fuel n acc :
  all_chars is_digit acc = true → all_chars is_digit (dec_go fuel n acc) = true.
Proof.
  revert n acc. induction fuel as [|fuel IH]; intros n acc H; [done|].
  assert (all_chars is_digit (String (digit_char (n mod 10)) acc) = true).
  { cbn. unfold is_digit at 1. rewrite digit_val_char; [done|].
    apply Z.mod_pos_bound. lia. }
  cbn [dec_go]. destruct (_ =? _); auto.
Qed.

Lemma itoa_nonneg_digits n : all_chars is_digit (itoa_nonneg n) = true.
Proof. by apply dec_go_digits. Qed.

Lemma digits_free_of c s :
  all_chars is_digit s = true → is_digit c = false → free_of c s = true.
Proof.
  intros H Hc. induction s as [|d s IH]; [done|]. cbn in *.
  apply andb_true_iff in H as [Hd H]. rewrite IH by done.
  destruct (Ascii.eqb_spec d c); naive_solver congruence.
Qed.

Lemma all_chars_impl (f g : ascii → bool) s :
  (∀ c, f c = true → g c = true) → all_chars f s = true → all_chars g s = true.
Proof.
  intros Hfg. induction s as [|c s IH]; cbn; [done|].
  rewrite !andb_true_iff. intros [? ?]. auto.
Qed.

Lemma all_chars_app f a b : all_chars f (a +:+ b) = all_chars f a && all_chars f b.
Proof. induction a as [|c a IH]; cbn; [done|]. by rewrite IH, andb_assoc. Qed.

Lemma all_chars_free f c s : all_chars f s = true → f c = false → free_of c s = true.
Proof.
  intros H Hc. induction s as [|d s IH]; [done|]. cbn in *.
  apply andb_true_iff in H as [Hd H]. rewrite IH by done.
  destruct (Ascii.eqb_spec d c); naive_solver congruence.
Qed.

Lemma Cut_none sep s : free_of sep s = true → Cut sep s = None.
Proof.
  induction s as [|c s IH]; cbn; [done|]. rewrite andb_true_iff, negb_true_iff.
  intros [-> Hs]. by rewrite IH.
Qed.

Lemma trim_right_snoc f s c : f c = true → trim_right f (s +:+ String c "") = trim_right f s.
Proof.
  intros Hc. induction s as [|d s IH]; cbn [String.append trim_right]; [by rewrite Hc|].
  by rewrite IH.
Qed.

Lemma trim_right_keep f s : all_chars (λ c, negb (f c)) s = true → trim_right f s = s.
Proof.
  induction s as [|c s IH]; cbn; [done|]. rewrite andb_true_iff, negb_true_iff.
  intros [Hc Hs]. rewrite IH by done. rewrite Hc. by destruct s.
Qed.

(** A line of words without white space, read with its newline. *)
Lemma TrimSpace_newline s :
  s ≠ "" → all_chars (λ c, negb (is_space c)) s = true → TrimSpace (s +:+ newline) = s.
Proof.
  intros Hne Hs. unfold TrimSpace. destruct s as [|c s]; [done|].
  pose proof Hs as Hs'. cbn in Hs. apply andb_true_iff in Hs as [Hc _]. apply negb_true_iff in Hc.
  rewrite app_cons_str. cbn [trim_left]. rewrite Hc, <- app_cons_str.
  unfold newline. rewrite trim_right_snoc by done. by apply trim_right_keep.
Qed.

Lemma Itoa_nonneg n : 0 <= n → Itoa n = itoa_nonneg n.
Proof. intros Hn. unfold Itoa. by rewrite (proj2 (Z.ltb_ge _ _)). Qed.

Lemma Itoa_free c n : 0 <= n → is_digit c = false → free_of c (Itoa n) = true.
Proof.
  intros Hn Hc. rewrite Itoa_nonneg by done.
  apply digits_free_of; [apply itoa_nonneg_digits|done].
Qed.

(** Printing then parsing gives the number back, within 64 bits. *)
Lemma Atoi_Itoa n : - 2 ^ 63 <= n < 2 ^ 63 → Atoi (Itoa n) = Ok n.
Proof.
  intros H. unfold Atoi, Itoa. destruct (Z.ltb_spec n 0).
  - unfold ParseInt. rewrite ParseUint_itoa by lia. cbn [mbind result_bind].
    rewrite (proj2 (Z.ltb_ge _ _)) by lia. cbn. f_equal. lia.
  - pose proof (itoa_nonneg_digits n) as Hd.
    assert (ParseInt (itoa_nonneg n) 64 =
            (n ← ParseUint (itoa_nonneg n) 64;
             if 2 ^ 63 <=? n then Err (ENew "strconv: value out of range") else mret n))
      as ->.
    { destruct (itoa_nonneg n) as [|c s]; [done|].
      cbn in Hd. apply andb_true_iff in Hd as [Hc _].
      unfold ParseInt. by destruct c as [[] [] [] [] [] [] [] []]. }
    rewrite ParseUint_itoa by lia. cbn [mbind result_bind].
    by rewrite (proj2 (Z.leb_gt _ _)) by lia.
Qed.
