(* ===== verification/Scanner.v ===== *)
(** * Lines of text as bufio.Scanner delivers them

    The reference for every loop of the code over [scanner.Scan()]: which
    lines a scanner gives for the bytes of a whole file, with the limit on
    the length of a line.  Swap and Aspects read files and outputs with it;
    Capture proves that reading piece by piece from a pipe agrees with it. *)

From S2P Require Import Prelude GoStrings.
#[local] Open Scope Z_scope.

(** ** Lines *)

Definition cr : string := String "013" "".
(** [bufio.MaxScanTokenSize]: a line and its newline fit in the buffer. *)
Definition MaxScanTokenSize : N := 65536.
Definition too_long (line : string) : bool :=
  (MaxScanTokenSize <=? N.of_nat (String.length line))%N.

(** The texts of the successive [scanner.Scan()]s over the pieces between
    newlines: the empty piece at the end is no line, a carriage return
    before the newline is dropped, and too long a line is an error. *)
Fixpoint scan_pieces (pieces : list string) : list string :=
  match pieces with
  | [] => []
  | [p] => if String.eqb p "" || too_long p then [] else [TrimSuffix p cr]
  | p :: pieces => if too_long p then [] else TrimSuffix p cr :: scan_pieces pieces
  end.
Definition scan_lines (data : string) : list string := scan_pieces (Split "010" data).

(** [buf.WriteString(line + "\n")] over the lines. *)
Fixpoint unlines (lines : list string) : string :=
  match lines with [] => "" | l :: lines => l +:+ newline +:+ unlines lines end.

(** A line as the scanner delivers it. *)
Definition line_ok (line : string) : Prop :=
  free_of "010" line = true ∧ too_long line = false.

Lemma Split_unlines lines :
  Forall (λ l, free_of "010" l = true) lines → Split "010" (unlines lines) = lines ++ [""].
Proof.
  induction 1 as [|l lines Hl _ IH]; [done|]. cbn [unlines app].
  change (newline +:+ ?s) with (String "010" s). by rewrite Split_app, IH.
Qed.

Lemma scan_unlines lines :
  Forall line_ok lines → scan_lines (unlines lines) = (λ l, TrimSuffix l cr) <$> lines.
Proof.
  intros HF. unfold scan_lines. rewrite Split_unlines.
  2:{ eapply Forall_impl; [exact HF|]. by intros l [? _]. }
  induction HF as [|l lines [_ Hl] _ IH]; [done|]. cbn [app fmap list_fmap].
  rewrite <- IH. destruct (lines ++ [""]) eqn:E; [by destruct lines|].
  cbn [scan_pieces]. by rewrite Hl.
Qed.

Lemma TrimSuffix_cases s p : (∃ t, s = t +:+ p ∧ TrimSuffix s p = t) ∨ TrimSuffix s p = s.
Proof.
  unfold TrimSuffix. destruct (HasSuffix s p) eqn:E; [left|by right].
  apply HasSuffix_spec in E as [t ->]. exists t. split; [done|].
  rewrite length_app_str, Nat.add_sub. apply take_app_str.
Qed.

Lemma TrimSuffix_ok l : line_ok l → line_ok (TrimSuffix l cr).
Proof.
  unfold line_ok, too_long. destruct (TrimSuffix_cases l cr) as [(t & -> & ->)| ->]; [|done].
  rewrite free_of_app, andb_true_iff, length_app_str. intros [[? _] ?]. split; [done|].
  apply N.leb_gt. apply N.leb_gt in H0. lia.
Qed.

Lemma scan_lines_ok data : Forall line_ok (scan_lines data).
Proof.
  unfold scan_lines. pose proof (Split_parts_free "010" data) as HF.
  induction HF as [|p ps Hp _ IH]; [constructor|]. cbn [scan_pieces].
  destruct ps as [|q ps].
  - destruct (String.eqb p "" || too_long p) eqn:E; [constructor|].
    apply orb_false_iff in E as [_ E]. constructor; [by apply TrimSuffix_ok|constructor].
  - destruct (too_long p) eqn:E; [constructor|]. constructor; [by apply TrimSuffix_ok|done].
Qed.


(** *** Lines that arrive piece by piece *)

Lemma scan_cons line rest :
  free_of "010" line = true → too_long line = false →
  scan_lines (line +:+ String "010" rest) = TrimSuffix line cr :: scan_lines rest.
Proof.
  intros Hf Hl. unfold scan_lines. rewrite Split_app by done.
  pose proof (Split_nonempty "010" rest). destruct (Split "010" rest) eqn:E; [done|].
  cbn [scan_pieces]. by rewrite Hl.
Qed.
Lemma scan_unlines_app lines t :
  Forall line_ok lines →
  scan_lines (unlines lines +:+ t) = ((λ l, TrimSuffix l cr) <$> lines) ++ scan_lines t.
Proof.
  induction 1 as [|l lines [Hf Hl] _ IH]; [done|]. cbn [unlines fmap list_fmap app].
  rewrite !app_assoc_str. change (newline +:+ ?s) with (String "010" s).
  by rewrite scan_cons, IH.
Qed.
Lemma unlines_snoc lines l : unlines (lines ++ [l]) = unlines lines +:+ l +:+ newline.
Proof.
  induction lines as [|k lines IH]; cbn [unlines app]; [by rewrite app_nil_r_str|].
  by rewrite IH, !app_assoc_str.
Qed.
Lemma scan_last l :
  free_of "010" l = true → too_long l = false → l ≠ "" → scan_lines l = [TrimSuffix l cr].
Proof.
  intros Hf Hl Hn. unfold scan_lines. rewrite Split_free by done. cbn [scan_pieces].
  by rewrite Hl, (proj2 (String.eqb_neq _ _) Hn).
Qed.

Lemma too_long_app a b : too_long a = true → too_long (a +:+ b) = true.
Proof. unfold too_long. rewrite !N.leb_le, length_app_str. lia. Qed.

(** A beginning that is too long for a line ends the scan. *)
Lemma scan_too_long b t :
  free_of "010" b = true → too_long b = true → scan_lines (b +:+ t) = [].
Proof.
  intros Hf Hl. unfold scan_lines.
  destruct (free_of "010" t) eqn:Ht.
  - rewrite Split_free by (by rewrite free_of_app, Hf). cbn [scan_pieces].
    by rewrite (too_long_app _ _ Hl), orb_true_r.
  - apply free_of_false in Ht as (line & rest & -> & Hline).
    rewrite <- app_assoc_str, Split_app by (by rewrite free_of_app, Hf).
    pose proof (Split_nonempty "010" rest). destruct (Split "010" rest); [done|].
    cbn [scan_pieces]. by rewrite (too_long_app _ _ Hl).
Qed.
