(* ===== verification/Types.v ===== *)
(** * The node configuration (internal/api/types.go)

    The data that the node provider, the daemons and the validations share,
    with the cluster as the EKS API describes it and the configuration of an
    AWS client. *)

From S2P Require Import Prelude GoStrings.
#[local] Open Scope Z_scope.

(** ** Types

    Pointers are options; the certificate authority, a byte slice that is
    nil when absent, is an option too.  The kubelet config document maps
    keys to raw JSON. *)

Record ClusterDetails := {
  cluster_Name : string;
  cluster_Region : string;
  APIServerEndpoint : string;
  CertificateAuthority : option string;
  CIDR : string;
  EnableOutpost : option bool;
  cluster_ID : string;
}.

Record KubeletOptions := { Config : gmap string string; Flags : list string }.
Record ContainerdOptions := { containerd_Config : string }.
Record InstanceOptions := { LocalStorageStrategy : string }.

Record IAMRolesAnywhere := {
  iam_NodeName : string;
  TrustAnchorARN : string;
  ProfileARN : string;
  RoleARN : string;
  AwsConfigPath : string;
  CertificatePath : string;
  PrivateKeyPath : string;
}.

Record SSM := { ActivationCode : string; ActivationID : string }.

Record HybridOptions := {
  EnableCredentialsFile : bool;
  hybrid_IAMRolesAnywhere : option IAMRolesAnywhere;
  hybrid_SSM : option SSM;
}.

Record InstanceDetails := {
  instance_ID : string;
  instance_Region : string;
  instance_Type : string;
  AvailabilityZone : string;
  MAC : string;
  PrivateDNSName : string;
}.

Record NodeConfigSpec := {
  Cluster : ClusterDetails;
  spec_Containerd : ContainerdOptions;
  spec_Instance : InstanceOptions;
  spec_Kubelet : KubeletOptions;
  Hybrid : option HybridOptions;
}.

(** [Status.Instance], [Status.Hybrid.NodeName] and
    [Status.Defaults.SandboxImage]. *)
Record NodeConfigStatus := {
  status_Instance : InstanceDetails;
  status_NodeName : string;
  SandboxImage : string;
}.

Record NodeConfig := { Spec : NodeConfigSpec; Status : NodeConfigStatus }.

#[export] Instance ClusterDetails_eq_dec : EqDecision ClusterDetails.
Proof. solve_decision. Defined.
#[export] Instance KubeletOptions_eq_dec : EqDecision KubeletOptions.
Proof. solve_decision. Defined.
#[export] Instance ContainerdOptions_eq_dec : EqDecision ContainerdOptions.
Proof. solve_decision. Defined.
#[export] Instance InstanceOptions_eq_dec : EqDecision InstanceOptions.
Proof. solve_decision. Defined.
#[export] Instance IAMRolesAnywhere_eq_dec : EqDecision IAMRolesAnywhere.
Proof. solve_decision. Defined.
#[export] Instance SSM_eq_dec : EqDecision SSM.
Proof. solve_decision. Defined.
#[export] Instance HybridOptions_eq_dec : EqDecision HybridOptions.
Proof. solve_decision. Defined.
#[export] Instance InstanceDetails_eq_dec : EqDecision InstanceDetails.
Proof. solve_decision. Defined.
#[export] Instance NodeConfigSpec_eq_dec : EqDecision NodeConfigSpec.
Proof. solve_decision. Defined.
#[export] Instance NodeConfigStatus_eq_dec : EqDecision NodeConfigStatus.
Proof. solve_decision. Defined.
#[export] Instance NodeConfig_eq_dec : EqDecision NodeConfig.
Proof. solve_decision. Defined.

Inductive NodeType := NodeType_Ssm | NodeType_IamRolesAnywhere | NodeType_Ec2 | NodeType_Outpost.
Definition NodeType_string (t : NodeType) : string :=
  match t with
  | NodeType_Ssm => "ssm"
  | NodeType_IamRolesAnywhere => "iam-ra"
  | NodeType_Ec2 => "ec2"
  | NodeType_Outpost => "outpost"
  end.

Definition IsHybridNode (nc : NodeConfig) : bool :=
  if Hybrid (Spec nc) is Some _ then true else false.
Definition IsOutpostNode (nc : NodeConfig) : bool :=
  match EnableOutpost (Cluster (Spec nc)) with Some b => b | None => false end.
Definition IsIAMRolesAnywhere (nc : NodeConfig) : bool :=
  match Hybrid (Spec nc) with
  | Some h => if hybrid_IAMRolesAnywhere h is Some _ then true else false
  | None => false
  end.
Definition IsSSM (nc : NodeConfig) : bool :=
  match Hybrid (Spec nc) with
  | Some h => if hybrid_SSM h is Some _ then true else false
  | None => false
  end.
Definition GetNodeType (nc : NodeConfig) : NodeType :=
  if IsSSM nc then NodeType_Ssm
  else if IsIAMRolesAnywhere nc then NodeType_IamRolesAnywhere
  else if IsOutpostNode nc then NodeType_Outpost
  else NodeType_Ec2.

(** ** The cluster as the EKS API describes it

    The fields of [types.Cluster] the code reads; pointers are options. *)

Record RemoteNodeNetwork := { Cidrs : list string }.
Record RemoteNetworkConfigResponse := { RemoteNodeNetworks : option (list RemoteNodeNetwork) }.
Record EksCluster := {
  eks_Name : option string;
  eks_Version : option string;
  eks_Status : string;
  eks_Endpoint : option string;
  (** [CertificateAuthority.Data], each pointer on the way. *)
  eks_CertificateAuthority : option (option string);
  (** [KubernetesNetworkConfig.ServiceIpv4Cidr]. *)
  eks_ServiceIpv4Cidr : option (option string);
  RemoteNetworkConfig : option RemoteNetworkConfigResponse;
}.

(** ** What a node provider keeps

    The configuration of an AWS client by the options it was loaded with:
    nil slices of files stand for the default paths. *)

Record AwsConfig := {
  aws_Region : string;
  SharedConfigFiles : option (list string);
  SharedCredentialsFiles : option (list string);
  SharedConfigProfile : string;
  IMDSDisabled : bool;
}.
#[export] Instance AwsConfig_eq_dec : EqDecision AwsConfig.
Proof. solve_decision. Defined.

(** The fields of a node provider that change: the configuration is shared
    with the daemons it makes. *)
Record ProviderState := {
  hnp_nodeConfig : NodeConfig;
  hnp_awsConfig : option AwsConfig;
  hnp_cluster : option EksCluster;
}.

Definition empty_config : NodeConfig := {|
  Spec := {| Cluster := {| cluster_Name := ""; cluster_Region := ""; APIServerEndpoint := "";
                           CertificateAuthority := None; CIDR := ""; EnableOutpost := None;
                           cluster_ID := "" |};
             spec_Containerd := {| containerd_Config := "" |};
             spec_Instance := {| LocalStorageStrategy := "" |};
             spec_Kubelet := {| Config := ∅; Flags := [] |};
             Hybrid := None |};
  Status := {| status_Instance := {| instance_ID := ""; instance_Region := ""; instance_Type := "";
                                     AvailabilityZone := ""; MAC := ""; PrivateDNSName := "" |};
               status_NodeName := ""; SandboxImage := "" |} |}.
Definition no_provider : ProviderState :=
  {| hnp_nodeConfig := empty_config; hnp_awsConfig := None; hnp_cluster := None |}.
