(* ===== verification/Bridge.v ===== *)
(** * Conversions between the versions of the API (internal/api/bridge)

    The generated zz_generated.conversion.go: the decoder reads the versioned
    type and converts it.  A conversion copies strings and reinterprets
    pointers, slices and maps through [unsafe.Pointer], so its result shares
    the memory of its argument. *)

From S2P Require Import Prelude Memory V1alpha1 InternalApi.

Section Bridge.
Context `{MetaTypes}.

(** The zero values of the two node configurations: what [make] fills the
    items of a list with. *)
Definition zero_v1alpha1_NodeConfig : V1alpha1.NodeConfig stored := {|
  V1alpha1.config_TypeMeta := {| Kind := ""; APIVersion := "" |};
  V1alpha1.config_ObjectMeta := (zero_ObjectMeta : meta stored);
  V1alpha1.Spec := {|
    V1alpha1.Cluster := {|
      V1alpha1.cluster_Name := ""; V1alpha1.cluster_Region := ""; V1alpha1.APIServerEndpoint := "";
      V1alpha1.CertificateAuthority := nilp; V1alpha1.CIDR := ""; V1alpha1.EnableOutpost := nilp;
      V1alpha1.cluster_ID := "" |};
    V1alpha1.Containerd := {| V1alpha1.containerd_Config := "" |};
    V1alpha1.Instance := {| V1alpha1.LocalStorage := {| V1alpha1.Strategy := "" |} |};
    V1alpha1.Kubelet := {| V1alpha1.Config := nilp; V1alpha1.Flags := nilp |};
    V1alpha1.Hybrid := nilp |} |}.
Definition zero_NodeConfigStatus : InternalApi.NodeConfigStatus := {|
  InternalApi.status_Instance := {|
    InternalApi.instance_ID := ""; InternalApi.instance_Region := ""; InternalApi.instance_Type := "";
    InternalApi.AvailabilityZone := ""; InternalApi.MAC := ""; InternalApi.PrivateDNSName := "" |};
  InternalApi.status_Hybrid := {| InternalApi.NodeName := "" |};
  InternalApi.Defaults := {| InternalApi.SandboxImage := "" |} |}.
Definition zero_api_NodeConfig : InternalApi.NodeConfig stored := {|
  InternalApi.config_TypeMeta := {| Kind := ""; APIVersion := "" |};
  InternalApi.config_ObjectMeta := (zero_ObjectMeta : meta stored);
  InternalApi.Spec := {|
    InternalApi.Cluster := {|
      InternalApi.cluster_Name := ""; InternalApi.cluster_Region := "";
      InternalApi.APIServerEndpoint := ""; InternalApi.CertificateAuthority := nilp;
      InternalApi.CIDR := ""; InternalApi.EnableOutpost := nilp; InternalApi.cluster_ID := "" |};
    InternalApi.Containerd := {| InternalApi.containerd_Config := "" |};
    InternalApi.Instance := {| InternalApi.LocalStorage := {| InternalApi.Strategy := "" |} |};
    InternalApi.Kubelet := {| InternalApi.Config := nilp; InternalApi.Flags := nilp |};
    InternalApi.Hybrid := nilp |};
  InternalApi.Status := zero_NodeConfigStatus |}.

(** ** The conversions

    Each has the target as it was before for an argument and gives it as it
    is after: a field the code does not assign keeps its value. *)

Fixpoint convert_items {A B} (f : A → M mem B) (l : list A) : M mem (list B) :=
  match l with
  | [] => mret []
  | a :: l => b ← f a; l' ← convert_items f l; mret (b :: l')
  end.

Definition autoConvert_v1alpha1_ClusterDetails_To_api_ClusterDetails
    (in_ : V1alpha1.ClusterDetails stored) (out : InternalApi.ClusterDetails stored)
    : M mem (InternalApi.ClusterDetails stored) :=
  mret {| InternalApi.cluster_Name := V1alpha1.cluster_Name in_;
          InternalApi.cluster_Region := V1alpha1.cluster_Region in_;
          InternalApi.APIServerEndpoint := V1alpha1.APIServerEndpoint in_;
          InternalApi.CertificateAuthority := unsafe_Pointer (V1alpha1.CertificateAuthority in_);
          InternalApi.CIDR := V1alpha1.CIDR in_;
          InternalApi.EnableOutpost := unsafe_Pointer (V1alpha1.EnableOutpost in_);
          InternalApi.cluster_ID := V1alpha1.cluster_ID in_ |}.
Definition Convert_v1alpha1_ClusterDetails_To_api_ClusterDetails
    : V1alpha1.ClusterDetails stored → InternalApi.ClusterDetails stored →
      M mem (InternalApi.ClusterDetails stored) :=
  autoConvert_v1alpha1_ClusterDetails_To_api_ClusterDetails.

Definition autoConvert_api_ClusterDetails_To_v1alpha1_ClusterDetails
    (in_ : InternalApi.ClusterDetails stored) (out : V1alpha1.ClusterDetails stored)
    : M mem (V1alpha1.ClusterDetails stored) :=
  mret {| V1alpha1.cluster_Name := InternalApi.cluster_Name in_;
          V1alpha1.cluster_Region := InternalApi.cluster_Region in_;
          V1alpha1.APIServerEndpoint := InternalApi.APIServerEndpoint in_;
          V1alpha1.CertificateAuthority := unsafe_Pointer (InternalApi.CertificateAuthority in_);
          V1alpha1.CIDR := InternalApi.CIDR in_;
          V1alpha1.EnableOutpost := unsafe_Pointer (InternalApi.EnableOutpost in_);
          V1alpha1.cluster_ID := InternalApi.cluster_ID in_ |}.
Definition Convert_api_ClusterDetails_To_v1alpha1_ClusterDetails
    : InternalApi.ClusterDetails stored → V1alpha1.ClusterDetails stored →
      M mem (V1alpha1.ClusterDetails stored) :=
  autoConvert_api_ClusterDetails_To_v1alpha1_ClusterDetails.

Definition autoConvert_v1alpha1_ContainerdOptions_To_api_ContainerdOptions
    (in_ : V1alpha1.ContainerdOptions) (out : InternalApi.ContainerdOptions)
    : M mem (InternalApi.ContainerdOptions) :=
  mret {| InternalApi.containerd_Config := V1alpha1.containerd_Config in_ |}.
Definition Convert_v1alpha1_ContainerdOptions_To_api_ContainerdOptions
    : V1alpha1.ContainerdOptions → InternalApi.ContainerdOptions →
      M mem (InternalApi.ContainerdOptions) :=
  autoConvert_v1alpha1_ContainerdOptions_To_api_ContainerdOptions.

Definition autoConvert_api_ContainerdOptions_To_v1alpha1_ContainerdOptions
    (in_ : InternalApi.ContainerdOptions) (out : V1alpha1.ContainerdOptions)
    : M mem (V1alpha1.ContainerdOptions) :=
  mret {| V1alpha1.containerd_Config := InternalApi.containerd_Config in_ |}.
Definition Convert_api_ContainerdOptions_To_v1alpha1_ContainerdOptions
    : InternalApi.ContainerdOptions → V1alpha1.ContainerdOptions →
      M mem (V1alpha1.ContainerdOptions) :=
  autoConvert_api_ContainerdOptions_To_v1alpha1_ContainerdOptions.

Definition autoConvert_v1alpha1_HybridOptions_To_api_HybridOptions
    (in_ : V1alpha1.HybridOptions stored) (out : InternalApi.HybridOptions stored)
    : M mem (InternalApi.HybridOptions stored) :=
  mret {| InternalApi.EnableCredentialsFile := V1alpha1.EnableCredentialsFile in_;
          InternalApi.hybrid_IAMRolesAnywhere := unsafe_Pointer (V1alpha1.hybrid_IAMRolesAnywhere in_);
          InternalApi.hybrid_SSM := unsafe_Pointer (V1alpha1.hybrid_SSM in_) |}.
Definition Convert_v1alpha1_HybridOptions_To_api_HybridOptions
    : V1alpha1.HybridOptions stored → InternalApi.HybridOptions stored →
      M mem (InternalApi.HybridOptions stored) :=
  autoConvert_v1alpha1_HybridOptions_To_api_HybridOptions.

Definition autoConvert_api_HybridOptions_To_v1alpha1_HybridOptions
    (in_ : InternalApi.HybridOptions stored) (out : V1alpha1.HybridOptions stored)
    : M mem (V1alpha1.HybridOptions stored) :=
  mret {| V1alpha1.EnableCredentialsFile := InternalApi.EnableCredentialsFile in_;
          V1alpha1.hybrid_IAMRolesAnywhere := unsafe_Pointer (InternalApi.hybrid_IAMRolesAnywhere in_);
          V1alpha1.hybrid_SSM := unsafe_Pointer (InternalApi.hybrid_SSM in_) |}.
Definition Convert_api_HybridOptions_To_v1alpha1_HybridOptions
    : InternalApi.HybridOptions stored → V1alpha1.HybridOptions stored →
      M mem (V1alpha1.HybridOptions stored) :=
  autoConvert_api_HybridOptions_To_v1alpha1_HybridOptions.

Definition autoConvert_v1alpha1_IAMRolesAnywhere_To_api_IAMRolesAnywhere
    (in_ : V1alpha1.IAMRolesAnywhere) (out : InternalApi.IAMRolesAnywhere)
    : M mem (InternalApi.IAMRolesAnywhere) :=
  mret {| InternalApi.iam_NodeName := V1alpha1.iam_NodeName in_;
          InternalApi.TrustAnchorARN := V1alpha1.TrustAnchorARN in_;
          InternalApi.ProfileARN := V1alpha1.ProfileARN in_;
          InternalApi.RoleARN := V1alpha1.RoleARN in_;
          InternalApi.AwsConfigPath := V1alpha1.AwsConfigPath in_;
          InternalApi.CertificatePath := V1alpha1.CertificatePath in_;
          InternalApi.PrivateKeyPath := V1alpha1.PrivateKeyPath in_ |}.
Definition Convert_v1alpha1_IAMRolesAnywhere_To_api_IAMRolesAnywhere
    : V1alpha1.IAMRolesAnywhere → InternalApi.IAMRolesAnywhere →
      M mem (InternalApi.IAMRolesAnywhere) :=
  autoConvert_v1alpha1_IAMRolesAnywhere_To_api_IAMRolesAnywhere.

Definition autoConvert_api_IAMRolesAnywhere_To_v1alpha1_IAMRolesAnywhere
    (in_ : InternalApi.IAMRolesAnywhere) (out : V1alpha1.IAMRolesAnywhere)
    : M mem (V1alpha1.IAMRolesAnywhere) :=
  mret {| V1alpha1.iam_NodeName := InternalApi.iam_NodeName in_;
          V1alpha1.TrustAnchorARN := InternalApi.TrustAnchorARN in_;
          V1alpha1.ProfileARN := InternalApi.ProfileARN in_;
          V1alpha1.RoleARN := InternalApi.RoleARN in_;
          V1alpha1.AwsConfigPath := InternalApi.AwsConfigPath in_;
          V1alpha1.CertificatePath := InternalApi.CertificatePath in_;
          V1alpha1.PrivateKeyPath := InternalApi.PrivateKeyPath in_ |}.
Definition Convert_api_IAMRolesAnywhere_To_v1alpha1_IAMRolesAnywhere
    : InternalApi.IAMRolesAnywhere → V1alpha1.IAMRolesAnywhere →
      M mem (V1alpha1.IAMRolesAnywhere) :=
  autoConvert_api_IAMRolesAnywhere_To_v1alpha1_IAMRolesAnywhere.

Definition autoConvert_v1alpha1_LocalStorageOptions_To_api_LocalStorageOptions
    (in_ : V1alpha1.LocalStorageOptions) (out : InternalApi.LocalStorageOptions)
    : M mem (InternalApi.LocalStorageOptions) :=
  mret {| InternalApi.Strategy := V1alpha1.Strategy in_ |}.
Definition Convert_v1alpha1_LocalStorageOptions_To_api_LocalStorageOptions
    : V1alpha1.LocalStorageOptions → InternalApi.LocalStorageOptions →
      M mem (InternalApi.LocalStorageOptions) :=
  autoConvert_v1alpha1_LocalStorageOptions_To_api_LocalStorageOptions.

Definition autoConvert_api_LocalStorageOptions_To_v1alpha1_LocalStorageOptions
    (in_ : InternalApi.LocalStorageOptions) (out : V1alpha1.LocalStorageOptions)
    : M mem (V1alpha1.LocalStorageOptions) :=
  mret {| V1alpha1.Strategy := InternalApi.Strategy in_ |}.
Definition Convert_api_LocalStorageOptions_To_v1alpha1_LocalStorageOptions
    : InternalApi.LocalStorageOptions → V1alpha1.LocalStorageOptions →
      M mem (V1alpha1.LocalStorageOptions) :=
  autoConvert_api_LocalStorageOptions_To_v1alpha1_LocalStorageOptions.

Definition autoConvert_v1alpha1_InstanceOptions_To_api_InstanceOptions
    (in_ : V1alpha1.InstanceOptions) (out : InternalApi.InstanceOptions)
    : M mem (InternalApi.InstanceOptions) :=
  out_LocalStorage ←
    Convert_v1alpha1_LocalStorageOptions_To_api_LocalStorageOptions
      (V1alpha1.LocalStorage in_) (InternalApi.LocalStorage out);
  mret {| InternalApi.LocalStorage := out_LocalStorage |}.
Definition Convert_v1alpha1_InstanceOptions_To_api_InstanceOptions
    : V1alpha1.InstanceOptions → InternalApi.InstanceOptions →
      M mem (InternalApi.InstanceOptions) :=
  autoConvert_v1alpha1_InstanceOptions_To_api_InstanceOptions.

Definition autoConvert_api_InstanceOptions_To_v1alpha1_InstanceOptions
    (in_ : InternalApi.InstanceOptions) (out : V1alpha1.InstanceOptions)
    : M mem (V1alpha1.InstanceOptions) :=
  out_LocalStorage ←
    Convert_api_LocalStorageOptions_To_v1alpha1_LocalStorageOptions
      (InternalApi.LocalStorage in_) (V1alpha1.LocalStorage out);
  mret {| V1alpha1.LocalStorage := out_LocalStorage |}.
Definition Convert_api_InstanceOptions_To_v1alpha1_InstanceOptions
    : InternalApi.InstanceOptions → V1alpha1.InstanceOptions →
      M mem (V1alpha1.InstanceOptions) :=
  autoConvert_api_InstanceOptions_To_v1alpha1_InstanceOptions.

Definition autoConvert_v1alpha1_KubeletOptions_To_api_KubeletOptions
    (in_ : V1alpha1.KubeletOptions stored) (out : InternalApi.KubeletOptions stored)
    : M mem (InternalApi.KubeletOptions stored) :=
  mret {| InternalApi.Config := unsafe_Pointer (V1alpha1.Config in_);
          InternalApi.Flags := unsafe_Pointer (V1alpha1.Flags in_) |}.
Definition Convert_v1alpha1_KubeletOptions_To_api_KubeletOptions
    : V1alpha1.KubeletOptions stored → InternalApi.KubeletOptions stored →
      M mem (InternalApi.KubeletOptions stored) :=
  autoConvert_v1alpha1_KubeletOptions_To_api_KubeletOptions.

Definition autoConvert_api_KubeletOptions_To_v1alpha1_KubeletOptions
    (in_ : InternalApi.KubeletOptions stored) (out : V1alpha1.KubeletOptions stored)
    : M mem (V1alpha1.KubeletOptions stored) :=
  mret {| V1alpha1.Config := unsafe_Pointer (InternalApi.Config in_);
          V1alpha1.Flags := unsafe_Pointer (InternalApi.Flags in_) |}.
Definition Convert_api_KubeletOptions_To_v1alpha1_KubeletOptions
    : InternalApi.KubeletOptions stored → V1alpha1.KubeletOptions stored →
      M mem (V1alpha1.KubeletOptions stored) :=
  autoConvert_api_KubeletOptions_To_v1alpha1_KubeletOptions.

Definition autoConvert_v1alpha1_NodeConfigSpec_To_api_NodeConfigSpec
    (in_ : V1alpha1.NodeConfigSpec stored) (out : InternalApi.NodeConfigSpec stored)
    : M mem (InternalApi.NodeConfigSpec stored) :=
  out_Cluster ←
    Convert_v1alpha1_ClusterDetails_To_api_ClusterDetails
      (V1alpha1.Cluster in_) (InternalApi.Cluster out);
  out_Containerd ←
    Convert_v1alpha1_ContainerdOptions_To_api_ContainerdOptions
      (V1alpha1.Containerd in_) (InternalApi.Containerd out);
  out_Instance ←
    Convert_v1alpha1_InstanceOptions_To_api_InstanceOptions
      (V1alpha1.Instance in_) (InternalApi.Instance out);
  out_Kubelet ←
    Convert_v1alpha1_KubeletOptions_To_api_KubeletOptions
      (V1alpha1.Kubelet in_) (InternalApi.Kubelet out);
  mret {| InternalApi.Cluster := out_Cluster; InternalApi.Containerd := out_Containerd;
          InternalApi.Instance := out_Instance; InternalApi.Kubelet := out_Kubelet;
          InternalApi.Hybrid := unsafe_Pointer (V1alpha1.Hybrid in_) |}.
Definition Convert_v1alpha1_NodeConfigSpec_To_api_NodeConfigSpec
    : V1alpha1.NodeConfigSpec stored → InternalApi.NodeConfigSpec stored →
      M mem (InternalApi.NodeConfigSpec stored) :=
  autoConvert_v1alpha1_NodeConfigSpec_To_api_NodeConfigSpec.

Definition autoConvert_api_NodeConfigSpec_To_v1alpha1_NodeConfigSpec
    (in_ : InternalApi.NodeConfigSpec stored) (out : V1alpha1.NodeConfigSpec stored)
    : M mem (V1alpha1.NodeConfigSpec stored) :=
  out_Cluster ←
    Convert_api_ClusterDetails_To_v1alpha1_ClusterDetails
      (InternalApi.Cluster in_) (V1alpha1.Cluster out);
  out_Containerd ←
    Convert_api_ContainerdOptions_To_v1alpha1_ContainerdOptions
      (InternalApi.Containerd in_) (V1alpha1.Containerd out);
  out_Instance ←
    Convert_api_InstanceOptions_To_v1alpha1_InstanceOptions
      (InternalApi.Instance in_) (V1alpha1.Instance out);
  out_Kubelet ←
    Convert_api_KubeletOptions_To_v1alpha1_KubeletOptions
      (InternalApi.Kubelet in_) (V1alpha1.Kubelet out);
  mret {| V1alpha1.Cluster := out_Cluster; V1alpha1.Containerd := out_Containerd;
          V1alpha1.Instance := out_Instance; V1alpha1.Kubelet := out_Kubelet;
          V1alpha1.Hybrid := unsafe_Pointer (InternalApi.Hybrid in_) |}.
Definition Convert_api_NodeConfigSpec_To_v1alpha1_NodeConfigSpec
    : InternalApi.NodeConfigSpec stored → V1alpha1.NodeConfigSpec stored →
      M mem (V1alpha1.NodeConfigSpec stored) :=
  autoConvert_api_NodeConfigSpec_To_v1alpha1_NodeConfigSpec.

Definition autoConvert_v1alpha1_NodeConfig_To_api_NodeConfig
    (in_ : V1alpha1.NodeConfig stored) (out : InternalApi.NodeConfig stored)
    : M mem (InternalApi.NodeConfig stored) :=
  out_Spec ←
    Convert_v1alpha1_NodeConfigSpec_To_api_NodeConfigSpec
      (V1alpha1.Spec in_) (InternalApi.Spec out);
  mret {| InternalApi.config_TypeMeta := InternalApi.config_TypeMeta out;
          InternalApi.config_ObjectMeta := V1alpha1.config_ObjectMeta in_;
          InternalApi.Spec := out_Spec; InternalApi.Status := InternalApi.Status out |}.
Definition Convert_v1alpha1_NodeConfig_To_api_NodeConfig
    : V1alpha1.NodeConfig stored → InternalApi.NodeConfig stored →
      M mem (InternalApi.NodeConfig stored) :=
  autoConvert_v1alpha1_NodeConfig_To_api_NodeConfig.

Definition autoConvert_api_NodeConfig_To_v1alpha1_NodeConfig
    (in_ : InternalApi.NodeConfig stored) (out : V1alpha1.NodeConfig stored)
    : M mem (V1alpha1.NodeConfig stored) :=
  out_Spec ←
    Convert_api_NodeConfigSpec_To_v1alpha1_NodeConfigSpec
      (InternalApi.Spec in_) (V1alpha1.Spec out);
  mret {| V1alpha1.config_TypeMeta := V1alpha1.config_TypeMeta out;
          V1alpha1.config_ObjectMeta := InternalApi.config_ObjectMeta in_;
          V1alpha1.Spec := out_Spec |}.
Definition Convert_api_NodeConfig_To_v1alpha1_NodeConfig
    : InternalApi.NodeConfig stored → V1alpha1.NodeConfig stored →
      M mem (V1alpha1.NodeConfig stored) :=
  autoConvert_api_NodeConfig_To_v1alpha1_NodeConfig.

Definition autoConvert_v1alpha1_NodeConfigList_To_api_NodeConfigList
    (in_ : V1alpha1.NodeConfigList stored) (out : InternalApi.NodeConfigList stored)
    : M mem (InternalApi.NodeConfigList stored) :=
  out_Items ←
    match addr (V1alpha1.Items in_) with
    | Some l =>
        items ← load l;
        items' ← convert_items (λ i, Convert_v1alpha1_NodeConfig_To_api_NodeConfig i zero_api_NodeConfig)
          items;
        l' ← alloc (to_cell items');
        mret (Ref (Some l') : ptr stored (list (InternalApi.NodeConfig stored)))
    | None => mret nilp
    end;
  mret {| InternalApi.list_TypeMeta := InternalApi.list_TypeMeta out;
          InternalApi.list_ListMeta := V1alpha1.list_ListMeta in_;
          InternalApi.Items := out_Items |}.
Definition Convert_v1alpha1_NodeConfigList_To_api_NodeConfigList
    : V1alpha1.NodeConfigList stored → InternalApi.NodeConfigList stored →
      M mem (InternalApi.NodeConfigList stored) :=
  autoConvert_v1alpha1_NodeConfigList_To_api_NodeConfigList.

Definition autoConvert_api_NodeConfigList_To_v1alpha1_NodeConfigList
    (in_ : InternalApi.NodeConfigList stored) (out : V1alpha1.NodeConfigList stored)
    : M mem (V1alpha1.NodeConfigList stored) :=
  out_Items ←
    match addr (InternalApi.Items in_) with
    | Some l =>
        items ← load l;
        items' ← convert_items (λ i, Convert_api_NodeConfig_To_v1alpha1_NodeConfig i zero_v1alpha1_NodeConfig)
          items;
        l' ← alloc (to_cell items');
        mret (Ref (Some l') : ptr stored (list (V1alpha1.NodeConfig stored)))
    | None => mret nilp
    end;
  mret {| V1alpha1.list_TypeMeta := V1alpha1.list_TypeMeta out;
          V1alpha1.list_ListMeta := InternalApi.list_ListMeta in_;
          V1alpha1.Items := out_Items |}.
Definition Convert_api_NodeConfigList_To_v1alpha1_NodeConfigList
    : InternalApi.NodeConfigList stored → V1alpha1.NodeConfigList stored →
      M mem (V1alpha1.NodeConfigList stored) :=
  autoConvert_api_NodeConfigList_To_v1alpha1_NodeConfigList.

Definition autoConvert_v1alpha1_SSM_To_api_SSM (in_ : V1alpha1.SSM) (out : InternalApi.SSM)
    : M mem (InternalApi.SSM) :=
  mret {| InternalApi.ActivationCode := V1alpha1.ActivationCode in_;
          InternalApi.ActivationID := V1alpha1.ActivationID in_ |}.
Definition Convert_v1alpha1_SSM_To_api_SSM
    : V1alpha1.SSM → InternalApi.SSM →
      M mem (InternalApi.SSM) :=
  autoConvert_v1alpha1_SSM_To_api_SSM.

Definition autoConvert_api_SSM_To_v1alpha1_SSM (in_ : InternalApi.SSM) (out : V1alpha1.SSM)
    : M mem (V1alpha1.SSM) :=
  mret {| V1alpha1.ActivationCode := InternalApi.ActivationCode in_;
          V1alpha1.ActivationID := InternalApi.ActivationID in_ |}.
Definition Convert_api_SSM_To_v1alpha1_SSM
    : InternalApi.SSM → V1alpha1.SSM →
      M mem (V1alpha1.SSM) :=
  autoConvert_api_SSM_To_v1alpha1_SSM.

(** *** Registration *)

Inductive kind :=
  | k_ClusterDetails
  | k_ContainerdOptions
  | k_HybridOptions
  | k_IAMRolesAnywhere
  | k_InstanceOptions
  | k_KubeletOptions
  | k_LocalStorageOptions
  | k_NodeConfig
  | k_NodeConfigList
  | k_NodeConfigSpec
  | k_SSM.
Definition v1alpha1_type (k : kind) : Type :=
  match k with
  | k_ClusterDetails => V1alpha1.ClusterDetails stored
  | k_ContainerdOptions => V1alpha1.ContainerdOptions
  | k_HybridOptions => V1alpha1.HybridOptions stored
  | k_IAMRolesAnywhere => V1alpha1.IAMRolesAnywhere
  | k_InstanceOptions => V1alpha1.InstanceOptions
  | k_KubeletOptions => V1alpha1.KubeletOptions stored
  | k_LocalStorageOptions => V1alpha1.LocalStorageOptions
  | k_NodeConfig => V1alpha1.NodeConfig stored
  | k_NodeConfigList => V1alpha1.NodeConfigList stored
  | k_NodeConfigSpec => V1alpha1.NodeConfigSpec stored
  | k_SSM => V1alpha1.SSM
  end.
Definition api_type (k : kind) : Type :=
  match k with
  | k_ClusterDetails => InternalApi.ClusterDetails stored
  | k_ContainerdOptions => InternalApi.ContainerdOptions
  | k_HybridOptions => InternalApi.HybridOptions stored
  | k_IAMRolesAnywhere => InternalApi.IAMRolesAnywhere
  | k_InstanceOptions => InternalApi.InstanceOptions
  | k_KubeletOptions => InternalApi.KubeletOptions stored
  | k_LocalStorageOptions => InternalApi.LocalStorageOptions
  | k_NodeConfig => InternalApi.NodeConfig stored
  | k_NodeConfigList => InternalApi.NodeConfigList stored
  | k_NodeConfigSpec => InternalApi.NodeConfigSpec stored
  | k_SSM => InternalApi.SSM
  end.
Inductive conversion :=
  | v1alpha1_to_api k (f : v1alpha1_type k → api_type k → M mem (api_type k))
  | api_to_v1alpha1 k (f : api_type k → v1alpha1_type k → M mem (v1alpha1_type k)).

(** [RegisterConversions], with the scheme's [AddGeneratedConversionFunc]. *)
Definition RegisterConversions {Scheme} 
    (AddGeneratedConversionFunc : Scheme → conversion → result Scheme) (s : Scheme) : result Scheme :=
  s ← AddGeneratedConversionFunc s (v1alpha1_to_api k_ClusterDetails
    Convert_v1alpha1_ClusterDetails_To_api_ClusterDetails);
  s ← AddGeneratedConversionFunc s (api_to_v1alpha1 k_ClusterDetails
    Convert_api_ClusterDetails_To_v1alpha1_ClusterDetails);
  s ← AddGeneratedConversionFunc s (v1alpha1_to_api k_ContainerdOptions
    Convert_v1alpha1_ContainerdOptions_To_api_ContainerdOptions);
  s ← AddGeneratedConversionFunc s (api_to_v1alpha1 k_ContainerdOptions
    Convert_api_ContainerdOptions_To_v1alpha1_ContainerdOptions);
  s ← AddGeneratedConversionFunc s (v1alpha1_to_api k_HybridOptions
    Convert_v1alpha1_HybridOptions_To_api_HybridOptions);
  s ← AddGeneratedConversionFunc s (api_to_v1alpha1 k_HybridOptions
    Convert_api_HybridOptions_To_v1alpha1_HybridOptions);
  s ← AddGeneratedConversionFunc s (v1alpha1_to_api k_IAMRolesAnywhere
    Convert_v1alpha1_IAMRolesAnywhere_To_api_IAMRolesAnywhere);
  s ← AddGeneratedConversionFunc s (api_to_v1alpha1 k_IAMRolesAnywhere
    Convert_api_IAMRolesAnywhere_To_v1alpha1_IAMRolesAnywhere);
  s ← AddGeneratedConversionFunc s (v1alpha1_to_api k_InstanceOptions
    Convert_v1alpha1_InstanceOptions_To_api_InstanceOptions);
  s ← AddGeneratedConversionFunc s (api_to_v1alpha1 k_InstanceOptions
    Convert_api_InstanceOptions_To_v1alpha1_InstanceOptions);
  s ← AddGeneratedConversionFunc s (v1alpha1_to_api k_KubeletOptions
    Convert_v1alpha1_KubeletOptions_To_api_KubeletOptions);
  s ← AddGeneratedConversionFunc s (api_to_v1alpha1 k_KubeletOptions
    Convert_api_KubeletOptions_To_v1alpha1_KubeletOptions);
  s ← AddGeneratedConversionFunc s (v1alpha1_to_api k_LocalStorageOptions
    Convert_v1alpha1_LocalStorageOptions_To_api_LocalStorageOptions);
  s ← AddGeneratedConversionFunc s (api_to_v1alpha1 k_LocalStorageOptions
    Convert_api_LocalStorageOptions_To_v1alpha1_LocalStorageOptions);
  s ← AddGeneratedConversionFunc s (v1alpha1_to_api k_NodeConfig
    Convert_v1alpha1_NodeConfig_To_api_NodeConfig);
  s ← AddGeneratedConversionFunc s (api_to_v1alpha1 k_NodeConfig
    Convert_api_NodeConfig_To_v1alpha1_NodeConfig);
  s ← AddGeneratedConversionFunc s (v1alpha1_to_api k_NodeConfigList
    Convert_v1alpha1_NodeConfigList_To_api_NodeConfigList);
  s ← AddGeneratedConversionFunc s (api_to_v1alpha1 k_NodeConfigList
    Convert_api_NodeConfigList_To_v1alpha1_NodeConfigList);
  s ← AddGeneratedConversionFunc s (v1alpha1_to_api k_NodeConfigSpec
    Convert_v1alpha1_NodeConfigSpec_To_api_NodeConfigSpec);
  s ← AddGeneratedConversionFunc s (api_to_v1alpha1 k_NodeConfigSpec
    Convert_api_NodeConfigSpec_To_v1alpha1_NodeConfigSpec);
  s ← AddGeneratedConversionFunc s (v1alpha1_to_api k_SSM
    Convert_v1alpha1_SSM_To_api_SSM);
  s ← AddGeneratedConversionFunc s (api_to_v1alpha1 k_SSM
    Convert_api_SSM_To_v1alpha1_SSM);
  mret s.
End Bridge.

(** ** What is converted

    The versioned value as the value of the internal type, field by field. *)

Section Converted.
Context `{MetaTypes}.

Definition api_iam (i : V1alpha1.IAMRolesAnywhere) : InternalApi.IAMRolesAnywhere :=
  {|
    InternalApi.iam_NodeName := V1alpha1.iam_NodeName i;
    InternalApi.TrustAnchorARN := V1alpha1.TrustAnchorARN i;
    InternalApi.ProfileARN := V1alpha1.ProfileARN i;
    InternalApi.RoleARN := V1alpha1.RoleARN i;
    InternalApi.AwsConfigPath := V1alpha1.AwsConfigPath i;
    InternalApi.CertificatePath := V1alpha1.CertificatePath i;
    InternalApi.PrivateKeyPath := V1alpha1.PrivateKeyPath i |}.
Definition api_ssm (s : V1alpha1.SSM) : InternalApi.SSM :=
  {|
    InternalApi.ActivationCode := V1alpha1.ActivationCode s;
    InternalApi.ActivationID := V1alpha1.ActivationID s |}.
Definition api_cluster (c : V1alpha1.ClusterDetails value) : InternalApi.ClusterDetails value :=
  {|
    InternalApi.cluster_Name := V1alpha1.cluster_Name c;
    InternalApi.cluster_Region := V1alpha1.cluster_Region c;
    InternalApi.APIServerEndpoint := V1alpha1.APIServerEndpoint c;
    InternalApi.CertificateAuthority := V1alpha1.CertificateAuthority c;
    InternalApi.CIDR := V1alpha1.CIDR c;
    InternalApi.EnableOutpost := V1alpha1.EnableOutpost c;
    InternalApi.cluster_ID := V1alpha1.cluster_ID c |}.
Definition api_kubelet (k : V1alpha1.KubeletOptions value) : InternalApi.KubeletOptions value :=
  {|
    InternalApi.Config := V1alpha1.Config k; InternalApi.Flags := V1alpha1.Flags k |}.
Definition api_hybrid (h : V1alpha1.HybridOptions value) : InternalApi.HybridOptions value := {|
    InternalApi.EnableCredentialsFile := V1alpha1.EnableCredentialsFile h;
    InternalApi.hybrid_IAMRolesAnywhere := (api_iam <$> V1alpha1.hybrid_IAMRolesAnywhere h : ptr value _);
    InternalApi.hybrid_SSM := (api_ssm <$> V1alpha1.hybrid_SSM h : ptr value _) |}.
Definition api_spec (s : V1alpha1.NodeConfigSpec value) : InternalApi.NodeConfigSpec value := {|
    InternalApi.Cluster := api_cluster (V1alpha1.Cluster s);
    InternalApi.Containerd :=
      {| InternalApi.containerd_Config := V1alpha1.containerd_Config (V1alpha1.Containerd s) |};
    InternalApi.Instance :=
      {| InternalApi.LocalStorage :=
           {| InternalApi.Strategy := V1alpha1.Strategy (V1alpha1.LocalStorage (V1alpha1.Instance s)) |} |};
    InternalApi.Kubelet := api_kubelet (V1alpha1.Kubelet s);
    InternalApi.Hybrid := (api_hybrid <$> V1alpha1.Hybrid s : ptr value _) |}.
(** The type is the target's own, and so is the status, which the versioned
    type does not have. *)
Definition api_config (t : TypeMeta) (st : InternalApi.NodeConfigStatus) (c : V1alpha1.NodeConfig value)
    : InternalApi.NodeConfig value := {|
    InternalApi.config_TypeMeta := t;
    InternalApi.config_ObjectMeta := V1alpha1.config_ObjectMeta c;
    InternalApi.Spec := api_spec (V1alpha1.Spec c);
    InternalApi.Status := st |}.
End Converted.

Section Theorems.
Context `{Apimachinery}.

(** Reinterpreting a pointer is sound when the two types have one layout. *)
Lemma cast_denotes {A B V W} `{!Cell A, !Cell B, !Denotes A V, !Denotes B W} (f : A → B) (g : V → W) m
    (p : ptr stored A) (v : option V) :
  (∀ a, to_cell (f a) = to_cell a) →
  (∀ a v, denotes m a v → denotes m (f a) (g v)) →
  denotes m p v → denotes m (unsafe_Pointer p : ptr stored B) (g <$> v).
Proof.
  intros Hc Hd. destruct p as [[l|]], v as [v|]; cbn; try done.
  intros (a & Hl & Ha). exists (f a). rewrite Hc. split; [done|by apply Hd].
Qed.

(** What is behind the pointer to the hybrid options, read as the internal
    type. *)
Definition cast_hybrid (h : V1alpha1.HybridOptions stored) : InternalApi.HybridOptions stored := {|
    InternalApi.EnableCredentialsFile := V1alpha1.EnableCredentialsFile h;
    InternalApi.hybrid_IAMRolesAnywhere := unsafe_Pointer (V1alpha1.hybrid_IAMRolesAnywhere h);
    InternalApi.hybrid_SSM := unsafe_Pointer (V1alpha1.hybrid_SSM h) |}.
Lemma hybrid_denotes m (p : ptr stored (V1alpha1.HybridOptions stored)) (v : option (V1alpha1.HybridOptions value)) :
  denotes m p v →
  denotes m (unsafe_Pointer p : ptr stored (InternalApi.HybridOptions stored)) (api_hybrid <$> v).
Proof.
  apply (cast_denotes cast_hybrid api_hybrid); [done|].
  intros a h (He & Hi & Hs). split; [done|]. split.
  - apply (cast_denotes api_iam api_iam); [done| |done]. intros ? ? ->. done.
  - apply (cast_denotes api_ssm api_ssm); [done| |done]. intros ? ? ->. done.
Qed.

Lemma Convert_shared in_ out :
  ∃ y,
    (∀ m, Convert_v1alpha1_NodeConfig_To_api_NodeConfig in_ out m = (Return y, m)) ∧
    ∀ m v, denotes m in_ v →
      denotes m y (api_config (InternalApi.config_TypeMeta out) (InternalApi.Status out) v).
Proof.
  eexists. split; [intros m; reflexivity|]. intros m v (_ & Ho & Hs & Hc & Hi & Hk & Hh).
  split; [done|]. split; [done|]. split; [|done]. split; [done|]. split; [|split; [|split; [done|]]].
  - cbn in Hc |- *. by rewrite Hc.
  - cbn in Hi |- *. by rewrite Hi.
  - by apply hybrid_denotes.
Qed.

(** C23. Converting a versioned configuration to the internal type allocates
    nothing and shares everything: in every memory, so also after any later
    stores, its result denotes the value the argument denotes there,
    converted field by field, and nothing else; the type and the status of
    the target stay as they were.  The reinterpreted pointers are sound
    because the two versions lay out the hybrid options alike. *)
Theorem Convert_equivalence in_ out :
  ∃ y,
    (∀ m, Convert_v1alpha1_NodeConfig_To_api_NodeConfig in_ out m = (Return y, m)) ∧
    ∀ m v w, denotes m in_ v →
      (denotes m y w ↔ w = api_config (InternalApi.config_TypeMeta out) (InternalApi.Status out) v).
Proof.
  destruct (Convert_shared in_ out) as (y & Hy & Hd). exists y. split; [done|].
  intros m v w Hv%Hd. split; [|by intros ->]. intros Hw. by eapply denotes_fun.
Qed.

(** C36. Converting there and back gives the specification and the metadata
    that were converted, pointers included, whatever the two targets hold,
    and keeps the target's type. *)
Theorem Convert_roundtrip in_ out out' m :
  (y ← Convert_v1alpha1_NodeConfig_To_api_NodeConfig in_ out;
   Convert_api_NodeConfig_To_v1alpha1_NodeConfig y out') m =
  (Return {| V1alpha1.config_TypeMeta := V1alpha1.config_TypeMeta out';
             V1alpha1.config_ObjectMeta := V1alpha1.config_ObjectMeta in_;
             V1alpha1.Spec := V1alpha1.Spec in_ |}, m).
Proof. by destruct in_ as [t o [[] [] [[]] [] ?]]. Qed.

(** A list is converted item by item, into an array of its own. *)
Lemma convert_items_spec l m vs :
  denotes m l vs →
  ∃ l', convert_items (λ i, Convert_v1alpha1_NodeConfig_To_api_NodeConfig i zero_api_NodeConfig) l m
          = (Return l', m) ∧
    denotes m l' (api_config (InternalApi.config_TypeMeta zero_api_NodeConfig) zero_NodeConfigStatus <$> vs).
Proof.
  induction 1 as [|x v l vs Hx _ (l' & Hl & IH)]; [exists []; split; [done|constructor]|].
  destruct (Convert_shared x zero_api_NodeConfig) as (y & Hy & Hd).
  exists (y :: l'). split; [|constructor; [by apply Hd|exact IH]].
  cbn [convert_items]. unfold mbind, M_bind. by rewrite Hy, Hl.
Qed.
Lemma Convert_list in_ out m v :
  denotes m in_ v →
  allocates (Convert_v1alpha1_NodeConfigList_To_api_NodeConfigList in_ out) m (λ m' y,
    ∀ m'', m ∪ m' ⊆ m'' → denotes m'' y {|
      InternalApi.list_TypeMeta := InternalApi.list_TypeMeta out;
      InternalApi.list_ListMeta := V1alpha1.list_ListMeta v;
      InternalApi.Items := (fmap (M := list) (api_config (InternalApi.config_TypeMeta zero_api_NodeConfig)
        zero_NodeConfigStatus) <$> V1alpha1.Items v : ptr value _) |}).
Proof.
  destruct in_ as [t lm [[l|]]], v as [t' lv [vs|]]; intros (_ & Hlm & Hi); cbn in Hi; try done.
  - destruct Hi as (items & Hl & HF). destruct (convert_items_spec items m vs HF) as (items' & Hc & HF').
    destruct out as [to lo io]. unfold Convert_v1alpha1_NodeConfigList_To_api_NodeConfigList.
    unfold autoConvert_v1alpha1_NodeConfigList_To_api_NodeConfigList; cbn [addr V1alpha1.Items].
    eapply allocates_bind with (P := λ m' p, ∃ l', p = Ref (Some l') ∧ m' = {[l' := to_cell items']}).
    + eapply allocates_read; [apply load_spec, Hl|]. eapply allocates_read; [exact Hc|].
      eapply allocates_bind; [apply allocates_alloc|]. intros l' ? -> _. apply allocates_ret.
      intros _. exists l'. by rewrite (right_id_L ∅ (∪)).
    + intros ? ? (l' & -> & ->) Hd. apply allocates_ret. intros _ m'' Hm.
      rewrite (right_id_L ∅ (∪)) in Hm. split; [done|]. split; [|exists items'; split].
      * eapply denotes_mono; [|exact Hlm]. etrans; [apply map_union_subseteq_l|exact Hm].
      * eapply lookup_weaken; [|exact Hm]. apply lookup_union_Some_r; [done|]. apply lookup_singleton_eq.
      * eapply denotes_mono; [|exact HF']. etrans; [apply map_union_subseteq_l|exact Hm].
  - apply allocates_ret. intros m'' Hm. split; [done|]. split; [|done].
    eapply denotes_mono; [|exact Hlm]. etrans; [apply map_union_subseteq_l|exact Hm].
Qed.

(** The rest of the library sees the node the user described. *)
Lemma converted_kind raw_json t st (v : V1alpha1.NodeConfig value) :
  let nc := of_value raw_json (api_config t st v) in
  Types.IsHybridNode nc = V1alpha1.IsHybridNode v ∧
  Types.IsOutpostNode nc = V1alpha1.IsOutpostNode v.
Proof. by destruct v as [? ? [[] ? ? ? [h|]]]. Qed.
End Theorems.

Section Witness.
Import Plain.

(** A configuration with an SSM activation at address 1, behind the hybrid
    options at 2. *)
Definition ssm_options : V1alpha1.HybridOptions stored :=
  {| V1alpha1.EnableCredentialsFile := true; V1alpha1.hybrid_IAMRolesAnywhere := nilp;
     V1alpha1.hybrid_SSM := at_ 1%positive |}.
Definition ssm_activation : V1alpha1.SSM :=
  {| V1alpha1.ActivationCode := "code"; V1alpha1.ActivationID := "id" |}.
Definition ssm_mem : mem :=
  <[1%positive := to_cell ssm_activation]> {[2%positive := to_cell ssm_options]}.
Definition with_hybrid {V : view} (meta_ : meta V) (k : V1alpha1.KubeletOptions V) (ca : ptr V string)
    (outpost : ptr V bool) (h : ptr V (V1alpha1.HybridOptions V)) : V1alpha1.NodeConfig V := {|
  V1alpha1.config_TypeMeta := {| Kind := "NodeConfig"; APIVersion := "node.eks.aws/v1alpha1" |};
  V1alpha1.config_ObjectMeta := meta_;
  V1alpha1.Spec := {|
    V1alpha1.Cluster := {|
      V1alpha1.cluster_Name := "prod"; V1alpha1.cluster_Region := "us-west-2";
      V1alpha1.APIServerEndpoint := ""; V1alpha1.CertificateAuthority := ca; V1alpha1.CIDR := "";
      V1alpha1.EnableOutpost := outpost; V1alpha1.cluster_ID := "" |};
    V1alpha1.Containerd := {| V1alpha1.containerd_Config := "" |};
    V1alpha1.Instance := {| V1alpha1.LocalStorage := {| V1alpha1.Strategy := "" |} |};
    V1alpha1.Kubelet := k;
    V1alpha1.Hybrid := h |} |}.
Definition ssm_in : V1alpha1.NodeConfig stored :=
  with_hybrid ("example" : meta stored) {| V1alpha1.Config := nilp; V1alpha1.Flags := nilp |} nilp nilp
    (at_ 2%positive).
Definition ssm_v : V1alpha1.NodeConfig value :=
  with_hybrid ("example" : meta value)
    {| V1alpha1.Config := (None : ptr value _); V1alpha1.Flags := None |} (None : ptr value string) None
    (Some {| V1alpha1.EnableCredentialsFile := true;
             V1alpha1.hybrid_IAMRolesAnywhere := (None : ptr value _);
             V1alpha1.hybrid_SSM := Some ssm_activation |}).

Lemma Convert_equivalence_witness :
  ∃ y, Convert_v1alpha1_NodeConfig_To_api_NodeConfig ssm_in zero_api_NodeConfig ssm_mem = (Return y, ssm_mem) ∧
    ∃ w, denotes ssm_mem y w ∧
      InternalApi.hybrid_SSM <$> InternalApi.Hybrid (InternalApi.Spec w) =
        Some (Some {| InternalApi.ActivationCode := "code"; InternalApi.ActivationID := "id" |}).
Proof.
  destruct (Convert_equivalence ssm_in zero_api_NodeConfig) as (y & Hy & Hd).
  exists y. split; [apply Hy|]. eexists. split; [eapply Hd; [|reflexivity]|].
  - instantiate (1 := ssm_v). do 2 (split; [reflexivity|]).
    split; [by repeat split|]. do 2 (split; [reflexivity|]). split; [by repeat split|].
    exists ssm_options. split; [reflexivity|]. split; [reflexivity|]. split; [exact I|].
    by exists ssm_activation.
  - reflexivity.
Defined.
End Witness.
