(* ===== verification/Host.v ===== *)
(** * The host the tool runs on

    Files, external commands and services as the code sees them through
    Go's [os], [path], [os/exec] and [net/http] packages.  The state keeps
    the file system, the tracker value the process holds in memory, the
    journal of every call that leaves the process, oldest first, and the
    state of the node provider, which its daemons and validations share.

    What the outside world answers is the class [Env]: any call may fail,
    and a failing call may leave the file system in any state.  Since the
    answers may depend on the whole journal, a theorem over all [Env] covers
    every interleaving with the outside world that the calls can observe. *)

From S2P Require Import Prelude GoStrings Scanner.
From S2P Require Export Types.
#[local] Open Scope Z_scope.

(** ** Package path

    [path.Clean], [Join] and [Dir]; on Linux [path/filepath] is the same. *)

Fixpoint clean_parts (rooted : bool) (parts : list string) (stack : list string)
    : list string :=
  match parts with
  | [] => reverse stack
  | p :: parts =>
      if String.eqb p "" || String.eqb p "." then clean_parts rooted parts stack
      else if String.eqb p ".." then
        match stack with
        | [] => clean_parts rooted parts (if rooted then [] else [".."])
        | top :: rest =>
            if String.eqb top ".." then clean_parts rooted parts (".." :: stack)
            else clean_parts rooted parts rest
        end
      else clean_parts rooted parts (p :: stack)
  end.

Definition path_Clean (p : string) : string :=
  let rooted := HasPrefix p "/" in
  let out := (if rooted then "/" else "") +:+
             Join (clean_parts rooted (Split "/" p) []) "/" in
  if String.eqb out "" then "." else out.

Definition path_Join (elems : list string) : string :=
  match keep (λ e, negb (String.eqb e "")) elems with
  | [] => ""
  | es => path_Clean (Join es "/")
  end.

(** [path.Dir]: all but the last element. *)
Definition path_Dir (p : string) : string :=
  path_Clean match CutLast "/" p with
             | Some (dir, _) => dir +:+ "/"
             | None => ""
             end.

Definition path_Base (p : string) : string :=
  match CutLast "/" p with Some (_, f) => f | None => p end.

(** *** Absolute paths by their components *)

(** A component that [path.Clean] keeps as it is. *)
Definition plain (d : string) : Prop :=
  d ≠ "" ∧ d ≠ "." ∧ d ≠ ".." ∧ free_of "/" d = true.
(** The absolute path with components [ds]. *)
Definition abs (ds : list string) : string := "/" +:+ Join ds "/".

Lemma clean_parts_plain r ds ps st :
  Forall plain ds → clean_parts r (ds ++ ps) st = clean_parts r ps (reverse ds ++ st).
Proof.
  intros Hd. revert st. induction Hd as [|d ds (H1 & H2 & H3 & _) _ IH]; intros st; [done|].
  cbn [app clean_parts]. rewrite !(proj2 (String.eqb_neq _ _)) by done. cbn [orb].
  by rewrite IH, reverse_cons, <- app_assoc.
Qed.

Lemma plain_free ds : Forall plain ds → Forall (λ w, free_of "/" w = true) ds.
Proof. intros H. eapply Forall_impl; [exact H|]. by intros d (_ & _ & _ & ?). Qed.

(** Joining a relative path to an absolute one cleans the components. *)
Lemma path_Join_abs ds p :
  ds ≠ [] → Forall plain ds → p ≠ "" →
  path_Join [abs ds; p] = abs (clean_parts true (Split "/" p) (reverse ds)).
Proof.
  intros Hne Hd Hp. unfold path_Join. cbn [keep].
  rewrite (proj2 (String.eqb_neq p "")) by done.
  assert (abs ds ≠ "") as Ha by done. rewrite (proj2 (String.eqb_neq (abs ds) "")) by done.
  cbn [negb Join]. unfold path_Clean.
  assert (abs ds +:+ "/" +:+ p = Join ("" :: ds ++ Split "/" p) "/") as ->.
  { rewrite <- (Join_Split "/" p) at 1. unfold abs.
    destruct ds as [|d ds]; [done|]. cbn [app]. rewrite Join_cons, app_nil_l_str.
    change (d :: ds ++ ?l) with ((d :: ds) ++ l).
    rewrite Join_app by (done || apply Split_nonempty). by rewrite app_assoc_str. }
  assert (HasPrefix (Join ("" :: ds ++ Split "/" p) "/") "/" = true) as ->.
  { destruct ds; [done|]. apply HasPrefix_spec. by eexists. }
  change "/" with (String "/" "") at 2. rewrite Split_Join; [|done|].
  2:{ constructor; [done|]. apply Forall_app_2; [by apply plain_free|apply Split_parts_free]. }
  cbn [clean_parts]. cbn [String.eqb orb]. rewrite clean_parts_plain, app_nil_r by done.
  unfold abs. by rewrite (proj2 (String.eqb_neq _ _)) by done.
Qed.

(** ** Files

    Regular files and directories by absolute path; the paths the tool
    opens are taken not to be symbolic links. *)

Inductive file :=
  | File (data : string) (perm : Z)
  | Dir (perm : Z).

#[export] Instance file_eq_dec : EqDecision file.
Proof. solve_decision. Defined.

Abbreviation files := (gmap string file).

(** The containerd source is a string type in Go. *)
Record InstalledArtifacts := {
  Containerd : string;
  CniPlugins : bool;
  IamAuthenticator : bool;
  IamRolesAnywhere : bool;
  ImageCredentialProvider : bool;
  Kubectl : bool;
  Kubelet : bool;
  Ssm : bool;
  Iptables : bool;
}.

(** ** Calls that leave the process *)

Inductive event :=
  | EvRemoveAll (path : string)
  | EvRemove (path : string)
  | EvMkdirAll (path : string) (perm : Z)
  | EvCreate (path : string) (perm : Z)
  | EvWrite (path data : string)
  | EvRead (path : string)
  | EvStat (path : string)
  | EvGet (uri : string)
  | EvRun (cmd : string) (args : list string)
  | EvDaemon (op name : string)
  | EvCall (what : string).

#[export] Instance event_eq_dec : EqDecision event.
Proof. solve_decision. Defined.

Record Host := {
  fs : files;
  tracker : InstalledArtifacts;
  journal : list event;
  provider : ProviderState;
}.

Class Env := {
  (** [None]: the call succeeds. *)
  fault : Host → event → option (error * files);
  (** The output of a command, and the error its exit status gives. *)
  run_output : Host → string → list string → string * option error;
  (** One HTTP GET: the status code and the body, with the error reading
      the body may end with. *)
  http_do : Host → string → result (Z * (string * option error));
  (** [http.NewRequest] on a malformed URL. *)
  bad_url : string → option error;
  (** The files a command leaves. *)
  run_effect : Host → string → list string → files;
  (** [exec.LookPath]: where the program is, if installed. *)
  look_path : Host → string → option string;
  (** How many back-off waits elapse before the caller's context is done. *)
  ticks : Host → nat;
  (** The bytes a reader of an open file got before a read failed. *)
  read_part : Host → string → string;
}.

Definition record (ev : event) (h : Host) : Host :=
  {| fs := fs h; tracker := tracker h; journal := journal h ++ [ev]; provider := provider h |}.
Definition set_fs (f : files) (h : Host) : Host :=
  {| fs := f; tracker := tracker h; journal := journal h; provider := provider h |}.
Definition set_tracker (a : InstalledArtifacts) (h : Host) : Host :=
  {| fs := fs h; tracker := a; journal := journal h; provider := provider h |}.

Definition set_provider (p : ProviderState) (h : Host) : Host :=
  {| fs := fs h; tracker := tracker h; journal := journal h; provider := p |}.

(** A call with effect [eff] on the files when the environment lets it. *)
Definition sys `{Env} (ev : event) (eff : files → result files) : M Host unit :=
  λ h, match fault h ev with
       | Some (e, f) => (Throw e, set_fs f (record ev h))
       | None =>
           match eff (fs h) with
           | Ok f => (Return tt, set_fs f (record ev h))
           | Err e => (Throw e, record ev h)
           end
       end.

(** ** Package os *)

(** [p] is below [dir] or is [dir] itself. *)
Definition under (dir p : string) : bool :=
  String.eqb p dir || HasPrefix p (if String.eqb dir "/" then "/" else dir +:+ "/").

Definition remove_all (p : string) (f : files) : files :=
  if String.eqb p "" then f else filter (λ kv, under p kv.1 = false) f.

Definition is_dir (f : files) (p : string) : bool :=
  String.eqb p "/" || match f !! p with Some (Dir _) => true | _ => false end.

(** The directories from the first component of [p] down to [p]. *)
Fixpoint prefixes_from (acc : string) (parts : list string) : list string :=
  match parts with
  | [] => []
  | p :: parts =>
      let q := acc +:+ "/" +:+ p in q :: prefixes_from q parts
  end.
Definition ancestors (p : string) : list string :=
  prefixes_from "" (keep (λ s, negb (String.eqb s "")) (Split "/" p)).

Definition mkdir1 (perm : Z) (f : result files) (d : string) : result files :=
  f ← f;
  match f !! d with
  | None => Ok (<[d := Dir perm]> f)
  | Some (File _ _) => Err (ENew ("mkdir " +:+ d +:+ ": not a directory"))
  | Some _ => Ok f
  end.
Definition mkdir_all (p : string) (perm : Z) (f : files) : result files :=
  fold_left (mkdir1 perm) (ancestors p) (Ok f).

(** Creating or truncating a file for writing. *)
Definition create (p : string) (perm : Z) (f : files) : result files :=
  match f !! p with
  | Some (Dir _) => Err (ENew ("open " +:+ p +:+ ": is a directory"))
  | Some (File _ perm0) => Ok (<[p := File "" perm0]> f)
  | None => if is_dir f (path_Dir p) then Ok (<[p := File "" perm]> f)
            else Err (ENotExist p)
  end.

(** Writing at the end of an open file. *)
Definition append (p data : string) (f : files) : result files :=
  match f !! p with
  | Some (File d perm) => Ok (<[p := File (d +:+ data) perm]> f)
  | _ => Err (ENotExist p)
  end.

Definition read_file (f : files) (p : string) : result string :=
  match f !! p with
  | Some (File d _) => Ok d
  | Some (Dir _) => Err (ENew ("read " +:+ p +:+ ": is a directory"))
  | None => Err (ENotExist p)
  end.

Section Os.
Context `{Env}.

Definition os_RemoveAll (p : string) : M Host unit :=
  sys (EvRemoveAll p) (λ f, Ok (remove_all p f)).
(** A directory is removed only when it is empty. *)
Definition has_entries (f : files) (p : string) : bool :=
  existsb (λ kv, HasPrefix kv.1 (p +:+ "/")) (map_to_list f).
Definition os_Remove (p : string) : M Host unit :=
  sys (EvRemove p) (λ f,
    match f !! p with
    | Some _ => if has_entries f p then Err (ENew ("remove " +:+ p +:+ ": directory not empty"))
                else Ok (delete p f)
    | None => Err (ENotExist p)
    end).
Definition os_MkdirAll (p : string) (perm : Z) : M Host unit :=
  sys (EvMkdirAll p perm) (mkdir_all p perm).
Definition os_Create (p : string) (perm : Z) : M Host unit :=
  sys (EvCreate p perm) (create p perm).
Definition file_Write (p data : string) : M Host unit :=
  sys (EvWrite p data) (append p data).
Definition os_WriteFile (p data : string) (perm : Z) : M Host unit :=
  os_Create p perm;; file_Write p data.
Definition os_ReadFile (p : string) : M Host string :=
  sys (EvRead p) (λ f, Ok f);;
  f ← gets fs;
  of_result (read_file f p).

(** [os.OpenFile] of what is there, for reading or also for writing. *)
Definition os_Open (write : bool) (p : string) : M Host unit :=
  sys (EvCall ("open " +:+ p)) (λ f,
    match f !! p with
    | Some (File _ _) => Ok f
    | Some (Dir _) => if write then Err (ENew ("open " +:+ p +:+ ": is a directory")) else Ok f
    | None => Err (ENotExist p)
    end).
(** The loop [for scanner.Scan()] over an open file, when the code does not
    look at [scanner.Err]: after a failed read it ends with the lines of what
    was read before. *)
Definition scan_file (p : string) : M Host (list string) :=
  r ← try (os_ReadFile p);
  match r with
  | Ok data => mret (scan_lines data)
  | Err _ => gets (λ h, scan_lines (read_part h p))
  end.

(** [os.Stat] as existence; a fault other than not-existing is an error. *)
Definition os_Stat (p : string) : M Host unit :=
  sys (EvStat p) (λ f, if is_dir f p then Ok f else
    match f !! p with Some _ => Ok f | None => Err (ENotExist p) end).

(** [exec.Command(cmd, args...)] run to the end: its combined output. *)
Definition run_raw (cmd : string) (args : list string) (h : Host)
    : (string * option error) * Host :=
  (run_output h cmd args, set_fs (run_effect h cmd args) (record (EvRun cmd args) h)).
Definition run_command (cmd : string) (args : list string) : M Host string :=
  λ h, match run_raw cmd args h with
       | ((out, None), h') => (Return out, h')
       | ((_, Some e), h') => (Throw e, h')
       end.

(** A call to a service that only answers success or an error. *)
Definition external (ev : event) : M Host unit := sys ev (λ f, Ok f).
(** An answer of a service, by the journal entry of the request. *)
Definition call {A} (what : string) (answer : Host → result A) : M Host A :=
  external (EvCall what);;
  r ← gets answer;
  of_result r.
End Os.

(** ** Lemmas *)

Lemma sys_Return `{Env} ev eff h h' u :
  sys ev eff h = (Return u, h') →
  ∃ f, eff (fs h) = Ok f ∧ h' = set_fs f (record ev h).
Proof.
  unfold sys. destruct (fault h ev) as [[e f]|]; [done|].
  destruct (eff (fs h)) as [f|e]; [|done]. intros [= <- <-]. eauto.
Qed.

Lemma sys_tracker `{Env} ev eff h o h' :
  sys ev eff h = (o, h') → tracker h' = tracker h ∧ journal h' = journal h ++ [ev].
Proof.
  unfold sys. destruct (fault h ev) as [[e f]|]; [by intros [= <- <-]|].
  destruct (eff (fs h)); by intros [= <- <-].
Qed.

Lemma os_WriteFile_Return `{Env} p data perm h h' u :
  os_WriteFile p data perm h = (Return u, h') →
  read_file (fs h') p = Ok data ∧ tracker h' = tracker h ∧
  (∀ q, q ≠ p → fs h' !! q = fs h !! q) ∧
  journal h' = journal h ++ [EvCreate p perm; EvWrite p data].
Proof.
  intros HW. unfold os_WriteFile in HW. apply bind_Return in HW as ([] & h1 & HC & HA).
  apply sys_Return in HC as (f1 & HC & ->). apply sys_Return in HA as (f2 & HA & ->).
  cbn [fs set_fs record tracker journal] in *. unfold create in HC. unfold append in HA.
  assert (∃ perm', f1 = <[p := File "" perm']> (fs h)) as [perm' ->]
    by (destruct (fs h !! p) as [[|]|]; [| |destruct (is_dir _ _)]; simplify_eq; eauto).
  rewrite lookup_insert_eq in HA. injection HA as <-.
  split; [by unfold read_file; rewrite lookup_insert_eq|]. split; [done|].
  split; [intros q Hq; by rewrite !lookup_insert_ne|]. by rewrite <- app_assoc.
Qed.

Lemma os_ReadFile_Return `{Env} p data h h' :
  os_ReadFile p h = (Return data, h') →
  read_file (fs h) p = Ok data ∧ h' = record (EvRead p) h.
Proof.
  unfold os_ReadFile. intros HR. apply bind_Return in HR as ([] & h1 & Hs & HR).
  apply sys_Return in Hs as (f & [= <-] & ->). unfold gets, of_result in HR.
  cbv [mbind M_bind] in HR. cbn [fs set_fs record] in HR.
  destruct (read_file (fs h) p); [|done]. injection HR as <- <-. by destruct h.
Qed.

Lemma remove_all_lookup p q f :
  p ≠ "" → remove_all p f !! q = if under p q then None else f !! q.
Proof.
  intros Hp. unfold remove_all. rewrite (proj2 (String.eqb_neq _ _)) by done.
  destruct (under p q) eqn:E.
  - apply map_lookup_filter_None. right. intros x _. cbn. by rewrite E.
  - destruct (f !! q) eqn:L.
    + by apply map_lookup_filter_Some.
    + apply map_lookup_filter_None. by left.
Qed.

Lemma under_refl p : under p p = true.
Proof. unfold under. by rewrite String.eqb_refl. Qed.

(** [os.MkdirAll] only adds missing directories on the way. *)
Lemma mkdir1_dirs perm ds f f' :
  fold_left (mkdir1 perm) ds f = Ok f' →
  ∃ f0, f = Ok f0 ∧ ∀ q, f' !! q = f0 !! q ∨
    f0 !! q = None ∧ q ∈ ds ∧ f' !! q = Some (Dir perm).
Proof.
  revert f. induction ds as [|d ds IH]; intros f Hf; cbn in Hf; [exists f'; eauto|].
  destruct (IH _ Hf) as (f1 & Hd & Hq). unfold mkdir1 in Hd.
  destruct f as [f0|e]; [|done]. exists f0. split; [done|]. intros q. cbn in Hd.
  assert (f1 = f0 ∨ f0 !! d = None ∧ f1 = <[d:=Dir perm]> f0) as [->|[Hn ->]]
    by (destruct (f0 !! d) as [[|]|]; simplify_eq; eauto).
  - destruct (Hq q) as [E|(E1 & E2 & E3)]; [by left|right]. set_solver.
  - destruct (decide (q = d)) as [->|Hqd].
    + right. split; [done|]. split; [by left|].
      destruct (Hq d) as [E|(E1 & _)]; by rewrite lookup_insert_eq in *.
    + destruct (Hq q) as [E|(E1 & E2 & E3)]; rewrite lookup_insert_ne in * by done;
        [by left|right; set_solver].
Qed.

Lemma mkdir_all_dirs p perm f f' :
  mkdir_all p perm f = Ok f' →
  ∀ q, f' !! q = f !! q ∨ f !! q = None ∧ q ∈ ancestors p ∧ f' !! q = Some (Dir perm).
Proof. intros Hm. apply mkdir1_dirs in Hm as (f0 & [= <-] & Hq). done. Qed.

(** ** What a program does to the journal and to the tracker

    [journaled P m]: whatever happens, [m] only adds events to the journal
    and each of them satisfies [P]. *)
Definition journaled {A} (P : event → Prop) (m : M Host A) : Prop :=
  ∀ h o h', m h = (o, h') → ∃ evs, journal h' = journal h ++ evs ∧ Forall P evs.

(** [keeps_tracker m]: the tracker in memory is not changed. *)
Definition keeps_tracker {A} (m : M Host A) : Prop :=
  ∀ h o h', m h = (o, h') → tracker h' = tracker h.

Section Journal.
Context (P : event → Prop).

Lemma journaled_pure {A} (f : Host → outcome A) : journaled P (λ h, (f h, h)).
Proof. intros h o h' [= <- <-]. exists []. by rewrite app_nil_r. Qed.

Lemma journaled_bind {A B} (m : M Host A) (k : A → M Host B) :
  journaled P m → (∀ a, journaled P (k a)) → journaled P (m ≫= k).
Proof.
  intros Hm Hk h o h' H. unfold mbind, M_bind in H.
  destruct (m h) as [[a|e|] h1] eqn:E; destruct (Hm _ _ _ E) as (e1 & J1 & F1).
  - destruct (Hk _ _ _ _ H) as (e2 & J2 & F2). exists (e1 ++ e2).
    rewrite J2, J1, app_assoc. split; [done|by apply Forall_app_2].
  - injection H as <- <-. eauto.
  - injection H as <- <-. eauto.
Qed.

Lemma journaled_map_err {A} f (m : M Host A) : journaled P m → journaled P (map_err f m).
Proof.
  intros Hm h o h' H. unfold map_err in H.
  destruct (m h) as [[a|e|] h1] eqn:E; injection H as <- <-; eauto.
Qed.

Lemma journaled_try {A} (m : M Host A) : journaled P m → journaled P (try m).
Proof.
  intros Hm h o h' H. unfold try in H.
  destruct (m h) as [[a|e|] h1] eqn:E; injection H as <- <-; eauto.
Qed.

Lemma journaled_for_each {A} (f : A → M Host unit) l :
  (∀ x, x ∈ l → journaled P (f x)) → journaled P (for_each f l).
Proof.
  induction l as [|x l IH]; intros Hf; [apply journaled_pure|].
  apply journaled_bind; [apply Hf; by left|]. intros _. apply IH.
  intros y Hy. apply Hf. by right.
Qed.

Lemma journaled_when (b : bool) m : journaled P m → journaled P (when b m).
Proof. destruct b; [done|intros _; apply journaled_pure]. Qed.

Lemma journaled_sys `{Env} ev eff : P ev → journaled P (sys ev eff).
Proof.
  intros HP h o h' E. apply sys_tracker in E as [_ ->]. exists [ev].
  split; [done|by constructor].
Qed.

Lemma journaled_run `{Env} cmd args : P (EvRun cmd args) → journaled P (run_command cmd args).
Proof.
  intros HP h o h' E. unfold run_command, run_raw in E. destruct (run_output _ _ _) as [out [e|]];
    injection E as <- <-; exists [EvRun cmd args]; (split; [done|by constructor]).
Qed.
End Journal.

Lemma journaled_modify P (f : Host → Host) :
  (∀ h, journal (f h) = journal h) → journaled P (modify f).
Proof. intros Hf h o h' [= <- <-]. exists []. by rewrite Hf, app_nil_r. Qed.

Lemma journaled_impl {A} (P Q : event → Prop) (m : M Host A) :
  (∀ e, P e → Q e) → journaled P m → journaled Q m.
Proof.
  intros HPQ Hm h o h' E. destruct (Hm _ _ _ E) as (evs & J & F).
  exists evs. split; [done|]. eapply Forall_impl; [exact F|auto].
Qed.

Lemma keeps_tracker_pure {A} (f : Host → outcome A) : keeps_tracker (λ h, (f h, h)).
Proof. by intros h o h' [= <- <-]. Qed.

Lemma keeps_tracker_bind {A B} (m : M Host A) (k : A → M Host B) :
  keeps_tracker m → (∀ a, keeps_tracker (k a)) → keeps_tracker (m ≫= k).
Proof.
  intros Hm Hk h o h' E. unfold mbind, M_bind in E.
  destruct (m h) as [[a|e|] h1] eqn:Em; apply Hm in Em.
  - apply Hk in E. congruence.
  - by injection E as <- <-.
  - by injection E as <- <-.
Qed.

Lemma keeps_tracker_map_err {A} f (m : M Host A) :
  keeps_tracker m → keeps_tracker (map_err f m).
Proof.
  intros Hm h o h' E. unfold map_err in E.
  destruct (m h) as [[a|e|] h1] eqn:Em; injection E as <- <-; by apply Hm in Em.
Qed.

Lemma keeps_tracker_try {A} (m : M Host A) : keeps_tracker m → keeps_tracker (try m).
Proof.
  intros Hm h o h' E. unfold try in E.
  destruct (m h) as [[a|e|] h1] eqn:Em; injection E as <- <-; by apply Hm in Em.
Qed.

Lemma keeps_tracker_for_each {A} (f : A → M Host unit) l :
  (∀ x, keeps_tracker (f x)) → keeps_tracker (for_each f l).
Proof.
  intros Hf. induction l as [|x l IH]; [apply keeps_tracker_pure|].
  by apply keeps_tracker_bind.
Qed.

Lemma keeps_tracker_when (b : bool) m : keeps_tracker m → keeps_tracker (when b m).
Proof. destruct b; [done|intros _; apply keeps_tracker_pure]. Qed.

Lemma keeps_tracker_sys `{Env} ev eff : keeps_tracker (sys ev eff).
Proof. intros h o h' E. by apply sys_tracker in E as [-> _]. Qed.

Lemma keeps_tracker_run `{Env} cmd args : keeps_tracker (run_command cmd args).
Proof.
  intros h o h' E. unfold run_command, run_raw in E.
  destruct (run_output _ _ _) as [out [e|]]; by injection E as <- <-.
Qed.

(** [preserves R m]: [m] goes from a host to one related by [R], a preorder
    that allows for files that change and events that are recorded. *)
Class HostOrder (R : Host → Host → Prop) := {
  order_pre : PreOrder R;
  order_fs f h : R h (set_fs f h);
  order_record ev h : R h (record ev h);
}.
#[export] Existing Instance order_pre.
Definition preserves {A} (R : Host → Host → Prop) (m : M Host A) : Prop :=
  ∀ h o h', m h = (o, h') → R h h'.

Section Preserves.
Context (R : Host → Host → Prop) `{!PreOrder R}.

Lemma preserves_pure {A} (f : Host → outcome A) : preserves R (λ h, (f h, h)).
Proof. by intros h o h' [= <- <-]. Qed.
Lemma preserves_bind {A B} (m : M Host A) (k : A → M Host B) :
  preserves R m → (∀ a, preserves R (k a)) → preserves R (m ≫= k).
Proof.
  intros Hm Hk h o h' E. unfold mbind, M_bind in E.
  destruct (m h) as [[a|e|] h1] eqn:Em; apply Hm in Em; [apply Hk in E; by etrans| |];
    by injection E as <- <-.
Qed.
Lemma preserves_map_err {A} f (m : M Host A) : preserves R m → preserves R (map_err f m).
Proof.
  intros Hm h o h' E. unfold map_err in E.
  destruct (m h) as [[a|e|] h1] eqn:Em; injection E as <- <-; by apply Hm in Em.
Qed.
Lemma preserves_try {A} (m : M Host A) : preserves R m → preserves R (try m).
Proof.
  intros Hm h o h' E. unfold try in E.
  destruct (m h) as [[a|e|] h1] eqn:Em; injection E as <- <-; by apply Hm in Em.
Qed.
Lemma preserves_for_each {A} (f : A → M Host unit) l :
  (∀ x, preserves R (f x)) → preserves R (for_each f l).
Proof.
  intros Hf. induction l as [|x l IH]; [apply preserves_pure|]. by apply preserves_bind.
Qed.
Lemma preserves_when (b : bool) m : preserves R m → preserves R (when b m).
Proof. destruct b; [done|intros _; apply preserves_pure]. Qed.
Lemma preserves_sys `{!HostOrder R} `{Env} ev eff : preserves R (sys ev eff).
Proof.
  intros h o h' E. unfold sys in E.
  destruct (fault h ev) as [[e f]|]; [|destruct (eff (fs h))]; injection E as <- <-;
    try apply order_record; (etrans; [apply order_record|apply order_fs]).
Qed.
Lemma preserves_run `{!HostOrder R} `{Env} cmd args : preserves R (run_command cmd args).
Proof.
  intros h o h' E. unfold run_command, run_raw in E.
  destruct (run_output _ _ _) as [out [e|]]; injection E as <- <-;
    (etrans; [apply order_record|apply order_fs]).
Qed.
End Preserves.

(** The state that the node provider keeps. *)
Definition same_provider (h h' : Host) : Prop := provider h' = provider h.
#[export] Instance same_provider_order : HostOrder same_provider.
Proof.
  split; [split; [by intros ?|intros h1 h2 h3 H1 H2; by transitivity (provider h2)]|done|done].
Qed.

(** [no_panic m]: no run of [m] ends in a run-time panic. *)
Definition no_panic {A} (m : M Host A) : Prop := ∀ h h', m h ≠ (Panic, h').

Lemma no_panic_bind {A B} (m : M Host A) (k : A → M Host B) :
  no_panic m → (∀ a, no_panic (k a)) → no_panic (m ≫= k).
Proof.
  intros Hm Hk h h' E. unfold mbind, M_bind in E.
  destruct (m h) as [[a|e|] h1] eqn:Em; [by apply Hk in E|done|by apply Hm in Em].
Qed.

Lemma no_panic_map_err {A} f (m : M Host A) : no_panic m → no_panic (map_err f m).
Proof.
  intros Hm h h' E. unfold map_err in E.
  destruct (m h) as [[a|e|] h1] eqn:Em; [done|done|by apply Hm in Em].
Qed.

Lemma no_panic_try {A} (m : M Host A) : no_panic m → no_panic (try m).
Proof.
  intros Hm h h' E. unfold try in E.
  destruct (m h) as [[a|e|] h1] eqn:Em; [done|done|by apply Hm in Em].
Qed.

Lemma no_panic_for_each {A} (f : A → M Host unit) l :
  (∀ x, x ∈ l → no_panic (f x)) → no_panic (for_each f l).
Proof.
  induction l as [|x l IH]; intros Hf; [done|].
  apply no_panic_bind; [apply Hf; by left|]. intros _. apply IH.
  intros y Hy. apply Hf. by right.
Qed.

Lemma no_panic_when (b : bool) m : no_panic m → no_panic (when b m).
Proof. by destruct b. Qed.

Lemma no_panic_sys `{Env} ev eff : no_panic (sys ev eff).
Proof.
  intros h h'. unfold sys. destruct (fault h ev) as [[]|]; [done|]. by destruct (eff (fs h)).
Qed.

Lemma no_panic_run `{Env} cmd args : no_panic (run_command cmd args).
Proof.
  intros h h'. unfold run_command, run_raw. by destruct (run_output _ _ _) as [out [e|]].
Qed.

Lemma no_panic_of_result {A} (r : result A) : no_panic (of_result (S:=Host) r).
Proof. by destruct r. Qed.

(** [host_tac] proves [journaled], [keeps_tracker] and [no_panic] goals by following the
    program; the events' own conditions are left, simplified by [naive_solver]. *)
Ltac host_step :=
  match goal with
  | |- journaled _ (_ ≫= _) => apply journaled_bind; [|intros ?]
  | |- journaled _ (map_err _ _) => apply journaled_map_err
  | |- journaled _ (try _) => apply journaled_try
  | |- journaled _ (for_each _ _) => apply journaled_for_each; intros ? ?
  | |- journaled _ (when _ _) => apply journaled_when
  | |- journaled _ (sys _ _) => apply journaled_sys
  | |- journaled _ (run_command _ _) => apply journaled_run
  | |- journaled _ (mret _) => apply journaled_pure
  | |- journaled _ (throw _) => apply journaled_pure
  | |- journaled _ panic => apply journaled_pure
  | |- journaled _ (gets _) => apply (journaled_pure _ (λ h, Return _))
  | |- journaled _ (of_result _) => apply (journaled_pure _ (λ _, _))
  | |- journaled _ (of_option ?o) =>
      destruct o; [exact (journaled_pure _ (λ _, Throw _))|exact (journaled_pure _ (λ _, Return tt))]
  | |- journaled _ (match ?x with _ => _ end) => destruct x
  | |- keeps_tracker (_ ≫= _) => apply keeps_tracker_bind; [|intros ?]
  | |- keeps_tracker (map_err _ _) => apply keeps_tracker_map_err
  | |- keeps_tracker (try _) => apply keeps_tracker_try
  | |- keeps_tracker (for_each _ _) => apply keeps_tracker_for_each; intros ?
  | |- keeps_tracker (when _ _) => apply keeps_tracker_when
  | |- keeps_tracker (sys _ _) => apply keeps_tracker_sys
  | |- keeps_tracker (run_command _ _) => apply keeps_tracker_run
  | |- keeps_tracker (mret _) => apply keeps_tracker_pure
  | |- keeps_tracker (throw _) => apply keeps_tracker_pure
  | |- keeps_tracker panic => apply keeps_tracker_pure
  | |- keeps_tracker (gets _) => apply (keeps_tracker_pure (λ h, Return _))
  | |- keeps_tracker (of_result _) => apply (keeps_tracker_pure (λ _, _))
  | |- keeps_tracker (of_option ?o) =>
      destruct o; [exact (keeps_tracker_pure (λ _, Throw _))|exact (keeps_tracker_pure (λ _, Return tt))]
  | |- keeps_tracker (match ?x with _ => _ end) => destruct x
  | |- preserves _ (_ ≫= _) => apply preserves_bind; [apply _| |intros ?]
  | |- preserves _ (map_err _ _) => apply preserves_map_err
  | |- preserves _ (try _) => apply preserves_try
  | |- preserves _ (for_each _ _) => apply preserves_for_each; [apply _|intros ?]
  | |- preserves _ (when _ _) => apply preserves_when; [apply _|]
  | |- preserves _ (sys _ _) => apply preserves_sys; apply _
  | |- preserves _ (run_command _ _) => apply preserves_run; apply _
  | |- preserves _ (mret _) => apply preserves_pure; apply _
  | |- preserves _ (throw _) => apply preserves_pure; apply _
  | |- preserves _ panic => apply preserves_pure; apply _
  | |- preserves _ (gets _) => apply (preserves_pure _ (λ h, Return _))
  | |- preserves _ (of_result _) => apply (preserves_pure _ (λ _, _))
  | |- preserves _ (of_option ?o) =>
      destruct o; [exact (preserves_pure _ (λ _, Throw _))|exact (preserves_pure _ (λ _, Return tt))]
  | |- preserves _ (match ?x with _ => _ end) => destruct x
  | |- no_panic (_ ≫= _) => apply no_panic_bind; [|intros ?]
  | |- no_panic (map_err _ _) => apply no_panic_map_err
  | |- no_panic (try _) => apply no_panic_try
  | |- no_panic (for_each _ _) => apply no_panic_for_each; intros ? ?
  | |- no_panic (when _ _) => apply no_panic_when
  | |- no_panic (sys _ _) => apply no_panic_sys
  | |- no_panic (run_command _ _) => apply no_panic_run
  | |- no_panic (mret _) => by intros ? ?
  | |- no_panic (throw _) => by intros ? ?
  | |- no_panic (gets _) => by intros ? ?
  | |- no_panic (of_result _) => apply no_panic_of_result
  | |- no_panic (match ?x with _ => _ end) => destruct x
  | _ => progress cbv [os_RemoveAll os_Remove os_MkdirAll os_Create file_Write
                       os_WriteFile os_ReadFile os_Stat os_Open scan_file external]
  end.
Ltac host_tac :=
  repeat host_step;
  repeat match goal with
  | |- journaled _ _ => eauto with nodeadm
  | |- keeps_tracker _ => eauto with nodeadm
  | |- preserves _ _ => eauto with nodeadm
  end.

(** An environment in which every call succeeds, commands print nothing and
    every URL is empty; used to evaluate the programs. *)
#[export] Instance calm : Env := {|
  fault _ _ := None;
  run_output _ _ _ := ("", None);
  run_effect h _ _ := fs h;
  http_do _ _ := Ok (200, ("", None));
  bad_url _ := None;
  look_path _ _ := None;
  ticks _ := 0%nat; read_part _ _ := "";
|}.

Definition no_artifacts : InstalledArtifacts :=
  {| Containerd := ""; CniPlugins := false; IamAuthenticator := false;
     IamRolesAnywhere := false; ImageCredentialProvider := false; Kubectl := false;
     Kubelet := false; Ssm := false; Iptables := false |}.
