(* ===== verification/HttpFile.v ===== *)
(** * HTTP downloads (internal/util/net.go) *)

From S2P Require Import Prelude GoStrings Host.
#[local] Open Scope Z_scope.

Section Http.
Context `{Env}.

(** One request of [http.DefaultClient]. *)
Definition http_get (uri : string) : M Host (Z * (string * option error)) :=
  λ h, let h' := record (EvGet uri) h in
       match http_do h uri with
       | Ok r => (Return r, h')
       | Err e => (Throw e, h')
       end.

(** [retryHttpClient.Do]: [maxRetries] requests until one answers 200. *)
Fixpoint retryHttp_Do (maxRetries : nat) (uri : string) (err : option error)
    : M Host (string * option error) :=
  match maxRetries with
  | O => throw match err with
               | Some e => EWrap ("max retries achieved for http request: " +:+ uri +:+ " ") e
               | None => ENew ("max retries achieved for http request: " +:+ uri +:+ " : %!w(<nil>)")
               end
  | S n =>
      r ← try (http_get uri);
      match r with
      | Err e => retryHttp_Do n uri (Some e)
      | Ok (status, body) =>
          if status =? 200 then mret body
          else retryHttp_Do n uri (Some (ENew ("unexpected status code: " +:+ Itoa status)))
      end
  end.

Definition GetHttpFileReader (uri : string) : M Host (string * option error) :=
  match bad_url uri with
  | Some e => throw (EWrap ("failed creating request from url: " +:+ uri) e)
  | None => map_err (EWrap ("failed reading file from url: " +:+ uri)) (retryHttp_Do 3 uri None)
  end.

Definition GetHttpFile (uri : string) : M Host string :=
  '(data, err) ← GetHttpFileReader uri;
  match err with
  | None => mret data
  | Some e => throw (EWrap ("failed reading file from url: " +:+ uri) e)
  end.

Lemma retryHttp_Do_spec n uri err h o h' :
  retryHttp_Do n uri err h = (o, h') →
  fs h' = fs h ∧ tracker h' = tracker h ∧
  ∃ k, (k <= n)%nat ∧ journal h' = journal h ++ replicate k (EvGet uri) ∧
    match o with
    | Return body => ∃ h0, http_do h0 uri = Ok (200, body)
    | Throw _ => k = n
    | Panic => False
    end.
Proof.
  revert err h. induction n as [|n IH]; intros err h E; cbn in E.
  - injection E as <- <-. split; [done|]. split; [done|]. exists 0%nat.
    by rewrite app_nil_r.
  - cbv [mbind M_bind try http_get] in E.
    assert (∀ err', retryHttp_Do n uri err' (record (EvGet uri) h) = (o, h') →
      fs h' = fs h ∧ tracker h' = tracker h ∧
      ∃ k, (k <= S n)%nat ∧ journal h' = journal h ++ replicate k (EvGet uri) ∧
        match o with
        | Return body => ∃ h0, http_do h0 uri = Ok (200, body)
        | Throw _ => k = S n
        | Panic => False
        end) as Hrec.
    { intros err' E'. apply IH in E' as (Hf & Ht & k & Hk & Hj & Ho).
      split; [done|]. split; [done|]. exists (S k). split; [lia|].
      rewrite Hj. cbn. rewrite <- app_assoc. split; [done|].
      destruct o; [done|by subst|done]. }
    destruct (http_do h uri) as [[status body]|e] eqn:Eh; cbn in E; [|by eapply Hrec].
    destruct (Z.eqb_spec status 200) as [->|]; [|by eapply Hrec].
    injection E as <- <-. split; [done|]. split; [done|]. exists 1%nat.
    split; [lia|]. split; [done|]. eauto.
Qed.

(** A reader is obtained after at most three requests, all for the given
    URL, the last of which answered 200; nothing on the host changes. *)
Lemma GetHttpFileReader_spec uri h o h' :
  GetHttpFileReader uri h = (o, h') →
  fs h' = fs h ∧ tracker h' = tracker h ∧
  ∃ k, (k <= 3)%nat ∧ journal h' = journal h ++ replicate k (EvGet uri) ∧
    match o with
    | Return body => ∃ h0, http_do h0 uri = Ok (200, body)
    | Throw _ => True
    | Panic => False
    end.
Proof.
  unfold GetHttpFileReader. destruct (bad_url uri) as [e|].
  - intros [= <- <-]. split; [done|]. split; [done|]. exists 0%nat.
    split; [lia|]. by rewrite app_nil_r.
  - intros E. unfold map_err in E. destruct (retryHttp_Do 3 uri None h) as [o1 h1] eqn:E1.
    apply retryHttp_Do_spec in E1 as (Hf & Ht & k & Hk & Hj & Ho).
    destruct o1; injection E as <- <-; (split; [done|]); (split; [done|]); by exists k.
Qed.

Lemma GetHttpFile_Return uri data h h' :
  GetHttpFile uri h = (Return data, h') →
  fs h' = fs h ∧ tracker h' = tracker h ∧ ∃ h0, http_do h0 uri = Ok (200, (data, None)).
Proof.
  unfold GetHttpFile. intros E. apply bind_Return in E as ([d err] & h1 & E1 & E).
  apply GetHttpFileReader_spec in E1 as (Hf & Ht & k & _ & _ & h0 & Hd).
  destruct err; [done|]. injection E as <- <-. eauto.
Qed.

Lemma GetHttpFileReader_frame uri h o h' :
  GetHttpFileReader uri h = (o, h') → fs h' = fs h ∧ tracker h' = tracker h ∧ o ≠ Panic.
Proof. intros E. apply GetHttpFileReader_spec in E as (? & ? & k & _ & _ & ?). by destruct o. Qed.

Lemma GetHttpFile_frame uri h o h' :
  GetHttpFile uri h = (o, h') → fs h' = fs h ∧ tracker h' = tracker h ∧ o ≠ Panic.
Proof.
  unfold GetHttpFile. cbv [mbind M_bind]. intros E.
  destruct (GetHttpFileReader uri h) as [[[d err]|e|] h1] eqn:E1;
    apply GetHttpFileReader_frame in E1 as (Hf & Ht & Hp); [|by injection E as <- <-..].
  destruct err; by injection E as <- <-.
Qed.
End Http.
