(* ===== verification/Semver.v ===== *)
(** * Semantic versions (golang.org/x/mod/semver)

    A library the code calls: the class states its documented behaviour, and
    [plain_semver] is a concrete version order on [vX], [vX.Y] and [vX.Y.Z]
    with components below a million, used to evaluate the programs. *)

From S2P Require Import Prelude GoStrings.
#[local] Open Scope Z_scope.

Class Semver := {
  semver_IsValid : string → bool;
  semver_MajorMinor : string → string;
  semver_Compare : string → string → Z;
  (** [Compare] is a total preorder. *)
  semver_refl v : semver_Compare v v = 0;
  semver_flip v w : semver_Compare v w < 0 ↔ 0 < semver_Compare w v;
  semver_trans u v w :
    0 <= semver_Compare u v → 0 <= semver_Compare v w → 0 <= semver_Compare u w;
}.

Lemma semver_total `{Semver} v w : semver_Compare v w < 0 → 0 <= semver_Compare w v.
Proof. intros Hc%semver_flip. lia. Qed.

(** ** A concrete order *)

Definition number (s : string) : option Z :=
  match ParseUint s 32 with Ok n => Some n | Err _ => None end.

Definition version_parts (v : string) : option (list Z) :=
  match CutPrefix v "v" with
  | (s, true) =>
      let parts := Split "." s in
      if (List.length parts <=? 3)%nat then mapM number parts else None
  | _ => None
  end.

Definition version_key (v : string) : Z :=
  match version_parts v with
  | Some l =>
      1 + default 0 (l !! 0%nat) * 1000000000000 + default 0 (l !! 1%nat) * 1000000
        + default 0 (l !! 2%nat)
  | None => 0
  end.

Definition version_mm (v : string) : string :=
  match version_parts v, Split "." v with
  | Some _, a :: b :: _ => a +:+ "." +:+ b
  | Some _, [a] => a +:+ ".0"
  | _, _ => ""
  end.

#[export, refine] Instance plain_semver : Semver := {|
  semver_IsValid v := if version_parts v is Some _ then true else false;
  semver_MajorMinor := version_mm;
  semver_Compare v w := Z.sgn (version_key v - version_key w);
|}.
Proof.
  - intros v. by rewrite Z.sub_diag.
  - intros v w. destruct (Z.sgn_spec (version_key v - version_key w)),
      (Z.sgn_spec (version_key w - version_key v)); lia.
  - intros u v w. destruct (Z.sgn_spec (version_key u - version_key v)),
      (Z.sgn_spec (version_key v - version_key w)),
      (Z.sgn_spec (version_key u - version_key w)); lia.
Defined.

Example semver_examples :
  semver_Compare "v1.30.0" "v1.9.2" = 1 ∧ semver_MajorMinor "v1.31.4" = "v1.31" ∧
  semver_IsValid "v1.x" = false.
Proof. by vm_compute. Qed.
