(* ===== verification/Validation.v ===== *)
(** * Validation framework (internal/validation, internal/errors)

    The validation runner, its error types and the two informers.  A
    validation receives the informer and a pointer to a copy of the object
    under validation, so it is a program over the pair of that copy and the
    rest of the world [W]; a validation that writes through the pointer
    changes the first component. *)

From S2P Require Import Prelude GoStrings.

(** ** Error classification (error.go, internal/errors/silent.go) *)

Definition NewRemediableErr (err remediation : string) : error :=
  ERemediable (ENew err) remediation.
Definition WithRemediation (err : error) (remediation : string) : error :=
  ERemediable err remediation.
Definition NewWarning (err remediation : string) : error :=
  EWarning (ENew err) remediation.
Definition WithWarning (err : error) (remediation : string) : error :=
  EWarning err remediation.

(** [err.(Remediable)]: both [remediableError] and [warningError] have a
    [Remediation] method; the assertion does not look through wrapping. *)
Definition IsRemediable (e : error) : bool :=
  match e with ERemediable _ _ | EWarning _ _ => true | _ => false end.
Definition Remediation (e : error) : string :=
  match e with ERemediable _ r | EWarning _ r => r | _ => "" end.
Definition IsWarning (e : error) : bool :=
  match e with EWarning _ _ => true | _ => false end.

Definition NewSilent (e : error) : error := ESilent e.
Definition IsSilent (e : error) : bool :=
  match e with ESilent _ => true | _ => false end.

(** [Unwrap]: one level, and only for [errors.Join] values. *)
Definition Unwrap (e : error) : list error :=
  match e with EJoin es => es | _ => [e] end.

(** ** The runner (runner.go) *)

(** The [Informer] interface. *)
Record Informer (W : Type) := {
  Starting : string → string → M W unit;
  Done : string → option error → M W unit;
}.
Arguments Starting {_} _ _ _.
Arguments Done {_} _ _ _.

Section Runner.
(** [O] is the validated type; [reflect.DeepEqual] decides its equality. *)
Context {O W : Type} `{EqDecision O}.

Definition Validate : Type := Informer W → M (O * W) unit.

Record Validation := New { Name : string; validate : Validate }.

Record RunnerConfig := { skipValidations : list string }.
Definition RunnerOpt : Type := RunnerConfig → RunnerConfig.

Record Runner := {
  validations : list Validation;
  informer : Informer W;
  config : RunnerConfig;
}.

Definition WithSkipValidations (namesToSkip : list string) : RunnerOpt :=
  λ c, {| skipValidations := skipValidations c ++ namesToSkip |}.

Definition NewRunner (i : Informer W) (opts : list RunnerOpt) : Runner :=
  {| validations := []; informer := i;
     config := fold_left (λ c opt, opt c) opts {| skipValidations := [] |} |}.

Definition shouldRegister (r : Runner) (name : string) : bool :=
  negb (existsb (λ skip, String.eqb skip name) (skipValidations (config r))).

Definition Register (r : Runner) (vs : list Validation) : Runner :=
  fold_left (λ r v,
    if shouldRegister r (Name v)
    then {| validations := validations r ++ [v]; informer := informer r;
            config := config r |}
    else r) vs r.

(** The loop of [Sequentially]: every validation runs, whatever the ones
    before it returned; the non-warning errors are collected. *)
Fixpoint run_validations (i : Informer W) (vs : list Validation)
    (errs : list error) : M (O * W) (list error) :=
  match vs with
  | [] => mret errs
  | v :: vs =>
      err ← try (validate v i);
      run_validations i vs
        match err with
        | Ok _ => errs
        | Err e => errs ++ keep (λ e, negb (IsWarning e)) (Unwrap e)
        end
  end.

Definition Sequentially (r : Runner) (obj : O) : M W unit :=
  λ w,
    match run_validations (informer r) (validations r) [] (obj, w) with
    | (Return errs, (copyObj, w')) =>
        if decide (obj = copyObj) then of_option (errors_Join errs) w'
        else (Panic, w')
    | (Throw e, (_, w')) => (Throw e, w')
    | (Panic, (_, w')) => (Panic, w')
    end.

(** [UntilError]: a fixed list of validates run until one fails. *)
Definition UntilError (vs : list Validate) : Validate :=
  λ i, for_each (λ v, v i) vs.

Definition Runner_UntilError (r : Runner) (vs : list Validation) : Validation :=
  let accepted := keep (λ v, shouldRegister r (Name v)) vs in
  New ("until-error-" +:+ Join (Name <$> accepted) "/")
      (UntilError (validate <$> accepted)).

(** ** Specification of a run

    [runs i vs s rs s']: started in [s], the validations [vs] return [rs]
    in order, none panics, and [s'] is the state after the last one. *)
Inductive runs (i : Informer W) :
    list Validation → O * W → list (result unit) → O * W → Prop :=
  | runs_nil s : runs i [] s [] s
  | runs_ok v vs s s' rs s'' :
      validate v i s = (Return tt, s') → runs i vs s' rs s'' →
      runs i (v :: vs) s (Ok tt :: rs) s''
  | runs_err v vs s e s' rs s'' :
      validate v i s = (Throw e, s') → runs i vs s' rs s'' →
      runs i (v :: vs) s (Err e :: rs) s''.

(** The errors of a list of results that make a run fail. *)
Definition blocking (rs : list (result unit)) : list error :=
  rs ≫= λ r, match r with
             | Ok _ => []
             | Err e => keep (λ e, negb (IsWarning e)) (Unwrap e)
             end.

(** [inv_runs E]: inversion of a run whose first validation is known by [E]. *)
Local Ltac inv_runs E :=
  match goal with
  | H : runs _ (_ :: _) _ _ _ |- _ =>
      inversion H; subst;
      match goal with H' : validate _ _ _ = _ |- _ =>
        rewrite H' in E; simplify_eq end
  end.

Lemma run_validations_Return i vs errs s errs' s' :
  run_validations i vs errs s = (Return errs', s') ↔
  ∃ rs, runs i vs s rs s' ∧ errs' = errs ++ blocking rs.
Proof.
  revert errs s. induction vs as [|v vs IH]; intros errs s; cbn.
  - split.
    + intros [= <- <-]. exists []. split; [constructor|by rewrite app_nil_r].
    + intros (rs & Hr & ->). inversion Hr; subst. cbn. by rewrite app_nil_r.
  - cbv [mbind M_bind try]. destruct (validate v i s) as [[[]|e|] s1] eqn:E; cbn.
    + rewrite IH. split.
      * intros (rs & Hr & ->). exists (Ok tt :: rs). split; [by econstructor|done].
      * intros (rs & Hr & ->). inv_runs E. by eexists.
    + rewrite IH. split.
      * intros (rs & Hr & ->). exists (Err e :: rs).
        split; [by econstructor|]. cbn. by rewrite <- app_assoc.
      * intros (rs & Hr & ->). inv_runs E.
        eexists. split; [done|]. cbn. by rewrite <- app_assoc.
    + split; [done|]. intros (rs & Hr & _). by inv_runs E.
Qed.

Lemma run_validations_no_Throw i vs errs s e s' :
  run_validations i vs errs s ≠ (Throw e, s').
Proof.
  revert errs s. induction vs as [|v vs IH]; intros errs s; cbn; [done|].
  cbv [mbind M_bind try]. destruct (validate v i s) as [[[]|e'|] s1]; auto.
Qed.

Lemma blocking_nil rs :
  blocking rs = [] ↔
  ∀ e, Err e ∈ rs → Forall (λ e, IsWarning e = true) (Unwrap e).
Proof.
  unfold blocking. induction rs as [|r rs IH]; cbn; [set_solver|].
  rewrite app_nil, IH. destruct r as [a|e]; cbn.
  - setoid_rewrite elem_of_cons. naive_solver.
  - rewrite keep_nil_iff. setoid_rewrite negb_false_iff.
    setoid_rewrite elem_of_cons. naive_solver.
Qed.

Lemma Sequentially_runs r obj w rs copy w' :
  runs (informer r) (validations r) (obj, w) rs (copy, w') →
  Sequentially r obj w =
    if decide (obj = copy) then of_option (errors_Join (blocking rs)) w'
    else (Panic, w').
Proof.
  intros H. unfold Sequentially.
  by rewrite (proj2 (run_validations_Return _ _ [] _ (blocking rs) (copy, w'))) by eauto.
Qed.

Lemma Sequentially_Return_runs r obj w w' :
  Sequentially r obj w = (Return tt, w') →
  ∃ rs copy, runs (informer r) (validations r) (obj, w) rs (copy, w').
Proof.
  unfold Sequentially.
  destruct (run_validations _ _ _ _) as [[errs|e|] [copy w1]] eqn:E; [|done..].
  apply run_validations_Return in E as (rs & Hr & ->).
  case_decide; [|done]. intros Hj. exists rs, copy.
  by destruct (errors_Join _); inversion Hj; subst.
Qed.

(** [Sequentially] reports success exactly when every validation ran
    without a panic, the object was not modified, and every error of every
    validation is a warning once [errors.Join] is unfolded one level; the
    runner stops early for none of them. *)
Theorem Sequentially_ok_iff r obj w w' :
  Sequentially r obj w = (Return tt, w') ↔
  ∃ rs, runs (informer r) (validations r) (obj, w) rs (obj, w') ∧
        ∀ e, Err e ∈ rs → Forall (λ e, IsWarning e = true) (Unwrap e).
Proof.
  setoid_rewrite <- blocking_nil. split.
  - intros H. destruct (Sequentially_Return_runs _ _ _ _ H) as (rs & copy & Hr).
    rewrite (Sequentially_runs _ _ _ _ _ _ Hr) in H.
    case_decide; [subst copy|done]. exists rs. split; [done|].
    by destruct (blocking rs).
  - intros (rs & Hr & HB). rewrite (Sequentially_runs _ _ _ _ _ _ Hr), HB.
    by rewrite decide_True by done.
Qed.

Lemma Register_spec r vs :
  validations (Register r vs) =
    validations r ++ keep (λ v, shouldRegister r (Name v)) vs ∧
  config (Register r vs) = config r ∧ informer (Register r vs) = informer r.
Proof.
  revert r. induction vs as [|v vs IH]; intros r; cbn.
  - by rewrite app_nil_r.
  - destruct (shouldRegister r (Name v)) eqn:E;
      destruct (IH (if shouldRegister r (Name v) then
          {| validations := validations r ++ [v]; informer := informer r; config := config r |}
          else r)) as (IHv & IHc & IHi); rewrite E in *;
      unfold Register in *; rewrite IHv, IHc, IHi; cbn; [|done].
    by rewrite <- app_assoc.
Qed.

Lemma NewRunner_skips i (names : list (list string)) :
  skipValidations (config (NewRunner i (WithSkipValidations <$> names))) = concat names.
Proof.
  unfold NewRunner; cbn [config].
  assert (∀ c, skipValidations
    (fold_left (λ c opt, opt c) (WithSkipValidations <$> names) c)
    = skipValidations c ++ concat names) as H.
  { induction names as [|n names IH]; intros c; cbn; [by rewrite app_nil_r|].
    rewrite IH. cbn. by rewrite <- app_assoc. }
  by rewrite H.
Qed.

Lemma shouldRegister_Contains r name :
  shouldRegister r name = negb (slices_Contains (skipValidations (config r)) name).
Proof.
  unfold shouldRegister, slices_Contains. f_equal.
  induction (skipValidations (config r)) as [|x l IH]; cbn; [done|].
  by rewrite IH, String.eqb_sym.
Qed.

Lemma shouldRegister_spec r name :
  shouldRegister r name = true ↔ name ∉ skipValidations (config r).
Proof. by rewrite shouldRegister_Contains, negb_true_iff, slices_Contains_false. Qed.

(** Over any sequence of [Register] calls on a runner built with any
    skip options, the validations that will run are exactly the registered
    ones whose name is in no skip list, in registration order. *)
Theorem Register_skips i (names : list (list string)) (calls : list (list Validation)) :
  let r := fold_left Register calls (NewRunner i (WithSkipValidations <$> names)) in
  validations r = keep (λ v, negb (slices_Contains (concat names) (Name v))) (concat calls)
  ∧ ∀ v, v ∈ validations r ↔ v ∈ concat calls ∧ Name v ∉ concat names.
Proof.
  set (r0 := NewRunner i _). cbv zeta.
  assert (validations r0 = []) as H0 by done.
  assert (skipValidations (config r0) = concat names) as Hs by apply NewRunner_skips.
  assert (∀ calls r, config r = config r0 →
    validations (fold_left Register calls r) =
    validations r ++ keep (λ v, shouldRegister r0 (Name v)) (concat calls)) as Hfold.
  { clear calls. induction calls as [|c calls IH]; intros r Hr; cbn.
    - by rewrite app_nil_r.
    - destruct (Register_spec r c) as (Hv & Hc & _).
      rewrite IH, Hv, keep_app, <- app_assoc by congruence.
      do 2 f_equal. unfold shouldRegister. by rewrite Hr. }
  rewrite (Hfold calls r0), H0 by done. cbn [app].
  split; [|intros v; rewrite elem_of_keep, shouldRegister_spec, Hs; done].
  clear Hfold. induction (concat calls) as [|v vs IH]; cbn; [done|].
  by rewrite IH, shouldRegister_Contains, Hs.
Qed.

Lemma UntilError_Return i vs s s' :
  UntilError (validate <$> vs) i s = (Return tt, s') ↔
  ∃ rs, runs i vs s rs s' ∧ Forall (λ r, r = Ok tt) rs.
Proof.
  unfold UntilError. revert s. induction vs as [|v vs IH]; intros s; cbn.
  - split; [intros [= <-]; exists []; by repeat constructor|].
    intros (rs & Hr & _). by inversion Hr.
  - cbv [mbind M_bind]. destruct (validate v i s) as [[[]|e|] s1] eqn:E.
    + rewrite IH. split.
      * intros (rs & Hr & Hf). exists (Ok tt :: rs). by repeat econstructor.
      * intros (rs & Hr & Hf). inv_runs E. inversion Hf. by eexists.
    + split; [done|]. intros (rs & Hr & Hf). inv_runs E. by inversion Hf.
    + split; [done|]. intros (rs & Hr & Hf). by inv_runs E.
Qed.

(** The validation that [Runner.UntilError] composes drops the skipped
    members, then succeeds exactly when the others all succeed, and fails
    with error [e] exactly when some member returns [e] after all the
    members before it succeeded; no later member then runs, since the
    state is the one that member left. *)
Theorem UntilError_prefix r vs s s' :
  let accepted := keep (λ v, shouldRegister r (Name v)) vs in
  let i := informer r in
  (validate (Runner_UntilError r vs) i s = (Return tt, s') ↔
    ∃ rs, runs i accepted s rs s' ∧ Forall (λ r, r = Ok tt) rs) ∧
  ∀ e,
    (validate (Runner_UntilError r vs) i s = (Throw e, s') ↔
      ∃ pre v post rs s1,
        accepted = pre ++ v :: post ∧ runs i pre s rs s1 ∧
        Forall (λ r, r = Ok tt) rs ∧ validate v i s1 = (Throw e, s')).
Proof.
  cbn. set (acc := keep _ vs). split; [apply UntilError_Return|intros e].
  clearbody acc. unfold UntilError. revert s.
  induction acc as [|v acc IH]; intros s; cbn.
  - split; [done|]. by intros ([|] & ? & ? & ? & ? & ? & _).
  - cbv [mbind M_bind]. destruct (validate v _ s) as [[[]|e'|] s1] eqn:E.
    + rewrite IH. split.
      * intros (pre & u & post & rs & s2 & -> & Hr & Hf & Hu).
        exists (v :: pre), u, post, (Ok tt :: rs), s2.
        repeat split; [by econstructor|by constructor|done].
      * intros ([|w pre] & u & post & rs & s2 & Heq & Hr & Hf & Hu); simplify_eq/=.
        { inversion Hr; simplify_eq. congruence. }
        inv_runs E; inversion Hf; simplify_eq. by eauto 10.
    + split.
      * intros [= <- <-]. exists [], v, acc, [], s. by repeat constructor.
      * intros ([|w pre] & u & post & rs & s2 & Heq & Hr & Hf & Hu); simplify_eq/=.
        { inversion Hr; simplify_eq. congruence. }
        inv_runs E; by inversion Hf.
    + split; [done|].
      intros ([|w pre] & u & post & rs & s2 & Heq & Hr & Hf & Hu); simplify_eq/=.
      { inversion Hr; simplify_eq. congruence. }
      by inv_runs E.
Qed.
End Runner.

(** ** The terminal printer (printer.go) *)

(** [Colorer] and its escape sequences. *)
Definition esc (code : string) : string := String "027" ("[" +:+ code +:+ "m").
Definition resetC : string := esc "0".
Definition redC : string := esc "31".
Definition greenC : string := esc "32".
Definition yellowC : string := esc "33".
Definition blueC : string := esc "34".

Definition blackC : string := esc "30".
Definition purpleC : string := esc "35".
Definition cyanC : string := esc "36".
Definition greyC : string := esc "37".
Definition whiteC : string := esc "97".
Definition magentaC : string := esc "95".
Definition underlineC : string := esc "4".
Definition resetUnderline : string := esc "24".
Definition boldC : string := esc "1".
Definition resetBold : string := esc "22".
Record Colorer := { noColor : bool }.
Definition Colorer_wrap (c : Colorer) (m color reset : string) : string :=
  if noColor c then m else color +:+ m +:+ reset.
Definition Colorer_color (c : Colorer) (m color : string) : string :=
  Colorer_wrap c m color resetC.
Definition Blue c m := Colorer_color c m blueC.
Definition Red c m := Colorer_color c m redC.
Definition Green c m := Colorer_color c m greenC.
Definition Yellow c m := Colorer_color c m yellowC.
Definition Cyan c m := Colorer_color c m cyanC.
Definition Black c m := Colorer_color c m blackC.
Definition Grey c m := Colorer_color c m greyC.
Definition Magenta c m := Colorer_color c m magentaC.
Definition Underline c m := Colorer_wrap c m underlineC resetUnderline.
Definition Bold c m := Colorer_wrap c m boldC resetBold.

(** [Printer]; [externalLogs] is the name of its [ChannelReader], if any. *)
Record Printer := { color : Colorer; externalLogs : option string }.

(** Its constructor and options; the writer is the terminal below. *)
Definition PrinterOpt : Type := Printer → Printer.
Definition WithNoColor : PrinterOpt := λ p,
  {| color := {| noColor := true |}; externalLogs := externalLogs p |}.
Definition WithExternalLogs (name : string) : PrinterOpt := λ p,
  {| color := color p; externalLogs := Some name |}.
Definition NewPrinter (opts : list PrinterOpt) : Printer :=
  fold_left (λ p opt, opt p) opts {| color := {| noColor := false |}; externalLogs := None |}.

(** What the printer writes and the lines waiting in the channel. *)
Record Term := { out : string; pending : list string }.

Definition print (m : string) : M Term unit :=
  modify (λ t, {| out := out t +:+ m; pending := pending t |}).
Definition println (m : string) : M Term unit := print (m +:+ newline).

(** [ChannelReader.Line] on a buffered channel: the next waiting line. *)
Definition Line : M Term (option string) :=
  λ t, match pending t with
       | [] => (Return None, t)
       | l :: ls => (Return (Some l), {| out := out t; pending := ls |})
       end.

(** The loop of [readExternal]; [fuel] bounds the waiting lines. *)
Fixpoint drain (fuel : nat) : M Term (list string) :=
  match fuel with
  | O => mret []
  | S fuel =>
      l ← Line;
      match l with
      | None => mret []
      | Some l => ls ← drain fuel; mret (l :: ls)
      end
  end.

Definition readExternal (p : Printer) : M Term (list string) :=
  match externalLogs p with
  | None => mret []
  | Some _ => n ← gets (λ t, S (List.length (pending t))); drain n
  end.

(** [lines[:len(lines)-1]] and [lines[len(lines)-1]] as a pair. *)
Fixpoint split_last {A} (x : A) (l : list A) : list A * A :=
  match l with
  | [] => ([], x)
  | y :: l => let '(i, z) := split_last y l in (x :: i, z)
  end.

Definition printExternalLogs (p : Printer) (prefixHeader prefixLog : string)
    (lines : list string) : M Term unit :=
  match lines with
  | [] => mret tt
  | l :: ls =>
      let '(init, lst) := split_last l ls in
      println (prefixHeader +:+ " " +:+ Yellow (color p) (default "" (externalLogs p)));;
      for_each (λ l, println (prefixLog +:+ "  ├─ " +:+ l)) init;;
      println (prefixLog +:+ "  └─ " +:+ lst)
  end.

Definition printError (p : Printer) (e : error) : M Term unit :=
  println ("  ├─ " +:+ Red (color p) "Error");;
  println ("  │  └─ " +:+ error_text e);;
  when (IsRemediable e)
    (println ("  │  └─ " +:+ Blue (color p) "Remediation");;
     println ("  │     └─ " +:+ Remediation e)).

(** The text of the last error, once the external lines are known. *)
Definition printLast_with (p : Printer) (e : error) (external : list string)
    : M Term unit :=
  match external with
  | [] =>
      println ("  └─ " +:+ Red (color p) "Error");;
      println ("     └─ " +:+ error_text e)
  | _ =>
      println ("  └─ " +:+ Red (color p) "Error");;
      println ("     ├─ " +:+ error_text e);;
      if IsRemediable e then printExternalLogs p "     ├─" "     │" external
      else printExternalLogs p "     └─" "      " external
  end;;
  when (IsRemediable e)
    (println ("     └─ " +:+ Blue (color p) "Remediation");;
     println ("        └─ " +:+ Remediation e)).

Definition printLastError (p : Printer) (e : error) : M Term unit :=
  external ← readExternal p; printLast_with p e external.

Definition Printer_Starting (p : Printer) (name message : string) : M Term unit :=
  print ("* " +:+ message +:+ " ").

(** [errs[:len(errs)-1]] panics on an empty slice. *)
Definition Printer_Done (p : Printer) (name : string) (err : option error)
    : M Term unit :=
  match err with
  | None => println ("[" +:+ Green (color p) "Success" +:+ "]")
  | Some e =>
      println ("[" +:+ Red (color p) "Failed" +:+ "]");;
      match Unwrap e with
      | [] => panic
      | e1 :: es =>
          let '(init, lst) := split_last e1 es in
          for_each (printError p) init;;
          printLastError p lst
      end
  end.

Definition Printer_informer (p : Printer) : Informer Term :=
  {| Starting := Printer_Starting p; Done := Printer_Done p |}.
Definition NoOpInformer {W} : Informer W :=
  {| Starting := λ _ _, mret tt; Done := λ _ _, mret tt |}.

(** [emits m subs]: [m] only appends to the output, and the appended text
    contains every string of [subs]. *)
Definition emits (m : M Term unit) (subs : list string) : Prop :=
  ∃ txt, (∀ t, m t = (Return tt, {| out := out t +:+ txt; pending := pending t |})) ∧
         Forall (λ s, Contains txt s = true) subs.

Lemma Contains_app_l a b s : Contains a s = true → Contains (a +:+ b) s = true.
Proof.
  rewrite !Contains_spec. intros (x & y & ->). exists x, (y +:+ b).
  by rewrite !app_assoc_str.
Qed.

Lemma Contains_app_r a b s : Contains b s = true → Contains (a +:+ b) s = true.
Proof.
  rewrite !Contains_spec. intros (x & y & ->). exists (a +:+ x), y.
  by rewrite !app_assoc_str.
Qed.

Lemma Contains_refl s : Contains s s = true.
Proof. apply Contains_spec. exists "", "". by autorewrite with nodeadm_rw. Qed.

#[local] Hint Resolve Contains_app_l Contains_app_r Contains_refl : nodeadm.

Lemma emits_println m s : Contains m s = true → emits (println m) [s].
Proof.
  intros H. exists (m +:+ newline). split; [done|].
  repeat constructor. by apply Contains_app_l.
Qed.

Lemma emits_bind m k a b : emits m a → emits k b → emits (m;; k) (a ++ b).
Proof.
  intros (x & Hm & Ha) (y & Hk & Hb). exists (x +:+ y). split.
  - intros t. unfold mbind, M_bind. rewrite Hm, Hk. cbn. by rewrite app_assoc_str.
  - apply Forall_app_2; (eapply Forall_impl; [eassumption|]); cbn; eauto with nodeadm.
Qed.

Lemma emits_mono m a b : emits m a → b ⊆ a → emits m b.
Proof.
  intros (x & Hm & Ha) Hs. exists x. split; [done|].
  rewrite Forall_elem in *. auto.
Qed.

Lemma emits_ret : emits (mret tt) [].
Proof.
  exists "". split; [|done]. intros [o p]. cbn. by rewrite app_nil_r_str.
Qed.

Lemma emits_when b m a : (b = true → emits m a) → emits (when b m) (if b then a else []).
Proof. intros H. destruct b; [by apply H|apply emits_ret]. Qed.

Lemma emits_for_each {A} (f : A → M Term unit) g l :
  (∀ x, emits (f x) (g x)) → emits (for_each f l) (l ≫= g).
Proof.
  intros H. induction l as [|x l IH]; [apply emits_ret|].
  exact (emits_bind _ _ _ _ (H x) IH).
Qed.

(** The texts an error owes its reader: its message, and its remediation. *)
Definition error_texts (e : error) : list string :=
  error_text e :: if IsRemediable e then [Remediation e] else [].

#[local] Hint Resolve emits_println emits_bind emits_when emits_ret : nodeadm.

Lemma printError_emits p e : emits (printError p e) (error_texts e).
Proof.
  unfold printError, error_texts.
  eapply emits_mono; [eapply emits_bind; [apply emits_println, Contains_refl|];
    eapply emits_bind; [apply emits_println, Contains_app_r, Contains_refl|];
    apply emits_when; intros _; eapply emits_bind;
    [apply emits_println, Contains_refl|apply emits_println, Contains_app_r, Contains_refl]|].
  destruct (IsRemediable e); set_solver.
Qed.

Lemma printExternalLogs_emits p h q ls : emits (printExternalLogs p h q ls) [].
Proof.
  destruct ls as [|l ls]; [apply emits_ret|]. cbn. destruct (split_last l ls).
  eapply emits_mono; [eapply emits_bind; [apply emits_println, Contains_refl|];
    eapply emits_bind; [apply emits_for_each; intros x|];
    apply emits_println, Contains_refl|set_solver].
Qed.

Lemma printLast_with_emits p e ext : emits (printLast_with p e ext) (error_texts e).
Proof.
  unfold printLast_with, error_texts.
  eapply (emits_mono _ ([error_text e] ++ (if IsRemediable e then [Remediation e] else []))); [|done].
  apply emits_bind.
  - destruct ext as [|l ext].
    + eapply emits_mono; [eapply emits_bind; [apply emits_println, Contains_refl|];
        apply emits_println, Contains_app_r, Contains_refl|set_solver].
    + eapply emits_mono; [eapply emits_bind; [apply emits_println, Contains_refl|];
        eapply emits_bind; [apply emits_println, Contains_app_r, Contains_refl|];
        destruct (IsRemediable e); apply printExternalLogs_emits|set_solver].
  - apply emits_when. intros _.
    eapply emits_mono; [eapply emits_bind; [apply emits_println, Contains_refl|];
      apply emits_println, Contains_app_r, Contains_refl|set_solver].
Qed.

Lemma drain_all n t :
  List.length (pending t) < n →
  drain n t = (Return (pending t), {| out := out t; pending := [] |}).
Proof.
  revert t. induction n as [|n IH]; intros [o ls] H; cbn in *; [lia|].
  destruct ls as [|l ls]; [done|]. cbv [mbind M_bind Line]; cbn in *.
  by rewrite IH by (cbn; lia).
Qed.

Lemma readExternal_spec p t :
  readExternal p t =
    match externalLogs p with
    | None => (Return [], t)
    | Some _ => (Return (pending t), {| out := out t; pending := [] |})
    end.
Proof.
  unfold readExternal. destruct (externalLogs p); [|done].
  cbv [mbind M_bind gets]. by rewrite drain_all by lia.
Qed.

Lemma split_last_app {A} (x : A) l :
  x :: l = fst (split_last x l) ++ [snd (split_last x l)].
Proof.
  revert x. induction l as [|y l IH]; intros x; [done|]. cbn.
  rewrite (IH y). by destruct (split_last y l).
Qed.

(** Reporting a result never panics as long as a failed validation
    carries at least one error, which [errors.Join] guarantees.  It only
    appends to the output; a failure's text contains the message of every
    error of the result and the remediation of each one that has some, and
    the captured external lines are consumed. *)
Theorem Printer_Done_reports p name err t :
  (∀ e, err = Some e → Unwrap e ≠ []) →
  ∃ txt t', Printer_Done p name err t = (Return tt, t') ∧ out t' = out t +:+ txt ∧
    pending t' = (if err is Some _ then match externalLogs p with None => pending t | Some _ => [] end
                  else pending t) ∧
    ∀ e m, err = Some e → m ∈ Unwrap e →
      Contains txt (error_text m) = true ∧
      (IsRemediable m = true → Contains txt (Remediation m) = true).
Proof.
  intros Hne. destruct err as [e|]; cbn [Printer_Done].
  2:{ eexists _, _. split; [done|]. by split. }
  specialize (Hne e eq_refl). destruct (Unwrap e) as [|e1 es] eqn:HU; [done|].
  pose proof (split_last_app e1 es) as Hsplit.
  destruct (split_last e1 es) as [init lst]; cbn in Hsplit.
  destruct (emits_bind _ _ _ _ (emits_println ("[" +:+ Red (color p) "Failed" +:+ "]") _ (Contains_refl _))
    (emits_for_each (printError p) error_texts init (printError_emits p))) as (x & Hx & Fx).
  set (ext := match externalLogs p with None => [] | Some _ => pending t end).
  destruct (printLast_with_emits p lst ext) as (y & Hy & Fy).
  set (pend := match externalLogs p with None => pending t | Some _ => [] end).
  exists (x +:+ y), {| out := out t +:+ (x +:+ y); pending := pend |}.
  split; [|split; [done|split; [done|]]].
  - specialize (Hx t). cbv [mbind M_bind] in Hx |- *.
    destruct (println _ t) as [[[]|?|] t1]; try discriminate Hx.
    destruct (for_each (printError p) init t1) as [[[]|?|] t2]; try discriminate Hx.
    injection Hx as ->. unfold printLastError. cbv [mbind M_bind].
    rewrite readExternal_spec. unfold ext, pend in *.
    destruct (externalLogs p); cbn -[printLast_with]; rewrite Hy; cbn;
      by rewrite app_assoc_str.
  - intros e' m [= <-] Hm. rewrite HU, Hsplit in Hm.
    assert (∀ s, s ∈ error_texts m → Contains (x +:+ y) s = true) as HC.
    { intros s Hs. rewrite elem_of_app, list_elem_of_singleton in Hm.
      rewrite Forall_elem in Fx, Fy. destruct Hm as [Hm| ->].
      - apply Contains_app_l, Fx, elem_of_app. right. apply list_elem_of_bind. eauto.
      - by apply Contains_app_r, Fy. }
    split; [apply HC; by left|]. intros HR. apply HC. unfold error_texts.
    rewrite HR. set_solver.
Qed.

Lemma Printer_Done_reports_witness :
  ∃ txt t', Printer_Done {| color := {| noColor := true |}; externalLogs := Some "stderr" |}
      "aws-auth" (Some (EJoin [ENew "bad credentials"; NewRemediableErr "no route" "open port 443"]))
      {| out := ""; pending := ["curl: (7)"] |} = (Return tt, t') ∧
    Contains txt "open port 443" = true.
Proof.
  destruct (Printer_Done_reports {| color := {| noColor := true |}; externalLogs := Some "stderr" |}
    "aws-auth" (Some (EJoin [ENew "bad credentials"; NewRemediableErr "no route" "open port 443"]))
    {| out := ""; pending := ["curl: (7)"] |}) as (txt & t' & H1 & _ & _ & H2).
  - by intros e [= <-].
  - exists txt, t'. split; [exact H1|].
    apply (H2 _ (NewRemediableErr "no route" "open port 443") eq_refl); [|done].
    right. left.
Defined.

(** ** The logging informer (logger_printer.go)

    The zap logger is the list of entries written so far. *)

Inductive Level := Info | Warn | Error.
Record Entry := { level : Level; message : string; fields : list (string * string) }.

Definition log (e : Entry) : M (list Entry) unit := modify (λ es, es ++ [e]).

Definition LoggerPrinter_Starting (name msg : string) : M (list Entry) unit :=
  log {| level := Info; message := "Starting validation";
         fields := [("validation", name); ("message", msg)] |}.

Definition log_fields (name : string) (e : error) : list (string * string) :=
  [("validation", name); ("error", error_text e)] ++
  (if IsRemediable e then [("remediation", Remediation e)] else []).
Definition logWarningWithRemediation (name : string) (e : error) : M (list Entry) unit :=
  log {| level := Warn; message := "Validation failed"; fields := log_fields name e |}.
Definition logErrorWithRemediation (name : string) (e : error) : M (list Entry) unit :=
  log {| level := Error; message := "Validation failed"; fields := log_fields name e |}.

Definition LoggerPrinter_Done (name : string) (err : option error) : M (list Entry) unit :=
  match err with
  | None => log {| level := Info; message := "Validation passed";
                   fields := [("validation", name)] |}
  | Some e =>
      for_each (λ e, if IsWarning e then logWarningWithRemediation name e
                     else logErrorWithRemediation name e) (Unwrap e)
  end.

Definition LoggerPrinter_informer : Informer (list Entry) :=
  {| Starting := LoggerPrinter_Starting; Done := LoggerPrinter_Done |}.

(** One entry per error of the result, at warning level exactly for the
    errors the runner does not fail on. *)
Lemma LoggerPrinter_Done_entries name e es :
  LoggerPrinter_Done name (Some e) es =
    (Return tt, es ++ ((λ e,
       {| level := if IsWarning e then Warn else Error;
          message := "Validation failed"; fields := log_fields name e |}) <$> Unwrap e)).
Proof.
  cbn [LoggerPrinter_Done]. revert es.
  induction (Unwrap e) as [|x l IH]; intros es; cbn; [by rewrite app_nil_r|].
  cbv [mbind M_bind]. destruct (IsWarning x); cbn; rewrite IH; by rewrite <- app_assoc.
Qed.
