(* ===== verification/Capture.v ===== *)
(** * Capturing the output of other processes (internal/validation/reader.go)

    A [FileCapture] is a pipe, a goroutine that reads lines from it and sends
    them on a buffered channel, and a [ChannelReader] at the other end.  The
    goroutine, the processes that write and the printer that reads run
    interleaved, so the capture is a transition system: one rule for every
    thing one of them can do next.  The reference is [scan_lines], the lines
    a scanner gives for all of the bytes at once. *)

From stdpp Require Import relations.
From S2P Require Import Prelude GoStrings Scanner Validation.
#[local] Open Scope Z_scope.

(** ** The state

    The scanner's buffer holds the bytes read and not yet scanned.  [done]
    stands for both channels the goroutine closes at its end.  The last two
    fields are the history: the bytes written and the lines received. *)
Record FileCapture := {
  writers : nat;             (** open write ends: the process and its children *)
  pipe : string;             (** written, not yet read *)
  buffer : string;
  sending : option string;   (** [r.out <- line], until there is room *)
  chan : list string;
  done_ : bool;
  scan_Err : bool;           (** [bufio.ErrTooLong] *)
  written : string;
  received : list string;
}.

(** The state after [Init], unless [os.Pipe] fails. *)
Definition Init : FileCapture :=
  {| writers := 1; pipe := ""; buffer := ""; sending := None; chan := []; done_ := false;
     scan_Err := false; written := ""; received := [] |}.

(** [ChannelReader.Line]: never blocks, and says the same for a channel that
    is empty and one that is closed. *)
Definition ChannelReader_Line (s : FileCapture) : option string * FileCapture :=
  match chan s with
  | [] => (None, s)
  | l :: ls =>
      (Some l, {| writers := writers s; pipe := pipe s; buffer := buffer s; sending := sending s;
                  chan := ls; done_ := done_ s; scan_Err := scan_Err s;
                  written := written s; received := received s ++ [l] |})
  end.

(** [r.File.Close()]; also what the end of a child does to its copy. *)
Definition File_Close (s : FileCapture) : FileCapture :=
  {| writers := pred (writers s); pipe := pipe s; buffer := buffer s; sending := sending s;
     chan := chan s; done_ := done_ s; scan_Err := scan_Err s;
     written := written s; received := received s |}.
(** A child that inherits the write end as its standard error. *)
Definition inherit (s : FileCapture) : FileCapture :=
  {| writers := S (writers s); pipe := pipe s; buffer := buffer s; sending := sending s;
     chan := chan s; done_ := done_ s; scan_Err := scan_Err s;
     written := written s; received := received s |}.
Definition write (d : string) (s : FileCapture) : FileCapture :=
  {| writers := writers s; pipe := pipe s +:+ d; buffer := buffer s; sending := sending s;
     chan := chan s; done_ := done_ s; scan_Err := scan_Err s;
     written := written s +:+ d; received := received s |}.

(** *** The goroutine *)

Definition scanning (s : FileCapture) : Prop :=
  done_ s = false ∧ sending s = None ∧ free_of "010" (buffer s) = true.
Definition buffer_full (b : string) : bool := too_long b.

(** What a read moves from the pipe to the buffer. *)
Definition refill (d rest : string) (s : FileCapture) : FileCapture :=
  {| writers := writers s; pipe := rest; buffer := buffer s +:+ d; sending := None;
     chan := chan s; done_ := false; scan_Err := scan_Err s;
     written := written s; received := received s |}.
(** [r.scanner.Text()] for a line, and what stays in the buffer. *)
Definition token (line rest : string) (s : FileCapture) : FileCapture :=
  {| writers := writers s; pipe := pipe s; buffer := rest; sending := Some (TrimSuffix line cr);
     chan := chan s; done_ := false; scan_Err := scan_Err s;
     written := written s; received := received s |}.
Definition send (l : string) (s : FileCapture) : FileCapture :=
  {| writers := writers s; pipe := pipe s; buffer := buffer s; sending := None;
     chan := chan s ++ [l]; done_ := false; scan_Err := scan_Err s;
     written := written s; received := received s |}.
(** [Scan] returned false: both channels are closed. *)
Definition finish (err : bool) (s : FileCapture) : FileCapture :=
  {| writers := writers s; pipe := pipe s; buffer := buffer s; sending := None;
     chan := chan s; done_ := true; scan_Err := err;
     written := written s; received := received s |}.

Section Capture.
(** The capacities of the pipe, in bytes, and of the channel, in lines. *)
Context (pipe_size channel_size : nat).

(** [for r.scanner.Scan() { r.out <- r.scanner.Text() }; close; close].  A
    read waits while the pipe is empty and has a write end; a send waits
    while the channel is full. *)
Inductive goroutine : FileCapture → FileCapture → Prop :=
  | g_read s d rest :
      scanning s → pipe s = d +:+ rest → d ≠ "" → buffer_full (buffer s) = false →
      (N.of_nat (String.length (buffer s +:+ d)) <= MaxScanTokenSize)%N →
      goroutine s (refill d rest s)
  | g_line s line rest :
      done_ s = false → sending s = None → buffer s = line +:+ String "010" rest →
      free_of "010" line = true → goroutine s (token line rest s)
  | g_last s :
      scanning s → writers s = 0%nat → pipe s = "" → buffer s ≠ "" → buffer_full (buffer s) = false →
      goroutine s (token (buffer s) "" s)
  | g_end s :
      scanning s → writers s = 0%nat → pipe s = "" → buffer s = "" → goroutine s (finish false s)
  | g_too_long s :
      scanning s → buffer_full (buffer s) = true → goroutine s (finish true s)
  | g_send s l :
      done_ s = false → sending s = Some l → (length (chan s) < channel_size)%nat →
      goroutine s (send l s).

(** The processes that write, and the printer. *)
Inductive others : FileCapture → FileCapture → Prop :=
  | o_write s d :
      (0 < writers s)%nat → (String.length (pipe s +:+ d) <= pipe_size)%nat → others s (write d s)
  | o_inherit s : (0 < writers s)%nat → others s (inherit s)
  | o_close s : (0 < writers s)%nat → others s (File_Close s)
  | o_line s l s' : ChannelReader_Line s = (Some l, s') → others s s'.

Definition step (s s' : FileCapture) : Prop := goroutine s s' ∨ others s s'.
Definition reachable : FileCapture → Prop := rtc step Init.

(** [Close] after the write end of the process was closed: it returns when
    the goroutine is done, with the scanner's error. *)
Definition Close_returns (s : FileCapture) : Prop := ∃ s', rtc goroutine s s' ∧ done_ s' = true.
End Capture.

(** ** What is captured *)

Section Captured.
Context (pipe_size channel_size : nat).
Abbreviation goroutine := (goroutine channel_size).
Abbreviation reachable := (reachable pipe_size channel_size).

(** The lines the goroutine has yet to send. *)
Definition remaining (s : FileCapture) : list string :=
  option_list (sending s) ++ scan_lines (buffer s +:+ pipe s).

(** Where the bytes written are: in lines that were scanned, in the buffer
    and in the pipe; at the end of the input a last line needs no newline. *)
Definition accounted (s : FileCapture) (lines : list string) : Prop :=
  written s = unlines lines +:+ buffer s +:+ pipe s ∨
  writers s = 0%nat ∧ buffer s = "" ∧ pipe s = "" ∧
    ∃ init l, lines = init ++ [l] ∧ l ≠ "" ∧ written s = unlines init +:+ l.

(** What holds at the goroutine's end. *)
Definition ended (s : FileCapture) : Prop :=
  sending s = None ∧
  if scan_Err s then free_of "010" (buffer s) = true ∧ too_long (buffer s) = true
  else writers s = 0%nat ∧ buffer s = "" ∧ pipe s = "".

Record captured (s : FileCapture) : Prop := {
  c_lines : ∃ lines, Forall line_ok lines ∧ accounted s lines ∧
    received s ++ chan s ++ option_list (sending s) = (λ l, TrimSuffix l cr) <$> lines;
  c_chan : (length (chan s) <= channel_size)%nat;
  c_buffer : (N.of_nat (String.length (buffer s)) <= MaxScanTokenSize)%N;
  c_done : done_ s = true → ended s;
}.

Lemma Init_captured : captured Init.
Proof. split; [exists []; split; [constructor|]; split; [by left|done]|cbn; lia|done|done]. Qed.

(** A line that was cut off the buffer fits the scanner's limit. *)
Lemma line_fits line rest :
  free_of "010" line = true →
  (N.of_nat (String.length (line +:+ String "010" rest)) <= MaxScanTokenSize)%N → line_ok line.
Proof.
  intros Hf Hl. split; [done|]. apply N.leb_gt. rewrite length_app_str in Hl. cbn in Hl. lia.
Qed.

Lemma goroutine_captured s s' : captured s → goroutine s s' → captured s'.
Proof.
  unfold accounted. intros [(lines & HF & HA & HL) Hc Hb Hd] Hs. unfold accounted in HA. destruct Hs as
    [s d rest (Hnd & Hns & Hf) Hp Hne Hbf Hlen|s line rest Hnd Hns Hbuf Hf|s (Hnd & Hns & Hf) Hw Hp Hne Hbf
    |s (Hnd & Hns & Hf) Hw Hp He|s (Hnd & Hns & Hf) Hbf|s l Hnd Hns Hroom].
  - split; cbn; [|done|done|done]. exists lines. split; [done|]. rewrite Hns in HL. split; [|done]. left. cbn.
    destruct HA as [->|(_ & _ & Hpe & _)]; [by rewrite Hp, !app_assoc_str|].
    rewrite Hpe in Hp. by destruct d.
  - rewrite Hns in HL. rewrite Hbuf in Hb, HA. apply line_fits in Hb as Hok; [|done].
    destruct HA as [Hw|(_ & He & _)]; [|by destruct line].
    split; cbn; [|done| |done].
    + exists (lines ++ [line]). split; [by apply Forall_app; repeat constructor; try apply Hok|]. split.
      * left. cbn. rewrite Hw, unlines_snoc, !app_assoc_str. done.
      * rewrite fmap_app, <- HL. cbn. by rewrite app_nil_r, app_assoc.
    + rewrite length_app_str in Hb. cbn in Hb. lia.
  - rewrite Hns in HL. destruct HA as [HA|(_ & He & _)]; [|done].
    split; cbn; [|done|lia|done]. exists (lines ++ [buffer s]). split; [|split].
    + apply Forall_app. by repeat constructor.
    + right. cbn. split_and!; try done. exists lines, (buffer s). split_and!; try done.
      by rewrite HA, Hp, app_nil_r_str.
    + rewrite fmap_app, <- HL. cbn. by rewrite app_nil_r, app_assoc.
  - rewrite Hns in HL. split; cbn; [exists lines; split; [done|]; by split|done|done|].
    intros _. by split; cbn.
  - rewrite Hns in HL. split; cbn; [exists lines; split; [done|]; by split|done|done|].
    intros _. by split; cbn.
  - split; cbn; [|rewrite length_app; cbn; lia|done|done].
    exists lines. split; [done|]. split; [done|]. rewrite <- HL, Hns. cbn. by rewrite app_nil_r.
Qed.

Lemma others_captured s s' : captured s → others pipe_size s s' → captured s'.
Proof.
  unfold accounted. intros [(lines & HF & HA & HL) Hc Hb Hd] Hs. unfold accounted in HA. destruct Hs as [s d Hw Hp|s Hw|s Hw|s l s' HR].
  - split; cbn; [|done|done|].
    + exists lines. split; [done|]. split; [|done]. left. cbn.
      destruct HA as [->|[? _]]; [by rewrite !app_assoc_str|lia].
    + intros [Hs He]%Hd. split; [done|]. cbn. destruct (scan_Err s); [done|]. destruct He. lia.
  - split; cbn; [|done|done|].
    + exists lines. split; [done|]. split; [|done]. destruct HA as [?|[? _]]; [by left|lia].
    + intros [Hs He]%Hd. split; [done|]. cbn. destruct (scan_Err s); [done|]. destruct He. lia.
  - split; cbn; [|done|done|].
    + exists lines. split; [done|]. split; [|done]. destruct HA as [?|[? _]]; [by left|lia].
    + intros [Hs He]%Hd. split; [done|]. cbn. destruct (scan_Err s); [done|]. destruct He. lia.
  - unfold ChannelReader_Line in HR. destruct (chan s) as [|l' ls] eqn:Ec; [done|]. injection HR as -> <-.
    split; cbn; [|cbn in Hc; lia|done|].
    + exists lines. split; [done|]. split; [done|]. rewrite <- HL. by rewrite <- app_assoc.
    + intros [Hs He]%Hd. by split.
Qed.

Lemma reachable_captured s : reachable s → captured s.
Proof.
  intros H. refine (rtc_ind_r captured Init Init_captured _ s H).
  intros s1 s2 _ [Hs|Hs] IH; [by eapply goroutine_captured|by eapply others_captured].
Qed.

(** Every line of the bytes written is in exactly one place, in order. *)
Lemma captured_lines s : captured s → scan_lines (written s) = received s ++ chan s ++ remaining s.
Proof.
  intros [(lines & HF & HA & HL) _ _ _]. unfold remaining.
  assert (scan_lines (written s) = ((λ l, TrimSuffix l cr) <$> lines) ++ scan_lines (buffer s +:+ pipe s)) as ->.
  { destruct HA as [->|(_ & -> & -> & init & l & -> & Hl & ->)]; [by apply scan_unlines_app|].
    apply Forall_app in HF as [HF [[Hf Ht] _]%Forall_cons]. rewrite scan_unlines_app by done.
    rewrite scan_last by done. rewrite fmap_app. cbn. by rewrite app_nil_r. }
  rewrite <- HL. by rewrite <- !app_assoc.
Qed.
Lemma done_remaining s : captured s → done_ s = true → remaining s = [].
Proof.
  intros HC Hd. destruct (c_done s HC Hd) as [Hs He]. unfold remaining. rewrite Hs. cbn.
  destruct (scan_Err s); [by destruct He; apply scan_too_long|]. by destruct He as (_ & -> & ->).
Qed.

(** ** Properties *)

(** C20. What a capture delivers is what one scan of all the output gives,
    whatever the interleaving of the processes that write, the goroutine and
    the printer: at every moment the lines received, the lines waiting in
    the channel and the line being sent are the first lines of the output,
    in order and none twice, the channel holds at most its capacity, and
    when the goroutine is done nothing is missing: a last line without a
    newline is there, and only what follows a line too long for the scanner
    is lost. *)
Theorem capture_refines_scan s :
  reachable s →
  received s ++ chan s ++ option_list (sending s) `prefix_of` scan_lines (written s) ∧
  (length (chan s) <= channel_size)%nat ∧
  (done_ s = true → received s ++ chan s = scan_lines (written s)).
Proof.
  intros HC%reachable_captured. rewrite (captured_lines s HC). split; [|split].
  - unfold remaining. exists (scan_lines (buffer s +:+ pipe s)). by rewrite <- !app_assoc.
  - by apply c_chan.
  - intros Hd. by rewrite done_remaining, app_nil_r.
Qed.

(** *** Closing *)

(** The goroutine alone: every step uses something up. *)
Definition fuel_left (s : FileCapture) : nat :=
  if done_ s then 0%nat
  else S (3 * String.length (pipe s) + 2 * String.length (buffer s) + length (option_list (sending s))).
Lemma goroutine_uses s s' : goroutine s s' → (fuel_left s' < fuel_left s)%nat.
Proof.
  intros H. destruct H as
    [s d rest (Hnd & Hns & Hf) Hp Hne Hbf Hlen|s line rest Hnd Hns Hbuf Hf|s (Hnd & Hns & Hf) Hw Hp Hne Hbf
    |s (Hnd & Hns & Hf) Hw Hp He|s (Hnd & Hns & Hf) Hbf|s l Hnd Hns Hroom]; unfold fuel_left; rewrite Hnd; cbn.
  - rewrite Hp, !length_app_str. destruct d; [done|]. cbn. lia.
  - rewrite Hbuf, length_app_str. cbn. lia.
  - destruct (buffer s); [done|]. cbn. lia.
  - lia.
  - lia.
  - rewrite Hns. cbn. lia.
Qed.
Lemma goroutine_terminates s : sn goroutine s.
Proof.
  remember (fuel_left s) as n eqn:E. revert s E. induction (lt_wf n) as [n _ IH]. intros s ->.
  constructor. intros s' Hs. eapply IH; [by apply goroutine_uses|done].
Qed.

(** Nothing but a full channel holds the goroutine up once the output has
    ended. *)
Lemma goroutine_moves s :
  captured s → writers s = 0%nat → done_ s = false →
  (sending s = None ∨ (length (chan s) < channel_size)%nat) → ∃ s', goroutine s s'.
Proof.
  intros HC Hw Hd Hroom. destruct (sending s) as [l|] eqn:Hs.
  { exists (send l s). constructor; try done. by destruct Hroom. }
  destruct (free_of "010" (buffer s)) eqn:Hf.
  2:{ apply free_of_false in Hf as (line & rest & Hb & Hl). exists (token line rest s). by constructor. }
  assert (scanning s) as Hsc by done.
  destruct (buffer_full (buffer s)) eqn:Hb; [exists (finish true s); by constructor|].
  destruct (pipe s) as [|c rest] eqn:Hp.
  - destruct (decide (buffer s = "")) as [He|He]; [exists (finish false s)|exists (token (buffer s) "" s)];
      by constructor.
  - exists (refill (String c "") rest s). constructor; try done.
    rewrite length_app_str. unfold buffer_full, too_long in Hb. apply N.leb_gt in Hb. cbn. lia.
Qed.
Lemma goroutine_keeps s s' :
  rtc goroutine s s' → captured s → captured s' ∧ writers s' = writers s ∧
    received s' = received s ∧ written s' = written s.
Proof.
  induction 1 as [s|s s1 s' Hs _ IH]; [done|]. intros HC.
  eapply goroutine_captured in HC; [|exact Hs]. destruct (IH HC) as (H1 & -> & -> & ->).
  split; [done|]. by destruct Hs.
Qed.

Lemma goroutine_stuck s s' :
  done_ s = true ∨ sending s ≠ None ∧ (channel_size <= length (chan s))%nat → ¬ goroutine s s'.
Proof.
  intros Hb H. destruct H as
    [s d rest (Hnd & Hns & Hf)|s line rest Hnd Hns|s (Hnd & Hns & Hf)
    |s (Hnd & Hns & Hf)|s (Hnd & Hns & Hf)|s l Hnd Hns Hroom]; destruct Hb as [Hd|[Hs Hl]]; try congruence. lia.
Qed.
Lemma goroutine_stops s : captured s → writers s = 0%nat → ∃ s', rtc goroutine s s' ∧ nf goroutine s'.
Proof.
  induction (goroutine_terminates s) as [s _ IH]. intros HC Hw.
  destruct (decide (done_ s = true ∨ sending s ≠ None ∧ (channel_size <= length (chan s))%nat)) as [Hb|Hb].
  { exists s. split; [done|]. intros [s' Hs]. by eapply goroutine_stuck. }
  destruct (goroutine_moves s HC Hw) as [s1 Hs1].
  - destruct (done_ s); [tauto|done].
  - destruct (sending s) eqn:E; [|by left]. right. apply not_le. intros Hl. apply Hb. by right.
  - destruct (goroutine_keeps s s1) as (HC1 & Hw1 & _); [by apply rtc_once|done|].
    destruct (IH s1 Hs1 HC1) as (s' & Hr & Hnf); [by rewrite Hw1|].
    exists s'. split; [by econstructor|done].
Qed.

Lemma Close_fits s :
  captured s → Close_returns channel_size s →
  (length (scan_lines (written s)) - length (received s) <= channel_size)%nat.
Proof.
  intros HC (s' & Hr & Hd). apply goroutine_keeps in Hr as (HC' & _ & Hrc & Hwr); [|done].
  rewrite <- Hwr, <- Hrc, (captured_lines s' HC'), (done_remaining s' HC' Hd), !length_app. cbn.
  pose proof (c_chan s' HC'). lia.
Qed.

(** C21. [Close] waits for the goroutine, and nothing reads the channel
    meanwhile.  Once no process writes to the pipe any more it returns exactly when the lines of the output that nobody
    has read fit in the channel, however the goroutine's reads go.  When
    they do not, the goroutine still comes to a stop, blocked on its send,
    and [Close] waits for ever. *)
Theorem Close_returns_iff s :
  reachable s → writers s = 0%nat →
  sn goroutine s ∧
  (Close_returns channel_size s ↔
     (length (scan_lines (written s)) - length (received s) <= channel_size)%nat) ∧
  (Close_returns channel_size s → ∀ s', rtc goroutine s s' → nf goroutine s' → done_ s' = true).
Proof.
  intros HC%reachable_captured Hw. split; [apply goroutine_terminates|].
  assert ((length (scan_lines (written s)) - length (received s) <= channel_size)%nat →
    ∀ s', rtc goroutine s s' → nf goroutine s' → done_ s' = true) as Hall.
  { intros Hle s' Hr Hnf. apply goroutine_keeps in Hr as (HC' & Hw' & Hrc & Hwr); [|done].
    destruct (done_ s') eqn:Hd; [done|]. destruct Hnf. apply goroutine_moves; [done|by rewrite Hw'|done|].
    destruct (sending s') eqn:Hs; [|by left]. right.
    rewrite <- Hwr, <- Hrc, (captured_lines s' HC'), !length_app in Hle. unfold remaining in Hle.
    rewrite Hs in Hle. cbn in Hle. lia. }
  split.
  - split; [by apply Close_fits|]. intros Hle.
    destruct (goroutine_stops s HC Hw) as (s' & Hr & Hnf). exists s'. split; [done|]. by eapply Hall.
  - intros HR. by apply Hall, Close_fits.
Qed.
End Captured.

(** ** The printer with its capture *)

Definition std_capture_lines : nat := 100.
Definition NewPrinterWithStdCapture (stdName : string) (noColor : bool) : Printer * FileCapture :=
  (NewPrinter (WithExternalLogs stdName :: if noColor then [WithNoColor] else []), Init).

(** The lines the printer takes are those of the channel. *)
Lemma Line_ChannelReader t s :
  pending t = chan s →
  let '(o, t') := Line t in let '(l, s') := ChannelReader_Line s in
  o = Return l ∧ pending t' = chan s'.
Proof.
  unfold Line, ChannelReader_Line. intros H. rewrite H. destruct (chan s) as [|l ls] eqn:E; cbn; [|done].
  by rewrite H, E.
Qed.

(** *** Runs of the goroutine

    One schedule of the goroutine, which reads a byte at a time. *)
Definition next (channel_size : nat) (s : FileCapture) : option FileCapture :=
  if done_ s then None else
  match sending s with
  | Some l => if (length (chan s) <? channel_size)%nat then Some (send l s) else None
  | None =>
      match Cut "010" (buffer s) with
      | Some (line, rest) => Some (token line rest s)
      | None =>
          if buffer_full (buffer s) then Some (finish true s) else
          match pipe s with
          | String c rest => Some (refill (String c "") rest s)
          | "" => if (0 <? writers s)%nat then None
                  else Some (if String.eqb (buffer s) "" then finish false s else token (buffer s) "" s)
          end
      end
  end.
Fixpoint run (fuel : nat) (channel_size : nat) (s : FileCapture) : FileCapture :=
  match fuel, next channel_size s with
  | S fuel, Some s' => run fuel channel_size s'
  | _, _ => s
  end.

Lemma next_goroutine size s s' : next size s = Some s' → goroutine size s s'.
Proof.
  unfold next. destruct (done_ s) eqn:Hd; [done|]. destruct (sending s) as [l|] eqn:Hs.
  { destruct (Nat.ltb_spec (length (chan s)) size); [|done]. intros [= <-]. by constructor. }
  destruct (Cut "010" (buffer s)) as [[line rest]|] eqn:Hc.
  { apply Cut_spec in Hc as [Hb Hl]. intros [= <-]. by constructor. }
  assert (free_of "010" (buffer s) = true) as Hf.
  { destruct (free_of "010" (buffer s)) eqn:Hf; [done|]. apply free_of_false in Hf as (a & b & Hb & Ha).
    rewrite (proj2 (Cut_spec _ _ a b)) in Hc; [done|]. by rewrite Hb. }
  assert (scanning s) as Hsc by done.
  destruct (buffer_full (buffer s)) eqn:Hb; [intros [= <-]; by constructor|].
  destruct (pipe s) as [|c rest] eqn:Hp.
  - destruct (Nat.ltb_spec 0 (writers s)); [done|]. assert (writers s = 0%nat) by lia.
    destruct (String.eqb_spec (buffer s) ""); intros [= <-]; by constructor.
  - intros [= <-]. constructor; try done.
    rewrite length_app_str. unfold buffer_full, too_long in Hb. apply N.leb_gt in Hb. cbn. lia.
Qed.
Lemma run_goroutine n size s : rtc (goroutine size) s (run n size s).
Proof.
  revert s. induction n as [|n IH]; intros s; [done|]. cbn. destruct (next size s) as [s'|] eqn:E; [|done].
  econstructor; [by apply next_goroutine|done].
Qed.

(** The capacity of a pipe under Linux, where nothing changed it. *)
Definition pipe_capacity : nat := Z.to_nat 65536.

(** A process writes, one child of it too, and both are closed. *)
Example two_lines : FileCapture :=
  File_Close (File_Close (write ("second" +:+ cr +:+ newline +:+ "last")
    (inherit (write ("first" +:+ newline) Init)))).
Lemma others_reachable n s s' :
  others pipe_capacity s s' → reachable pipe_capacity n s → reachable pipe_capacity n s'.
Proof. intros Ho Hr. eapply rtc_r; [exact Hr|by right]. Qed.
Ltac by_others :=
  repeat (eapply others_reachable; [constructor; apply Nat.leb_le; vm_compute; reflexivity|]);
  constructor.
Lemma two_lines_reachable n : reachable pipe_capacity n two_lines.
Proof. by_others. Qed.

Lemma two_lines_run : reachable pipe_capacity 100 (run 40 100 two_lines).
Proof.
  eapply rtc_trans; [exact (two_lines_reachable 100)|]. eapply rtc_subrel; [|apply run_goroutine].
  intros x y H. left. exact H.
Qed.
Lemma two_lines_ran :
  let s := run 40 100 two_lines in
  done_ s = true ∧ received s = [] ∧ scan_lines (written s) = ["first"; "second"; "last"].
Proof. vm_compute. done. Qed.

Lemma capture_refines_scan_witness : chan (run 40 100 two_lines) = ["first"; "second"; "last"].
Proof.
  destruct two_lines_ran as (Hd & Hr & <-). generalize two_lines_run. revert Hd Hr.
  generalize (run 40 100 two_lines). intros s Hd Hr Hs.
  destruct (capture_refines_scan pipe_capacity 100 s Hs) as (_ & _ & Hall).
  by rewrite <- (Hall Hd), Hr.
Defined.

Lemma Close_returns_iff_witness : Close_returns 100 two_lines ∧ ¬ Close_returns 2 two_lines.
Proof.
  destruct (Close_returns_iff pipe_capacity 100 two_lines (two_lines_reachable 100) eq_refl) as (_ & H100 & _).
  destruct (Close_returns_iff pipe_capacity 2 two_lines (two_lines_reachable 2) eq_refl) as (_ & H2 & _).
  split; [apply H100; apply Nat.leb_le; vm_compute; reflexivity|].
  intros HR. apply H2, Nat.leb_le in HR. vm_compute in HR. discriminate.
Defined.

(** Standard error with more lines than the channel holds, none of which a
    failed validation has had the printer read: debug does not end. *)
Theorem debug_hangs_on_101_lines :
  ∃ s, reachable pipe_capacity std_capture_lines s ∧ writers s = 0%nat ∧ received s = [] ∧
    length (scan_lines (written s)) = 101%nat ∧ ¬ Close_returns std_capture_lines s.
Proof.
  set (s := File_Close (write (unlines (replicate 101 "")) Init)).
  assert (reachable pipe_capacity std_capture_lines s) as H by by_others.
  exists s. split; [done|]. split; [done|]. split; [done|].
  assert (length (scan_lines (written s)) = 101%nat) as Hl by (vm_compute; reflexivity).
  split; [done|]. intros HR. apply Close_fits in HR; [|by eapply reachable_captured].
  rewrite Hl in HR. cbn in HR. unfold std_capture_lines in HR. lia.
Qed.
