(* ===== verification/Main.v ===== *)
(** * The entry point (cmd/nodeadm/main.go, cmd/nodeadm/config/root.go,
      cmd/e2e-test/main.go, internal/cli)

    The commands in a fixed order, of which the one the arguments name is
    run, and what the process ends with.  Parsing the arguments is the flaggy
    library's: it fills the options in and tells which subcommands were
    used. *)

From S2P Require Import Prelude GoStrings Host Validation.
#[local] Open Scope Z_scope.

Record GlobalOptions := { DevelopmentMode : bool }.
Definition NewGlobalOptions : GlobalOptions := {| DevelopmentMode := false |}.

(** The two configurations of the logging library. *)
Inductive Logger := Development | Production.
Definition NewLogger (opts : GlobalOptions) : Logger :=
  if DevelopmentMode opts then Development else Production.

(** A subcommand by its name. *)
Record Command := {
  command_name : string;
  command_Run : Logger → GlobalOptions → M Host unit;
}.

(** How a process ends: by itself, by [os.Exit], or by [log.Fatal], which
    logs and exits with 1. *)
Inductive ending := Finished | Exited (code : Z) | Fatal (message : string) (e : error).
Definition exit_status (e : ending) : Z :=
  match e with Finished => 0 | Exited code => code | Fatal _ _ => 1 end.

(** [os/user.Current]: the user's id. *)
Definition cli_IsRunningAsRoot (Uid : M Host string) : M Host bool :=
  uid ← Uid; mret (String.eqb uid "0").

Section Main.
(** [flaggy.Parse] with the options, [Used] of a subcommand and
    [flaggy.ShowHelpAndExit], which does not return. *)
Context (Parse : GlobalOptions → M Host GlobalOptions) (Used : string → Host → bool)
        (ShowHelpAndExit : string → M Host ending).

Fixpoint first_used (h : Host) (cmds : list Command) : option Command :=
  match cmds with
  | [] => None
  | cmd :: cmds => if Used (command_name cmd) h then Some cmd else first_used h cmds
  end.

(** ** Containers of commands (container.go) *)

Record cmdContainer := { container_name : string; cmds : list Command }.
Definition NewCommandContainer (name : string) : cmdContainer := {| container_name := name; cmds := [] |}.
Definition AddCommand (cmd : Command) (c : cmdContainer) : cmdContainer :=
  {| container_name := container_name c; cmds := cmds c ++ [cmd] |}.
Definition cmdContainer_Run (c : cmdContainer) (log : Logger) (opts : GlobalOptions) : M Host unit :=
  used ← gets (λ h, first_used h (cmds c));
  match used with
  | Some cmd => command_Run cmd log opts
  | None => ShowHelpAndExit "No command specified";; mret tt
  end.
Definition AsCommand (c : cmdContainer) : Command :=
  {| command_name := container_name c; command_Run := cmdContainer_Run c |}.
Definition NewConfigCommand (check : Command) : Command :=
  AsCommand (AddCommand check (NewCommandContainer "config")).

(** ** nodeadm (cmd/nodeadm/main.go)

    The loop over the commands: the first one used decides. *)
Definition run_used (cmds : list Command) (log : Logger) (opts : GlobalOptions) : M Host ending :=
  used ← gets (λ h, first_used h cmds);
  match used with
  | None => ShowHelpAndExit "No command specified"
  | Some cmd =>
      err ← try (command_Run cmd log opts);
      mret match err with
      | Ok _ => Finished
      | Err err => if IsSilent err then Exited 1 else Fatal "Command failed" err
      end
  end.
Definition nodeadm_main (cmds : list Command) : M Host ending :=
  let opts := NewGlobalOptions in
  let log := NewLogger opts in
  opts ← Parse opts;
  run_used cmds log opts.

(** ** e2e-test (cmd/e2e-test/main.go)

    The arguments are parsed before the options exist, so [--development] is
    not one of its flags. *)
Definition e2e_main (cmds : list (list Command)) : M Host ending :=
  Parse NewGlobalOptions;;
  let opts := NewGlobalOptions in
  let log := NewLogger opts in
  used ← gets (λ h, first_used h (concat cmds));
  match used with
  | None => ShowHelpAndExit "No command specified"
  | Some cmd =>
      err ← try (command_Run cmd log opts);
      mret match err with Ok _ => Finished | Err err => Fatal "Command failed" err end
  end.

(** ** Properties *)

Lemma first_used_spec h cmds cmd :
  first_used h cmds = Some cmd ↔
  ∃ before after, cmds = before ++ cmd :: after ∧ Used (command_name cmd) h = true ∧
    Forall (λ c, Used (command_name c) h = false) before.
Proof using Type.
  split.
  - induction cmds as [|c cs IH]; cbn; [done|]. destruct (Used (command_name c) h) eqn:E.
    + intros [= <-]. exists [], cs. by repeat constructor.
    + intros (before & after & -> & Hu & Hb)%IH. exists (c :: before), after. by repeat constructor.
  - intros (before & after & -> & Hu & Hb). induction Hb as [|c before Hc _ IH]; cbn; [by rewrite Hu|].
    by rewrite Hc.
Qed.

(** The status is 0 exactly when the first command used returned no error;
    nothing but that command runs after the parsing. *)
Lemma nodeadm_main_status cmds h opts h1 cmd :
  Parse NewGlobalOptions h = (Return opts, h1) → first_used h1 cmds = Some cmd →
  ∀ e h2, nodeadm_main cmds h = (Return e, h2) →
    (exit_status e = 0 ↔ command_Run cmd Production opts h1 = (Return tt, h2)) ∧
    (exit_status e ≠ 0 → ∃ err, command_Run cmd Production opts h1 = (Throw err, h2) ∧
       (IsSilent err = false → e = Fatal "Command failed" err)).
Proof using Type.
  intros EP Hu e h2. unfold nodeadm_main, run_used, try, gets, mbind, M_bind. rewrite EP, Hu.
  change (NewLogger NewGlobalOptions) with Production.
  destruct (command_Run cmd Production opts h1) as [[[]|err|] h3]; intros [= <- <-]; cbn.
  - split; [by split|done].
  - destruct (IsSilent err) eqn:ES; cbn; split; try by split.
    + intros _. exists err. split; [done|congruence].
    + intros _. by exists err.
Qed.

(** The logger is made before the arguments are parsed: whatever they say,
    every command is given the one for production. *)
Lemma nodeadm_logger cmds h :
  nodeadm_main cmds h = (opts ← Parse NewGlobalOptions; run_used cmds Production opts) h.
Proof using Type. done. Qed.
End Main.

(** *** A silent error *)

Example quiet_debug : Command :=
  {| command_name := "debug"; command_Run _ _ := throw (NewSilent (ENew "failed")) |}.
Example parse_none (opts : GlobalOptions) : M Host GlobalOptions := mret {| DevelopmentMode := true |}.
Example main_silent h :
  nodeadm_main parse_none (λ n _, String.eqb n "debug") (λ _, mret (Exited 0)) [quiet_debug] h =
  (Return (Exited 1), h).
Proof. reflexivity. Qed.
