(* ===== verification/Retry.v ===== *)
(** * Retries (internal/retry, internal/kubernetes wait and retry, internal/util)

    [wait.ExponentialBackoffWithContext] belongs to k8s.io/apimachinery: it
    is the parameter [BackoffLoop], with its documented behaviour as the
    laws of the class.  Time enters only through it. *)


From S2P Require Import Prelude GoStrings.
#[local] Open Scope Z_scope.

(** ** Contexts and back-off configuration *)

(** A [context.Context]: a caller's context and the timeouts put on it with
    [context.WithTimeout], innermost first, in nanoseconds. *)
Record Ctx := { ctx_base : nat; ctx_timeouts : list Z }.
Definition WithTimeoutCtx (c : Ctx) (d : Z) : Ctx :=
  {| ctx_base := ctx_base c; ctx_timeouts := d :: ctx_timeouts c |}.

Definition Nanosecond : Z := 1.
Definition Millisecond : Z := 1000000.
Definition Second : Z := 1000 * Millisecond.
Definition Minute : Z := 60 * Second.
Definition MaxInt : Z := 2 ^ 63 - 1.

(** [Backoff] (a [wait.Backoff]); [Factor] and [Jitter] in thousandths. *)
Record Backoff := { Duration : Z; Factor : Z; Jitter : Z; Steps : Z }.

(** [n] polls of [cond] that all asked for another one. *)
Inductive polls {S} (cond : M S bool) : nat → S → S → Prop :=
  | polls_0 s : polls cond 0 s s
  | polls_S n s s1 s2 :
      cond s = (Return false, s1) → polls cond n s1 s2 → polls cond (Datatypes.S n) s s2.

(** [wait.ExponentialBackoffWithContext]: polls until [cond] is true or
    fails, the context is done, or [Steps] polls were made; in the last two
    cases it returns an error that [wait.Interrupted] recognises. *)
Class BackoffLoop := {
  ExponentialBackoffWithContext {S} : Ctx → Backoff → M S bool → M S unit;
  Interrupted : error → bool;
  backoff_outcome {S} (c : Ctx) (b : Backoff) (cond : M S bool) s o s' :
    ExponentialBackoffWithContext c b cond s = (o, s') →
    ∃ n s1, polls cond n s s1 ∧ Z.of_nat n <= Z.max 0 (Steps b) ∧
      match o with
      | Return _ => cond s1 = (Return true, s')
      | Throw e => cond s1 = (Throw e, s') ∨ (s' = s1 ∧ Interrupted e = true)
      | Panic => cond s1 = (Panic, s')
      end;
}.

(** ** The retrier (retry.go) *)

(** [HandleError]: receives nil ([None]) too, and may keep state.  Both it
    and the operation return normally; a panic ends the process. *)
Definition HandleError (S : Type) : Type := option error → S → option error * S.
Definition Operation (S : Type) : Type := Ctx → S → (bool * option error) * S.

Record Retrier (S : Type) := {
  handleError : option (HandleError S);
  Timeout : Z;
  OperationTimeout : Z;
  backoff : Backoff;
}.
Arguments handleError {_} _.
Arguments Timeout {_} _.
Arguments OperationTimeout {_} _.
Arguments backoff {_} _.

(** A call on [S] made in a state that also holds the closure's [lastErr]. *)
Definition on_fst {S T A} (f : S → A * S) : M (S * T) A :=
  λ st, let '(a, s') := f (fst st) in (Return a, (s', snd st)).
Definition lift {S A} (f : S → A * S) : M S A :=
  λ s, let '(a, s') := f s in (Return a, s').

Section Retrier.
Context {S : Type}.
Implicit Types (r : Retrier S) (op : Operation S).

(** The condition closure of [Do]; note that [err] is overwritten by the
    handler's answer, so [done && err == nil] reads that answer. *)
Definition Do_condition r (op : Operation S) (ctx : Ctx) : M (S * option error) bool :=
  let ctx := if OperationTimeout r =? 0 then ctx
             else WithTimeoutCtx ctx (OperationTimeout r) in
  '(done, err) ← on_fst (op ctx);
  when (if err is Some _ then true else false) (modify (λ st, (fst st, err)));;
  match handleError r with
  | Some h =>
      err ← on_fst (h err);
      match err with
      | Some e => throw e
      | None => mret (done && true)
      end
  | None => mret (done && (if err is Some _ then false else true))
  end.

Definition Do_backoff r : Backoff :=
  if Steps (backoff r) =? 0
  then {| Duration := Duration (backoff r); Factor := Factor (backoff r);
          Jitter := Jitter (backoff r); Steps := MaxInt |}
  else backoff r.

Definition Do `{BackoffLoop} r (ctx : Ctx) (op : Operation S) : M S unit :=
  λ s,
    let ctx := if Timeout r =? 0 then ctx else WithTimeoutCtx ctx (Timeout r) in
    match ExponentialBackoffWithContext ctx (Do_backoff r) (Do_condition r op ctx) (s, None) with
    | (Throw err, (s', lastErr)) =>
        match Interrupted err, lastErr with
        | true, Some l => (Throw (EWrap (error_text err +:+ " while retrying") l), s')
        | _, _ => (Throw err, s')
        end
    | (Return _, (s', _)) => (Return tt, s')
    | (Panic, (s', _)) => (Panic, s')
    end.

(** One attempt of the operation: what it returned, and what the handler
    answered ([None]: no handler, or the handler accepts). *)
Inductive attempt r op (ctx : Ctx) (s : S) : bool → option error → option error → S → Prop :=
  | attempt_plain done err s' :
      handleError r = None → op ctx s = ((done, err), s') →
      attempt r op ctx s done err None s'
  | attempt_handled h done err s1 ans s' :
      handleError r = Some h → op ctx s = ((done, err), s1) → h err s1 = (ans, s') →
      attempt r op ctx s done err ans s'.

(** The context an attempt runs in. *)
Definition attempt_ctx r (ctx : Ctx) : Ctx :=
  let ctx := if Timeout r =? 0 then ctx else WithTimeoutCtx ctx (Timeout r) in
  if OperationTimeout r =? 0 then ctx else WithTimeoutCtx ctx (OperationTimeout r).

Definition later (err l : option error) : option error :=
  if err is Some _ then err else l.
Definition accepts r (err : option error) : bool :=
  if handleError r is Some _ then true else if err is Some _ then false else true.

(** [n] attempts that were retried: no handler refused, and each was not
    done or failed without a handler; [l'] is the last error seen. *)
Inductive retried r op (ctx : Ctx) : nat → S → option error → S → option error → Prop :=
  | retried_0 s l : retried r op ctx 0 s l s l
  | retried_S n s l done err s1 s2 l' :
      attempt r op ctx s done err None s1 → done && accepts r err = false →
      retried r op ctx n s1 (later err l) s2 l' →
      retried r op ctx (Datatypes.S n) s l s2 l'.

Lemma Do_condition_spec r op ctx s l o st' :
  Do_condition r op ctx (s, l) = (o, st') →
  ∃ done err ans,
    attempt r op (if OperationTimeout r =? 0 then ctx
                  else WithTimeoutCtx ctx (OperationTimeout r)) s done err ans (fst st') ∧
    snd st' = later err l ∧
    o = match ans with Some e => Throw e | None => Return (done && accepts r err) end.
Proof.
  intros H. unfold Do_condition in H. cbv zeta in H.
  set (octx := if OperationTimeout r =? 0 then ctx else _) in *.
  cbv [mbind M_bind on_fst] in H; cbn [fst snd] in H.
  destruct (op octx s) as [[dn err] s1] eqn:Hop.
  assert (when (if err is Some _ then true else false)
            (modify (λ st : S * option error, (fst st, err))) (s1, l)
          = (Return tt, (s1, later err l))) as Hw by by destruct err.
  rewrite Hw in H. unfold accepts. destruct (handleError r) as [h|] eqn:Hh.
  - cbn in H. destruct (h err s1) as [ans s2] eqn:Ha.
    exists dn, err, ans.
    destruct ans; injection H as <- <-; (split; [by eapply attempt_handled|done]).
  - injection H as <- <-. exists dn, err, None. split; [by apply attempt_plain|done].
Qed.

Lemma polls_retried r op ctx n s l st :
  polls (Do_condition r op (if Timeout r =? 0 then ctx else WithTimeoutCtx ctx (Timeout r)))
    n (s, l) st →
  retried r op (attempt_ctx r ctx) n s l (fst st) (snd st).
Proof.
  intros H. remember (s, l) as st0 eqn:E.
  revert s l E. induction H as [st0|n st0 st1 st2 Hc Hp IH]; intros s l ->.
  - constructor.
  - apply Do_condition_spec in Hc as (dn & err & ans & Ha & Hl & Ho).
    destruct ans as [e|]; [done|]. injection Ho as Ho.
    destruct st1 as [s1 l1]; cbn in *; subst l1.
    by eapply retried_S; [apply Ha|symmetry; apply Ho|apply IH].
Qed.

(** C39. What [Retrier.Do] returns, for every back-off loop that behaves as
    documented.  Some attempts were retried, no more than the step limit
    allows: without a handler those that were not done or failed, with one
    those that were not done and whose error, or nil, it answered with nil.
    Success means that the next attempt was done and, without a handler, had
    no error; with one its answer was nil, and its error is not looked at (the
    comment in the code expects a retry then).  An error is the handler's own,
    or the loop's interruption, which then carries the last error any attempt
    returned. *)
Theorem Do_spec `{BackoffLoop} r ctx op s o s' :
  Do r ctx op s = (o, s') →
  let actx := attempt_ctx r ctx in
  ∃ n s1 last,
    retried r op actx n s None s1 last ∧ Z.of_nat n <= Z.max 0 (Steps (Do_backoff r)) ∧
    match o with
    | Return _ => ∃ err, attempt r op actx s1 true err None s' ∧ accepts r err = true
    | Throw e =>
        (∃ done err ans, attempt r op actx s1 done err (Some ans) s' ∧
           (e = ans ∨ Interrupted ans = true ∧
            ∃ l, later err last = Some l ∧ e = EWrap (error_text ans +:+ " while retrying") l)) ∨
        (s' = s1 ∧ ∃ i, Interrupted i = true ∧
           e = match last with
               | Some l => EWrap (error_text i +:+ " while retrying") l
               | None => i
               end)
    | Panic => False
    end.
Proof.
  unfold Do. set (dctx := if Timeout r =? 0 then ctx else _).
  destruct (ExponentialBackoffWithContext _ _ _ _) as [o1 [s2 l2]] eqn:E.
  apply backoff_outcome in E as (n & [s1 l1] & Hp & Hn & Hout).
  apply polls_retried in Hp. intros Hdo. exists n, s1, l1.
  split; [done|]. split; [done|]. destruct o1 as [u|e|].
  - injection Hdo as <- <-. apply Do_condition_spec in Hout as (dn & err & [a|] & Ha & _ & Ho);
      [done|]. injection Ho as Ho. symmetry in Ho. apply andb_true_iff in Ho as [-> Ho]. eauto.
  - destruct Hout as [Hout|[[= <- <-] Hi]].
    + apply Do_condition_spec in Hout as (dn & err & [a|] & Ha & Hl & Ho); [|done].
      injection Ho as <-. cbn in Hl, Ha. subst l2.
      destruct (Interrupted e) eqn:Hi, (later err l1) eqn:Hl; injection Hdo as <- <-;
        left; exists dn, err, e; (split; [done|]); eauto.
    + rewrite Hi in Hdo. destruct l2; injection Hdo as <- <-; right; eauto.
  - apply Do_condition_spec in Hout as (? & ? & [a|] & _ & _ & Ho); done.
Qed.
(** Whatever relation every attempt preserves, the whole loop does. *)
Lemma Do_preserves `{BackoffLoop} (R : S → S → Prop) r ctx op s o s' :
  (∀ s, R s s) → (∀ s1 s2 s3, R s1 s2 → R s2 s3 → R s1 s3) →
  handleError r = None → (∀ ctx s a s', op ctx s = (a, s') → R s s') →
  Do r ctx op s = (o, s') → R s s'.
Proof.
  intros Hrefl Htrans Hh Hop. unfold Do.
  set (c := if Timeout r =? 0 then ctx else _).
  assert (∀ st o' st', Do_condition r op c st = (o', st') → R (fst st) (fst st')) as Hcond.
  { intros [s0 l] o' st' E. apply Do_condition_spec in E as (dn & err & ans & Ha & _ & _).
    cbn [fst]. inversion Ha as [? ? ? _ He|? ? ? ? ? ? He]; subst; [|congruence].
    by eapply Hop. }
  assert (∀ n st st', polls (Do_condition r op c) n st st' → R (fst st) (fst st')) as Hpolls.
  { induction 1 as [st|n st st1 st2 Hc _ IH]; [done|]. eapply Htrans; [|exact IH].
    by eapply Hcond. }
  destruct (ExponentialBackoffWithContext _ _ _ _) as [o1 [s1 l1]] eqn:E.
  apply backoff_outcome in E as (n & st & Hp & _ & Ho). apply Hpolls in Hp. cbn [fst] in Hp.
  assert (R s s1) as HR.
  { destruct o1 as [u|e|]; [|destruct Ho as [Ho|[Hst _]]; [|by rewrite <- Hst in Hp]|];
      apply Hcond in Ho; cbn [fst] in Ho; eauto. }
  destruct o1 as [u|e|]; [|destruct (Interrupted e); [destruct l1|]|]; by intros [= <- <-].
Qed.
End Retrier.

(** ** A concrete back-off loop

    Polls at most ten times, then reports a timeout: the loop a caller sees
    whose context expires after ten polls. *)
Fixpoint poll_n {S} (n : nat) (cond : M S bool) : M S unit :=
  match n with
  | O => throw (ECtx true)
  | Datatypes.S n => b ← cond; if (b : bool) then mret tt else poll_n n cond
  end.

Lemma poll_n_outcome {S} n (cond : M S bool) s o s' :
  poll_n n cond s = (o, s') →
  ∃ k s1, polls cond k s s1 ∧ (k <= n)%nat ∧
    match o with
    | Return _ => cond s1 = (Return true, s')
    | Throw e => cond s1 = (Throw e, s') ∨ (s' = s1 ∧ e = ECtx true)
    | Panic => cond s1 = (Panic, s')
    end.
Proof.
  revert s. induction n as [|n IH]; intros s; cbn.
  - intros [= <- <-]. exists 0%nat, s. split; [constructor|split; [lia|by right]].
  - cbv [mbind M_bind]. destruct (cond s) as [[b|e|] s1] eqn:E.
    + destruct b.
      * intros [= <- <-]. exists 0%nat, s. split; [constructor|split; [lia|done]].
      * intros H. destruct (IH _ H) as (k & s2 & Hp & Hk & Ho).
        exists (Datatypes.S k), s2. split; [by econstructor|]. split; [lia|done].
    + intros [= <- <-]. exists 0%nat, s. split; [constructor|split; [lia|by left]].
    + intros [= <- <-]. exists 0%nat, s. split; [constructor|split; [lia|done]].
Qed.

Definition is_ctx_error (e : error) : bool :=
  match e with ECtx _ => true | _ => false end.

#[export, refine] Instance ten_polls : BackoffLoop := {|
  ExponentialBackoffWithContext S c b cond := poll_n (Z.to_nat (Z.min 10 (Steps b))) cond;
  Interrupted := is_ctx_error;
|}.
Proof.
  intros S c b cond s o s' H. apply poll_n_outcome in H as (k & s1 & Hp & Hk & Ho).
  exists k, s1. split; [done|]. split; [lia|]. destruct o; naive_solver.
Defined.

(** An operation that fails twice and then succeeds, retried plainly. *)
Example two_failures : Operation Z :=
  λ _ s, if s <? 2 then ((false, Some (ENew "throttled")), s + 1) else ((true, None), s).

Lemma Do_spec_witness :
  let r := {| handleError := None; Timeout := 0; OperationTimeout := 0;
              backoff := {| Duration := Second; Factor := 2000; Jitter := 0; Steps := 0 |} |} in
  Do r {| ctx_base := 0; ctx_timeouts := [] |} two_failures 0 = (Return tt, 2) ∧
  ∃ n s1 last, retried r two_failures {| ctx_base := 0; ctx_timeouts := [] |} n 0 None s1 last.
Proof.
  cbv zeta.
  match goal with |- ?E ∧ _ => assert E as HE by (vm_compute; reflexivity) end.
  split; [exact HE|].
  destruct (Do_spec _ _ _ _ _ _ HE) as (n & s1 & last & H & _). exists n, s1, last. exact H.
Defined.

(** ** Limiting consecutive errors (maxerrors.go)

    The closure's [attempts] is the state. *)
Definition NewMaxConsecutiveErrorHandler (maxAttempts : Z) : HandleError Z :=
  λ err attempts,
    let attempts := match err with None => 0 | Some _ => attempts + 1 end in
    if attempts <=? maxAttempts then (None, attempts)
    else (Some match err with
               | Some e => EWrap ("max attempts " +:+ Itoa maxAttempts +:+ " reached") e
               | None => ENew ("max attempts " +:+ Itoa maxAttempts +:+ " reached: %!w(<nil>)")
               end, attempts).

(** The handler called on each of [errs] in turn, from a fresh closure. *)
Definition handle_all (maxAttempts : Z) (errs : list (option error)) : Z :=
  fold_left (λ a err, snd (NewMaxConsecutiveErrorHandler maxAttempts err a)) errs 0.

Definition ends_run (pre : list (option error)) : Prop :=
  pre = [] ∨ ∃ p, pre = p ++ [None].

Lemma handle_all_app m l k :
  handle_all m (l ++ k) =
    fold_left (λ a err, snd (NewMaxConsecutiveErrorHandler m err a)) k (handle_all m l).
Proof. apply fold_left_app. Qed.

Lemma handle_all_run m pre suf :
  ends_run pre → Forall is_Some suf →
  handle_all m (pre ++ suf) = Z.of_nat (List.length suf).
Proof.
  intros Hpre Hsuf. rewrite handle_all_app.
  assert (handle_all m pre = 0) as ->.
  { destruct Hpre as [->|[p ->]]; [done|]. rewrite handle_all_app. cbn.
    unfold NewMaxConsecutiveErrorHandler. by destruct (0 <=? m). }
  assert (∀ a, fold_left (λ a err, snd (NewMaxConsecutiveErrorHandler m err a)) suf a
               = a + Z.of_nat (List.length suf)) as H; [|apply H].
  induction Hsuf as [|x suf [e ->] Hsuf IH]; intros a; cbn; [lia|].
  rewrite IH. unfold NewMaxConsecutiveErrorHandler. destruct (a + 1 <=? m); cbn; lia.
Qed.

(** The handler counts consecutive errors: whatever came before, after a
    nil (or at the start) followed by a run of errors it lets the next error
    through while the run is shorter than the limit, and refuses it, wrapping
    that error, from then on; a nil is never refused. *)
Theorem max_consecutive_errors m pre suf e :
  0 <= m → ends_run pre → Forall is_Some suf →
  let attempts := handle_all m (pre ++ suf) in
  fst (NewMaxConsecutiveErrorHandler m (Some e) attempts) =
    (if Z.of_nat (List.length suf) <? m then None
     else Some (EWrap ("max attempts " +:+ Itoa m +:+ " reached") e)) ∧
  fst (NewMaxConsecutiveErrorHandler m None attempts) = None.
Proof.
  intros Hm Hpre Hsuf. cbv zeta. rewrite handle_all_run by done.
  unfold NewMaxConsecutiveErrorHandler. rewrite (proj2 (Z.leb_le 0 m)) by done.
  split; [|done].
  destruct (Z.leb_spec (Z.of_nat (List.length suf) + 1) m),
    (Z.ltb_spec (Z.of_nat (List.length suf)) m); done || lia.
Qed.

Lemma max_consecutive_errors_witness :
  fst (NewMaxConsecutiveErrorHandler 2 (Some (ENew "x"))
    (handle_all 2 ([Some (ENew "a"); None] ++ [Some (ENew "b"); Some (ENew "c")]))) =
    Some (EWrap "max attempts 2 reached" (ENew "x")).
Proof.
  assert (Forall is_Some [Some (ENew "b"); Some (ENew "c")]) as H by (repeat constructor; eauto).
  destruct (max_consecutive_errors 2 [Some (ENew "a"); None] [Some (ENew "b"); Some (ENew "c")]
    (ENew "x") ltac:(lia) (or_intror (ex_intro _ [Some (ENew "a")] eq_refl)) H) as [E _].
  exact E.
Defined.

(** ** Network requests (network.go) *)

(** [func(ctx) error]. *)
Definition Request (S : Type) : Type := Ctx → S → option error * S.

Definition request_op {S} (request : Request S) : Operation S :=
  λ ctx s, match request ctx s with
           | (Some err, s') => ((false, Some err), s')
           | (None, s') => ((true, None), s')
           end.

Definition RetrierOption (S : Type) : Type := Retrier S → Retrier S.
Definition WithTimeout {S} (timeout : Z) : RetrierOption S := λ r,
  {| handleError := handleError r; Timeout := timeout;
     OperationTimeout := OperationTimeout r; backoff := backoff r |}.
Definition WithBackoffDuration {S} (duration : Z) : RetrierOption S := λ r,
  {| handleError := handleError r; Timeout := Timeout r;
     OperationTimeout := OperationTimeout r;
     backoff := {| Duration := duration; Factor := Factor (backoff r);
                   Jitter := Jitter (backoff r); Steps := Steps (backoff r) |} |}.

Definition NetworkRequest `{BackoffLoop} {S} (ctx : Ctx) (request : Request S)
    (opts : list (RetrierOption S)) : M S unit :=
  let r := {| handleError := None; Timeout := 10 * Second; OperationTimeout := 0;
              backoff := {| Duration := 1 * Second; Factor := 2000;
                            Jitter := 100; Steps := 0 |} |} in
  Do (fold_left (λ r opt, opt r) opts r) ctx (request_op request).

(** ** Requests to the API server (internal/kubernetes/retry.go) *)

Definition defaultRetrier {S} : Retrier S :=
  {| handleError := None; OperationTimeout := 30 * Second; Timeout := 2 * Minute;
     backoff := {| Duration := 1 * Second; Factor := 2000; Jitter := 100; Steps := 4 |} |}.

Definition retryRequest `{BackoffLoop} {S} (ctx : Ctx) (request : Request S) : M S unit :=
  Do defaultRetrier ctx (request_op request).

Section KubernetesRetry.
(** [apierrors.IsNotFound] and [apierrors.IsAlreadyExists]. *)
Context `{BackoffLoop} {S O : Type} (IsNotFound IsAlreadyExists : error → bool).

(** A [Get] or [List] call with its options applied, and the calls that
    assign its object to the variable [obj] of the caller. *)
Definition assign_obj (call : Ctx → S → (O * option error) * S) : Request (S * O) :=
  λ ctx st, let '((obj, err), s') := call ctx (fst st) in (err, (s', obj)).

(** [GetRetry] and [ListRetry]: the object is returned with the error. *)
Definition GetRetry (ctx : Ctx) (get : Ctx → S → (O * option error) * S) (zero : O)
    : S → outcome unit * (S * O) := λ s, retryRequest ctx (assign_obj get) (s, zero).
Definition ListRetry (ctx : Ctx) (list : Ctx → S → (O * option error) * S) (zero : O)
    : S → outcome unit * (S * O) := λ s, retryRequest ctx (assign_obj list) (s, zero).

(** The error is swallowed when [benign] holds of it. *)
Definition ignoring (benign : error → bool) (call : Request S) : Request S :=
  λ ctx s, match call ctx s with
           | (Some err, s') => if benign err then (None, s') else (Some err, s')
           | r => r
           end.
Definition IdempotentDelete (ctx : Ctx) (delete : Request S) : M S unit :=
  retryRequest ctx (ignoring IsNotFound delete).
Definition IdempotentCreate (ctx : Ctx) (create : Request S) : M S unit :=
  retryRequest ctx (ignoring IsAlreadyExists create).

(** What every call of the client preserves of the state, a retried get or
    list does. *)
Lemma GetRetry_preserves (R : S → S → Prop) ctx (get : Ctx → S → (O * option error) * S) zero s o s' obj :
  (∀ s, R s s) → (∀ s1 s2 s3, R s1 s2 → R s2 s3 → R s1 s3) →
  (∀ ctx s a s', get ctx s = (a, s') → R s s') →
  GetRetry ctx get zero s = (o, (s', obj)) → R s s'.
Proof using Type.
  clear IsNotFound IsAlreadyExists. intros Hr Ht Hg E. unfold GetRetry, retryRequest in E.
  apply (Do_preserves (λ st st', R (fst st) (fst st'))) in E; eauto.
  intros c [s0 o0] a [s1 o1] Hop. unfold request_op, assign_obj in Hop. cbn [fst] in *.
  destruct (get c s0) as [[ob err] s2] eqn:Hge. apply Hg in Hge.
  destruct err; by injection Hop as _ <- _.
Qed.
End KubernetesRetry.

(** The context every attempt of [retryRequest] runs in. *)
Definition request_ctx (ctx : Ctx) : Ctx :=
  WithTimeoutCtx (WithTimeoutCtx ctx (2 * Minute)) (30 * Second).

(** [n] failed requests in a row, and the last error. *)
Inductive failing {S} (req : Request S) (ctx : Ctx) :
    nat → S → option error → S → option error → Prop :=
  | failing_0 s l : failing req ctx 0 s l s l
  | failing_S n s l e s1 s2 l' :
      req ctx s = (Some e, s1) → failing req ctx n s1 (Some e) s2 l' →
      failing req ctx (Datatypes.S n) s l s2 l'.

Lemma retried_failing {S} (r : Retrier S) req ctx n s l s' l' :
  handleError r = None →
  retried r (request_op req) ctx n s l s' l' → failing req ctx n s l s' l'.
Proof.
  intros Hh. induction 1 as [|n s l dn err s1 s2 l' Ha Hacc _ IH]; [constructor|].
  inversion Ha as [? ? ? _ Hop|]; [subst|congruence].
  unfold request_op in Hop. destruct (req ctx s) as [[e|] s3] eqn:E; simplify_eq.
  - by eapply failing_S.
  - unfold accepts in Hacc. by rewrite Hh in Hacc.
Qed.

Lemma Do_request `{BackoffLoop} {S} (r : Retrier S) ctx req s o s' :
  handleError r = None →
  Do r ctx (request_op req) s = (o, s') →
  ∃ n s1 last,
    failing req (attempt_ctx r ctx) n s None s1 last ∧
    Z.of_nat n <= Z.max 0 (Steps (Do_backoff r)) ∧
    match o with
    | Return _ => req (attempt_ctx r ctx) s1 = (None, s')
    | Throw e => s' = s1 ∧ ∃ i, Interrupted i = true ∧
        e = match last with
            | Some l => EWrap (error_text i +:+ " while retrying") l
            | None => i
            end
    | Panic => False
    end.
Proof.
  intros Hh HD. destruct (Do_spec _ _ _ _ _ _ HD) as (n & s1 & last & Hr & Hn & Ho).
  exists n, s1, last. split; [by eapply retried_failing|]. split; [done|].
  destruct o as [u|e|]; [|destruct Ho as [(dn & err & ans & Ha & _)|Ho]; [|done]|done].
  - destruct Ho as (err & Ha & _). inversion Ha as [? ? ? _ Hop|]; [subst|congruence].
    unfold request_op in Hop. by destruct (req _ s1) as [[e|] s3]; simplify_eq.
  - inversion Ha; congruence.
Qed.

(** [IdempotentDelete] makes at most five deletes, each bounded by 30s
    inside two minutes; all but the last failed with an error other than
    NotFound, and it succeeds only if the last one succeeded or found
    nothing to delete. *)
Theorem IdempotentDelete_spec `{BackoffLoop} {S} (IsNotFound : error → bool) ctx
    (delete : Request S) s o s' :
  IdempotentDelete IsNotFound ctx delete s = (o, s') →
  ∃ n s1 last, (n <= 4)%nat ∧
    failing (ignoring IsNotFound delete) (request_ctx ctx) n s None s1 last ∧
    match o with
    | Return _ => ∃ err, delete (request_ctx ctx) s1 = (err, s') ∧
        (err = None ∨ ∃ e, err = Some e ∧ IsNotFound e = true)
    | Throw e => s' = s1 ∧ (last = None ∨ ∃ l m, last = Some l ∧ e = EWrap m l)
    | Panic => False
    end.
Proof.
  intros HD. destruct (Do_request defaultRetrier _ _ _ _ _ eq_refl HD)
    as (n & s1 & last & Hf & Hn & Ho).
  exists n, s1, last. split; [change (Steps _) with 4 in Hn; lia|]. split; [done|].
  destruct o as [u|e|]; [|destruct Ho as (-> & i & _ & ->); split; [done|];
    destruct last as [l|]; [right; by do 2 eexists|by left]|done].
  change (attempt_ctx _ ctx) with (request_ctx ctx) in Ho. unfold ignoring in Ho.
  destruct (delete _ s1) as [[e|] s2]; [|by simplify_eq; eauto].
  destruct (IsNotFound e) eqn:E; simplify_eq. eauto 10.
Qed.

Lemma IdempotentDelete_spec_witness :
  let del : Request Z := λ _ s, if s <? 2 then (Some (ENew "conflict"), s + 1)
                                else (Some (EApiNotFound "pod"), s) in
  let nf e := match e with EApiNotFound _ => true | _ => false end in
  IdempotentDelete nf {| ctx_base := 0; ctx_timeouts := [] |} del 0 = (Return tt, 2) ∧
  ∃ n s1 last, (n <= 4)%nat ∧
    failing (ignoring nf del) (request_ctx {| ctx_base := 0; ctx_timeouts := [] |})
      n 0 None s1 last.
Proof.
  cbv zeta. match goal with |- ?E ∧ _ => assert E as HE by (vm_compute; reflexivity) end.
  split; [exact HE|].
  destruct (IdempotentDelete_spec _ _ _ _ _ _ HE) as (n & s1 & last & Hn & Hf & _).
  exists n, s1, last. split; [exact Hn|exact Hf].
Defined.

(** ** Waiting for an object (internal/kubernetes/wait.go) *)

Definition minWait : Z := 200 * Millisecond.
Definition maxWait : Z := 5 * Second.

(** The time between two reads; [timeout/10] truncates towards zero. *)
Definition wait_interval (timeout : Z) : Z :=
  Z.min (Z.max (Z.quot timeout 10) minWait) maxWait.

Section WaitFor.
Context `{BackoffLoop} {S O : Type}.
Implicit Types (read : Ctx → S → (O * option error) * S) (ready : O → bool).

(** The state of the loop: the world, [obj] and the handler's [attempts]. *)
Definition WaitFor_op read ready : Operation (S * O * Z) :=
  λ ctx st, let '(s, _, a) := st in
    let '((obj, err), s') := read ctx s in
    match err with
    | Some e => ((false, Some e), (s', obj, a))
    | None => ((ready obj, None), (s', obj, a))
    end.

Definition WaitFor_retrier (timeout : Z) : Retrier (S * O * Z) :=
  {| handleError := Some (λ err st, let '(s, obj, a) := st in
       let '(r, a') := NewMaxConsecutiveErrorHandler 3 err a in (r, (s, obj, a')));
     Timeout := timeout; OperationTimeout := 0;
     backoff := {| Duration := wait_interval timeout; Factor := 0; Jitter := 0;
                   Steps := 0 |} |}.

(** The caller gets the object together with the error. *)
Definition WaitFor (ctx : Ctx) (timeout : Z) read ready (zero : O)
    : S → outcome unit * (S * O) :=
  λ s, let '(o, (s', obj, _)) :=
         Do (WaitFor_retrier timeout) ctx (WaitFor_op read ready) (s, zero, 0) in
       (o, (s', obj)).

Definition GetAndWait ctx timeout (get : string → Ctx → S → (O * option error) * S)
    (name : string) ready zero := WaitFor ctx timeout (get name) ready zero.
Definition ListAndWait {Opt : Type} ctx timeout
    (call : Opt → Ctx → S → (O * option error) * S) ready
    (opts : list (Opt → Opt)) (o0 : Opt) zero :=
  WaitFor ctx timeout (call (fold_left (λ o f, f o) opts o0)) ready zero.

Lemma WaitFor_attempt timeout ctx read ready s obj a dn err ans st' :
  attempt (WaitFor_retrier timeout) (WaitFor_op read ready) ctx (s, obj, a) dn err ans st' →
  ∃ ob s', read ctx s = ((ob, err), s') ∧
    st' = (s', ob, if err is Some _ then a + 1 else 0) ∧
    dn = (if err is Some _ then false else ready ob) ∧
    (ans = None ↔ (if err is Some _ then a + 1 else 0) <= 3).
Proof.
  intros Ha. inversion Ha as [? ? ? Hh|h dn' err' [[s3 o3] a3] ans' st2 Hh Hop Hans]; subst;
    [discriminate Hh|].
  injection Hh as <-. cbn in Hop. destruct (read ctx s) as [[ob e] s'] eqn:Hrd.
  assert (err = e ∧ (s3, o3, a3) = (s', ob, a) ∧ dn = (if e is Some _ then false else ready ob))
    as (-> & [= -> -> ->] & ->) by (destruct e; by simplify_eq).
  exists ob, s'. split; [done|]. unfold NewMaxConsecutiveErrorHandler in Hans.
  destruct e as [e|].
  - destruct (Z.leb_spec (a + 1) 3); injection Hans as <- <-; repeat split; try done; lia.
  - injection Hans as <- <-. done.
Qed.

Lemma WaitFor_attempts timeout ctx read ready n st l st' l' :
  retried (WaitFor_retrier timeout) (WaitFor_op read ready) ctx n st l st' l' →
  0 <= snd st <= 3 → 0 <= snd st' <= 3.
Proof.
  induction 1 as [|n [[s obj] a] l dn err st1 st2 l' Ha _ _ IH]; [done|].
  intros Hst. apply IH. cbn in Hst.
  apply WaitFor_attempt in Ha as (ob & s' & _ & -> & _ & [Hle _]). specialize (Hle eq_refl).
  cbn. destruct err; lia.
Qed.

(** [WaitFor] polls every 200ms to 5s; it succeeds only with an object
    that the last read returned without error and that is ready, and it
    gives up on errors only at the fourth consecutive failing read. *)
Theorem WaitFor_spec ctx timeout read ready zero s o s' obj :
  WaitFor ctx timeout read ready zero s = (o, (s', obj)) →
  minWait <= wait_interval timeout <= maxWait ∧
  match o with
  | Return _ => ready obj = true ∧
      ∃ s1, read (attempt_ctx (WaitFor_retrier timeout) ctx) s1 = ((obj, None), s')
  | Throw e =>
      (∃ s1 err, read (attempt_ctx (WaitFor_retrier timeout) ctx) s1 = ((obj, Some err), s') ∧
         ∃ n st last, retried (WaitFor_retrier timeout) (WaitFor_op read ready)
           (attempt_ctx (WaitFor_retrier timeout) ctx) n (s, zero, 0) None st last ∧
           snd st = 3) ∨
      (∃ i, Interrupted i = true ∧ (e = i ∨ ∃ m l, e = EWrap m l))
  | Panic => False
  end.
Proof.
  unfold WaitFor. destruct (Do _ _ _ _) as [o1 [[s1 obj1] a1]] eqn:HD.
  intros [= <- <- <-]. split; [unfold wait_interval, minWait, maxWait, Second, Millisecond; lia|].
  destruct (Do_spec _ _ _ _ _ _ HD) as (n & [[s2 obj2] a2] & last & Hr & _ & Ho).
  pose proof (WaitFor_attempts _ _ _ _ _ _ _ _ _ Hr ltac:(cbn; lia)) as Hbound.
  set (actx := attempt_ctx _ ctx) in *. cbn in Hbound.
  destruct o1 as [u|e|]; [| |done].
  - destruct Ho as (err & Ha & _).
    apply WaitFor_attempt in Ha as (ob & s' & Hrd & [= -> -> ->] & Hdn & _).
    destruct err; [done|]. eauto.
  - destruct Ho as [(dn & err & ans & Ha & _)|(_ & i & Hi & ->)].
    2:{ right. exists i. split; [done|]. destruct last; [right|left]; eauto. }
    left. apply WaitFor_attempt in Ha as (ob & s' & Hrd & [= -> -> ->] & _ & Hans).
    assert (¬ (if err is Some _ then a2 + 1 else 0) <= 3) as Hgt by (rewrite <- Hans; done).
    destruct err as [e0|]; [|lia]. exists s2, e0. split; [done|].
    exists n, (s2, obj2, a2), last. split; [done|]. cbn. lia.
Qed.
End WaitFor.

Lemma WaitFor_spec_witness :
  let read : Ctx → Z → (Z * option error) * Z :=
    λ _ s, if s <? 3 then ((0, Some (ENew "refused")), s + 1) else ((s, None), s) in
  WaitFor {| ctx_base := 0; ctx_timeouts := [] |} Minute read (λ n, n =? 3) 0 0
    = (Return tt, (3, 3)) ∧
  (3 =? 3) = true.
Proof.
  cbv zeta. match goal with |- ?E ∧ _ => assert E as HE by (vm_compute; reflexivity) end.
  split; [exact HE|]. destruct (WaitFor_spec _ _ _ _ _ _ _ _ _ HE) as (_ & Hr & _). exact Hr.
Defined.

(** C40. An operation that says it is done but also fails is never tried again
    once the handler answers its error with nil: for every retrier with a
    handler and every back-off loop, the call succeeds right after that
    attempt, unless the loop is interrupted before it.  (The comment in [Do]
    promises a retry; but the handler's nil has replaced the error by the time
    [done && err == nil] is evaluated.) *)
Theorem Do_done_with_error `{BackoffLoop} {S} (r : Retrier S) h (op : Operation S) ctx s e s1 s2 o s' :
  handleError r = Some h →
  op (attempt_ctx r ctx) s = ((true, Some e), s1) → h (Some e) s1 = (None, s2) →
  Do r ctx op s = (o, s') →
  (o = Return tt ∧ s' = s2) ∨ (s' = s ∧ ∃ i, o = Throw i ∧ Interrupted i = true).
Proof.
  intros Hr Hop Hh E.
  assert (∀ l, Do_condition r op (if Timeout r =? 0 then ctx else WithTimeoutCtx ctx (Timeout r)) (s, l) =
    (Return true, (s2, Some e))) as Hc.
  { intros l. unfold Do_condition. cbv [mbind M_bind on_fst]. cbn [fst snd].
    unfold attempt_ctx in Hop. rewrite Hop, Hr. cbn. by rewrite Hh. }
  unfold Do in E. destruct (ExponentialBackoffWithContext _ _ _ _) as [o1 [s3 l3]] eqn:EB.
  apply backoff_outcome in EB as (n & st & Hp & _ & Hout).
  assert (st = (s, None)) as ->.
  { inversion Hp as [|? ? ? ? Hf]; subst; [done|]. by rewrite Hc in Hf. }
  rewrite Hc in Hout. destruct o1 as [u|i|]; [left|right|done].
  - injection Hout as <- <-. by injection E as <- <-.
  - destruct Hout as [?|[[= -> ->] Hi]]; [done|]. rewrite Hi in E. injection E as <- <-. eauto.
Qed.

Example lenient : Retrier Z := {|
  handleError := Some (λ _ s, (None, s)); Timeout := 0; OperationTimeout := 0;
  backoff := {| Duration := Second; Factor := 2000; Jitter := 0; Steps := 0 |} |}.
Example half_done : Operation Z := λ _ s, ((true, Some (ENew "partial failure")), s + 1).
Lemma Do_done_with_error_witness :
  Do lenient {| ctx_base := 0; ctx_timeouts := [] |} half_done 0 = (Return tt, 1) ∧ 1 ≠ 0.
Proof.
  assert (Do lenient {| ctx_base := 0; ctx_timeouts := [] |} half_done 0 = (Return tt, 1)) as HE by (vm_compute; reflexivity).
  split; [exact HE|].
  destruct (Do_done_with_error lenient (λ _ s, (None, s)) half_done {| ctx_base := 0; ctx_timeouts := [] |} 0
    (ENew "partial failure") 1 1 _ _ eq_refl eq_refl eq_refl HE) as [_|[HS _]];
    [done|discriminate HS].
Defined.

(** ** Fixed-count retry with doubling sleeps (internal/util/retry.go)

    The state is the world and the sleeps made so far; [wait *= 2] wraps at
    64 bits as Go's [time.Duration] does. *)
Definition wrap64 (n : Z) : Z := (n + 2 ^ 63) mod 2 ^ 64 - 2 ^ 63.

Fixpoint RetryExponentialBackoff_loop {S} (attempts : nat) (wait : Z)
    (f : S → option error * S) (err : option error) (s : S) (sleeps : list Z)
    : option error * (S * list Z) :=
  match attempts with
  | O => (err, (s, sleeps))
  | Datatypes.S n =>
      match f s with
      | (None, s') => (None, (s', sleeps))
      | (Some e, s') =>
          RetryExponentialBackoff_loop n (wrap64 (wait * 2)) f (Some e) s' (sleeps ++ [wait])
      end
  end.
Definition RetryExponentialBackoff {S} (attempts initial : Z) (f : S → option error * S) (s : S)
    : option error * (S * list Z) :=
  RetryExponentialBackoff_loop (Z.to_nat attempts) initial f None s [].

(** [k] failing calls of [f] in a row. *)
Inductive fails {S} (f : S → option error * S) : nat → S → option error → S → Prop :=
  | fails_0 s l : fails f 0 s l s
  | fails_S n s e s1 s2 l :
      f s = (Some e, s1) → fails f n s1 l s2 →
      fails f (Datatypes.S n) s (if n is O then Some e else l) s2.

Definition doubling (n : nat) (wait : Z) : list Z :=
  (λ i, wait * 2 ^ Z.of_nat i) <$> seq 0 n.

Lemma doubling_S n wait : doubling (Datatypes.S n) wait = wait :: doubling n (wait * 2).
Proof.
  unfold doubling. rewrite <- cons_seq. cbn [fmap list_fmap].
  rewrite Z.pow_0_r, Z.mul_1_r. f_equal. rewrite <- fmap_S_seq, <- list_fmap_compose.
  apply list_fmap_ext. intros i x _. cbn. rewrite Nat2Z.inj_succ, Z.pow_succ_r by lia. lia.
Qed.

Lemma wrap64_small n : - 2 ^ 63 <= n < 2 ^ 63 → wrap64 n = n.
Proof. intros H. unfold wrap64. rewrite Z.mod_small; lia. Qed.

Lemma RetryExponentialBackoff_loop_spec {S} n wait (f : S → option error * S) err s sl :
  0 <= wait → wait * 2 ^ Z.of_nat n < 2 ^ 63 →
  ∃ k s1, (k <= n)%nat ∧
    ((k < n)%nat ∧ (∃ l s2, fails f k s l s1 ∧ f s1 = (None, s2) ∧
       RetryExponentialBackoff_loop n wait f err s sl = (None, (s2, sl ++ doubling k wait)))
     ∨ k = n ∧ ∃ l, fails f n s l s1 ∧
       RetryExponentialBackoff_loop n wait f err s sl =
         (if n is O then err else l, (s1, sl ++ doubling n wait))).
Proof.
  revert wait err s sl. induction n as [|n IH]; intros wait err s sl Hw Hb.
  - exists 0%nat, s. split; [done|]. right. split; [done|]. exists None.
    split; [constructor|]. cbn. by rewrite app_nil_r.
  - cbn [RetryExponentialBackoff_loop]. destruct (f s) as [[e|] s'] eqn:E.
    + rewrite Nat2Z.inj_succ, Z.pow_succ_r in Hb by lia.
      assert (1 <= 2 ^ Z.of_nat n) by (apply Z.lt_pred_le, Z.pow_pos_nonneg; lia).
      rewrite (wrap64_small (wait * 2)) by nia.
      destruct (IH (wait * 2) (Some e) s' (sl ++ [wait]) ltac:(lia) ltac:(nia))
        as (k & s1 & Hk & [(Hlt & l & s2 & Hf & Hs & ->)|(-> & l & Hf & ->)]).
      * exists (Datatypes.S k), s1. split; [lia|]. left. split; [lia|]. eexists _, s2.
        split; [by eapply fails_S|]. split; [done|].
        by rewrite doubling_S, <- app_assoc.
      * exists (Datatypes.S n), s1. split; [lia|]. right. split; [done|]. eexists.
        split; [by eapply fails_S|]. rewrite doubling_S, <- app_assoc. by destruct n.
    + exists 0%nat, s. split; [lia|]. left. split; [lia|]. exists None, s'.
      split; [constructor|]. split; [done|]. cbn. by rewrite app_nil_r.
Qed.

(** [RetryExponentialBackoff] calls the function at most [attempts] times,
    sleeping [initial], twice that, and so on after each failure (the last
    one included); it stops at the first success, and otherwise returns the
    last error.  With no attempts it returns nil without calling it. *)
Theorem RetryExponentialBackoff_spec {S} attempts initial (f : S → option error * S) s :
  0 <= attempts → 0 <= initial → initial * 2 ^ attempts < 2 ^ 63 →
  ∃ k s1 l, Z.of_nat k <= attempts ∧ fails f k s l s1 ∧
    (Z.of_nat k < attempts ∧ (∃ s2, f s1 = (None, s2) ∧
       RetryExponentialBackoff attempts initial f s = (None, (s2, doubling k initial)))
     ∨ Z.of_nat k = attempts ∧
       RetryExponentialBackoff attempts initial f s =
         (if k is O then None else l, (s1, doubling k initial))).
Proof.
  intros Ha Hi Hb. unfold RetryExponentialBackoff.
  destruct (RetryExponentialBackoff_loop_spec (Z.to_nat attempts) initial f None s [] Hi)
    as (k & s1 & Hk & [(Hlt & l & s2 & Hf & Hs & E)|(-> & l & Hf & E)]).
  - by rewrite Z2Nat.id.
  - exists k, s1, l. split; [lia|]. split; [done|]. left. split; [lia|]. by exists s2.
  - exists (Z.to_nat attempts), s1, l. split; [lia|]. split; [done|]. right. split; [lia|done].
Qed.

(** ** Retrying a command (internal/util/cmd/retry.go)

    [ticks] is the number of waits that elapse before the context is done:
    the outcome of the [select] is the environment's choice. *)
Fixpoint CmdRetry {S} (ticks : nat) (run : S → (string * option error) * S) (args : string)
    (ctxErr : error) (s : S) : option error * S :=
  match run s with
  | ((_, None), s') => (None, s')
  | ((out, Some e), s') =>
      let err := ENew ("running command " +:+ args +:+ ": " +:+ out +:+
                       " [Err " +:+ error_text e +:+ "]") in
      match ticks with
      | O => (Some (EWrap (error_text ctxErr) err), s')
      | Datatypes.S ticks => CmdRetry ticks run args ctxErr s'
      end
  end.
