(* ===== verification/Artifact.v ===== *)
(** * Artifacts (internal/artifact)

    Sources of binary data with a checksum, and the three ways the tool
    puts them on the host: [InstallFile], [InstallTarGz] and [Upgrade]. *)

From S2P Require Import Prelude GoStrings Host.
#[local] Open Scope Z_scope.

(** ** Checksums (checksum.go) *)

(** [encoding/hex]: the value of a digit, and [hex.DecodeString]. *)
Definition hex_val (c : ascii) : option Z :=
  let n := Z.of_N (N_of_ascii c) in
  if (48 <=? n) && (n <=? 57) then Some (n - 48)
  else if (97 <=? n) && (n <=? 102) then Some (n - 87)
  else if (65 <=? n) && (n <=? 70) then Some (n - 55)
  else None.

Fixpoint hex_DecodeString (s : string) : result string :=
  match s with
  | "" => Ok ""
  | String a (String b s) =>
      match hex_val a, hex_val b with
      | Some x, Some y =>
          r ← hex_DecodeString s; Ok (String (ascii_of_N (Z.to_N (16 * x + y))) r)
      | _, _ => Err (ENew "encoding/hex: invalid byte")
      end
  | String a "" =>
      match hex_val a with
      | Some _ => Err (ENew "encoding/hex: odd length hex string")
      | None => Err (ENew "encoding/hex: invalid byte")
      end
  end.

(** [hex.EncodeToString], lower case. *)
Definition hex_digit (n : Z) : ascii :=
  ascii_of_N (Z.to_N (if n <? 10 then 48 + n else 87 + n)).
Fixpoint hex_EncodeToString (s : string) : string :=
  match s with
  | "" => ""
  | String c s =>
      let n := Z.of_N (N_of_ascii c) in
      String (hex_digit (n / 16)) (String (hex_digit (n mod 16)) (hex_EncodeToString s))
  end.

Definition ParseGNUChecksum (gnuChecksum : string) : result string :=
  match Cut " " gnuChecksum with
  | None => Err (ENew "invalid gnu checksum")
  | Some (ch, _) => hex_DecodeString ch
  end.

(** ** Sources (source.go)

    A source is read once, from the front.  [hashed] is what has gone
    through the tee into the digest; [read_err] is the error, if any, that
    ends the stream after its last byte.  [verifier] is [None] for the
    nop verifier; otherwise the digest function and the expected sum. *)
Record Source := {
  unread : string;
  read_err : option error;
  hashed : string;
  verifier : option ((string → string) * string);
}.

Definition ExpectedChecksum (s : Source) : option string := snd <$> verifier s.
Definition ActualChecksum (s : Source) : option string :=
  (λ v, v.1 (hashed s)) <$> verifier s.
Definition VerifyChecksum (s : Source) : bool :=
  match verifier s with
  | None => true
  | Some (digest, expect) => String.eqb (digest (hashed s)) expect
  end.

Definition NewChecksumError (s : Source) : error :=
  ENew ("checksum mismatch (expect != actual): " +:+ default "" (ExpectedChecksum s) +:+
        " != " +:+ default "" (ActualChecksum s)).

(** [WithChecksum(rc, digest, expect)] on a body with content [data]. *)
Definition WithChecksum (body : string * option error) (digest : string → string)
    (expect : string) : result Source :=
  match ParseGNUChecksum expect with
  | Err e => Err (EWrap "parsing expected checksum" e)
  | Ok sum => Ok {| unread := body.1; read_err := body.2; hashed := "";
                    verifier := Some (digest, sum) |}
  end.

Definition WithNopChecksum (body : string * option error) : Source :=
  {| unread := body.1; read_err := body.2; hashed := ""; verifier := None |}.

(** [GzippedWithChecksum]; [gunzip] is [gzip.NewReader] on the body: an
    error for a bad header, else the decompressed stream. *)
Definition GzippedWithChecksum (gunzip : string * option error → result (string * option error))
    (body : string * option error) (digest : string → string) (expect : string)
    : result Source :=
  match gunzip body with
  | Err e => Err (EWrap "getting gzip reader" e)
  | Ok plain => WithChecksum plain digest expect
  end.

(** [bytes.NewBuffer(data)] as a source. *)
Definition buffer (data : string) : Source := WithNopChecksum (data, None).

(** The source after it has been read to the end. *)
Definition drained (s : Source) : Source :=
  {| unread := ""; read_err := read_err s; hashed := hashed s +:+ unread s;
     verifier := verifier s |}.

(** ** Installing files (install.go) *)

Definition DefaultDirPerms : Z := 493. (* 0o755 *)

Section Install.
Context `{Env}.

(** [io.Copy(fh, src)]: what was read is written, then a read error shows. *)
Definition io_Copy (dst : string) (src : Source) : M Host Source :=
  file_Write dst (unread src);;
  match read_err src with
  | Some e => throw e
  | None => mret (drained src)
  end.

Definition InstallFile (dst : string) (src : Source) (perms : Z) : M Host Source :=
  os_RemoveAll dst;;
  os_MkdirAll (path_Dir dst) DefaultDirPerms;;
  os_Create dst perms;;
  io_Copy dst src.

Definition validRelPath (p : string) : bool :=
  negb (String.eqb p "" || Contains p "\" || HasPrefix p "/" || Contains p "../").

(** One tar header with the contents that follow it; [None] is [tr.Next]
    failing. *)
Record TarEntry := { tar_name : string; tar_isDir : bool; tar_mode : Z; tar_data : string;
                     tar_err : option error }.

(** The body of the loop of [InstallTarGz] for one header. *)
Definition InstallTarEntry (dst : string) (e : TarEntry) : M Host unit :=
  if negb (validRelPath (tar_name e))
  then throw (ENew ("tar contained invalid name error " +:+ tar_name e))
  else
    let target := path_Join [dst; tar_name e] in
    if tar_isDir e then map_err (EWrap "creating directory") (os_MkdirAll target (tar_mode e))
    else
      map_err (EWrap "creating file") (os_Create target (tar_mode e));;
      map_err (EWrap "copying file contents")
        (file_Write target (tar_data e);; of_option (tar_err e)).

(** [InstallTarGz(dst, src)]; [untar] is [gzip.NewReader] with
    [tar.NewReader] on the bytes of the file: the headers up to the end or
    to an error. *)
Definition InstallTarGz (untar : string → result (list TarEntry * option error))
    (dst src : string) : M Host unit :=
  os_MkdirAll dst DefaultDirPerms;;
  data ← map_err (EWrap "opening source file") (os_ReadFile src);
  '(entries, err) ← map_err (EWrap "creating gzip reader") (of_result (untar data));
  for_each (InstallTarEntry dst) entries;;
  map_err (EWrap "reading tar file") (of_option err);;
  map_err (EWrap "removing source file") (os_Remove src).

(** ** Upgrades (upgrade.go) *)

Definition checksumMatch (sha256 : string → string) (installedArtifactPath : string)
    (src : Source) : M Host bool :=
  data ← map_err (EWrap "checking for checksum match") (os_ReadFile installedArtifactPath);
  mret (String.eqb (sha256 data) (default "" (ExpectedChecksum src))).

Definition Upgrade (sha256 : string → string) (artifactName path : string) (source : Source)
    (perms : Z) : M Host unit :=
  b ← checksumMatch sha256 path source;
  if (b : bool) then mret tt
  else
    source ← map_err (EWrap ("installing " +:+ artifactName)) (InstallFile path source perms);
    if VerifyChecksum source then mret tt
    else throw (EWrap ("verifying checksum post installing " +:+ artifactName)
                  (NewChecksumError source)).
End Install.

(** ** Installed files *)

Section ArtifactProps.
Context `{Env}.

Lemma InstallFile_keeps_tracker dst src perms : keeps_tracker (InstallFile dst src perms).
Proof. unfold InstallFile, io_Copy. host_tac. Qed.

Lemma Upgrade_keeps_tracker sha256 n p src perms : keeps_tracker (Upgrade sha256 n p src perms).
Proof. unfold Upgrade, checksumMatch, InstallFile, io_Copy. host_tac. Qed.

Lemma InstallTarGz_keeps_tracker untar dst src : keeps_tracker (InstallTarGz untar dst src).
Proof. unfold InstallTarGz, InstallTarEntry. host_tac. Qed.

(** What a successful [InstallFile] leaves: exactly the bytes of the source
    and the permissions asked for, nothing else changed but missing parent
    directories and what was below the path. *)
Lemma InstallFile_Return dst src perms h src' h' :
  dst ≠ "" →
  InstallFile dst src perms h = (Return src', h') →
  src' = drained src ∧ read_err src = None ∧
  fs h' !! dst = Some (File (unread src) perms) ∧
  ∀ q, under dst q = false → q ∉ ancestors (path_Dir dst) → fs h' !! q = fs h !! q.
Proof.
  intros Hd HI. unfold InstallFile, io_Copy in HI. inv_m.
  repeat match goal with
  | E : os_RemoveAll _ _ = _ |- _ => apply sys_Return in E as (? & ? & ->)
  | E : os_MkdirAll _ _ _ = _ |- _ => apply sys_Return in E as (? & ? & ->)
  | E : os_Create _ _ _ = _ |- _ => apply sys_Return in E as (? & ? & ->)
  | E : file_Write _ _ _ = _ |- _ => apply sys_Return in E as (? & ? & ->)
  end; cbn [fs set_fs record] in *; simplify_eq.
  destruct (read_err src); [done|]. inv_m. cbn [fs set_fs record].
  match goal with E : mkdir_all _ _ _ = Ok ?f1, E2 : create _ _ ?f1 = Ok ?f2,
    E3 : append _ _ ?f2 = Ok _ |- _ =>
    pose proof (mkdir_all_dirs _ _ _ _ E) as Hdirs;
    assert (f1 !! dst = None ∨ ∃ p, f1 !! dst = Some (Dir p)) as Hdst
      by (destruct (Hdirs dst) as [->|(_ & _ & ->)];
            [left; by rewrite remove_all_lookup, under_refl by done|eauto]);
    unfold create in E2; destruct Hdst as [Hdst|[p Hdst]]; rewrite Hdst in E2; [|done];
    destruct (is_dir f1 (path_Dir dst)); [|done]; injection E2 as <-;
    unfold append in E3; rewrite lookup_insert_eq in E3; injection E3 as <-
  end.
  repeat split; [by rewrite lookup_insert_eq, app_nil_l_str|].
  intros q Hu Hq. assert (q ≠ dst) by (intros ->; by rewrite under_refl in Hu).
  rewrite !lookup_insert_ne by done.
  destruct (Hdirs q) as [->|(_ & ? & _)]; [|done].
  by rewrite remove_all_lookup, Hu by done.
Qed.

Lemma checksumMatch_Return sha256 p src b h h' :
  checksumMatch sha256 p src h = (Return b, h') →
  ∃ data, read_file (fs h) p = Ok data ∧ fs h' = fs h ∧
    b = String.eqb (sha256 data) (default "" (ExpectedChecksum src)).
Proof.
  unfold checksumMatch. intros HC. inv_m. rename select (map_err _ _ _ = _) into HM.
  apply map_err_Return in HM. unfold os_ReadFile in HM. inv_m.
  rename select (sys _ _ _ = _) into HS. apply sys_Return in HS as (f & [= <-] & ->).
  unfold gets, of_result in *. cbn [fs set_fs record] in *. simplify_eq.
  destruct (read_file _ _); simplify_eq. eauto.
Qed.

(** C16. A successful [Upgrade] leaves at the path a regular file whose
    SHA-256 is the one the source announces: either the one already there,
    and then no file at all has changed, or the freshly installed one, whose
    bytes are the source's. *)
Theorem Upgrade_checksum sha256 name path src perms sum h h' :
  path ≠ "" → verifier src = Some (sha256, sum) → hashed src = "" →
  Upgrade sha256 name path src perms h = (Return tt, h') →
  ∃ data, read_file (fs h') path = Ok data ∧ sha256 data = sum ∧
    ((read_file (fs h) path = Ok data ∧ fs h' = fs h) ∨
     (data = unread src ∧ read_err src = None ∧
      ∀ old, read_file (fs h) path = Ok old → sha256 old ≠ sum)).
Proof.
  intros Hp Hv Hh HU. unfold Upgrade in HU.
  apply bind_Return in HU as (match_ & h1 & Hm & HU).
  apply checksumMatch_Return in Hm as (old & Hold & Hfs & ->).
  unfold ExpectedChecksum in HU. rewrite Hv in HU. cbn in HU.
  destruct (String.eqb_spec (sha256 old) sum) as [Hs|Hs].
  - inv_m. exists old. rewrite Hfs. auto.
  - apply bind_Return in HU as (src' & h2 & HI & HV).
    apply map_err_Return in HI.
    apply InstallFile_Return in HI as (-> & He & Hf & _); [|done].
    unfold VerifyChecksum in HV. cbn [verifier drained hashed] in HV.
    rewrite Hv, Hh, app_nil_l_str in HV.
    destruct (String.eqb_spec (sha256 (unread src)) sum) as [Hn|]; [|done].
    injection HV as <-. exists (unread src).
    split; [by unfold read_file; rewrite Hf|]. split; [done|]. right. split; [done|]. split; [done|].
    intros o' Ho. rewrite Hold in Ho. by injection Ho as <-.
Qed.

(** ** Checksum files *)

Lemma hex_val_digit n : 0 <= n < 16 → hex_val (hex_digit n) = Some n.
Proof.
  intros Hn.
  assert (n ∈ [0;1;2;3;4;5;6;7;8;9;10;11;12;13;14;15]) as Hin
    by (rewrite !elem_of_cons; lia).
  clear Hn. repeat (apply elem_of_cons in Hin as [->|Hin]; [reflexivity|]).
  by apply not_elem_of_nil in Hin.
Qed.

Lemma hex_Decode_Encode s : hex_DecodeString (hex_EncodeToString s) = Ok s.
Proof.
  induction s as [|c s IH]; [done|]. cbn [hex_EncodeToString hex_DecodeString].
  pose proof (N_ascii_bounded c) as Hb. set (n := Z.of_N (N_of_ascii c)).
  assert (0 <= n < 256) by lia.
  rewrite !hex_val_digit by (split; [apply Z.div_pos || apply Z.mod_pos_bound|
    apply Z.div_lt_upper_bound || apply Z.mod_pos_bound]; lia).
  rewrite IH. cbn. rewrite <- Z.div_mod by done.
  unfold n. by rewrite N2Z.id, ascii_N_embedding.
Qed.

Lemma hex_digit_not_space n : 0 <= n < 16 → Ascii.eqb (hex_digit n) " " = false.
Proof.
  intros Hn. apply hex_val_digit in Hn. apply Ascii.eqb_neq. intros E.
  rewrite E in Hn. discriminate Hn.
Qed.

Lemma hex_Encode_free s : free_of " " (hex_EncodeToString s) = true.
Proof.
  induction s as [|c s IH]; [done|]. cbn [hex_EncodeToString free_of].
  pose proof (N_ascii_bounded c) as Hb.
  rewrite !hex_digit_not_space, IH by (split; [apply Z.div_pos || apply Z.mod_pos_bound|
    apply Z.div_lt_upper_bound || apply Z.mod_pos_bound]; lia). done.
Qed.

(** Parsing a GNU checksum line gives back the digest that was written:
    for every digest and file name, [ParseGNUChecksum] inverts
    [hex(digest) + " " + name]; and a line without a space is rejected. *)
Theorem ParseGNUChecksum_roundtrip digest name line :
  ParseGNUChecksum (hex_EncodeToString digest +:+ " " +:+ name) = Ok digest ∧
  (free_of " " line = true → is_ok (ParseGNUChecksum line) = false).
Proof.
  split.
  - unfold ParseGNUChecksum.
    rewrite (proj2 (Cut_spec " " _ (hex_EncodeToString digest) name)).
    + apply hex_Decode_Encode.
    + split; [done|]. apply hex_Encode_free.
  - intros Hf. unfold ParseGNUChecksum. destruct (Cut " " line) as [[a b]|] eqn:E; [|done].
    apply Cut_spec in E as [-> _]. rewrite free_of_app in Hf. cbn in Hf.
    by rewrite andb_false_r in Hf.
Qed.

Lemma ParseGNUChecksum_roundtrip_witness :
  is_ok (ParseGNUChecksum "e3b0c44298fc1c14") = false.
Proof. apply (ParseGNUChecksum_roundtrip "" "kubelet" "e3b0c44298fc1c14"). reflexivity. Defined.

(** ** Archives stay inside their directory *)

Lemma Join_inner_contains a x b c :
  Contains (Join (a ++ x :: b :: c) "/") (x +:+ "/") = true.
Proof.
  apply Contains_spec. destruct a as [|y a].
  - exists "", (Join (b :: c) "/"). cbn [app]. by rewrite Join_cons, app_nil_l_str, app_assoc_str.
  - exists (Join (y :: a) "/" +:+ "/"), (Join (b :: c) "/").
    by rewrite Join_app, Join_cons, !app_assoc_str by done.
Qed.

(** The only place [validRelPath] leaves for a [".."] is the end. *)
Lemma validRelPath_inner p a b :
  validRelPath p = true → Split "/" p = a ++ ".." :: b → b = [].
Proof.
  unfold validRelPath. rewrite negb_true_iff, !orb_false_iff.
  intros [_ Hc] Hs. destruct b as [|b c]; [done|].
  pose proof (Join_inner_contains a ".." b c) as Hj.
  rewrite <- Hs in Hj. change "/" with (String "/" "") in Hj at 2.
  rewrite Join_Split in Hj. change (".." +:+ "/") with "../" in Hj. congruence.
Qed.

Lemma clean_parts_last ps st :
  Forall (λ w, free_of "/" w = true) ps → Forall plain st →
  (∀ a b, ps = a ++ ".." :: b → b = []) →
  ∃ ext, Forall plain ext ∧
    (clean_parts true ps st = reverse st ++ ext ∨ clean_parts true ps st = reverse (tail st)).
Proof.
  intros Hf. revert st. induction Hf as [|p ps Hp Hf IH]; intros st Hst Hdd.
  - exists []. split; [done|]. left. cbn. by rewrite app_nil_r.
  - assert (∀ a b, ps = a ++ ".." :: b → b = []) as Hdd'
      by (intros a b ->; by apply (Hdd (p :: a) b)).
    cbn [clean_parts]. destruct (String.eqb_spec p "") as [->|H1]; [by apply IH|].
    destruct (String.eqb_spec p ".") as [->|H2]; [by apply IH|]. cbn [orb].
    destruct (String.eqb_spec p "..") as [->|H3].
    + assert (ps = []) as -> by by apply (Hdd [] ps).
      exists []. split; [done|]. right. destruct st as [|top st]; [done|].
      inversion_clear Hst as [|? ? (? & ? & Ht & _)].
      by rewrite (proj2 (String.eqb_neq top "..")) by done.
    + destruct (IH (p :: st)) as (ext & He & [->|E]); [by constructor|done| |].
      * exists (p :: ext). split; [by constructor|]. left.
        by rewrite reverse_cons, <- app_assoc.
      * exists []. split; [done|]. left. rewrite E. cbn. by rewrite app_nil_r.
Qed.

(** A path of the extraction: inside the directory, or its parent. *)
Definition inside_or_parent (ds : list string) (p : string) : Prop :=
  (∃ ext, Forall plain ext ∧ p = abs (ds ++ ext)) ∨ p = abs (reverse (tail (reverse ds))).

Lemma validRelPath_target ds p :
  ds ≠ [] → Forall plain ds → validRelPath p = true →
  inside_or_parent ds (path_Join [abs ds; p]).
Proof.
  intros Hne Hd Hv. assert (p ≠ "") as Hp by by intros ->.
  rewrite path_Join_abs by done.
  destruct (clean_parts_last (Split "/" p) (reverse ds)) as (ext & He & [-> | ->]).
  - apply Split_parts_free.
  - by apply Forall_reverse.
  - intros a b. by apply validRelPath_inner.
  - left. exists ext. by rewrite reverse_involutive.
  - by right.
Qed.

(** What an extraction into [abs ds] from [src] may do to the host. *)
Definition extraction_event (ds : list string) (src : string) (ev : event) : Prop :=
  match ev with
  | EvMkdirAll p _ | EvCreate p _ | EvWrite p _ => inside_or_parent ds p
  | EvRead p | EvRemove p => p = src
  | _ => False
  end.

Lemma InstallTarGz_journaled untar ds src :
  ds ≠ [] → Forall plain ds →
  journaled (extraction_event ds src) (InstallTarGz untar (abs ds) src).
Proof.
  intros Hne Hd.
  assert (inside_or_parent ds (abs ds)) as Hdst
    by (left; exists []; by rewrite app_nil_r).
  assert (∀ e, journaled (extraction_event ds src) (InstallTarEntry (abs ds) e)) as Hentry.
  { intros e. unfold InstallTarEntry.
    destruct (validRelPath (tar_name e)) eqn:Hv; cbn [negb]; [|apply journaled_pure].
    pose proof (validRelPath_target ds _ Hne Hd Hv). cbv zeta. by host_tac. }
  unfold InstallTarGz. by host_tac.
Qed.

(** C17. Extracting an archive into an absolute directory, whatever the
    archive holds and whatever fails, creates and writes only paths inside
    that directory or, for an entry whose name ends in [".."], the parent
    directory itself; it reads only the archive and removes only the
    archive. *)
Theorem InstallTarGz_contained untar ds src h o h' :
  ds ≠ [] → Forall plain ds →
  InstallTarGz untar (abs ds) src h = (o, h') →
  ∃ evs, journal h' = journal h ++ evs ∧ Forall (extraction_event ds src) evs.
Proof. intros Hne Hd. by apply InstallTarGz_journaled. Qed.
End ArtifactProps.

Example cni_host : Host :=
  {| fs := <["/opt/cni/plugins/cni-plugins.tgz" := File "tgz" 493]> ∅;
     tracker := no_artifacts; journal := []; provider := no_provider |}.
Example cni_tar : string → result (list TarEntry * option error) := λ _,
  Ok ([{| tar_name := "./bridge"; tar_isDir := false; tar_mode := 493;
          tar_data := "ELF"; tar_err := None |}], None).

Lemma InstallTarGz_contained_witness :
  let dst := abs ["opt"; "cni"; "bin"] in
  let src := "/opt/cni/plugins/cni-plugins.tgz" in
  (InstallTarGz cni_tar dst src cni_host).1 = Return tt ∧
  Forall (extraction_event ["opt"; "cni"; "bin"] src)
    (journal (InstallTarGz cni_tar dst src cni_host).2).
Proof.
  cbv zeta. split; [vm_compute; reflexivity|].
  destruct (InstallTarGz _ _ _ _) as [o h'] eqn:E.
  destruct (InstallTarGz_contained cni_tar ["opt"; "cni"; "bin"]
    "/opt/cni/plugins/cni-plugins.tgz" cni_host o h') as (evs & J & F).
  - discriminate.
  - repeat constructor; discriminate.
  - exact E.
  - cbn in J. cbn. rewrite J. exact F.
Defined.

Lemma Upgrade_checksum_witness :
  let src := {| unread := "v2"; read_err := None; hashed := "";
                verifier := Some (λ s, s, "v2") |} in
  let h := {| fs := <["/usr/bin" := Dir 493]> (<["/usr/bin/kubelet" := File "v1" 493]> ∅);
              tracker := no_artifacts; journal := []; provider := no_provider |} in
  ∃ data h', Upgrade (λ s, s) "kubelet" "/usr/bin/kubelet" src 493 h = (Return tt, h') ∧
    read_file (fs h') "/usr/bin/kubelet" = Ok data ∧ data = "v2".
Proof.
  cbv zeta.
  match goal with |- ∃ data h', Upgrade ?a ?b ?c ?d ?e ?f = _ ∧ _ =>
    destruct (Upgrade a b c d e f) as [o h'] eqn:E end.
  assert (o = Return tt) as ->.
  { match type of E with ?l = _ => change o with (o, h').1; rewrite <- E end.
    vm_compute. reflexivity. }
  match type of E with Upgrade ?a ?b ?c ?d ?e ?f = _ =>
    destruct (Upgrade_checksum a b c d e "v2" f h') as (data & Hr & Hs & _) end;
    [discriminate|reflexivity..|exact E|].
  exists data, h'. split; [reflexivity|]. split; [exact Hr|exact Hs].
Defined.
