(* ===== verification/Tracker.v ===== *)
(** * The installation tracker (internal/tracker)

    Which artifacts are installed, kept in memory while a command runs and
    in [/opt/nodeadm/tracker] between commands.  YAML encoding is a library:
    the class [TrackerYaml], with a concrete codec for evaluation. *)

From S2P Require Import Prelude GoStrings Host.
#[local] Open Scope Z_scope.

(** ** Names (internal/artifact/hybrid.go and the containerd sources) *)

Definition art_CniPlugins : string := "cniPlugins".
Definition art_IamAuthenticator : string := "iamAuthenticator".
Definition art_IamRolesAnywhere : string := "iamRolesAnywhere".
Definition art_ImageCredentialProvider : string := "imageCredentialProvider".
Definition art_Kubectl : string := "kubectl".
Definition art_Kubelet : string := "kubelet".
Definition art_Ssm : string := "ssm".
Definition art_Iptables : string := "iptables".

Definition ContainerdSourceNone : string := "none".
Definition ContainerdSourceDistro : string := "distro".
Definition ContainerdSourceDocker : string := "docker".

Definition trackerFile : string := "/opt/nodeadm/tracker".

(** ** Operations *)

Definition ContainerdSource (containerdSource : string) : result string :=
  if String.eqb containerdSource ContainerdSourceDistro then Ok ContainerdSourceDistro
  else if String.eqb containerdSource ContainerdSourceDocker then Ok ContainerdSourceDocker
  else if String.eqb containerdSource "" || String.eqb containerdSource "none"
  then Ok ContainerdSourceNone
  else Err (ENew ("invalid containerd source: " +:+ containerdSource)).

Definition with_Containerd (c : string) (a : InstalledArtifacts) : InstalledArtifacts :=
  {| Containerd := c; CniPlugins := CniPlugins a; IamAuthenticator := IamAuthenticator a;
     IamRolesAnywhere := IamRolesAnywhere a;
     ImageCredentialProvider := ImageCredentialProvider a; Kubectl := Kubectl a;
     Kubelet := Kubelet a; Ssm := Ssm a; Iptables := Iptables a |}.

(** The assignment of [Add], or [None] for an unknown component. *)
Definition add_artifact (componentName : string) (a : InstalledArtifacts)
    : option InstalledArtifacts :=
  let named := String.eqb componentName in
  let mk cni auth ira icp kctl klet ssm ipt :=
    Some {| Containerd := Containerd a; CniPlugins := CniPlugins a || cni;
       IamAuthenticator := IamAuthenticator a || auth;
       IamRolesAnywhere := IamRolesAnywhere a || ira;
       ImageCredentialProvider := ImageCredentialProvider a || icp;
       Kubectl := Kubectl a || kctl; Kubelet := Kubelet a || klet;
       Ssm := Ssm a || ssm; Iptables := Iptables a || ipt |} in
  if named art_CniPlugins then mk true false false false false false false false
  else if named art_IamAuthenticator then mk false true false false false false false false
  else if named art_IamRolesAnywhere then mk false false true false false false false false
  else if named art_ImageCredentialProvider then mk false false false true false false false false
  else if named art_Kubectl then mk false false false false true false false false
  else if named art_Kubelet then mk false false false false false true false false
  else if named art_Ssm then mk false false false false false false true false
  else if named art_Iptables then mk false false false false false false false true
  else None.

Definition Add (componentName : string) : M Host unit :=
  λ h, match add_artifact componentName (tracker h) with
       | Some a => (Return tt, set_tracker a h)
       | None => (Throw (ENew "invalid artifact to track"), h)
       end.

(** [yaml.Marshal] and [yaml.Unmarshal] on trackers; [None] is a document
    without the [Artifacts] key, which leaves the pointer nil. *)
Class TrackerYaml := {
  yaml_Marshal : InstalledArtifacts → result string;
  yaml_Unmarshal : string → result (option InstalledArtifacts);
  yaml_roundtrip a data :
    is_ok (ContainerdSource (Containerd a)) = true →
    yaml_Marshal a = Ok data → yaml_Unmarshal data = Ok (Some a);
}.

Section Tracker.
Context `{Env} `{TrackerYaml}.

(** [util.WriteFileWithDir]. *)
Definition WriteFileWithDir (filePath data : string) (perm : Z) : M Host unit :=
  os_MkdirAll (path_Dir filePath) perm;;
  os_WriteFile filePath data perm.

Definition Save : M Host unit :=
  a ← gets tracker;
  containerdSource ← of_result (ContainerdSource (Containerd a));
  let a := with_Containerd containerdSource a in
  modify (set_tracker a);;
  data ← of_result (yaml_Marshal a);
  WriteFileWithDir trackerFile data 420.

Definition Clear : M Host unit := os_RemoveAll (path_Dir trackerFile).

Definition GetInstalledArtifacts : M Host InstalledArtifacts :=
  yamlFileData ← os_ReadFile trackerFile;
  artifacts ← map_err (EWrap "invalid yaml data in tracker")
                (of_result (yaml_Unmarshal yamlFileData));
  match artifacts with
  | None => panic
  | Some a =>
      containerdSource ← of_result (ContainerdSource (Containerd a));
      mret (with_Containerd containerdSource a)
  end.

Definition GetCurrentState : M Host InstalledArtifacts :=
  r ← try GetInstalledArtifacts;
  match r with
  | Ok t => mret t
  | Err e =>
      if errors_Is_NotExist e
      then mret {| Containerd := ""; CniPlugins := false; IamAuthenticator := false;
             IamRolesAnywhere := false; ImageCredentialProvider := false;
             Kubectl := false; Kubelet := false; Ssm := false; Iptables := false |}
      else throw e
  end.
End Tracker.

(** ** Properties *)

Lemma ContainerdSource_idem c s :
  ContainerdSource c = Ok s → ContainerdSource s = Ok s.
Proof.
  unfold ContainerdSource. destruct (String.eqb c _); [by intros [= <-]|].
  destruct (String.eqb c _); [by intros [= <-]|].
  destruct (_ || _); [by intros [= <-]|done].
Qed.

Lemma with_Containerd_same a : with_Containerd (Containerd a) a = a.
Proof. by destruct a. Qed.

(** What is tracked, by the names [Add] takes. *)
Definition tracked (a : InstalledArtifacts) (name : string) : bool :=
  if String.eqb name art_CniPlugins then CniPlugins a
  else if String.eqb name art_IamAuthenticator then IamAuthenticator a
  else if String.eqb name art_IamRolesAnywhere then IamRolesAnywhere a
  else if String.eqb name art_ImageCredentialProvider then ImageCredentialProvider a
  else if String.eqb name art_Kubectl then Kubectl a
  else if String.eqb name art_Kubelet then Kubelet a
  else if String.eqb name art_Ssm then Ssm a
  else if String.eqb name art_Iptables then Iptables a
  else false.

Lemma tracked_with_Containerd c a n : tracked (with_Containerd c a) n = tracked a n.
Proof. done. Qed.

Definition artifact_names : list string :=
  [art_CniPlugins; art_IamAuthenticator; art_IamRolesAnywhere;
   art_ImageCredentialProvider; art_Kubectl; art_Kubelet; art_Ssm; art_Iptables].

(** [add_artifact] on a known name sets that flag and no other. *)
Lemma add_artifact_known a name :
  name ∈ artifact_names →
  ∃ a', add_artifact name a = Some a' ∧ Containerd a' = Containerd a ∧
    ∀ n, tracked a' n = tracked a n || String.eqb n name.
Proof.
  intros Hn. unfold artifact_names in Hn. rewrite !elem_of_cons in Hn.
  destruct Hn as [-> | [-> | [-> | [-> | [-> | [-> | [-> | [-> | Hn]]]]]]]]; [..|by apply not_elem_of_nil in Hn];
    eexists; (split; [reflexivity|]); (split; [reflexivity|]); intros n;
    unfold tracked; cbn [CniPlugins IamAuthenticator IamRolesAnywhere
      ImageCredentialProvider Kubectl Kubelet Ssm Iptables];
    repeat (case_match; [by subst; rewrite ?orb_false_r, ?orb_true_r;
      match goal with E : String.eqb n _ = true |- _ => apply String.eqb_eq in E; subst end;
      rewrite ?orb_false_r, ?orb_true_r|]); by rewrite ?orb_false_r.
Qed.

Lemma add_artifact_unknown a name : name ∉ artifact_names → add_artifact name a = None.
Proof.
  intros Hn. unfold artifact_names in Hn. unfold add_artifact.
  by rewrite !(proj2 (String.eqb_neq name _)) by (intros ->; apply Hn; set_solver).
Qed.

(** [Add] records exactly the named artifact: for one of the eight names
    it succeeds, sets that flag and leaves every other flag and the
    containerd source alone; for any other name it fails and changes
    nothing.  Neither case touches the host. *)
Theorem Add_spec name h o h' :
  Add name h = (o, h') →
  fs h' = fs h ∧ journal h' = journal h ∧
  (name ∈ artifact_names → o = Return tt ∧ Containerd (tracker h') = Containerd (tracker h) ∧
     ∀ n, tracked (tracker h') n = tracked (tracker h) n || String.eqb n name) ∧
  (name ∉ artifact_names → is_Some (match o with Throw e => Some e | _ => None end) ∧ h' = h).
Proof.
  unfold Add. destruct (decide (name ∈ artifact_names)) as [Hin|Hin].
  - destruct (add_artifact_known (tracker h) name Hin) as (a' & -> & Hc & Ht).
    intros [= <- <-]. by repeat split.
  - rewrite add_artifact_unknown by done. intros [= <- <-].
    repeat split; [done..|eauto].
Qed.

Lemma Add_spec_witness :
  let h := {| fs := ∅; tracker := with_Containerd "docker"
                {| Containerd := ""; CniPlugins := false; IamAuthenticator := false;
                   IamRolesAnywhere := false; ImageCredentialProvider := false;
                   Kubectl := true; Kubelet := false; Ssm := false; Iptables := false |};
              journal := []; provider := no_provider |} in
  tracked (tracker (Add art_Kubelet h).2) art_Kubelet = true ∧
  tracked (tracker (Add art_Kubelet h).2) art_Kubectl = true ∧
  tracked (tracker (Add art_Kubelet h).2) art_CniPlugins = false ∧
  Containerd (tracker (Add art_Kubelet h).2) = "docker".
Proof.
  cbv zeta. destruct (Add_spec art_Kubelet _ _ _ (surjective_pairing (Add art_Kubelet
    {| fs := ∅; tracker := with_Containerd "docker"
                {| Containerd := ""; CniPlugins := false; IamAuthenticator := false;
                   IamRolesAnywhere := false; ImageCredentialProvider := false;
                   Kubectl := true; Kubelet := false; Ssm := false; Iptables := false |};
              journal := []; provider := no_provider |}))) as (_ & _ & Hk & _).
  destruct Hk as (_ & -> & Hk); [unfold artifact_names; do 5 right; left|].
  by rewrite !Hk.
Defined.

(** A successful [Save] normalises the tracker in memory ... *)
Lemma Save_tracker `{Env} `{TrackerYaml} h h' :
  Save h = (Return tt, h') →
  ∃ c, ContainerdSource (Containerd (tracker h)) = Ok c ∧
    tracker h' = with_Containerd c (tracker h).
Proof.
  intros HS. unfold Save in HS.
  apply bind_Return in HS as (a & h0 & [= <- <-] & HS).
  apply bind_Return in HS as (c & h1 & Hc & HS). unfold of_result in Hc.
  destruct (ContainerdSource (Containerd (tracker h))) as [c'|]; [|done].
  injection Hc as -> <-. exists c. split; [done|].
  apply bind_Return in HS as ([] & h3 & [= <-] & HS).
  apply bind_Return in HS as (data & h4 & Hm & HS).
  assert (h4 = set_tracker (with_Containerd c (tracker h)) h) as ->
    by (unfold of_result in Hm; destruct (yaml_Marshal _); by injection Hm).
  unfold WriteFileWithDir in HS. apply bind_Return in HS as ([] & h5 & Hd & HW).
  apply sys_tracker in Hd as [Ht _]. apply os_WriteFile_Return in HW as (_ & Ht2 & _).
  by rewrite Ht2, Ht.
Qed.

(** ... and persists it. *)
Lemma Save_persists `{Env} `{TrackerYaml} h h' h2 :
  Save h = (Return tt, h') →
  read_file (fs h2) trackerFile = read_file (fs h') trackerFile →
  fault h2 (EvRead trackerFile) = None →
  ∃ c, ContainerdSource (Containerd (tracker h)) = Ok c ∧
    tracker h' = with_Containerd c (tracker h) ∧
    GetCurrentState h2 = (Return (tracker h'), record (EvRead trackerFile) h2).
Proof.
  intros HS Hr Hf. unfold Save in HS.
  apply bind_Return in HS as (a & h0 & [= <- <-] & HS).
  apply bind_Return in HS as (c & h1 & Hc & HS). unfold of_result in Hc.
  destruct (ContainerdSource (Containerd (tracker h))) as [c'|] eqn:Ec; [|done].
  injection Hc as -> <-. exists c. split; [done|].
  apply bind_Return in HS as ([] & h3 & [= <-] & HS).
  apply bind_Return in HS as (data & h4 & Hm & HS). unfold of_result in Hm.
  destruct (yaml_Marshal (with_Containerd c (tracker h))) as [data'|] eqn:Em; [|done].
  injection Hm as -> <-. unfold WriteFileWithDir in HS.
  apply bind_Return in HS as ([] & h5 & Hd & HW).
  apply sys_tracker in Hd as [Ht _]. apply os_WriteFile_Return in HW as (Hrd & Ht2 & _).
  rewrite Ht2, Ht. cbn [tracker set_tracker]. split; [done|].
  assert (ContainerdSource c = Ok c) as Hcc by by eapply ContainerdSource_idem.
  apply yaml_roundtrip in Em; [|by cbn; rewrite Hcc].
  unfold GetCurrentState, GetInstalledArtifacts, os_ReadFile, sys, try, gets, of_result.
  cbv [mbind M_bind]. rewrite Hf. cbn [fs set_fs record]. rewrite Hr, Hrd. cbv [map_err].
  rewrite Em. cbn. rewrite Hcc. by destruct h2.
Qed.

(** What [Save] writes, the next command reads: after a successful
    [Save] the tracker in memory has its containerd source normalised to
    none, distro or docker, and reading the file back, from any state with
    the same tracker file, gives exactly that tracker. *)
Theorem Save_Load `{Env} `{TrackerYaml} h h' h2 :
  Save h = (Return tt, h') →
  read_file (fs h2) trackerFile = read_file (fs h') trackerFile →
  fault h2 (EvRead trackerFile) = None →
  ∃ c, ContainerdSource (Containerd (tracker h)) = Ok c ∧
    tracker h' = with_Containerd c (tracker h) ∧
    GetCurrentState h2 = (Return (tracker h'), record (EvRead trackerFile) h2).
Proof. apply Save_persists. Qed.

(** ** A concrete codec

    The containerd source, a comma, and one digit per flag. *)
Definition bit (b : bool) : ascii := if b then "1" else "0".
Definition unbit (c : ascii) : bool := Ascii.eqb c "1".

Definition encode_flags (a : InstalledArtifacts) : string :=
  (String (bit (CniPlugins a)) (String (bit (IamAuthenticator a))
    (String (bit (IamRolesAnywhere a)) (String (bit (ImageCredentialProvider a))
    (String (bit (Kubectl a)) (String (bit (Kubelet a)) (String (bit (Ssm a))
    (String (bit (Iptables a)) "")))))))).
Definition encode (a : InstalledArtifacts) : string :=
  Containerd a +:+ String "," (encode_flags a).

Definition decode (s : string) : result (option InstalledArtifacts) :=
  match Cut "," s with
  | Some (c, String a1 (String a2 (String a3 (String a4 (String a5 (String a6
      (String a7 (String a8 "")))))))) =>
      Ok (Some {| Containerd := c; CniPlugins := unbit a1; IamAuthenticator := unbit a2;
                  IamRolesAnywhere := unbit a3; ImageCredentialProvider := unbit a4;
                  Kubectl := unbit a5; Kubelet := unbit a6; Ssm := unbit a7;
                  Iptables := unbit a8 |})
  | _ => Err (ENew "malformed tracker")
  end.

Lemma unbit_bit b : unbit (bit b) = b.
Proof. by destruct b. Qed.

#[export, refine] Instance plain_yaml : TrackerYaml :=
  {| yaml_Marshal a := Ok (encode a); yaml_Unmarshal := decode |}.
Proof.
  intros a data Hc [= <-]. unfold decode, encode.
  rewrite (proj2 (Cut_spec "," _ (Containerd a) (encode_flags a))).
  - unfold encode_flags. rewrite !unbit_bit. by destruct a.
  - split; [done|]. unfold ContainerdSource in Hc.
    destruct (String.eqb_spec (Containerd a) ContainerdSourceDistro) as [->|]; [done|].
    destruct (String.eqb_spec (Containerd a) ContainerdSourceDocker) as [->|]; [done|].
    destruct (String.eqb_spec (Containerd a) "") as [->|]; [done|].
    by destruct (String.eqb_spec (Containerd a) "none") as [->|].
Defined.

Example fresh_host : Host :=
  {| fs := ∅; tracker := {| Containerd := ""; CniPlugins := true; IamAuthenticator := false;
       IamRolesAnywhere := false; ImageCredentialProvider := false; Kubectl := true;
       Kubelet := true; Ssm := false; Iptables := false |}; journal := []; provider := no_provider |}.

Lemma Save_Load_witness :
  ∃ h', Save fresh_host = (Return tt, h') ∧
    (GetCurrentState h').1 = Return (with_Containerd "none" (tracker fresh_host)).
Proof.
  destruct (Save fresh_host) as [o h'] eqn:E.
  assert (o = Return tt) as ->.
  { change o with (o, h').1. rewrite <- E. vm_compute. reflexivity. }
  exists h'. split; [reflexivity|].
  destruct (Save_Load fresh_host h' h' E eq_refl eq_refl) as (c & Hc & Ht & HG).
  rewrite HG. cbn. rewrite Ht. injection Hc as <-. reflexivity.
Defined.
