(* ===== verification/Installers.v ===== *)
(** * Binary artifacts (internal/kubelet, kubectl, cni, imagecredentialprovider,
      iamrolesanywhere, iamauthenticator: install.go of each)

    Each package downloads one artifact from a source, installs it, checks
    the checksum and records it in the tracker.  The packages repeat the same
    download function with their own messages, paths and source method; it
    is [downloadFileTo] here, instantiated once per package. *)

From S2P Require Import Prelude GoStrings Host Artifact Tracker.
#[local] Open Scope Z_scope.

(** ** The sources the packages take (their [Source] interfaces) *)

Record Sources := {
  GetKubelet : M Host Source;
  GetKubectl : M Host Source;
  GetCniPlugins : M Host Source;
  GetImageCredentialProvider : M Host Source;
  GetSigningHelper : M Host Source;
  GetIAMAuthenticator : M Host Source;
}.

(** A well-behaved source object: it opens a fresh stream, and opening it
    does not touch the files or the tracker. *)
Definition fresh_source (get : M Host Source) : Prop :=
  ∀ h o h', get h = (o, h') → tracker h' = tracker h ∧ fs h' = fs h ∧
    match o with Return s => hashed s = "" | Throw _ => True | Panic => False end.

Section Install.
Context `{Env}.

(** ** Download, install and verify *)

Definition downloadFileTo (getting installing mismatch path : string) (perms : Z)
    (get : M Host Source) : M Host unit :=
  src ← map_err (EWrap getting) get;
  src ← map_err (EWrap installing) (InstallFile path src perms);
  if VerifyChecksum src then mret tt
  else throw (ENew (mismatch +:+ ": " +:+ error_text (NewChecksumError src))).

(** [for range n { err = f(); if err == nil { break } }; return err]. *)
Fixpoint retry_download (n : nat) (f : M Host unit) (err : option error) : M Host unit :=
  match n with
  | O => of_option err
  | S n =>
      r ← try f;
      match r with
      | Ok _ => mret tt
      | Err e => retry_download n f (Some e)
      end
  end.

(** *** kubelet *)

Definition kubelet_BinPath : string := "/usr/bin/kubelet".
Definition kubelet_UnitPath : string := "/etc/systemd/system/kubelet.service".
Definition kubeconfigPath : string := "/var/lib/kubelet/kubeconfig".
Definition kubeletConfigRoot : string := "/etc/kubernetes/kubelet".
Definition kubeletCurrentCertPath : string := path_Join ["/var/lib/kubelet"; "pki"; "kubelet-server-current.pem"].

Definition kubelet_downloadFileTo (root : string) (s : Sources) : M Host unit :=
  downloadFileTo "getting kubelet source" "installing kubelet" "kubelet checksum mismatch"
    (path_Join [root; kubelet_BinPath]) 493 (GetKubelet s).
Definition kubelet_installFromSource (root : string) (s : Sources) : M Host unit :=
  retry_download 3 (kubelet_downloadFileTo root s) None.
(** [kubeletUnitFile] is the embedded file kubelet.service. *)
Definition kubelet_installSystemdUnit (kubeletUnitFile unitPath : string) : M Host unit :=
  map_err (λ e, ENew ("failed to install kubelet systemd unit: " +:+ error_text e))
    (InstallFile unitPath (buffer kubeletUnitFile) 420);; mret tt.
Definition kubelet_Install (kubeletUnitFile root : string) (s : Sources) : M Host unit :=
  map_err (EWrap "installing kubelet") (kubelet_installFromSource root s);;
  map_err (EWrap "installing systemd unit")
    (kubelet_installSystemdUnit kubeletUnitFile (path_Join [root; kubelet_UnitPath]));;
  map_err (EWrap "adding kubelet to tracker") (Add art_Kubelet).

(** A loop of [os.RemoveAll] calls that collects the errors. *)
Fixpoint remove_each (paths : list string) (errs : list error) : M Host (list error) :=
  match paths with
  | [] => mret errs
  | p :: paths =>
      r ← try (os_RemoveAll p);
      remove_each paths match r with Ok _ => errs | Err e => errs ++ [e] end
  end.

(** [evalSymlinks] is [filepath.EvalSymlinks]: the path, empty on error. *)
Definition kubelet_Uninstall (evalSymlinks : string → Host → string * option error)
    (root : string) : M Host unit :=
  let pathsToRemove :=
    [path_Join [root; kubelet_BinPath]; path_Join [root; kubelet_UnitPath];
     path_Join [root; kubeconfigPath]; path_Join [root; path_Dir kubeletConfigRoot];
     path_Join [root; kubeletCurrentCertPath]] in
  '(actualCertPath, err) ← gets (evalSymlinks (path_Join [root; kubeletCurrentCertPath]));
  let allErrors :=
    match err with
    | Some e => if os_IsNotExist e then [] else [EWrap "resolving symlink for kubelet cert" e]
    | None => []
    end in
  let pathsToRemove :=
    if String.eqb actualCertPath "" then pathsToRemove else pathsToRemove ++ [actualCertPath] in
  errs ← remove_each pathsToRemove allErrors;
  of_option (errors_Join errs).

Definition kubelet_Upgrade (sha256 : string → string) (s : Sources) : M Host unit :=
  src ← map_err (EWrap "getting kubelet source") (GetKubelet s);
  Upgrade sha256 "kubelet" kubelet_BinPath src 493.

(** *** kubectl *)

Definition kubectl_BinPath : string := "/usr/local/bin/kubectl".
Definition kubectl_downloadFileTo (root : string) (s : Sources) : M Host unit :=
  downloadFileTo "getting kubectl source" "installing kubectl" "kubectl checksum mismatch"
    (path_Join [root; kubectl_BinPath]) 493 (GetKubectl s).
Definition kubectl_downloadFileWithRetries (root : string) (s : Sources) : M Host unit :=
  retry_download 3 (kubectl_downloadFileTo root s) None.
Definition kubectl_installFromSource (root : string) (s : Sources) : M Host unit :=
  map_err (EWrap "downloading kubectl") (kubectl_downloadFileWithRetries root s).
Definition kubectl_Install (root : string) (s : Sources) : M Host unit :=
  map_err (EWrap "installing kubectl") (kubectl_installFromSource root s);;
  map_err (EWrap "adding kubectl to tracker") (Add art_Kubectl).
Definition kubectl_Uninstall : M Host unit := os_RemoveAll kubectl_BinPath.
Definition kubectl_Upgrade (sha256 : string → string) (s : Sources) : M Host unit :=
  src ← map_err (EWrap "getting kubectl source") (GetKubectl s);
  Upgrade sha256 "kubectl" kubectl_BinPath src 493.

(** *** image-credential-provider *)

Definition icp_BinPath : string := "/etc/eks/image-credential-provider/ecr-credential-provider".
Definition icp_downloadFileTo (root : string) (s : Sources) : M Host unit :=
  downloadFileTo "getting image-credential-provider source" "installing image-credential-provider"
    "image-credential-provider checksum mismatch"
    (path_Join [root; icp_BinPath]) 493 (GetImageCredentialProvider s).
Definition icp_downloadFileWithRetries (root : string) (s : Sources) : M Host unit :=
  retry_download 3 (icp_downloadFileTo root s) None.
Definition icp_installFromSource (root : string) (s : Sources) : M Host unit :=
  map_err (EWrap "downloading image-credential-provider")
    (icp_downloadFileWithRetries root s).
Definition icp_Install (root : string) (s : Sources) : M Host unit :=
  map_err (EWrap "installing image-credential-provider") (icp_installFromSource root s);;
  map_err (EWrap "adding image-credential-provider to tracker") (Add art_ImageCredentialProvider).
Definition icp_Uninstall : M Host unit := os_RemoveAll (path_Dir icp_BinPath).
Definition icp_Upgrade (sha256 : string → string) (s : Sources) : M Host unit :=
  src ← map_err (EWrap "getting image-credential-provider source") (GetImageCredentialProvider s);
  Upgrade sha256 "image-credential-provider" icp_BinPath src 493.

(** *** aws_signing_helper (IAM Roles Anywhere) *)

Definition SigningHelperBinPath : string := "/usr/local/bin/aws_signing_helper".
Definition SigningHelperServiceFilePath : string := "/etc/systemd/system/aws_signing_helper_update.service".
Definition EksHybridAwsCredentialsPath : string := "/eks-hybrid/.aws/credentials".
Definition ira_downloadFileTo (root : string) (s : Sources) : M Host unit :=
  downloadFileTo "getting source for aws_signing_helper" "installing aws_signing_helper"
    "aws_signing_helper checksum mismatch"
    (path_Join [root; SigningHelperBinPath]) 493 (GetSigningHelper s).
Definition ira_downloadFileWithRetries (root : string) (s : Sources) : M Host unit :=
  retry_download 3 (ira_downloadFileTo root s) None.
Definition ira_installFromSource (root : string) (s : Sources) : M Host unit :=
  map_err (EWrap "downloading aws_signing_helper")
    (ira_downloadFileWithRetries root s).
Definition ira_Install (root : string) (s : Sources) : M Host unit :=
  map_err (EWrap "installing aws_signing_helper") (ira_installFromSource root s);;
  map_err (EWrap "adding aws_signing_helper to tracker") (Add art_IamRolesAnywhere).
Definition ira_Uninstall : M Host unit :=
  os_RemoveAll SigningHelperServiceFilePath;;
  os_RemoveAll (path_Dir EksHybridAwsCredentialsPath);;
  os_RemoveAll SigningHelperBinPath.
Definition ira_Upgrade (sha256 : string → string) (s : Sources) : M Host unit :=
  src ← map_err (EWrap "getting aws_signing_helper source") (GetSigningHelper s);
  Upgrade sha256 "aws-signing-helper" SigningHelperBinPath src 493.

(** *** aws-iam-authenticator *)

Definition IAMAuthenticatorBinPath : string := "/usr/local/bin/aws-iam-authenticator".
Definition auth_downloadFileTo (root : string) (s : Sources) : M Host unit :=
  downloadFileTo "getting aws-iam-authenticator source" "installing aws-iam-authenticator"
    "aws-iam-authenticator checksum mismatch"
    (path_Join [root; IAMAuthenticatorBinPath]) 493 (GetIAMAuthenticator s).
Definition auth_downloadFileWithRetries (root : string) (s : Sources) : M Host unit :=
  retry_download 3 (auth_downloadFileTo root s) None.
Definition auth_installFromSource (root : string) (s : Sources) : M Host unit :=
  map_err (EWrap "downloading aws-iam-authenticator")
    (auth_downloadFileWithRetries root s).
Definition auth_Install (root : string) (s : Sources) : M Host unit :=
  map_err (EWrap "installing aws-iam-authenticator") (auth_installFromSource root s);;
  map_err (EWrap "adding aws-iam-authenticator to tracker") (Add art_IamAuthenticator).
Definition auth_Uninstall : M Host unit := os_RemoveAll IAMAuthenticatorBinPath.
Definition auth_Upgrade (sha256 : string → string) (s : Sources) : M Host unit :=
  src ← map_err (EWrap "getting aws-iam-authenticator source") (GetIAMAuthenticator s);
  Upgrade sha256 "aws-iam-authenticator" IAMAuthenticatorBinPath src 493.

(** *** cni-plugins *)

Definition cni_rootDir : string := "/opt/cni".
Definition cni_BinPath : string := "/opt/cni/bin".
Definition cni_TgzPath : string := "/opt/cni/plugins/cni-plugins.tgz".
Definition Untar : Type := string → result (list TarEntry * option error).
Definition cni_downloadFileTo (root : string) (s : Sources) : M Host unit :=
  downloadFileTo "getting cni-plugins source" "installing cni-plugins archive"
    "cni-plugins checksum mismatch" (path_Join [root; cni_TgzPath]) 493 (GetCniPlugins s).
Definition cni_downloadFileWithRetries (root : string) (s : Sources) : M Host unit :=
  retry_download 3 (cni_downloadFileTo root s) None.
Definition cni_installFromSource (untar : Untar) (root : string) (s : Sources) : M Host unit :=
  map_err (EWrap "installing cni-plugins") (cni_downloadFileWithRetries root s);;
  map_err (EWrap "extracting and installing cni-plugins")
    (InstallTarGz untar (path_Join [root; cni_BinPath]) (path_Join [root; cni_TgzPath])).
Definition cni_Install (untar : Untar) (root : string) (s : Sources) : M Host unit :=
  cni_installFromSource untar root s;;
  map_err (EWrap "adding cni-plugins to tracker") (Add art_CniPlugins).
Definition cni_Uninstall : M Host unit := os_RemoveAll cni_rootDir.
Definition cni_Upgrade (untar : Untar) (s : Sources) : M Host unit :=
  map_err (EWrap "upgrading cni-plugins") (cni_installFromSource untar "" s).
End Install.

(** ** Verified installation *)

Section InstallProps.
Context `{Env}.

Lemma downloadFileTo_keeps_tracker a b c p perms get :
  keeps_tracker get → keeps_tracker (downloadFileTo a b c p perms get).
Proof.
  intros Hg. unfold downloadFileTo. host_tac. apply InstallFile_keeps_tracker.
Qed.

Lemma retry_download_keeps_tracker n f err :
  keeps_tracker f → keeps_tracker (retry_download n f err).
Proof.
  intros Hf. revert err. induction n as [|n IH]; intros err; cbn; host_tac.
Qed.

Lemma fresh_keeps_tracker get : fresh_source get → keeps_tracker get.
Proof. intros Hg h o h' E. by destruct (Hg _ _ _ E) as [? _]. Qed.

(** The file at [path] holds the bytes of a source that [get] returned and
    whose checksum those bytes pass. *)
Definition holds_verified (get : M Host Source) (path : string) (perms : Z) (h : Host) : Prop :=
  ∃ src h0 h1, get h0 = (Return src, h1) ∧ VerifyChecksum (drained src) = true ∧
    read_err src = None ∧ fs h !! path = Some (File (unread src) perms).

Lemma downloadFileTo_Return a b c p perms get h h' :
  p ≠ "" → downloadFileTo a b c p perms get h = (Return tt, h') →
  holds_verified get p perms h'.
Proof.
  intros Hp HD. unfold downloadFileTo in HD.
  apply bind_Return in HD as (src & h1 & Hg & HD). apply map_err_Return in Hg.
  apply bind_Return in HD as (src' & h2 & HI & HD). apply map_err_Return in HI.
  apply InstallFile_Return in HI as (-> & He & Hf & _); [|done].
  destruct (VerifyChecksum (drained src)) eqn:HV; [|done].
  injection HD as <-. by exists src, h, h1.
Qed.

Lemma retry_download_Return n f err h h' :
  retry_download n f err h = (Return tt, h') → (n ≠ 0)%nat →
  ∃ h0, f h0 = (Return tt, h').
Proof.
  revert err h. induction n as [|n IH]; intros err h HR Hn; [done|].
  cbn in HR. cbv [mbind M_bind try] in HR.
  destruct (f h) as [[[]|e|] h1] eqn:E; [injection HR as <-; eauto| |done].
  destruct n as [|n]; [done|]. by eapply IH.
Qed.

Lemma retry_download_verified n a b c p perms get h h' :
  p ≠ "" → (n ≠ 0)%nat →
  retry_download n (downloadFileTo a b c p perms get) None h = (Return tt, h') →
  holds_verified get p perms h'.
Proof.
  intros Hp Hn HR. apply retry_download_Return in HR as (h0 & HD); [|done].
  by eapply downloadFileTo_Return.
Qed.

(** A body followed by the tracker entry, on every outcome. *)
Lemma then_Add (body : M Host unit) msg name h o h' :
  name ∈ artifact_names → keeps_tracker body →
  (body;; map_err (EWrap msg) (Add name)) h = (o, h') →
  match o with
  | Return _ => ∃ h1, body h = (Return tt, h1) ∧ fs h' = fs h1 ∧
      Containerd (tracker h') = Containerd (tracker h) ∧
      ∀ n, tracked (tracker h') n = tracked (tracker h) n || String.eqb n name
  | _ => tracker h' = tracker h
  end.
Proof.
  intros Hn Hk E. cbv [mbind M_bind] in E. destruct (body h) as [[[]|e|] h1] eqn:Eb;
    apply Hk in Eb as Ht; [|by injection E as <- <-..].
  unfold map_err, Add in E.
  destruct (add_artifact_known (tracker h1) name Hn) as (a & Ha & Hc & Hall).
  rewrite Ha in E. injection E as <- <-. exists h1. cbn. rewrite <- Ht. auto.
Qed.

Lemma bind_assoc {S A B C} (m : M S A) (f : A → M S B) (g : B → M S C) s :
  ((m ≫= f) ≫= g) s = (m ≫= λ a, f a ≫= g) s.
Proof. cbv [mbind M_bind]. by destruct (m s) as [[a|e|] s1]. Qed.

(** The five packages that install one binary, with the name they track,
    where they put it and the source they take it from. *)
Definition binaries (unit_file : string) (s : Sources)
    : list (string * string * M Host Source * M Host unit) :=
  [(art_Kubelet, kubelet_BinPath, GetKubelet s, kubelet_Install unit_file "" s);
   (art_Kubectl, kubectl_BinPath, GetKubectl s, kubectl_Install "" s);
   (art_ImageCredentialProvider, icp_BinPath, GetImageCredentialProvider s, icp_Install "" s);
   (art_IamRolesAnywhere, SigningHelperBinPath, GetSigningHelper s, ira_Install "" s);
   (art_IamAuthenticator, IAMAuthenticatorBinPath, GetIAMAuthenticator s, auth_Install "" s)].

(** What the installation of one binary guarantees. *)
Definition install_contract (name path : string) (get : M Host Source) (install : M Host unit)
    : Prop :=
  ∀ h o h', install h = (o, h') →
    match o with
    | Return _ => holds_verified get path 493 h' ∧
        Containerd (tracker h') = Containerd (tracker h) ∧
        ∀ n, tracked (tracker h') n = tracked (tracker h) n || String.eqb n name
    | _ => tracker h' = tracker h
    end.

Lemma wrapped_contract name path get m1 m2 msg a b c :
  name ∈ artifact_names → path ≠ "" → fresh_source get → path = path_Join [""; path] →
  install_contract name path get
    (map_err (EWrap m1) (map_err (EWrap m2)
       (retry_download 3 (downloadFileTo a b c (path_Join [""; path]) 493 get) None));;
     map_err (EWrap msg) (Add name)).
Proof.
  intros Hn Hp Hg Hpath h o h' E. apply then_Add in E; [|done|].
  - destruct o as [u|e|]; [|done..]. destruct E as (h1 & Eb & Hfs & Hc & Ht).
    rewrite !map_err_Return in Eb. apply retry_download_verified in Eb; [|by rewrite <- Hpath|done].
    rewrite <- Hpath in Eb. split; [|done].
    destruct Eb as (src & g0 & g1 & ? & ? & ? & ?). exists src, g0, g1. by rewrite Hfs.
  - host_tac. apply retry_download_keeps_tracker, downloadFileTo_keeps_tracker.
    by apply fresh_keeps_tracker.
Qed.

Lemma kubelet_contract unit_file s :
  fresh_source (GetKubelet s) →
  install_contract art_Kubelet kubelet_BinPath (GetKubelet s) (kubelet_Install unit_file "" s).
Proof.
  intros Hg h o h' E. unfold kubelet_Install in E. rewrite <- bind_assoc in E.
  assert (art_Kubelet ∈ artifact_names) as Hn by (unfold artifact_names; set_solver).
  apply then_Add in E; [|done|].
  - destruct o as [u|e|]; [|done..]. destruct E as (h1 & Eb & Hfs & Hc & Ht).
    split; [|done]. apply bind_Return in Eb as ([] & h2 & Ei & Eu).
    apply map_err_Return in Ei, Eu.
    apply retry_download_verified in Ei as (src & g0 & g1 & ? & ? & ? & Hf); [|done..].
    apply bind_Return in Eu as (src' & h3 & Eu & [= <-]). apply map_err_Return in Eu.
    apply InstallFile_Return in Eu as (_ & _ & _ & Hframe); [|done].
    exists src, g0, g1. repeat split; [done..|]. rewrite Hfs, Hframe; [done|reflexivity|].
    assert (ancestors (path_Dir (path_Join [""; kubelet_UnitPath])) =
            ["/etc"; "/etc/systemd"; "/etc/systemd/system"]) as -> by reflexivity.
    change (path_Join [""; kubelet_BinPath]) with "/usr/bin/kubelet".
    rewrite !elem_of_cons, elem_of_nil. naive_solver.
  - apply keeps_tracker_bind; [|intros _]; apply keeps_tracker_map_err.
    + apply retry_download_keeps_tracker, downloadFileTo_keeps_tracker.
      by apply fresh_keeps_tracker.
    + unfold kubelet_installSystemdUnit. host_tac. apply InstallFile_keeps_tracker.
Qed.

(** C12. For each of the five single-binary packages, whatever the host and
    the download source do: if the installation succeeds, the file at the
    package's path holds exactly the bytes of a downloaded source whose
    checksum verified, with mode 0755, and the tracker gained exactly that
    package; if it fails, the tracker is unchanged. *)
Theorem binaries_install_verified unit_file s name path get install :
  (name, path, get, install) ∈ binaries unit_file s → fresh_source get →
  install_contract name path get install.
Proof.
  intros Hin Hg. unfold binaries in Hin. rewrite !elem_of_cons in Hin.
  destruct Hin as [E|[E|[E|[E|[E|Hin]]]]]; [..|by apply not_elem_of_nil in Hin];
    injection E as -> -> -> ->; [by apply kubelet_contract|..];
    apply wrapped_contract; try done; unfold artifact_names; set_solver.
Qed.

(** A successful installation of the CNI plugins extracted an archive
    that had passed its checksum: the bytes given to the extraction are
    those of a verified download, the archive was read to its end, and only
    then was the package recorded; a failed installation records nothing. *)
Theorem cni_install_verified untar s h o h' :
  fresh_source (GetCniPlugins s) →
  cni_Install untar "" s h = (o, h') →
  match o with
  | Return _ =>
      (∃ src h0 h1 entries, GetCniPlugins s h0 = (Return src, h1) ∧
         VerifyChecksum (drained src) = true ∧ untar (unread src) = Ok (entries, None)) ∧
      ∀ n, tracked (tracker h') n = tracked (tracker h) n || String.eqb n art_CniPlugins
  | _ => tracker h' = tracker h
  end.
Proof.
  intros Hg E. assert (art_CniPlugins ∈ artifact_names) as Hn by (unfold artifact_names; set_solver).
  apply then_Add in E; [|done|].
  - destruct o as [u|e|]; [|done..]. destruct E as (h1 & Eb & _ & _ & Ht). split; [|done].
    apply bind_Return in Eb as ([] & h2 & Ed & Ex). apply map_err_Return in Ed, Ex.
    apply retry_download_verified in Ed as (src & g0 & g1 & Hsrc & Hv & _ & Hf); [|done..].
    unfold InstallTarGz in Ex. apply bind_Return in Ex as ([] & h3 & Em & Ex).
    apply sys_Return in Em as (f & Em & ->).
    apply bind_Return in Ex as (data & h4 & Er & Ex). apply map_err_Return in Er.
    apply os_ReadFile_Return in Er as [Er _]. cbn [fs set_fs record] in Er.
    apply bind_Return in Ex as ([entries err] & h5 & Eu & Ex). apply map_err_Return in Eu.
    unfold of_result in Eu. destruct (untar data) as [[es er]|] eqn:Eun; [|done].
    injection Eu as -> -> <-. apply bind_Return in Ex as ([] & h6 & _ & Ex).
    apply bind_Return in Ex as ([] & h7 & Ee & _). apply map_err_Return in Ee.
    exists src, g0, g1, entries. split; [done|]. split; [done|].
    destruct (mkdir_all_dirs _ _ _ _ Em (path_Join [""; cni_TgzPath])) as [Eq|(Hnone & _)];
      [|congruence].
    unfold read_file in Er. rewrite Eq, Hf in Er. injection Er as <-.
    rewrite Eun. by destruct err.
  - unfold cni_installFromSource, cni_downloadFileWithRetries. apply keeps_tracker_bind; [|intros _]; apply keeps_tracker_map_err.
    + apply retry_download_keeps_tracker, downloadFileTo_keeps_tracker.
      by apply fresh_keeps_tracker.
    + apply InstallTarGz_keeps_tracker.
Qed.
End InstallProps.

Definition src_of (data : string) : M Host Source :=
  mret {| unread := data; read_err := None; hashed := ""; verifier := Some (λ s, s, data) |}.
Example all_sources : Sources :=
  {| GetKubelet := src_of "k"; GetKubectl := src_of "kc"; GetCniPlugins := src_of "cni";
     GetImageCredentialProvider := src_of "icp"; GetSigningHelper := src_of "ash";
     GetIAMAuthenticator := src_of "aia" |}.

Lemma src_of_fresh data : fresh_source (src_of data).
Proof. by intros h o h' [= <- <-]. Qed.

Lemma binaries_install_verified_witness :
  let h := {| fs := ∅; tracker := no_artifacts; journal := []; provider := no_provider |} in
  let r := kubelet_Install "[Unit]" "" all_sources h in
  r.1 = Return tt ∧ holds_verified (src_of "k") kubelet_BinPath 493 r.2.
Proof.
  cbv zeta. match goal with |- ?r.1 = _ ∧ _ => destruct r as [o h'] eqn:E end.
  assert (o = Return tt) as ->.
  { change o with (o, h').1. rewrite <- E. vm_compute. reflexivity. }
  split; [reflexivity|].
  refine (proj1 (binaries_install_verified "[Unit]" all_sources art_Kubelet kubelet_BinPath
    (src_of "k") (kubelet_Install "[Unit]" "" all_sources) _ (src_of_fresh "k") _ _ _ E)).
  left.
Defined.

Lemma cni_install_verified_witness :
  let h := {| fs := ∅; tracker := no_artifacts; journal := []; provider := no_provider |} in
  let r := cni_Install cni_tar "" all_sources h in
  r.1 = Return tt ∧ tracked (tracker r.2) art_CniPlugins = true.
Proof.
  cbv zeta. match goal with |- ?r.1 = _ ∧ _ => destruct r as [o h'] eqn:E end.
  assert (o = Return tt) as ->.
  { change o with (o, h').1. rewrite <- E. vm_compute. reflexivity. }
  split; [reflexivity|].
  destruct (cni_install_verified cni_tar all_sources _ _ _ (src_of_fresh "cni") E) as [_ Ht].
  cbn [snd]. rewrite Ht. reflexivity.
Defined.
