(* ===== verification/PackageManager.v ===== *)
(** * OS packages (internal/packagemanager, internal/artifact/package.go,
      internal/containerd: install.go and version.go, internal/iptables)

    The distribution's package manager, and the two packages installed
    through it.  Commands are retried by [cmd.Retry] until the caller's
    context is done. *)

From S2P Require Import Prelude GoStrings Host Retry Semver Artifact Tracker.
#[local] Open Scope Z_scope.

(** ** Packages and commands (internal/artifact/package.go) *)

Record Cmd := NewCmd { cmd_Path : string; cmd_Args : list string }.
Record Package := NewPackageSource { InstallCmd : Cmd; UninstallCmd : Cmd; UpgradeCmd : Cmd }.

(** ** The package manager *)

Definition aptPackageManager : string := "apt".
Definition snapPackageManager : string := "snap".
Definition yumPackageManager : string := "yum".
Definition yumUtilsManager : string := "yum-config-manager".
Definition yumUtilsManagerPkg : string := "yum-utils".
Definition centOsDockerRepo : string := "https://download.docker.com/linux/centos/docker-ce.repo".
Definition ubuntuDockerRepo : string := "https://download.docker.com/linux/ubuntu".
Definition ubuntuDockerGpgKey : string := "https://download.docker.com/linux/ubuntu/gpg".
Definition ubuntuDockerGpgKeyPath : string := "/etc/apt/keyrings/docker.asc".
Definition ubuntuDockerGpgKeyFilePerms : Z := 493.
Definition aptDockerRepoSourceFilePath : string := "/etc/apt/sources.list.d/docker.list".
Definition yumDockerRepoSourceFilePath : string := "/etc/yum.repos.d/docker-ce.repo".
Definition containerdDistroPkgName : string := "containerd".
Definition containerdDockerPkgName : string := "containerd.io".
Definition runcPkgName : string := "runc".
Definition caCertsPkgName : string := "ca-certificates".
Definition iptablesPkgName : string := "iptables".
Definition ssmPkgName : string := "amazon-ssm-agent".

(** A Go map indexed by the manager; a missing key gives the empty string. *)
Definition by_manager (apt yum manager : string) : string :=
  if String.eqb manager aptPackageManager then apt
  else if String.eqb manager yumPackageManager then yum else "".
Definition packageManagerInstallCmd := by_manager "install" "install".
Definition packageManagerUpdateCmd := by_manager "upgrade" "update".
Definition packageManagerDeleteCmd := by_manager "autoremove" "remove".
Definition packageManagerMetadataRefreshCmd := by_manager "update" "makecache".
Definition managerToDockerRepoMap :=
  by_manager "https://download.docker.com/linux/ubuntu"
             "https://download.docker.com/linux/centos/docker-ce.repo".

Record DistroPackageManager := {
  manager : string;
  installVerb : string;
  updateVerb : string;
  deleteVerb : string;
  refreshMetadataVerb : string;
  dockerRepo : string;
}.
Implicit Type pm : DistroPackageManager.

Section PackageManager.
Context `{Env}.

Definition LookPath (name : string) : M Host (option string) := gets (λ h, look_path h name).

(** [cmd.Retry(ctx, c, 5*time.Second)]. *)
Definition cmd_Retry (c : Cmd) : M Host unit :=
  λ h, let '(err, h') := CmdRetry (ticks h) (run_raw (cmd_Path c) (cmd_Args c))
                           (Join (cmd_Path c :: cmd_Args c) " ") (ECtx true) h in
       (match err with None => Return tt | Some e => Throw e end, h').

Fixpoint first_installed (managers : list string) : M Host string :=
  match managers with
  | [] => throw (ENew "unsupported package manager encountered. Please run nodeadm from a supported os")
  | m :: ms => p ← LookPath m; if p is Some _ then mret m else first_installed ms
  end.
Definition getOsPackageManager : M Host string :=
  first_installed [yumPackageManager; aptPackageManager].

Definition pm_New (containerdSource : string) : M Host DistroPackageManager :=
  m ← getOsPackageManager;
  mret {| manager := m; installVerb := packageManagerInstallCmd m;
          updateVerb := packageManagerUpdateCmd m; deleteVerb := packageManagerDeleteCmd m;
          refreshMetadataVerb := packageManagerMetadataRefreshCmd m;
          dockerRepo := if String.eqb containerdSource ContainerdSourceDocker
                        then managerToDockerRepoMap m else "" |}.

Definition appendPackageVersion pm (packageName version : string) : string :=
  if String.eqb version "" then packageName
  else if String.eqb (manager pm) yumPackageManager then packageName +:+ "-" +:+ version
  else if String.eqb (manager pm) aptPackageManager then packageName +:+ "=" +:+ version
  else packageName.

Definition getContainerdPackageNameWithVersionConstraint pm (version : string) : string :=
  let containerdPkgName :=
    if String.eqb (dockerRepo pm) "" then containerdDistroPkgName else containerdDockerPkgName in
  appendPackageVersion pm containerdPkgName version.

(** The package called [name], by this manager's verbs. *)
Definition managed_package pm (name : string) : Package :=
  NewPackageSource (NewCmd (manager pm) [installVerb pm; name; "-y"])
                   (NewCmd (manager pm) [deleteVerb pm; name; "-y"])
                   (NewCmd (manager pm) [updateVerb pm; name; "-y"]).

Definition GetContainerd pm (versionConstraint : string) : Package :=
  managed_package pm (getContainerdPackageNameWithVersionConstraint pm versionConstraint).
Definition GetIptables pm : Package := managed_package pm iptablesPkgName.
Definition caCertsPackage pm : Package := managed_package pm caCertsPkgName.
Definition yumUtilsPackage pm : Package := managed_package pm yumUtilsManagerPkg.
Definition runcPackage pm : Package := managed_package pm runcPkgName.
Definition GetSSMPackage pm : Package :=
  if String.eqb (manager pm) aptPackageManager
  then NewPackageSource (NewCmd snapPackageManager ["install"; ssmPkgName])
                        (NewCmd snapPackageManager ["remove"; ssmPkgName])
                        (NewCmd snapPackageManager ["refresh"; ssmPkgName])
  else managed_package pm ssmPkgName.

Definition RefreshMetadataCache pm : M Host unit :=
  cmd_Retry (NewCmd (manager pm) [refreshMetadataVerb pm]).

Definition configureYumPackageManagerWithDockerRepo pm : M Host unit :=
  runc ← LookPath runcPkgName;
  when (if runc is Some _ then true else false)
    (map_err (EWrap "failed to remove runc using package manager")
       (cmd_Retry (UninstallCmd (runcPackage pm))));;
  map_err (EWrap "failed to install yum-utils using package manager")
    (cmd_Retry (InstallCmd (yumUtilsPackage pm)));;
  p ← LookPath yumUtilsManager;
  match p with
  | None => throw (EWrap "failed to locate yum utils manager in $PATH"
                     (ENew "executable file not found in $PATH"))
  | Some yumUtilsManagerPath =>
      map_err (EWrap "failed adding docker repo to package manager")
        (run_command yumUtilsManagerPath ["--add-repo"; centOsDockerRepo]);; mret tt
  end.

(** [getHttp] is [util.GetHttpFile]; [codename] the release's code name. *)
Definition configureAptPackageManagerWithDockerRepo (getHttp : string → M Host string)
    (goarch : string) (codename : Host → string) pm : M Host unit :=
  map_err (EWrap "failed running commands to configure package manager")
    (cmd_Retry (InstallCmd (caCertsPackage pm)));;
  data ← map_err (EWrap "downloading docker gpg key") (getHttp ubuntuDockerGpgKey);
  WriteFileWithDir ubuntuDockerGpgKeyPath data ubuntuDockerGpgKeyFilePerms;;
  name ← gets codename;
  WriteFileWithDir aptDockerRepoSourceFilePath
    ("deb [arch=" +:+ goarch +:+ " signed-by=" +:+ ubuntuDockerGpgKeyPath +:+ "] " +:+
     ubuntuDockerRepo +:+ " " +:+ name +:+ " stable" +:+ newline)
    ubuntuDockerGpgKeyFilePerms;;
  map_err (EWrap "failed running commands to configure package manager")
    (RefreshMetadataCache pm).

Definition Configure (getHttp : string → M Host string) (goarch : string)
    (codename : Host → string) pm : M Host unit :=
  if String.eqb (dockerRepo pm) "" then mret tt
  else if String.eqb (manager pm) yumPackageManager
       then configureYumPackageManagerWithDockerRepo pm
  else if String.eqb (manager pm) aptPackageManager
       then configureAptPackageManagerWithDockerRepo getHttp goarch codename pm
  else mret tt.

Definition removeRepoFile (path pkgType : string) : M Host unit :=
  r ← try (os_Stat path);
  match r with
  | Err e =>
      if os_IsNotExist e then mret tt
      else throw (EWrap ("encountered error while trying to reach " +:+ pkgType +:+
                         " docker repo file at " +:+ path) e)
  | Ok _ =>
      map_err (EWrap ("failed to remove " +:+ pkgType +:+ " docker repo from " +:+ path))
        (os_Remove path)
  end.

Definition uninstallDockerRepo pm : M Host unit :=
  if String.eqb (manager pm) yumPackageManager
  then removeRepoFile yumDockerRepoSourceFilePath yumPackageManager
  else if String.eqb (manager pm) aptPackageManager
  then
    r ← try (os_Remove ubuntuDockerGpgKeyPath);
    match r with
    | Err e => if os_IsNotExist e then mret tt else throw e
    | Ok _ => mret tt
    end;;
    removeRepoFile aptDockerRepoSourceFilePath aptPackageManager
  else mret tt.

Definition pm_Cleanup pm : M Host unit :=
  if String.eqb (dockerRepo pm) "" then mret tt else uninstallDockerRepo pm.

(** ** containerd (internal/containerd/install.go, version.go) *)

Definition containerdPackageName : string := "containerd".
Definition runcPackageName : string := "runc".
Definition containerdConfigDir : string := "/etc/containerd".

Definition isContainerdInstalled : M Host bool :=
  p ← LookPath containerdPackageName; mret (if p is Some _ then true else false).
Definition areContainerdAndRuncInstalled : M Host bool :=
  c ← LookPath containerdPackageName;
  r ← LookPath runcPackageName;
  mret (match c, r with Some _, Some _ => true | _, _ => false end).

Definition determineContainerdVersionConstraint `{Semver} (kubernetesVersion : string) : string :=
  if 0 <=? semver_Compare ("v" +:+ kubernetesVersion) "v1.30.0" then "" else "1.*".

Definition set_containerd (c : string) : M Host unit :=
  modify (λ h, set_tracker (with_Containerd c (tracker h)) h).

Definition containerd_Install `{Semver} pm (containerdSource kubernetesVersion : string)
    : M Host unit :=
  installed ← areContainerdAndRuncInstalled;
  if String.eqb containerdSource ContainerdSourceNone || installed
  then set_containerd ContainerdSourceNone
  else
    let containerd := GetContainerd pm (determineContainerdVersionConstraint kubernetesVersion) in
    map_err (EWrap "installing containerd") (cmd_Retry (InstallCmd containerd));;
    set_containerd containerdSource.

Definition containerd_Uninstall pm : M Host unit :=
  installed ← isContainerdInstalled;
  if (installed : bool) then
    map_err (EWrap "uninstalling containerd") (cmd_Retry (UninstallCmd (GetContainerd pm "")));;
    map_err (EWrap "removing containerd config files") (os_RemoveAll containerdConfigDir)
  else mret tt.

(** The matches of [[0-9]+] at the front of [s], longest first. *)
Fixpoint digit_runs (s : string) : list (string * string) :=
  match s with
  | String c r =>
      if is_digit c
      then ((λ p, (String c p.1, p.2)) <$> digit_runs r) ++ [(String c "", r)]
      else []
  | "" => []
  end.
Definition byte_is (f : ascii → bool) (s : string) : list (string * string) :=
  match s with String c r => if f c then [(String c "", r)] else [] | "" => [] end.

(** [[0-9]+\.[0-9]+.[0-9]+], as written: the second dot is any character. *)
Definition semver_at (s : string) : list string :=
  '(a, r) ← digit_runs s;
  '(b, r) ← byte_is (λ c, Ascii.eqb c ".") r;
  '(c, r) ← digit_runs r;
  '(d, r) ← byte_is (λ c, negb (Ascii.eqb c "010")) r;
  '(e, _) ← digit_runs r;
  [a +:+ b +:+ c +:+ d +:+ e].
Fixpoint FindSemver (s : string) : string :=
  match semver_at s with
  | m :: _ => m
  | [] => match s with "" => "" | String _ r => FindSemver r end
  end.

Definition GetContainerdVersionRaw : M Host string :=
  map_err (EWrap "failed to get containerd version") (run_command "containerd" ["--version"]).
Definition GetContainerdVersion : M Host string :=
  raw ← GetContainerdVersionRaw; mret (FindSemver raw).
Definition GetContainerdMajorVersion : M Host Z :=
  v ← GetContainerdVersion;
  of_result (Atoi (default "" (head (Split "." v)))).

Definition containerd_Upgrade `{Semver} pm (kubernetesVersion : string)
    (skipContainerdMajorVersionUpgrade : bool) : M Host unit :=
  constraint ←
    if skipContainerdMajorVersionUpgrade then
      major ← GetContainerdMajorVersion;
      if major =? 1 then mret "1.*"
      else if major =? 2 then mret "2.0.*"
      else throw (ENew ("unsupported containerd major version: " +:+ Itoa major))
    else mret (determineContainerdVersionConstraint kubernetesVersion);
  map_err (EWrap "upgrading containerd") (cmd_Retry (UpgradeCmd (GetContainerd pm constraint))).

Definition ValidateContainerdSource (osName source : string) : option error :=
  if String.eqb source ContainerdSourceNone then None
  else if String.eqb source ContainerdSourceDocker then
    if String.eqb osName "amzn"
    then Some (ENew "docker source for containerd is not supported on AL2023. Please provide `none` or `distro` to the --containerd-source flag")
    else None
  else if String.eqb source ContainerdSourceDistro then
    if String.eqb osName "rhel"
    then Some (ENew "distro source for containerd is not supported on RHEL. Please provide `none` or `docker` to the --containerd-source flag")
    else None
  else None.

(** ** iptables (internal/iptables) *)

Definition isIptablesInstalled : M Host bool :=
  p ← LookPath iptablesPkgName; mret (if p is Some _ then true else false).
Definition iptables_Install pm : M Host unit :=
  installed ← isIptablesInstalled;
  if (installed : bool) then mret tt
  else
    map_err (EWrap "failed to install iptables") (cmd_Retry (InstallCmd (GetIptables pm)));;
    Add art_Iptables.
Definition iptables_Uninstall pm : M Host unit :=
  installed ← isIptablesInstalled;
  if (installed : bool)
  then map_err (EWrap "failed to uninstall iptables") (cmd_Retry (UninstallCmd (GetIptables pm)))
  else mret tt.
Definition iptables_Upgrade pm : M Host unit :=
  installed ← isIptablesInstalled;
  if (installed : bool)
  then map_err (EWrap "failed to upgrade iptables") (cmd_Retry (UpgradeCmd (GetIptables pm)))
  else mret tt.
End PackageManager.

Example major_of_banner :
  FindSemver "containerd containerd.io 1.7.22 7f7fdf5fed64eb6a7caf99b3e12efcf9d60e311c" = "1.7.22".
Proof. by vm_compute. Qed.

(** ** Properties *)

Section PackageProps.
Context `{Env}.

(** [cmd.Retry] runs one command, at least once and at most once more than
    the context has waits left, and nothing else. *)
Lemma cmd_Retry_spec c h o h' :
  cmd_Retry c h = (o, h') →
  ∃ n, (n <= ticks h)%nat ∧
    journal h' = journal h ++ replicate (S n) (EvRun (cmd_Path c) (cmd_Args c)) ∧
    tracker h' = tracker h ∧ o ≠ Panic.
Proof.
  unfold cmd_Retry. generalize (ticks h) as t. intros t.
  destruct (CmdRetry _ _ _ _ _) as [err h1] eqn:E. intros [= <- <-].
  revert h E. induction t as [|t IH]; intros h E; cbn in E.
  - exists 0%nat. split; [done|].
    destruct (run_output h _ _) as [out [e|]]; injection E as <- <-; done.
  - destruct (run_output h _ _) as [out [e|]].
    + destruct (IH _ E) as (n & Hn & Hj & Ht & Ho). exists (S n). split; [lia|].
      rewrite Hj. cbn [set_fs record journal tracker]. by rewrite <- app_assoc.
    + injection E as <- <-. exists 0%nat. split; [lia|]. done.
Qed.

Lemma cmd_Retry_keeps_tracker c : keeps_tracker (cmd_Retry c).
Proof. intros h o h' E. by apply cmd_Retry_spec in E as (n & _ & _ & Ht & _). Qed.

Lemma cmd_Retry_journaled P c :
  P (EvRun (cmd_Path c) (cmd_Args c)) → journaled P (cmd_Retry c).
Proof.
  intros HP h o h' E. apply cmd_Retry_spec in E as (n & _ & -> & _). eexists.
  split; [done|]. by apply Forall_replicate.
Qed.

Lemma both_installed h :
  ∃ b, areContainerdAndRuncInstalled h = (Return b, h) ∧
    (b = true ↔ is_Some (look_path h "containerd") ∧ is_Some (look_path h "runc")).
Proof.
  unfold areContainerdAndRuncInstalled, LookPath, gets, containerdPackageName, runcPackageName.
  cbv [mbind M_bind mret M_ret]. unfold is_Some.
  destruct (look_path h "containerd"), (look_path h "runc"); eexists; (split; [done|]); naive_solver.
Qed.

(** Installing containerd, on every branch: when the user manages it, or
    both containerd and runc are already there, no command runs and the
    tracker says that nodeadm does not manage it; otherwise the only
    commands run are installs of the chosen package (containerd.io when the
    docker repository is configured, pinned to 1.* before Kubernetes 1.30),
    and the source is recorded exactly when one of them succeeds. *)
Theorem containerd_Install_spec `{Semver} pm source version h o h' :
  containerd_Install pm source version h = (o, h') →
  let unmanaged := source = ContainerdSourceNone ∨
    (is_Some (look_path h "containerd") ∧ is_Some (look_path h "runc")) in
  let name := (if String.eqb (dockerRepo pm) "" then "containerd" else "containerd.io") in
  let pinned := appendPackageVersion pm name
    (if 0 <=? semver_Compare ("v" +:+ version) "v1.30.0" then "" else "1.*") in
  (unmanaged → o = Return tt ∧ journal h' = journal h ∧ fs h' = fs h ∧
     tracker h' = with_Containerd "none" (tracker h)) ∧
  (¬ unmanaged →
     (∃ n, journal h' = journal h ++
        replicate (S n) (EvRun (manager pm) [installVerb pm; pinned; "-y"])) ∧
     tracker h' = match o with
                  | Return _ => with_Containerd source (tracker h)
                  | _ => tracker h
                  end).
Proof.
  unfold containerd_Install. intros E. cbv zeta.
  destruct (both_installed h) as (inst & Hb & Hi). rewrite <- Hi.
  cbv [mbind M_bind] in E. rewrite Hb in E. unfold set_containerd, modify in E.
  destruct (String.eqb_spec source ContainerdSourceNone) as [->|Hs]; cbn [orb] in E.
  - injection E as <- <-. split; [done|]. intros Hn. destruct Hn. by left.
  - destruct inst.
    + injection E as <- <-. split; [done|]. intros Hn. destruct Hn. by right.
    + split; [by intros [?|?]|]. intros _. unfold map_err in E.
      destruct (cmd_Retry _ h) as [r h1] eqn:Er.
      apply cmd_Retry_spec in Er as (n & _ & Hj & Ht & Hr).
      destruct r as [u|e|]; [| |done]; injection E as <- <-;
        cbn [set_tracker tracker journal]; rewrite ?Ht; split; try done; by exists n.
Qed.
End PackageProps.

Lemma containerd_Install_spec_witness :
  let pm := {| manager := "yum"; installVerb := "install"; updateVerb := "update";
               deleteVerb := "remove"; refreshMetadataVerb := "makecache"; dockerRepo := "" |} in
  let h := {| fs := ∅; tracker := no_artifacts; journal := []; provider := no_provider |} in
  tracker (containerd_Install pm "distro" "1.29.3" h).2 = with_Containerd "distro" no_artifacts.
Proof.
  cbv zeta. match goal with |- tracker ?r.2 = _ => destruct r as [o h'] eqn:E end.
  destruct (containerd_Install_spec _ _ _ _ _ _ E) as [_ H].
  destruct H as [_ Ht].
  - intros [Hn|[[p Hp] _]]; [discriminate Hn|discriminate Hp].
  - cbn [snd]. rewrite Ht. replace o with (o, h').1 by reflexivity. rewrite <- E.
    vm_compute. reflexivity.
Defined.
