(* ===== verification/Aws.v ===== *)
(** * Release sources (internal/aws: source.go, manifest.go, partition.go;
      internal/aws/ecr; internal/system/fips.go)

    Which release of which artifact is installed, from where, and the ECR
    registry images come from.  The manifest's YAML decoding, SHA-256 and
    gzip are parameters. *)

From S2P Require Import Prelude GoStrings Host HttpFile Semver Artifact.
#[local] Open Scope Z_scope.

(** ** The manifest (manifest.go) *)

Record ArtifactEntry := {
  Name : string; Arch : string; OS : string; URI : string;
  ChecksumURI : string; GzipURI : string;
}.
Record EksPatchRelease := {
  Version : string; PatchVersion : string; ReleaseDate : string;
  Artifacts : list ArtifactEntry;
}.
Record SupportedEksRelease := {
  MajorMinorVersion : string; LatestPatchVersion : string;
  PatchReleases : list EksPatchRelease;
}.
Record IamRolesAnywhereRelease := { IamVersion : string; IamArtifacts : list ArtifactEntry }.
Record SsmRelease := { SsmVersion : string; SsmArtifacts : list ArtifactEntry }.
Record RegionData := {
  EcrAccountID : string; Partition : string; DnsSuffix : string;
  CredProviders : gmap string bool;
}.
Record Manifest := {
  SupportedEksReleases : list SupportedEksRelease;
  IamRolesAnywhereReleases : list IamRolesAnywhereRelease;
  SsmReleases : list SsmRelease;
  RegionConfig : gmap string RegionData;
}.
Record AwsSource := {
  Eks : EksPatchRelease; Iam : IamRolesAnywhereRelease; RegionInfo : RegionData;
}.

(** ** Partitions (partition.go) *)

Definition ParsePartitionFromARN (arn : string) : result string :=
  if negb (HasPrefix arn "arn:") then Err (ENew ("invalid ARN format: " +:+ arn))
  else
    match SplitN ":" 2 (TrimPrefix arn "arn:") with
    | p :: _ => if String.eqb p "" then Err (ENew ("partition not found in ARN: " +:+ arn)) else Ok p
    | [] => Err (ENew ("partition not found in ARN: " +:+ arn))
    end.

Definition GetPartitionDNSSuffix (partition : string) : string :=
  if String.eqb partition "aws" then "amazonaws.com"
  else if String.eqb partition "aws-cn" then "amazonaws.com.cn"
  else if String.eqb partition "aws-us-gov" then "amazonaws.com"
  else if String.eqb partition "aws-iso" then "c2s.ic.gov"
  else if String.eqb partition "aws-iso-b" then "sc2s.sgov.gov"
  else if String.eqb partition "aws-iso-e" then "cloud.adc-e.uk"
  else if String.eqb partition "aws-iso-f" then "csp.hci.ic.gov"
  else if String.eqb partition "aws-eusc" then "amazonaws.eu"
  else "amazonaws.com".

Definition GetServiceEndpointForPartition (service region partition : string) : string :=
  service +:+ "." +:+ region +:+ "." +:+ GetPartitionDNSSuffix partition.
Definition GetSerialConsoleEndpoint (region partition : string) : string :=
  if String.eqb partition "aws-cn"
  then "ec2-serial-console." +:+ region +:+ ".api.amazonwebservices.com.cn:22"
  else "serial-console.ec2-instance-connect." +:+ region +:+ ".aws:22".
Definition GetEC2ServicePrincipal (partition : string) : string :=
  if String.eqb partition "aws-cn" then "ec2.amazonaws.com.cn" else "ec2.amazonaws.com".

Definition GetPartitionFromRegionFallback (region : string) : string :=
  if HasPrefix region "cn-" then "aws-cn"
  else if HasPrefix region "us-gov-" then "aws-us-gov"
  else if HasPrefix region "us-isob-" then "aws-iso-b"
  else if HasPrefix region "us-isoe-" then "aws-iso-e"
  else if HasPrefix region "us-isof-" then "aws-iso-f"
  else if HasPrefix region "us-iso-" then "aws-iso"
  else if HasPrefix region "eusc-" then "aws-eusc"
  else "aws".

(** ** Dates: [time.Parse] with the layout 2006-01-02 *)

Definition two_digits (s : string) : option (Z * string) :=
  match s with
  | String a (String b r) =>
      match digit_val a, digit_val b with Some x, Some y => Some (10 * x + y, r) | _, _ => None end
  | _ => None
  end.
Definition is_leap (y : Z) : bool :=
  (y mod 4 =? 0) && (negb (y mod 100 =? 0) || (y mod 400 =? 0)).
Definition days_in (y m : Z) : Z :=
  if m =? 2 then (if is_leap y then 29 else 28)
  else if (m =? 4) || (m =? 6) || (m =? 9) || (m =? 11) then 30 else 31.

Definition time_Parse (s : string) : result (Z * Z * Z) :=
  let bad := Err (ENew ("parsing time " +:+ s)) in
  match two_digits s with
  | Some (yh, r) =>
    match two_digits r with
    | Some (yl, String "-" r) =>
      match two_digits r with
      | Some (m, String "-" r) =>
        match two_digits r with
        | Some (d, "") =>
            let y := 100 * yh + yl in
            if (1 <=? m) && (m <=? 12) && (1 <=? d) && (d <=? days_in y m)
            then Ok (y, m, d) else bad
        | _ => bad
        end
      | _ => bad
      end
    | _ => bad
    end
  | None => bad
  end.

(** [a.After(b)]. *)
Definition After (a b : Z * Z * Z) : bool :=
  let '(y, m, d) := a in let '(y', m', d') := b in
  (y' <? y) || (y' =? y) && ((m' <? m) || (m' =? m) && (d' <? d)).

(** ** Choosing releases (source.go) *)

(** The loop of [getLatestDateEksPatchRelease]. *)
Fixpoint latest_date (latestRelease : EksPatchRelease) (l : list EksPatchRelease)
    : result EksPatchRelease :=
  match l with
  | [] => Ok latestRelease
  | release :: l =>
      latestReleaseDate ← time_Parse (ReleaseDate latestRelease);
      parsedReleaseDate ← time_Parse (ReleaseDate release);
      latest_date (if After parsedReleaseDate latestReleaseDate then release
                   else latestRelease) l
  end.
Definition getLatestDateEksPatchRelease (l : list EksPatchRelease) : result EksPatchRelease :=
  match l with
  | [] => Err (ENew "input semver did not match with any available releases")
  | r :: _ => latest_date r l
  end.

(** The nested loops of [getLatestEksSource]: [patch] is the patch version
    asked for, or [None] for the latest of the minor version. *)
Definition matchedPatchReleases (majorMinor : string) (patch : option string)
    (m : Manifest) : list EksPatchRelease :=
  sr ← SupportedEksReleases m;
  if String.eqb (MajorMinorVersion sr) majorMinor
  then keep (λ r, String.eqb (PatchVersion r) (default (LatestPatchVersion sr) patch))
            (PatchReleases sr)
  else [].

Section Source.
Context `{Semver}.

(** The major.minor of the input and the patch version it carries, if any. *)
Definition split_version (eksVersion : string) : string * option string :=
  let majorMinor := RemoveByte "v" (semver_MajorMinor ("v" +:+ eksVersion)) in
  match CutPrefix eksVersion (majorMinor +:+ ".") with
  | (patch, true) => (majorMinor, Some patch)
  | (_, false) => (majorMinor, None)
  end.

Definition getLatestEksSource (eksVersion : string) (m : Manifest) : result EksPatchRelease :=
  if String.eqb eksVersion "" then Err (ENew "eks version is empty")
  else if negb (semver_IsValid ("v" +:+ eksVersion))
  then Err (ENew ("invalid semantic version: " +:+ eksVersion))
  else
    let '(majorMinor, patch) := split_version eksVersion in
    match matchedPatchReleases majorMinor patch m with
    | [r] => Ok r
    | [] =>
        Err (ENew (if patch is Some _
          then "input semver did not match with available releases. Try again with major.minor version"
          else "input semver did not match with any available releases"))
    | rs => getLatestDateEksPatchRelease rs
    end.

Definition getLatestIamRolesAnywhereSource (m : Manifest) : result IamRolesAnywhereRelease :=
  match IamRolesAnywhereReleases m with
  | [] => Err (ENew "no iam signer helper releases found")
  | r :: _ =>
      Ok (fold_left (λ latest release,
            if semver_Compare (IamVersion latest) (IamVersion release) <? 0
            then release else latest) (IamRolesAnywhereReleases m) r)
  end.

Definition validateKubernetesVersionMatch (requested manifest : string) : result unit :=
  if String.eqb requested "" || String.eqb manifest ""
  then Err (ENew "version cannot be empty")
  else if negb (semver_IsValid ("v" +:+ requested))
  then Err (ENew ("invalid requested version: " +:+ requested))
  else if negb (semver_IsValid ("v" +:+ manifest))
  then Err (ENew ("invalid manifest version: " +:+ manifest))
  else
    let r := RemoveByte "v" (semver_MajorMinor ("v" +:+ requested)) in
    let m := RemoveByte "v" (semver_MajorMinor ("v" +:+ manifest)) in
    if negb (String.eqb r m)
    then Err (ENew ("Kubernetes version mismatch: requested " +:+ requested +:+
                    " but manifest contains " +:+ manifest))
    else if Contains requested "." && Nat.eqb (CountByte "." requested) 2 &&
            negb (String.eqb requested manifest)
    then Err (ENew ("Kubernetes patch version mismatch: requested " +:+ requested +:+
                    " but manifest contains " +:+ manifest))
    else Ok tt.

Definition getSourceFromManifest (eksVersion region : string) (m : Manifest) : result AwsSource :=
  eks ← wrap_err "getting latest eks release" (getLatestEksSource eksVersion m);
  _ ← validateKubernetesVersionMatch eksVersion (Version eks);
  iam ← wrap_err "getting iam roles anywhere release" (getLatestIamRolesAnywhereSource m);
  match RegionConfig m !! region with
  | None => Err (ENew ("region " +:+ region +:+ " not found in manifest"))
  | Some regionCfg => Ok {| Eks := eks; Iam := iam; RegionInfo := regionCfg |}
  end.

Context `{Env} (manifestUrl : string) (yaml_Unmarshal_manifest : string → result Manifest).

Definition getManifestURL (region : string) : string :=
  if String.eqb region "" then manifestUrl
  else if String.eqb (GetPartitionFromRegionFallback region) "aws-cn"
  then "https://eks-hybrid-assets.awsstatic.cn/manifest.yaml"
  else manifestUrl.

Definition parse_manifest (data : string) : M Host Manifest :=
  map_err (EWrap "invalid yaml data in release manifest") (of_result (yaml_Unmarshal_manifest data)).

Definition getReleaseManifest (region : string) : M Host Manifest :=
  data ← GetHttpFile (getManifestURL region); parse_manifest data.

Definition getReleaseManifestFromURI (manifestURI : string) : M Host Manifest :=
  data ←
    if HasPrefix manifestURI "file://"
    then map_err (EWrap ("reading manifest file from file:// URI: " +:+ manifestURI))
           (os_ReadFile (TrimPrefix manifestURI "file://"))
    else if HasPrefix manifestURI "https://"
    then map_err (EWrap ("downloading manifest file from https:// URI: " +:+ manifestURI))
           (GetHttpFile manifestURI)
    else map_err (EWrap ("reading manifest file: " +:+ manifestURI)) (os_ReadFile manifestURI);
  parse_manifest data.

Definition GetLatestSource (eksVersion region : string) : M Host AwsSource :=
  m ← getReleaseManifest region; of_result (getSourceFromManifest eksVersion region m).
Definition GetLatestSourceFromManifest (eksVersion region manifestURI : string) : M Host AwsSource :=
  m ← getReleaseManifestFromURI manifestURI;
  of_result (getSourceFromManifest eksVersion region m).

Definition region_of (region : string) (m : Manifest) : M Host RegionData :=
  match RegionConfig m !! region with
  | None => throw (ENew ("region " +:+ region +:+ " not found in manifest"))
  | Some cfg => mret cfg
  end.
Definition GetRegionConfig (region : string) : M Host RegionData :=
  m ← getReleaseManifest region; region_of region m.
Definition GetRegionConfigFromManifest (region manifestURI : string) : M Host RegionData :=
  m ← getReleaseManifestFromURI manifestURI; region_of region m.

(** ** Opening an artifact *)

Context (goarch goos : string) (sha256 : string → string)
  (gunzip : string * option error → result (string * option error)).

Definition entry_matches (artifactName : string) (a : ArtifactEntry) : bool :=
  String.eqb (Name a) artifactName && String.eqb (Arch a) goarch && String.eqb (OS a) goos.

Definition open_artifact (a : ArtifactEntry) : M Host Source :=
  let gzipped := negb (String.eqb (GzipURI a) "") in
  let uri := if gzipped then GzipURI a else URI a in
  obj ← map_err (EWrap "getting artifact file reader") (GetHttpFileReader uri);
  artifactChecksum ← map_err (EWrap "getting artifact checksum file reader")
                       (GetHttpFile (ChecksumURI a));
  map_err (EWrap "getting artifact with checksum")
    (of_result (if gzipped then GzippedWithChecksum gunzip obj sha256 artifactChecksum
                else WithChecksum obj sha256 artifactChecksum)).

Fixpoint getSource (artifactName : string) (availableArtifacts : list ArtifactEntry)
    : M Host Source :=
  match availableArtifacts with
  | [] => throw (ENew ("could not find artifact for " +:+ goarch +:+ " arch and " +:+ goos +:+ " os"))
  | a :: l => if entry_matches artifactName a then open_artifact a else getSource artifactName l
  end.

Definition getEksSource (s : AwsSource) (artifactName : string) : M Host Source :=
  getSource artifactName (Artifacts (Eks s)).
Definition aws_GetKubelet s := getEksSource s "kubelet".
Definition aws_GetKubectl s := getEksSource s "kubectl".
Definition aws_GetIAMAuthenticator s := getEksSource s "aws-iam-authenticator".
Definition aws_GetImageCredentialProvider s := getEksSource s "ecr-credential-provider".
Definition aws_GetCniPlugins s := getEksSource s "cni-plugins".
Definition aws_GetSigningHelper (s : AwsSource) : M Host Source :=
  getSource "aws_signing_helper" (IamArtifacts (Iam s)).
End Source.

(** ** The container registry (internal/aws/ecr/ecr.go) *)

Definition nonOptInRegionAccount : string := "602401143452".
Definition accountsByRegion : gmap string string := list_to_map
  [("cn-north-1", "918309763551"); ("cn-northwest-1", "961992271922");
   ("eu-isoe-west-1", "249663109785"); ("us-gov-east-1", "151742754352");
   ("us-gov-west-1", "013241004608"); ("us-iso-east-1", "725322719131");
   ("us-iso-west-1", "608367168043"); ("us-isob-east-1", "187977181151");
   ("us-isof-south-1", "676585237158")].

Definition getEKSRegistryCoordinates (region : string) : string * string :=
  match accountsByRegion !! region with
  | Some account => (account, region)
  | None =>
      if HasPrefix region "us-gov-" then ("013241004608", "us-gov-west-1")
      else if HasPrefix region "cn-" then ("961992271922", "cn-northwest-1")
      else if HasPrefix region "us-iso-" then ("725322719131", "us-iso-east-1")
      else if HasPrefix region "us-isob-" then ("187977181151", "us-isob-east-1")
      else if HasPrefix region "us-isof-" then ("676585237158", "us-isof-south-1")
      else (nonOptInRegionAccount, "us-west-2")
  end.

Definition getEKSRegistryCoordinatesWithRegionConfig (region : string)
    (regionConfig : option RegionData) : string * string :=
  match regionConfig with
  | Some rc => if String.eqb (EcrAccountID rc) "" then getEKSRegistryCoordinates region
               else (EcrAccountID rc, region)
  | None => getEKSRegistryCoordinates region
  end.

Definition getRegistry (accountID ecrSubdomain region servicesDomain : string) : string :=
  accountID +:+ ".dkr." +:+ ecrSubdomain +:+ "." +:+ region +:+ "." +:+ servicesDomain.

Definition GetImageReference (registry repository tag : string) : string :=
  registry +:+ "/" +:+ repository +:+ ":" +:+ tag.
Definition GetSandboxImage (registry : string) : string :=
  GetImageReference registry "eks/pause" "3.5".

Section Ecr.
Context `{Env}.

(** [system.GetFipsInfo]: installed, enabled. *)
Definition GetFipsInfo : M Host (bool * bool) :=
  r ← try (os_ReadFile "/proc/sys/crypto/fips_enabled");
  match r with
  | Err e => if errors_Is_NotExist e then mret (false, false) else throw e
  | Ok data =>
      n ← of_result (Atoi (TrimChars [" "; "010"; "009"]%char data));
      mret (true, n =? 1)
  end.

(** [lookupHost] is [net.LookupHost]. *)
Definition getEksRegistryWithServiceDomainAndRegionConfig
    (lookupHost : string → M Host (list string)) (region servicesDomain : string)
    (regionConfig : option RegionData) : M Host string :=
  let '(account, region) := getEKSRegistryCoordinatesWithRegionConfig region regionConfig in
  '(fipsInstalled, fipsEnabled) ← GetFipsInfo;
  let plain := getRegistry account "ecr" region servicesDomain in
  if (fipsInstalled : bool) && (fipsEnabled : bool) then
    let fipsRegistry := getRegistry account "ecr-fips" region servicesDomain in
    addresses ← lookupHost fipsRegistry;
    mret (match addresses with [] => plain | _ => fipsRegistry end)
  else mret plain.

Definition hybrid_servicesDomain (region : string) (regionConfig : option RegionData) : string :=
  let fallback := GetPartitionDNSSuffix (GetPartitionFromRegionFallback region) in
  match regionConfig with
  | Some rc => if String.eqb (DnsSuffix rc) "" then fallback else DnsSuffix rc
  | None => fallback
  end.

Definition GetEKSHybridRegistry (lookupHost : string → M Host (list string)) (region : string)
    (regionConfig : option RegionData) : M Host string :=
  getEksRegistryWithServiceDomainAndRegionConfig lookupHost region
    (hybrid_servicesDomain region regionConfig) regionConfig.
End Ecr.

(** ** Properties of release selection *)

Lemma After_false a b :
  After a b = false ↔
  let '(y, m, d) := a in let '(y', m', d') := b in
  y < y' ∨ y = y' ∧ (m < m' ∨ m = m' ∧ d <= d').
Proof. destruct a as [[y m] d], b as [[y' m'] d']. unfold After. lia. Qed.

Lemma After_false_trans a b c : After a b = false → After b c = false → After a c = false.
Proof. rewrite !After_false. destruct a as [[??]?], b as [[??]?], c as [[??]?]. lia. Qed.

Lemma After_asym a b : After a b = true → After b a = false.
Proof.
  intros Ht. apply After_false. destruct a as [[y m] d], b as [[y' m'] d'].
  unfold After in Ht. lia.
Qed.

Lemma After_refl a : After a a = false.
Proof. apply After_false. destruct a as [[??]?]. lia. Qed.

(** [r] has a parsable date that is not later than [d]. *)
Definition no_later (d : Z * Z * Z) (r : EksPatchRelease) : Prop :=
  ∃ d', time_Parse (ReleaseDate r) = Ok d' ∧ After d' d = false.

Lemma latest_date_Ok cur dc l rel :
  time_Parse (ReleaseDate cur) = Ok dc → latest_date cur l = Ok rel →
  ∃ d, time_Parse (ReleaseDate rel) = Ok d ∧ rel ∈ cur :: l ∧
    After dc d = false ∧ ∀ r, r ∈ l → no_later d r.
Proof.
  revert cur dc. induction l as [|r l IH]; intros cur dc Hc Hl; cbn in Hl.
  - injection Hl as <-. exists dc. split; [done|]. split; [by left|].
    split; [apply After_refl|]. by intros r Hr%not_elem_of_nil.
  - rewrite Hc in Hl. cbn in Hl. destruct (time_Parse (ReleaseDate r)) as [dr|] eqn:Hr; [|done].
    cbn in Hl. destruct (After dr dc) eqn:Ha.
    + destruct (IH _ _ Hr Hl) as (d & Hd & Hin & Hle & Hall). exists d.
      split; [done|]. split; [set_solver|].
      split; [eapply After_false_trans; [by apply After_asym|done]|].
      intros r' [->|Hr']%elem_of_cons; [|by apply Hall]. by exists dr.
    + destruct (IH _ _ Hc Hl) as (d & Hd & Hin & Hle & Hall). exists d.
      split; [done|]. split; [set_solver|]. split; [done|].
      intros r' [->|Hr']%elem_of_cons; [|by apply Hall]. exists dr.
      split; [done|]. by eapply After_false_trans.
Qed.

Lemma latest_date_Err cur l e :
  latest_date cur l = Err e →
  ∃ r, r ∈ cur :: l ∧ is_ok (time_Parse (ReleaseDate r)) = false.
Proof.
  revert cur. induction l as [|r l IH]; intros cur Hl; cbn in Hl; [done|].
  destruct (time_Parse (ReleaseDate cur)) as [dc|] eqn:Hc.
  - cbn in Hl. destruct (time_Parse (ReleaseDate r)) as [dr|] eqn:Hr.
    + cbn in Hl. destruct (IH _ Hl) as (r' & Hin & Hf). exists r'. split; [|done].
      destruct (After dr dc); set_solver.
    + exists r. rewrite Hr. set_solver.
  - exists cur. rewrite Hc. set_solver.
Qed.

Lemma elem_of_matched mm patch m r :
  r ∈ matchedPatchReleases mm patch m ↔
  ∃ sr, sr ∈ SupportedEksReleases m ∧ MajorMinorVersion sr = mm ∧ r ∈ PatchReleases sr ∧
    PatchVersion r = default (LatestPatchVersion sr) patch.
Proof.
  unfold matchedPatchReleases. rewrite list_elem_of_bind. split.
  - intros (sr & Hr & Hsr). destruct (String.eqb_spec (MajorMinorVersion sr) mm) as [Hm|];
      [|by apply not_elem_of_nil in Hr].
    apply elem_of_keep in Hr as [Hr Hp%String.eqb_eq]. eauto.
  - intros (sr & Hsr & <- & Hr & Hp). exists sr. rewrite String.eqb_refl.
    split; [|done]. apply elem_of_keep. by rewrite String.eqb_eq.
Qed.

(** The release [r] answers the request [eksVersion] in the manifest. *)
Definition answers `{Semver} (eksVersion : string) (m : Manifest) (r : EksPatchRelease) : Prop :=
  ∃ sr, sr ∈ SupportedEksReleases m ∧ MajorMinorVersion sr = (split_version eksVersion).1 ∧
    r ∈ PatchReleases sr ∧
    PatchVersion r = default (LatestPatchVersion sr) (split_version eksVersion).2.

(** [getLatestEksSource] returns a release of the requested minor version
    carrying the requested patch (or that minor's latest patch when none is
    requested), and among several such releases the one of the latest date;
    it fails only for an empty or invalid version, when no release answers,
    or when a date that must be compared does not parse. *)
Theorem getLatestEksSource_spec `{Semver} eksVersion m :
  match getLatestEksSource eksVersion m with
  | Ok r => semver_IsValid ("v" +:+ eksVersion) = true ∧ answers eksVersion m r ∧
      ∀ r', answers eksVersion m r' → r' = r ∨
        ∃ d, time_Parse (ReleaseDate r) = Ok d ∧ no_later d r'
  | Err _ => eksVersion = "" ∨ semver_IsValid ("v" +:+ eksVersion) = false ∨
      (∀ r, ¬ answers eksVersion m r) ∨
      ∃ r, answers eksVersion m r ∧ is_ok (time_Parse (ReleaseDate r)) = false
  end.
Proof.
  unfold getLatestEksSource. destruct (String.eqb_spec eksVersion "") as [->|_]; [by left|].
  destruct (semver_IsValid _) eqn:Hv; cbn [negb]; [|by right; left].
  destruct (split_version eksVersion) as [mm patch] eqn:Hs.
  assert (∀ r, answers eksVersion m r ↔ r ∈ matchedPatchReleases mm patch m) as Hans
    by (intros r; unfold answers; rewrite Hs; symmetry; apply elem_of_matched).
  destruct (matchedPatchReleases mm patch m) as [|r [|r2 rs]].
  - right; right; left. by intros r Hr%Hans%not_elem_of_nil.
  - split; [done|]. split; [apply Hans; by left|].
    intros r' Hr'%Hans. left. by apply list_elem_of_singleton.
  - unfold getLatestDateEksPatchRelease.
    destruct (latest_date r (r :: r2 :: rs)) as [rel|e] eqn:HL.
    + cbn [latest_date] in HL. destruct (time_Parse (ReleaseDate r)) as [dr|] eqn:Hr; [|done].
      cbn [mbind result_bind] in HL. rewrite After_refl in HL.
      change (latest_date r (r2 :: rs) = Ok rel) in HL.
      destruct (latest_date_Ok _ _ _ _ Hr HL) as (d & Hd & Hin & Hle & Hall).
      split; [done|]. split; [by apply Hans|]. intros r' Hr'%Hans. right. exists d.
      split; [done|]. apply elem_of_cons in Hr' as [->|Hr']; [by exists dr|by apply Hall].
    + right; right; right. destruct (latest_date_Err _ _ _ HL) as (r' & Hin & Hf).
      exists r'. split; [|done]. apply Hans. set_solver.
Qed.

Lemma iam_latest `{Semver} (cur : IamRolesAnywhereRelease) l :
  let latest := fold_left (λ latest release,
    if semver_Compare (IamVersion latest) (IamVersion release) <? 0
    then release else latest) l cur in
  latest ∈ cur :: l ∧
  0 <= semver_Compare (IamVersion latest) (IamVersion cur) ∧
  ∀ r, r ∈ l → 0 <= semver_Compare (IamVersion latest) (IamVersion r).
Proof.
  revert cur. induction l as [|r l IH]; intros cur; cbn.
  - split; [by left|]. rewrite semver_refl. split; [done|]. by intros r Hr%not_elem_of_nil.
  - set (nxt := if _ <? 0 then r else cur).
    destruct (IH nxt) as (Hin & Hn & Hall). cbn in *.
    assert (0 <= semver_Compare (IamVersion nxt) (IamVersion cur) ∧
            0 <= semver_Compare (IamVersion nxt) (IamVersion r)) as [H1 H2].
    { unfold nxt. destruct (Z.ltb_spec (semver_Compare (IamVersion cur) (IamVersion r)) 0) as [Hlt|Hge].
      - split; [by apply semver_total|by rewrite semver_refl].
      - split; [by rewrite semver_refl|done]. }
    split; [|split].
    + unfold nxt in *. destruct (_ <? 0); set_solver.
    + by eapply semver_trans.
    + intros r' [->|Hr']%elem_of_cons; [by eapply semver_trans|by apply Hall].
Qed.

(** A source built from a manifest is consistent with the request: its
    EKS release answers the requested version, has the same major.minor, and
    is that very version when a full version was asked for; its IAM Roles
    Anywhere release is the newest of the manifest; and its region data are
    the manifest's entry for the requested region. *)
Theorem getSourceFromManifest_spec `{Semver} eksVersion region m s :
  getSourceFromManifest eksVersion region m = Ok s →
  answers eksVersion m (Eks s) ∧
  RemoveByte "v" (semver_MajorMinor ("v" +:+ eksVersion)) =
    RemoveByte "v" (semver_MajorMinor ("v" +:+ Version (Eks s))) ∧
  (CountByte "." eksVersion = 2%nat → Contains eksVersion "." = true →
     Version (Eks s) = eksVersion) ∧
  Iam s ∈ IamRolesAnywhereReleases m ∧
  (∀ r, r ∈ IamRolesAnywhereReleases m →
     0 <= semver_Compare (IamVersion (Iam s)) (IamVersion r)) ∧
  RegionConfig m !! region = Some (RegionInfo s).
Proof.
  unfold getSourceFromManifest. intros E.
  pose proof (getLatestEksSource_spec eksVersion m) as He.
  destruct (getLatestEksSource eksVersion m) as [eks|] eqn:Heks; [|done]. cbn in E.
  destruct (validateKubernetesVersionMatch eksVersion (Version eks)) as [[]|] eqn:Hv; [|done].
  cbn in E. unfold getLatestIamRolesAnywhereSource in E.
  destruct (IamRolesAnywhereReleases m) as [|i is'] eqn:Hiam; [done|].
  pose proof (iam_latest i (i :: is')) as Hl. cbv zeta in Hl.
  set (latest := fold_left _ _ _) in *. cbn in E.
  destruct (RegionConfig m !! region) as [rc|] eqn:Hr; [|done]. injection E as <-. cbn.
  destruct He as (_ & He & _). destruct Hl as (Hin & _ & Hmax).
  unfold validateKubernetesVersionMatch in Hv.
  destruct (_ || _); [done|]. destruct (negb _); [done|]. destruct (negb _); [done|].
  destruct (String.eqb_spec (RemoveByte "v" (semver_MajorMinor ("v" +:+ eksVersion)))
    (RemoveByte "v" (semver_MajorMinor ("v" +:+ Version eks)))) as [Hmm|]; [|done].
  cbn in Hv. split; [done|]. split; [done|]. split.
  - intros Hc Hd. rewrite Hc, Hd in Hv. cbn in Hv.
    by destruct (String.eqb_spec eksVersion (Version eks)).
  - split; [set_solver|]. done.
Qed.

Example manifest_130 : Manifest :=
  let rel v p d := {| Version := v; PatchVersion := p; ReleaseDate := d; Artifacts := [] |} in
  {| SupportedEksReleases :=
       [{| MajorMinorVersion := "1.30"; LatestPatchVersion := "4";
           PatchReleases := [rel "1.30.4" "4" "2024-09-12"; rel "1.30.4" "4" "2025-01-02";
                             rel "1.30.0" "0" "2024-05-12"] |}];
     IamRolesAnywhereReleases := [{| IamVersion := "v1.2.0"; IamArtifacts := [] |};
                                  {| IamVersion := "v1.10.0"; IamArtifacts := [] |}];
     SsmReleases := [];
     RegionConfig := {["us-west-2" := {| EcrAccountID := "1"; Partition := "aws";
                        DnsSuffix := "amazonaws.com"; CredProviders := ∅ |}]} |}.

Lemma getSourceFromManifest_spec_witness :
  ∃ s, getSourceFromManifest "1.30" "us-west-2" manifest_130 = Ok s ∧
    ReleaseDate (Eks s) = "2025-01-02" ∧ IamVersion (Iam s) = "v1.10.0" ∧
    RegionConfig manifest_130 !! "us-west-2" = Some (RegionInfo s).
Proof.
  destruct (getSourceFromManifest "1.30" "us-west-2" manifest_130) as [s|e] eqn:E;
    [|vm_compute in E; discriminate E].
  exists s. destruct (getSourceFromManifest_spec _ _ _ _ E) as (_ & _ & _ & _ & _ & Hr).
  vm_compute in E. injection E as <-. split; [reflexivity|].
  split; [reflexivity|]. split; [reflexivity|exact Hr].
Defined.

(** ** Properties of artifact sources *)

Section SourceProps.
Context `{Env} (goarch goos : string) (sha256 : string → string)
  (gunzip : string * option error → result (string * option error)).

Lemma with_checksum_Ok body digest file src :
  WithChecksum body digest file = Ok src →
  ∃ sum, ParseGNUChecksum file = Ok sum ∧ verifier src = Some (digest, sum) ∧
    hashed src = "" ∧ unread src = body.1 ∧ read_err src = body.2.
Proof.
  unfold WithChecksum. destruct (ParseGNUChecksum file) as [sum|]; [|done].
  intros [= <-]. by exists sum.
Qed.

Lemma getSource_frame name l h o h' :
  getSource goarch goos sha256 gunzip name l h = (o, h') →
  fs h' = fs h ∧ tracker h' = tracker h ∧ o ≠ Panic.
Proof.
  induction l as [|a l IH]; cbn [getSource]; [by intros [= <- <-]|].
  destruct (entry_matches _ _ _ a); [|done]. clear IH.
  unfold open_artifact. cbv [mbind M_bind map_err]. intros E.
  match type of E with context [GetHttpFileReader ?u h] =>
    destruct (GetHttpFileReader u h) as [[obj|e|] h1] eqn:E1 end;
    apply GetHttpFileReader_frame in E1 as (F1 & T1 & P1); [|by injection E as <- <-|done].
  destruct (GetHttpFile (ChecksumURI a) h1) as [[sum|e|] h2] eqn:E2;
    apply GetHttpFile_frame in E2 as (F2 & T2 & P2); [| |done].
  - unfold of_result in E. rewrite <- F1, <- F2, <- T1, <- T2.
    match type of E with context [match ?r with Ok _ => _ | Err _ => _ end] =>
      destruct r end; by injection E as <- <-.
  - injection E as <- <-. by rewrite F2, T2.
Qed.

Lemma getSource_hashed name l h src h' :
  getSource goarch goos sha256 gunzip name l h = (Return src, h') → hashed src = "".
Proof.
  induction l as [|a l IH]; cbn [getSource]; intros E; [done|].
  destruct (entry_matches _ _ _ a); [|by apply IH]. clear IH. unfold open_artifact in E.
  cbv zeta in E. apply bind_Return in E as (body & h1 & _ & E).
  apply bind_Return in E as (file & h2 & _ & E).
  apply map_err_Return in E. unfold of_result in E.
  destruct (if negb (String.eqb (GzipURI a) "") then _ else _) as [src'|] eqn:Hw; [|done].
  injection E as -> <-. destruct (String.eqb (GzipURI a) ""); cbn [negb] in Hw.
  - by apply with_checksum_Ok in Hw as (sum & _ & _ & ? & _).
  - unfold GzippedWithChecksum in Hw. destruct (gunzip body); [|done].
    by apply with_checksum_Ok in Hw as (sum & _ & _ & ? & _).
Qed.

(** The source opened for an artifact is the first entry of the release
    with that name for this architecture and system; its bytes come from a
    200 answer for the entry's URL (decompressed, when it has a gzip URL),
    and it will be verified with SHA-256 against the digest of the entry's
    checksum file. *)
Theorem getSource_spec name l h src h' :
  getSource goarch goos sha256 gunzip name l h = (Return src, h') →
  ∃ pre a post, l = pre ++ a :: post ∧
    (Name a = name ∧ Arch a = goarch ∧ OS a = goos) ∧
    Forall (λ b, entry_matches goarch goos name b = false) pre ∧
    ∃ h0 body h1 file sum,
      http_do h0 (if String.eqb (GzipURI a) "" then URI a else GzipURI a) = Ok (200, body) ∧
      http_do h1 (ChecksumURI a) = Ok (200, (file, None)) ∧
      ParseGNUChecksum file = Ok sum ∧ verifier src = Some (sha256, sum) ∧ hashed src = "" ∧
      (if String.eqb (GzipURI a) "" then Ok body else gunzip body)
        = Ok (unread src, read_err src).
Proof.
  revert h. induction l as [|a l IH]; intros h E; cbn [getSource] in E; [done|].
  destruct (entry_matches goarch goos name a) eqn:Hm.
  - exists [], a, l. split; [done|].
    pose proof Hm as Hm'. unfold entry_matches in Hm'.
    rewrite !andb_true_iff, !String.eqb_eq in Hm'. split; [tauto|]. split; [done|].
    unfold open_artifact in E. cbv zeta in E.
    apply bind_Return in E as (body & h1 & E1 & E). apply map_err_Return in E1.
    apply GetHttpFileReader_spec in E1 as (_ & _ & _ & _ & _ & h0 & Hd).
    apply bind_Return in E as (file & h2 & E2 & E). apply map_err_Return in E2.
    apply GetHttpFile_Return in E2 as (_ & _ & h3 & Hs).
    apply map_err_Return in E. unfold of_result in E.
    exists h0, body, h3, file. destruct (String.eqb (GzipURI a) ""); cbn [negb] in *.
    + destruct (WithChecksum body sha256 file) as [src'|] eqn:Hw; [|done].
      injection E as -> <-. apply with_checksum_Ok in Hw as (sum & ? & ? & ? & -> & ->).
      exists sum. repeat split; try done. by destruct body.
    + unfold GzippedWithChecksum in E. destruct (gunzip body) as [plain|] eqn:Hg; [|done].
      destruct (WithChecksum plain sha256 file) as [src'|] eqn:Hw; [|done].
      injection E as -> <-. apply with_checksum_Ok in Hw as (sum & ? & ? & ? & -> & ->).
      exists sum. repeat split; try done. by destruct plain.
  - destruct (IH _ E) as (pre & b & post & -> & Hb & Hpre & Hrest).
    exists (a :: pre), b, post. split; [done|]. split; [done|].
    split; [by constructor|done].
Qed.
End SourceProps.

Example one_artifact : list ArtifactEntry :=
  [{| Name := "kubelet"; Arch := "arm64"; OS := "linux"; URI := "https://a/arm64/kubelet";
      ChecksumURI := "https://a/arm64/kubelet.sha256"; GzipURI := "" |};
   {| Name := "kubelet"; Arch := "amd64"; OS := "linux"; URI := "https://a/amd64/kubelet";
      ChecksumURI := "https://a/amd64/kubelet.sha256"; GzipURI := "" |}].

(** Every URL serves the same checksum line. *)
Example checksum_everywhere : Env := {|
  fault _ _ := None; run_output _ _ _ := ("", None); run_effect h _ _ := fs h;
  http_do _ _ := Ok (200, ("6b6c kubelet", None)); bad_url _ := None;
  look_path _ _ := None; ticks _ := 0%nat; read_part _ _ := "" |}.

Lemma getSource_spec_witness :
  let h := {| fs := ∅; tracker := no_artifacts; journal := []; provider := no_provider |} in
  let r := @getSource checksum_everywhere "amd64" "linux" (λ s, s) (λ b, Ok b) "kubelet" one_artifact h in
  ∃ src, r.1 = Return src ∧ ∃ pre a post, one_artifact = pre ++ a :: post ∧ Arch a = "amd64".
Proof.
  cbv zeta.
  destruct (@getSource checksum_everywhere "amd64" "linux" (λ s, s) (λ b, Ok b) "kubelet"
    one_artifact {| fs := ∅; tracker := no_artifacts; journal := []; provider := no_provider |}) as [o h'] eqn:E.
  destruct o as [src|e|];
    [|exfalso; apply (f_equal fst) in E; vm_compute in E; discriminate E..].
  exists src. split; [reflexivity|].
  destruct (@getSource_spec checksum_everywhere _ _ _ _ _ _ _ _ _ E)
    as (pre & a & post & Hl & (_ & Ha & _) & _).
  exists pre, a, post. split; [exact Hl|exact Ha].
Defined.

(** ** Properties of the registry *)

(** The partition a region belongs to, by the prefixes of its partition's
    regions. *)
Definition region_partition (region : string) : string :=
  if HasPrefix region "cn-" then "aws-cn"
  else if HasPrefix region "us-gov-" then "aws-us-gov"
  else if HasPrefix region "us-isob-" then "aws-iso-b"
  else if HasPrefix region "eu-isoe-" then "aws-iso-e"
  else if HasPrefix region "us-isof-" then "aws-iso-f"
  else if HasPrefix region "us-iso-" then "aws-iso"
  else if HasPrefix region "eusc-" then "aws-eusc"
  else "aws".

Lemma accountsByRegion_keys region account :
  accountsByRegion !! region = Some account →
  region ∈ ["cn-north-1"; "cn-northwest-1"; "eu-isoe-west-1"; "us-gov-east-1"; "us-gov-west-1";
            "us-iso-east-1"; "us-iso-west-1"; "us-isob-east-1"; "us-isof-south-1"].
Proof.
  intros Hl. apply elem_of_list_to_map_2 in Hl.
  rewrite !elem_of_cons in Hl. rewrite !elem_of_cons.
  repeat (destruct Hl as [[= -> _]|Hl]; [tauto|]). by apply not_elem_of_nil in Hl.
Qed.

(** The region fallback and the ECR account table agree about every
    region with an account of its own, except the one region of aws-iso-e:
    [eu-isoe-west-1] has an ECR account, but the fallback tests the prefix
    [us-isoe-], takes it for a commercial region, and so names its registry
    under amazonaws.com instead of cloud.adc-e.uk. *)
Theorem region_fallback_partition region account :
  accountsByRegion !! region = Some account →
  (region ≠ "eu-isoe-west-1" ↔
     GetPartitionFromRegionFallback region = region_partition region) ∧
  (region = "eu-isoe-west-1" →
     hybrid_servicesDomain region None = "amazonaws.com" ∧
     GetPartitionDNSSuffix (region_partition region) = "cloud.adc-e.uk").
Proof.
  intros Hr%accountsByRegion_keys. rewrite !elem_of_cons in Hr.
  destruct Hr as [-> | [-> | [-> | [-> | [-> | [-> | [-> | [-> | [-> | Hr]]]]]]]]];
    [..|by apply not_elem_of_nil in Hr]; vm_compute; naive_solver.
Qed.

Lemma region_fallback_partition_witness :
  hybrid_servicesDomain "eu-isoe-west-1" None = "amazonaws.com".
Proof.
  exact (proj1 (proj2 (region_fallback_partition "eu-isoe-west-1" "249663109785" eq_refl) eq_refl)).
Defined.

(** The hybrid registry: the account and region come from the manifest's
    entry when it names an account and from the built-in table otherwise,
    the domain from the manifest when it names one; the FIPS host is used
    exactly when FIPS is enabled on the host and the name resolves. *)
Theorem GetEKSHybridRegistry_spec `{Env} lookupHost region rc h reg h' :
  GetEKSHybridRegistry lookupHost region rc h = (Return reg, h') →
  let account := match rc with
    | Some c => if String.eqb (EcrAccountID c) "" then (getEKSRegistryCoordinates region).1
                else EcrAccountID c
    | None => (getEKSRegistryCoordinates region).1 end in
  let home := match rc with
    | Some c => if String.eqb (EcrAccountID c) "" then (getEKSRegistryCoordinates region).2
                else region
    | None => (getEKSRegistryCoordinates region).2 end in
  ∃ installed enabled h1, GetFipsInfo h = (Return (installed, enabled), h1) ∧
    ((installed && enabled = false ∧
        reg = getRegistry account "ecr" home (hybrid_servicesDomain region rc)) ∨
     (installed && enabled = true ∧ ∃ addrs h2,
        lookupHost (getRegistry account "ecr-fips" home (hybrid_servicesDomain region rc)) h1
          = (Return addrs, h2) ∧
        reg = getRegistry account (match addrs with [] => "ecr" | _ => "ecr-fips" end)
                home (hybrid_servicesDomain region rc))).
Proof.
  unfold GetEKSHybridRegistry, getEksRegistryWithServiceDomainAndRegionConfig. intros E.
  cbv zeta. set (dom := hybrid_servicesDomain region rc) in *.
  assert (getEKSRegistryCoordinatesWithRegionConfig region rc =
    (match rc with
     | Some c => if String.eqb (EcrAccountID c) "" then (getEKSRegistryCoordinates region).1
                 else EcrAccountID c
     | None => (getEKSRegistryCoordinates region).1 end,
     match rc with
     | Some c => if String.eqb (EcrAccountID c) "" then (getEKSRegistryCoordinates region).2
                 else region
     | None => (getEKSRegistryCoordinates region).2 end)) as Hc.
  { unfold getEKSRegistryCoordinatesWithRegionConfig.
    destruct rc as [c|]; [destruct (String.eqb _ _)|]; by destruct (getEKSRegistryCoordinates region). }
  rewrite Hc in E. apply bind_Return in E as ([i en] & h1 & Hf & E).
  exists i, en, h1. split; [done|]. destruct (i && en).
  - right. split; [done|]. apply bind_Return in E as (addrs & h2 & Hl & E).
    exists addrs, h2. split; [done|]. injection E as <- <-. by destruct addrs.
  - left. split; [done|]. by injection E as <-.
Qed.

Lemma GetEKSHybridRegistry_spec_witness :
  let h := {| fs := ∅; tracker := no_artifacts; journal := []; provider := no_provider |} in
  ∃ h', GetEKSHybridRegistry (λ _, mret []) "us-west-2" None h =
    (Return "602401143452.dkr.ecr.us-west-2.amazonaws.com", h').
Proof.
  cbv zeta.
  match goal with |- context [GetEKSHybridRegistry ?a ?b ?c ?d] =>
    destruct (GetEKSHybridRegistry a b c d) as [o h'] eqn:E end.
  exists h'. destruct o as [reg|e|];
    [|exfalso; apply (f_equal fst) in E; vm_compute in E; discriminate E..].
  destruct (GetEKSHybridRegistry_spec _ _ _ _ _ _ E) as (i & en & h1 & Hf & [[_ Hr]|[Hi _]]).
  - rewrite Hr. vm_compute. reflexivity.
  - exfalso. apply (f_equal fst) in Hf. vm_compute in Hf. injection Hf as <- <-. discriminate Hi.
Defined.
