(* ===== verification/E2e.v ===== *)
(** * The driver of the end-to-end tests (cmd/e2e-test/rune2e/command.go,
      test/e2e/run: e2e.go, runner.go, cleanup.go; test/e2e/cluster/create.go
      and test/e2e/config.go: the configurations)

    run-e2e settles two configurations, of the resources to create and of the
    tests, and then goes through phases: create the cluster, run the tests
    against it, take the cluster away, report.  A phase that fails is
    recorded and does not stop the later ones. *)

From S2P Require Import Prelude GoStrings Host Aws Retry.
#[local] Open Scope Z_scope.

(** ** Configurations *)

Record NetworkConfig := {
  VpcCidr : string; PublicSubnetCidr : string; PrivateSubnetCidr : string; PodCidr : string;
}.
#[export] Instance NetworkConfig_dec : EqDecision NetworkConfig.
Proof. solve_decision. Defined.
Definition no_network : NetworkConfig :=
  {| VpcCidr := ""; PublicSubnetCidr := ""; PrivateSubnetCidr := ""; PodCidr := "" |}.
Record EKSConfig := { Endpoint : string; ClusterRoleSP : string; PodIdentitySP : string }.
Record TestResources := {
  tr_ClusterName : string;
  tr_ClusterRegion : string;
  ClusterNetwork : NetworkConfig;
  HybridNetwork : NetworkConfig;
  KubernetesVersion : string;
  Cni : string;
  tr_EKS : EKSConfig;
  tr_DNSSuffix : string;
  tr_EcrAccount : string;
}.
Record TestConfig := {
  tc_ClusterName : string;
  tc_ClusterRegion : string;
  NodeadmUrlAMD : string;
  NodeadmUrlARM : string;
  SetRootPassword : bool;
  NodeK8sVersion : string;
  LogsBucket : string;
  tc_Endpoint : string;
  ArtifactsFolder : string;
  tc_DNSSuffix : string;
  tc_EcrAccount : string;
  ManifestURL : string;
}.

Definition EcrAccountId : string := "381492195191".
Definition ChinaEcrAccountId : string := "858475954877".
Definition GetEcrAccountForRegion (region : string) : string :=
  if String.eqb (GetPartitionFromRegionFallback region) "aws-cn" then ChinaEcrAccountId else EcrAccountId.
Definition region_DNSSuffix (region : string) : string :=
  GetPartitionDNSSuffix (GetPartitionFromRegionFallback region).
Definition or_else (v d : string) : string := if String.eqb v "" then d else v.

Definition SetTestResourcesDefaults (t : TestResources) : TestResources := {|
  tr_ClusterName := tr_ClusterName t; tr_ClusterRegion := tr_ClusterRegion t;
  ClusterNetwork := if decide (ClusterNetwork t = no_network)
    then {| VpcCidr := "10.20.0.0/16"; PublicSubnetCidr := "10.20.1.0/24";
            PrivateSubnetCidr := "10.20.2.0/24"; PodCidr := "" |}
    else ClusterNetwork t;
  HybridNetwork := if decide (HybridNetwork t = no_network)
    then {| VpcCidr := "10.80.0.0/16"; PublicSubnetCidr := "10.80.1.0/24";
            PrivateSubnetCidr := ""; PodCidr := "10.87.0.0/16" |}
    else HybridNetwork t;
  KubernetesVersion := KubernetesVersion t; Cni := Cni t;
  tr_EKS := {| Endpoint := Endpoint (tr_EKS t);
    ClusterRoleSP := or_else (ClusterRoleSP (tr_EKS t)) "eks.amazonaws.com";
    PodIdentitySP := or_else (PodIdentitySP (tr_EKS t)) "pods.eks.amazonaws.com" |};
  tr_DNSSuffix := or_else (tr_DNSSuffix t) (region_DNSSuffix (tr_ClusterRegion t));
  tr_EcrAccount := or_else (tr_EcrAccount t) (GetEcrAccountForRegion (tr_ClusterRegion t)) |}.

Definition set_tr_ClusterName (n : string) (t : TestResources) : TestResources := {|
  tr_ClusterName := n; tr_ClusterRegion := tr_ClusterRegion t; ClusterNetwork := ClusterNetwork t;
  HybridNetwork := HybridNetwork t; KubernetesVersion := KubernetesVersion t; Cni := Cni t;
  tr_EKS := tr_EKS t; tr_DNSSuffix := tr_DNSSuffix t; tr_EcrAccount := tr_EcrAccount t |}.
Definition set_ArtifactsFolder (d : string) (c : TestConfig) : TestConfig := {|
  tc_ClusterName := tc_ClusterName c; tc_ClusterRegion := tc_ClusterRegion c;
  NodeadmUrlAMD := NodeadmUrlAMD c; NodeadmUrlARM := NodeadmUrlARM c;
  SetRootPassword := SetRootPassword c; NodeK8sVersion := NodeK8sVersion c;
  LogsBucket := LogsBucket c; tc_Endpoint := tc_Endpoint c; ArtifactsFolder := d;
  tc_DNSSuffix := tc_DNSSuffix c; tc_EcrAccount := tc_EcrAccount c; ManifestURL := ManifestURL c |}.

(** A client configuration of the AWS SDK: its region and what its requests
    are marked with. *)
Record E2eAws := { e2e_Region : string; AppID : string }.

Record SweeperInput := {
  AllClusters : bool; DryRun : bool; ClusterName : string; ClusterNamePrefix : string;
  InstanceAgeThreshold : Z;
}.
Record DeleteInput := { del_ClusterName : string; del_ClusterRegion : string; del_Endpoint : string }.

Record Phase := { phase_Name : string; phase_Error : option error; FailureMessage : string; phase_Status : string }.
Record FailedTest := {
  CollectorLogsBundle : string; ft_FailureMessage : string; ft_InstanceName : string; ft_GinkgoLog : string;
  ft_Name : string; ft_NodeadmVersion : string; ft_SerialLog : string; ft_State : string;
}.
Record E2EResult := {
  ArtifactsBucketPath : string; result_CleanupLog : string; FailedTests : list FailedTest;
  result_GinkgoLog : string; NodeadmE2eTestResultJSON : bool; Phases : list Phase;
  result_SetupLog : string; TestFailed : Z; TestRan : Z; TotalTests : Z;
}.
Definition no_result : E2EResult := {|
  ArtifactsBucketPath := ""; result_CleanupLog := ""; FailedTests := []; result_GinkgoLog := "";
  NodeadmE2eTestResultJSON := false; Phases := []; result_SetupLog := "";
  TestFailed := 0; TestRan := 0; TotalTests := 0 |}.
(** The phases and the mark of a result, set together. *)
Definition set_Phases (ps : list Phase) (r : E2EResult) : E2EResult := {|
  ArtifactsBucketPath := ArtifactsBucketPath r; result_CleanupLog := result_CleanupLog r;
  FailedTests := FailedTests r; result_GinkgoLog := result_GinkgoLog r; NodeadmE2eTestResultJSON := true;
  Phases := ps; result_SetupLog := result_SetupLog r;
  TestFailed := TestFailed r; TestRan := TestRan r; TotalTests := TotalTests r |}.

(** What lies outside: the clock, YAML, the operating system's answers, and
    the workflows that talk to AWS -- the cluster's creation and deletion,
    the sweeper, the upload -- each with the deadline it is given. *)
Class E2eEnv := {
  e2e_Now : Host → Z;
  yaml_TestResources : string → result TestResources;
  (** [yaml.Unmarshal] into a configuration that has values. *)
  yaml_TestConfig : TestConfig → string → result TestConfig;
  Marshal_TestConfig : TestConfig → result string;
  Marshal_TestResources : TestResources → result string;
  NewAWSConfig : string → string → Host → result E2eAws;
  MkdirTemp : string → M Host string;
  Abs : string → result string;
  Executable : result string;
  Getwd : Host → result string;
  Duration_text : Z → string;
  cluster_Create : E2eAws → string → TestResources → option Z → M Host unit;
  cluster_Delete : E2eAws → string → DeleteInput → option Z → M Host unit;
  Sweeper_Run : E2eAws → string → SweeperInput → option Z → M Host unit;
  Report_Parse : string → string → Host → (E2EResult * option error) * Host;
  Upload : E2eAws → string → string → string → option Z → M Host unit;
  PrintJSON : E2EResult → M Host unit;
  PrintText : E2EResult → M Host unit;
}.

(** ** Deadlines *)

Definition Hour : Z := 60 * Minute.
(** [context.WithDeadline]: the earlier of the two. *)
Definition WithDeadline (ctx : option Z) (d : Z) : option Z :=
  Some match ctx with Some c => Z.min c d | None => d end.
(** [Duration.Round], away from zero; the durations here are far from the
    ends of the 64 bits. *)
Definition Round (d m : Z) : Z :=
  if m <=? 0 then d
  else if d <? 0 then let r := (- d) `mod` m in if 2 * r <? m then d + r else d - m + r
  else let r := d `mod` m in if 2 * r <? m then d - r else d + m - r.

(** [err := m()]. *)
Definition attempt {S} (m : M S unit) : M S (option error) :=
  r ← try m; mret (err_of r).

Section E2e.
Context `{Env} `{E2eEnv}.

(** ** The phases (run/e2e.go, run/runner.go, run/cleanup.go) *)

Definition phaseCompleted (phases : list Phase) (name message : string) (err : option error) : list Phase :=
  phases ++ [match err with
    | None => {| phase_Name := name; phase_Error := None; FailureMessage := ""; phase_Status := "success" |}
    | Some e => {| phase_Name := name; phase_Error := Some (EWrap message e);
                   FailureMessage := error_text e; phase_Status := "failure" |}
    end].

Record E2EPaths := {
  CleanupLog : string; Configs : string; Ginkgo : string; GinkgoOutputLog : string; Reports : string;
  ReportsFileJSON : string; SetupLog : string; LogsBucketPath : string; TestsBinaryOrSource : string;
  TestConfigFile : string; TestResourcesFile : string;
}.
Record E2E := {
  AwsCfg : E2eAws;
  NoColor : bool;
  Paths : E2EPaths;
  e2e_TestConfig : TestConfig;
  TestLabelFilter : string;
  TestProcs : Z;
  e2e_Timeout : Z;
  e2e_TestResources : TestResources;
  SkipCleanup : bool;
  SkippedTests : string;
}.

Definition initPaths (e : E2E) : E2E :=
  let folder := ArtifactsFolder (e2e_TestConfig e) in
  let configs := path_Join [folder; "configs"] in
  let reports := path_Join [folder; "reports"] in
  {| AwsCfg := AwsCfg e; NoColor := NoColor e;
     Paths := {|
       Configs := configs;
       TestConfigFile := path_Join [configs; "e2e-param.yaml"];
       LogsBucketPath := path_Join ["logs"; tc_ClusterName (e2e_TestConfig e)];
       Reports := reports;
       ReportsFileJSON := path_Join [reports; "junit-nodeadm.json"];
       TestResourcesFile := path_Join [configs; "e2e-test-resources.yaml"];
       GinkgoOutputLog := path_Join [folder; "ginkgo-output.log"];
       CleanupLog := path_Join [folder; "cleanup-output.log"];
       SetupLog := path_Join [folder; "setup-output.log"];
       Ginkgo := Ginkgo (Paths e); TestsBinaryOrSource := TestsBinaryOrSource (Paths e) |};
     e2e_TestConfig := e2e_TestConfig e; TestLabelFilter := TestLabelFilter e; TestProcs := TestProcs e;
     e2e_Timeout := e2e_Timeout e; e2e_TestResources := e2e_TestResources e; SkipCleanup := SkipCleanup e;
     SkippedTests := SkippedTests e |}.

Definition setupDirectories (e : E2E) : M Host unit :=
  map_err (EWrap "creating test config directory") (os_MkdirAll (Configs (Paths e)) 493);;
  map_err (EWrap "creating test reports directory") (os_MkdirAll (Reports (Paths e)) 493).
Definition writeTestConfigs (e : E2E) : M Host unit :=
  params ← of_result (wrap_err "marshaling params" (Marshal_TestConfig (e2e_TestConfig e)));
  map_err (EWrap "writing params") (os_WriteFile (TestConfigFile (Paths e)) params 420);;
  resources ← of_result (wrap_err "marshaling test resources" (Marshal_TestResources (e2e_TestResources e)));
  map_err (EWrap "writing test resources") (os_WriteFile (TestResourcesFile (Paths e)) resources 420).

(** The phases so far and the error, if one failed. *)
Definition preTestSetup (e : E2E) : M Host (list Phase * option error) :=
  err ← attempt (setupDirectories e);
  let phases := phaseCompleted [] "SetupDirectories" "setting up directories" err in
  match err with
  | Some _ => mret (phases, err)
  | None =>
      err ← attempt (writeTestConfigs e);
      mret (phaseCompleted phases "WriteTestConfigs" "creating test config" err, err)
  end.

Definition cleanupBuffer : Z := 5 * Minute.
Definition reportingBuffer : Z := 2 * Minute.
Definition ginkgoCleanupBuffer : Z := 1 * Minute.
Definition defaultTestTimeout : Z := 24 * Hour.

Definition setupTestInfrastructure (e : E2E) (ctx : option Z) : M Host unit :=
  map_err (EWrap "creating E2E test infrastructure")
    (cluster_Create (AwsCfg e) (Endpoint (tr_EKS (e2e_TestResources e))) (e2e_TestResources e) ctx).

Definition ginkgoArgs (e : E2E) (timeout : Z) : list string :=
  ["-v"; "-tags=e2e"; "--procs=" +:+ Itoa (TestProcs e); "--skip=" +:+ SkippedTests e;
   "--label-filter=" +:+ TestLabelFilter e; "--output-dir=" +:+ Reports (Paths e);
   "--junit-report=junit-nodeadm.xml"; "--json-report=junit-nodeadm.json";
   "--timeout=" +:+ Duration_text timeout; "--fail-on-empty";
   if NoColor e then "--no-color" else ""; TestsBinaryOrSource (Paths e); "--";
   "-filepath=" +:+ TestConfigFile (Paths e)].
(** The output goes to the log, which is made first, and to the terminal;
    signals are handed to the tests.  An error of writing the output shows
    when the command itself succeeded. *)
Definition executeTests (e : E2E) (timeout : Z) : M Host unit :=
  pwd ← gets Getwd;
  of_result (wrap_err "getting working directory" pwd);;
  if timeout <=? 0 then throw (ENew ("not enought time to run tests: " +:+ Duration_text timeout)) else
  map_err (EWrap "creating out file") (os_Create (GinkgoOutputLog (Paths e)) 438);;
  '(output, err) ← (λ h, let '(r, h') := run_raw (Ginkgo (Paths e)) (ginkgoArgs e timeout) h in (Return r, h'));
  copied ← attempt (file_Write (GinkgoOutputLog (Paths e)) output);
  of_option (EWrap "nodeadm e2e test ginkgo command failed" <$> match err with Some _ => err | None => copied end).

Definition ginkgo_timeout (ctx : option Z) (now : Z) : Z :=
  let deadline := default (now + defaultTestTimeout) ctx in
  Round (deadline - now - ginkgoCleanupBuffer) Second.
Definition runTests (e : E2E) (ctx : option Z) : M Host (list Phase) :=
  err ← attempt (setupTestInfrastructure e ctx);
  let phases := phaseCompleted [] "SetupTestInfrastructure" "setting up test infrastructure" err in
  match err with
  | Some _ => mret phases
  | None =>
      now ← gets e2e_Now;
      err ← attempt (executeTests e (ginkgo_timeout ctx now));
      mret (phaseCompleted phases "ExecuteTests" "executing tests" err)
  end.

Definition cleanup_aws (e : E2E) : E2eAws :=
  {| e2e_Region := e2e_Region (AwsCfg e); AppID := "nodeadm-e2e-test-run-cleanup" |}.
Definition sweep_cluster (e : E2E) (ctx : option Z) : M Host unit :=
  map_err (EWrap "cleaning up e2e resources")
    (Sweeper_Run (cleanup_aws e) (Endpoint (tr_EKS (e2e_TestResources e)))
       {| AllClusters := false; DryRun := false; ClusterName := tr_ClusterName (e2e_TestResources e);
          ClusterNamePrefix := ""; InstanceAgeThreshold := 0 |} ctx).
Definition delete_stack (e : E2E) (ctx : option Z) : M Host unit :=
  let t := e2e_TestResources e in
  map_err (EWrap "cleaning up e2e resources")
    (cluster_Delete (cleanup_aws e) (Endpoint (tr_EKS t))
       {| del_ClusterName := tr_ClusterName t; del_ClusterRegion := tr_ClusterRegion t;
          del_Endpoint := Endpoint (tr_EKS t) |} ctx).
Definition runCleanup (e : E2E) (ctx : option Z) : M Host (list Phase) :=
  if SkipCleanup e then mret [] else
  err ← attempt (sweep_cluster e ctx);
  let phases := phaseCompleted [] "SweeperCleanup" "running cleanup cluster via sweeper" err in
  err ← attempt (delete_stack e ctx);
  mret (phaseCompleted phases "StackCleanup" "running cleanup cluster via stack deletion" err).

Definition parseReport (e : E2E) : M Host (E2EResult * list Phase) := λ h,
  let '((result, err), h') := Report_Parse (ArtifactsFolder (e2e_TestConfig e)) (ReportsFileJSON (Paths e)) h in
  (Return (result, phaseCompleted [] "ParseReport" "parsing report" err), h').
Definition uploadArtifactsToS3 (e : E2E) (ctx : option Z) : M Host (list Phase) :=
  err ← attempt
    (if String.eqb (LogsBucket (e2e_TestConfig e)) "" then mret tt
     else Upload (AwsCfg e) (ArtifactsFolder (e2e_TestConfig e)) (LogsBucket (e2e_TestConfig e))
            (LogsBucketPath (Paths e)) ctx);
  mret (phaseCompleted [] "UploadArtifactsToS3" "uploading artifacts to s3" err).

(** [errors.Join] of what there is with each phase's error. *)
Definition allErrors (phases : list Phase) : option error :=
  fold_left (λ all phase,
    match phase_Error phase with
    | Some e => errors_Join ((if all is Some a then [a] else []) ++ [e])
    | None => all
    end) phases None.

Definition tests_deadline (e : E2E) (deadline : Z) : Z :=
  let d := deadline - reportingBuffer in if SkipCleanup e then d else d - cleanupBuffer.
Definition E2E_Run (e : E2E) : M Host (E2EResult * option error) :=
  now ← gets e2e_Now;
  let deadline := now + e2e_Timeout e in
  let ctx := WithDeadline None deadline in
  let e := initPaths e in
  '(phases, err) ← preTestSetup e;
  match err with
  | Some _ => mret (set_Phases phases no_result, err)
  | None =>
      tests ← runTests e (WithDeadline ctx (tests_deadline e deadline));
      cleanup ← runCleanup e (WithDeadline ctx (deadline - reportingBuffer));
      '(result, parsed) ← parseReport e;
      uploaded ← uploadArtifactsToS3 e ctx;
      let phases := phases ++ tests ++ cleanup ++ parsed ++ uploaded in
      mret (set_Phases phases result, allErrors phases)
  end.

(** ** The command (rune2e/command.go) *)

Record RunCommand := {
  artifactsDir : string; clusterName : string; cni : string; ginkgoBinaryPath : string;
  k8sVersion : string; logsBucket : string; noColor : bool; nodeadmAMDURL : string;
  nodeadmARMURL : string; region : string; setupConfigFile : string; skipCleanup : bool;
  skippedTests : string; testConfigFile : string; testLabelFilter : string; testProcs : Z;
  testsBinaryOrPath : string; timeout : Z;
}.

Definition defaultNodeadmAMDURL : string := "https://hybrid-assets.eks.amazonaws.com/releases/latest/bin/linux/amd64/nodeadm".
Definition defaultNodeadmARMURL : string := "https://hybrid-assets.eks.amazonaws.com/releases/latest/bin/linux/arm64/nodeadm".
Definition defaultRegion : string := "us-west-2".
Definition defaultK8sVersion : string := "1.31".
Definition defaultCNI : string := "cilium".
Definition defaultClusterName : string := "nodeadm-e2e-tests-1-31".
Definition NewCommand : RunCommand := {|
  artifactsDir := ""; clusterName := defaultClusterName; cni := defaultCNI; ginkgoBinaryPath := "";
  k8sVersion := defaultK8sVersion; logsBucket := ""; noColor := false;
  nodeadmAMDURL := defaultNodeadmAMDURL; nodeadmARMURL := defaultNodeadmARMURL; region := defaultRegion;
  setupConfigFile := ""; skipCleanup := false; skippedTests := ""; testConfigFile := "";
  testLabelFilter := ""; testProcs := 1; testsBinaryOrPath := "./test/e2e/suite/nodeadm";
  timeout := 60 * Minute |}.

Definition LoadTestResources (path : string) : M Host TestResources :=
  file ← map_err (EWrap "opening configuration file") (os_ReadFile path);
  t ← of_result (wrap_err "unmarshalling test resources" (yaml_TestResources file));
  mret (SetTestResourcesDefaults t).

Definition loadSetupConfig (c : RunCommand) : M Host TestResources :=
  if String.eqb (setupConfigFile c) "" then
    mret (SetTestResourcesDefaults {|
      tr_ClusterName := clusterName c; tr_ClusterRegion := region c; ClusterNetwork := no_network;
      HybridNetwork := no_network; KubernetesVersion := k8sVersion c; Cni := cni c;
      tr_EKS := {| Endpoint := ""; ClusterRoleSP := ""; PodIdentitySP := "" |};
      tr_DNSSuffix := ""; tr_EcrAccount := "" |})
  else if negb (String.eqb (clusterName c) defaultClusterName && String.eqb (region c) defaultRegion &&
                String.eqb (k8sVersion c) defaultK8sVersion && String.eqb (cni c) defaultCNI)
  then throw (ENew "cannot specify both setup-config file and individual cluster resource flags (name, region, kubernetes-version, cni, eks-endpoint)")
  else map_err (EWrap "reading setup config file") (LoadTestResources (setupConfigFile c)).

(** The resources are updated in place when only the tests have a file. *)
Definition loadTestConfig (c : RunCommand) (t : TestResources) : M Host (TestConfig * TestResources) :=
  let cfg := {| tc_ClusterName := tr_ClusterName t; tc_ClusterRegion := tr_ClusterRegion t;
    NodeadmUrlAMD := nodeadmAMDURL c; NodeadmUrlARM := nodeadmARMURL c; SetRootPassword := false;
    NodeK8sVersion := ""; LogsBucket := logsBucket c; tc_Endpoint := Endpoint (tr_EKS t);
    ArtifactsFolder := ""; tc_DNSSuffix := ""; tc_EcrAccount := ""; ManifestURL := "" |} in
  if String.eqb (testConfigFile c) "" then mret (cfg, t)
  else if negb (String.eqb (nodeadmAMDURL c) defaultNodeadmAMDURL && String.eqb (nodeadmARMURL c) defaultNodeadmARMURL &&
                String.eqb (logsBucket c) "" && String.eqb (artifactsDir c) "")
  then throw (ENew "cannot specify both test-config file and individual test config flags (nodeadm-amd-url, nodeadm-arm-url, logs-bucket, artifacts-dir)")
  else
    data ← map_err (EWrap "reading test config file") (os_ReadFile (testConfigFile c));
    cfg ← of_result (wrap_err "unmarshaling test config" (yaml_TestConfig cfg data));
    if String.eqb (setupConfigFile c) "" then mret (cfg, set_tr_ClusterName (tc_ClusterName cfg) t)
    else if negb (String.eqb (tc_ClusterName cfg) (tr_ClusterName t))
    then throw (ENew ("cluster name mismatch: setup-config has " +:+ quoted (tr_ClusterName t) +:+
                      " but test-config has " +:+ quoted (tc_ClusterName cfg) +:+
                      ". Both files must specify the same cluster name"))
    else if negb (String.eqb (tc_ClusterRegion cfg) (tr_ClusterRegion t))
    then throw (ENew ("cluster region mismatch: setup-config has " +:+ quoted (tr_ClusterRegion t) +:+
                      " but test-config has " +:+ quoted (tc_ClusterRegion cfg) +:+
                      ". Both files must specify the same cluster region"))
    else mret (cfg, t).

Definition getArtifactsDir (dir : string) : M Host string :=
  dir ← if String.eqb dir ""
        then map_err (EWrap "creating temp directory") (MkdirTemp "eks-hybrid-e2e-*") else mret dir;
  of_result (wrap_err "getting absolute path for artifacts" (Abs dir)).

Definition getGinkgoBinaryPath (c : RunCommand) : M Host string :=
  if negb (String.eqb (ginkgoBinaryPath c) "") then mret (ginkgoBinaryPath c) else
  ex ← of_result (wrap_err "getting executable path" Executable);
  let path := path_Join [path_Dir ex; "ginkgo"] in
  err ← attempt (os_Stat path);
  mret match err with None => path | Some _ => "ginkgo" end.

(** What [Run] hands to [E2E.Run].  The region that is filled in from the AWS
    configuration is not read again. *)
Definition prepare_e2e (c : RunCommand) : M Host E2E :=
  t ← map_err (EWrap "loading test resources configuration") (loadSetupConfig c);
  aws ← map_err (EWrap "reading AWS configuration")
          (call "config.LoadDefaultConfig" (NewAWSConfig (tr_ClusterRegion t) "nodeadm-e2e-test-run-cmd"));
  '(cfg, t) ← map_err (EWrap "loading test configuration") (loadTestConfig c t);
  dir ← map_err (EWrap "getting artifacts directory") (getArtifactsDir (artifactsDir c));
  ginkgo ← map_err (EWrap "getting ginkgo binary path") (getGinkgoBinaryPath c);
  mret {| AwsCfg := aws; NoColor := noColor c;
    Paths := {| CleanupLog := ""; Configs := ""; Ginkgo := ginkgo; GinkgoOutputLog := ""; Reports := "";
      ReportsFileJSON := ""; SetupLog := ""; LogsBucketPath := ""; TestsBinaryOrSource := testsBinaryOrPath c;
      TestConfigFile := ""; TestResourcesFile := "" |};
    e2e_TestConfig := set_ArtifactsFolder dir cfg; TestLabelFilter := testLabelFilter c;
    TestProcs := testProcs c; e2e_Timeout := timeout c; e2e_TestResources := t;
    SkipCleanup := skipCleanup c; SkippedTests := skippedTests c |}.

(** The JSON output fails without consequences. *)
Definition run_e2e_Run (c : RunCommand) : M Host unit :=
  e ← prepare_e2e c;
  '(result, err) ← E2E_Run e;
  attempt (PrintJSON result);;
  PrintText result;;
  of_option (EWrap "running E2E tests" <$> err).

(** ** Properties *)

Lemma attempt_Return {S} (m : M S unit) h err h' :
  attempt m h = (Return err, h') → m h = (match err with None => Return tt | Some e => Throw e end, h').
Proof using Type.
  unfold attempt, try, mbind, M_bind. by destruct (m h) as [[[]|e|] h1]; intros [= <- <-].
Qed.

Definition failed_phases (ps : list Phase) : Prop := ¬ Forall (λ p, phase_Error p = None) ps.
Lemma allErrors_None ps : allErrors ps = None ↔ Forall (λ p, phase_Error p = None) ps.
Proof using Type.
  unfold allErrors. set (f := λ all phase, _). assert (∀ ps a, fold_left f ps (Some a) ≠ None) as HS.
  { clear ps. induction ps as [|p ps IH]; intros a; cbn [fold_left]; [done|].
    unfold f at 2. destruct (phase_Error p); apply IH. }
  induction ps as [|p ps IH]; cbn [fold_left]; [by repeat constructor|]. rewrite Forall_cons_iff, <- IH.
  unfold f at 2. destruct (phase_Error p) as [e|]; [|naive_solver].
  split; [|naive_solver]. intros E. by apply HS in E.
Qed.

Lemma preTestSetup_Return e h ps err h' :
  preTestSetup e h = (Return (ps, err), h') → (err = None ↔ Forall (λ p, phase_Error p = None) ps).
Proof using Type.
  unfold preTestSetup. intros E. apply bind_Return in E as (e1 & h1 & _ & E).
  destruct e1 as [e1|].
  - injection E as <- <- _. split; [done|]. intros Hf. by inversion Hf.
  - apply bind_Return in E as (e2 & h2 & _ & E). injection E as <- <- _. unfold phaseCompleted. cbn.
    destruct e2; split; intros; try done; [|by repeat constructor]. by repeat match goal with
      H : Forall _ (_ :: _) |- _ => inversion H; clear H; subst end.
Qed.

(** Creating the cluster comes first, and the tests end somewhere later. *)
Lemma runTests_Return e ctx h ps h' :
  runTests e ctx h = (Return ps, h') →
  ∃ o h1, cluster_Create (AwsCfg e) (Endpoint (tr_EKS (e2e_TestResources e))) (e2e_TestResources e) ctx h = (o, h1) ∧
    o ≠ Panic.
Proof using Type.
  unfold runTests. intros E. apply bind_Return in E as (err & h1 & EA & _). apply attempt_Return in EA.
  unfold setupTestInfrastructure, map_err in EA. destruct (cluster_Create _ _ _ _ h) as [o h2].
  exists o, h2. split; [done|]. by destruct err, o.
Qed.
Lemma runCleanup_Return e ctx h ps h' :
  runCleanup e ctx h = (Return ps, h') → SkipCleanup e = false →
  ∃ o1 h1 o2,
    Sweeper_Run (cleanup_aws e) (Endpoint (tr_EKS (e2e_TestResources e)))
      {| AllClusters := false; DryRun := false; ClusterName := tr_ClusterName (e2e_TestResources e);
         ClusterNamePrefix := ""; InstanceAgeThreshold := 0 |} ctx h = (o1, h1) ∧ o1 ≠ Panic ∧
    cluster_Delete (cleanup_aws e) (Endpoint (tr_EKS (e2e_TestResources e)))
      {| del_ClusterName := tr_ClusterName (e2e_TestResources e);
         del_ClusterRegion := tr_ClusterRegion (e2e_TestResources e);
         del_Endpoint := Endpoint (tr_EKS (e2e_TestResources e)) |} ctx h1 = (o2, h') ∧ o2 ≠ Panic.
Proof using Type.
  unfold runCleanup. intros E Hs. rewrite Hs in E. apply bind_Return in E as (e1 & h1 & E1 & E).
  apply bind_Return in E as (e2 & h2 & E2 & E). injection E as _ <-.
  apply attempt_Return in E1, E2. unfold sweep_cluster, map_err in E1. unfold delete_stack, map_err in E2.
  destruct (Sweeper_Run _ _ _ _ h) as [o1 h3], (cluster_Delete _ _ _ _ h1) as [o2 h4] eqn:ED.
  assert (h3 = h1 ∧ o1 ≠ Panic) as [-> H1] by (by destruct e1, o1; injection E1).
  assert (h4 = h2 ∧ o2 ≠ Panic) as [-> H2] by (by destruct e2, o2; injection E2).
  by exists o1, h1, o2.
Qed.

(** C24. Once the directories and configurations of the tests are written,
    what a run of the end-to-end tests creates it also takes away, whatever
    fails on the way: the cluster is created, with a deadline that leaves the
    cleanup its five minutes and the reports their two, and after the tests the
    sweeper and then the deletion run for the same cluster, unless the command
    said to keep it.  And no failure is lost: the run returns an error exactly
    when one of the phases it lists failed. *)
Theorem e2e_run_cleans e h r err h' :
  E2E_Run e h = (Return (r, err), h') →
  let deadline := e2e_Now h + e2e_Timeout e in
  let t := e2e_TestResources e in
  (err = None ↔ Forall (λ p, phase_Error p = None) (Phases r)) ∧
  (err ≠ None ∧ preTestSetup (initPaths e) h = (Return (Phases r, err), h') ∨
   ∃ h1 o h2 tests h3,
     cluster_Create (AwsCfg e) (Endpoint (tr_EKS t)) t (Some (tests_deadline e deadline)) h1 = (o, h2) ∧ o ≠ Panic ∧
     runTests (initPaths e) (Some (tests_deadline e deadline)) h1 = (Return tests, h3) ∧
     (SkipCleanup e = false → ∃ o1 h4 o2 h5,
        tests_deadline e deadline = deadline - reportingBuffer - cleanupBuffer ∧
        Sweeper_Run (cleanup_aws e) (Endpoint (tr_EKS t))
          {| AllClusters := false; DryRun := false; ClusterName := tr_ClusterName t;
             ClusterNamePrefix := ""; InstanceAgeThreshold := 0 |} (Some (deadline - reportingBuffer)) h3 = (o1, h4) ∧
        o1 ≠ Panic ∧
        cluster_Delete (cleanup_aws e) (Endpoint (tr_EKS t))
          {| del_ClusterName := tr_ClusterName t; del_ClusterRegion := tr_ClusterRegion t;
             del_Endpoint := Endpoint (tr_EKS t) |} (Some (deadline - reportingBuffer)) h4 = (o2, h5) ∧
        o2 ≠ Panic)).
Proof using Type.
  intros E deadline t. unfold E2E_Run in E. apply bind_Return in E as (now & h0 & [= <- <-] & E).
  fold deadline in E. apply bind_Return in E as ([ps perr] & h1 & EP & E).
  apply preTestSetup_Return in EP as HP. destruct perr as [pe|].
  - injection E as <- <- <-. split; [exact HP|]. by left.
  - apply bind_Return in E as (tests & h3 & ET & E). apply bind_Return in E as (cleanup & h5 & EC & E).
    apply bind_Return in E as ([result parsed] & h6 & _ & E). apply bind_Return in E as (up & h7 & _ & E).
    injection E as <- <- _. split; [apply allErrors_None|]. right.
    assert (∀ x, x <= deadline → WithDeadline (WithDeadline None deadline) x = Some x) as HD
      by (intros x Hx; unfold WithDeadline; f_equal; by apply Z.min_r).
    assert (reportingBuffer = 120000000000 ∧ cleanupBuffer = 300000000000) as [HR HB] by done.
    rewrite HD in ET by (unfold tests_deadline; cbn [initPaths SkipCleanup]; destruct (SkipCleanup e); lia).
    rewrite HD in EC by lia. change (tests_deadline (initPaths e) deadline) with (tests_deadline e deadline) in ET.
    apply runTests_Return in ET as HT. destruct HT as (o & h2 & HT & Ho).
    exists h1, o, h2, tests, h3. split; [exact HT|]. split; [exact Ho|]. split; [exact ET|].
    intros Hs. apply (runCleanup_Return (initPaths e)) in EC as (o1 & h4 & o2 & E1 & H1 & E2 & H2); [|exact Hs].
    exists o1, h4, o2, h5. split; [unfold tests_deadline; by rewrite Hs|]. done.
Qed.

(** The tests are told of the cluster that is created. *)
Lemma prepare_same_cluster c h e h' :
  prepare_e2e c h = (Return e, h') →
  tc_ClusterName (e2e_TestConfig e) = tr_ClusterName (e2e_TestResources e) ∧
  (setupConfigFile c ≠ "" ∨ testConfigFile c = "" →
   tc_ClusterRegion (e2e_TestConfig e) = tr_ClusterRegion (e2e_TestResources e)).
Proof using Type.
  unfold prepare_e2e. intros E. apply bind_Return in E as (t & h1 & _ & E).
  apply bind_Return in E as (aws & h2 & _ & E). apply bind_Return in E as ([cfg t'] & h3 & EL & E).
  apply bind_Return in E as (dir & h4 & _ & E). apply bind_Return in E as (g & h5 & _ & E). injection E as <- _.
  cbn. apply map_err_Return in EL. unfold loadTestConfig in EL.
  destruct (String.eqb_spec (testConfigFile c) ""); [by injection EL as <- <- _|].
  destruct (negb _); [done|]. apply bind_Return in EL as (data & h6 & _ & EL).
  apply bind_Return in EL as (cfg' & h7 & _ & EL).
  destruct (String.eqb_spec (setupConfigFile c) ""); [injection EL as <- <- _; split; [done|]; by intros [|]|].
  destruct (String.eqb_spec (tc_ClusterName cfg') (tr_ClusterName t)); [|done].
  destruct (String.eqb_spec (tc_ClusterRegion cfg') (tr_ClusterRegion t)); [|done]. by injection EL as <- <- _.
Qed.
End E2e.

(** *** A run in which the cluster cannot be created *)

Example no_faults : Env := {|
  fault _ _ := None; run_output _ _ _ := ("", None); run_effect h _ _ := fs h;
  http_do _ _ := Ok (200, ("", None)); bad_url _ := None; look_path _ _ := None; ticks _ := 0%nat; read_part _ _ := "" |}.
Definition note {A} (what : string) (o : outcome A) : M Host A := λ h, (o, record (EvCall what) h).
Example east_config (c : TestConfig) : TestConfig := {|
  tc_ClusterName := "mine"; tc_ClusterRegion := "us-east-1"; NodeadmUrlAMD := NodeadmUrlAMD c;
  NodeadmUrlARM := NodeadmUrlARM c; SetRootPassword := false; NodeK8sVersion := ""; LogsBucket := "";
  tc_Endpoint := ""; ArtifactsFolder := ""; tc_DNSSuffix := ""; tc_EcrAccount := ""; ManifestURL := "" |}.
Example no_quota : E2eEnv := {|
  e2e_Now h := Z.of_nat (length (journal h)) * Second;
  yaml_TestResources _ := Err (ENew "not yaml");
  yaml_TestConfig c _ := Ok (east_config c);
  Marshal_TestConfig _ := Ok "tests"; Marshal_TestResources _ := Ok "resources";
  NewAWSConfig r id _ := Ok {| e2e_Region := r; AppID := id |};
  MkdirTemp _ := mret "/tmp/run"; Abs p := Ok p; Executable := Ok "/bin/e2e-test"; Getwd _ := Ok "/";
  Duration_text _ := "50m0s";
  cluster_Create _ _ _ _ := note "create" (Throw (ENew "no quota"));
  cluster_Delete _ _ d _ := note ("delete " +:+ del_ClusterName d) (Return tt);
  Sweeper_Run _ _ i _ := note ("sweep " +:+ ClusterName i) (Throw (ENew "throttled"));
  Report_Parse _ _ h := ((no_result, None), h);
  Upload _ _ _ _ _ := mret tt; PrintJSON _ := mret tt; PrintText _ := mret tt |}.
Example e2e_host : Host := {|
  fs := {["/tests.yaml" := File "region: us-east-1" 420]}; tracker := no_artifacts; journal := [];
  provider := no_provider |}.
(** Only the tests have a file: the cluster gets its name but not its
    region. *)
Example with_test_config : RunCommand := {|
  artifactsDir := ""; clusterName := defaultClusterName; cni := defaultCNI; ginkgoBinaryPath := "";
  k8sVersion := defaultK8sVersion; logsBucket := ""; noColor := false;
  nodeadmAMDURL := defaultNodeadmAMDURL; nodeadmARMURL := defaultNodeadmARMURL; region := defaultRegion;
  setupConfigFile := ""; skipCleanup := false; skippedTests := ""; testConfigFile := "/tests.yaml";
  testLabelFilter := ""; testProcs := 1; testsBinaryOrPath := "suite"; timeout := 60 * Minute |}.

Lemma regions_differ : ∃ e h',
  prepare_e2e (H := no_faults) (H0 := no_quota) with_test_config e2e_host = (Return e, h') ∧
  tr_ClusterName (e2e_TestResources e) = tc_ClusterName (e2e_TestConfig e) ∧
  tr_ClusterRegion (e2e_TestResources e) = "us-west-2" ∧
  tc_ClusterRegion (e2e_TestConfig e) = "us-east-1".
Proof. by eexists _, _. Qed.

Lemma e2e_run_cleans_witness : ∃ e r err h',
  E2E_Run (H := no_faults) (H0 := no_quota) e e2e_host = (Return (r, err), h') ∧ err ≠ None ∧
  EvCall "delete mine" ∈ journal h' ∧ failed_phases (Phases r).
Proof.
  destruct (prepare_e2e (H := no_faults) (H0 := no_quota) with_test_config e2e_host) as [o h1] eqn:EP.
  assert (∃ e, o = Return e) as [e ->] by (vm_compute in EP; injection EP as <- _; by eexists).
  exists e. destruct (E2E_Run (H := no_faults) (H0 := no_quota) e e2e_host) as [o h'] eqn:E.
  assert (∃ r err, o = Return (r, err) ∧ err ≠ None ∧ EvCall "delete mine" ∈ journal h') as (r & err & -> & He & Hj).
  { vm_compute in EP. injection EP as <- _. vm_compute in E. injection E as <- <-. eexists _, _. split; [done|].
    split; [done|]. apply (bool_decide_unpack _). vm_compute. exact I. }
  exists r, err, h'. split; [reflexivity|]. split; [exact He|]. split; [exact Hj|]. intros Hf.
  apply He. by apply (proj1 (e2e_run_cleans e e2e_host r err h' E)).
Defined.
