(* ===== verification/GoTime.v ===== *)
(** * The parts of Go's package time that the cleaners use

    A time is a number of nanoseconds since 1970 in UTC.  [Parse_RFC3339] is
    [time.Parse] with the layout 2006-01-02T15:04:05Z07:00, which takes a
    fraction of a second though the layout has none, and an hour of one digit.
    The text of its error is cut short. *)

From S2P Require Import Prelude GoStrings Retry.
#[local] Open Scope Z_scope.

(** The zero time, the first instant of the year 1. *)
Definition zero_time : Z := -62135596800 * Second.

(** [t.Sub(u)], which stops at the ends of a duration's 64 bits. *)
Definition Sub (t u : Z) : Z := Z.max (- 2 ^ 63) (Z.min MaxInt (t - u)).

(** ** The calendar *)

Definition isLeap (year : Z) : bool :=
  (year mod 4 =? 0) && (negb (year mod 100 =? 0) || (year mod 400 =? 0)).
Definition daysBefore : list Z := [0; 31; 59; 90; 120; 151; 181; 212; 243; 273; 304; 334; 365].
Definition days_to_month (m : Z) : Z := nth (Z.to_nat m) daysBefore 0.
Definition daysIn (m year : Z) : Z :=
  if (m =? 2) && isLeap year then 29 else days_to_month m - days_to_month (m - 1).
(** The days from 1970 to a date. *)
Definition unix_days (year month day : Z) : Z :=
  let y := year - 1 in
  365 * y + y / 4 - y / 100 + y / 400 - 719162
  + days_to_month (month - 1) + (if (2 <? month) && isLeap year then 1 else 0) + (day - 1).

(** ** Parsing *)

(** Exactly [n] digits, and what follows. *)
Fixpoint fixed_digits (n : nat) (acc : Z) (s : string) : option (Z * string) :=
  match n, s with
  | O, _ => Some (acc, s)
  | S n, String c s => d ← digit_val c; fixed_digits n (10 * acc + d) s
  | S _, "" => None
  end.
(** One digit or two. *)
Definition getnum (s : string) : option (Z * string) :=
  match fixed_digits 2 0 s with Some r => Some r | None => fixed_digits 1 0 s end.
Definition skip (c : ascii) (s : string) : option string :=
  match s with String d s => if Ascii.eqb c d then Some s else None | "" => None end.
(** A number in a range. *)
Definition ranged (lo hi : Z) (r : option (Z * string)) : option (Z * string) :=
  r ← r; if (lo <=? r.1) && (r.1 <=? hi) then Some r else None.

(** The digits of a fraction: their value at nine digits and what follows;
    later digits count for nothing. *)
Fixpoint fraction (scale acc : Z) (s : string) : Z * string :=
  match s with
  | String c s' =>
      match digit_val c with
      | Some d => fraction (scale / 10) (acc + scale * d) s'
      | None => (acc, s)
      end
  | "" => (acc, "")
  end.
Definition fractional (s : string) : Z * string :=
  match s with
  | String c (String d _ as s') =>
      if (Ascii.eqb c "." || Ascii.eqb c ",") && is_digit d then fraction (10 ^ 8) 0 s' else (0, s)
  | _ => (0, s)
  end.

(** The offset of the zone, in seconds. *)
Definition zone (s : string) : option (Z * string) :=
  match s with
  | "" => None
  | String c s' =>
      if Ascii.eqb c "Z" then Some (0, s')
      else
        hr ← ranged 0 24 (fixed_digits 2 0 s');
        s' ← skip ":" hr.2;
        mm ← ranged 0 60 (fixed_digits 2 0 s');
        let offset := (hr.1 * 60 + mm.1) * 60 in
        if Ascii.eqb c "+" then Some (offset, mm.2)
        else if Ascii.eqb c "-" then Some (- offset, mm.2) else None
  end.

Definition rfc3339 (s : string) : option Z :=
  year ← fixed_digits 4 0 s;
  s ← skip "-" year.2;
  month ← ranged 1 12 (fixed_digits 2 0 s);
  s ← skip "-" month.2;
  day ← fixed_digits 2 0 s;
  s ← skip "T" day.2;
  hour ← ranged 0 23 (getnum s);
  s ← skip ":" hour.2;
  min ← ranged 0 59 (fixed_digits 2 0 s);
  s ← skip ":" min.2;
  sec ← ranged 0 59 (fixed_digits 2 0 s);
  let '(nsec, s) := fractional sec.2 in
  offset ← zone s;
  if (String.eqb offset.2 "" && (1 <=? day.1) && (day.1 <=? daysIn month.1 year.1))
  then Some ((((unix_days year.1 month.1 day.1 * 24 + hour.1) * 60 + min.1) * 60 + sec.1 - offset.1) * Second + nsec)
  else None.
Definition Parse_RFC3339 (value : string) : result Z :=
  match rfc3339 value with
  | Some t => Ok t
  | None => Err (ENew ("parsing time " +:+ quoted value))
  end.

Example rfc3339_epoch : rfc3339 "1970-01-01T00:00:00Z" = Some 0.
Proof. reflexivity. Qed.
Example rfc3339_zone : rfc3339 "2024-02-29T01:30:00.25+01:30" = Some (1709164800 * Second + 250 * Millisecond).
Proof. reflexivity. Qed.
Example rfc3339_no_day : rfc3339 "2023-02-29T00:00:00Z" = None.
Proof. reflexivity. Qed.
Example rfc3339_zero : rfc3339 "0001-01-01T0:00:00Z" = Some zero_time.
Proof. reflexivity. Qed.

(** ** The calendar has no gaps *)

(** The first day of a month follows the last of the one before. *)
Lemma unix_days_month year month :
  1 <= month <= 11 → unix_days year (month + 1) 1 = unix_days year month (daysIn month year) + 1.
Proof.
  intros Hm. unfold unix_days, daysIn.
  enough (days_to_month (month + 1 - 1) + (if (2 <? month + 1) && isLeap year then 1 else 0) =
    days_to_month (month - 1) + (if (2 <? month) && isLeap year then 1 else 0) +
    (if (month =? 2) && isLeap year then 29 else days_to_month month - days_to_month (month - 1))) by lia.
  assert (month = 1 ∨ month = 2 ∨ month = 3 ∨ month = 4 ∨ month = 5 ∨ month = 6 ∨ month = 7 ∨ month = 8 ∨
    month = 9 ∨ month = 10 ∨ month = 11) as Hc by lia.
  repeat destruct Hc as [->|Hc]; [..|subst month]; by destruct (isLeap year).
Qed.

(** A multiple of [k] is where the quotient grows. *)
Lemma div_step k n : 0 < k → n / k = (n - 1) / k + (if n mod k =? 0 then 1 else 0).
Proof.
  intros Hk. pose proof (Z.div_mod n k ltac:(lia)). pose proof (Z.mod_pos_bound n k Hk).
  destruct (Z.eqb_spec (n mod k) 0).
  - rewrite <- (Z.div_unique (n - 1) k (n / k - 1) (k - 1)); lia.
  - rewrite <- (Z.div_unique (n - 1) k (n / k) (n mod k - 1)); lia.
Qed.
Lemma mod_multiple k m n : 0 < k → 0 < m → n mod (k * m) = 0 → n mod k = 0.
Proof.
  intros Hk Hm E. apply Z.mod_divide in E as [q ->]; [|lia].
  replace (q * (k * m)) with ((q * m) * k) by ring. apply Z.mod_mul. lia.
Qed.

(** A year has a leap day exactly when the count of leap days grows. *)
Lemma leap_days year :
  year / 4 - year / 100 + year / 400 =
  (year - 1) / 4 - (year - 1) / 100 + (year - 1) / 400 + (if isLeap year then 1 else 0).
Proof.
  rewrite (div_step 4 year), (div_step 100 year), (div_step 400 year) by lia. unfold isLeap.
  pose proof (mod_multiple 4 25 year ltac:(lia) ltac:(lia)) as H4. pose proof (mod_multiple 100 4 year ltac:(lia) ltac:(lia)) as H100.
  change (4 * 25) with 100 in H4. change (100 * 4) with 400 in H100.
  destruct (Z.eqb_spec (year mod 4) 0), (Z.eqb_spec (year mod 100) 0), (Z.eqb_spec (year mod 400) 0);
    cbn [negb andb orb]; lia.
Qed.

(** A year begins on the day after the last of December. *)
Lemma unix_days_year year : unix_days (year + 1) 1 1 = unix_days year 12 31 + 1.
Proof.
  unfold unix_days. replace (year + 1 - 1) with year by lia. pose proof (leap_days year) as L.
  change (days_to_month (1 - 1)) with 0. change (days_to_month (12 - 1)) with 334.
  change (2 <? 1) with false. change (2 <? 12) with true. cbn [andb]. destruct (isLeap year); lia.
Qed.
