(* ===== verification/Cloud.v ===== *)
(** * The AWS account that tests leave resources in (test/e2e/cleanup:
      resource.go; test/e2e/errors; test/e2e/constants)

    The state of the cleaners is the transcript of their requests.  The
    answers of the AWS SDK are an argument, a function of the transcript, so
    what a service says may change from one request to the next.  A listing
    is a paginator of the SDK: the pages are finitely many, and each is
    fetched when the code asks for it. *)

From S2P Require Import Prelude GoStrings Retry GoTime E2e.
#[local] Open Scope Z_scope.

(** ** Requests *)

(** The requests that change the account. *)
Inductive Change :=
  | ec2_TerminateInstances (ids : list string)
  | ec2_DeleteKeyPair (id : string)
  | ec2_DeleteVpcPeeringConnection (id : string)
  | ec2_DeleteVpc (id : string)
  | ec2_DetachInternetGateway (id vpc : string)
  | ec2_DeleteInternetGateway (id : string)
  | ec2_DeleteSubnet (id : string)
  | ec2_DeleteRouteTable (id : string)
  | ec2_DeleteSecurityGroup (id : string)
  | ec2_DeleteNetworkInterface (id : string)
  | ec2_DeleteTransitGatewayVpcAttachment (attachment : option string)
  | ec2_DeleteTransitGateway (id : string)
  | fsx_DeleteFileSystem (id : string)
  | iam_RemoveRoleFromInstanceProfile (profile : option string) (role : string)
  | iam_DeleteInstanceProfile (profile : string)
  | iam_DetachRolePolicy (role : string) (arn : option string)
  | iam_DeleteRolePolicy (role policy : string)
  | iam_DeleteRole (role : string)
  | cfn_DeleteStack (stack : string) (force : bool)
  | eks_DeleteNodegroup (cluster nodegroup : string)
  | eks_DeleteCluster (cluster : string)
  | s3_DeleteObjects (bucket : string) (keys : list (option string))
  | s3_DeleteBucket (bucket : string)
  | rolesanywhere_DeleteProfile (id : string)
  | rolesanywhere_DeleteTrustAnchor (id : string)
  | ssm_DeleteActivation (id : string)
  | ssm_DeregisterManagedInstance (id : string)
  | ssm_DeleteParameter (name : string)
  | logs_DeleteLogGroup (name : string).

(** What was asked, a look at the clock, what was to change. *)
Inductive Event := Asked (operation : string) | Clock | Changed (c : Change).
Definition Cloud := list Event.

Definition Paginator (A : Type) := list (Cloud → result A).

(** ** What the SDK describes; its fields are pointers where they are options *)

Record SdkTag := { sdk_Key : option string; sdk_Value : option string }.
Record Filter := { Filter_Name : string; Values : list string }.
Record Instance_ := {
  instance_InstanceId : option string; instance_State : option string; LaunchTime : option Z;
  instance_Tags : list SdkTag;
}.
Record KeyPairInfo := { KeyPairId : option string; CreateTime : option Z; keypair_Tags : list SdkTag }.
(** A resource of a VPC: its identifier and its tags. *)
Record VpcResource := { vpcres_Id : option string; vpcres_Tags : list SdkTag }.
Record FileSystem := {
  FileSystemId : option string; fs_CreationTime : option Z; fs_Tags : list SdkTag; fs_VpcId : option string;
  FileSystemType : string;
}.
Record InstanceProfile := {
  InstanceProfileName : option string; profile_CreateDate : option Z; profile_Tags : list SdkTag;
  profile_Roles : list (option string);
}.
(** A role, a bucket or a parameter: its name and its date. *)
Record Dated := { dated_Name : option string; dated_Date : option Z }.
Record StackSummary := { StackName : option string; StackId : option string; stack_CreationTime : option Z }.
Record Stack := { StackStatus : string; stack_Tags : list SdkTag }.
Record StackEvent := {
  ResourceStatus : string; ResourceStatusReason : option string; Timestamp : option Z;
  LogicalResourceId : option string;
}.
(** An EKS cluster or node group. *)
Record EksResource := { eks_Name : option string; CreatedAt : option Z; eks_Tags : gmap string string }.
(** A profile or a trust anchor of IAM Roles Anywhere. *)
Record AnywhereDetail := {
  anywhere_Name : option string; anywhere_CreatedAt : option Z; anywhere_Arn : option string;
  anywhere_Id : option string;
}.
Record Activation := {
  activation_Id : option string; CreatedDate : option Z; DefaultInstanceName : option string;
  activation_Tags : list SdkTag;
}.
Record InstanceInformation := {
  managed_InstanceId : option string; RegistrationDate : option Z; managed_ActivationId : option string;
  ResourceType : string;
}.
Record LogGroup := { LogGroupName : option string; log_CreationTime : option Z }.
Record ResourceTagMapping := { ResourceARN : option string; mapping_Tags : list SdkTag }.

Class CloudEnv := {
  (** [time.Now], in nanoseconds since 1970. *)
  Now : Cloud → Z;
  (** [None]: the service accepts the request. *)
  refused : Cloud → Change → option error;
  (** How many times a condition is polled, at an interval, before the time
      for it is over. *)
  cloud_polls : Z → Z → Cloud → nat;
  (** [errors.As] for an error type of the SDK, and for [smithy.APIError]
      with its code and message. *)
  is_type : string → error → bool;
  api_error : error → option (string * string);
  (** A waiter of the SDK, by its kind and what it waits for. *)
  waiter_Wait : string → list string → Z → Cloud → result unit;
  DescribeInstances : list Filter → Cloud → Paginator (list (list Instance_));
  DescribeKeyPairs : list Filter → Cloud → result (list KeyPairInfo);
  (** Peering connections with the code of their status. *)
  DescribeVpcPeeringConnections : list Filter → Cloud → Paginator (list (VpcResource * option string));
  DescribeVpcs : list Filter → Cloud → Paginator (list VpcResource);
  DescribeInternetGateways : list Filter → Cloud → Paginator (list VpcResource);
  (** The attachments of the gateways with an identifier: their VPCs. *)
  internet_gateway : string → Cloud → result (list (list (option string)));
  DescribeSubnets : list Filter → Cloud → Paginator (list VpcResource);
  (** Route tables with the [Main] flags of their associations. *)
  DescribeRouteTables : list Filter → Cloud → Paginator (list (VpcResource * list (option bool)));
  (** Security groups with their names. *)
  DescribeSecurityGroups : list Filter → Cloud → Paginator (list (VpcResource * option string));
  (** Network interfaces with the identifier of their attachment, if any. *)
  DescribeNetworkInterfaces : list Filter → Cloud → Paginator (list (option string * option (option string)));
  (** Transit gateways with their state. *)
  DescribeTransitGateways : list Filter → Cloud → Paginator (list (VpcResource * string));
  transit_gateway : string → Cloud → result (list (VpcResource * string));
  DescribeTransitGatewayAttachments : list Filter → Cloud → result (list (option string));
  DescribeFileSystems : Cloud → Paginator (list FileSystem);
  file_system : string → Cloud → result (list FileSystem);
  ListRoles : string → Cloud → Paginator (list Dated);
  ListRoleTags : option string → Cloud → result (list SdkTag);
  ListInstanceProfilesForRole : string → Cloud → result (list (option string));
  ListAttachedRolePolicies : string → Cloud → Paginator (list (option string));
  ListRolePolicies : string → Cloud → Paginator (list string);
  ListInstanceProfiles : string → Cloud → Paginator (list (option string));
  GetInstanceProfile : option string → Cloud → result (option InstanceProfile);
  ListStacks : list string → Cloud → Paginator (list StackSummary);
  DescribeStacks : option string → Cloud → result (list Stack);
  DescribeStackEvents : string → Cloud → result (list StackEvent);
  ListClusters : Cloud → Paginator (list string);
  DescribeCluster : string → Cloud → result (option EksResource);
  ListNodegroups : string → Cloud → Paginator (list string);
  DescribeNodegroup : string → string → Cloud → result (option EksResource);
  ListBuckets : string → Cloud → Paginator (list Dated);
  GetBucketTagging : option string → Cloud → result (list SdkTag);
  ListObjects : string → Cloud → result (list (option string));
  ListProfiles : Cloud → Paginator (list AnywhereDetail);
  ListTrustAnchors : Cloud → Paginator (list AnywhereDetail);
  anywhere_ListTags : option string → Cloud → result (list SdkTag);
  DescribeActivations : Cloud → Paginator (list Activation);
  DescribeInstanceInformation : list Filter → Cloud → Paginator (list InstanceInformation);
  DescribeParameters : Cloud → Paginator (list Dated);
  (** By the type of the resource and its identifier. *)
  ssm_ListTags : string → string → Cloud → result (list SdkTag);
  DescribeLogGroups : string → Cloud → Paginator (list LogGroup);
  (** By the type of the resources and the values of the cluster tag, none
      for any value. *)
  GetResources : string → list string → Cloud → Paginator (list ResourceTagMapping);
}.

(** ** Programs over the account *)

(** A request that only reads. *)
Definition ask {A} (operation : string) (answer : Cloud → result A) : M Cloud A := λ c,
  let c := c ++ [Asked operation] in
  match answer c with Ok a => (Return a, c) | Err e => (Throw e, c) end.
Definition request `{CloudEnv} (ch : Change) : M Cloud unit := λ c,
  let c := c ++ [Changed ch] in
  match refused c ch with None => (Return tt, c) | Some e => (Throw e, c) end.
Definition clock `{CloudEnv} : M Cloud Z := λ c, let c := c ++ [Clock] in (Return (Now c), c).

(** The items that each element of a list contributes, in order. *)
Fixpoint collect {A B} (item : A → M Cloud (list B)) (l : list A) : M Cloud (list B) :=
  match l with
  | [] => mret []
  | a :: l => found ← item a; more ← collect item l; mret (found ++ more)
  end.
(** The loop [for paginator.HasMorePages()]. *)
Fixpoint pages {A B} (operation failure : string) (p : Paginator A) (page : A → M Cloud (list B)) : M Cloud (list B) :=
  match p with
  | [] => mret []
  | next :: p =>
      output ← map_err (EWrap failure) (ask operation next);
      found ← page output;
      more ← pages operation failure p page;
      mret (found ++ more)
  end.
(** The common loop: a page is a list, an item contributes what it says. *)
Definition listed {A B} (operation failure : string) (p : Cloud → Paginator (list A)) (item : A → M Cloud (list B))
    : M Cloud (list B) :=
  p ← gets p; pages operation failure p (collect item).

(** [if err != nil && gone(err) { absent }; if err != nil { return wrap(err) }]
    and on. *)
Definition unless_gone {A B} (gone : error → bool) (failure : string) (m : M Cloud A) (absent : M Cloud B)
    (k : A → M Cloud B) : M Cloud B :=
  r ← try m;
  match r with
  | Ok a => k a
  | Err e => if gone e then absent else throw (EWrap failure e)
  end.

(** A request that changes the account, which may find its object gone. *)
Definition request_unless_gone `{CloudEnv} (gone : error → bool) (failure : string) (ch : Change) : M Cloud unit :=
  unless_gone gone failure (request ch) (mret tt) mret.
(** [wait.PollUntilContextTimeout]. *)
Definition poll_until `{CloudEnv} (interval timeout : Z) (cond : M Cloud bool) : M Cloud unit :=
  n ← gets (cloud_polls interval timeout); poll_n n cond.

(** ** The SDK's helpers for pointers *)

Definition ToString (p : option string) : string := default "" p.
Definition ToTime (t : option Z) : Z := default zero_time t.

(** ** Errors (test/e2e/errors) *)

Section Errors.
Context `{CloudEnv}.

Definition IsAwsError (code : string) (err : error) : bool :=
  match api_error err with Some (c, _) => String.eqb c code | None => false end.
Definition IsCFNStackNotFound (err : error) : bool :=
  match api_error err with
  | Some (c, message) => String.eqb c "ValidationError" && Contains message "does not exist"
  | None => false
  end.
Definition IsS3BucketNotFound (err : error) : bool :=
  is_type "NoSuchBucket" err || IsAwsError "NoSuchBucket" err.
End Errors.

(** ** Which resources (resource.go) *)

Definition TestClusterTagKey : string := "Nodeadm-E2E-Tests-Cluster".
Definition CreationTimeTagKey : string := "CreationTime".
Definition TestRolePathPrefix : string := "/NodeadmE2E/".
Definition TestCredentialsStackNamePrefix : string := "EKSHybridCI".
Definition TestArchitectureStackNamePrefix : string := "EKSHybridCI-Arch".

Record Tag := { tag_Key : string; tag_Value : string }.
Record ResourceWithTags := { resource_ID : string; CreationTime : Z; resource_Tags : list Tag }.

(** The value of the first such tag, empty without one. *)
Fixpoint getClusterTagValue (tags : list Tag) : string :=
  match tags with
  | [] => ""
  | tag :: tags => if String.eqb (tag_Key tag) TestClusterTagKey then tag_Value tag else getClusterTagValue tags
  end.

(** [FilterInput] has the fields of [SweeperInput]; [now] is what
    [time.Since] reads. *)
Definition FilterInput := SweeperInput.
Definition shouldDeleteResource (now : Z) (resource : ResourceWithTags) (input : FilterInput) : bool :=
  let clusterTagValue := getClusterTagValue (resource_Tags resource) in
  if String.eqb clusterTagValue "" then false
  else if negb (String.eqb (ClusterName input) "") then String.eqb clusterTagValue (ClusterName input)
  else if AllClusters input ||
          (negb (String.eqb (ClusterNamePrefix input) "") && HasPrefix clusterTagValue (ClusterNamePrefix input))
  then InstanceAgeThreshold input <? Sub now (CreationTime resource)
  else false.

(** The decision at the time it is made; the clock is looked at also where the
    age does not count. *)
Definition decide_delete `{CloudEnv} (resource : ResourceWithTags) (input : FilterInput) : M Cloud bool :=
  now ← clock; mret (shouldDeleteResource now resource input).
(** [if shouldDelete { names = append(names, *name) }]. *)
Definition append_if (b : M Cloud bool) (name : option string) : M Cloud (list string) :=
  b ← b; if (b : bool) then id ← deref name; mret [id] else mret [].

(** The tags as the cleaners copy them: most dereference the pointers. *)
Fixpoint deref_tags (tags : list SdkTag) : M Cloud (list Tag) :=
  match tags with
  | [] => mret []
  | t :: tags =>
      k ← deref (sdk_Key t);
      v ← deref (sdk_Value t);
      tags ← deref_tags tags;
      mret ({| tag_Key := k; tag_Value := v |} :: tags)
  end.
Definition convertEC2Tags (tags : list SdkTag) : list Tag :=
  map (λ t, {| tag_Key := ToString (sdk_Key t); tag_Value := ToString (sdk_Value t) |}) tags.
(** A map of tags, in the order of its iteration. *)
Definition map_tags `{MapOrder} (tags : gmap string string) : list Tag :=
  map (λ kv, {| tag_Key := kv.1; tag_Value := kv.2 |}) (map_order tags).
