(* ===== verification/VpcCleaner.v ===== *)
(** * The cleaners of EC2 resources (test/e2e/cleanup: ec2.go, vpc.go)

    Instances, key pairs and what belongs to a VPC.  Resources of a VPC have
    no creation time: the tests write it in a tag.  The retryers that some
    deletions are given say how the SDK repeats a request. *)

From S2P Require Import Prelude GoStrings Retry GoTime E2e Cloud.
#[local] Open Scope Z_scope.

Section Ec2.
Context `{CloudEnv}.

(** ** Filters and times (vpc.go) *)

Definition ec2Filters (input : FilterInput) : list Filter :=
  let clusterNameFilter :=
    if String.eqb (ClusterNamePrefix input) "" then ClusterName input else ClusterNamePrefix input +:+ "*" in
  {| Filter_Name := "tag-key"; Values := [TestClusterTagKey] |} ::
  (if String.eqb clusterNameFilter "" then []
   else [{| Filter_Name := "tag:" +:+ TestClusterTagKey; Values := [clusterNameFilter] |}]).

(** Without the tag the resource is as old as the look at it. *)
Fixpoint creationTimeFromTags (tags : list SdkTag) : M Cloud Z :=
  match tags with
  | [] => clock
  | tag :: tags =>
      if String.eqb (ToString (sdk_Key tag)) CreationTimeTagKey
      then map_err (EWrap "parsing creation time from tag") (of_result (Parse_RFC3339 (ToString (sdk_Value tag))))
      else creationTimeFromTags tags
  end.
Definition vpc_resource (r : VpcResource) : M Cloud ResourceWithTags :=
  creationTime ← map_err (EWrap "getting creation time from tags") (creationTimeFromTags (vpcres_Tags r));
  mret {| resource_ID := ToString (vpcres_Id r); CreationTime := creationTime;
          resource_Tags := convertEC2Tags (vpcres_Tags r) |}.
Definition vpc_item (input : FilterInput) (r : VpcResource) : M Cloud (list string) :=
  resource ← vpc_resource r; append_if (decide_delete resource input) (vpcres_Id r).

(** ** Instances and key pairs (ec2.go) *)

Definition shouldTerminateInstance (instance : Instance_) (input : FilterInput) : M Cloud bool :=
  state ← deref (instance_State instance);
  if String.eqb state "terminated" then mret false else
  id ← deref (instance_InstanceId instance);
  decide_delete {| resource_ID := id; CreationTime := ToTime (LaunchTime instance);
                   resource_Tags := convertEC2Tags (instance_Tags instance) |} input.
Definition ListTaggedInstances (input : FilterInput) : M Cloud (list string) :=
  listed "DescribeInstances" "describing instances" (DescribeInstances (ec2Filters input))
    (collect (λ instance, append_if (shouldTerminateInstance instance input) (instance_InstanceId instance))).
Definition DeleteInstances (instanceIDs : list string) : M Cloud unit :=
  match instanceIDs with
  | [] => mret tt
  | _ =>
      map_err (EWrap "terminating instances") (request (ec2_TerminateInstances instanceIDs));;
      map_err (EWrap "waiting for instances to terminate")
        (ask "DescribeInstances" (waiter_Wait "InstanceTerminated" instanceIDs (10 * Minute)))
  end.

Definition shouldDeleteKeyPair (keyPair : KeyPairInfo) (input : FilterInput) : M Cloud bool :=
  id ← deref (KeyPairId keyPair);
  decide_delete {| resource_ID := id; CreationTime := ToTime (CreateTime keyPair);
                   resource_Tags := convertEC2Tags (keypair_Tags keyPair) |} input.
Definition ListKeyPairs (input : FilterInput) : M Cloud (list string) :=
  keyPairs ← map_err (EWrap "describing key pairs") (ask "DescribeKeyPairs" (DescribeKeyPairs (ec2Filters input)));
  collect (λ keyPair, append_if (shouldDeleteKeyPair keyPair input) (KeyPairId keyPair)) keyPairs.
Definition DeleteKeyPair (id : string) : M Cloud unit :=
  map_err (EWrap "deleting key pair") (request (ec2_DeleteKeyPair id)).

(** ** What belongs to a VPC (vpc.go) *)

Definition ListPeeringConnections (input : FilterInput) : M Cloud (list string) :=
  listed "DescribeVpcPeeringConnections" "describing peering connections"
    (DescribeVpcPeeringConnections (ec2Filters input))
    (λ '(peeringConnection, status),
       code ← deref status;
       if String.eqb code "deleted" || String.eqb code "deleting" then mret []
       else vpc_item input peeringConnection).
Definition DeletePeeringConnection (id : string) : M Cloud unit :=
  unless_gone (IsAwsError "InvalidVpcPeeringConnectionId.NotFound") ("deleting peering connection " +:+ id)
    (request (ec2_DeleteVpcPeeringConnection id)) (mret tt)
    (λ _, map_err (EWrap ("waiting for peering connection " +:+ id +:+ " to be deleted"))
       (ask "DescribeVpcPeeringConnections" (waiter_Wait "VpcPeeringConnectionDeleted" [id] (5 * Minute)))).

Definition ListVPCs (input : FilterInput) : M Cloud (list string) :=
  listed "DescribeVpcs" "describing VPCs" (DescribeVpcs (ec2Filters input))
    (λ vpc, resource ← vpc_resource vpc; append_if (decide_delete resource input) (Some (ToString (vpcres_Id vpc)))).
Definition DeleteVPC (id : string) : M Cloud unit :=
  request_unless_gone (IsAwsError "InvalidVpcID.NotFound") ("deleting VPC " +:+ id) (ec2_DeleteVpc id).

Definition ListInternetGateways (input : FilterInput) : M Cloud (list string) :=
  listed "DescribeInternetGateways" "describing internet gateways" (DescribeInternetGateways (ec2Filters input))
    (vpc_item input).
Definition detach_gateway (id : string) (attachment : option string) : M Cloud unit :=
  let vpcID := ToString attachment in
  map_err (EWrap ("detaching internet gateway " +:+ id +:+ " from VPC " +:+ vpcID))
    (request (ec2_DetachInternetGateway id vpcID)).
Definition DeleteInternetGateway (id : string) : M Cloud unit :=
  unless_gone (IsAwsError "InvalidInternetGatewayID.NotFound") ("describing internet gateway " +:+ id)
    (ask "DescribeInternetGateways" (internet_gateway id)) (mret tt)
    (λ gateways,
       match gateways with
       | [] => mret tt
       | attachments :: _ =>
           for_each (detach_gateway id) attachments;;
           request_unless_gone (IsAwsError "InvalidInternetGatewayID.NotFound")
             ("deleting internet gateway " +:+ id) (ec2_DeleteInternetGateway id)
       end).

Definition ListSubnets (input : FilterInput) : M Cloud (list string) :=
  listed "DescribeSubnets" "describing subnets" (DescribeSubnets (ec2Filters input)) (vpc_item input).
Definition DeleteSubnet (id : string) : M Cloud unit :=
  request_unless_gone (λ e, IsAwsError "InvalidSubnetID.NotFound" e || IsAwsError "InvalidSubnetId.NotFound" e)
    ("deleting subnet " +:+ id) (ec2_DeleteSubnet id).

(** The main route table goes with its VPC. *)
Definition isMain (associations : list (option bool)) : bool := existsb (default false) associations.
Definition ListRouteTables (input : FilterInput) : M Cloud (list string) :=
  listed "DescribeRouteTables" "describing route tables" (DescribeRouteTables (ec2Filters input))
    (λ '(rt, associations),
       resource ← vpc_resource rt;
       if isMain associations then mret [] else append_if (decide_delete resource input) (vpcres_Id rt)).
Definition DeleteRouteTable (id : string) : M Cloud unit :=
  request_unless_gone (IsAwsError "InvalidRouteTableID.NotFound") ("deleting route table " +:+ id)
    (ec2_DeleteRouteTable id).

Definition ListSecurityGroups (input : FilterInput) : M Cloud (list string) :=
  listed "DescribeSecurityGroups" "describing security groups" (DescribeSecurityGroups (ec2Filters input))
    (λ '(sg, name), if String.eqb (ToString name) "default" then mret [] else vpc_item input sg).
Definition DeleteSecurityGroup (id : string) : M Cloud unit :=
  request_unless_gone (IsAwsError "InvalidSecurityGroupId.NotFound") ("deleting security group " +:+ id)
    (ec2_DeleteSecurityGroup id).

(** Interfaces are not tagged: those of a VPC that nothing is attached to. *)
Definition attached (attachment : option (option string)) : bool :=
  match attachment with Some (Some _) => true | _ => false end.
Definition ListNetworkInterfaces (vpcID : string) : M Cloud (list string) :=
  listed "DescribeNetworkInterfaces" "describing network interfaces"
    (DescribeNetworkInterfaces [{| Filter_Name := "vpc-id"; Values := [vpcID] |}])
    (λ '(id, attachment), mret (if attached attachment then [] else [ToString id])).
Definition DeleteNetworkInterface (id : string) : M Cloud unit :=
  request_unless_gone (IsAwsError "InvalidNetworkInterfaceID.NotFound") ("deleting network interface " +:+ id)
    (ec2_DeleteNetworkInterface id).

Definition ListTransitGateways (input : FilterInput) : M Cloud (list string) :=
  listed "DescribeTransitGateways" "describing transit gateways" (DescribeTransitGateways (ec2Filters input))
    (λ '(tgw, state),
       if String.eqb state "deleted" || String.eqb state "deleting" then mret [] else vpc_item input tgw).
(** The identifier of an attachment is dereferenced only to report. *)
Definition detach_transit (id : string) (attachment : option string) : M Cloud unit :=
  r ← try (request (ec2_DeleteTransitGatewayVpcAttachment attachment));
  match r with
  | Ok _ => mret tt
  | Err e =>
      attachment ← deref attachment;
      throw (EWrap ("detaching transit gateway attachment " +:+ attachment +:+ " for tgw " +:+ id) e)
  end.
Definition DeleteTransitGateway (id : string) : M Cloud unit :=
  unless_gone (IsAwsError "InvalidTransitGatewayID.NotFound") ("describing transit gateway " +:+ id)
    (ask "DescribeTransitGateways" (transit_gateway id)) (mret tt)
    (λ gateways,
       match gateways with
       | [] => mret tt
       | _ =>
           attachments ← map_err (EWrap ("describing transit gateway attachment for transit gateway " +:+ id))
             (ask "DescribeTransitGatewayAttachments"
                (DescribeTransitGatewayAttachments [{| Filter_Name := "transit-gateway-id"; Values := [id] |}]));
           for_each (detach_transit id) attachments;;
           request_unless_gone (IsAwsError "InvalidTransitGatewayID.NotFound")
             ("deleting transit gateway " +:+ id) (ec2_DeleteTransitGateway id)
       end).
End Ec2.
