(* ===== verification/Cleaners.v ===== *)
(** * The cleaners of the other services (test/e2e/cleanup: fsx.go, iam.go,
      cloudformation.go, eks.go, managed_nodegroups.go, s3.go,
      rolesanywhere.go, ssm.go, cloudwatchlogs.go, resource_tagging.go;
      test/e2e/cfn)

    Each lists what a filter selects and deletes one resource by its name.
    What is gone when it is looked at or deleted is passed over. *)

From S2P Require Import Prelude GoStrings Retry GoTime E2e Cloud VpcCleaner.
#[local] Open Scope Z_scope.

Section Cleaners.
Context `{CloudEnv} `{MapOrder}.

(** A resource whose tags are read with the pointers followed. *)
Definition should_delete (id : option string) (created : option Z) (tags : list SdkTag) (input : FilterInput)
    : M Cloud bool :=
  tags ← deref_tags tags;
  id ← deref id;
  decide_delete {| resource_ID := id; CreationTime := ToTime created; resource_Tags := tags |} input.

(** ** File systems (fsx.go) *)

Definition shouldDeleteFileSystem (fs : FileSystem) (input : FilterInput) : M Cloud bool :=
  decide_delete {| resource_ID := ToString (FileSystemId fs); CreationTime := ToTime (fs_CreationTime fs);
                   resource_Tags := convertEC2Tags (fs_Tags fs) |} input.
(** File systems of tests from before they were tagged. *)
Definition isOrphanedTestFileSystem (now : Z) (fs : FileSystem) (input : FilterInput) (testVPCIDs : gset string) : bool :=
  String.eqb (FileSystemType fs) "LUSTRE" && bool_decide (ToString (fs_VpcId fs) ∈ testVPCIDs) &&
  (0 <? InstanceAgeThreshold input) &&
  (InstanceAgeThreshold input <? Sub now (ToTime (fs_CreationTime fs))).
Definition ListTaggedFileSystems (input : FilterInput) : M Cloud (list string) :=
  vpcs ← map_err (EWrap "listing test VPC IDs") (map_err (EWrap "listing VPCs") (ListVPCs input));
  listed "DescribeFileSystems" "describing FSx file systems" DescribeFileSystems (λ fs,
    delete ← shouldDeleteFileSystem fs input;
    if (delete : bool) then id ← deref (FileSystemId fs); mret [id]
    else
      now ← clock;
      append_if (mret (isOrphanedTestFileSystem now fs input (list_to_set vpcs))) (FileSystemId fs)).
Definition file_system_gone (id : string) : M Cloud bool :=
  r ← try (ask "DescribeFileSystems" (file_system id));
  match r with
  | Err e => if is_type "FileSystemNotFound" e then mret true
             else throw (EWrap ("describing FSx file system " +:+ id) e)
  | Ok [] => mret true
  | Ok _ => mret false
  end.
Definition waitForDeletion (id : string) : M Cloud unit :=
  poll_until (30 * Second) (15 * Minute) (file_system_gone id).
Definition DeleteFileSystems (ids : list string) : M Cloud unit :=
  for_each (λ id, request_unless_gone (is_type "FileSystemNotFound") ("deleting FSx file system " +:+ id)
                    (fsx_DeleteFileSystem id)) ids;;
  for_each (λ id, map_err (EWrap ("waiting for FSx file system " +:+ id +:+ " deletion")) (waitForDeletion id)) ids.

(** ** Roles and instance profiles (iam.go) *)

Definition NoSuchEntity : error → bool := is_type "NoSuchEntityException".

Definition shouldDeleteRole (role : Dated) (roleTags : list SdkTag) (input : FilterInput) : M Cloud bool :=
  should_delete (dated_Name role) (dated_Date role) roleTags input.
Definition iam_ListRoles (input : FilterInput) : M Cloud (list string) :=
  listed "ListRoles" "listing IAM roles" (ListRoles TestRolePathPrefix) (λ role,
    unless_gone NoSuchEntity "listing IAM role tags" (ask "ListRoleTags" (ListRoleTags (dated_Name role))) (mret [])
      (λ tags, append_if (shouldDeleteRole role tags input) (dated_Name role))).

Definition detach_profile (roleName : string) (profile : option string) : M Cloud unit :=
  r ← try (request (iam_RemoveRoleFromInstanceProfile profile roleName));
  match r with
  | Ok _ => mret tt
  | Err e => name ← deref profile; throw (EWrap ("removing role from instance profile " +:+ name) e)
  end.
Definition detachRoleFromInstanceProfiles (roleName : string) : M Cloud unit :=
  unless_gone NoSuchEntity ("listing IAM instance profiles for role " +:+ roleName)
    (ask "ListInstanceProfilesForRole" (ListInstanceProfilesForRole roleName)) (mret tt)
    (for_each (detach_profile roleName)).

(** The pages of what a role has; they end when the role is gone. *)
Fixpoint role_pages {A} (operation failure : string) (p : Paginator (list A)) (each : A → M Cloud unit) : M Cloud unit :=
  match p with
  | [] => mret tt
  | next :: p =>
      unless_gone NoSuchEntity failure (ask operation next) (mret tt)
        (λ page, for_each each page;; role_pages operation failure p each)
  end.
Definition detach_policy (roleName : string) (arn : option string) : M Cloud unit :=
  r ← try (request (iam_DetachRolePolicy roleName arn));
  match r with
  | Ok _ => mret tt
  | Err e => if NoSuchEntity e then mret tt else
      policy ← deref arn; throw (EWrap ("detaching policy " +:+ policy +:+ " from role " +:+ roleName) e)
  end.
Definition detachManagedPoliciesFromRole (roleName : string) : M Cloud unit :=
  p ← gets (ListAttachedRolePolicies roleName);
  role_pages "ListAttachedRolePolicies" ("listing attached policies for role " +:+ roleName) p (detach_policy roleName).
Definition deleteInlinePoliciesFromRole (roleName : string) : M Cloud unit :=
  p ← gets (ListRolePolicies roleName);
  role_pages "ListRolePolicies" ("listing inline policies for role " +:+ roleName) p (λ policyName,
    request_unless_gone NoSuchEntity ("deleting inline policy " +:+ policyName +:+ " from role " +:+ roleName)
      (iam_DeleteRolePolicy roleName policyName)).
Definition deleteRoleEntity (roleName : string) : M Cloud unit :=
  request_unless_gone NoSuchEntity ("deleting IAM role " +:+ roleName) (iam_DeleteRole roleName).
Definition DeleteRole (roleName : string) : M Cloud unit :=
  map_err (EWrap "detaching role from instance profiles") (detachRoleFromInstanceProfiles roleName);;
  map_err (EWrap "detaching managed policies from role") (detachManagedPoliciesFromRole roleName);;
  map_err (EWrap "deleting inline policies from role") (deleteInlinePoliciesFromRole roleName);;
  deleteRoleEntity roleName.

Definition shouldDeleteInstanceProfile (profile : option InstanceProfile) (input : FilterInput) : M Cloud bool :=
  profile ← deref profile;
  should_delete (InstanceProfileName profile) (profile_CreateDate profile) (profile_Tags profile) input.
Definition iam_ListInstanceProfiles (input : FilterInput) : M Cloud (list string) :=
  listed "ListInstanceProfiles" "listing IAM instance profiles" (ListInstanceProfiles TestRolePathPrefix) (λ name,
    r ← try (ask "GetInstanceProfile" (GetInstanceProfile name));
    match r with
    | Ok profile => append_if (shouldDeleteInstanceProfile profile input) name
    | Err e => if NoSuchEntity e then mret [] else
        name ← deref name; throw (EWrap ("describing IAM instance profile " +:+ name) e)
    end).
Fixpoint deref_all {A} (l : list (option A)) : M Cloud (list A) :=
  match l with [] => mret [] | a :: l => a ← deref a; l ← deref_all l; mret (a :: l) end.
Definition ListRolesForInstanceProfile (profileName : string) : M Cloud (list string) :=
  unless_gone NoSuchEntity ("describing IAM instance profile " +:+ profileName)
    (ask "GetInstanceProfile" (GetInstanceProfile (Some profileName))) (mret [])
    (λ profile, profile ← deref profile; deref_all (profile_Roles profile)).
Definition RemoveRolesFromInstanceProfile (roles : list string) (profileName : string) : M Cloud unit :=
  for_each (λ role, map_err (EWrap ("removing role from instance profile " +:+ role))
                      (request (iam_RemoveRoleFromInstanceProfile (Some profileName) role))) roles.
Definition DeleteInstanceProfile (profileName : string) : M Cloud unit :=
  request_unless_gone NoSuchEntity ("deleting IAM instance profile " +:+ profileName)
    (iam_DeleteInstanceProfile profileName).

(** ** Stacks (cloudformation.go, test/e2e/cfn) *)

(** The reason of the earliest failure before now. *)
Fixpoint first_failure (earliest : Z) (reason : string) (events : list StackEvent) : string :=
  match events with
  | [] => reason
  | event :: events =>
      if negb (bool_decide (ResourceStatus event ∈ ["CREATE_FAILED"; "UPDATE_FAILED"; "DELETE_FAILED"]))
      then first_failure earliest reason events
      else match ResourceStatusReason event with
           | None => first_failure earliest reason events
           | Some why =>
               let timestamp := ToTime (Timestamp event) in
               if timestamp <? earliest
               then first_failure timestamp
                      (ResourceStatus event +:+ " for " +:+ default "UnknownResource" (LogicalResourceId event)
                         +:+ ": " +:+ why) events
               else first_failure earliest reason events
           end
  end.
Definition GetStackFailureReason (stackName : string) : M Cloud string :=
  events ← map_err (EWrap ("describing events for stack " +:+ stackName))
    (ask "DescribeStackEvents" (DescribeStackEvents stackName));
  now ← clock;
  mret (first_failure now "" events).
Definition stack_settled (stackName : string) : M Cloud bool :=
  r ← try (ask "DescribeStacks" (DescribeStacks (Some stackName)));
  match r with
  | Err e => if IsCFNStackNotFound e then mret true else throw e
  | Ok stacks =>
      stack ← deref (head stacks);
      let status := StackStatus stack in
      if bool_decide (status ∈ ["CREATE_COMPLETE"; "UPDATE_COMPLETE"; "DELETE_COMPLETE"]) then mret true
      else if bool_decide (status ∈ ["CREATE_IN_PROGRESS"; "UPDATE_IN_PROGRESS"; "DELETE_IN_PROGRESS";
                                     "UPDATE_COMPLETE_CLEANUP_IN_PROGRESS"]) then mret false
      else
        r ← try (GetStackFailureReason stackName);
        match r with
        | Err e => throw (EWrap ("stack " +:+ stackName +:+ " failed with status " +:+ status +:+
                                 ". Failed getting failure reason") e)
        | Ok reason => throw (ENew ("stack " +:+ stackName +:+ " failed with status: " +:+ status +:+
                                    ". Potential root cause: [" +:+ reason +:+ "]"))
        end
  end.
(** A failed wait looks at the stack once more, to print its status. *)
Definition WaitForStackOperation (stackName : string) (interval timeout : Z) : M Cloud unit :=
  r ← try (poll_until interval timeout (stack_settled stackName));
  match r with
  | Ok _ => mret tt
  | Err e => try (ask "DescribeStacks" (DescribeStacks (Some stackName)));; throw e
  end.

(** [n] rounds of waiting, looking and asking for the deletion. *)
Fixpoint delete_rounds (n : nat) (stackName : string) : M Cloud unit :=
  match n with
  | O => throw (ENew ("failed to delete hybrid nodes cfn stack: " +:+ stackName))
  | S n =>
      try (WaitForStackOperation stackName (5 * Second) (15 * Minute));;
      unless_gone IsCFNStackNotFound "describing hybrid nodes cfn stack before deletion"
        (ask "DescribeStacks" (DescribeStacks (Some stackName))) (mret tt) (λ stacks,
          stack ← deref (head stacks);
          unless_gone IsCFNStackNotFound "deleting hybrid nodes cfn stack"
            (request (cfn_DeleteStack stackName (String.eqb (StackStatus stack) "DELETE_FAILED"))) (mret tt)
            (λ _, delete_rounds n stackName))
  end.
Definition DeleteStack (stackName : string) : M Cloud unit := delete_rounds 3 stackName.

(** Every status but DELETE_COMPLETE. *)
Definition live_statuses : list string :=
  ["CREATE_IN_PROGRESS"; "CREATE_FAILED"; "CREATE_COMPLETE"; "ROLLBACK_IN_PROGRESS"; "ROLLBACK_FAILED";
   "ROLLBACK_COMPLETE"; "DELETE_IN_PROGRESS"; "DELETE_FAILED"; "UPDATE_IN_PROGRESS";
   "UPDATE_COMPLETE_CLEANUP_IN_PROGRESS"; "UPDATE_COMPLETE"; "UPDATE_FAILED"; "UPDATE_ROLLBACK_IN_PROGRESS";
   "UPDATE_ROLLBACK_FAILED"; "UPDATE_ROLLBACK_COMPLETE_CLEANUP_IN_PROGRESS"; "UPDATE_ROLLBACK_COMPLETE";
   "REVIEW_IN_PROGRESS"; "IMPORT_IN_PROGRESS"; "IMPORT_COMPLETE"; "IMPORT_ROLLBACK_IN_PROGRESS";
   "IMPORT_ROLLBACK_FAILED"; "IMPORT_ROLLBACK_COMPLETE"].
Definition listStacks (input : FilterInput) (wantName : string → bool) : M Cloud (list string) :=
  listed "ListStacks" "describing instances" (ListStacks live_statuses) (λ stack,
    name ← deref (StackName stack);
    if negb (wantName name) then mret [] else
    unless_gone IsCFNStackNotFound ("describing stack " +:+ name) (ask "DescribeStacks" (DescribeStacks (Some name)))
      (mret []) (λ stacks,
        match stacks with
        | [] => throw (ENew ("stack " +:+ name +:+ " not found"))
        | s :: _ =>
            append_if (should_delete (StackId stack) (stack_CreationTime stack) (stack_Tags s) input) (Some name)
        end)).
Definition credential_stack (name : string) : bool :=
  HasPrefix name TestCredentialsStackNamePrefix && negb (HasPrefix name TestArchitectureStackNamePrefix).
Definition ListCredentialStacks (input : FilterInput) : M Cloud (list string) := listStacks input credential_stack.
Definition ListArchitectureStacks (input : FilterInput) : M Cloud (list string) :=
  listStacks input (λ name, HasPrefix name TestArchitectureStackNamePrefix).

(** ** Clusters and node groups (eks.go, managed_nodegroups.go) *)

Definition should_delete_eks (resource : option EksResource) (input : FilterInput) : M Cloud bool :=
  r ← deref resource;
  name ← deref (eks_Name r);
  decide_delete {| resource_ID := name; CreationTime := ToTime (CreatedAt r);
                   resource_Tags := map_tags (eks_Tags r) |} input.
Definition shouldDeleteCluster : option EksResource → FilterInput → M Cloud bool := should_delete_eks.
Definition shouldDeleteNodeGroup : option EksResource → FilterInput → M Cloud bool := should_delete_eks.
Definition ListEKSClusters (input : FilterInput) : M Cloud (list string) :=
  listed "ListClusters" "listing EKS clusters" ListClusters (λ clusterName,
    unless_gone (is_type "ResourceNotFoundException") ("describing cluster " +:+ clusterName)
      (ask "DescribeCluster" (DescribeCluster clusterName)) (mret [])
      (λ cluster, append_if (shouldDeleteCluster cluster input) (Some clusterName))).
(** Once the cluster is gone its tags no longer allow the deletion. *)
Definition DeleteCluster (clusterName : string) : M Cloud unit :=
  unless_gone (is_type "ResourceNotFoundException") ("deleting cluster " +:+ clusterName)
    (r ← try (request (eks_DeleteCluster clusterName));
     match r with
     | Ok _ => mret tt
     | Err e =>
         if IsAwsError "AccessDeniedException" e
         then ask "DescribeCluster" (DescribeCluster clusterName);; mret tt
         else throw e
     end)
    (mret tt)
    (λ _, map_err (EWrap ("waiting for cluster " +:+ clusterName +:+ " deletion"))
       (ask "DescribeCluster" (waiter_Wait "ClusterDeleted" [clusterName] (20 * Minute)))).

Record NodeGroupInfo := { ng_ClusterName : string; NodeGroupName : string }.
Definition list_nodegroups (input : FilterInput) (clusterName : string) : M Cloud (list NodeGroupInfo) :=
  listed "ListNodegroups" ("listing node groups for cluster " +:+ clusterName) (ListNodegroups clusterName)
    (λ nodeGroupName,
      unless_gone (is_type "ResourceNotFoundException")
        ("describing node group " +:+ nodeGroupName +:+ " in cluster " +:+ clusterName)
        (ask "DescribeNodegroup" (DescribeNodegroup clusterName nodeGroupName)) (mret [])
        (λ nodegroup,
           b ← shouldDeleteNodeGroup nodegroup input;
           mret (if (b : bool) then [{| ng_ClusterName := clusterName; NodeGroupName := nodeGroupName |}] else []))).
Definition ListManagedNodeGroups (input : FilterInput) : M Cloud (list NodeGroupInfo) :=
  listed "ListClusters" "listing EKS clusters" ListClusters (λ clusterName,
    unless_gone (is_type "ResourceNotFoundException") ("describing cluster " +:+ clusterName)
      (ask "DescribeCluster" (DescribeCluster clusterName)) (mret [])
      (λ cluster,
         b ← shouldDeleteCluster cluster input;
         if negb b then mret [] else list_nodegroups input clusterName)).
Definition DeleteManagedNodeGroup (clusterName nodeGroupName : string) : M Cloud unit :=
  unless_gone (is_type "ResourceNotFoundException")
    ("deleting node group " +:+ nodeGroupName +:+ " in cluster " +:+ clusterName)
    (request (eks_DeleteNodegroup clusterName nodeGroupName)) (mret tt)
    (λ _, map_err (EWrap ("waiting for node group " +:+ nodeGroupName +:+ " deletion in cluster " +:+ clusterName))
       (ask "DescribeNodegroup" (waiter_Wait "NodegroupDeleted" [clusterName; nodeGroupName] (15 * Minute)))).

(** ** Buckets (s3.go) *)

Definition PodIdentityS3BucketPrefix : string := "podid".
Definition shouldDeleteBucket (bucket : Dated) (tags : list SdkTag) (input : FilterInput) : M Cloud bool :=
  should_delete (dated_Name bucket) (dated_Date bucket) tags input.
Definition s3_ListBuckets (input : FilterInput) : M Cloud (list string) :=
  listed "ListBuckets" "listing buckets" (ListBuckets PodIdentityS3BucketPrefix) (λ bucket,
    unless_gone (λ e, IsS3BucketNotFound e || IsAwsError "NoSuchTagSet" e) "getting bucket tagging"
      (ask "GetBucketTagging" (GetBucketTagging (dated_Name bucket))) (mret [])
      (λ tags, append_if (shouldDeleteBucket bucket tags input) (dated_Name bucket))).
Definition EmptyS3Bucket (bucketName : string) : M Cloud unit :=
  unless_gone IsS3BucketNotFound ("listing objects in bucket " +:+ bucketName)
    (ask "ListObjects" (ListObjects bucketName)) (mret tt)
    (λ contents,
       match contents with
       | [] => mret tt
       | _ => map_err (EWrap ("deleting objects in bucket " +:+ bucketName))
                (request (s3_DeleteObjects bucketName contents))
       end).
Definition DeleteBucket (bucketName : string) : M Cloud unit :=
  map_err (EWrap ("emptying bucket " +:+ bucketName)) (EmptyS3Bucket bucketName);;
  request_unless_gone IsS3BucketNotFound ("deleting bucket " +:+ bucketName) (s3_DeleteBucket bucketName).

(** ** IAM Roles Anywhere (rolesanywhere.go) *)

Definition shouldDeleteProfile (profile : AnywhereDetail) (tags : list SdkTag) (input : FilterInput) : M Cloud bool :=
  should_delete (anywhere_Name profile) (anywhere_CreatedAt profile) tags input.
Definition shouldDeleteTrustAnchor (anchor : AnywhereDetail) (tags : list SdkTag) (input : FilterInput) : M Cloud bool :=
  should_delete (anywhere_Name anchor) (anywhere_CreatedAt anchor) tags input.
Definition anywhere_item (shouldDelete : AnywhereDetail → list SdkTag → FilterInput → M Cloud bool)
    (input : FilterInput) (detail : AnywhereDetail) : M Cloud (list string) :=
  name ← deref (anywhere_Name detail);
  if negb (HasPrefix name TestCredentialsStackNamePrefix) then mret [] else
  unless_gone (is_type "ValidationException") "listing roles anywhere profile tags"
    (ask "ListTagsForResource" (anywhere_ListTags (anywhere_Arn detail))) (mret [])
    (λ tags, append_if (shouldDelete detail tags input) (anywhere_Id detail)).
Definition anywhere_ListProfiles (input : FilterInput) : M Cloud (list string) :=
  listed "ListProfiles" "listing roles anywhere profiles" ListProfiles (anywhere_item shouldDeleteProfile input).
Definition DeleteProfile (profileID : string) : M Cloud unit :=
  request_unless_gone (is_type "ResourceNotFoundException") ("deleting roles anywhere profile " +:+ profileID)
    (rolesanywhere_DeleteProfile profileID).
Definition anywhere_ListTrustAnchors (input : FilterInput) : M Cloud (list string) :=
  listed "ListTrustAnchors" "listing roles anywhere profiles" ListTrustAnchors (anywhere_item shouldDeleteTrustAnchor input).
Definition DeleteTrustAnchor (anchorID : string) : M Cloud unit :=
  request_unless_gone (is_type "ResourceNotFoundException") ("deleting roles anywhere trust anchor " +:+ anchorID)
    (rolesanywhere_DeleteTrustAnchor anchorID).

(** ** Activations, managed instances and parameters (ssm.go) *)

Definition shouldDeleteActivation (activation : Activation) (input : FilterInput) : M Cloud bool :=
  should_delete (activation_Id activation) (CreatedDate activation) (activation_Tags activation) input.
Definition listActivations (shouldDelete : Activation → M Cloud bool) : M Cloud (list string) :=
  listed "DescribeActivations" "listing SSM activations" DescribeActivations
    (λ activation, append_if (shouldDelete activation) (activation_Id activation)).
Definition ListActivations (input : FilterInput) : M Cloud (list string) :=
  listActivations (λ activation, shouldDeleteActivation activation input).
Definition ListActivationsForNode (nodeName clusterName : string) : M Cloud (list string) :=
  let input := {| AllClusters := false; DryRun := false; ClusterName := clusterName; ClusterNamePrefix := "";
                  InstanceAgeThreshold := 0 |} in
  listActivations (λ activation,
    b ← shouldDeleteActivation activation input;
    mret (b && String.eqb (ToString (DefaultInstanceName activation)) nodeName)).
Definition DeleteActivation (activationID : string) : M Cloud unit :=
  request_unless_gone (is_type "InvalidActivation") "deleting SSM activation" (ssm_DeleteActivation activationID).

Definition shouldDeleteManagedInstance (instance : InstanceInformation) (tags : list SdkTag) (input : FilterInput)
    : M Cloud bool :=
  should_delete (managed_InstanceId instance) (RegistrationDate instance) tags input.
Definition listManagedInstances (filters : list Filter)
    (shouldDelete : InstanceInformation → list SdkTag → M Cloud bool) : M Cloud (list string) :=
  listed "DescribeInstanceInformation" "listing SSM managed instances" (DescribeInstanceInformation filters)
    (λ instance,
       if negb (String.eqb (ResourceType instance) "ManagedInstance") then mret [] else
       id ← deref (managed_InstanceId instance);
       unless_gone (is_type "InvalidResourceId") ("getting tags for managed instance " +:+ id)
         (ask "ListTagsForResource" (ssm_ListTags "ManagedInstance" id)) (mret [])
         (λ tags, append_if (shouldDelete instance tags) (managed_InstanceId instance))).
Definition managed_filters (input : FilterInput) : list Filter :=
  if String.eqb (ClusterName input) ""
  then [{| Filter_Name := "tag-key"; Values := [TestClusterTagKey] |}]
  else [{| Filter_Name := "tag:" +:+ TestClusterTagKey; Values := [ClusterName input] |}].
Definition ListManagedInstances (input : FilterInput) : M Cloud (list string) :=
  listManagedInstances (managed_filters input) (λ instance tags, shouldDeleteManagedInstance instance tags input).
Definition ListManagedInstancesByActivationID (activationIDs : list string) : M Cloud (list string) :=
  listManagedInstances [{| Filter_Name := "ActivationIds"; Values := activationIDs |}] (λ instance _,
    id ← deref (managed_ActivationId instance); mret (bool_decide (id ∈ activationIDs))).
Definition DeleteManagedInstance (instanceID : string) : M Cloud unit :=
  request_unless_gone (is_type "InvalidInstanceId") "deregistering managed instance"
    (ssm_DeregisterManagedInstance instanceID).

Definition shouldDeleteParameter (parameter : Dated) (tags : list SdkTag) (input : FilterInput) : M Cloud bool :=
  should_delete (dated_Name parameter) (dated_Date parameter) tags input.
Definition ListParameters (input : FilterInput) : M Cloud (list string) :=
  listed "DescribeParameters" "listing SSM parameters" DescribeParameters (λ parameter,
    name ← deref (dated_Name parameter);
    unless_gone (is_type "InvalidResourceId") ("getting tags for SSM parameter " +:+ name)
      (ask "ListTagsForResource" (ssm_ListTags "Parameter" name)) (mret [])
      (λ tags, append_if (shouldDeleteParameter parameter tags input) (Some name))).
Definition DeleteParameter (parameterName : string) : M Cloud unit :=
  request_unless_gone (is_type "ParameterNotFound") ("deleting SSM parameter " +:+ parameterName)
    (ssm_DeleteParameter parameterName).

(** ** Log groups (cloudwatchlogs.go, resource_tagging.go) *)

Definition GetResourcesWithClusterTag (resourceType : string) (input : FilterInput) : M Cloud (gmap string (list Tag)) :=
  resources ← listed "GetResources" "listing resources"
    (GetResources resourceType (if String.eqb (ClusterName input) "" then [] else [ClusterName input])) (λ resource,
      tags ← deref_tags (mapping_Tags resource);
      mret [(ToString (ResourceARN resource), tags)]);
  mret (foldl (λ arns at_, <[at_.1 := at_.2]> arns) ∅ resources).
(** From the first slash on: without one, the slice panics. *)
Fixpoint parseLogGroupNameFromARN (arn : string) : option string :=
  match arn with
  | "" => None
  | String c arn' => if Ascii.eqb c "/" then Some arn else parseLogGroupNameFromARN arn'
  end.
Fixpoint name_groups (arns : list (string * list Tag)) (groups : gmap string (list Tag)) : M Cloud (gmap string (list Tag)) :=
  match arns with
  | [] => mret groups
  | (arn, tags) :: arns => name ← deref (parseLogGroupNameFromARN arn); name_groups arns (<[name := tags]> groups)
  end.
Definition allGroupsWithTags (input : FilterInput) : M Cloud (gmap string (list Tag)) :=
  resourceARNs ← map_err (EWrap "listing roles anywhere profiles") (GetResourcesWithClusterTag "logs:log-group" input);
  name_groups (map_order resourceARNs) ∅.

Definition clusterLogGroupRetentionThreshold : Z := 15 * 24 * Hour.
Definition UnixMilli (ms : Z) : Z := ms * Millisecond.
(** The clock is read twice. *)
Definition shouldDeleteLogGroup (logGroup : LogGroup) (tags : list Tag) (input : FilterInput) : M Cloud bool :=
  name ← deref (LogGroupName logGroup);
  let resource := {| resource_ID := name; CreationTime := UnixMilli (default 0 (log_CreationTime logGroup));
                     resource_Tags := tags |} in
  now ← clock;
  if Sub now (CreationTime resource) <? clusterLogGroupRetentionThreshold then mret false
  else decide_delete resource input.
Definition groupNamePattern (input : FilterInput) : string :=
  "/aws/eks/" +:+
  (if negb (String.eqb (ClusterName input) "") then ClusterName input
   else if negb (String.eqb (ClusterNamePrefix input) "") then ClusterNamePrefix input else "").
Definition ListLogGroups (input : FilterInput) : M Cloud (list string) :=
  groups ← map_err (EWrap "listing log groups") (allGroupsWithTags input);
  listed "DescribeLogGroups" "describing log groups" (DescribeLogGroups (groupNamePattern input)) (λ logGroup,
    name ← deref (LogGroupName logGroup);
    match groups !! name with
    | Some tags => append_if (shouldDeleteLogGroup logGroup tags input) (Some name)
    | None => mret []
    end).
Definition DeleteLogGroup (logGroupName : string) : M Cloud unit :=
  map_err (EWrap ("deleting log group " +:+ logGroupName)) (request (logs_DeleteLogGroup logGroupName)).
End Cleaners.
