(* ===== verification/SweepLogic.v ===== *)
(** * A program logic for the cleaners

    [does ok Q m]: every change that [m] asks for satisfies [ok], however it
    ends, and a value it returns satisfies [Q].  The answers of the services
    enter through what their listings tell. *)

From S2P Require Import Prelude GoStrings Retry GoTime E2e Cloud.
#[local] Open Scope Z_scope.

Section Logic.
Context (ok : Change → Prop).

Definition extends (c c' : Cloud) : Prop := ∃ more, c' = c ++ more ∧ ∀ ch, Changed ch ∈ more → ok ch.
Definition does {A} (Q : A → Prop) (m : M Cloud A) : Prop :=
  ∀ c o c', m c = (o, c') → extends c c' ∧ ∀ a, o = Return a → Q a.

#[export] Instance extends_pre : PreOrder extends.
Proof using Type.
  split; [intros c; exists []; by rewrite app_nil_r; split; [|intros ch ?%elem_of_nil]|].
  intros c1 c2 c3 (m & -> & Hm) (n & -> & Hn). exists (m ++ n). rewrite app_assoc. split; [done|].
  intros ch [?|?]%elem_of_app; eauto.
Qed.
Lemma extends_event c ev : (∀ ch, ev = Changed ch → ok ch) → extends c (c ++ [ev]).
Proof using Type. intros H. exists [ev]. split; [done|]. intros ch E%list_elem_of_singleton. auto. Qed.

Lemma does_ret {A} (Q : A → Prop) a : Q a → does Q (mret a).
Proof using Type. intros HQ c o c' [= <- <-]. split; [done|by intros ? [= <-]]. Qed.
Lemma does_throw {A} (Q : A → Prop) e : does Q (throw e).
Proof using Type. intros c o c' [= <- <-]. by split. Qed.
Lemma does_panic {A} (Q : A → Prop) : does Q panic.
Proof using Type. intros c o c' [= <- <-]. by split. Qed.
Lemma does_mono {A} (P Q : A → Prop) m : does P m → (∀ a, P a → Q a) → does Q m.
Proof using Type. intros Hm HPQ c o c' E. apply Hm in E as [? ?]. split; eauto. Qed.
Lemma does_bind {A B} (P : A → Prop) (Q : B → Prop) m f : does P m → (∀ a, P a → does Q (f a)) → does Q (m ≫= f).
Proof using Type.
  intros Hm Hf c o c' E. unfold mbind, M_bind in E. destruct (m c) as [[a|e|] c1] eqn:E1.
  - apply Hm in E1 as [H1 HP]. apply Hf in E as [H2 HQ]; [|by apply HP]. split; [by etrans|done].
  - injection E as <- <-. apply Hm in E1 as [H1 _]. by split.
  - injection E as <- <-. apply Hm in E1 as [H1 _]. by split.
Qed.
Lemma does_map_err {A} (Q : A → Prop) f m : does Q m → does Q (map_err f m).
Proof using Type.
  intros Hm c o c' E. unfold map_err in E. destruct (m c) as [[a|e|] c1] eqn:E1; injection E as <- <-;
    apply Hm in E1 as [? HQ]; split; try done. all: eauto.
Qed.
Lemma does_try {A} (Q : A → Prop) m : does Q m → does (λ r, ∀ a, r = Ok a → Q a) (try m).
Proof using Type.
  intros Hm c o c' E. unfold try in E. destruct (m c) as [[a|e|] c1] eqn:E1; injection E as <- <-;
    apply Hm in E1 as [? HQ]; split; try done.
  - intros r [= <-] b [= <-]. auto.
  - by intros r [= <-].
Qed.
Lemma does_deref {A} (p : option A) : does (λ a, p = Some a) (deref p).
Proof using Type. destruct p; [by apply does_ret|apply does_panic]. Qed.
Lemma does_gets {A} (f : Cloud → A) : does (λ a, ∃ c, a = f c) (gets f).
Proof using Type. intros c o c' [= <- <-]. split; [done|]. intros a [= <-]. eauto. Qed.
Lemma does_of_result {A} (r : result A) : does (λ a, r = Ok a) (of_result r).
Proof using Type. destruct r; [by apply does_ret|apply does_throw]. Qed.
Lemma does_ask {A} op (answer : Cloud → result A) : does (λ a, ∃ c, answer c = Ok a) (ask op answer).
Proof using Type.
  intros c o c'. unfold ask. destruct (answer _) as [a|e] eqn:E; intros [= <- <-];
    (split; [by apply extends_event|]); [intros b [= <-]; eauto|done].
Qed.
Lemma does_request `{CloudEnv} ch : ok ch → does (λ _, True) (request ch).
Proof using Type.
  intros Hch c o c'. unfold request. destruct (refused _ _); intros [= <- <-];
    (split; [apply extends_event; by intros ? [= ->]|done]).
Qed.
Lemma does_clock `{CloudEnv} : does (λ now, ∃ c, now = Now c) clock.
Proof using Type. intros c o c' [= <- <-]. split; [by apply extends_event|]. intros a [= <-]. eauto. Qed.

Lemma does_for_each {A} (P : A → Prop) (f : A → M Cloud unit) l :
  Forall P l → (∀ a, P a → does (λ _, True) (f a)) → does (λ _, True) (for_each f l).
Proof using Type.
  intros Hl Hf. induction Hl as [|a l Ha Hl IH]; cbn; [by apply does_ret|].
  eapply does_bind; [by apply Hf|auto].
Qed.
(** A loop that succeeds ran every turn, and what it did is still there. *)
Lemma for_each_ran {A} (P : A → Prop) (f : A → M Cloud unit) l c c' :
  Forall P l → (∀ a, P a → does (λ _, True) (f a)) → for_each f l c = (Return tt, c') →
  ∀ a, a ∈ l → ∃ c1 c2, f a c1 = (Return tt, c2) ∧ extends c c1 ∧ extends c2 c'.
Proof using Type.
  intros Hl Hf. revert c. induction Hl as [|b l Hb Hl IH]; intros c E a Ha; [by apply elem_of_nil in Ha|].
  apply bind_Return in E as ([] & c1 & Eb & E). apply elem_of_cons in Ha as [->|Ha].
  - exists c, c1. split_and!; [done..|]. by eapply does_for_each in E as [? _].
  - destruct (IH _ E a Ha) as (c2 & c3 & Ea & H1 & H2). exists c2, c3. split_and!; [done| |done].
    etrans; [|exact H1]. by apply (Hf b Hb) in Eb as [? _].
Qed.
Lemma does_collect {A B} (P : A → Prop) (Q : B → Prop) (item : A → M Cloud (list B)) l :
  Forall P l → (∀ a, P a → does (Forall Q) (item a)) → does (Forall Q) (collect item l).
Proof using Type.
  intros Hl Hf. induction Hl as [|a l Ha Hl IH]; cbn; [by apply does_ret|].
  eapply does_bind; [by apply Hf|]. intros found ?. eapply does_bind; [apply IH|]. intros more ?.
  apply does_ret, Forall_app. done.
Qed.

(** Every page of a listing satisfies [P], whenever it is fetched. *)
Definition tells {A} (P : A → Prop) (p : Cloud → Paginator A) : Prop :=
  ∀ c, Forall (λ next, ∀ c' page, next c' = Ok page → P page) (p c).

Lemma does_pages {A B} (P : A → Prop) (Q : B → Prop) op failure p (page : A → M Cloud (list B)) :
  Forall (λ next, ∀ c' a, next c' = Ok a → P a) p → (∀ a, P a → does (Forall Q) (page a)) →
  does (Forall Q) (pages op failure p page).
Proof using Type.
  intros Hp Hf. induction Hp as [|next p Hn Hp IH]; cbn; [by apply does_ret|].
  eapply does_bind; [apply does_map_err, does_ask|]. intros a [c Ha]. apply Hn in Ha.
  eapply does_bind; [by apply Hf|]. intros found ?. eapply does_bind; [apply IH|]. intros more ?.
  apply does_ret, Forall_app. done.
Qed.
Lemma does_listed {A B} (P : A → Prop) (Q : B → Prop) op failure p (item : A → M Cloud (list B)) :
  tells (Forall P) p → (∀ a, P a → does (Forall Q) (item a)) → does (Forall Q) (listed op failure p item).
Proof using Type.
  intros Hp Hf. eapply does_bind; [apply does_gets|]. intros q [c ->].
  eapply does_pages; [apply Hp|]. intros l Hl. by eapply does_collect.
Qed.
Lemma does_unless_gone {A B} (P : A → Prop) (Q : B → Prop) gone failure m absent k :
  does P m → does Q absent → (∀ a, P a → does Q (k a)) → does Q (unless_gone gone failure m absent k).
Proof using Type.
  intros Hm Ha Hk. eapply does_bind; [by apply does_try|]. intros [a|e] Hr; [auto|].
  destruct (gone e); [done|apply does_throw].
Qed.
Lemma does_delete `{CloudEnv} gone failure ch : ok ch → does (λ _, True) (request_unless_gone gone failure ch).
Proof using Type.
  intros Hch. eapply does_unless_gone; [by apply does_request|by apply does_ret|]. intros [] _. by apply does_ret.
Qed.
Lemma does_poll `{CloudEnv} interval timeout cond : does (λ _, True) cond → does (λ _, True) (poll_until interval timeout cond).
Proof using Type.
  intros Hc. eapply does_bind; [apply does_gets|]. intros n _. induction n as [|n IH]; cbn; [apply does_throw|].
  eapply does_bind; [apply Hc|]. intros [|] _; [by apply does_ret|done].
Qed.
Lemma does_append_if (P : Prop) (Q : string → Prop) b name :
  does (λ b, b = true → P) b → (∀ i, name = Some i → P → Q i) → does (Forall Q) (append_if b name).
Proof using Type.
  intros Hb HQ. eapply does_bind; [apply Hb|]. intros [|] H; [|by apply does_ret].
  eapply does_bind; [apply does_deref|]. intros i Hi. apply does_ret. repeat constructor. auto.
Qed.
Lemma does_any {A} (Q : A → Prop) m : does Q m → does (λ _, True) m.
Proof using Type. intros Hm. by eapply does_mono. Qed.
Lemma does_attempt m : does (λ _ : unit, True) m → does (λ _, True) (attempt m).
Proof using Type. intros Hm. eapply does_bind; [by apply does_try|]. intros r _. by apply does_ret. Qed.

(** Tags read by following their pointers are the tags. *)
Lemma does_deref_tags tags : does (λ l, l = convertEC2Tags tags) (deref_tags tags).
Proof using Type.
  induction tags as [|[k v] tags IH]; cbn; [by apply does_ret|].
  eapply does_bind; [apply does_deref|]. intros k' ->. eapply does_bind; [apply does_deref|]. intros v' ->.
  eapply does_bind; [apply IH|]. intros l ->. by apply does_ret.
Qed.
End Logic.

#[export] Hint Resolve does_ret does_throw does_panic does_ask does_request does_clock does_delete does_deref : nodeadm.
