(* ===== verification/Sweeper.v ===== *)
(** * The sweeper of test resources (cmd/e2e-test/sweeper/sweeper.go,
      test/e2e/cleanup: sweeper.go)

    The tool that deletes what tests left in an AWS account: kind after kind
    of resource it lists what the filter selects and deletes what it listed.
    SweepProps holds the theorem about what it deletes. *)

From S2P Require Import Prelude GoStrings Host Retry GoTime E2e Cloud VpcCleaner Cleaners.
#[local] Open Scope Z_scope.

(** ** The kinds of resources (sweeper.go) *)

Section Sweep.
Context `{CloudEnv} `{MapOrder}.
(** The environment of the process. *)
Context (Getenv : string → string).

(** The shape of a cleanup function: a dry run lists only. *)
Definition clean_all {A} (listing : string) (list_ : M Cloud (list A)) (delete_ : list A → M Cloud unit)
    (input : FilterInput) : M Cloud unit :=
  ids ← map_err (EWrap ("listing " +:+ listing)) list_;
  if DryRun input then mret tt else delete_ ids.
Definition clean (listing : string) (list_ : FilterInput → M Cloud (list string)) (deleting : string → string)
    (delete_ : string → M Cloud unit) (input : FilterInput) : M Cloud unit :=
  clean_all listing (list_ input) (for_each (λ id, map_err (EWrap (deleting id)) (delete_ id))) input.

Definition cleanupFSxFileSystems (input : FilterInput) : M Cloud unit :=
  clean_all "FSx file systems" (ListTaggedFileSystems input)
    (λ ids, map_err (EWrap "deleting FSx file systems") (DeleteFileSystems ids)) input.
Definition cleanupEC2Instances (input : FilterInput) : M Cloud unit :=
  clean_all "tagged EC2 instances" (ListTaggedInstances input)
    (λ ids, map_err (EWrap "deleting EC2 instances") (DeleteInstances ids)) input.
(** The profiles with their roles, in the order of the iteration of a map. *)
Definition profile_roles (profiles : list string) : M Cloud (gmap string (list string)) :=
  entries ← collect (λ profile,
    roles ← map_err (EWrap ("listing roles for instance profile " +:+ profile)) (ListRolesForInstanceProfile profile);
    mret [(profile, roles)]) profiles;
  mret (foldl (λ m kv, <[kv.1 := kv.2]> m) ∅ entries).
Definition cleanupIAMInstanceProfiles (input : FilterInput) : M Cloud unit :=
  profiles ← map_err (EWrap "listing IAM instance profiles") (iam_ListInstanceProfiles input);
  profileRoles ← profile_roles profiles;
  if DryRun input then mret tt else
  for_each (λ '(profile, roles),
    map_err (EWrap ("removing roles from instance profile " +:+ profile)) (RemoveRolesFromInstanceProfile roles profile);;
    map_err (EWrap ("deleting IAM instance profile " +:+ profile)) (DeleteInstanceProfile profile))
    (map_order profileRoles).
Definition cleanupCredentialStacks : FilterInput → M Cloud unit :=
  clean "credential stacks" ListCredentialStacks (String.append "deleting credential stack ") DeleteStack.
Definition cleanupManagedNodeGroups (input : FilterInput) : M Cloud unit :=
  clean_all "managed node groups" (ListManagedNodeGroups input)
    (for_each (λ g, map_err (EWrap ("deleting managed node group " +:+ NodeGroupName g +:+ " in cluster " +:+ ng_ClusterName g))
                      (DeleteManagedNodeGroup (ng_ClusterName g) (NodeGroupName g)))) input.
Definition cleanupEKSClusters : FilterInput → M Cloud unit :=
  clean "EKS hybrid clusters" ListEKSClusters (String.append "deleting EKS hybrid cluster ") DeleteCluster.
Definition emptyS3PodIdentityBuckets : FilterInput → M Cloud unit :=
  clean "buckets" s3_ListBuckets (String.append "emptying bucket ") EmptyS3Bucket.
Definition cleanupS3PodIdentityBuckets : FilterInput → M Cloud unit :=
  clean "buckets" s3_ListBuckets (String.append "deleting bucket ") DeleteBucket.
(** The error of a deletion is passed on as it is. *)
Definition cleanupArchitectureStacks (input : FilterInput) : M Cloud unit :=
  clean_all "architecture stacks" (ListArchitectureStacks input) (for_each DeleteStack) input.

Definition skipIRATest : bool := String.eqb (Getenv "SKIP_IRA_TEST") "true".
Definition cleanupRolesAnywhereProfiles (input : FilterInput) : M Cloud unit :=
  if skipIRATest then mret tt else
  clean "Roles Anywhere profiles" anywhere_ListProfiles (String.append "deleting Roles Anywhere profile ")
    DeleteProfile input.
Definition cleanupRolesAnywhereTrustAnchors (input : FilterInput) : M Cloud unit :=
  if skipIRATest then mret tt else
  clean "Roles Anywhere trust anchors" anywhere_ListTrustAnchors (String.append "deleting Roles Anywhere trust anchor ")
    DeleteTrustAnchor input.
Definition cleanupIAMRoles : FilterInput → M Cloud unit :=
  clean "IAM roles" iam_ListRoles (String.append "deleting IAM role ") DeleteRole.

Definition cleanupPeeringConnections : FilterInput → M Cloud unit :=
  clean "peering connections" ListPeeringConnections (String.append "deleting peering connection ")
    DeletePeeringConnection.
Definition cleanupInternetGateways : FilterInput → M Cloud unit :=
  clean "internet gateways" ListInternetGateways (String.append "deleting internet gateway ") DeleteInternetGateway.
Definition cleanupNetworkInterfaces (input : FilterInput) : M Cloud unit :=
  vpcs ← map_err (EWrap "listing VPCs") (ListVPCs input);
  interfaces ← collect (λ vpc,
    map_err (EWrap ("listing network interfaces for VPC " +:+ vpc)) (ListNetworkInterfaces vpc)) vpcs;
  if DryRun input then mret tt else
  for_each (λ id, map_err (EWrap ("deleting network interface " +:+ id)) (DeleteNetworkInterface id)) interfaces.
Definition cleanupTransitGateways : FilterInput → M Cloud unit :=
  clean "transit gateways" ListTransitGateways (String.append "deleting transit gateway ") DeleteTransitGateway.
Definition cleanupSubnets : FilterInput → M Cloud unit :=
  clean "subnets" ListSubnets (String.append "deleting subnet ") DeleteSubnet.
Definition cleanupRouteTables : FilterInput → M Cloud unit :=
  clean "route tables" ListRouteTables (String.append "deleting route table ") DeleteRouteTable.
Definition cleanupSecurityGroups : FilterInput → M Cloud unit :=
  clean "security groups" ListSecurityGroups (String.append "deleting security group ") DeleteSecurityGroup.
Definition cleanupVPCs : FilterInput → M Cloud unit :=
  clean "VPCs" ListVPCs (String.append "deleting VPC ") DeleteVPC.

Definition cleanupKeyPairs : FilterInput → M Cloud unit :=
  clean "key pairs" ListKeyPairs (String.append "deleting key pair ") DeleteKeyPair.
Definition cleanupSSMParameters : FilterInput → M Cloud unit :=
  clean "SSM parameters" ListParameters (String.append "deleting SSM parameter ") DeleteParameter.
Definition cleanupSSMManagedInstances : FilterInput → M Cloud unit :=
  clean "managed instances" ListManagedInstances (λ _, "deleting managed instance") DeleteManagedInstance.
Definition cleanupSSMHybridActivations : FilterInput → M Cloud unit :=
  clean "activations" ListActivations (λ _, "deleting activation") DeleteActivation.
Definition cleanupCloudWatchLogGroups : FilterInput → M Cloud unit :=
  clean "CloudWatch log groups" ListLogGroups (String.append "deleting CloudWatch log group ") DeleteLogGroup.

(** ** One kind after another (sweeper.go) *)

Record Cleanup := { Cleanup_run : FilterInput → M Cloud unit; Cleanup_Failure : string }.

(** What uses a resource goes before it. *)
Definition cleanups : list Cleanup := [
  {| Cleanup_run := cleanupFSxFileSystems; Cleanup_Failure := "cleaning up FSx file systems" |};
  {| Cleanup_run := cleanupEC2Instances; Cleanup_Failure := "cleaning up EC2 instances" |};
  {| Cleanup_run := cleanupIAMInstanceProfiles; Cleanup_Failure := "cleaning up IAM instance profiles" |};
  {| Cleanup_run := cleanupCredentialStacks; Cleanup_Failure := "cleaning up credential stacks" |};
  {| Cleanup_run := cleanupManagedNodeGroups; Cleanup_Failure := "cleaning up managed node groups" |};
  {| Cleanup_run := cleanupEKSClusters; Cleanup_Failure := "cleaning up EKS clusters" |};
  {| Cleanup_run := emptyS3PodIdentityBuckets; Cleanup_Failure := "emptying S3 pod identity buckets" |};
  {| Cleanup_run := cleanupArchitectureStacks; Cleanup_Failure := "cleaning up architecture stacks" |};
  {| Cleanup_run := cleanupRolesAnywhereProfiles; Cleanup_Failure := "cleaning up Roles Anywhere profiles" |};
  {| Cleanup_run := cleanupRolesAnywhereTrustAnchors; Cleanup_Failure := "cleaning up Roles Anywhere trust anchors" |};
  {| Cleanup_run := cleanupIAMRoles; Cleanup_Failure := "cleaning up IAM roles" |};
  {| Cleanup_run := cleanupPeeringConnections; Cleanup_Failure := "cleaning up peering connections" |};
  {| Cleanup_run := cleanupInternetGateways; Cleanup_Failure := "cleaning up internet gateways" |};
  {| Cleanup_run := cleanupNetworkInterfaces; Cleanup_Failure := "cleaning up network interfaces" |};
  {| Cleanup_run := cleanupTransitGateways; Cleanup_Failure := "cleaning up transit gateways" |};
  {| Cleanup_run := cleanupSubnets; Cleanup_Failure := "cleaning up subnets" |};
  {| Cleanup_run := cleanupRouteTables; Cleanup_Failure := "cleaning up route tables" |};
  {| Cleanup_run := cleanupSecurityGroups; Cleanup_Failure := "cleaning up security groups" |};
  {| Cleanup_run := cleanupVPCs; Cleanup_Failure := "cleaning up VPCs" |};
  {| Cleanup_run := cleanupS3PodIdentityBuckets; Cleanup_Failure := "cleaning up S3 pod identity buckets" |};
  {| Cleanup_run := cleanupKeyPairs; Cleanup_Failure := "cleaning up key pairs" |};
  {| Cleanup_run := cleanupSSMParameters; Cleanup_Failure := "cleaning up SSM parameters" |};
  {| Cleanup_run := cleanupSSMManagedInstances; Cleanup_Failure := "cleaning up SSM managed instances" |};
  {| Cleanup_run := cleanupSSMHybridActivations; Cleanup_Failure := "cleaning up SSM hybrid activations" |};
  {| Cleanup_run := cleanupCloudWatchLogGroups; Cleanup_Failure := "cleaning up CloudWatch log groups" |}].

(** [errors.Is] for the context's errors and [errors.As] for that of the
    program that provides credentials, which have expired. *)
Context (stops : error → bool).

Fixpoint sweep (cs : list Cleanup) (input : FilterInput) (allErrors : list error) : M Cloud (list error) :=
  match cs with
  | [] => mret allErrors
  | c :: cs =>
      err ← attempt (Cleanup_run c input);
      match err with
      | None => sweep cs input allErrors
      | Some e =>
          if stops e then mret (allErrors ++ [e])
          else sweep cs input (allErrors ++ [EWrap (Cleanup_Failure c) e])
      end
  end.
Definition Sweeper_sweep (cs : list Cleanup) (input : FilterInput) : M Cloud unit :=
  errs ← sweep cs input [];
  of_option (errors_Join errs).
Definition Sweep (input : SweeperInput) : M Cloud unit := Sweeper_sweep cleanups input.
End Sweep.

(** ** The command (cmd/e2e-test/sweeper/sweeper.go) *)

Section Sweeper.
Context `{Env} `{E2eEnv}.

Record SweeperCommand := {
  sw_clusterPrefix : string; sw_clusterName : string; sw_ageThreshold : Z; sw_dryRun : bool;
  sw_all : bool; sw_eksEndpoint : string;
}.
Definition NewSweeperCommand : SweeperCommand := {|
  sw_clusterPrefix := ""; sw_clusterName := ""; sw_ageThreshold := 24 * Hour; sw_dryRun := false;
  sw_all := false; sw_eksEndpoint := "" |}.

Definition sweeper_input (s : SweeperCommand) : SweeperInput := {|
  AllClusters := sw_all s; ClusterNamePrefix := sw_clusterPrefix s; ClusterName := sw_clusterName s;
  InstanceAgeThreshold := sw_ageThreshold s; DryRun := sw_dryRun s |}.
Definition check_flags (s : SweeperCommand) : option error :=
  let prefix := negb (String.eqb (sw_clusterPrefix s) "") in
  let name := negb (String.eqb (sw_clusterName s) "") in
  if prefix && name then Some (ENew "cannot use --cluster-prefix and --cluster-name together")
  else if prefix && sw_all s then Some (ENew "cannot use --cluster-prefix and --all together")
  else if name && sw_all s then Some (ENew "cannot use --cluster-name and --all together")
  else if negb prefix && negb name && negb (sw_all s)
  then Some (ENew "either --cluster-prefix, --cluster-name, or --all must be specified")
  else None.
Definition SweeperCommand_Run (s : SweeperCommand) : M Host unit :=
  of_option (check_flags s);;
  aws ← map_err (EWrap "reading AWS configuration")
          (call "config.LoadDefaultConfig" (NewAWSConfig "" "nodeadm-e2e-test-sweeper-cmd"));
  map_err (EWrap "error cleaning up e2e resources")
    (Sweeper_Run aws (sw_eksEndpoint s) (sweeper_input s) None).

End Sweeper.

(** ** Properties *)

(** The resources that a filter selects, by their tags and date. *)
Definition selected (now : Z) (input : FilterInput) (tags : list Tag) (created : Z) : Prop :=
  let cluster := getClusterTagValue tags in
  cluster ≠ "" ∧
  (ClusterName input ≠ "" ∧ cluster = ClusterName input ∨
   ClusterName input = "" ∧ InstanceAgeThreshold input < Sub now created ∧
     (AllClusters input = true ∨
      ClusterNamePrefix input ≠ "" ∧ HasPrefix cluster (ClusterNamePrefix input) = true)).

Lemma shouldDeleteResource_spec now input r :
  shouldDeleteResource now r input = true ↔ selected now input (resource_Tags r) (CreationTime r).
Proof.
  unfold shouldDeleteResource, selected. set (c := getClusterTagValue (resource_Tags r)).
  destruct (String.eqb_spec c ""); [naive_solver|].
  destruct (String.eqb_spec (ClusterName input) ""); cbn [negb]; [|rewrite String.eqb_eq; naive_solver].
  destruct (AllClusters input); cbn [orb]; [rewrite Z.ltb_lt; naive_solver|].
  destruct (String.eqb_spec (ClusterNamePrefix input) ""); cbn [negb andb]; [naive_solver|].
  destruct (HasPrefix c (ClusterNamePrefix input)); [rewrite Z.ltb_lt|]; naive_solver.
Qed.

(** The flags are taken when they name one way to select. *)
Lemma check_flags_None s :
  check_flags s = None ↔
  ((sw_clusterPrefix s ≠ "" ∧ sw_clusterName s = "" ∧ sw_all s = false) ∨
   (sw_clusterPrefix s = "" ∧ sw_clusterName s ≠ "" ∧ sw_all s = false) ∨
   (sw_clusterPrefix s = "" ∧ sw_clusterName s = "" ∧ sw_all s = true)).
Proof.
  unfold check_flags. destruct (String.eqb_spec (sw_clusterPrefix s) ""), (String.eqb_spec (sw_clusterName s) ""),
    (sw_all s); cbn; naive_solver.
Qed.

Section Errors.
Context (stops : error → bool).

Lemma sweep_grows cs input errs h errs' h' :
  sweep stops cs input errs h = (Return errs', h') → ∃ more, errs' = errs ++ more.
Proof using Type.
  revert errs h. induction cs as [|c cs IH]; intros errs h E; cbn in E.
  { injection E as <- _. exists []. by rewrite app_nil_r. }
  apply bind_Return in E as (err & h1 & _ & E). destruct err as [e|]; [|by apply IH in E].
  destruct (stops e); [injection E as <- _; by eexists|]. apply IH in E as [more ->]. rewrite <- app_assoc. by eexists.
Qed.

(** A sweep reports success exactly when every cleanup, in order, did: no
    failure is forgotten, though the cleanups go on after one. *)
Lemma sweep_ok cs input h h' :
  Sweeper_sweep stops cs input h = (Return tt, h') ↔ for_each (λ c, Cleanup_run c input) cs h = (Return tt, h').
Proof using Type.
  unfold Sweeper_sweep. rewrite bind_Return. split.
  - intros (errs & h1 & E & EJ). destruct errs as [|e errs]; [|done]. injection EJ as <-.
    revert h E. induction cs as [|c cs IH]; intros h E; cbn in E |- *; [by injection E as <-|].
    apply bind_Return in E as (err & h2 & EA & E). apply bind_Return. exists tt, h2.
    apply attempt_Return in EA. destruct err as [e|]; [exfalso|by split; [|apply IH]].
    destruct (stops e); [done|]. by apply sweep_grows in E as [more ?].
  - intros E. exists [], h'. split; [|done]. revert h E.
    induction cs as [|c cs IH]; intros h E; cbn in E |- *; [by injection E as <-|].
    apply bind_Return in E as ([] & h1 & EC & E). apply bind_Return. exists None, h1. split; [|by apply IH].
    unfold attempt, try, mbind, M_bind. by rewrite EC.
Qed.
End Errors.
