(* ===== verification/SweepProps.v ===== *)
(** * What a sweep deletes

    Against an account whose services tell the truth, a sweep changes only
    resources that the filter selects by their own tags and age, or what
    hangs on such a resource, whatever fails on the way; and if it reports
    success it has deleted all that it listed. *)

From S2P Require Import Prelude GoStrings Retry GoTime E2e Cloud VpcCleaner Cleaners SweepLogic Sweeper.
#[local] Open Scope Z_scope.

(** ** The account *)

Inductive Kind :=
  | KInstance | KKeyPair | KPeering | KVpc | KInternetGateway | KSubnet | KRouteTable | KSecurityGroup
  | KTransitGateway | KFileSystem | KRole | KInstanceProfile | KStack | KCluster | KNodegroup (cluster : string)
  | KBucket | KProfile | KTrustAnchor | KActivation | KManagedInstance | KParameter | KLogGroup.
(** The kinds whose creation is only known from a tag. *)
Definition dated_by_tag (k : Kind) : bool :=
  match k with
  | KPeering | KVpc | KInternetGateway | KSubnet | KRouteTable | KSecurityGroup | KTransitGateway => true
  | _ => false
  end.

Record Account := {
  tags_of : Kind → string → list Tag;
  created_of : Kind → string → Z;
  (** The name of a Roles Anywhere resource by its identifier. *)
  anywhere_name : Kind → string → string;
  fs_type : string → string;
  fs_vpc : string → string;
  interface_vpc : string → string;
  interface_attachment : string → option (option string);
  (** The transit gateway of an attachment. *)
  attachment_gateway : string → string;
}.

Fixpoint creation_tag (tags : list Tag) : option string :=
  match tags with
  | [] => None
  | t :: tags => if String.eqb (tag_Key t) CreationTimeTagKey then Some (tag_Value t) else creation_tag tags
  end.

Section Account.
Context (acc : Account) (start finish : Z).

(** The time is one of the sweep's. *)
Definition during (t : Z) : Prop := start <= t <= finish.
(** Without its tag a resource is taken for one that the sweep saw appear. *)
Definition dated (k : Kind) (id : string) (t : Z) : Prop :=
  if dated_by_tag k
  then match creation_tag (tags_of acc k id) with Some v => Parse_RFC3339 v = Ok t | None => during t end
  else t = created_of acc k id.
Definition sel (input : FilterInput) (k : Kind) (id : string) : Prop :=
  ∃ now created, during now ∧ dated k id created ∧ selected now input (tags_of acc k id) created.

(** A Lustre file system in a VPC that is selected, which the code takes for
    one without tags. *)
Definition orphan (input : FilterInput) (id : string) : Prop :=
  fs_type acc id = "LUSTRE" ∧ sel input KVpc (fs_vpc acc id) ∧ 0 < InstanceAgeThreshold input ∧
  ∃ now, during now ∧ InstanceAgeThreshold input < Sub now (created_of acc KFileSystem id).

(** What a sweep may change. *)
Definition allowed (input : FilterInput) (ch : Change) : Prop :=
  match ch with
  | ec2_TerminateInstances ids => Forall (sel input KInstance) ids
  | ec2_DeleteKeyPair id => sel input KKeyPair id
  | ec2_DeleteVpcPeeringConnection id => sel input KPeering id
  | ec2_DeleteVpc id => sel input KVpc id
  | ec2_DetachInternetGateway id _ | ec2_DeleteInternetGateway id => sel input KInternetGateway id
  | ec2_DeleteSubnet id => sel input KSubnet id
  | ec2_DeleteRouteTable id => sel input KRouteTable id
  | ec2_DeleteSecurityGroup id => sel input KSecurityGroup id
  | ec2_DeleteNetworkInterface id =>
      sel input KVpc (interface_vpc acc id) ∧ attached (interface_attachment acc id) = false
  | ec2_DeleteTransitGatewayVpcAttachment a =>
      ∃ i, a = Some i ∧ sel input KTransitGateway (attachment_gateway acc i)
  | ec2_DeleteTransitGateway id => sel input KTransitGateway id
  | fsx_DeleteFileSystem id => sel input KFileSystem id ∨ orphan input id
  | iam_RemoveRoleFromInstanceProfile profile role =>
      sel input KRole role ∨ ∃ p, profile = Some p ∧ sel input KInstanceProfile p
  | iam_DeleteInstanceProfile profile => sel input KInstanceProfile profile
  | iam_DetachRolePolicy role _ | iam_DeleteRolePolicy role _ | iam_DeleteRole role => sel input KRole role
  | cfn_DeleteStack stack _ => sel input KStack stack ∧ HasPrefix stack TestCredentialsStackNamePrefix = true
  | eks_DeleteNodegroup cluster nodegroup => sel input KCluster cluster ∧ sel input (KNodegroup cluster) nodegroup
  | eks_DeleteCluster cluster => sel input KCluster cluster
  | s3_DeleteObjects bucket _ | s3_DeleteBucket bucket => sel input KBucket bucket
  | rolesanywhere_DeleteProfile id =>
      sel input KProfile id ∧ HasPrefix (anywhere_name acc KProfile id) TestCredentialsStackNamePrefix = true
  | rolesanywhere_DeleteTrustAnchor id =>
      sel input KTrustAnchor id ∧ HasPrefix (anywhere_name acc KTrustAnchor id) TestCredentialsStackNamePrefix = true
  | ssm_DeleteActivation id => sel input KActivation id
  | ssm_DeregisterManagedInstance id => sel input KManagedInstance id
  | ssm_DeleteParameter name => sel input KParameter name
  | logs_DeleteLogGroup name =>
      sel input KLogGroup name ∧
      ∃ now, during now ∧ clusterLogGroupRetentionThreshold <= Sub now (created_of acc KLogGroup name)
  end.

(** ** Services that tell the truth *)

(** What is described exists, with these tags and this date. *)
Definition describes (k : Kind) (id : option string) (created : option Z) (tags : list SdkTag) : Prop :=
  ∃ i, id = Some i ∧ created_of acc k i = ToTime created ∧ tags_of acc k i = convertEC2Tags tags.
Definition describes_tags (k : Kind) (r : VpcResource) : Prop :=
  ∃ i, vpcres_Id r = Some i ∧ tags_of acc k i = convertEC2Tags (vpcres_Tags r).
(** The date comes with the listing, the tags on demand. *)
Definition describes_date (k : Kind) (d : Dated) : Prop :=
  ∃ i, dated_Name d = Some i ∧ created_of acc k i = ToTime (dated_Date d).
Definition tags_on_demand (k : Kind) (answer : option string → Cloud → result (list SdkTag)) : Prop :=
  ∀ i c tags, answer (Some i) c = Ok tags → tags_of acc k i = convertEC2Tags tags.

End Account.

Class Truthful `{CloudEnv} `{MapOrder} (acc : Account) (start finish : Z) := {
  tells_time c : during start finish (Now c);
  tells_instances fs :
    tells (Forall (Forall (λ i, describes acc KInstance (instance_InstanceId i) (LaunchTime i) (instance_Tags i))))
      (DescribeInstances fs);
  tells_keypairs fs c l : DescribeKeyPairs fs c = Ok l →
    Forall (λ p, describes acc KKeyPair (KeyPairId p) (CreateTime p) (keypair_Tags p)) l;
  tells_peerings fs : tells (Forall (λ p, describes_tags acc KPeering p.1)) (DescribeVpcPeeringConnections fs);
  tells_vpcs fs : tells (Forall (describes_tags acc KVpc)) (DescribeVpcs fs);
  tells_gateways fs : tells (Forall (describes_tags acc KInternetGateway)) (DescribeInternetGateways fs);
  tells_subnets fs : tells (Forall (describes_tags acc KSubnet)) (DescribeSubnets fs);
  tells_route_tables fs : tells (Forall (λ p, describes_tags acc KRouteTable p.1)) (DescribeRouteTables fs);
  tells_groups fs : tells (Forall (λ p, describes_tags acc KSecurityGroup p.1)) (DescribeSecurityGroups fs);
  tells_interfaces vpc :
    tells (Forall (λ p, ∃ i, p.1 = Some i ∧ interface_vpc acc i = vpc ∧ interface_attachment acc i = p.2))
      (DescribeNetworkInterfaces [{| Filter_Name := "vpc-id"; Values := [vpc] |}]);
  tells_transit fs : tells (Forall (λ p, describes_tags acc KTransitGateway p.1)) (DescribeTransitGateways fs);
  tells_attachments id c l :
    DescribeTransitGatewayAttachments [{| Filter_Name := "transit-gateway-id"; Values := [id] |}] c = Ok l →
    Forall (λ a, ∃ i, a = Some i ∧ attachment_gateway acc i = id) l;
  tells_file_systems :
    tells (Forall (λ f, describes acc KFileSystem (FileSystemId f) (fs_CreationTime f) (fs_Tags f) ∧
      ∀ i, FileSystemId f = Some i → fs_type acc i = FileSystemType f ∧ fs_vpc acc i = ToString (fs_VpcId f)))
      DescribeFileSystems;
  tells_roles path : tells (Forall (describes_date acc KRole)) (ListRoles path);
  tells_role_tags : tags_on_demand acc KRole ListRoleTags;
  tells_profile n c p : GetInstanceProfile n c = Ok (Some p) →
    InstanceProfileName p = n ∧ describes acc KInstanceProfile n (profile_CreateDate p) (profile_Tags p);
  tells_stacks statuses :
    tells (Forall (λ s, ∃ i, StackName s = Some i ∧ created_of acc KStack i = ToTime (stack_CreationTime s)))
      (ListStacks statuses);
  tells_stack_tags i c s l : DescribeStacks (Some i) c = Ok (s :: l) → tags_of acc KStack i = convertEC2Tags (stack_Tags s);
  tells_cluster i c r : DescribeCluster i c = Ok (Some r) →
    created_of acc KCluster i = ToTime (CreatedAt r) ∧ tags_of acc KCluster i = map_tags (eks_Tags r);
  tells_nodegroup cl i c r : DescribeNodegroup cl i c = Ok (Some r) →
    created_of acc (KNodegroup cl) i = ToTime (CreatedAt r) ∧ tags_of acc (KNodegroup cl) i = map_tags (eks_Tags r);
  tells_buckets prefix : tells (Forall (describes_date acc KBucket)) (ListBuckets prefix);
  tells_bucket_tags : tags_on_demand acc KBucket GetBucketTagging;
  tells_anywhere (k : bool) :
    let kind := if k then KProfile else KTrustAnchor in
    tells (Forall (λ d, ∃ i, anywhere_Id d = Some i ∧ anywhere_Name d = Some (anywhere_name acc kind i) ∧
      created_of acc kind i = ToTime (anywhere_CreatedAt d) ∧
      ∀ c tags, anywhere_ListTags (anywhere_Arn d) c = Ok tags → tags_of acc kind i = convertEC2Tags tags))
      (if k then ListProfiles else ListTrustAnchors);
  tells_activations :
    tells (Forall (λ a, describes acc KActivation (activation_Id a) (CreatedDate a) (activation_Tags a))) DescribeActivations;
  tells_managed fs :
    tells (Forall (λ m, ∃ i, managed_InstanceId m = Some i ∧
      created_of acc KManagedInstance i = ToTime (RegistrationDate m))) (DescribeInstanceInformation fs);
  tells_parameters : tells (Forall (describes_date acc KParameter)) DescribeParameters;
  tells_ssm_tags i c tags :
    (ssm_ListTags "ManagedInstance" i c = Ok tags → tags_of acc KManagedInstance i = convertEC2Tags tags) ∧
    (ssm_ListTags "Parameter" i c = Ok tags → tags_of acc KParameter i = convertEC2Tags tags);
  tells_log_groups prefix :
    tells (Forall (λ g, ∃ i, LogGroupName g = Some i ∧
      created_of acc KLogGroup i = UnixMilli (default 0 (log_CreationTime g)))) (DescribeLogGroups prefix);
  tells_log_tags values :
    tells (Forall (λ m, ∀ i, parseLogGroupNameFromARN (ToString (ResourceARN m)) = Some i →
      tags_of acc KLogGroup i = convertEC2Tags (mapping_Tags m))) (GetResources "logs:log-group" values);
}.

Section Sweep.
Context `{CloudEnv} `{MapOrder} (acc : Account) (start finish : Z) `{!Truthful acc start finish}.
Context (input : FilterInput).

#[local] Abbreviation Sel := (sel acc start finish input).
Definition may (ch : Change) : Prop := DryRun input = false ∧ allowed acc start finish input ch.
#[local] Abbreviation runs := (does may).

(** ** Listings list what is selected *)

Lemma does_decide r :
  runs (λ b, b = true → ∃ now, during start finish now ∧ selected now input (resource_Tags r) (CreationTime r))
    (decide_delete r input).
Proof using Truthful0.
  eapply does_bind; [apply does_clock|]. intros now [c ->]. apply does_ret. intros E%shouldDeleteResource_spec.
  exists (Now c). split; [apply tells_time|done].
Qed.
Lemma does_decide_sel k i r :
  dated acc start finish k i (CreationTime r) → resource_Tags r = tags_of acc k i →
  runs (λ b, b = true → Sel k i) (decide_delete r input).
Proof using Truthful0.
  intros Hd Ht. eapply does_mono; [apply does_decide|]. intros b Hb E. destruct (Hb E) as (now & Hn & Hs).
  exists now, (CreationTime r). by rewrite <- Ht.
Qed.
Lemma does_should_delete k i id created tags :
  dated_by_tag k = false → created_of acc k i = ToTime created → tags_of acc k i = convertEC2Tags tags →
  runs (λ b, b = true → Sel k i) (should_delete id created tags input).
Proof using Truthful0.
  intros Hk Hc Ht. eapply does_bind; [apply does_deref_tags|]. intros l ->. eapply does_bind; [apply does_deref|].
  intros j _. apply does_decide_sel; [|done]. by unfold dated; rewrite Hk.
Qed.
(** The usual item: decided by the resource, named by its identifier. *)
Lemma appends_sel k i b : runs (λ b, b = true → Sel k i) b → runs (Forall (Sel k)) (append_if b (Some i)).
Proof using Type. intros Hb. eapply does_append_if; [apply Hb|]. by intros j [= <-]. Qed.

Lemma does_creation k i tags :
  dated_by_tag k = true → tags_of acc k i = convertEC2Tags tags →
  runs (dated acc start finish k i) (creationTimeFromTags tags).
Proof using Truthful0.
  intros Hk Ht. unfold dated. rewrite Hk, Ht. clear Ht. induction tags as [|t tags IH]; cbn.
  - eapply does_mono; [apply does_clock|]. intros ? [c ->]. apply tells_time.
  - destruct (String.eqb _ _); [|done]. apply does_map_err. eapply does_mono; [apply does_of_result|done].
Qed.
Lemma does_vpc_resource k r :
  dated_by_tag k = true → describes_tags acc k r →
  runs (λ res, ∃ i, vpcres_Id r = Some i ∧ dated acc start finish k i (CreationTime res) ∧
    resource_Tags res = tags_of acc k i) (vpc_resource r).
Proof using Truthful0.
  intros Hk (i & Hi & Ht). eapply does_bind; [by eapply does_map_err, does_creation|]. intros t Hd. apply does_ret.
  exists i. cbn. by rewrite Ht.
Qed.
Lemma does_vpc_item k r :
  dated_by_tag k = true → describes_tags acc k r → runs (Forall (Sel k)) (vpc_item input r).
Proof using Truthful0.
  intros Hk Hr. eapply does_bind; [by eapply does_vpc_resource|]. intros res (i & -> & Hd & Ht).
  by apply appends_sel, does_decide_sel.
Qed.
#[local] Hint Resolve does_vpc_item : nodeadm.

Lemma lists_instances : runs (Forall (Sel KInstance)) (ListTaggedInstances input).
Proof using Truthful0.
  eapply does_listed; [apply tells_instances|]. intros l Hl. eapply does_collect; [done|]. cbn.
  intros x (i & Hi & Hc & Ht). rewrite Hi. apply appends_sel. unfold shouldTerminateInstance.
  eapply does_bind; [apply does_deref|]. intros st _. destruct (String.eqb st _); [by apply does_ret|].
  eapply does_bind; [apply does_deref|]. intros id _. by apply does_decide_sel; cbn.
Qed.
Lemma lists_keypairs : runs (Forall (Sel KKeyPair)) (ListKeyPairs input).
Proof using Truthful0.
  eapply does_bind; [apply does_map_err, does_ask|]. intros l [c Hl].
  eapply does_collect; [by eapply tells_keypairs|]. intros x (i & Hi & Hc & Ht). rewrite Hi. apply appends_sel.
  unfold shouldDeleteKeyPair. eapply does_bind; [apply does_deref|]. intros id _. by apply does_decide_sel; cbn.
Qed.
Lemma lists_peerings : runs (Forall (Sel KPeering)) (ListPeeringConnections input).
Proof using Truthful0.
  eapply does_listed; [apply tells_peerings|]. intros [r st] Hr. eapply does_bind; [apply does_deref|].
  intros code _. destruct (_ || _); [by apply does_ret|auto with nodeadm].
Qed.
Lemma lists_vpcs : runs (Forall (Sel KVpc)) (ListVPCs input).
Proof using Truthful0.
  eapply does_listed; [apply tells_vpcs|]. intros r Hr. eapply does_bind; [by eapply (does_vpc_resource KVpc)|].
  intros res (i & -> & Hd & Ht). by apply appends_sel, does_decide_sel.
Qed.
Lemma lists_gateways : runs (Forall (Sel KInternetGateway)) (ListInternetGateways input).
Proof using Truthful0. eapply does_listed; [apply tells_gateways|]. auto with nodeadm. Qed.
Lemma lists_subnets : runs (Forall (Sel KSubnet)) (ListSubnets input).
Proof using Truthful0. eapply does_listed; [apply tells_subnets|]. auto with nodeadm. Qed.
Lemma lists_route_tables : runs (Forall (Sel KRouteTable)) (ListRouteTables input).
Proof using Truthful0.
  eapply does_listed; [apply tells_route_tables|]. intros [r assoc] Hr.
  eapply does_bind; [by eapply (does_vpc_resource KRouteTable)|]. cbn. intros res (i & -> & Hd & Ht).
  destruct (isMain assoc); [by apply does_ret|]. by apply appends_sel, does_decide_sel.
Qed.
Lemma lists_groups : runs (Forall (Sel KSecurityGroup)) (ListSecurityGroups input).
Proof using Truthful0.
  eapply does_listed; [apply tells_groups|]. intros [r name] Hr. destruct (String.eqb _ _); [by apply does_ret|].
  auto with nodeadm.
Qed.
Lemma lists_transit : runs (Forall (Sel KTransitGateway)) (ListTransitGateways input).
Proof using Truthful0.
  eapply does_listed; [apply tells_transit|]. intros [r st] Hr. destruct (_ || _); [by apply does_ret|].
  auto with nodeadm.
Qed.
Lemma lists_interfaces vpc :
  runs (Forall (λ i, interface_vpc acc i = vpc ∧ attached (interface_attachment acc i) = false))
    (ListNetworkInterfaces vpc).
Proof using Truthful0.
  eapply does_listed; [apply tells_interfaces|]. intros [id a] (i & Hi & Hv & Ha). cbn in *. subst.
  apply does_ret. destruct (attached _) eqn:E; by repeat constructor.
Qed.

Lemma does_orphan i fs vpcs :
  created_of acc KFileSystem i = ToTime (fs_CreationTime fs) → fs_type acc i = FileSystemType fs →
  fs_vpc acc i = ToString (fs_VpcId fs) → Forall (Sel KVpc) vpcs → ∀ now, during start finish now →
  isOrphanedTestFileSystem now fs input (list_to_set vpcs) = true → orphan acc start finish input i.
Proof using Type.
  intros Hc Ht Hv Hs now Hn E. unfold isOrphanedTestFileSystem in E. repeat apply andb_true_iff in E as [E ?].
  apply String.eqb_eq in E. case_bool_decide as Hin; [|done]. apply elem_of_list_to_set in Hin.
  split; [by rewrite Ht|]. split; [rewrite Hv; by eapply Forall_forall in Hs|].
  split; [lia|]. exists now. rewrite Hc. split; [done|lia].
Qed.
Lemma lists_file_systems :
  runs (Forall (λ i, Sel KFileSystem i ∨ orphan acc start finish input i)) (ListTaggedFileSystems input).
Proof using Truthful0.
  eapply does_bind; [apply does_map_err, does_map_err, lists_vpcs|]. intros vpcs Hv.
  eapply does_listed; [apply tells_file_systems|]. intros fs [(i & Hi & Hc & Ht) Hf].
  destruct (Hf i Hi) as [Hty Hvpc]. rewrite Hi. eapply does_bind.
  { by apply (does_decide_sel KFileSystem i); cbn. }
  intros [|] Hb.
  - eapply does_bind; [apply does_deref|]. intros j [= <-]. apply does_ret. repeat constructor. auto.
  - eapply does_bind; [apply does_clock|]. intros now [c ->].
    eapply (does_append_if _ (orphan acc start finish input i)); [|by intros j [= <-]; auto].
    apply does_ret. eapply does_orphan; eauto. apply tells_time.
Qed.

Lemma lists_roles : runs (Forall (Sel KRole)) (iam_ListRoles input).
Proof using Truthful0.
  eapply does_listed; [apply tells_roles|]. intros r (i & Hi & Hc). rewrite Hi.
  eapply does_unless_gone; [apply does_ask|by apply does_ret|]. intros tags [c Hg].
  eapply appends_sel, does_should_delete; [done..|]. by eapply tells_role_tags.
Qed.
Lemma lists_profiles : runs (Forall (Sel KInstanceProfile)) (iam_ListInstanceProfiles input).
Proof using Truthful0.
  eapply (does_listed _ (λ _, True)); [by intros c; apply Forall_true; intros; apply Forall_true|].
  intros name _. eapply does_bind; [apply does_try, does_ask|]. intros [p|e] Hp.
  - destruct (Hp _ eq_refl) as [c Hg]. eapply (does_append_if _ (∃ i, name = Some i ∧ Sel KInstanceProfile i)).
    + eapply does_bind; [apply does_deref|]. intros q ->. apply tells_profile in Hg as [_ (i & -> & Hc & Ht)].
      eapply does_mono; [by eapply (does_should_delete KInstanceProfile i)|]. eauto.
    + by intros j -> (i & [= <-] & Hs).
  - destruct (NoSuchEntity e); [by apply does_ret|]. eapply does_bind; [apply does_deref|]. intros. apply does_throw.
Qed.
Lemma lists_stacks want : runs (Forall (λ s, Sel KStack s ∧ want s = true)) (listStacks input want).
Proof using Truthful0.
  eapply does_listed; [apply tells_stacks|]. intros s (i & Hi & Hc). rewrite Hi.
  eapply does_bind; [apply does_deref|]. intros name [= <-].
  destruct (want i) eqn:Hw; cbn [negb]; [|by apply does_ret].
  eapply does_unless_gone; [apply does_ask|by apply does_ret|]. intros [|st l] [c Hg]; [apply does_throw|].
  eapply (does_append_if _ (Sel KStack i)); [|by intros j [= <-]].
  eapply does_should_delete; [done..|]. by eapply tells_stack_tags.
Qed.
Lemma lists_credential_stacks :
  runs (Forall (λ s, Sel KStack s ∧ HasPrefix s TestCredentialsStackNamePrefix = true)) (ListCredentialStacks input).
Proof using Truthful0.
  eapply does_mono; [apply lists_stacks|]. intros l Hl. eapply Forall_impl; [done|].
  by intros s [? [? ?]%andb_true_iff].
Qed.
Lemma lists_architecture_stacks :
  runs (Forall (λ s, Sel KStack s ∧ HasPrefix s TestCredentialsStackNamePrefix = true)) (ListArchitectureStacks input).
Proof using Truthful0.
  eapply does_mono; [apply lists_stacks|]. intros l Hl. eapply Forall_impl; [done|]. cbn.
  intros s [? Hp]. split; [done|]. apply HasPrefix_spec in Hp as [t ->]. by apply HasPrefix_spec; eexists.
Qed.

Lemma does_should_delete_eks k i r :
  dated_by_tag k = false →
  (∀ x, r = Some x → created_of acc k i = ToTime (CreatedAt x) ∧ tags_of acc k i = map_tags (eks_Tags x)) →
  runs (λ b, b = true → Sel k i) (should_delete_eks r input).
Proof using Truthful0.
  intros Hk Hr. eapply does_bind; [apply does_deref|]. intros x ->. destruct (Hr x eq_refl) as [Hc Ht].
  eapply does_bind; [apply does_deref|]. intros name _. apply does_decide_sel; [|done].
  by unfold dated; rewrite Hk.
Qed.
Lemma cluster_decided i c r :
  DescribeCluster i c = Ok r → runs (λ b, b = true → Sel KCluster i) (shouldDeleteCluster r input).
Proof using Truthful0. intros Hg. apply does_should_delete_eks; [done|]. intros x ->. by eapply tells_cluster. Qed.
Lemma lists_clusters : runs (Forall (Sel KCluster)) (ListEKSClusters input).
Proof using Truthful0.
  eapply (does_listed _ (λ _, True)); [by intros c; apply Forall_true; intros; apply Forall_true|]. intros name _.
  eapply does_unless_gone; [apply does_ask|by apply does_ret|]. intros r [c Hg].
  by eapply appends_sel, cluster_decided.
Qed.
Lemma lists_nodegroups :
  runs (Forall (λ g, Sel KCluster (ng_ClusterName g) ∧ Sel (KNodegroup (ng_ClusterName g)) (NodeGroupName g)))
    (ListManagedNodeGroups input).
Proof using Truthful0.
  eapply (does_listed _ (λ _, True)); [by intros c; apply Forall_true; intros; apply Forall_true|]. intros name _.
  eapply does_unless_gone; [apply does_ask|by apply does_ret|]. intros r [c Hg].
  eapply does_bind; [by eapply cluster_decided|]. intros [|] Hs; cbn [negb]; [|by apply does_ret].
  eapply (does_listed _ (λ _, True)); [by intros ?; apply Forall_true; intros; apply Forall_true|]. intros ng _.
  eapply does_unless_gone; [apply does_ask|by apply does_ret|]. intros r' [c' Hg'].
  eapply does_bind; [eapply (does_should_delete_eks (KNodegroup name) ng); [done|]|].
  { intros x ->. by eapply tells_nodegroup. }
  intros [|] Hb; apply does_ret; repeat constructor; auto.
Qed.

Lemma lists_buckets : runs (Forall (Sel KBucket)) (s3_ListBuckets input).
Proof using Truthful0.
  eapply does_listed; [apply tells_buckets|]. intros r (i & Hi & Hc). rewrite Hi.
  eapply does_unless_gone; [apply does_ask|by apply does_ret|]. intros tags [c Hg].
  eapply appends_sel, does_should_delete; [done..|]. by eapply tells_bucket_tags.
Qed.
Lemma lists_anywhere (k : bool) op failure :
  let kind := if k then KProfile else KTrustAnchor in
  runs (Forall (λ i, Sel kind i ∧ HasPrefix (anywhere_name acc kind i) TestCredentialsStackNamePrefix = true))
    (listed op failure (if k then ListProfiles else ListTrustAnchors)
      (anywhere_item (if k then shouldDeleteProfile else shouldDeleteTrustAnchor) input)).
Proof using Truthful0.
  intros kind. eapply does_listed; [apply (tells_anywhere k)|]. intros d (i & Hi & Hn & Hc & Ht). fold kind in Hn, Hc, Ht.
  unfold anywhere_item. rewrite Hi, Hn. eapply does_bind; [apply does_deref|]. intros name [= <-].
  destruct (HasPrefix _ _) eqn:Hp; cbn [negb]; [|by apply does_ret].
  eapply does_unless_gone; [apply does_ask|by apply does_ret|]. intros tags [c Hg].
  eapply (does_append_if _ (Sel kind i)); [|by intros j [= <-]].
  destruct k; apply does_should_delete; eauto.
Qed.

Lemma lists_activations : runs (Forall (Sel KActivation)) (ListActivations input).
Proof using Truthful0.
  eapply does_listed; [apply tells_activations|]. intros a (i & Hi & Hc & Ht). rewrite Hi.
  by apply appends_sel, does_should_delete.
Qed.
Lemma lists_managed : runs (Forall (Sel KManagedInstance)) (ListManagedInstances input).
Proof using Truthful0.
  eapply does_listed; [apply tells_managed|]. intros m (i & Hi & Hc). destruct (negb _); [by apply does_ret|].
  rewrite Hi. eapply does_bind; [apply does_deref|]. intros j [= <-].
  eapply does_unless_gone; [apply does_ask|by apply does_ret|]. intros tags [c Hg].
  apply appends_sel, does_should_delete; [done..|]. by eapply tells_ssm_tags.
Qed.
Lemma lists_parameters : runs (Forall (Sel KParameter)) (ListParameters input).
Proof using Truthful0.
  eapply does_listed; [apply tells_parameters|]. intros m (i & Hi & Hc).
  rewrite Hi. eapply does_bind; [apply does_deref|]. intros j [= <-].
  eapply does_unless_gone; [apply does_ask|by apply does_ret|]. intros tags [c Hg].
  apply appends_sel, does_should_delete; [done..|]. by eapply tells_ssm_tags.
Qed.

(** The tags found for an ARN are those of the log group it names. *)
Definition arn_tags (at_ : string * list Tag) : Prop :=
  ∀ i, parseLogGroupNameFromARN at_.1 = Some i → tags_of acc KLogGroup i = at_.2.
Lemma does_log_arns :
  runs (map_Forall (λ arn tags, arn_tags (arn, tags))) (GetResourcesWithClusterTag "logs:log-group" input).
Proof using Truthful0.
  eapply (does_bind _ (Forall arn_tags)).
  - eapply does_listed; [apply tells_log_tags|]. intros m Hm. eapply does_bind; [apply does_deref_tags|].
    intros tags ->. apply does_ret. by repeat constructor.
  - intros l Hl. apply does_ret. assert (map_Forall (λ arn tags, arn_tags (arn, tags)) (∅ : gmap string (list Tag)))
      as Hm by apply map_Forall_empty.
    revert Hm. generalize (∅ : gmap string (list Tag)). induction Hl as [|[a t] l Ha Hl IH]; cbn; [done|].
    intros m Hm. by apply IH, map_Forall_insert_2.
Qed.
Lemma does_log_names :
  runs (map_Forall (λ i tags, tags_of acc KLogGroup i = tags)) (allGroupsWithTags input).
Proof using Truthful0.
  eapply does_bind; [apply does_map_err, does_log_arns|]. intros m Hm.
  assert (Forall arn_tags (map_order m)) as Hl.
  { apply Forall_elem. intros [a t] Hin. rewrite map_order_perm in Hin. by apply elem_of_map_to_list, Hm in Hin. }
  assert (map_Forall (λ i tags, tags_of acc KLogGroup i = tags) (∅ : gmap string (list Tag)))
    as H0' by apply map_Forall_empty.
  revert H0'. generalize (∅ : gmap string (list Tag)). generalize dependent (map_order m). clear m Hm.
  intros l. induction l as [|[a t] l IH]; intros Hl g Hg; cbn; [by apply does_ret|].
  apply Forall_cons in Hl as [Ha Hl]. eapply does_bind; [apply does_deref|]. intros i Hi.
  apply IH; [done|]. apply map_Forall_insert_2; [by apply Ha|done].
Qed.
Lemma lists_log_groups :
  runs (Forall (λ i, allowed acc start finish input (logs_DeleteLogGroup i))) (ListLogGroups input).
Proof using Truthful0.
  eapply does_bind; [apply does_map_err, does_log_names|]. intros groups Hg.
  eapply does_listed; [apply tells_log_groups|]. intros g (i & Hi & Hc). rewrite Hi.
  eapply does_bind; [apply does_deref|]. intros j [= <-].
  destruct (groups !! i) as [tags|] eqn:Hl; [|by apply does_ret]. apply Hg in Hl.
  eapply (does_append_if _ (allowed acc start finish input (logs_DeleteLogGroup i))); [|by intros j [= <-]].
  unfold shouldDeleteLogGroup. rewrite Hi. eapply does_bind; [apply does_deref|]. intros j [= <-].
  eapply does_bind; [apply does_clock|]. intros now [c ->]. cbn [CreationTime].
  destruct (Z.ltb_spec (Sub (Now c) (UnixMilli (default 0 (log_CreationTime g)))) clusterLogGroupRetentionThreshold);
    [by apply does_ret|].
  eapply does_mono; [by apply (does_decide_sel KLogGroup i)|]. intros b Hb E. split; [auto|].
  exists (Now c). rewrite Hc. split; [apply tells_time|done].
Qed.

(** ** Deletions *)

Context (Hdry : DryRun input = false).
#[local] Abbreviation permitted ch := (allowed acc start finish input ch).

Lemma may_allowed ch : permitted ch → may ch.
Proof using Hdry. by split. Qed.
#[local] Hint Resolve may_allowed : nodeadm.

Lemma deletes_instances ids : Forall (Sel KInstance) ids → runs (λ _, True) (DeleteInstances ids).
Proof using Hdry.
  intros Hi. destruct ids; [by apply does_ret|]. eapply does_bind; [by apply does_map_err, does_request, may_allowed|].
  intros _ _. apply does_map_err. eapply does_any, does_ask.
Qed.
Lemma deletes_keypair i : Sel KKeyPair i → runs (λ _, True) (DeleteKeyPair i).
Proof using Hdry. intros Hi. by apply does_map_err, does_request, may_allowed. Qed.
Lemma deletes_peering i : Sel KPeering i → runs (λ _, True) (DeletePeeringConnection i).
Proof using Hdry.
  intros Hi. eapply does_unless_gone; [by apply does_request, may_allowed|by apply does_ret|]. intros _ _.
  apply does_map_err. eapply does_any, does_ask.
Qed.
Lemma deletes_gateway i : Sel KInternetGateway i → runs (λ _, True) (DeleteInternetGateway i).
Proof using Hdry.
  intros Hi. eapply does_unless_gone; [apply does_ask|by apply does_ret|]. intros [|atts l] _; [by apply does_ret|].
  eapply does_bind; [|by intros _ _; apply does_delete, may_allowed].
  eapply (does_for_each _ (λ _, True)); [by apply Forall_true|]. intros a _.
  by apply does_map_err, does_request, may_allowed.
Qed.
Lemma deletes_transit i : Truthful acc start finish → Sel KTransitGateway i → runs (λ _, True) (DeleteTransitGateway i).
Proof using Hdry.
  intros T Hi. eapply does_unless_gone; [apply does_ask|by apply does_ret|]. intros [|g l] _; [by apply does_ret|].
  eapply does_bind; [apply does_map_err, does_ask|]. intros atts [c Ha]. apply tells_attachments in Ha.
  eapply does_bind; [|by intros _ _; apply does_delete, may_allowed].
  eapply does_for_each; [apply Ha|]. cbn. intros a (j & -> & Hj).
  eapply does_bind; [apply does_try, does_request, may_allowed; cbn; rewrite <- Hj in Hi; eauto|].
  intros [[]|e] _; [by apply does_ret|]. eapply does_bind; [apply does_deref|]. intros. apply does_throw.
Qed.
Lemma deletes_file_systems ids :
  Forall (λ i, permitted (fsx_DeleteFileSystem i)) ids → runs (λ _, True) (DeleteFileSystems ids).
Proof using Hdry.
  intros Hi. eapply (does_bind _ (λ _, True)).
  - eapply does_for_each; [apply Hi|]. intros i Ha. by apply does_delete, may_allowed.
  - intros _ _. eapply (does_for_each _ (λ _, True)); [by apply Forall_true|]. intros i _.
    apply does_map_err, does_poll. eapply does_bind; [apply does_try, does_ask|].
    intros [[|]|e] _; [by apply does_ret..|]. destruct (is_type _ e); [by apply does_ret|apply does_throw].
Qed.
Lemma deletes_pages {A} op failure (p : Paginator (list A)) (each : A → M Cloud unit) :
  (∀ a, runs (λ _, True) (each a)) → runs (λ _, True) (role_pages op failure p each).
Proof using Type.
  intros He. induction p as [|next p IH]; cbn; [by apply does_ret|].
  eapply does_unless_gone; [apply does_ask|by apply does_ret|]. intros page _. eapply does_bind; [|intros _ _; apply IH].
  eapply (does_for_each _ (λ _, True)); [by apply Forall_true|]. auto.
Qed.
(** A request whose failure is reported with a pointer that is followed. *)
Lemma deletes_named ch (k : result unit → M Cloud unit) :
  permitted ch → k (Ok tt) = mret tt → (∀ e, runs (λ _, True) (k (Err e))) → runs (λ _, True) (r ← try (request ch); k r).
Proof using Hdry.
  intros Hc Hk He. eapply does_bind; [by apply does_try, does_request, may_allowed|].
  intros [[]|e] _; [by rewrite Hk; apply does_ret|auto].
Qed.
Lemma deletes_role i : Sel KRole i → runs (λ _, True) (DeleteRole i).
Proof using Hdry.
  intros Hi. eapply (does_bind _ (λ _, True)); [|intros _ _; eapply (does_bind _ (λ _, True));
    [|intros _ _; eapply (does_bind _ (λ _, True)); [|intros _ _]]].
  - apply does_map_err. eapply does_unless_gone; [apply does_ask|by apply does_ret|]. intros l _.
    eapply (does_for_each _ (λ _, True)); [by apply Forall_true|]. intros p _.
    apply deletes_named; [by left|done|]. intros e. eapply does_bind; [apply does_deref|]. intros. apply does_throw.
  - apply does_map_err. eapply does_bind; [apply does_gets|]. intros p _. apply deletes_pages. intros arn.
    apply deletes_named; [done|done|]. intros e. destruct (NoSuchEntity e); [by apply does_ret|].
    eapply does_bind; [apply does_deref|]. intros. apply does_throw.
  - apply does_map_err. eapply does_bind; [apply does_gets|]. intros p _. apply deletes_pages. intros name.
    by apply does_delete, may_allowed.
  - by apply does_delete, may_allowed.
Qed.
Lemma deletes_profile i roles : Sel KInstanceProfile i →
  runs (λ _, True) (RemoveRolesFromInstanceProfile roles i) ∧ runs (λ _, True) (DeleteInstanceProfile i).
Proof using Hdry.
  intros Hi. split; [|by apply does_delete, may_allowed].
  eapply (does_for_each _ (λ _, True)); [by apply Forall_true|]. intros r _.
  apply does_map_err, does_request, may_allowed. right. eauto.
Qed.
Lemma deletes_stack i :
  Sel KStack i ∧ HasPrefix i TestCredentialsStackNamePrefix = true → runs (λ _, True) (DeleteStack i).
Proof using Hdry.
  intros Hi. unfold DeleteStack. generalize 3%nat. intros n. induction n as [|n IH]; cbn; [apply does_throw|].
  eapply (does_bind _ (λ _, True)).
  - eapply does_any, does_try. eapply (does_bind _ (λ _, True)).
    + eapply does_any, does_try, does_poll. unfold stack_settled.
      eapply does_bind; [apply does_try, does_ask|]. intros [l|e] _.
      * eapply does_bind; [apply does_deref|]. intros st _. do 2 (case_bool_decide; [by apply does_ret|]).
        eapply (does_bind _ (λ _, True)); [eapply does_any, does_try|intros [|] _; apply does_throw].
        eapply does_bind; [apply does_map_err, does_ask|]. intros ev _.
        eapply does_bind; [apply does_clock|]. intros now _. by apply (does_ret _ (λ _, True)).
      * destruct (IsCFNStackNotFound e); [by apply does_ret|apply does_throw].
    + intros [[]|e] _; [by apply (does_ret _ (λ _, True))|]. eapply does_bind; [apply does_try, does_ask|].
      intros r _. apply does_throw.
  - intros _ _. eapply does_unless_gone; [apply does_ask|by apply does_ret|]. intros l _.
    eapply does_bind; [apply does_deref|]. intros st _.
    eapply does_unless_gone; [by apply does_request, may_allowed|by apply does_ret|]. by intros _ _.
Qed.
Lemma deletes_nodegroup c i :
  Sel KCluster c ∧ Sel (KNodegroup c) i → runs (λ _, True) (DeleteManagedNodeGroup c i).
Proof using Hdry.
  intros Hi. eapply does_unless_gone; [by apply does_request, may_allowed|by apply does_ret|]. intros _ _.
  apply does_map_err. eapply does_any, does_ask.
Qed.
Lemma deletes_cluster i : Sel KCluster i → runs (λ _, True) (DeleteCluster i).
Proof using Hdry.
  intros Hi. eapply (does_unless_gone _ (λ _, True)); [|by apply does_ret|].
  - apply deletes_named; [done|done|]. intros e. destruct (IsAwsError _ e); [|apply does_throw].
    eapply does_bind; [apply does_ask|]. intros r _. by apply does_ret.
  - intros _ _. apply does_map_err. eapply does_any, does_ask.
Qed.
Lemma empties_bucket i : Sel KBucket i → runs (λ _, True) (EmptyS3Bucket i).
Proof using Hdry.
  intros Hi. eapply does_unless_gone; [apply does_ask|by apply does_ret|]. intros [|k l] _; [by apply does_ret|].
  by apply does_map_err, does_request, may_allowed.
Qed.
Lemma deletes_bucket i : Sel KBucket i → runs (λ _, True) (DeleteBucket i).
Proof using Hdry.
  intros Hi. eapply does_bind; [by apply does_map_err, empties_bucket|]. intros _ _. by apply does_delete, may_allowed.
Qed.
Lemma deletes_interface i :
  (∃ vpc, Sel KVpc vpc ∧ interface_vpc acc i = vpc ∧ attached (interface_attachment acc i) = false) →
  runs (λ _, True) (DeleteNetworkInterface i).
Proof using Hdry. intros (vpc & Hs & <- & Ha). by apply does_delete, may_allowed. Qed.
Lemma deletes_allowed gone failure ch : permitted ch → runs (λ _, True) (request_unless_gone gone failure ch).
Proof using Hdry. intros Hc. by apply does_delete, may_allowed. Qed.
Lemma deletes_log_group i : permitted (logs_DeleteLogGroup i) → runs (λ _, True) (DeleteLogGroup i).
Proof using Hdry. intros Hi. by apply does_map_err, does_request, may_allowed. Qed.
End Sweep.

(** ** Kinds and sweep *)

Section Kinds.
Context `{CloudEnv} `{MapOrder} (acc : Account) (start finish : Z) `{!Truthful acc start finish}.
Context (input : FilterInput) (Getenv : string → string).
#[local] Abbreviation runs := (does (may acc start finish input)).

(** A dry run stops after the listing, so a deletion may assume that it is
    none. *)
Lemma does_clean_all {A} (P : A → Prop) listing list_ delete_ :
  runs (Forall P) list_ → (DryRun input = false → ∀ l, Forall P l → runs (λ _, True) (delete_ l)) →
  runs (λ _, True) (clean_all listing list_ delete_ input).
Proof using Type.
  intros Hl Hd. eapply does_bind; [by apply does_map_err|]. intros l HP.
  destruct (DryRun input) eqn:E; [by apply does_ret|by apply Hd].
Qed.
Lemma does_clean (P : string → Prop) listing list_ deleting delete_ :
  runs (Forall P) (list_ input) → (DryRun input = false → ∀ i, P i → runs (λ _, True) (delete_ i)) →
  runs (λ _, True) (clean listing list_ deleting delete_ input).
Proof using Type.
  intros Hl Hd. eapply does_clean_all; [done|]. intros Hdry l HP. eapply does_for_each; [done|].
  intros i Hi. by apply does_map_err, Hd.
Qed.

#[local] Hint Resolve lists_instances lists_keypairs lists_peerings lists_vpcs lists_gateways lists_subnets
  lists_route_tables lists_groups lists_transit lists_file_systems lists_roles lists_profiles
  lists_credential_stacks lists_architecture_stacks lists_clusters lists_nodegroups lists_buckets
  lists_activations lists_managed lists_parameters lists_log_groups : nodeadm.
#[local] Hint Resolve deletes_instances deletes_keypair deletes_peering deletes_gateway deletes_transit
  deletes_file_systems deletes_role deletes_stack deletes_nodegroup deletes_cluster empties_bucket deletes_bucket
  deletes_interface deletes_log_group deletes_allowed : nodeadm.

Lemma cleans_profiles : runs (λ _, True) (cleanupIAMInstanceProfiles input).
Proof using Truthful0.
  eapply does_bind; [apply does_map_err, lists_profiles; done|]. intros l Hl.
  eapply (does_bind _ (map_Forall (λ i (_ : list string), sel acc start finish input KInstanceProfile i))).
  - eapply (does_bind _ (Forall (λ kv, sel acc start finish input KInstanceProfile kv.1))).
    + eapply does_collect; [done|]. intros i Hi. eapply (does_bind _ (λ _, True)).
      * apply does_map_err. eapply does_unless_gone; [apply does_ask|by apply does_ret|]. intros p _.
        eapply does_bind; [apply does_deref|]. intros q _. induction (profile_Roles q) as [|r rs IH]; cbn; [by apply does_ret|].
        eapply does_bind; [apply does_deref|]. intros a _. eapply does_bind; [done|]. intros rest _. by apply does_ret.
      * intros roles _. apply does_ret. by repeat constructor.
    + intros es Hes. apply does_ret. generalize (map_Forall_empty (M := gmap string)
        (λ i (_ : list string), sel acc start finish input KInstanceProfile i)).
      generalize (∅ : gmap string (list string)). induction Hes as [|[i r] es Hi Hes IH]; cbn; [done|].
      intros m Hm. by apply IH, map_Forall_insert_2.
  - intros m Hm. destruct (DryRun input) eqn:Hdry; [by apply does_ret|].
    eapply (does_for_each _ (λ kv, sel acc start finish input KInstanceProfile kv.1)).
    + apply Forall_elem. intros [i r] Hin. rewrite map_order_perm in Hin. by apply elem_of_map_to_list, Hm in Hin.
    + intros [i r] Hi. destruct (deletes_profile acc start finish input Hdry i r Hi).
      eapply does_bind; [by apply does_map_err|]. intros _ _. by apply does_map_err.
Qed.
Lemma cleans_interfaces : runs (λ _, True) (cleanupNetworkInterfaces input).
Proof using Truthful0.
  eapply does_bind; [apply does_map_err, lists_vpcs; done|]. intros vpcs Hv.
  eapply does_bind.
  - eapply (does_collect _ _ (λ i, ∃ vpc, sel acc start finish input KVpc vpc ∧ interface_vpc acc i = vpc ∧
      attached (interface_attachment acc i) = false)); [done|]. intros vpc Hs. apply does_map_err.
    eapply does_mono; [by apply lists_interfaces|]. intros l Hl. eapply Forall_impl; [done|]. cbn. eauto.
  - intros l Hl. destruct (DryRun input) eqn:Hdry; [by apply does_ret|].
    eapply does_for_each; [done|]. intros i Hi. apply does_map_err. auto with nodeadm.
Qed.

Lemma cleans_anywhere (k : bool) :
  runs (λ _, True) (if k then cleanupRolesAnywhereProfiles Getenv input else cleanupRolesAnywhereTrustAnchors Getenv input).
Proof using Truthful0.
  destruct k; unfold cleanupRolesAnywhereProfiles, cleanupRolesAnywhereTrustAnchors;
    (destruct (skipIRATest Getenv); [by apply does_ret|]); eapply does_clean.
  - apply (lists_anywhere acc start finish input true).
  - intros. by apply deletes_allowed.
  - apply (lists_anywhere acc start finish input false).
  - intros. by apply deletes_allowed.
Qed.
#[local] Hint Resolve cleans_profiles cleans_interfaces : nodeadm.

Lemma cleanups_do : Forall (λ cl, runs (λ _, True) (Cleanup_run cl input)) (cleanups Getenv).
Proof using Truthful0.
  unfold cleanups. repeat (apply Forall_cons_2; [cbn [Cleanup_run]|]); [..|apply Forall_nil_2].
  all: try first [apply (cleans_anywhere true) | apply (cleans_anywhere false)]; auto with nodeadm.
  all: (eapply does_clean || eapply does_clean_all); eauto with nodeadm.
  all: intros; first [apply does_map_err | eapply does_for_each; [eassumption|] | apply deletes_allowed];
    eauto with nodeadm.
  intros g Hg. apply does_map_err. auto with nodeadm.
Qed.

Lemma sweep_does stops cs errs :
  Forall (λ cl, runs (λ _, True) (Cleanup_run cl input)) cs → runs (λ _, True) (sweep stops cs input errs).
Proof using Type.
  intros Hcs. revert errs. induction Hcs as [|cl cs Hc Hcs IH]; intros errs; cbn; [by apply does_ret|].
  eapply does_bind; [by apply does_attempt|]. intros [e|] _; [|done]. destruct (stops e); [by apply does_ret|done].
Qed.

(** ** What a sweep that succeeds has done *)

Lemma clean_deletes (P : string → Prop) listing list_ deleting delete_ c c' :
  runs (Forall P) (list_ input) → (∀ i, P i → runs (λ _, True) (delete_ i)) → DryRun input = false →
  clean listing list_ deleting delete_ input c = (Return tt, c') →
  ∃ ids c1, list_ input c = (Return ids, c1) ∧
    ∀ i, i ∈ ids → ∃ c2 c3, delete_ i c2 = (Return tt, c3) ∧ extends (may acc start finish input) c3 c'.
Proof using Type.
  intros Hl Hd Hdry E. apply bind_Return in E as (ids & c1 & El & E). apply map_err_Return in El.
  exists ids, c1. split; [done|]. intros i Hi. rewrite Hdry in E. apply Hl in El as [_ HP].
  eapply for_each_ran in E as (c2 & c3 & Ei & _ & H2); [|by apply HP| |done].
  - exists c2, c3. by apply map_err_Return in Ei.
  - intros a Ha. by apply does_map_err, Hd.
Qed.

(** Every cleanup of a successful sweep ran, in order and to its end. *)
Lemma sweep_ran stops cl c c' :
  Sweep Getenv stops input c = (Return tt, c') → cl ∈ cleanups Getenv →
  ∃ c1 c2, Cleanup_run cl input c1 = (Return tt, c2) ∧
    extends (may acc start finish input) c c1 ∧ extends (may acc start finish input) c2 c'.
Proof using Truthful0.
  unfold Sweep. generalize cleanups_do. generalize (cleanups Getenv). intros cs Hcs E%sweep_ok Hcl.
  exact (for_each_ran _ _ _ _ _ _ Hcs (λ _ Ha, Ha) E cl Hcl).
Qed.

(** A sweep that reports success and is not a dry run has run the deletion of
    every resource that the listing of its kind returned, each to success. *)
Lemma sweep_reaches (P : string → Prop) listing list_ deleting delete_ failure stops c c' :
  Sweep Getenv stops input c = (Return tt, c') → DryRun input = false →
  {| Cleanup_run := clean listing list_ deleting delete_; Cleanup_Failure := failure |} ∈ cleanups Getenv →
  runs (Forall P) (list_ input) → (∀ i, P i → runs (λ _, True) (delete_ i)) →
  ∃ c1 ids c2, extends (may acc start finish input) c c1 ∧ list_ input c1 = (Return ids, c2) ∧
    ∀ i, i ∈ ids → ∃ c3 c4, delete_ i c3 = (Return tt, c4) ∧ extends (may acc start finish input) c4 c'.
Proof using Truthful0.
  intros E Hdry Hin Hl Hd. destruct (sweep_ran _ _ _ _ E Hin) as (c1 & c5 & Ec & H1 & H5).
  cbn [Cleanup_run] in Ec. clear Hin. destruct (clean_deletes P _ _ _ _ _ _ Hl Hd Hdry Ec) as (ids & c2 & El & Hi).
  exists c1, ids, c2. split_and!; [exact H1|exact El|]. intros i (c3 & c4 & Ed & H4)%Hi. exists c3, c4. split; [exact Ed|by etrans].
Qed.
(** A deletion that succeeds asked for the change, even when its object was
    gone. *)
Lemma request_asks ch c o c' : request ch c = (o, c') → Changed ch ∈ c'.
Proof using Type.
  unfold request. destruct (refused _ _); intros [= _ <-]; by apply elem_of_app; right; apply list_elem_of_singleton.
Qed.
Lemma unless_gone_asks gone failure ch c o c' :
  request_unless_gone gone failure ch c = (o, c') → Changed ch ∈ c'.
Proof using Type.
  unfold request_unless_gone, unless_gone, try, mbind, M_bind.
  destruct (request ch c) as [[[]|e|] c1] eqn:E; [|destruct (gone e)|]; intros [= _ <-]; by eapply request_asks.
Qed.
Lemma extends_elem ok c c' ev : extends ok c c' → ev ∈ c → ev ∈ c'.
Proof using Type. intros (more & -> & _) ?. apply elem_of_app. by left. Qed.

(** So after a sweep that succeeds every VPC, subnet, route table and security
    group listed in it was asked to go. *)
Lemma sweep_asks (ch : string → Change) (P : string → Prop) listing list_ deleting delete_ failure stops c c' :
  Sweep Getenv stops input c = (Return tt, c') → DryRun input = false →
  {| Cleanup_run := clean listing list_ deleting delete_; Cleanup_Failure := failure |} ∈ cleanups Getenv →
  runs (Forall P) (list_ input) → (∀ i, P i → allowed acc start finish input (ch i)) →
  (∀ i, ∃ gone failure, delete_ i = request_unless_gone gone failure (ch i)) →
  ∃ c1 ids c2, extends (may acc start finish input) c c1 ∧ list_ input c1 = (Return ids, c2) ∧
    ∀ i, i ∈ ids → Changed (ch i) ∈ c'.
Proof using Truthful0.
  intros E Hdry Hin Hl Hok Hd.
  destruct (sweep_reaches P _ _ _ _ _ _ _ _ E Hdry Hin Hl) as (c1 & ids & c2 & H1 & El & Hi).
  { intros i HP. destruct (Hd i) as (g & f & ->). by apply does_delete, may_allowed, Hok. }
  exists c1, ids, c2. split_and!; [exact H1|exact El|]. intros i (c3 & c4 & Ed & H4)%Hi.
  destruct (Hd i) as (g & f & Hdel). rewrite Hdel in Ed. by eapply extends_elem, unless_gone_asks.
Qed.
Corollary sweep_asks_vpcs stops c c' :
  Sweep Getenv stops input c = (Return tt, c') → DryRun input = false →
  ∃ c1 vpcs c2, extends (may acc start finish input) c c1 ∧ ListVPCs input c1 = (Return vpcs, c2) ∧
    ∀ i, i ∈ vpcs → Changed (ec2_DeleteVpc i) ∈ c'.
Proof using Truthful0.
  intros E Hdry. eapply sweep_asks; [exact E|exact Hdry| |exact (lists_vpcs acc start finish input)|done|].
  - do 18 apply list_elem_of_further. apply list_elem_of_here.
  - intros i. by do 2 eexists.
Qed.
End Kinds.

(** C11. A sweep changes nothing in a dry run, and otherwise only what its
    filter selects: resources whose own cluster tag is the name given, or has
    the prefix given (or is any) and that are older than the threshold; and
    what hangs on such a resource: its attachments and policies, its idle
    network interfaces, the objects of its bucket, the old Lustre file systems
    in its VPC.  Stacks and Roles Anywhere resources have the tests' name prefix
    besides, log groups are fifteen days old.  So however the sweep ends,
    whatever fails, for every account whose services answer the truth. *)
Theorem sweep_deletes_selected `{CloudEnv} `{MapOrder} acc start finish `{!Truthful acc start finish}
    Getenv stops input c o c' :
  Sweep Getenv stops input c = (o, c') →
  ∃ more, c' = c ++ more ∧
    ∀ ch, Changed ch ∈ more → DryRun input = false ∧ allowed acc start finish input ch.
Proof.
  intros E. enough (does (may acc start finish input) (λ _, True) (Sweep Getenv stops input)) as Hd
    by by apply Hd in E as [? _].
  eapply does_bind; [by apply sweep_does, cleanups_do|]. intros errs _.
  destruct (errors_Join errs); [apply does_throw|by apply does_ret].
Qed.

(** ** A sweep of one cluster's leftovers *)

Definition cluster_tags (cluster : string) : list SdkTag :=
  [{| sdk_Key := Some "Name"; sdk_Value := Some "node" |}; {| sdk_Key := Some TestClusterTagKey; sdk_Value := Some cluster |}].
Definition an_instance (id : string) (tags : list SdkTag) : Instance_ :=
  {| instance_InstanceId := Some id; instance_State := Some "running"; LaunchTime := Some Hour; instance_Tags := tags |}.
Definition a_key (id cluster : string) : KeyPairInfo :=
  {| KeyPairId := Some id; CreateTime := None; keypair_Tags := cluster_tags cluster |}.
Definition gone {A} : result A := Err (ENew "gone").

(** Three instances and two keys of three clusters, or of none; a request
    to terminate instances is refused. *)
Example leftovers : CloudEnv := {|
  Now _ := 100 * Hour;
  refused _ ch := match ch with ec2_TerminateInstances _ => Some (ENew "busy") | _ => None end;
  cloud_polls _ _ _ := 3%nat; is_type _ _ := true; api_error _ := None; waiter_Wait _ _ _ _ := Ok tt;
  DescribeInstances _ _ := [λ _, Ok [[an_instance "i-1" (cluster_tags "ci-1"); an_instance "i-2" (cluster_tags "ci-2")]];
                            λ _, Ok [[an_instance "i-3" []]]];
  DescribeKeyPairs _ _ := Ok [a_key "k-1" "ci-1"; a_key "k-2" "prod"];
  DescribeVpcPeeringConnections _ _ := []; DescribeVpcs _ _ := []; DescribeInternetGateways _ _ := [];
  internet_gateway _ _ := gone; DescribeSubnets _ _ := []; DescribeRouteTables _ _ := [];
  DescribeSecurityGroups _ _ := []; DescribeNetworkInterfaces _ _ := []; DescribeTransitGateways _ _ := [];
  transit_gateway _ _ := gone; DescribeTransitGatewayAttachments _ _ := gone; DescribeFileSystems _ := [];
  file_system _ _ := gone; ListRoles _ _ := []; ListRoleTags _ _ := gone; ListInstanceProfilesForRole _ _ := gone;
  ListAttachedRolePolicies _ _ := []; ListRolePolicies _ _ := []; ListInstanceProfiles _ _ := [];
  GetInstanceProfile _ _ := gone; ListStacks _ _ := []; DescribeStacks _ _ := gone; DescribeStackEvents _ _ := gone;
  ListClusters _ := []; DescribeCluster _ _ := gone; ListNodegroups _ _ := []; DescribeNodegroup _ _ _ := gone;
  ListBuckets _ _ := []; GetBucketTagging _ _ := gone; ListObjects _ _ := gone; ListProfiles _ := [];
  ListTrustAnchors _ := []; anywhere_ListTags _ _ := gone; DescribeActivations _ := [];
  DescribeInstanceInformation _ _ := []; DescribeParameters _ := []; ssm_ListTags _ _ _ := gone;
  DescribeLogGroups _ _ := []; GetResources _ _ _ := [] |}.
Example leftover_account : Account := {|
  tags_of k id := match k with
    | KInstance => if String.eqb id "i-1" then convertEC2Tags (cluster_tags "ci-1")
                   else if String.eqb id "i-2" then convertEC2Tags (cluster_tags "ci-2") else []
    | _ => convertEC2Tags (cluster_tags (if String.eqb id "k-1" then "ci-1" else "prod"))
    end;
  created_of k _ := match k with KInstance => Hour | _ => zero_time end;
  anywhere_name _ _ := ""; fs_type _ := ""; fs_vpc _ := ""; interface_vpc _ := ""; interface_attachment _ := None;
  attachment_gateway _ := "" |}.
Lemma leftovers_told : Truthful (H := leftovers) (H0 := plain_order) leftover_account 0 (100 * Hour).
Proof.
  constructor; try done; try (by intros; apply Forall_nil_2); 
    try (by intros c; apply Forall_nil_2); try (by intros fs c; apply Forall_nil_2); try (by intros [] kind c; apply Forall_nil_2).
  - intros fs c. repeat constructor; intros c' page [= <-]; repeat constructor; eexists; by split_and!.
  - intros fs c l [= <-]. repeat constructor; eexists; by split_and!.
Defined.

Example by_prefix : SweeperInput :=
  {| AllClusters := false; DryRun := false; ClusterName := ""; ClusterNamePrefix := "ci-"; InstanceAgeThreshold := 24 * Hour |}.
Definition swept : outcome unit * Cloud :=
  Sweep (H := leftovers) (H0 := plain_order) (λ _, "") (λ _, false) by_prefix [].

(** Both instances and the key of the two clusters, and nothing else; that
    the instances could not be terminated does not stop the sweep. *)
Lemma sweep_deletes_selected_witness :
  omap (λ ev, match ev with Changed ch => Some ch | _ => None end) swept.2 =
    [ec2_TerminateInstances ["i-1"; "i-2"]; ec2_DeleteKeyPair "k-1"] ∧
  ∃ more, swept.2 = [] ++ more ∧
    ∀ ch, Changed ch ∈ more → DryRun by_prefix = false ∧ allowed leftover_account 0 (100 * Hour) by_prefix ch.
Proof.
  split; [by vm_compute|].
  assert (Sweep (H := leftovers) (H0 := plain_order) (λ _, "") (λ _, false) by_prefix [] = (swept.1, swept.2)) as E
    by (unfold swept; apply surjective_pairing).
  exact (sweep_deletes_selected (H := leftovers) (H0 := plain_order) leftover_account 0 (100 * Hour)
    (Truthful0 := leftovers_told) (λ _, "") (λ _, false) by_prefix [] swept.1 swept.2 E).
Defined.

(** ** Corners of the cleaners *)

Section Corners.
Context `{CloudEnv} `{MapOrder}.

(** A tagged log group whose name has no slash ends the program: the name is
    cut at an index that is not there. *)
Lemma log_group_without_slash_panics arn tags arns groups c :
  parseLogGroupNameFromARN arn = None → name_groups ((arn, tags) :: arns) groups c = (Panic, c).
Proof using Type. intros E. cbn. by rewrite E. Qed.
Example a_flat_log_group : parseLogGroupNameFromARN "arn:aws:logs:us-west-2:1:log-group:build" = None.
Proof. reflexivity. Qed.

(** With a threshold above fifteen days, a log group between the two ages is
    kept. *)
Lemma log_group_kept_by_threshold name ms tags input c :
  ClusterName input = "" → (∀ c, Sub (Now c) (UnixMilli ms) <= InstanceAgeThreshold input) →
  (shouldDeleteLogGroup {| LogGroupName := Some name; log_CreationTime := Some ms |} tags input c).1 = Return false.
Proof using Type.
  intros Hn Ht. unfold shouldDeleteLogGroup, decide_delete, clock.
  cbv [deref LogGroupName log_CreationTime default CreationTime mbind M_bind mret M_ret id].
  destruct (Sub (Now (c ++ [Clock])) (UnixMilli ms) <? clusterLogGroupRetentionThreshold); [done|]. cbn [fst]. f_equal.
  apply not_true_is_false. intros (_ & [[? _]|(_ & Hold & _)])%shouldDeleteResource_spec; [done|].
  cbn [CreationTime] in Hold. specialize (Ht ((c ++ [Clock]) ++ [Clock])). lia.
Qed.

(** The deletion of a stack succeeds only when a request finds it gone:
    after the third request is accepted nothing looks again. *)
Lemma last_round_fails stackName st l o c c' :
  (∀ c, DescribeStacks (Some stackName) c = Ok (st :: l)) → (∀ c ch, refused c ch = None) →
  delete_rounds 1 stackName c = (o, c') → o ≠ Return tt.
Proof using Type.
  intros Hd Hr E ->. cbn [delete_rounds] in E. apply bind_Return in E as (r & c1 & _ & E).
  unfold unless_gone in E. apply bind_Return in E as (a & c2 & EA & E).
  unfold try, ask in EA. rewrite Hd in EA. injection EA as <- <-.
  apply bind_Return in E as (x & c3 & EX & E). injection EX as <- <-.
  apply bind_Return in E as (y & c4 & EY & E). unfold try, request in EY. rewrite Hr in EY.
  injection EY as <- <-. done.
Qed.
End Corners.
