(* ===== verification/E2eCommands.v ===== *)
(** * The commands for test clusters and their nodes (cmd/e2e-test: setup,
      cleanup, ssh, node)

    Creating and deleting the test infrastructure, and one node of it at a
    time: an instance is found or made, its serial console watched until the
    node is ready, and taken away with its activations.  The workflows of
    test/e2e that these call stay an interface. *)

From S2P Require Import Prelude GoStrings Host Retry E2e Cloud Sweeper.
#[local] Open Scope Z_scope.

(** ** Instances *)

Record Ec2Instance := {
  InstanceId : option string; ImageId : option string; PrivateIpAddress : option string;
  ec2_Tags : list (option string * option string);
}.
Record InstanceQuery := { query_InstanceIds : list string; Filters : list (string * list string) }.

Record HybridCluster := { hc_Name : string; hc_KubernetesVersion : string; SubnetID : string }.
Record PeeredInstance := { peered_ID : string; peered_IP : string; peered_Name : string }.

(** The ways a node gets its credentials; none for another name. *)
Inductive CredsProvider :=
  | IamRolesAnywhereProvider (RoleARN ProfileARN TrustAnchorARN CA : string)
  | SsmProvider (Role : string).
(** What the setup of the peered network leaves for the nodes. *)
Record Infrastructure := {
  NodesPublicSSHKey : string; infra_InstanceProfileARN : string; IRANodeRoleARN : string;
  IRAProfileARN : string; IRATrustAnchorARN : string; RolesAnywhereCA : string; SSMNodeRoleName : string;
}.
Inductive InstanceSize := Large | XLarge.
Record NodeSpec := {
  spec_InstanceName : string; spec_InstanceSize : InstanceSize; spec_InstanceType : string;
  spec_NodeK8sVersion : string; spec_NodeName : string; spec_OS : string;
  spec_Provider : option CredsProvider;
}.
Record NodeCreate := {
  create_AWS : E2eAws; create_Cluster : HybridCluster; NodeadmURLs : string * string; PublicKey : string;
  create_InstanceProfileARN : string; K8sClientConfig : string;
}.
Inductive LogCollector := BottlerocketLogCollector | StandardLinuxLogCollector.

(** A serial console: whether output can be copied from it, and the flush of
    what was held back while it was paused. *)
Record SerialConsole := { serial_Copy : M Host unit; serial_Resume : M Host unit; serial_Close : M Host unit }.

Class E2eCloud := {
  DescribeInstances : E2eAws → InstanceQuery → Host → result (list (list Ec2Instance));
  (** [NewInstanceRunningWaiter], with its output. *)
  WaitInstancesRunning : E2eAws → InstanceQuery → Host → result (list (list Ec2Instance));
  DescribeImages : E2eAws → string → Host → result (list (option string));
  BuildConfigFromFlags : string → Host → result string;
  clientgo_NewForConfig : string → result unit;
  dynamic_NewForConfig : string → result unit;
  peered_Setup : E2eAws → string → string → M Host Infrastructure;
  GetHybridCluster : E2eAws → string → M Host HybridCluster;
  BuildNodeamURLs : E2eAws → string → string → M Host (string * string);
  NodeCreate_Create : NodeCreate → NodeSpec → M Host PeeredInstance;
  WaitForEC2InstanceRunning : E2eAws → string → M Host unit;
  OpenSerialConsole : E2eAws → string → M Host SerialConsole;
  WaitForNodeReady : PeeredInstance → M Host unit;
  CreateRoutesForNode : E2eAws → HybridCluster → PeeredInstance → M Host unit;
  PutLogsURL : E2eAws → string → string → M Host string;
  CollectLogs : LogCollector → string → string → M Host unit;
  DeleteRoutesForInstance : E2eAws → string → string → M Host unit;
  DeleteEC2Instance : E2eAws → string → M Host unit;
  EnsureNodeIsDeleted : string → M Host unit;
  ListActivationsForNode : E2eAws → string → string → M Host (list string);
  ListManagedInstancesByActivationID : E2eAws → list string → M Host (list string);
  DeleteManagedInstance : E2eAws → string → M Host unit;
  DeleteActivation : E2eAws → string → M Host unit;
  yaml_DeleteInput : string → result DeleteInput;
}.

Definition first_instance (reservations : list (list Ec2Instance)) : option Ec2Instance :=
  match reservations with (i :: _) :: _ => Some i | _ => None end.
Definition running_named (name : string) (states : list string) : InstanceQuery :=
  {| query_InstanceIds := []; Filters := [("tag:Name", [name]); ("instance-state-name", states)] |}.

Section Commands.
Context `{Env} `{E2eEnv} `{E2eCloud}.

Definition load_aws (region app : string) : M Host E2eAws :=
  map_err (EWrap "reading AWS configuration")
    (call "config.LoadDefaultConfig" (NewAWSConfig region app)).

(** ** setup and cleanup *)

Definition Setup_Run (configFilePath : string) : M Host unit :=
  t ← map_err (EWrap "failed to load test resources") (LoadTestResources configFilePath);
  aws ← load_aws (tr_ClusterRegion t) "nodeadm-e2e-test-setup-cmd";
  map_err (EWrap "creating E2E test infrastructure")
    (cluster_Create aws (Endpoint (tr_EKS t)) t None).

Definition Cleanup_Run (resourcesFilePath : string) : M Host unit :=
  file ← map_err (EWrap "failed to open configuration file") (os_ReadFile resourcesFilePath);
  deleteCluster ← of_result (wrap_err "unmarshaling cleanup config" (yaml_DeleteInput file));
  aws ← load_aws (del_ClusterRegion deleteCluster) "nodeadm-e2e-test-cleanup-cmd";
  map_err (EWrap "error cleaning up e2e resources")
    (cluster_Delete aws (del_Endpoint deleteCluster) deleteCluster None).

(** ** The jumpbox (peered/jumpbox.go) *)

Definition JumpboxInstance (aws : E2eAws) (clusterName : string) : M Host Ec2Instance :=
  out ← map_err (EWrap "waiting for jumpbox instance")
    (call "ec2:DescribeInstances" (WaitInstancesRunning aws {| query_InstanceIds := [];
       Filters := [("tag:" +:+ TestClusterTagKey, [clusterName]); ("tag:Jumpbox", ["true"]);
                   ("instance-state-name", ["pending"; "running"])] |}));
  match first_instance out with
  | None => throw (ENew ("no jumpbox instance found for cluster " +:+ clusterName))
  | Some i => mret i
  end.

(** ** ssh (ssh.go) *)

Definition isBottleRocket (aws : E2eAws) (imageId : string) : M Host bool :=
  images ← map_err (EWrap ("describing image " +:+ imageId))
             (call "ec2:DescribeImages" (DescribeImages aws imageId));
  match images with
  | [] => throw (ENew ("no image found with ID " +:+ imageId))
  | None :: _ => throw (ENew ("image " +:+ imageId +:+ " has no name"))
  | Some name :: _ => mret (Contains name "bottlerocket")
  end.

(** The loop over the tags dereferences each key up to the one it looks for,
    and then the value. *)
Fixpoint cluster_tag (tags : list (option string * option string)) : M Host string :=
  match tags with
  | [] => mret ""
  | (key, value) :: tags =>
      key ← deref key;
      if String.eqb key TestClusterTagKey then deref value else cluster_tag tags
  end.

Definition ssh_query (instanceIDOrName : string) : InstanceQuery :=
  if HasPrefix instanceIDOrName "i-"
  then {| query_InstanceIds := [instanceIDOrName]; Filters := [] |}
  else running_named instanceIDOrName ["running"].
Definition ssh_command (bottlerocket : bool) (ip : string) : string :=
  "{" +:+ quoted "command" +:+ ":[" +:+
  quoted ((if bottlerocket then "sudo ssh ec2-user@" else "sudo ssh ") +:+ ip) +:+ "]}".

(** The session's input and output are those of the terminal, and signals
    are handed to it. *)
Definition ssh_Run (instanceIDOrName : string) : M Host unit :=
  aws ← load_aws "" "";
  instances ← map_err (EWrap ("describing instance " +:+ instanceIDOrName))
    (call "ec2:DescribeInstances" (DescribeInstances aws (ssh_query instanceIDOrName)));
  match first_instance instances with
  | None => throw (ENew ("no instance found with ID or Name " +:+ instanceIDOrName))
  | Some target =>
      image ← deref (ImageId target);
      bottlerocket ← map_err (EWrap "validating if instance OS is BottleRoceket") (isBottleRocket aws image);
      ip ← deref (PrivateIpAddress target);
      let sshCommand := ssh_command bottlerocket ip in
      clusterName ← cluster_tag (ec2_Tags target);
      if String.eqb clusterName ""
      then throw (ENew ("no cluster name found in instance " +:+ instanceIDOrName +:+ " tags")) else
      jumpbox ← JumpboxInstance aws clusterName;
      id ← deref (InstanceId jumpbox);
      map_err (EWrap "running ssm start-session command")
        (run_command "aws" ["ssm"; "start-session"; "--document"; "AWS-StartInteractiveCommand";
                            "--parameters"; sshCommand; "--target"; id]);;
      mret tt
  end.

(** ** The configuration of the tests (test/e2e/config.go) *)

Definition no_config : TestConfig := {|
  tc_ClusterName := ""; tc_ClusterRegion := ""; NodeadmUrlAMD := ""; NodeadmUrlARM := "";
  SetRootPassword := false; NodeK8sVersion := ""; LogsBucket := ""; tc_Endpoint := "";
  ArtifactsFolder := ""; tc_DNSSuffix := ""; tc_EcrAccount := ""; ManifestURL := "" |}.
Definition ReadConfig (configPath : string) : M Host TestConfig :=
  file ← map_err (EWrap ("reading tests configuration file " +:+ configPath)) (os_ReadFile configPath);
  c ← of_result (wrap_err "unmarshaling test configuration" (yaml_TestConfig no_config file));
  mret {| tc_ClusterName := tc_ClusterName c; tc_ClusterRegion := tc_ClusterRegion c;
    NodeadmUrlAMD := NodeadmUrlAMD c; NodeadmUrlARM := NodeadmUrlARM c; SetRootPassword := SetRootPassword c;
    NodeK8sVersion := NodeK8sVersion c; LogsBucket := LogsBucket c; tc_Endpoint := tc_Endpoint c;
    ArtifactsFolder := or_else (ArtifactsFolder c) "/tmp";
    tc_DNSSuffix := or_else (tc_DNSSuffix c) (region_DNSSuffix (tc_ClusterRegion c));
    tc_EcrAccount := or_else (tc_EcrAccount c) (GetEcrAccountForRegion (tc_ClusterRegion c));
    ManifestURL := ManifestURL c |}.
Definition KubeconfigPath (clusterName : string) : string := "/tmp/" +:+ clusterName +:+ ".kubeconfig".

(** ** node delete (node/delete.go, peered/node.go) *)

Definition OSArchTagKey : string := "OS-Arch".
Definition find_tag (name : string) (tags : list (option string * option string)) : option string :=
  default "" ∘ snd <$> head (keep (λ t, String.eqb (default "" t.1) name) tags).
Definition IsBottlerocket (name : string) : bool := HasPrefix name "bottlerocket".

Record NodeCleanup := {
  nc_AWS : E2eAws; nc_LogCollector : LogCollector; nc_Cluster : HybridCluster;
  nc_LogsBucket : string; SkipDelete : bool;
}.
Definition collectLogs (c : NodeCleanup) (bundleName : string) (i : PeeredInstance) : M Host unit :=
  if String.eqb (nc_LogsBucket c) "" then mret tt else
  url ← PutLogsURL (nc_AWS c) (nc_LogsBucket c)
    ("logs/" +:+ hc_Name (nc_Cluster c) +:+ "/" +:+ peered_Name i +:+ "/" +:+ bundleName);
  CollectLogs (nc_LogCollector c) (peered_IP i) url.
(** The logs are collected if they can be. *)
Definition NodeCleanup_Cleanup (c : NodeCleanup) (i : PeeredInstance) : M Host unit :=
  attempt (collectLogs c "bundle.tar.gz" i);;
  if SkipDelete c then mret tt else
  map_err (EWrap "deleting routes for EC2 Instance")
    (DeleteRoutesForInstance (nc_AWS c) (SubnetID (nc_Cluster c)) (peered_ID i));;
  map_err (EWrap "deleting EC2 Instance") (DeleteEC2Instance (nc_AWS c) (peered_ID i));;
  map_err (EWrap ("deleting node for instance " +:+ peered_ID i)) (EnsureNodeIsDeleted (peered_Name i)).
Definition CleanupSSMActivation (c : NodeCleanup) (nodeName clusterName : string) : M Host unit :=
  if SkipDelete c then mret tt else
  activationIDs ← map_err (EWrap "listing activations") (ListActivationsForNode (nc_AWS c) nodeName clusterName);
  match activationIDs with
  | [] => mret tt
  | _ =>
      instanceIDs ← map_err (EWrap "listing managed instances")
        (ListManagedInstancesByActivationID (nc_AWS c) activationIDs);
      for_each (λ id, map_err (EWrap "deleting managed instance") (DeleteManagedInstance (nc_AWS c) id)) instanceIDs;;
      for_each (λ id, map_err (EWrap "deleting activation") (DeleteActivation (nc_AWS c) id)) activationIDs
  end.

Definition Delete_Run (configFile instanceName : string) : M Host unit :=
  config ← ReadConfig configFile;
  aws ← load_aws (tc_ClusterRegion config) "";
  instances ← map_err (EWrap ("describing instance " +:+ instanceName))
    (call "ec2:DescribeInstances" (DescribeInstances aws (running_named instanceName ["running"; "pending"])));
  match first_instance instances with
  | None => throw (ENew ("no instance found with name " +:+ instanceName))
  | Some instance =>
      clientConfig ← call "kubeconfig" (BuildConfigFromFlags (KubeconfigPath (tc_ClusterName config)));
      of_result (clientgo_NewForConfig clientConfig);;
      jumpbox ← JumpboxInstance aws (tc_ClusterName config);
      match find_tag OSArchTagKey (ec2_Tags instance) with
      | None => throw (ENew ("Tag '" +:+ OSArchTagKey +:+ "' not found on instance " +:+ instanceName))
      | Some osArch =>
          deref (InstanceId jumpbox);;
          cluster ← GetHybridCluster aws (tc_ClusterName config);
          let node := {| nc_AWS := aws; nc_Cluster := cluster; nc_LogsBucket := LogsBucket config; SkipDelete := false;
            nc_LogCollector := if IsBottlerocket osArch then BottlerocketLogCollector else StandardLinuxLogCollector |} in
          id ← deref (InstanceId instance);
          ip ← deref (PrivateIpAddress instance);
          NodeCleanup_Cleanup node {| peered_ID := id; peered_IP := ip; peered_Name := instanceName |};;
          CleanupSSMActivation node instanceName (tc_ClusterName config)
      end
  end.

(** ** node create (node/create.go) *)

Record CreateCommand := {
  cr_configFile : string; cr_instanceName : string; cr_instanceSize : string; cr_instanceType : string;
  cr_credsProvider : string; cr_os : string; cr_arch : string;
}.
Definition NewCreateCommand : CreateCommand := {|
  cr_configFile := ""; cr_instanceName := ""; cr_instanceSize := "Large"; cr_instanceType := "";
  cr_credsProvider := ""; cr_os := "al23"; cr_arch := "amd64" |}.

(** The table of operating systems: the same architectures for each. *)
Definition oses : list string :=
  ["al23"; "ubuntu2004"; "ubuntu2204"; "ubuntu2404"; "rhel8"; "rhel9"; "bottlerocket"].
Definition buildOS (osName arch : string) : result string :=
  if negb (slices_Contains oses osName) then Err (ENew ("unknown OS " +:+ osName))
  else if negb (slices_Contains ["amd64"; "arm64"] arch)
  then Err (ENew ("unknown architecture " +:+ quoted arch +:+ " for OS " +:+ quoted osName))
  else Ok (osName +:+ "-" +:+ arch).
Definition credentials_of (infra : Infrastructure) (name : string) : option CredsProvider :=
  if String.eqb name "iam-ra"
  then Some (IamRolesAnywhereProvider (IRANodeRoleARN infra) (IRAProfileARN infra)
               (IRATrustAnchorARN infra) (RolesAnywhereCA infra))
  else if String.eqb name "ssm" then Some (SsmProvider (SSMNodeRoleName infra)) else None.

(** Output is copied from the console unless that cannot be had; [None] when
    there is no console to close. *)
Definition open_console (aws : E2eAws) (id : string) : M Host (option SerialConsole) :=
  r ← try (OpenSerialConsole aws id);
  match r with
  | Err _ => mret None
  | Ok serial =>
      err ← attempt (serial_Copy serial);
      match err with
      | Some _ => attempt (serial_Close serial);; mret None
      | None =>
          err ← attempt (serial_Resume serial);
          match err with
          | Some e => attempt (serial_Close serial);; throw (EWrap "resuming output" e)
          | None => mret (Some serial)
          end
      end
  end.
Definition close_console (serial : option SerialConsole) : M Host unit :=
  match serial with Some s => attempt (serial_Close s);; mret tt | None => mret tt end.
Definition await_node (aws : E2eAws) (i : PeeredInstance) : M Host unit :=
  serial ← open_console aws (peered_ID i);
  err ← attempt (WaitForNodeReady i);
  close_console serial;;
  of_option (EWrap "waiting for node to be ready" <$> err).

(** Without a provider of credentials the instance's creation calls a nil
    interface. *)
Definition create_instance (node : NodeCreate) (spec : NodeSpec) : M Host PeeredInstance :=
  deref (spec_Provider spec);; NodeCreate_Create node spec.
Definition Create_Run (c : CreateCommand) : M Host unit :=
  config ← ReadConfig (cr_configFile c);
  aws ← load_aws (tc_ClusterRegion config) "";
  infra ← map_err (EWrap "setting up test infrastructure")
            (peered_Setup aws (tc_ClusterName config) (tc_Endpoint config));
  clientConfig ← call "kubeconfig" (BuildConfigFromFlags (KubeconfigPath (tc_ClusterName config)));
  of_result (clientgo_NewForConfig clientConfig);;
  of_result (dynamic_NewForConfig clientConfig);;
  cluster ← GetHybridCluster aws (tc_ClusterName config);
  urls ← BuildNodeamURLs aws (NodeadmUrlAMD config) (NodeadmUrlARM config);
  let node := {| create_AWS := aws; create_Cluster := cluster; NodeadmURLs := urls;
    PublicKey := NodesPublicSSHKey infra; create_InstanceProfileARN := infra_InstanceProfileARN infra;
    K8sClientConfig := clientConfig |} in
  nodeOS ← of_result (buildOS (cr_os c) (cr_arch c));
  i ← create_instance node {|
    spec_InstanceName := cr_instanceName c;
    spec_InstanceSize := if String.eqb (cr_instanceSize c) "XLarge" then XLarge else Large;
    spec_InstanceType := cr_instanceType c; spec_NodeK8sVersion := hc_KubernetesVersion cluster;
    spec_NodeName := cr_instanceName c; spec_OS := nodeOS; spec_Provider := credentials_of infra (cr_credsProvider c) |};
  map_err (EWrap "waiting for EC2 instance for node to be running") (WaitForEC2InstanceRunning aws (peered_ID i));;
  await_node aws i;;
  map_err (EWrap "creating routes for node") (CreateRoutesForNode aws cluster i).

(** ** Properties *)

(** Counting the serial consoles that are open: opening one adds one, closing
    it takes one away whatever it returns, and nothing else counts. *)
Section Consoles.
Context (opened : Host → Z) (aws : E2eAws) (i : PeeredInstance).
Hypothesis open_counts : ∀ h o h', OpenSerialConsole aws (peered_ID i) h = (o, h') →
  opened h' = opened h + match o with Return _ => 1 | _ => 0 end.
Hypothesis close_counts : ∀ s h o h',
  (∃ h0 h1, OpenSerialConsole aws (peered_ID i) h0 = (Return s, h1)) →
  serial_Close s h = (o, h') → opened h' = opened h - 1.
Hypothesis copy_counts : ∀ s h o h', serial_Copy s h = (o, h') → opened h' = opened h.
Hypothesis resume_counts : ∀ s h o h', serial_Resume s h = (o, h') → opened h' = opened h.
Hypothesis ready_counts : ∀ h o h', WaitForNodeReady i h = (o, h') → opened h' = opened h.

Lemma open_console_counts h o h' :
  open_console aws (peered_ID i) h = (o, h') → o ≠ Panic →
  match o with
  | Return (Some s) => opened h' = opened h + 1 ∧ ∃ h0 h1, OpenSerialConsole aws (peered_ID i) h0 = (Return s, h1)
  | _ => opened h' = opened h
  end.
Proof using open_counts close_counts copy_counts resume_counts.
  unfold open_console, try, attempt, mbind, M_bind. intros E Hp.
  destruct (OpenSerialConsole aws (peered_ID i) h) as [[s|e|] h1] eqn:EO; apply open_counts in EO as HO;
    [|injection E as <- <-; lia|by injection E as <- _].
  assert (∃ h0 h1, OpenSerialConsole aws (peered_ID i) h0 = (Return s, h1)) as HS by eauto.
  unfold try in E. destruct (serial_Copy s h1) as [[[]|e|] h2] eqn:EC; apply copy_counts in EC; cbn in E;
    [| |by injection E as <- _].
  - destruct (serial_Resume s h2) as [[[]|e|] h3] eqn:ER; apply resume_counts in ER; cbn in E;
      [injection E as <- <-; split; [lia|exact HS]| |by injection E as <- _].
    destruct (serial_Close s h3) as [[[]|e'|] h4] eqn:EX; apply (close_counts s) in EX; try exact HS; cbn in E;
      injection E as <- <-; try done; lia.
  - destruct (serial_Close s h2) as [[[]|e'|] h4] eqn:EX; apply (close_counts s) in EX; try exact HS; cbn in E;
      injection E as <- <-; try done; lia.
Qed.

(** Waiting for a node leaves no console open, whether the node becomes ready,
    the output fails, or closing does. *)
Lemma await_node_closes h o h' :
  await_node aws i h = (o, h') → o ≠ Panic → opened h' = opened h.
Proof using open_counts close_counts copy_counts resume_counts ready_counts.
  unfold await_node, mbind, M_bind. intros E Hp.
  destruct (open_console aws (peered_ID i) h) as [o1 h1] eqn:EO. apply open_console_counts in EO;
    [|intros ->; by injection E as <- _].
  destruct o1 as [s|e|]; [|by injection E as <- <-|by injection E as <- _].
  unfold attempt, try, mbind, M_bind in E. destruct (WaitForNodeReady i h1) as [[[]|e|] h2] eqn:EW;
    apply ready_counts in EW; cbn in E; [| |by injection E as <- _].
  all: destruct s as [s|]; cbn in E; [|by injection E as <- <-; lia]; destruct EO as [EO HS];
    unfold attempt, try, mbind, M_bind in E;
    destruct (serial_Close s h2) as [[[]|e'|] h3] eqn:EX; apply (close_counts s) in EX; try exact HS; cbn in E;
    injection E as <- <-; try done; lia.
Qed.
End Consoles.
End Commands.
