(* ===== verification/Daemon.v ===== *)
(** * Daemons (internal/daemon: interface.go, manager.go, systemd.go, wait.go,
      retry.go)

    The daemon manager interface, its systemd implementation over a D-Bus
    connection (a library: the record [Conn]), and the two ways the tool
    waits for a daemon.  Who wins a [select] between the context and another
    event is the environment's choice. *)

From S2P Require Import Prelude GoStrings Host.
#[local] Open Scope Z_scope.

(** ** The interface (manager.go, interface.go) *)

Inductive DaemonStatus := DaemonStatusRunning | DaemonStatusStopped | DaemonStatusUnknown.
#[export] Instance DaemonStatus_eq_dec : EqDecision DaemonStatus.
Proof. solve_decision. Defined.
Definition DaemonStatus_string (s : DaemonStatus) : string :=
  match s with
  | DaemonStatusRunning => "running"
  | DaemonStatusStopped => "stopped"
  | DaemonStatusUnknown => "unknown"
  end.

(** [OperationOptions]: whether a result channel is set, and the mode. *)
Record OperationOptions := { Result : bool; Mode : string }.
Definition OperationOption : Type := OperationOptions → OperationOptions.
Definition ApplyAll (o : OperationOptions) : OperationOption := λ i,
  {| Result := Result o || Result i;
     Mode := if String.eqb (Mode o) "" then Mode i else Mode o |}.

(** [OperationResult] is a string type. *)
Definition Op_Done : string := "done".
Definition Op_Canceled : string := "canceled".
Definition Op_Timeout : string := "timeout".
Definition Op_Failed : string := "failed".
Definition Op_Dependency : string := "dependency".
Definition Op_Skipped : string := "skipped".

(** [GetDaemonStatus] returns a status along with its error. *)
Record DaemonManager := {
  StartDaemon : string → M Host unit;
  StopDaemon : string → M Host unit;
  RestartDaemon : string → list OperationOption → M Host unit;
  GetDaemonStatus : string → Host → (DaemonStatus * option error) * Host;
  EnableDaemon : string → M Host unit;
  DisableDaemon : string → M Host unit;
  DaemonReload : M Host unit;
}.

(** Where there is no systemd (noop.go): nothing is done, nothing is known. *)
Definition noopDaemonManager : DaemonManager := {|
  StartDaemon _ := mret tt; StopDaemon _ := mret tt; RestartDaemon _ _ := mret tt;
  GetDaemonStatus _ h := ((DaemonStatusUnknown, None), h);
  EnableDaemon _ := mret tt; DisableDaemon _ := mret tt; DaemonReload := mret tt |}.

Record Daemon := {
  Configure : M Host unit;
  EnsureRunning : M Host unit;
  PostLaunch : M Host unit;
  Stop : M Host unit;
  DaemonName : string;
}.

(** ** systemd (systemd.go) *)

(** The calls of [dbus.Conn] used here; [GetUnitProperty] gives the printed
    form of the property, quotes included. *)
Record Conn := {
  ReloadContext : M Host unit;
  StartUnitContext : string → string → M Host unit;
  StopUnitContext : string → string → M Host unit;
  RestartUnitContext : string → string → bool → M Host unit;
  GetUnitPropertyContext : string → string → Host → result string * Host;
  EnableUnitFilesContext : list string → bool → bool → M Host (list string);
  DisableUnitFilesContext : list string → bool → M Host (list string);
}.

Definition ModeReplace : string := "replace".
Definition TypeSymlink : string := "symlink".
Definition TypeUnlink : string := "unlink".

Definition getServiceUnitName (name : string) : string := name +:+ ".service".

Section Systemd.
Context (conn : Conn).

Definition systemd_GetDaemonStatus (name : string) (h : Host)
    : (DaemonStatus * option error) * Host :=
  match GetUnitPropertyContext conn (getServiceUnitName name) "ActiveState" h with
  | (Err e, h') => ((DaemonStatusUnknown, Some e), h')
  | (Ok v, h') =>
      ((if String.eqb v (dquote +:+ "active" +:+ dquote) then DaemonStatusRunning
        else if String.eqb v (dquote +:+ "inactive" +:+ dquote) then DaemonStatusStopped
        else DaemonStatusUnknown, None), h')
  end.

Definition systemd_StartDaemon (name : string) : M Host unit :=
  StartUnitContext conn (getServiceUnitName name) ModeReplace.

Definition systemd_StopDaemon (name : string) : M Host unit := λ h,
  match systemd_GetDaemonStatus name h with
  | ((_, Some e), h') => (Throw e, h')
  | ((status, None), h') =>
      if decide (status = DaemonStatusRunning)
      then StopUnitContext conn (getServiceUnitName name) ModeReplace h'
      else (Return tt, h')
  end.

Definition systemd_RestartDaemon (name : string) (opts : list OperationOption) : M Host unit :=
  let o := fold_left (λ o opt, opt o) opts {| Result := false; Mode := ModeReplace |} in
  RestartUnitContext conn (getServiceUnitName name) (Mode o) (Result o).

Definition systemd_EnableDaemon (name : string) : M Host unit :=
  changes ← EnableUnitFilesContext conn [getServiceUnitName name] false false;
  match changes with
  | t :: _ => if String.eqb t TypeSymlink then mret tt
              else throw (ENew ("unexpected unit file change type: " +:+ t))
  | [] => mret tt
  end.

Definition systemd_DisableDaemon (name : string) : M Host unit :=
  changes ← DisableUnitFilesContext conn [getServiceUnitName name] false;
  match changes with
  | [t] => if String.eqb t TypeUnlink then mret tt
           else throw (ENew ("unexpected unit file change type: " +:+ t))
  | _ => throw (ENew ("unexpected number of unit file changes: " +:+
                      Itoa (Z.of_nat (List.length changes))))
  end.

Definition systemdDaemonManager : DaemonManager := {|
  StartDaemon := systemd_StartDaemon; StopDaemon := systemd_StopDaemon;
  RestartDaemon := systemd_RestartDaemon; GetDaemonStatus := systemd_GetDaemonStatus;
  EnableDaemon := systemd_EnableDaemon; DisableDaemon := systemd_DisableDaemon;
  DaemonReload := ReloadContext conn |}.
End Systemd.

(** ** Waiting (wait.go, retry.go) *)

(** [ticks] waits elapse before the context is done. *)
Fixpoint WaitForStatus (ticks : nat) (manager : DaemonManager) (daemonName : string)
    (desired : DaemonStatus) (ctxErr : error) (h : Host) : outcome unit * Host :=
  match GetDaemonStatus manager daemonName h with
  | ((status, err), h') =>
      if (if err is Some _ then false else true) && bool_decide (status = desired)
      then (Return tt, h')
      else
        match ticks with
        | O => (Throw (EWrap ("daemon " +:+ daemonName +:+ " still has status " +:+
                              DaemonStatus_string status) ctxErr), h')
        | S ticks => WaitForStatus ticks manager daemonName desired ctxErr h'
        end
  end.

Definition AsyncOperation : Type := string → list OperationOption → M Host unit.

(** [outcome h] is what the [select] sees first once the operation was
    submitted: a result on the channel, or ([None]) the end of the context. *)
Definition WaitForOperation (outcome : Host → option string) (ctxErr : error)
    (op : AsyncOperation) (name : string) (opts : list OperationOption) : M Host unit :=
  let o := fold_left (λ o opt, opt o) opts {| Result := false; Mode := "" |} in
  if Result o
  then throw (ENew "cannot specify a result channel when waiting for an operation")
  else
    op name [ApplyAll {| Result := true; Mode := Mode o |}];;
    res ← gets outcome;
    match res with
    | None => throw (EWrap ("operation for daemon " +:+ name +:+
                " did not complete in time, result is unknown") ctxErr)
    | Some r =>
        if String.eqb r Op_Failed || String.eqb r Op_Timeout
        then throw (ENew ("operation for daemon " +:+ name +:+ " failed with result [" +:+ r +:+ "]"))
        else mret tt
    end.

Fixpoint RetryOperation_loop (ticks : nat) (retries : Z) (wait : M Host unit) : M Host unit :=
  r ← try wait;
  match r with
  | Ok _ => mret tt
  | Err err =>
      let retries := retries + 1 in
      match ticks with
      | O => throw (EWrap ("operation didn't succeed after " +:+ Itoa retries +:+ " retries") err)
      | S ticks => RetryOperation_loop ticks retries wait
      end
  end.
Definition RetryOperation (ticks : nat) (outcome : Host → option string) (ctxErr : error)
    (op : AsyncOperation) (name : string) (opts : list OperationOption) : M Host unit :=
  RetryOperation_loop ticks 0 (WaitForOperation outcome ctxErr op name opts).

(** ** Properties *)

(** [n] status queries in a row that did not give the desired status. *)
Inductive not_yet (m : DaemonManager) (name : string) (desired : DaemonStatus) :
    nat → Host → Host → Prop :=
  | not_yet_0 h : not_yet m name desired 0 h h
  | not_yet_S n h status err h1 h2 :
      GetDaemonStatus m name h = ((status, err), h1) → (err ≠ None ∨ status ≠ desired) →
      not_yet m name desired n h1 h2 → not_yet m name desired (S n) h h2.

(** [WaitForStatus] returns nil only on a successful query that gives the
    desired status, after at most as many queries as the context allows; if
    it fails, every query did fail or gave another status, and the error
    names the last one and carries the context's. *)
Theorem WaitForStatus_spec ticks m name desired ctxErr h o h' :
  WaitForStatus ticks m name desired ctxErr h = (o, h') →
  match o with
  | Return _ => ∃ n h1, (n <= ticks)%nat ∧ not_yet m name desired n h h1 ∧
      GetDaemonStatus m name h1 = ((desired, None), h')
  | Throw e => not_yet m name desired (S ticks) h h' ∧
      ∃ status, e = EWrap ("daemon " +:+ name +:+ " still has status " +:+
                           DaemonStatus_string status) ctxErr
  | Panic => False
  end.
Proof.
  revert h. induction ticks as [|t IH]; intros h E; cbn [WaitForStatus] in E;
    destruct (GetDaemonStatus m name h) as [[status err] h1] eqn:Hg;
    destruct ((if err is Some _ then false else true) && bool_decide (status = desired)) eqn:Hb.
  1,3: injection E as <- <-; apply andb_true_iff in Hb as [He ->%bool_decide_eq_true];
    destruct err; [done|]; exists 0%nat, h; split; [lia|]; split; [constructor|done].
  - assert (err ≠ None ∨ status ≠ desired) as Hne.
    { apply andb_false_iff in Hb as [He|Hs%bool_decide_eq_false];
        [left; by destruct err|by right]. }
    injection E as <- <-. split; [|by exists status].
    eapply not_yet_S; [done..|constructor].
  - assert (err ≠ None ∨ status ≠ desired) as Hne.
    { apply andb_false_iff in Hb as [He|Hs%bool_decide_eq_false];
        [left; by destruct err|by right]. }
    specialize (IH _ E). destruct o as [u|e|]; [| |done].
    + destruct IH as (n & h2 & Hn & Hy & Hd). exists (S n), h2. split; [lia|].
      split; [by eapply not_yet_S|done].
    + destruct IH as [Hy He]. split; [by eapply not_yet_S|done].
Qed.

(** A manager whose status is running once the journal has two events. *)
Example slow_manager : DaemonManager := {|
  StartDaemon _ := mret tt; StopDaemon _ := mret tt; RestartDaemon _ _ := mret tt;
  GetDaemonStatus name h :=
    ((if (2 <=? List.length (journal h))%nat then DaemonStatusRunning else DaemonStatusUnknown,
      None), record (EvDaemon "status" name) h);
  EnableDaemon _ := mret tt; DisableDaemon _ := mret tt; DaemonReload := mret tt |}.

Lemma WaitForStatus_spec_witness :
  let h := {| fs := ∅; tracker := no_artifacts; journal := []; provider := no_provider |} in
  (WaitForStatus 5 slow_manager "kubelet" DaemonStatusRunning (ECtx true) h).1 = Return tt ∧
  ∃ n h1, (n <= 5)%nat ∧ not_yet slow_manager "kubelet" DaemonStatusRunning n h h1.
Proof.
  cbv zeta. destruct (WaitForStatus 5 slow_manager "kubelet" DaemonStatusRunning (ECtx true)
    {| fs := ∅; tracker := no_artifacts; journal := []; provider := no_provider |}) as [o h'] eqn:E.
  assert (o = Return tt) as ->.
  { change o with (o, h').1. rewrite <- E. vm_compute. reflexivity. }
  split; [reflexivity|].
  destruct (WaitForStatus_spec _ _ _ _ _ _ _ _ E) as (n & h1 & Hn & Hy & _).
  exists n, h1. split; [exact Hn|exact Hy].
Defined.

(** [WaitForOperation] submits the operation exactly once, with a result
    channel of its own, and reports success exactly when the operation was
    accepted and the first thing the channel delivered before the context
    ended was a result other than failed and timeout; options that already
    hold a result channel are refused before anything is submitted. *)
Theorem WaitForOperation_spec outcome ctxErr op name opts h h' :
  let o := fold_left (λ o opt, opt o) opts {| Result := false; Mode := "" |} in
  WaitForOperation outcome ctxErr op name opts h = (Return tt, h') ↔
  Result o = false ∧
  op name [ApplyAll {| Result := true; Mode := Mode o |}] h = (Return tt, h') ∧
  ∃ r, outcome h' = Some r ∧ r ≠ Op_Failed ∧ r ≠ Op_Timeout.
Proof.
  cbv zeta. unfold WaitForOperation. set (o := fold_left _ _ _).
  destruct (Result o); [split; [done|by intros [? _]]|].
  split.
  - intros E. apply bind_Return in E as ([] & h1 & Hop & E).
    apply bind_Return in E as (res & h2 & [= <- <-] & E).
    destruct (outcome h1) as [r|] eqn:Hr; [|done].
    destruct (String.eqb_spec r Op_Failed); [done|].
    destruct (String.eqb_spec r Op_Timeout); [done|].
    injection E as <-. eauto 10.
  - intros (_ & Hop & r & Hr & H1%String.eqb_neq & H2%String.eqb_neq).
    cbv [mbind M_bind gets]. by rewrite Hop, Hr, H1, H2.
Qed.

(** [systemd] only stops a unit it found active. *)
Lemma systemd_StopDaemon_spec conn name h o h' :
  systemd_StopDaemon conn name h = (o, h') →
  (∃ h1, systemd_GetDaemonStatus conn name h = ((DaemonStatusRunning, None), h1) ∧
     StopUnitContext conn (getServiceUnitName name) ModeReplace h1 = (o, h')) ∨
  (∃ status err, systemd_GetDaemonStatus conn name h = ((status, err), h') ∧
     (err ≠ None ∨ status ≠ DaemonStatusRunning) ∧
     o = match err with Some e => Throw e | None => Return tt end).
Proof.
  unfold systemd_StopDaemon.
  destruct (systemd_GetDaemonStatus conn name h) as [[status [e|]] h1].
  - intros [= <- <-]. right. exists status, (Some e). auto.
  - destruct (decide (status = DaemonStatusRunning)) as [->|Hs]; intros E; [eauto|].
    injection E as <- <-. right. exists status, None. auto.
Qed.
