(* ===== verification/Ssm.v ===== *)
(** * The SSM agent (internal/ssm: source.go, install.go, registration.go,
      config.go, aws.go)

    Downloading the signed setup program and running it, the agent's
    configuration file, the registration of the node and its removal.  PGP,
    JSON and the SSM API are libraries and services, taken as parameters. *)

From S2P Require Import Prelude GoStrings Host HttpFile Artifact Tracker PackageManager Aws Retry.
#[local] Open Scope Z_scope.

Definition defaultInstallerPath : string := "/opt/ssm/ssm-setup-cli".
Definition defaultSSMCongigPath : string := "/etc/amazon/ssm/amazon-ssm-agent.json".
Definition ssm_configRoot : string := "/etc/amazon".
Definition defaultAWSConfigPath : string := "/root/.aws".
Definition symlinkedAWSConfigPath : string := "/eks-hybrid/.aws".
Definition registrationFilePath : string := "/var/lib/amazon/ssm/registration".
Definition credentialRetryMaxSleepSeconds : Z := 60.

(** ** The installer's source (source.go) *)

Definition DefaultSsmInstallerRegion : string := "us-west-2".
(** The key the signatures of the setup program are checked with. *)
Definition ssmPublicGPGKey : string :=
  "-----BEGIN PGP PUBLIC KEY BLOCK-----
Version: GnuPG v2.0.22 (GNU/Linux)

mQINBGohhG8BEACxNOk7TM1ywHjW0qrSyH9npRDUjpWAyCD8L1Yu7nLnxwEBtUOk
HgQIo1scTWuwogaBZpAzg22A25AloOrhX8BGTokh71Xm3LbQT8dDQUDT7WRTl4R5
p7786TN79p4DqD3/JyzjiD/keTYyhplBWdyk5BEcqlyVj9Pf/1O6CrOJgGD1oGYK
7lRqMtmXlf86/mKveWvjJTPAF26dkDJZecnrheyEA99XlONm8zAlK6h09JThHBmW
MgDPXDSsVeEyXilPUJFhZJ2HXVG2tS9ioVM309tMX6B3W5woT7w8SA6uV2Pf0jMm
oYmMuCmQMU8/7/vOLQSJm+6Wui5dZywArqtOqXcSledRf7xhmug3Qa5maqY2Ttcn
XqTaH3WaBLtJZYqDJcsUH99AXqdQkozsCHHL2NmxRiShyLCX4VBKzH8j5kDNGeSL
uiICbj1Tufh7LDuIwdOQnX9gvB6j/SF3YVqJl4DAjCs4ODYpwm+36RZjQkbwELzX
zXnDoNgjR5tXCiNdxJLuzemQy7FcDc90fEbpDX03rN7iceavBmZbZ5Tlu53fgpzd
kflD8OwfjnYa9AXh2zweC1G0ut2QU+cZcoOq5/QPtQELNqvgpAUsQtkCECTerz8S
ugriZD4Tnd4FJUgoqX+/iwCWesyWjGkotxi7aJluLtz+znNT9SgeMCoJmQARAQAB
tCdTU00gQWdlbnQgPHNzbS1hZ2VudC1zaWduZXJAYW1hem9uLmNvbT6JAj8EEwEC
ACkFAmohhG8CGy8FCQLGmIAHCwkIBwMCAQYVCAIJCgsEFgIDAQIeAQIXgAAKCRAn
hNvziNGdRnXVD/9bP0IX6aU+qur66fTWs8RLDs//6Vx93e8lH6p4W+RxL+wW7Ajc
/REB7PPgc5ohW80/LwxHP2g8cZiSK7fp9cRbXODqiVYl4mAWQNfxfGcWpBxcEsyo
UGF6oRjiibL1BcJLFJgVZ/H4pT0xNEDJNIJpRn7ZVXm0vrVVVUh4a4WFXUkspRXm
q37eIMm76p969L5SNjY+F8Ld6hjmRiRopg4f/+lf/+e6R+fofSOVE3Ip/YpPH1DR
plwQJrMk1XFjm+JTsdtqMTIKv38j7HANmUgDGLsuQNn8048n6ve8koVZLSrv9FAi
elSNsSIurLEpkLM0QPOFviagK7zB/d/zScpGquBU9dPFOoTq/sNFhnZr+PA7MAek
r4WOP8kasS3LWGn/rqqIOw/PDm2mmUaIwm4XenOe8lJFKUGp6ssUOj4PIQKwGaL/
S2xTex25ZaNQaKXv2JUmriGycpCjIaniEHz60bBN1kSgO0m0a5Yg3X9Qw+ezt51o
Pi6H6NdE0IwNzNcbJI2UvphwR9L92Br/J9ElYbHRdgmz26SZeRNTht/+zKPxk4iD
YibpQ804cPfA0mJBODwzqL5BBfVJ0/rLtQ2ymuHaqKbKEc0KuJ6vWMoH9qlMBlv5
YiZeUw5Ls2uuaxhKTUYrCE4LuUlAtNW63+/TP+ciBg1bq5H5aBn5tSCYV4kCHAQQ
AQIABgUCaiGEcQAKCRB90Jej2tf1/PUvD/43D4uSk84EFEbvxHsXazhieLpzoMql
zYcxOWjRF9+8bYq9NQlC7gYDI3xS7y0NYfNWHdPU2FFO7Obu9XhZp2gQ+NqyyVTj
GoivF2uIhM6xsE1r9ZXXMLap4xbnPTfbLgQIyXkb1Dw0VVK40yFFOHMUs0mXJN6m
/S+FP3TDcgoDxgyRsRAB0vGKPIJABtlmR9Fg0tPEZpA4kbawiEq5uBjv5Fol/ctl
jRZ51ksszlxhZd0t9/aBpe7XBHpfIlsItPVskHV6Kpc274lj+f0BVE70/1n/++FM
sxpQNuN7mdXXzMLASifVapPQGLBeHuxriHsgh+V6Arpswojy1uPgp6J8B/gQQ/B2
mebiGJrM/LwNPWj79QPPgzUFz6LqYnyhtJCWURWJjzHRSXsPWKgd98AXjkeSgUz9
8NV5p9Td1uZ0iYQ7Qlo58Ih6jfPFULnftiQuRnp/5ErhojV/zxKzjZNmB6YZ508M
nYrz5/++8LBc6uAf/Oq907CdfEkAYid8j2dFttksJbhlYVTnuo9vd4BdOovnB88V
dvyFJcFzlWsys2vrH6CGmngYKStQHEA588/d1w1E7Z4A8XJJiBKkBMZSOrWDmUjG
vihLPXNOsrpdCZTI9jlznp6OrRVP3P9fp3fXj1nJeIdMr30akz19Lze6T9jsDDWa
M98H0Sl+MxUsAg==
=TpOv
-----END PGP PUBLIC KEY BLOCK-----".

Section SsmSource.
Context `{Env} (goarch : string).

(** The platform variants; Go iterates over the map in an unspecified
    [order]. *)
Definition toVariant : list (string * string) :=
  [("apt", "debian"); ("dnf", "linux"); ("yum", "linux")].
Fixpoint detectPlatformVariant (order : list (string * string)) : M Host string :=
  match order with
  | [] => throw (ENew "unsupported platform")
  | (pkgManager, variant) :: order =>
      p ← LookPath pkgManager;
      if p is Some _ then mret variant else detectPlatformVariant order
  end.

Record ssmInstallerSource := {
  ssm_region : string;
  ssm_dnsSuffix : string;
  buildSSMURL : M Host string;
  ssm_publicKey : string;
}.
Definition SSMInstallerOption : Type := ssmInstallerSource → ssmInstallerSource.

Definition WithURLBuilder (builder : M Host string) : SSMInstallerOption := λ s,
  {| ssm_region := ssm_region s; ssm_dnsSuffix := ssm_dnsSuffix s; buildSSMURL := builder;
     ssm_publicKey := ssm_publicKey s |}.
Definition WithPublicKey (key : string) : SSMInstallerOption := λ s,
  {| ssm_region := ssm_region s; ssm_dnsSuffix := ssm_dnsSuffix s;
     buildSSMURL := buildSSMURL s; ssm_publicKey := key |}.
Definition WithDnsSuffix (dnsSuffix : string) : SSMInstallerOption := λ s,
  {| ssm_region := ssm_region s; ssm_dnsSuffix := dnsSuffix;
     buildSSMURL := buildSSMURL s; ssm_publicKey := ssm_publicKey s |}.

(** [defaultBuildSSMURL] reads two fields of its receiver. *)
Definition defaultBuildSSMURL (order : list (string * string)) (region dnsSuffix : string)
    : M Host string :=
  variant ← detectPlatformVariant order;
  let dnsSuffix :=
    if String.eqb dnsSuffix "" then GetPartitionDNSSuffix (GetPartitionFromRegionFallback region)
    else dnsSuffix in
  mret ("https://amazon-ssm-" +:+ region +:+ ".s3." +:+ region +:+ "." +:+ dnsSuffix +:+
        "/latest/" +:+ variant +:+ "_" +:+ goarch +:+ "/ssm-setup-cli").

(** [NewSSMInstaller]: the method has a value receiver, so the method value
    [s.defaultBuildSSMURL] holds a copy of [*s] made before the options run. *)
Definition NewSSMInstaller (order : list (string * string)) (region : string)
    (opts : list SSMInstallerOption) : ssmInstallerSource :=
  fold_left (λ s opt, opt s) opts
    {| ssm_region := region; ssm_dnsSuffix := "";
       buildSSMURL := defaultBuildSSMURL order region "";
       ssm_publicKey := ssmPublicGPGKey |}.

Definition GetSSMInstaller (s : ssmInstallerSource) : M Host (string * option error) :=
  endpoint ← buildSSMURL s; GetHttpFileReader endpoint.
Definition GetSSMInstallerSignature (s : ssmInstallerSource) : M Host (string * option error) :=
  endpoint ← buildSSMURL s; GetHttpFileReader (endpoint +:+ ".sig").

(** The DNS suffix passed to [NewSSMInstaller] has no effect on what is
    downloaded: for every region, suffix and host, the installer and its
    signature are fetched exactly as without the option, from the suffix of
    the region's partition; the URL builder was bound to a copy of the
    source made before the option ran. *)
Theorem WithDnsSuffix_ignored order region dnsSuffix h :
  GetSSMInstaller (NewSSMInstaller order region [WithDnsSuffix dnsSuffix]) h =
    GetSSMInstaller (NewSSMInstaller order region []) h ∧
  GetSSMInstallerSignature (NewSSMInstaller order region [WithDnsSuffix dnsSuffix]) h =
    GetSSMInstallerSignature (NewSSMInstaller order region []) h ∧
  ∀ url h', buildSSMURL (NewSSMInstaller order region [WithDnsSuffix dnsSuffix]) h =
      (Return url, h') →
    ∃ variant, url = "https://amazon-ssm-" +:+ region +:+ ".s3." +:+ region +:+ "." +:+
      GetPartitionDNSSuffix (GetPartitionFromRegionFallback region) +:+
      "/latest/" +:+ variant +:+ "_" +:+ goarch +:+ "/ssm-setup-cli".
Proof.
  split; [done|]. split; [done|]. intros url h' E.
  apply bind_Return in E as (variant & h1 & _ & [= <- <-]). by exists variant.
Qed.
End SsmSource.

(** ** JSON values *)

Inductive json :=
  | JAtom (text : string)
  | JArr (l : list json)
  | JObj (fields : list (string * json)).

Fixpoint obj_get (k : string) (o : list (string * json)) : option json :=
  match o with
  | [] => None
  | (k', v) :: o => if String.eqb k k' then Some v else obj_get k o
  end.
Fixpoint obj_set (k : string) (v : json) (o : list (string * json)) : list (string * json) :=
  match o with
  | [] => [(k, v)]
  | (k', v') :: o => if String.eqb k k' then (k, v) :: o else (k', v') :: obj_set k v o
  end.

Lemma obj_get_set k v o k' :
  obj_get k' (obj_set k v o) = if String.eqb k' k then Some v else obj_get k' o.
Proof.
  induction o as [|[a b] o IH]; cbn.
  - by destruct (String.eqb k' k).
  - destruct (String.eqb_spec k a) as [->|Hka]; cbn.
    + by destruct (String.eqb k' a).
    + rewrite IH. destruct (String.eqb_spec k' a) as [->|]; [|done].
      by destruct (String.eqb_spec a k) as [->|].
Qed.

Lemma obj_set_idem k v o : obj_set k v (obj_set k v o) = obj_set k v o.
Proof.
  induction o as [|[a b] o IH]; cbn; [by rewrite String.eqb_refl|].
  destruct (String.eqb_spec k a) as [->|Hne]; cbn.
  - by rewrite String.eqb_refl.
  - rewrite (proj2 (String.eqb_neq _ _)) by done. by rewrite IH.
Qed.

(** ** Installation (install.go) *)

Section SsmInstall.
Context `{Env}.
(** [gopenpgp] on a key, the data and a detached signature. *)
Context (pgp_verify : string → string → string * option error → option error).
(** [encoding/json] on objects; a JSON null leaves the map nil ([None]). *)
Context (json_Unmarshal : string → result (option (list (string * json))))
  (json_MarshalIndent : list (string * json) → result string).

Record SsmSourceOps := {
  op_GetSSMInstaller : M Host (string * option error);
  op_GetSSMInstallerSignature : M Host (string * option error);
  op_PublicKey : string;
}.

(** [validateSetupSignature]: the installer is read to its end first. *)
Definition validateSetupSignature (installer signature : string * option error)
    (publicKey : string) : option error :=
  match installer.2 with
  | Some e => Some e
  | None => pgp_verify publicKey installer.1 signature
  end.

Definition ssm_downloadFileTo (source : SsmSourceOps) (installerPath : string) : M Host unit :=
  installer ← map_err (EWrap "getting ssm-setup-cli") (op_GetSSMInstaller source);
  signature ← map_err (EWrap "getting ssm-setup-cli signature")
                (op_GetSSMInstallerSignature source);
  map_err (EWrap "validating ssm-setup-cli signature")
    (of_option (validateSetupSignature installer signature (op_PublicKey source)));;
  map_err (EWrap "installing ssm-setup-cli")
    (InstallFile installerPath (buffer installer.1) 493);;
  mret tt.

Fixpoint ssm_retry (n : nat) (f : M Host unit) (err : option error) : M Host unit :=
  match n with
  | O => of_option err
  | S n =>
      r ← try f;
      match r with Ok _ => mret tt | Err e => ssm_retry n f (Some e) end
  end.
Definition ssm_downloadFileWithRetries (source : SsmSourceOps) (installerPath : string)
    : M Host unit := ssm_retry 3 (ssm_downloadFileTo source installerPath) None.

(** [util.WriteFileUniqueLine]: the line is looked for in the lines a scanner
    delivers, so beyond one that is too long it is not found. *)
Definition WriteFileUniqueLine (filepath data : string) (perm : Z) : M Host unit :=
  os_MkdirAll (path_Dir filepath) perm;;
  sys (EvCreate filepath perm) (λ f,
    match f !! filepath with
    | Some (File _ _) => Ok f
    | _ => create filepath perm f
    end);;
  lines ← scan_file filepath;
  if existsb (λ line, Contains line data) lines then mret tt
  else file_Write filepath (data +:+ newline).

Definition writeGpgConfig (home : option string) : M Host unit :=
  WriteFileUniqueLine (path_Join [default "/root" home; ".gnupg"; "gpg.conf"]) "no-tty" 493.

Definition runInstallWithRetries (installerPath region : string) : M Host unit :=
  cmd_Retry (NewCmd installerPath ["-install"; "-region"; region; "-version"; "latest"]).

(** The [config] map after the update of the [Ssm] section. *)
Definition with_ssm_settings (config : list (string * json)) : list (string * json) :=
  let ssm := match obj_get "Ssm" config with Some (JObj o) => o | _ => [] end in
  obj_set "Ssm" (JObj (obj_set "CredentialRetryMaxSleepSeconds"
                         (JAtom (Itoa credentialRetryMaxSleepSeconds)) ssm)) config.

Definition configureSSMAgent (installRoot : string) : M Host unit :=
  let configFile := path_Join [installRoot; defaultSSMCongigPath] in
  r ← try (os_ReadFile configFile);
  '(config, fileMode) ←
    match r with
    | Err e =>
        if negb (os_IsNotExist e)
        then throw (EWrap "failed to read existing config file" e)
        else
          map_err (EWrap "failed to create config directory")
            (os_MkdirAll (path_Dir configFile) 448);;
          mret (None, 384)
    | Ok data =>
        s ← try (os_Stat configFile);
        f ← gets fs;
        let fileMode := match s, f !! configFile with Ok _, Some (File _ p) => p | _, _ => 384 end in
        c ← map_err (EWrap ("failed to parse existing config file " +:+ configFile))
              (of_result (json_Unmarshal data));
        mret (c, fileMode)
    end;
  updatedData ← map_err (EWrap "failed to marshal config data")
    (of_result (json_MarshalIndent (with_ssm_settings (default [] config))));
  map_err (EWrap ("failed to write config file " +:+ configFile))
    (os_WriteFile configFile updatedData fileMode).

Definition ssm_installFromSource (home : option string) (root region : string)
    (source : SsmSourceOps) : M Host unit :=
  let installerPath := path_Join [root; defaultInstallerPath] in
  map_err (EWrap "writing gpg config file") (writeGpgConfig home);;
  map_err (EWrap "failed to install ssm installer")
    (ssm_downloadFileWithRetries source installerPath);;
  map_err (EWrap "failed to install ssm agent") (runInstallWithRetries installerPath region);;
  map_err (EWrap "failed to configure ssm agent") (configureSSMAgent root).

Definition ssm_Install (home : option string) (root region : string) (source : SsmSourceOps)
    : M Host unit :=
  ssm_installFromSource home root region source;;
  Add art_Ssm.
Definition ssm_Upgrade (home : option string) (root region : string) (source : SsmSourceOps)
    : M Host unit :=
  ssm_installFromSource home root region source.

(** ** Registration (registration.go, aws.go, config.go) *)

Record HybridInstanceRegistration := { ManagedInstanceID : string; RegRegion : string }.
Context (json_Unmarshal_registration : string → result HybridInstanceRegistration).

Definition RegistrationFilePath (installRoot : string) : string :=
  path_Join [installRoot; registrationFilePath].

Definition getRegistration (root : string) : M Host HybridInstanceRegistration :=
  data ← os_ReadFile (RegistrationFilePath root);
  of_result (json_Unmarshal_registration data).
Definition getManagedHybridInstanceIdAndRegion (root : string) : M Host (string * string) :=
  r ← getRegistration root; mret (ManagedInstanceID r, RegRegion r).
Definition GetManagedHybridInstanceId (root : string) : M Host string :=
  r ← getRegistration root; mret (ManagedInstanceID r).

Definition isRegistered (root : string) : M Host bool :=
  r ← try (GetManagedHybridInstanceId root);
  match r with
  | Ok _ => mret true
  | Err e => if os_IsNotExist e then mret false
             else throw (EWrap "reading ssm registration file" e)
  end.

Definition GetRegion (root : string) : M Host string :=
  r ← try (isRegistered root);
  match r with
  | Ok true =>
      r ← try (getManagedHybridInstanceIdAndRegion root);
      mret (match r with Ok (_, region) => region | Err _ => "" end)
  | _ => mret ""
  end.

Record SSMClient := {
  (** The number of managed instances with the given id. *)
  DescribeInstanceInformation : string → M Host nat;
  DeregisterManagedInstance : string → M Host unit;
}.

Definition isInstanceManaged (client : SSMClient) (instanceId : string) : M Host bool :=
  n ← DescribeInstanceInformation client instanceId; mret (0 <? n)%nat.

Definition Deregister (root : string) (client : SSMClient) : M Host unit :=
  r ← try (GetManagedHybridInstanceId root);
  match r with
  | Err e => if os_IsNotExist e then mret tt
             else throw (EWrap "reading ssm registration file" e)
  | Ok instanceId =>
      managed ← map_err (EWrap "getting managed instance information")
                  (isInstanceManaged client instanceId);
      when managed (map_err (EWrap "deregistering ssm managed instance")
                      (DeregisterManagedInstance client instanceId))
  end.

(** ** Removal *)

Definition removeFileOrDir (path errorMessage : string) : M Host unit :=
  map_err (EWrap errorMessage) (os_RemoveAll path).

Definition uninstallPreRegisterComponents (pm : DistroPackageManager) : M Host unit :=
  map_err (EWrap "uninstalling ssm") (cmd_Retry (UninstallCmd (GetSSMPackage pm)));;
  os_RemoveAll defaultInstallerPath.

Definition uninstall_actions (root regRoot : string) (client : SSMClient)
    (pm : DistroPackageManager) : list (M Host unit) :=
  [Deregister regRoot client;
   removeFileOrDir (RegistrationFilePath regRoot) "uninstalling ssm registration file";
   uninstallPreRegisterComponents pm;
   removeFileOrDir (path_Join [root; ssm_configRoot]) "uninstalling ssm config files";
   removeFileOrDir (path_Join [root; symlinkedAWSConfigPath]) "uninstalling ssm aws config symlink";
   removeFileOrDir (path_Join [root; defaultAWSConfigPath]) "uninstalling ssm aws config"].

(** The loop that runs every action and collects the errors. *)
Fixpoint run_actions (actions : list (M Host unit)) (allErrors : list error)
    : M Host (list error) :=
  match actions with
  | [] => mret allErrors
  | a :: actions =>
      r ← try a;
      run_actions actions match r with Ok _ => allErrors | Err e => allErrors ++ [e] end
  end.

Definition ssm_Uninstall (root regRoot : string) (client : SSMClient)
    (pm : DistroPackageManager) : M Host unit :=
  errs ← run_actions (uninstall_actions root regRoot client pm) [];
  of_option (errors_Join errs).
End SsmInstall.

(** ** Properties *)

Section SsmProps.
Context `{Env} (pgp_verify : string → string → string * option error → option error).

(** A download that only downloads. *)
Definition only_gets (P : event → Prop) (source : SsmSourceOps) : Prop :=
  journaled P (op_GetSSMInstaller source) ∧ journaled P (op_GetSSMInstallerSignature source).

(** The bytes [data] carry a signature that verifies under [key]. *)
Definition signed (key data : string) : Prop := ∃ sig, pgp_verify key data sig = None.

(** Everything written to a file is signed. *)
Definition writes_signed (key : string) (ev : event) : Prop :=
  match ev with EvWrite _ data => signed key data | _ => True end.

Lemma ssm_downloadFileTo_journaled source path :
  only_gets (writes_signed (op_PublicKey source)) source →
  journaled (writes_signed (op_PublicKey source)) (ssm_downloadFileTo pgp_verify source path).
Proof.
  intros [Hi Hs]. unfold ssm_downloadFileTo.
  apply journaled_bind; [by apply journaled_map_err|intros installer].
  apply journaled_bind; [by apply journaled_map_err|intros signature].
  unfold validateSetupSignature. destruct (installer.2) as [e|]; [apply journaled_pure|].
  destruct (pgp_verify (op_PublicKey source) installer.1 signature) as [e|] eqn:Hv;
    [apply journaled_pure|].
  assert (signed (op_PublicKey source) installer.1) as Hsig by by exists signature.
  unfold InstallFile, io_Copy. by host_tac.
Qed.

Lemma ssm_retry_journaled P n f err : journaled P f → journaled P (ssm_retry n f err).
Proof. intros Hf. revert err. induction n as [|n IH]; intros err; cbn; host_tac. Qed.

Lemma ssm_retry_Return n f err h h' :
  (n ≠ 0)%nat → ssm_retry n f err h = (Return tt, h') → ∃ h0, f h0 = (Return tt, h').
Proof.
  revert err h. induction n as [|n IH]; intros err h Hn E; [done|].
  cbn in E. cbv [mbind M_bind try] in E.
  destruct (f h) as [[[]|e|] h1] eqn:Ef; [injection E as <-; eauto| |done].
  destruct n as [|n]; [done|]. by eapply IH.
Qed.

(** C13. The SSM setup program reaches the disk only if its signature verified
    under the source's key: whatever the network and the host do, and
    however the three attempts end, every byte sequence written to a file is
    signed; and after a success the installer's path holds, with mode 0755,
    the bytes of a download that verified. *)
Theorem ssm_download_signed source path h o h' :
  path ≠ "" → only_gets (writes_signed (op_PublicKey source)) source →
  ssm_downloadFileWithRetries pgp_verify source path h = (o, h') →
  (∃ evs, journal h' = journal h ++ evs ∧
     Forall (writes_signed (op_PublicKey source)) evs) ∧
  (o = Return tt → ∃ data, fs h' !! path = Some (File data 493) ∧
     signed (op_PublicKey source) data).
Proof.
  intros Hp Hg E. split.
  - unfold ssm_downloadFileWithRetries in E.
    by eapply ssm_retry_journaled; [apply ssm_downloadFileTo_journaled|exact E].
  - intros ->. apply ssm_retry_Return in E as (h0 & E); [|done].
    unfold ssm_downloadFileTo in E.
    apply bind_Return in E as (installer & h1 & _ & E).
    apply bind_Return in E as (signature & h2 & _ & E).
    apply bind_Return in E as ([] & h3 & Hv & E). apply map_err_Return in Hv.
    apply bind_Return in E as (src & h4 & HI & [= <-]). apply map_err_Return in HI.
    apply InstallFile_Return in HI as (_ & _ & Hf & _); [|done].
    exists installer.1. split; [done|]. unfold validateSetupSignature in Hv.
    destruct (installer.2); [done|]. exists signature. by destruct (pgp_verify _ _ _).
Qed.

(** *** Best-effort removal *)

(** [ran actions h rs h']: from [h] the actions ran in order, each from the
    state the previous one left, and returned [rs]. *)
Inductive ran : list (M Host unit) → Host → list (result unit) → Host → Prop :=
  | ran_nil h : ran [] h [] h
  | ran_ok a l h h1 rs h' :
      a h = (Return tt, h1) → ran l h1 rs h' → ran (a :: l) h (Ok tt :: rs) h'
  | ran_err a l h e h1 rs h' :
      a h = (Throw e, h1) → ran l h1 rs h' → ran (a :: l) h (Err e :: rs) h'.

Definition errors_of (rs : list (result unit)) : list error :=
  omap err_of rs.

Lemma run_actions_spec l errs h errs' h' :
  run_actions l errs h = (Return errs', h') ↔
  ∃ rs, ran l h rs h' ∧ errs' = errs ++ errors_of rs.
Proof.
  revert errs h. induction l as [|a l IH]; intros errs h; cbn.
  - split.
    + intros [= <- <-]. exists []. split; [constructor|by rewrite app_nil_r].
    + intros (rs & Hr & ->). inversion Hr; subst. by rewrite app_nil_r.
  - cbv [mbind M_bind try]. destruct (a h) as [[[]|e|] h1] eqn:Ea.
    + rewrite IH. split.
      * intros (rs & Hr & ->). exists (Ok tt :: rs). split; [by econstructor|done].
      * intros (rs & Hr & ->). inversion Hr; simplify_eq; [|congruence].
        match goal with H1 : a h = _ |- _ => rewrite H1 in Ea; simplify_eq end. by eexists.
    + rewrite IH. split.
      * intros (rs & Hr & ->). exists (Err e :: rs). split; [by econstructor|].
        by rewrite <- app_assoc.
      * intros (rs & Hr & ->). inversion Hr; simplify_eq; [congruence|].
        match goal with H1 : a h = _ |- _ => rewrite H1 in Ea; simplify_eq end.
        eexists. split; [done|]. by rewrite <- app_assoc.
    + split; [done|]. intros (rs & Hr & _). inversion Hr; congruence.
Qed.

Lemma run_actions_no_Throw l errs h e h' : run_actions l errs h ≠ (Throw e, h').
Proof.
  revert errs h. induction l as [|a l IH]; intros errs h; cbn; [done|].
  cbv [mbind M_bind try]. destruct (a h) as [[[]|e'|] h1]; auto.
Qed.

Context (json_reg : string → result HybridInstanceRegistration).

(** Removing SSM is best effort: deregistration, the registration file,
    the package with the setup program, and the three configuration paths
    are all attempted, in this order, whatever fails; the call succeeds
    exactly when all six did, and otherwise returns precisely their errors,
    joined. *)
Theorem ssm_Uninstall_best_effort root regRoot client pm h h' :
  let actions := uninstall_actions json_reg root regRoot client pm in
  (ssm_Uninstall json_reg root regRoot client pm h = (Return tt, h') ↔
     ∃ rs, ran actions h rs h' ∧ errors_of rs = []) ∧
  ∀ e, ssm_Uninstall json_reg root regRoot client pm h = (Throw e, h') ↔
     ∃ rs, ran actions h rs h' ∧ errors_of rs ≠ [] ∧ e = EJoin (errors_of rs).
Proof.
  cbv zeta. unfold ssm_Uninstall. set (acts := uninstall_actions _ _ _ _ _).
  pose proof (run_actions_spec acts [] h) as HS.
  pose proof (run_actions_no_Throw acts [] h) as HN. cbv [mbind M_bind].
  destruct (run_actions acts [] h) as [[errs|e0|] h1].
  - destruct (proj1 (HS _ _) eq_refl) as (rs & Hr & ->). cbn [app] in *.
    assert (∀ rs' h2, ran acts h rs' h2 → errors_of rs' = errors_of rs ∧ h2 = h1) as Hdet.
    { intros rs' h2 Hr'.
      assert ((Return (errors_of rs), h1) = (Return (errors_of rs'), h2)) as [= -> ->]; [|done].
      apply HS. eauto. }
    split; [|intros e]; (split; [intros E|]).
    + exists rs. destruct (errors_of rs) eqn:Er; [|done]. by injection E as <-.
    + intros (rs' & Hr' & Her). destruct (Hdet _ _ Hr') as [He ->].
      rewrite <- He, Her. done.
    + exists rs. destruct (errors_of rs) eqn:Er; [done|]. by injection E as <- <-.
    + intros (rs' & Hr' & Her & ->). destruct (Hdet _ _ Hr') as [He ->].
      rewrite <- He. by destruct (errors_of rs').
  - by destruct (HN e0 h1).
  - split; [|intros e]; (split; [done|]).
    + intros (rs & Hr & _). assert ((Panic, h1) = (Return ([] ++ errors_of rs), h')) by
        (apply HS; eauto). done.
    + intros (rs & Hr & _). assert ((Panic, h1) = (Return ([] ++ errors_of rs), h')) by
        (apply HS; eauto). done.
Qed.

(** *** The agent's configuration *)

(** The update of the agent's configuration sets
    [Ssm.CredentialRetryMaxSleepSeconds] to 60 and loses nothing else: every
    other top-level key keeps its value, and so does every other key of the
    [Ssm] section when there was one; doing it again changes nothing. *)
Theorem with_ssm_settings_spec config k :
  (∃ ssm, obj_get "Ssm" (with_ssm_settings config) = Some (JObj ssm) ∧
     obj_get "CredentialRetryMaxSleepSeconds" ssm = Some (JAtom "60") ∧
     ∀ old, obj_get "Ssm" config = Some (JObj old) →
       k ≠ "CredentialRetryMaxSleepSeconds" → obj_get k ssm = obj_get k old) ∧
  (k ≠ "Ssm" → obj_get k (with_ssm_settings config) = obj_get k config) ∧
  obj_get k (with_ssm_settings (with_ssm_settings config)) =
    obj_get k (with_ssm_settings config).
Proof.
  unfold with_ssm_settings. split; [|split].
  - eexists. rewrite obj_get_set. split; [done|]. rewrite obj_get_set. split; [done|].
    intros old -> Hk. rewrite obj_get_set. by rewrite (proj2 (String.eqb_neq _ _)).
  - intros Hk. rewrite obj_get_set. by rewrite (proj2 (String.eqb_neq _ _)).
  - rewrite !obj_get_set. rewrite String.eqb_refl.
    destruct (String.eqb_spec k "Ssm"); [|done]. do 2 f_equal.
    apply obj_set_idem.
Qed.
End SsmProps.

Example signed_source : SsmSourceOps :=
  {| op_GetSSMInstaller := mret ("ELF", None); op_GetSSMInstallerSignature := mret ("sig", None);
     op_PublicKey := "key" |}.

Lemma ssm_download_signed_witness :
  let verify (key data : string) (sig : string * option error) :=
    if String.eqb data "ELF" then None else Some (ENew "bad signature") in
  let h := {| fs := ∅; tracker := no_artifacts; journal := []; provider := no_provider |} in
  ∃ h', ssm_downloadFileWithRetries verify signed_source defaultInstallerPath h = (Return tt, h') ∧
    ∃ data, fs h' !! defaultInstallerPath = Some (File data 493) ∧ signed verify "key" data.
Proof.
  cbv zeta. set (verify := fun _ _ _ => _).
  destruct (ssm_downloadFileWithRetries verify signed_source defaultInstallerPath
    {| fs := ∅; tracker := no_artifacts; journal := []; provider := no_provider |}) as [o h'] eqn:E.
  assert (o = Return tt) as ->.
  { change o with (o, h').1. rewrite <- E. vm_compute. reflexivity. }
  exists h'. split; [reflexivity|].
  refine (proj2 (ssm_download_signed verify signed_source defaultInstallerPath _ _ _ _ _ E) eq_refl).
  - discriminate.
  - split; apply journaled_pure.
Defined.
