(* ===== verification/Api.v ===== *)
(** * The credential provider of a node (internal/creds/creds.go) *)

From S2P Require Import Prelude GoStrings Host Tracker.
From S2P Require Export Types.

#[local] Open Scope Z_scope.

(** ** Credential providers

    [CredentialProvider] is a string type. *)

Definition SsmCredentialProvider : string := "ssm".
Definition IamRolesAnywhereCredentialProvider : string := "iam-ra".

Definition GetCredentialProvider (credProcess : string) : result string :=
  if String.eqb credProcess SsmCredentialProvider then Ok SsmCredentialProvider
  else if String.eqb credProcess IamRolesAnywhereCredentialProvider
  then Ok IamRolesAnywhereCredentialProvider
  else Err (ENew "invalid credential process provided. Valid options are ssm and iam-ra").

Definition GetCredentialProviderFromNodeConfig (nodeCfg : NodeConfig) : result string :=
  if IsSSM nodeCfg then Ok SsmCredentialProvider
  else if IsIAMRolesAnywhere nodeCfg then Ok IamRolesAnywhereCredentialProvider
  else Err (ENew "no credential process provided in nodeConfig").

Definition GetCredentialProviderFromInstalledArtifacts (artifacts : InstalledArtifacts)
    : result string :=
  if Ssm artifacts then Ok SsmCredentialProvider
  else if IamRolesAnywhere artifacts then Ok IamRolesAnywhereCredentialProvider
  else Err (ENew "no credential process found in installed artifacts").
