(* ===== verification/Node.v ===== *)
(** * The node and its pods (internal/node: validations.go, pods.go; the
      provider id of internal/kubelet/config.go)

    Whether the node is registered, cordoned and drained.  The Kubernetes
    client and the decoding of YAML are outside code; requests are retried
    by [GetRetry] and [ListRetry] of the file Retry. *)

From S2P Require Import Prelude GoStrings Host Retry Installers Api.
From stdpp Require Import sorting.
#[local] Open Scope Z_scope.

(** ** Provider ids (internal/kubelet/config.go) *)

Definition hybridProviderIdPrefix : string := "eks-hybrid".

Definition getProviderId (availabilityZone instanceId : string) : string :=
  "aws:///" +:+ availabilityZone +:+ "/" +:+ instanceId.
Definition getHybridProviderId (cfg : NodeConfig) : string :=
  hybridProviderIdPrefix +:+ ":///" +:+ cluster_Region (Cluster (Spec cfg)) +:+ "/" +:+
  cluster_Name (Cluster (Spec cfg)) +:+ "/" +:+ status_NodeName (Status cfg).

(** The one submatch of [^eks-hybrid:///[^/]+/[^/]+/(.+)$]: the segments
    between the slashes hold none, so there is only one way to match. *)
Definition nodeNameProviderIdRegexPattern (s : string) : option string :=
  match CutPrefix s "eks-hybrid:///" with
  | (rest, true) =>
      '(region, rest) ← Cut "/" rest;
      '(cluster, name) ← Cut "/" rest;
      if String.eqb region "" || String.eqb cluster "" || String.eqb name "" ||
         negb (free_of "010" name)
      then None else Some name
  | (_, false) => None
  end.

(** ** Pods *)

Record OwnerReference := { owner_Kind : string; Controller : option bool }.
Record Pod := { pod_Name : string; OwnerReferences : list OwnerReference }.
Record NodeObject := { Unschedulable : bool }.

(** [metav1.GetControllerOf]: the first reference marked as controller. *)
Fixpoint GetControllerOf (refs : list OwnerReference) : option OwnerReference :=
  match refs with
  | [] => None
  | r :: refs => if Controller r is Some true then Some r else GetControllerOf refs
  end.

Definition daemonSetFilter (pods : list Pod) : list Pod :=
  keep (λ pod, match GetControllerOf (OwnerReferences pod) with
               | None => true
               | Some controllerRef => negb (String.eqb (owner_Kind controllerRef) "DaemonSet")
               end) pods.

Definition defaultStaticPodManifestPath : string := "/etc/kubernetes/manifest".

(** [apierrors.IsNotFound] looks through wrapped errors. *)
Fixpoint IsNotFound (e : error) : bool :=
  match e with
  | EApiNotFound _ => true
  | EWrap _ c | EChronyc c | ETimedatectl c => IsNotFound c
  | ECert _ _ (Some c) => IsNotFound c
  | EJoin es => existsb IsNotFound es
  | _ => false
  end.

(** [filepath.Ext] of a file name without slashes. *)
Definition Ext (name : string) : string :=
  match CutLast "." name with Some (_, e) => String "." e | None => "" end.

(** [os.ReadDir]: the names in a directory, sorted. *)
Definition name_le (a b : string) : Prop := String.leb a b = true.
#[local] Instance name_le_dec : RelDecision name_le.
Proof. intros a b. unfold name_le. apply _. Defined.
Definition dir_names (f : files) (dir : string) : list string :=
  merge_sort name_le
    (omap (λ kv : string * file,
       match CutPrefix kv.1 (dir +:+ "/") with
       | (name, true) => if free_of "/" name then Some name else None
       | (_, false) => None
       end) (map_to_list f)).
Definition os_ReadDir `{Env} (dir : string) : M Host (list string) :=
  sys (EvRead dir) (λ f, if is_dir f dir then Ok f else
    match f !! dir with
    | Some _ => Err (ENew ("fdopendir " +:+ dir +:+ ": not a directory"))
    | None => Err (ENotExist dir)
    end);;
  gets (λ h, dir_names (fs h) dir).

(** [file.Exists] (internal/util/file): any answer but not-existing. *)
Definition file_Exists `{Env} (p : string) : M Host bool :=
  r ← try (os_Stat p);
  mret match r with Ok _ => true | Err e => negb (os_IsNotExist e) end.

Section Node.
Context `{Env} `{BackoffLoop}.
(** [sigs.k8s.io/yaml] into [metav1.ObjectMeta] (its name) and into the
    kubelet's configuration (its provider id). *)
Context (yaml_ObjectMeta : string → result string)
        (yaml_ProviderID : string → result (option string)).

(** The calls of [clientset.CoreV1()] used here. *)
Record KubeClient := {
  get_node : string → Ctx → Host → (NodeObject * option error) * Host;
  list_pods : string → Ctx → Host → (list Pod * option error) * Host;
}.
(** [kubelet.GetKubeClientFromKubeConfig] with the variables it is given. *)
Context (GetKubeClientFromKubeConfig : list (string * string) → M Host KubeClient).
(** *** Static pods *)

Fixpoint static_names (files : list string) : M Host (list string) :=
  match files with
  | [] => mret []
  | f :: files =>
      if String.eqb (Ext f) ".yaml" || String.eqb (Ext f) ".yml" then
        fileData ← os_ReadFile (path_Join [defaultStaticPodManifestPath; f]);
        name ← map_err (EWrap ("failed to unmarshal static pod manifest file: " +:+ f))
                 (of_result (yaml_ObjectMeta fileData));
        names ← static_names files;
        mret (name :: names)
      else static_names files
  end.
Definition getStaticPodsOnNode : M Host (list string) :=
  r ← try (os_ReadDir defaultStaticPodManifestPath);
  match r with
  | Err e => if errors_Is_NotExist e then mret []
             else throw (EWrap "failed to read static manifest directory" e)
  | Ok files => static_names files
  end.

Definition staticPodsFilter (pods : list Pod) : M Host (list Pod) :=
  staticPods ← getStaticPodsOnNode;
  mret match staticPods with
       | [] => pods
       | _ => keep (λ pod, negb (slices_Contains staticPods (pod_Name pod))) pods
       end.

Definition isDrained (pods : list Pod) : M Host bool :=
  pods ← mret (daemonSetFilter pods);
  pods ← map_err (EWrap "running filter on pods") (staticPodsFilter pods);
  mret match pods with [] => true | _ => false end.

(** *** The node *)

Definition kubelet_config_path : string := path_Join [kubeletConfigRoot; "config.json"].

(** [GetNodeName]: a configuration without a provider id is a nil pointer. *)
Definition GetNodeName : M Host string :=
  p ← map_err (EWrap "failed to get kubelet configuration from disk")
        (data ← os_ReadFile kubelet_config_path; of_result (yaml_ProviderID data));
  match p with
  | None => panic
  | Some id =>
      match nodeNameProviderIdRegexPattern id with
      | Some name => mret name
      | None => throw (ENew "failed to get node name from provider id")
      end
  end.

(** [hybrid.BuildKubeClient]. *)
Definition BuildKubeClient : M Host KubeClient :=
  credentials ← file_Exists EksHybridAwsCredentialsPath;
  GetKubeClientFromKubeConfig
    (if credentials : bool
     then [("AWS_SHARED_CREDENTIALS_FILE", EksHybridAwsCredentialsPath)] else []).

(** A retried request that returns the object it read. *)
Definition fetch {O} (r : Host → outcome unit * (Host * O)) : M Host O := λ h,
  match r h with
  | (Return _, (h', obj)) => (Return obj, h')
  | (Throw e, (h', _)) => (Throw e, h')
  | (Panic, (h', _)) => (Panic, h')
  end.

Definition getCurrentNode (ctx : Ctx) : M Host NodeObject :=
  nodeName ← GetNodeName;
  clientset ← BuildKubeClient;
  fetch (GetRetry ctx (get_node clientset nodeName) {| Unschedulable := false |}).

Definition IsInitialized (ctx : Ctx) : M Host unit := getCurrentNode ctx;; mret tt.

Definition IsUnscheduled (ctx : Ctx) : M Host unit :=
  r ← try (getCurrentNode ctx);
  match r with
  | Err e => if IsNotFound e then mret tt else throw e
  | Ok node => if Unschedulable node then mret tt else throw (ENew "node is schedulable")
  end.

Definition GetPodsOnNode (ctx : Ctx) (nodeName : string) (clientset : KubeClient)
    : M Host (list Pod) :=
  map_err (EWrap "listing all pods running on the node")
    (fetch (ListRetry ctx (list_pods clientset ("spec.nodeName=" +:+ nodeName)) [])).

Definition IsDrained (ctx : Ctx) : M Host bool :=
  nodeName ← map_err (EWrap "getting node name from kubelet") GetNodeName;
  clientset ← map_err (EWrap "failed to create kubernetes client") BuildKubeClient;
  pods ← map_err (EWrap ("getting pods for node " +:+ nodeName))
           (GetPodsOnNode ctx nodeName clientset);
  isDrained pods.

(** *** Properties *)

(** A pod the drain check lets stay: its controller is a DaemonSet, or it
    bears the name of a static pod. *)
Definition may_stay (static : list string) (pod : Pod) : Prop :=
  (∃ r, GetControllerOf (OwnerReferences pod) = Some r ∧ owner_Kind r = "DaemonSet") ∨
  pod_Name pod ∈ static.

Lemma daemonSetFilter_elem pods pod :
  pod ∈ daemonSetFilter pods ↔ pod ∈ pods ∧
    ¬ ∃ r, GetControllerOf (OwnerReferences pod) = Some r ∧ owner_Kind r = "DaemonSet".
Proof.
  unfold daemonSetFilter. rewrite elem_of_keep. apply and_iff_compat_l.
  destruct (GetControllerOf _) as [r|]; [|naive_solver].
  rewrite negb_true_iff, String.eqb_neq. naive_solver.
Qed.

(** The node counts as drained exactly when every pod on it is
    controlled by a DaemonSet or is named like a static pod of the manifest
    directory; a directory that does not exist holds none, and any other
    failure to read it is an error. *)
Theorem isDrained_spec pods h o h' :
  isDrained pods h = (o, h') →
  match o with
  | Return drained =>
      ∃ static, getStaticPodsOnNode h = (Return static, h') ∧
        (drained = true ↔ ∀ pod, pod ∈ pods → may_stay static pod)
  | Throw e => ∃ e', getStaticPodsOnNode h = (Throw e', h') ∧
                 e = EWrap "running filter on pods" e'
  | Panic => getStaticPodsOnNode h = (Panic, h')
  end.
Proof using Type.
  clear yaml_ProviderID GetKubeClientFromKubeConfig.
  unfold isDrained, staticPodsFilter. cbv [mbind M_bind mret M_ret map_err]. intros E.
  destruct (getStaticPodsOnNode h) as [[static|e|] h1]; injection E as <- <-; [|eauto..].
  exists static. split; [done|]. set (rest := match static with [] => _ | _ => _ end).
  assert (∀ pod, pod ∈ rest ↔ pod ∈ pods ∧ ¬ may_stay static pod) as Hrest.
  { intros pod. subst rest. unfold may_stay. destruct static as [|s static].
    - rewrite daemonSetFilter_elem. pose proof (not_elem_of_nil (pod_Name pod)). tauto.
    - rewrite elem_of_keep, daemonSetFilter_elem, negb_true_iff, slices_Contains_false. tauto. }
  assert (∀ pod, may_stay static pod ∨ ¬ may_stay static pod) as Hdec.
  { intros pod. unfold may_stay. destruct (decide (pod_Name pod ∈ static)); [by left; right|].
    destruct (GetControllerOf _) as [r|]; [|right; naive_solver].
    destruct (decide (owner_Kind r = "DaemonSet")); [left; left; eauto|right; naive_solver]. }
  destruct rest as [|pod rest'] eqn:Er; (split; [intros Ht|intros Hall]); [| |done|].
  - intros pod Hin. destruct (Hdec pod) as [|Hn]; [done|].
    exfalso. apply (not_elem_of_nil pod), Hrest. done.
  - done.
  - exfalso. destruct (proj1 (Hrest pod) ltac:(by left)) as [Hin Hn]. by apply Hn, Hall.
Qed.

Lemma provider_id_parse region cluster name :
  region ≠ "" → free_of "/" region = true → cluster ≠ "" → free_of "/" cluster = true →
  name ≠ "" → free_of "010" name = true →
  nodeNameProviderIdRegexPattern
    ("eks-hybrid:///" +:+ region +:+ "/" +:+ cluster +:+ "/" +:+ name) = Some name.
Proof.
  intros Hr Hfr Hc Hfc Hn Hfn. unfold nodeNameProviderIdRegexPattern.
  rewrite CutPrefix_app.
  assert (Cut "/" (region +:+ "/" +:+ cluster +:+ "/" +:+ name) =
    Some (region, cluster +:+ "/" +:+ name)) as -> by (by apply Cut_spec).
  cbn [mbind option_bind].
  assert (Cut "/" (cluster +:+ "/" +:+ name) = Some (cluster, name)) as -> by (by apply Cut_spec).
  cbn [mbind option_bind]. rewrite !(proj2 (String.eqb_neq _ _)) by done. by rewrite Hfn.
Qed.

(** The node name survives the trip through the kubelet's configuration:
    when the configuration on disk holds the provider id nodeadm generates
    for a cluster region and name without slashes, the name read back for
    the Kubernetes requests is the one the node was configured with. *)
Theorem node_name_roundtrip cfg data h :
  let region := cluster_Region (Cluster (Spec cfg)) in
  let cluster := cluster_Name (Cluster (Spec cfg)) in
  let name := status_NodeName (Status cfg) in
  region ≠ "" → free_of "/" region = true → cluster ≠ "" → free_of "/" cluster = true →
  name ≠ "" → free_of "010" name = true →
  fault h (EvRead kubelet_config_path) = None →
  read_file (fs h) kubelet_config_path = Ok data →
  yaml_ProviderID data = Ok (Some (getHybridProviderId cfg)) →
  GetNodeName h = (Return name, record (EvRead kubelet_config_path) h).
Proof using Type.
  cbv zeta. intros Hr Hfr Hc Hfc Hn Hfn Hf Hd Hy.
  unfold GetNodeName, os_ReadFile, sys, map_err, gets, of_result. cbv [mbind M_bind].
  rewrite Hf. cbn [fs set_fs record]. rewrite Hd, Hy.
  unfold getHybridProviderId, hybridProviderIdPrefix.
  rewrite <- app_assoc_str. change ("eks-hybrid" +:+ ":///") with "eks-hybrid:///".
  rewrite provider_id_parse by done. by destruct h.
Qed.
End Node.

(** ** Concrete runs *)

Example manifest_dir : Host := {|
  fs := <["/etc/kubernetes/manifest" := Dir 493]>
        (<["/etc/kubernetes/manifest/etcd.yaml" := File "etcd" 420]>
        (<["/etc/kubernetes/manifest/notes.txt" := File "x" 420]> ∅));
  tracker := {| Containerd := ""; CniPlugins := false; IamAuthenticator := false;
    IamRolesAnywhere := false; ImageCredentialProvider := false; Kubectl := false;
    Kubelet := true; Ssm := false; Iptables := false |};
  journal := []; provider := no_provider |}.

Example pods_on_node : list Pod :=
  [{| pod_Name := "cilium-x"; OwnerReferences := [{| owner_Kind := "DaemonSet"; Controller := Some true |}] |};
   {| pod_Name := "etcd"; OwnerReferences := [] |};
   {| pod_Name := "web"; OwnerReferences := [{| owner_Kind := "ReplicaSet"; Controller := Some true |}] |}].

Lemma isDrained_spec_witness :
  (isDrained (λ s, Ok s) pods_on_node manifest_dir).1 = Return false ∧
  (isDrained (λ s, Ok s) (take 2 pods_on_node) manifest_dir).1 = Return true ∧
  ∃ static, Forall (may_stay static) (take 2 pods_on_node).
Proof.
  split; [vm_compute; reflexivity|].
  destruct (isDrained (λ s, Ok s) (take 2 pods_on_node) manifest_dir) as [o h'] eqn:E.
  assert (o = Return true) as ->.
  { change o with (o, h').1. rewrite <- E. vm_compute. reflexivity. }
  split; [reflexivity|].
  destruct (isDrained_spec (λ s, Ok s) _ _ _ _ E) as (static & _ & Hall).
  exists static. apply Forall_elem. apply Hall. reflexivity.
Defined.

Example hybrid_node : NodeConfig := {|
  Spec := {| Cluster := {| cluster_Name := "prod"; cluster_Region := "us-west-2";
      APIServerEndpoint := ""; CertificateAuthority := None; CIDR := "";
      EnableOutpost := None; cluster_ID := "" |};
    spec_Containerd := {| containerd_Config := "" |};
    spec_Instance := {| LocalStorageStrategy := "" |};
    spec_Kubelet := {| Config := ∅; Flags := [] |};
    Hybrid := Some {| EnableCredentialsFile := false; hybrid_IAMRolesAnywhere := None;
      hybrid_SSM := Some {| ActivationCode := "code"; ActivationID := "id" |} |} |};
  Status := {| status_Instance := {| instance_ID := ""; instance_Region := "";
      instance_Type := ""; AvailabilityZone := ""; MAC := ""; PrivateDNSName := "" |};
    status_NodeName := "mi-0123/a"; SandboxImage := "" |} |}.

Lemma node_name_roundtrip_witness :
  let h := set_fs (<[kubelet_config_path := File (getHybridProviderId hybrid_node) 420]> ∅)
             manifest_dir in
  (GetNodeName (λ s, Ok (Some s)) h).1 = Return "mi-0123/a".
Proof.
  cbv zeta.
  rewrite (node_name_roundtrip (λ s, Ok (Some s)) hybrid_node (getHybridProviderId hybrid_node));
    [reflexivity|discriminate|reflexivity|discriminate|reflexivity|discriminate|reflexivity
    |reflexivity|vm_compute; reflexivity|reflexivity].
Defined.
