(* ===== verification/Flows.v ===== *)
(** * The flows (internal/flows): install, uninstall, upgrade and init

    The whole-node operations, composed of the components' operations in the
    code's order.  [Runtime] gathers the code outside the repository that
    the flows hand to them: codecs, digests, signatures, and the facts about
    the machine the binary was built for.  A nil package manager, which the
    commands pass in private mode, is [None], and using it is a panic. *)

From S2P Require Import Prelude GoStrings Host HttpFile Semver Artifact Tracker Installers PackageManager Aws Daemon Ssm Api.
#[local] Open Scope Z_scope.

Class Runtime := {
  goarch : string;
  goos : string;
  (** The unit file embedded in the binary, and the default manifest URL
      set when it is linked. *)
  kubelet_unit : string;
  manifest_url : string;
  (** [$HOME], when set. *)
  home : option string;
  (** The order in which Go iterates over the platform variants. *)
  variant_order : list (string * string);
  codename : Host → string;
  sha256 : string → string;
  gunzip : string * option error → result (string * option error);
  untar : Untar;
  evalSymlinks : string → Host → string * option error;
  pgp_verify : string → string → string * option error → option error;
  json_Unmarshal : string → result (option (list (string * json)));
  json_MarshalIndent : list (string * json) → result string;
  json_registration : string → result HybridInstanceRegistration;
  yaml_manifest : string → result Manifest;
}.

Section Flows.
Context `{Env} `{Semver} `{TrackerYaml} `{Runtime}.

(** [aws.Source] as the source of every artifact. *)
Definition sources_of (s : AwsSource) : Sources := {|
  GetKubelet := aws_GetKubelet goarch goos sha256 gunzip s;
  GetKubectl := aws_GetKubectl goarch goos sha256 gunzip s;
  GetCniPlugins := aws_GetCniPlugins goarch goos sha256 gunzip s;
  GetImageCredentialProvider := aws_GetImageCredentialProvider goarch goos sha256 gunzip s;
  GetSigningHelper := aws_GetSigningHelper goarch goos sha256 gunzip s;
  GetIAMAuthenticator := aws_GetIAMAuthenticator goarch goos sha256 gunzip s |}.

(** The SSM installer source as the interface [ssm.Install] takes. *)
Definition ssm_source (region dnsSuffix : string) : SsmSourceOps :=
  let s := NewSSMInstaller goarch variant_order region [WithDnsSuffix dnsSuffix] in
  {| op_GetSSMInstaller := GetSSMInstaller s;
     op_GetSSMInstallerSignature := GetSSMInstallerSignature s;
     op_PublicKey := ssm_publicKey s |}.

Definition with_pm (pm : option DistroPackageManager)
    (f : DistroPackageManager → M Host unit) : M Host unit :=
  match pm with Some pm => f pm | None => panic end.

(** ** Install (install.go) *)

Record Installer := {
  inst_AwsSource : AwsSource;
  inst_ContainerdSource : string;
  inst_PackageManager : option DistroPackageManager;
  inst_CredentialProvider : string;
  SsmRegion : string;
  inst_PrivateMode : bool;
}.

Definition installDistroPackages (i : Installer) : M Host unit :=
  with_pm (inst_PackageManager i) (λ pm,
    containerd_Install pm (inst_ContainerdSource i) (Version (Eks (inst_AwsSource i)));;
    try GetContainerdVersion;;
    iptables_Install pm).

Definition installCredentialProcess (i : Installer) : M Host unit :=
  if String.eqb (inst_CredentialProvider i) IamRolesAnywhereCredentialProvider
  then ira_Install "" (sources_of (inst_AwsSource i))
  else if String.eqb (inst_CredentialProvider i) SsmCredentialProvider
  then ssm_Install pgp_verify json_Unmarshal json_MarshalIndent home "" (SsmRegion i)
         (ssm_source (SsmRegion i) (DnsSuffix (RegionInfo (inst_AwsSource i))))
  else throw (ENew "unable to detect hybrid auth method").

Definition installEksArtifacts (i : Installer) : M Host unit :=
  let s := sources_of (inst_AwsSource i) in
  kubelet_Install kubelet_unit "" s;;
  kubectl_Install "" s;;
  cni_Install untar "" s;;
  icp_Install "" s;;
  auth_Install "" s.

Definition Installer_Run (i : Installer) : M Host unit :=
  t ← GetCurrentState;
  modify (set_tracker t);;
  if inst_PrivateMode i then
    installCredentialProcess i;;
    installEksArtifacts i;;
    Save
  else
    with_pm (inst_PackageManager i) (PackageManager.Configure GetHttpFile goarch codename);;
    installDistroPackages i;;
    installCredentialProcess i;;
    installEksArtifacts i;;
    Save.

(** ** Uninstall (uninstall.go) *)

Definition eksConfigDir : string := "/etc/eks".
Definition KubeletDaemonName : string := "kubelet".
Definition ContainerdDaemonName : string := "containerd".
Definition SigningHelperDaemonName : string := "aws_signing_helper_update".
(** The package variable [ssm.SsmDaemonName] with its initial value; only
    [NewSsmDaemon], which uninstall does not call, changes it. *)
Definition SsmDaemonName : string := "amazon-ssm-agent".

Record Uninstaller := {
  un_Artifacts : InstalledArtifacts;
  un_DaemonManager : DaemonManager;
  un_PackageManager : DistroPackageManager;
  CNIUninstall : M Host unit;
  (** [config.LoadDefaultConfig] with the region, if any, and the SSM client
      made from its answer. *)
  LoadDefaultConfig : option string → M Host SSMClient;
}.

Definition uninstall_kubelet (u : Uninstaller) : M Host unit :=
  StopDaemon (un_DaemonManager u) KubeletDaemonName;;
  kubelet_Uninstall evalSymlinks "".

Definition uninstall_ssm (u : Uninstaller) : M Host unit :=
  StopDaemon (un_DaemonManager u) SsmDaemonName;;
  region ← GetRegion json_registration "";
  client ← LoadDefaultConfig u (if String.eqb region "" then None else Some region);
  map_err (EWrap "uninstalling SSM")
    (ssm_Uninstall json_registration "" "" client (un_PackageManager u)).

(** The daemon is stopped unless its status is an error and unknown. *)
Definition uninstall_signing_helper_daemon (u : Uninstaller) : M Host unit := λ h,
  match GetDaemonStatus (un_DaemonManager u) SigningHelperDaemonName h with
  | ((status, err), h) =>
      if (if err is None then true else false) || bool_decide (status ≠ DaemonStatusUnknown)
      then StopDaemon (un_DaemonManager u) SigningHelperDaemonName h
      else (Return tt, h)
  end.

Definition uninstall_containerd (u : Uninstaller) : M Host unit :=
  StopDaemon (un_DaemonManager u) ContainerdDaemonName;;
  containerd_Uninstall (un_PackageManager u).

Definition uninstallDaemons (u : Uninstaller) : M Host unit :=
  let a := un_Artifacts u in
  when (Kubelet a) (uninstall_kubelet u);;
  when (Ssm a) (uninstall_ssm u);;
  when (IamRolesAnywhere a) (uninstall_signing_helper_daemon u);;
  when (negb (String.eqb (Containerd a) ContainerdSourceNone)) (uninstall_containerd u).

Definition uninstallBinaries (u : Uninstaller) : M Host unit :=
  let a := un_Artifacts u in
  when (Kubectl a) kubectl_Uninstall;;
  when (CniPlugins a) (CNIUninstall u);;
  when (IamAuthenticator a) auth_Uninstall;;
  when (IamRolesAnywhere a) ira_Uninstall;;
  when (ImageCredentialProvider a) icp_Uninstall;;
  when (Iptables a) (iptables_Uninstall (un_PackageManager u)).

Definition cleanup (u : Uninstaller) : M Host unit :=
  pm_Cleanup (un_PackageManager u);;
  os_RemoveAll eksConfigDir.

Definition Uninstaller_Run (u : Uninstaller) : M Host unit :=
  uninstallDaemons u;;
  uninstallBinaries u;;
  cleanup u;;
  Clear.

(** ** Node providers (internal/nodeprovider)

    The provider's configuration is part of what the host answers; Go's
    [GetNodeConfig] never fails, nor do the default settings. *)

Record SystemAspect := { aspect_Name : string; Setup : M Host unit }.

Record NodeProvider := {
  GetNodeConfig : Host → NodeConfig;
  PopulateNodeConfigDefaults : M Host unit;
  ValidateConfig : M Host unit;
  PreProcessDaemon : M Host unit;
  GetDaemons : M Host (list Daemon);
  GetAspects : M Host (list SystemAspect);
  Validate : M Host unit;
  np_Cleanup : M Host unit;
  Enrich : option RegionData → M Host unit;
  ConfigureAws : M Host unit;
}.

(** ** Init (init.go) *)

Definition preprocessPhase : string := "preprocess".
Definition configPhase : string := "config".
Definition runPhase : string := "run".

Definition initDaemons (np : NodeProvider) (skipPhases : list string) : M Host unit :=
  when (negb (slices_Contains skipPhases preprocessPhase)) (PreProcessDaemon np);;
  daemons ← GetDaemons np;
  when (negb (slices_Contains skipPhases configPhase)) (for_each Daemon.Configure daemons);;
  when (negb (slices_Contains skipPhases runPhase))
    (for_each (λ d, EnsureRunning d;; PostLaunch d) daemons).

Record Initer := {
  init_NodeProvider : NodeProvider;
  init_SkipPhases : list string;
  ManifestOverride : string;
}.

Definition Initer_Run (i : Initer) : M Host unit :=
  let np := init_NodeProvider i in
  PopulateNodeConfigDefaults np;;
  ValidateConfig np;;
  ConfigureAws np;;
  cfg ← gets (GetNodeConfig np);
  let region := cluster_Region (Cluster (Spec cfg)) in
  regionConfig ← try
    (if String.eqb (ManifestOverride i) ""
     then GetRegionConfig manifest_url yaml_manifest region
     else GetRegionConfigFromManifest yaml_manifest region (ManifestOverride i));
  Enrich np match regionConfig with Ok r => Some r | Err _ => None end;;
  Validate np;;
  aspects ← GetAspects np;
  for_each Setup aspects;;
  initDaemons np (init_SkipPhases i);;
  np_Cleanup np.

(** ** Upgrade (upgrade.go) *)

Definition containerdMajorVersionUpgrade : string := "containerd-major-version-upgrade".

Record Upgrader := {
  up_NodeProvider : NodeProvider;
  up_AwsSource : AwsSource;
  up_PackageManager : option DistroPackageManager;
  up_CredentialProvider : string;
  up_Artifacts : InstalledArtifacts;
  up_SkipPhases : list string;
  up_PrivateMode : bool;
}.

Definition upgradeDistroPackages (u : Upgrader) : M Host unit :=
  with_pm (up_PackageManager u) RefreshMetadataCache;;
  when (negb (String.eqb (Containerd (up_Artifacts u)) ContainerdSourceNone))
    (with_pm (up_PackageManager u) (λ pm,
       containerd_Upgrade pm (Version (Eks (up_AwsSource u)))
         (slices_Contains (up_SkipPhases u) containerdMajorVersionUpgrade)));;
  when (Iptables (up_Artifacts u)) (with_pm (up_PackageManager u) iptables_Upgrade).

Definition upgradeCredentialProvider (u : Upgrader) : M Host unit :=
  if String.eqb (up_CredentialProvider u) IamRolesAnywhereCredentialProvider
  then ira_Upgrade sha256 (sources_of (up_AwsSource u))
  else if String.eqb (up_CredentialProvider u) SsmCredentialProvider
  then
    cfg ← gets (GetNodeConfig (up_NodeProvider u));
    let region := cluster_Region (Cluster (Spec cfg)) in
    ssm_Upgrade pgp_verify json_Unmarshal json_MarshalIndent home "" region
      (ssm_source region (DnsSuffix (RegionInfo (up_AwsSource u))))
  else throw (ENew ("installed credential provider " +:+ up_CredentialProvider u +:+
                    " is not supported for upgrade")).

Definition upgradeEksArtifacts (u : Upgrader) : M Host unit :=
  let s := sources_of (up_AwsSource u) in
  map_err (EWrap "failed to upgrade kubelet") (kubelet_Upgrade sha256 s);;
  kubectl_Upgrade sha256 s;;
  icp_Upgrade sha256 s;;
  auth_Upgrade sha256 s;;
  cni_Upgrade untar s.

Definition Upgrader_Run (u : Upgrader) : M Host unit :=
  let np := up_NodeProvider u in
  when (negb (up_PrivateMode u)) (upgradeDistroPackages u);;
  upgradeCredentialProvider u;;
  upgradeEksArtifacts u;;
  ConfigureAws np;;
  Enrich np (Some (RegionInfo (up_AwsSource u)));;
  initDaemons np (up_SkipPhases u);;
  np_Cleanup np.
End Flows.
