(* ===== verification/FlowProps.v ===== *)
(** * What the flows guarantee

    Properties of install, uninstall and the daemons' start-up, for every
    environment, daemon manager and node provider. *)

From S2P Require Import Prelude GoStrings Host HttpFile Semver Artifact Tracker Installers PackageManager Aws Daemon Ssm Api Flows.
#[local] Open Scope Z_scope.

(** ** The order in which daemons are brought up *)

(** [runs l h o h']: the calls of [l] ran one after the other from [h], up
    to the first that did not succeed; [o] and [h'] are what was left. *)
Inductive runs : list (M Host unit) → Host → outcome unit → Host → Prop :=
  | runs_nil h : runs [] h (Return tt) h
  | runs_step m l h h1 o h' : m h = (Return tt, h1) → runs l h1 o h' → runs (m :: l) h o h'
  | runs_stop m l h o h' : m h = (o, h') → o ≠ Return tt → runs (m :: l) h o h'.

Lemma runs_one m h o h' : runs [m] h o h' ↔ m h = (o, h').
Proof.
  split.
  - intros Hr. inversion Hr as [|? ? ? h1 ? ? Hm Hl|]; subst; [|done]. by inversion Hl; subst.
  - intros Hm. destruct o as [[]|e|]; [|by apply runs_stop..].
    eapply runs_step; [done|constructor].
Qed.

Lemma runs_app l k h o h' :
  runs (l ++ k) h o h' ↔
  (∃ h1, runs l h (Return tt) h1 ∧ runs k h1 o h') ∨ (runs l h o h' ∧ o ≠ Return tt).
Proof.
  split.
  - revert h. induction l as [|m l IH]; intros h Hr; cbn in Hr.
    { left. exists h. split; [constructor|done]. }
    inversion Hr as [|? ? ? h1 ? ? Hm Hl|? ? ? ? ? Hm Ho]; subst.
    + destruct (IH _ Hl) as [(h2 & H1 & H2)|[H1 H2]].
      * left. exists h2. split; [by eapply runs_step|done].
      * right. split; [by eapply runs_step|done].
    + right. split; [by apply runs_stop|done].
  - revert h. induction l as [|m l IH]; intros h Hr; cbn.
    + destruct Hr as [(h1 & H1 & H2)|[H1 H2]]; [by inversion H1; subst|by inversion H1; subst].
    + destruct Hr as [(h2 & H1 & H2)|[H1 H2]].
      * inversion H1 as [|? ? ? h3 ? ? Hm Hl|]; subst; [|congruence].
        eapply runs_step; [done|]. apply IH. left. eauto.
      * inversion H1 as [|? ? ? h3 ? ? Hm Hl|]; subst; [|by apply runs_stop].
        eapply runs_step; [done|]. apply IH. by right.
Qed.

Lemma for_each_runs {A} (f : A → M Host unit) (l : list A) h o h' :
  for_each f l h = (o, h') ↔ runs (f <$> l) h o h'.
Proof.
  revert h. induction l as [|x l IH]; intros h; cbn.
  - split; [intros [= <- <-]; constructor|intros Hr; by inversion Hr].
  - cbv [mbind M_bind]. destruct (f x h) as [[[]|e|] h1] eqn:Ef.
    + rewrite IH. split; [by apply runs_step|].
      intros Hr. inversion Hr as [|? ? ? h2 ? ? Hm Hl|]; subst; congruence.
    + split; [intros [= <- <-]; by apply runs_stop|].
      intros Hr. inversion Hr; subst; congruence.
    + split; [intros [= <- <-]; by apply runs_stop|].
      intros Hr. inversion Hr; subst; congruence.
Qed.

Lemma runs_two (f g : M Host unit) h o h' :
  runs [f; g] h o h' ↔ (f;; g) h = (o, h').
Proof.
  change [f; g] with ([f] ++ [g]). rewrite runs_app. setoid_rewrite runs_one.
  cbv [mbind M_bind]. destruct (f h) as [[[]|e|] h1].
  - split; [|by left; eauto]. intros [(h2 & [= <-] & Hg)|[[= <- <-] Ho]]; done.
  - split; [by intros [(h2 & ? & _)|[? _]]|]. intros [= <- <-]. by right.
  - split; [by intros [(h2 & ? & _)|[? _]]|]. intros [= <- <-]. by right.
Qed.

Lemma flat_map_runs {A} (f g : A → M Host unit) (l : list A) h o h' :
  for_each (λ x, f x;; g x) l h = (o, h') ↔ runs (l ≫= λ x, [f x; g x]) h o h'.
Proof.
  rewrite for_each_runs. revert h o h'. induction l as [|x l IH]; intros h o h'; [done|].
  change (runs ([f x;; g x] ++ ((λ x, f x;; g x) <$> l)) h o h' ↔
          runs ([f x; g x] ++ (l ≫= λ x, [f x; g x])) h o h').
  rewrite !runs_app. setoid_rewrite IH. setoid_rewrite runs_two. by setoid_rewrite runs_one.
Qed.

(** The calls [initDaemons] makes on the daemons of the node. *)
Definition phase_calls (skipPhases : list string) (ds : list Daemon) : list (M Host unit) :=
  (if decide ("config" ∈ skipPhases) then [] else Daemon.Configure <$> ds) ++
  (if decide ("run" ∈ skipPhases) then [] else ds ≫= λ d, [EnsureRunning d; PostLaunch d]).

Lemma not_skipped (b c : string) (l : list string) (k : list (M Host unit)) :
  b = c →
  (if decide (c ∈ l) then [] else k) = if negb (slices_Contains l b) then k else [].
Proof.
  intros ->. destruct (decide (c ∈ l)) as [Hin|Hin].
  - by rewrite (proj2 (slices_Contains_spec l c) Hin).
  - by rewrite (proj2 (slices_Contains_false l c) Hin).
Qed.

Lemma when_runs (b : bool) m l h o h' :
  (m h = (o, h') ↔ runs l h o h') →
  when b m h = (o, h') ↔ runs (if b then l else []) h o h'.
Proof.
  intros Hm. destruct b; [done|]. cbn. split.
  - intros [= <- <-]. constructor.
  - intros Hr. by inversion Hr.
Qed.

(** Bringing the daemons up makes exactly these calls, one after the
    other, until one fails, whose error is then returned at once: the
    pre-process hook unless its phase is skipped; then, for the daemons the
    provider lists, the configuration of all of them unless that phase is
    skipped; and only then, unless skipped, each daemon in turn is started
    and its post-launch task run before the next is started. *)
Theorem initDaemons_spec np skipPhases h o h' :
  initDaemons np skipPhases h = (o, h') ↔
  ∃ o1 h1, runs (if decide ("preprocess" ∈ skipPhases) then [] else [PreProcessDaemon np]) h o1 h1 ∧
    match o1 with
    | Return _ =>
        match GetDaemons np h1 with
        | (Return ds, h2) => runs (phase_calls skipPhases ds) h2 o h'
        | (Throw e, h2) => o = Throw e ∧ h' = h2
        | (Panic, h2) => o = Panic ∧ h' = h2
        end
    | _ => o = o1 ∧ h' = h1
    end.
Proof.
  unfold initDaemons, phase_calls. rewrite (not_skipped preprocessPhase) by done.
  set (pre := when (negb (slices_Contains skipPhases preprocessPhase)) (PreProcessDaemon np)).
  assert (∀ o1 h1, pre h = (o1, h1) ↔
    runs (if negb (slices_Contains skipPhases preprocessPhase) then [PreProcessDaemon np] else [])
      h o1 h1) as Hpre by (intros; apply when_runs; by rewrite runs_one).
  setoid_rewrite <- Hpre. cbv [mbind M_bind]. destruct (pre h) as [[[]|e|] h1] eqn:E1.
  2,3: split; [intros [= <- <-]; by eexists _, _|intros (o1 & h2 & [= <- <-] & [-> ->]); done].
  assert (∀ P : outcome unit → Host → Prop,
    (∃ o1 h2, (Return tt, h1) = (o1, h2) ∧ P o1 h2) ↔ P (Return tt) h1) as Hex
    by (intros P; naive_solver).
  rewrite Hex. destruct (GetDaemons np h1) as [[ds|e|] h2]; [|naive_solver..].
  rewrite (not_skipped configPhase) by done. rewrite (not_skipped runPhase) by done.
  rewrite runs_app. fold (list_bind Daemon (M Host unit) (λ d, [EnsureRunning d; PostLaunch d]) ds).
  set (cfg := when _ (for_each _ ds)). 
  assert (∀ o1 h3, cfg h2 = (o1, h3) ↔
    runs (if negb (slices_Contains skipPhases configPhase) then Daemon.Configure <$> ds else [])
      h2 o1 h3) as Hcfg by (intros; apply when_runs, for_each_runs).
  setoid_rewrite <- Hcfg.
  assert (∀ h3, when (negb (slices_Contains skipPhases runPhase))
      (for_each (λ d, EnsureRunning d;; PostLaunch d) ds) h3 = (o, h') ↔
    runs (if negb (slices_Contains skipPhases runPhase)
          then ds ≫= λ d, [EnsureRunning d; PostLaunch d] else []) h3 o h') as Hrun
    by (intros; apply when_runs, flat_map_runs).
  cbv [mbind M_bind] in Hrun. setoid_rewrite <- Hrun.
  destruct (cfg h2) as [[[]|e|] h3]; naive_solver.
Qed.

(** ** A successful install *)

(** [adds P m]: when [m] succeeds, the artifacts it added to the tracker
    are those of [P], and containerd's source is the same. *)
Definition adds (P : string → bool) (m : M Host unit) : Prop :=
  ∀ h h', m h = (Return tt, h') →
    Containerd (tracker h') = Containerd (tracker h) ∧
    ∀ n, tracked (tracker h') n = tracked (tracker h) n || P n.

Lemma adds_bind P Q m k : adds P m → adds Q k → adds (λ n, P n || Q n) (m;; k).
Proof.
  intros Hm Hk h h' E. apply bind_Return in E as ([] & h1 & E1 & E2).
  apply Hm in E1 as [C1 T1]. apply Hk in E2 as [C2 T2]. split; [congruence|].
  intros n. by rewrite T2, T1, orb_assoc.
Qed.

Lemma adds_keeps m : keeps_tracker m → adds (λ _, false) m.
Proof. intros Hm h h' E. rewrite (Hm _ _ _ E). split; [done|]. intros n. by rewrite orb_false_r. Qed.

Lemma adds_ext P Q m : (∀ n, P n = Q n) → adds P m → adds Q m.
Proof. intros HPQ Hm h h' E. destruct (Hm _ _ E) as [? HT]. split; [done|]. intros n. by rewrite HT, HPQ. Qed.

Lemma adds_contract name path get m : install_contract name path get m → adds (λ n, String.eqb n name) m.
Proof. intros Hm h h' E. by destruct (Hm _ _ _ E) as (_ & ? & ?). Qed.

Lemma adds_then_Add (body : M Host unit) msg name :
  name ∈ artifact_names → keeps_tracker body →
  adds (λ n, String.eqb n name) (body;; map_err (EWrap msg) (Add name)).
Proof. intros Hn Hk h h' E. by apply then_Add in E as (h1 & _ & _ & ? & ?). Qed.

Lemma adds_Add name : name ∈ artifact_names → adds (λ n, String.eqb n name) (Add name).
Proof.
  intros Hn h h' E. unfold Add in E.
  destruct (add_artifact_known (tracker h) name Hn) as (a & Ha & Hc & Hall).
  rewrite Ha in E. injection E as <-. split; [apply Hc|apply Hall].
Qed.

#[export] Hint Resolve cmd_Retry_keeps_tracker InstallFile_keeps_tracker
  InstallTarGz_keeps_tracker retry_download_keeps_tracker downloadFileTo_keeps_tracker
  : nodeadm.

Section InstallFlow.
Context `{Env} `{Semver} `{TrackerYaml} `{Runtime}.

Lemma getSource_fresh name l :
  fresh_source (getSource goarch goos sha256 gunzip name l).
Proof.
  intros h o h' E. pose proof E as E'. apply getSource_frame in E' as (? & ? & Hp).
  split; [done|]. split; [done|]. destruct o as [src|e|]; [|done|by destruct Hp].
  by apply getSource_hashed in E.
Qed.

Lemma GetHttpFileReader_keeps_tracker uri : keeps_tracker (GetHttpFileReader uri).
Proof. intros h o h' E. by apply GetHttpFileReader_frame in E as (_ & ? & _). Qed.
Lemma GetHttpFile_keeps_tracker uri : keeps_tracker (GetHttpFile uri).
Proof. intros h o h' E. by apply GetHttpFile_frame in E as (_ & ? & _). Qed.
Hint Resolve GetHttpFileReader_keeps_tracker GetHttpFile_keeps_tracker : nodeadm.

Lemma LookPath_keeps_tracker name : keeps_tracker (LookPath name).
Proof. by intros h o h' [= <- <-]. Qed.
Hint Resolve LookPath_keeps_tracker : nodeadm.

Lemma variant_keeps_tracker order : keeps_tracker (detectPlatformVariant order).
Proof. induction order as [|[m v] l IH]; cbn; host_tac. Qed.
Hint Resolve variant_keeps_tracker : nodeadm.

Lemma ssm_source_keeps_tracker region suffix :
  keeps_tracker (op_GetSSMInstaller (ssm_source region suffix)) ∧
  keeps_tracker (op_GetSSMInstallerSignature (ssm_source region suffix)).
Proof.
  split; unfold ssm_source, GetSSMInstaller, GetSSMInstallerSignature; cbn [op_GetSSMInstaller
    op_GetSSMInstallerSignature]; host_tac; cbn; unfold defaultBuildSSMURL; host_tac.
Qed.

Lemma ssm_retry_keeps_tracker n f err : keeps_tracker f → keeps_tracker (ssm_retry n f err).
Proof. intros Hf. revert err. induction n as [|n IH]; intros err; cbn; host_tac. Qed.

Lemma ssm_installFromSource_keeps_tracker region suffix :
  keeps_tracker (ssm_installFromSource pgp_verify json_Unmarshal json_MarshalIndent home ""
    region (ssm_source region suffix)).
Proof.
  destruct (ssm_source_keeps_tracker region suffix) as [K1 K2].
  unfold ssm_installFromSource, writeGpgConfig, WriteFileUniqueLine, ssm_downloadFileWithRetries,
    runInstallWithRetries, configureSSMAgent. host_tac.
  apply ssm_retry_keeps_tracker. unfold ssm_downloadFileTo. host_tac.
Qed.

Lemma pm_Configure_keeps_tracker pm :
  keeps_tracker (PackageManager.Configure GetHttpFile goarch codename pm).
Proof.
  unfold PackageManager.Configure, configureYumPackageManagerWithDockerRepo,
    configureAptPackageManagerWithDockerRepo, WriteFileWithDir, RefreshMetadataCache. host_tac.
Qed.

(** What every install adds, and what the credential provider adds. *)
Definition eks_artifacts : list string :=
  [art_Kubelet; art_Kubectl; art_CniPlugins; art_ImageCredentialProvider; art_IamAuthenticator].
Definition credential_artifact (provider : string) : string :=
  if String.eqb provider IamRolesAnywhereCredentialProvider then art_IamRolesAnywhere else art_Ssm.

Ltac install_keeps :=
  unfold kubectl_installFromSource, icp_installFromSource, ira_installFromSource,
    auth_installFromSource, cni_installFromSource, kubectl_downloadFileWithRetries,
    icp_downloadFileWithRetries, ira_downloadFileWithRetries, auth_downloadFileWithRetries,
    cni_downloadFileWithRetries; host_tac;
  apply retry_download_keeps_tracker, downloadFileTo_keeps_tracker, fresh_keeps_tracker,
    getSource_fresh.

Lemma installEksArtifacts_adds i :
  adds (λ n, bool_decide (n ∈ eks_artifacts)) (installEksArtifacts i).
Proof.
  unfold installEksArtifacts. eapply adds_ext; [|eapply adds_bind; [|eapply adds_bind; [|eapply adds_bind; [|eapply adds_bind]]]].
  2: eapply adds_contract, kubelet_contract, getSource_fresh.
  2-5: apply adds_then_Add; [unfold artifact_names; set_solver|].
  - intros n. cbn beta. unfold eks_artifacts.
    repeat match goal with |- context [String.eqb n ?a] => destruct (String.eqb_spec n a) end;
      subst; cbn [orb]; symmetry; first [apply bool_decide_eq_true_2; set_solver
                                        |apply bool_decide_eq_false_2; set_solver].
  - install_keeps.
  - install_keeps.
  - install_keeps.
  - install_keeps.
Qed.

Lemma installCredentialProcess_adds i :
  adds (λ n, String.eqb n (credential_artifact (inst_CredentialProvider i)))
    (installCredentialProcess i).
Proof.
  unfold installCredentialProcess, credential_artifact.
  destruct (String.eqb _ IamRolesAnywhereCredentialProvider).
  - apply adds_then_Add; [unfold artifact_names; set_solver|].
    install_keeps.
  - destruct (String.eqb _ SsmCredentialProvider); [|by intros h h' E].
    eapply adds_ext; [|apply adds_bind; [apply adds_keeps, ssm_installFromSource_keeps_tracker|
      apply adds_Add; unfold artifact_names; set_solver]]. done.
Qed.

(** What the packages add to the tracker: containerd's source, by what was
    there before, and iptables when it was not. *)
Definition present (h : Host) (name : string) : bool := bool_decide (is_Some (look_path h name)).
Lemma containerd_Install_source pm source version h h' :
  containerd_Install pm source version h = (Return tt, h') →
  tracker h' = with_Containerd
    (if String.eqb source ContainerdSourceNone || (present h "containerd" && present h "runc")
     then ContainerdSourceNone else source) (tracker h).
Proof.
  intros E. apply containerd_Install_spec in E as [HN HS]. unfold present.
  destruct (String.eqb_spec source ContainerdSourceNone) as [Hs|Hs]; cbn [orb]; [by apply HN; left|].
  rewrite <- bool_decide_and. case_bool_decide; [by apply HN; right|].
  apply HS. by intros [?|?].
Qed.
Lemma iptables_Install_tracks pm h h' n :
  iptables_Install pm h = (Return tt, h') →
  Containerd (tracker h') = Containerd (tracker h) ∧
  tracked (tracker h') n = tracked (tracker h) n || (negb (present h "iptables") && String.eqb n art_Iptables).
Proof.
  unfold iptables_Install, isIptablesInstalled, LookPath, gets, present. cbv [mbind M_bind mret M_ret].
  change iptablesPkgName with "iptables".
  destruct (look_path h "iptables") as [q|]; cbn [is_Some].
  - intros [= <-]. rewrite bool_decide_true by eauto. by rewrite orb_false_r.
  - rewrite bool_decide_false by (by intros [? ?]). cbn [negb andb].
    destruct (map_err _ _ h) as [[[]|e|] h1] eqn:Er; [|done..]. apply map_err_Return in Er.
    intros E. rewrite <- (cmd_Retry_keeps_tracker _ _ _ _ Er).
    destruct (adds_Add art_Iptables) with (h := h1) (h' := h') as [? ?]; [|done..].
    unfold artifact_names. set_solver.
Qed.

(** Between the configuration of the package manager, in [h], and the
    credential process, in [h3]: the states before containerd and iptables
    are installed. *)
Definition packages_installed (i : Installer) (h hc hi h3 : Host) : Prop :=
  ∃ pm hv v, inst_PackageManager i = Some pm ∧
    PackageManager.Configure GetHttpFile goarch codename pm h = (Return tt, hc) ∧
    containerd_Install pm (inst_ContainerdSource i) (Version (Eks (inst_AwsSource i))) hc = (Return tt, hv) ∧
    try GetContainerdVersion hv = (v, hi) ∧ iptables_Install pm hi = (Return tt, h3).
Definition packages_source (i : Installer) (hc : Host) : string :=
  if String.eqb (inst_ContainerdSource i) ContainerdSourceNone ||
     (present hc "containerd" && present hc "runc")
  then ContainerdSourceNone else inst_ContainerdSource i.

Lemma packages_tracked i h hc hi h3 :
  packages_installed i h hc hi h3 →
  Containerd (tracker h3) = packages_source i hc ∧
  ∀ n, tracked (tracker h3) n =
       tracked (tracker h) n || (negb (present hi "iptables") && String.eqb n art_Iptables).
Proof.
  intros (pm & hv & v & _ & Ec & Ei & Ev & Ep).
  apply pm_Configure_keeps_tracker in Ec. apply containerd_Install_source in Ei.
  assert (tracker hi = tracker hv) as Ht.
  { eapply keeps_tracker_try; [|exact Ev]. unfold GetContainerdVersion, GetContainerdVersionRaw. host_tac. }
  split.
  - destruct (iptables_Install_tracks _ _ _ "" Ep) as [-> _]. by rewrite Ht, Ei.
  - intros n. destruct (iptables_Install_tracks _ _ _ n Ep) as [_ ->].
    by rewrite Ht, Ei, tracked_with_Containerd, Ec.
Qed.

Lemma bool_decide_cons (n x : string) l :
  bool_decide (n ∈ x :: l) = String.eqb n x || bool_decide (n ∈ l).
Proof.
  destruct (String.eqb_spec n x) as [->|Hn]; cbn [orb].
  - apply bool_decide_eq_true_2. by left.
  - apply bool_decide_ext. rewrite elem_of_cons. naive_solver.
Qed.

(** Where the source of containerd and the record of iptables come from. *)
Definition packages_record (i : Installer) (h : Host) (source : string) (iptables : bool) : Prop :=
  if inst_PrivateMode i then source = Containerd (tracker h) ∧ iptables = false
  else ∃ hc hi h3, packages_installed i h hc hi h3 ∧
    source = packages_source i hc ∧ iptables = negb (present hi "iptables").

Lemma Installer_Run_tracks i h h' :
  Installer_Run i h = (Return tt, h') →
  ∃ t0 h0 h4 source iptables, GetCurrentState h = (Return t0, h0) ∧
    inst_CredentialProvider i ∈ [SsmCredentialProvider; IamRolesAnywhereCredentialProvider] ∧
    Save h4 = (Return tt, h') ∧
    packages_record i (set_tracker t0 h0) source iptables ∧
    ContainerdSource source = Ok (Containerd (tracker h')) ∧
    ∀ n, tracked (tracker h') n = tracked t0 n ||
        bool_decide (n ∈ credential_artifact (inst_CredentialProvider i) :: eks_artifacts) ||
        (iptables && String.eqb n art_Iptables).
Proof.
  unfold Installer_Run. intros E. apply bind_Return in E as (t0 & h0 & E0 & E).
  apply bind_Return in E as ([] & h1 & [= <-] & E).
  assert (∃ h2 h3 h4 source iptables, installCredentialProcess i h2 = (Return tt, h3) ∧
    installEksArtifacts i h3 = (Return tt, h4) ∧ Save h4 = (Return tt, h') ∧
    packages_record i (set_tracker t0 h0) source iptables ∧ Containerd (tracker h2) = source ∧
    ∀ n, tracked (tracker h2) n = tracked t0 n || (iptables && String.eqb n art_Iptables))
    as (h2 & h3 & h4 & source & iptables & Ec & Ee & Es & HR & HC & Ht).
  { unfold packages_record. destruct (inst_PrivateMode i).
    - apply bind_Return in E as ([] & h3 & Ec & E). apply bind_Return in E as ([] & h4 & Ee & E).
      exists (set_tracker t0 h0), h3, h4, (Containerd t0), false. split_and!; try done.
      intros n. by rewrite orb_false_r.
    - apply bind_Return in E as ([] & hc & Ep & E). apply bind_Return in E as ([] & h2 & Ed & E).
      apply bind_Return in E as ([] & h3 & Ec & E). apply bind_Return in E as ([] & h4 & Ee & E).
      unfold installDistroPackages, with_pm in Ed, Ep. destruct (inst_PackageManager i) as [pm|] eqn:Epm; [|done].
      apply bind_Return in Ed as ([] & hv & Ei & Ed). apply bind_Return in Ed as (v & hi & Ev & Ed).
      assert (packages_installed i (set_tracker t0 h0) hc hi h2) as HP.
      { exists pm, hv, (Return v). by split_and!. }
      destruct (packages_tracked _ _ _ _ _ HP) as [HC HT].
      exists h2, h3, h4, (packages_source i hc), (negb (present hi "iptables")).
      split_and!; try done. by exists hc, hi, h2. }
  destruct (Save_tracker _ _ Es) as (c & Hc & Ht'). rewrite Ht'.
  destruct (installEksArtifacts_adds _ _ _ Ee) as [C4 T4].
  destruct (installCredentialProcess_adds _ _ _ Ec) as [C3 T3].
  exists t0, h0, h4, source, iptables. split; [done|]. split; [|split; [done|split; [done|split; [cbn; congruence|]]]].
  - unfold installCredentialProcess in Ec.
    destruct (String.eqb_spec (inst_CredentialProvider i) IamRolesAnywhereCredentialProvider) as [->|];
      [by right; left|].
    destruct (String.eqb_spec (inst_CredentialProvider i) SsmCredentialProvider) as [->|];
      [by left|done].
  - intros n. rewrite tracked_with_Containerd, T4, T3, Ht, bool_decide_cons.
    by destruct (tracked t0 n), (iptables && _), (String.eqb n _), (bool_decide _).
Qed.

(** C9. After a successful install the tracker holds exactly what was there
    before plus kubelet, kubectl, the CNI plugins, the image credential
    provider, the IAM authenticator, the chosen credential provider's
    artifact, which was one of the two known ones, and, outside private mode,
    iptables if it was not there when its turn came.  Containerd's source is
    in private mode the one recorded before, and otherwise the one asked for,
    or none if containerd and runc were there already, in its normal form.
    And the tracker file was written, so that any later command reads back
    exactly this tracker. *)
Theorem install_tracked i h h' :
  Installer_Run i h = (Return tt, h') →
  ∃ t0 h0 source iptables, GetCurrentState h = (Return t0, h0) ∧
    inst_CredentialProvider i ∈ [SsmCredentialProvider; IamRolesAnywhereCredentialProvider] ∧
    packages_record i (set_tracker t0 h0) source iptables ∧
    ContainerdSource source = Ok (Containerd (tracker h')) ∧
    (∀ n, tracked (tracker h') n = tracked t0 n ||
       bool_decide (n ∈ credential_artifact (inst_CredentialProvider i) :: eks_artifacts) ||
       (iptables && String.eqb n art_Iptables)) ∧
    ∀ h2, read_file (fs h2) trackerFile = read_file (fs h') trackerFile →
      fault h2 (EvRead trackerFile) = None →
      GetCurrentState h2 = (Return (tracker h'), record (EvRead trackerFile) h2).
Proof.
  intros E. destruct (Installer_Run_tracks _ _ _ E) as (t0 & h0 & h4 & source & ipt & E0 & Hp & Es & HR & HC & Ht).
  exists t0, h0, source, ipt. repeat (split; [done|]). intros h2 Hf Hn.
  by destruct (Save_persists _ _ _ Es Hf Hn) as (? & _ & _ & ?).
Qed.
End InstallFlow.

(** ** A concrete run *)

(** A runtime whose digest is the one the server of [checksum_everywhere]
    publishes. *)
Example plain_runtime : Runtime := {|
  goarch := "amd64"; goos := "linux"; kubelet_unit := "[Unit]"; manifest_url := "https://m";
  home := None; variant_order := toVariant; codename _ := "noble";
  sha256 _ := "kl"; gunzip b := Ok b; untar := cni_tar; evalSymlinks _ _ := ("", None);
  pgp_verify _ _ _ := None; json_Unmarshal _ := Ok (Some []); json_MarshalIndent _ := Ok "{}";
  json_registration _ := Ok {| ManagedInstanceID := "mi-0"; RegRegion := "us-west-2" |};
  yaml_manifest _ := Ok manifest_130 |}.

Example aws_130 : AwsSource :=
  let entry n := {| Name := n; Arch := "amd64"; OS := "linux"; URI := "https://a/" +:+ n;
                    ChecksumURI := "https://a/" +:+ n +:+ ".sha256"; GzipURI := "" |} in
  {| Eks := {| Version := "1.30.4"; PatchVersion := "4"; ReleaseDate := "2025-01-02";
       Artifacts := entry <$> ["kubelet"; "kubectl"; "cni-plugins"; "ecr-credential-provider";
                               "aws-iam-authenticator"] |};
     Iam := {| IamVersion := "v1.2.0"; IamArtifacts := [entry "aws_signing_helper"] |};
     RegionInfo := {| EcrAccountID := "1"; Partition := "aws"; DnsSuffix := "amazonaws.com";
                      CredProviders := ∅ |} |}.

Example private_installer : Installer := {|
  inst_AwsSource := aws_130; inst_ContainerdSource := ContainerdSourceNone;
  inst_PackageManager := None; inst_CredentialProvider := IamRolesAnywhereCredentialProvider;
  SsmRegion := ""; inst_PrivateMode := true |}.

Lemma install_tracked_witness :
  let h := {| fs := ∅; tracker := no_artifacts; journal := []; provider := no_provider |} in
  let r := Installer_Run (H := checksum_everywhere) (H2 := plain_runtime) private_installer h in
  r.1 = Return tt ∧ tracked (tracker r.2) art_Kubelet = true ∧
  tracked (tracker r.2) art_IamRolesAnywhere = true ∧ tracked (tracker r.2) art_Iptables = false.
Proof.
  cbv zeta. match goal with |- ?r.1 = _ ∧ _ => destruct r as [o h'] eqn:E end.
  assert (o = Return tt) as ->.
  { change o with (o, h').1. rewrite <- E. vm_compute. reflexivity. }
  split; [reflexivity|]. cbn [snd].
  destruct (install_tracked (H := checksum_everywhere) (H2 := plain_runtime) _ _ _ E)
    as (t0 & h0 & source & iptables & E0 & _ & HR & _ & Ht & _).
  vm_compute in E0. injection E0 as <- <-. destruct HR as [_ ->].
  rewrite !Ht. repeat split; vm_compute; reflexivity.
Defined.

Example two_daemons_started :
  let d n := {| Daemon.Configure := external (EvDaemon "configure" n);
                EnsureRunning := external (EvDaemon "run" n);
                PostLaunch := external (EvDaemon "post" n);
                Stop := external (EvDaemon "stop" n); DaemonName := n |} in
  let np := {| GetNodeConfig _ := {| Spec := {| Cluster := {| cluster_Name := "c";
      cluster_Region := "r"; APIServerEndpoint := ""; CertificateAuthority := None; CIDR := "";
      EnableOutpost := None; cluster_ID := "" |}; spec_Containerd := {| containerd_Config := "" |};
      spec_Instance := {| LocalStorageStrategy := "" |};
      spec_Kubelet := {| Config := ∅; Flags := [] |}; Hybrid := None |};
      Status := {| status_Instance := {| instance_ID := ""; instance_Region := "";
        instance_Type := ""; AvailabilityZone := ""; MAC := ""; PrivateDNSName := "" |};
        status_NodeName := ""; SandboxImage := "" |} |};
    PopulateNodeConfigDefaults := mret tt; ValidateConfig := mret tt;
    PreProcessDaemon := external (EvCall "preprocess");
    GetDaemons := mret [d "containerd"; d "kubelet"]; GetAspects := mret []; Validate := mret tt;
    np_Cleanup := mret tt; Enrich _ := mret tt; ConfigureAws := mret tt |} in
  journal (initDaemons np ["preprocess"] {| fs := ∅; tracker := no_artifacts; journal := []; provider := no_provider |}).2 =
    [EvDaemon "configure" "containerd"; EvDaemon "configure" "kubelet";
     EvDaemon "run" "containerd"; EvDaemon "post" "containerd";
     EvDaemon "run" "kubelet"; EvDaemon "post" "kubelet"].
Proof. by vm_compute. Qed.

(** ** What uninstall removes *)

(** What a removal relates: [R] the hosts before and after any part of it, a
    preorder; [G p] the hosts around one that has removed [p], which a
    longer run does not undo. *)
Class Removal (R : Host → Host → Prop) (G : string → Host → Host → Prop) := {
  removal_pre : PreOrder R;
  removal_before p h h1 h2 : R h h1 → G p h1 h2 → G p h h2;
  removal_after p h h1 h2 : G p h h1 → R h1 h2 → G p h h2;
}.
#[export] Existing Instance removal_pre.

(** [clears R G ps m]: [m] stays in [R], and when it succeeds it has
    removed every path of [ps]. *)
Definition clears (R : Host → Host → Prop) (G : string → Host → Host → Prop)
    (ps : list string) (m : M Host unit) : Prop :=
  ∀ h o h', m h = (o, h') → R h h' ∧ (o = Return tt → ∀ p, p ∈ ps → G p h h').

Section Clears.
Context (R : Host → Host → Prop) (G : string → Host → Host → Prop) `{!Removal R G}.

Lemma clears_preserves m : preserves R m → clears R G [] m.
Proof. intros Hm h o h' E. split; [by eapply Hm|]. intros _ p Hp. by apply not_elem_of_nil in Hp. Qed.

Lemma clears_then {A} ps qs (m : M Host A) (k : A → M Host unit) :
  (∀ h o h', m h = (o, h') → R h h' ∧ ((∃ a, o = Return a) → ∀ p, p ∈ ps → G p h h')) →
  (∀ a, clears R G qs (k a)) → clears R G (ps ++ qs) (m ≫= k).
Proof.
  intros Hm Hk h o h' E. cbv [mbind M_bind] in E.
  destruct (m h) as [[a|e|] h1] eqn:Em; destruct (Hm _ _ _ Em) as [R1 G1].
  - destruct (Hk _ _ _ _ E) as [R2 G2]. split; [by etrans|]. intros -> p Hp.
    apply elem_of_app in Hp as [Hp|Hp];
      [eapply removal_after; [|done]; eauto|eapply removal_before; eauto].
  - by injection E as <- <-.
  - by injection E as <- <-.
Qed.

Lemma clears_bind ps qs m k : clears R G ps m → clears R G qs k → clears R G (ps ++ qs) (m;; k).
Proof.
  intros Hm Hk. apply clears_then; [|done]. intros h o h' E.
  destruct (Hm _ _ _ E) as [? HG]. split; [done|]. intros [[] ->]. by apply HG.
Qed.

Lemma clears_after {A} qs (m : M Host A) (k : A → M Host unit) :
  preserves R m → (∀ a, clears R G qs (k a)) → clears R G qs (m ≫= k).
Proof.
  intros Hm Hk. apply (clears_then []); [|done]. intros h o h' E.
  split; [by eapply Hm|]. intros _ p Hp. by apply not_elem_of_nil in Hp.
Qed.

Lemma clears_map_err ps f m : clears R G ps m → clears R G ps (map_err f m).
Proof.
  intros Hm h o h' E. unfold map_err in E.
  destruct (m h) as [[[]|e|] h1] eqn:Em; injection E as <- <-; by destruct (Hm _ _ _ Em).
Qed.

Lemma clears_when (b : bool) ps m :
  (b = true → clears R G ps m) → clears R G (if b then ps else []) (when b m).
Proof.
  destruct b; intros Hm; [by apply Hm|]. apply clears_preserves, preserves_pure; apply _.
Qed.

(** Actions that all run, with their errors joined at the end. *)
Lemma run_actions_nonempty l es h es' h' :
  run_actions l es h = (Return es', h') → es ≠ [] → es' ≠ [].
Proof.
  revert es h. induction l as [|a l IH]; intros es h E Hes; cbn in E.
  - by injection E as <- <-.
  - cbv [mbind M_bind try] in E. destruct (a h) as [[[]|e|] h1]; [eauto| |done].
    eapply IH; [exact E|]. by destruct es.
Qed.

Lemma preserves_run_actions l errs : Forall (preserves R) l → preserves R (run_actions l errs).
Proof.
  intros Hl. revert errs. induction Hl as [|a l Ha Hl IH]; intros errs; cbn; host_tac.
Qed.

Lemma clears_actions_preserve l pss errs :
  Forall2 (clears R G) pss l → preserves R (run_actions l errs).
Proof.
  intros Hl. apply preserves_run_actions.
  induction Hl as [|ps m pss l Hm Hl IH]; constructor; [|done].
  intros h o h' E. by destruct (Hm _ _ _ E).
Qed.

Lemma clears_weaken ps qs m : qs ⊆ ps → clears R G ps m → clears R G qs m.
Proof. intros Hs Hm h o h' E. destruct (Hm _ _ _ E) as [? HG]. split; auto. Qed.

Lemma clears_run_actions l pss errs h errs' h' :
  Forall2 (clears R G) pss l →
  run_actions l errs h = (Return errs', h') →
  errs' = [] → ∀ p, p ∈ concat pss → G p h h'.
Proof.
  intros Hl. revert errs h. induction Hl as [|ps a pss l Ha Hl IH]; intros errs h E Hn p Hp; cbn in E.
  - by apply not_elem_of_nil in Hp.
  - cbv [mbind M_bind try] in E. destruct (a h) as [[[]|e|] h1] eqn:Ea; [| |done].
    + pose proof (clears_actions_preserve _ _ errs Hl _ _ _ E) as R2.
      destruct (Ha _ _ _ Ea) as [R1 G1]. cbn in Hp. apply elem_of_app in Hp as [Hp|Hp];
        [eapply removal_after; [|done]; auto|eapply removal_before; [done|eauto]].
    + exfalso. apply run_actions_nonempty in E; [done|]. by destruct errs.
Qed.

(** The loop of actions followed by the error it joins. *)
Lemma clears_joined l pss errs :
  Forall2 (clears R G) pss l →
  clears R G (concat pss) (es ← run_actions l errs; of_option (errors_Join es)).
Proof.
  intros Hl h o h' E. cbv [mbind M_bind] in E.
  destruct (run_actions l errs h) as [[es|e|] h1] eqn:Er.
  - pose proof (clears_actions_preserve _ _ errs Hl _ _ _ Er) as HR.
    unfold of_option, errors_Join in E. destruct es as [|e es]; injection E as <- <-; [|done].
    split; [done|]. intros _. by eapply clears_run_actions.
  - by apply run_actions_no_Throw in Er.
  - injection E as <- <-. split; [|done]. exact (clears_actions_preserve _ _ errs Hl _ _ _ Er).
Qed.

(** [kubelet.Uninstall]'s loop. *)
Lemma remove_each_run `{Env} paths errs h :
  remove_each paths errs h = run_actions (os_RemoveAll <$> paths) errs h.
Proof.
  revert errs h. induction paths as [|p ps IH]; intros errs h; [done|]. cbn.
  unfold try. cbv [mbind M_bind]. destruct (os_RemoveAll p h) as [[[]|e|] h1]; by rewrite ?IH.
Qed.

Lemma clears_remove_each `{Env} paths errs :
  (∀ p, p ∈ paths → clears R G [p] (os_RemoveAll p)) →
  clears R G paths (es ← remove_each paths errs; of_option (errors_Join es)).
Proof.
  intros Hp. assert (Forall2 (clears R G) ((λ p, [p]) <$> paths) (os_RemoveAll <$> paths)) as Hl.
  { induction paths as [|p ps IH]; constructor; [apply Hp; by left|].
    apply IH. intros q Hq. apply Hp. by right. }
  apply (clears_joined _ _ errs) in Hl.
  assert (∀ l : list string, concat ((λ p, [p]) <$> l) = l) as Hc
    by (induction l as [|x l IH]; cbn; congruence).
  rewrite Hc in Hl. intros h o h' E. apply (Hl h o h'). rewrite <- E.
  cbv [mbind M_bind]. by rewrite remove_each_run.
Qed.
End Clears.

(** The paths each tracked component owns, as the uninstaller knows them. *)
Definition kubelet_paths : list string :=
  ["/usr/bin/kubelet"; "/etc/systemd/system/kubelet.service"; "/var/lib/kubelet/kubeconfig";
   "/etc/kubernetes"; "/var/lib/kubelet/pki/kubelet-server-current.pem"].
Definition ssm_paths : list string :=
  ["/var/lib/amazon/ssm/registration"; "/opt/ssm/ssm-setup-cli"; "/etc/amazon";
   "/eks-hybrid/.aws"; "/root/.aws"].
Definition owned (a : InstalledArtifacts) : list string :=
  (if Kubelet a then kubelet_paths else []) ++
  (if Ssm a then ssm_paths else []) ++
  (if Kubectl a then ["/usr/local/bin/kubectl"] else []) ++
  (if CniPlugins a then ["/opt/cni"] else []) ++
  (if IamAuthenticator a then ["/usr/local/bin/aws-iam-authenticator"] else []) ++
  (if IamRolesAnywhere a
   then ["/etc/systemd/system/aws_signing_helper_update.service"; "/eks-hybrid/.aws";
         "/usr/local/bin/aws_signing_helper"] else []) ++
  (if ImageCredentialProvider a then ["/etc/eks/image-credential-provider"] else []) ++
  ["/etc/eks"].

Definition tracker_dir : string := "/opt/nodeadm".

Lemma tracker_dir_not_owned a : tracker_dir ∉ owned a.
Proof.
  assert (∀ (b : bool) l, bool_decide (tracker_dir ∈ l) = false →
    tracker_dir ∉ (if b then l else [])) as Hif.
  { intros [] l Hl; [by eapply bool_decide_eq_false_1|apply not_elem_of_nil]. }
  unfold owned. rewrite !elem_of_app.
  intros [Hp|[Hp|[Hp|[Hp|[Hp|[Hp|[Hp|Hp]]]]]]];
    [by apply Hif in Hp..|by apply list_elem_of_singleton in Hp].
Qed.

Section Uninstall.
Context `{Env} `{Runtime} (u : Uninstaller).
Let a := un_Artifacts u.
Let pm := un_PackageManager u.

(** Calls to systemd and to AWS: not to the files, nor a command. *)
Definition service_call (ev : event) : Prop :=
  match ev with EvDaemon _ _ | EvCall _ => True | _ => False end.

(** The daemon manager and the AWS client only make such calls. *)
Record services_only := {
  so_stop n : journaled service_call (StopDaemon (un_DaemonManager u) n);
  so_status n h r h' : GetDaemonStatus (un_DaemonManager u) n h = (r, h') →
    ∃ evs, journal h' = journal h ++ evs ∧ Forall service_call evs;
  so_load r : journaled service_call (LoadDefaultConfig u r);
  so_client r h client h' : LoadDefaultConfig u r h = (Return client, h') →
    (∀ i, journaled service_call (DescribeInstanceInformation client i)) ∧
    (∀ i, journaled service_call (DeregisterManagedInstance client i));
}.

(** What an uninstall may do besides reading and calling services: remove
    the paths of tracked components (and the file the kubelet's certificate
    links to, and containerd's configuration if nodeadm installed it),
    uninstall the packages it tracked, and remove the docker repository it
    configured. *)
Definition uninstall_event (ev : event) : Prop :=
  match ev with
  | EvRemoveAll p =>
      p ∈ owned a ∨
      (Kubelet a = true ∧ ∃ h, p = (evalSymlinks kubeletCurrentCertPath h).1) ∨
      (Containerd a ≠ ContainerdSourceNone ∧ p = "/etc/containerd")
  | EvRun cmd args =>
      ∃ c, cmd = cmd_Path c ∧ args = cmd_Args c ∧
        ((Ssm a = true ∧ c = UninstallCmd (GetSSMPackage pm)) ∨
         (Containerd a ≠ ContainerdSourceNone ∧ c = UninstallCmd (GetContainerd pm "")) ∨
         (Iptables a = true ∧ c = UninstallCmd (GetIptables pm)))
  | EvRemove p =>
      dockerRepo pm ≠ "" ∧
      p ∈ [yumDockerRepoSourceFilePath; ubuntuDockerGpgKeyPath; aptDockerRepoSourceFilePath]
  | EvRead _ | EvStat _ | EvDaemon _ _ | EvCall _ => True
  | EvMkdirAll _ _ | EvCreate _ _ | EvWrite _ _ | EvGet _ => False
  end.

Lemma service_uninstall ev : service_call ev → uninstall_event ev.
Proof. by destruct ev. Qed.

(** The places an uninstall is to empty, and that they stay empty. *)
Definition places : list string := tracker_dir :: owned a.
Definition stays_gone (f f' : files) : Prop :=
  ∀ p q, p ∈ places → under p q = true → f !! q = None → f' !! q = None.

(** While the tool uninstalls, nobody else puts files in those places:
    neither a call that fails, nor the removal of a package, nor a service
    that is stopped or called. *)
Record tidy := {
  tidy_fault h ev e f : uninstall_event ev → fault h ev = Some (e, f) → stays_gone (fs h) f;
  tidy_run h cmd args :
    uninstall_event (EvRun cmd args) → stays_gone (fs h) (run_effect h cmd args);
  tidy_stop n h o h' :
    StopDaemon (un_DaemonManager u) n h = (o, h') → stays_gone (fs h) (fs h');
  tidy_status n h r h' :
    GetDaemonStatus (un_DaemonManager u) n h = (r, h') → stays_gone (fs h) (fs h');
  tidy_load r h o h' : LoadDefaultConfig u r h = (o, h') → stays_gone (fs h) (fs h') ∧
    ∀ client, o = Return client → ∀ i h1,
      (∀ o1 h2, DescribeInstanceInformation client i h1 = (o1, h2) → stays_gone (fs h1) (fs h2)) ∧
      (∀ o1 h2, DeregisterManagedInstance client i h1 = (o1, h2) → stays_gone (fs h1) (fs h2));
}.

(** What any part of an uninstall does, and what one that has removed [p]
    has done. *)
Definition uninstalls (h h' : Host) : Prop :=
  (∃ evs, journal h' = journal h ++ evs ∧ Forall uninstall_event evs) ∧
  (tidy → stays_gone (fs h) (fs h')).
Definition removed (p : string) (h h' : Host) : Prop :=
  (∃ evs, journal h' = journal h ++ evs ∧ EvRemoveAll p ∈ evs) ∧
  (tidy → p ∈ places → ∀ q, under p q = true → fs h' !! q = None).

#[local] Instance uninstalls_removed : Removal uninstalls removed.
Proof.
  split.
  - split.
    + intros h. split; [|by intros _ p q _ _]. exists []. by rewrite app_nil_r.
    + intros h1 h2 h3 [(e1 & J1 & F1) S1] [(e2 & J2 & F2) S2]. split.
      * exists (e1 ++ e2). rewrite J2, J1, app_assoc. split; [done|by apply Forall_app_2].
      * intros T p q Hp Hq Hn. eapply S2; eauto. eapply S1; eauto.
  - intros p h h1 h2 [(e1 & J1 & F1) S1] [(e2 & J2 & F2) S2]. split; [|done].
    exists (e1 ++ e2). rewrite J2, J1, app_assoc. split; [done|]. apply elem_of_app. by right.
  - intros p h h1 h2 [(e1 & J1 & F1) S1] [(e2 & J2 & F2) S2]. split.
    + exists (e1 ++ e2). rewrite J2, J1, app_assoc. split; [done|]. apply elem_of_app. by left.
    + intros T Hp q Hq. eapply S2; eauto.
Qed.

Lemma uninstalls_sys ev eff :
  uninstall_event ev →
  (∀ f f', eff f = Ok f' → stays_gone f f') → preserves uninstalls (sys ev eff).
Proof.
  intros Hev Hf h o h' E. pose proof (sys_tracker _ _ _ _ _ E) as [_ J]. split.
  - exists [ev]. split; [done|]. by constructor.
  - intros T. unfold sys in E. destruct (fault h ev) as [[e f]|] eqn:Ef.
    + injection E as <- <-. by eapply tidy_fault.
    + destruct (eff (fs h)) eqn:Ee; injection E as <- <-; [by apply Hf|by intros p q _ _].
Qed.

Lemma uninstalls_external ev : uninstall_event ev → preserves uninstalls (sys ev (λ f, Ok f)).
Proof. intros Hev. apply uninstalls_sys; [done|]. by intros f f' [= <-] p q. Qed.

Lemma uninstalls_ReadFile p : preserves uninstalls (os_ReadFile p).
Proof. unfold os_ReadFile. host_tac. by apply uninstalls_external. Qed.

Lemma uninstalls_Stat p : preserves uninstalls (os_Stat p).
Proof.
  apply uninstalls_sys; [done|]. intros f f' E. intros p1 q _ _ Hq.
  destruct (is_dir f p); [|destruct (f !! p); [|done]]; by injection E as <-.
Qed.

Lemma uninstalls_Remove p : uninstall_event (EvRemove p) → preserves uninstalls (os_Remove p).
Proof.
  intros Hp. apply uninstalls_sys; [done|]. intros f f' E. destruct (f !! p); [|done].
  destruct (has_entries f p); [done|]. injection E as <-. intros p1 q _ _ Hq. apply lookup_delete_None. by right.
Qed.

Lemma uninstalls_cmd_Retry c :
  uninstall_event (EvRun (cmd_Path c) (cmd_Args c)) → preserves uninstalls (cmd_Retry c).
Proof.
  intros Hc h o h' E. split; [by eapply cmd_Retry_journaled|]. intros T. unfold cmd_Retry in E.
  destruct (Retry.CmdRetry _ _ _ _ _) as [err h1] eqn:Er. injection E as <- <-.
  revert Er. generalize (ECtx true) as e0, (ticks h) as t. intros e0 t. revert h e0.
  induction t as [|t IH]; intros h e0 Er; cbn in Er.
  - destruct (run_output h _ _) as [out [e|]]; injection Er as <- <-;
      by apply (tidy_run T).
  - destruct (run_output h _ _) as [out [e|]].
    + apply IH in Er. intros p q Hp Hq Hn. eapply Er; eauto. cbn. by eapply (tidy_run T).
    + injection Er as <- <-. by apply (tidy_run T).
Qed.

(** A service's answer. *)
Lemma uninstalls_service {A} (m : M Host A) :
  journaled service_call m →
  (tidy → ∀ h o h', m h = (o, h') → stays_gone (fs h) (fs h')) → preserves uninstalls m.
Proof.
  intros Hm HT h o h' E. destruct (Hm _ _ _ E) as (evs & J & F). split; [|eauto].
  exists evs. split; [done|]. by eapply Forall_impl, service_uninstall.
Qed.

Lemma uninstalls_stop n :
  services_only → preserves uninstalls (StopDaemon (un_DaemonManager u) n).
Proof. intros HS. apply uninstalls_service; [apply so_stop, HS|]. intros T. apply T. Qed.

Lemma uninstalls_LookPath name : preserves uninstalls (LookPath name).
Proof. apply (preserves_pure _ (λ h, Return _)). Qed.
#[local] Hint Resolve uninstalls_LookPath uninstalls_ReadFile uninstalls_Stat uninstalls_Remove
  uninstalls_external uninstalls_stop : nodeadm.

Lemma uninstalls_RemoveAll p :
  uninstall_event (EvRemoveAll p) → p ≠ "" → preserves uninstalls (os_RemoveAll p).
Proof.
  intros HP Hne. apply uninstalls_sys; [done|]. intros f f' [= <-] p1 q _ _ Hq.
  rewrite remove_all_lookup by done. by destruct (under p q).
Qed.

Lemma clears_RemoveAll p :
  uninstall_event (EvRemoveAll p) → p ≠ "" → clears uninstalls removed [p] (os_RemoveAll p).
Proof.
  intros HP Hne h o h' E. split; [by eapply uninstalls_RemoveAll|].
  intros -> q Hq. apply list_elem_of_singleton in Hq as ->. split.
  - exists [EvRemoveAll p]. apply sys_tracker in E as [_ ->]. split; [done|by left].
  - intros _ _ q Hq. apply sys_Return in E as (f & [= <-] & ->). cbn [fs set_fs record].
    rewrite remove_all_lookup by done. by rewrite Hq.
Qed.

Lemma owned_nonempty p : p ∈ owned a → p ≠ "".
Proof.
  assert (∀ (b : bool) l, bool_decide ("" ∈ l) = false → "" ∉ (if b then l else [])) as Hif.
  { intros [] l Hl; [by eapply bool_decide_eq_false_1|apply not_elem_of_nil]. }
  intros Hp ->. revert Hp. unfold owned. rewrite !elem_of_app.
  intros [Hp|[Hp|[Hp|[Hp|[Hp|[Hp|[Hp|Hp]]]]]]];
    [by apply Hif in Hp..|by apply list_elem_of_singleton in Hp].
Qed.

Lemma clears_owned p : p ∈ owned a → clears uninstalls removed [p] (os_RemoveAll p).
Proof. intros Hp. apply clears_RemoveAll; [by left|by apply owned_nonempty]. Qed.

Lemma clears_kubelet :
  services_only → Kubelet a = true → clears uninstalls removed kubelet_paths (uninstall_kubelet u).
Proof.
  intros HS Hk. unfold uninstall_kubelet. apply clears_after; [apply _|by apply uninstalls_stop|].
  intros _ h o h' E. unfold kubelet_Uninstall in E. cbv zeta in E.
  assert (path_Join ["" ; kubeletCurrentCertPath] = kubeletCurrentCertPath) as Hcert by reflexivity.
  rewrite Hcert in E. unfold gets in E. cbv [mbind] in E. unfold M_bind at 1 in E.
  destruct (evalSymlinks kubeletCurrentCertPath h) as [actual err] eqn:Ea.
  assert (∀ p, p ∈ kubelet_paths → p ∈ owned a) as Hsub.
  { intros p Hp. unfold owned. apply elem_of_app. left. by rewrite Hk. }
  match type of E with context [@remove_each _ ?l ?errs] =>
    assert (clears uninstalls removed l (es ← remove_each l errs; of_option (errors_Join es))) as Hl end.
  { apply clears_remove_each; [apply _|]. intros p Hp.
    destruct (String.eqb_spec actual ""); [by apply clears_owned, Hsub|].
    apply elem_of_app in Hp as [Hp|Hp]; [by apply clears_owned, Hsub|].
    apply list_elem_of_singleton in Hp as ->. apply clears_RemoveAll; [|done].
    right; left. split; [done|]. exists h. by rewrite Ea. }
  eapply clears_weaken in Hl; [by apply Hl in E|].
  destruct (String.eqb actual ""); [done|]. intros p Hp. apply elem_of_app. by left.
Qed.

Lemma uninstalls_GetRegion : preserves uninstalls (GetRegion json_registration "").
Proof.
  unfold GetRegion, isRegistered, GetManagedHybridInstanceId, getManagedHybridInstanceIdAndRegion,
    getRegistration. host_tac; by apply uninstalls_external.
Qed.

Lemma ssm_owned p : Ssm a = true → p ∈ ssm_paths → p ∈ owned a.
Proof.
  intros Hs Hp. unfold owned. apply elem_of_app. right. apply elem_of_app. left. by rewrite Hs.
Qed.

(** The calls of a client stay within an uninstall. *)
Definition client_ok (client : SSMClient) : Prop :=
  (∀ i, preserves uninstalls (DescribeInstanceInformation client i)) ∧
  (∀ i, preserves uninstalls (DeregisterManagedInstance client i)).

Lemma clears_ssm_actions client :
  Ssm a = true → client_ok client →
  Forall2 (clears uninstalls removed)
    [[]; ["/var/lib/amazon/ssm/registration"]; ["/opt/ssm/ssm-setup-cli"]; ["/etc/amazon"];
     ["/eks-hybrid/.aws"]; ["/root/.aws"]]
    (uninstall_actions json_registration "" "" client pm).
Proof.
  intros Hs [Hd Hr].
  assert (∀ p, p ∈ ssm_paths → clears uninstalls removed [p] (os_RemoveAll p)) as Hp
    by (intros p Hin; by apply clears_owned, ssm_owned).
  unfold uninstall_actions, removeFileOrDir.
  repeat match goal with |- Forall2 _ _ _ => constructor end;
    try (apply clears_map_err, Hp; unfold ssm_paths; set_solver).
  - apply clears_preserves. unfold Deregister, isInstanceManaged, GetManagedHybridInstanceId,
      getRegistration. host_tac; by apply uninstalls_external.
  - unfold uninstallPreRegisterComponents. apply clears_after;
      [apply _| |intros _; apply Hp; unfold ssm_paths; set_solver].
    apply preserves_map_err, uninstalls_cmd_Retry. exists (UninstallCmd (GetSSMPackage pm)). naive_solver.
Qed.

Lemma clears_ssm :
  services_only → Ssm a = true → clears uninstalls removed ssm_paths (uninstall_ssm u).
Proof.
  intros HS Hs. unfold uninstall_ssm. apply clears_after; [apply _|by apply uninstalls_stop|intros _].
  apply clears_after; [apply _|apply uninstalls_GetRegion|]. intros region h o h' E.
  assert (preserves uninstalls (LoadDefaultConfig u (if String.eqb region "" then None else Some region)))
    as HL.
  { apply uninstalls_service; [apply so_load, HS|]. intros T h0 o0 h0' E0. exact (proj1 (tidy_load T _ _ _ _ E0)). }
  cbv [mbind M_bind] in E. destruct (LoadDefaultConfig u _ h) as [[client|e|] h1] eqn:El;
    [|injection E as <- <-; split; [exact (HL _ _ _ El)|done]..].
  assert (client_ok client) as Hc.
  { destruct (so_client HS _ _ _ _ El) as [Hd Hr]. split; intros i; apply uninstalls_service; auto;
      intros T h0 o0 h0' E0; destruct (tidy_load T _ _ _ _ El) as [_ Hi];
      destruct (Hi _ eq_refl i h0) as [? ?]; eauto. }
  pose proof (clears_map_err _ _ _ (EWrap "uninstalling SSM") _
    (clears_joined _ _ _ _ [] (clears_ssm_actions _ Hs Hc)) _ _ _ E) as [HR HG].
  pose proof (HL _ _ _ El) as HL'. split; [by etrans|].
  intros Ho p Hp. eapply (removal_before (R := uninstalls)); [done|by apply HG].
Qed.

Lemma clears_signing_helper_daemon :
  services_only → clears uninstalls removed [] (uninstall_signing_helper_daemon u).
Proof.
  intros HS. apply clears_preserves. intros h o h' E. unfold uninstall_signing_helper_daemon in E.
  destruct (GetDaemonStatus _ _ h) as [[status err] h1] eqn:Es.
  assert (uninstalls h h1) as H1.
  { destruct (so_status HS _ _ _ _ Es) as (e1 & J1 & F1). split.
    - exists e1. split; [done|]. by eapply Forall_impl, service_uninstall.
    - intros T. by apply (tidy_status T) in Es. }
  destruct (_ || _); [|by injection E as <- <-]. apply (uninstalls_stop _ HS) in E. by etrans.
Qed.

Lemma clears_containerd :
  services_only → Containerd a ≠ ContainerdSourceNone →
  clears uninstalls removed [] (uninstall_containerd u).
Proof.
  intros HS Hc. apply clears_preserves. unfold uninstall_containerd, containerd_Uninstall,
    isContainerdInstalled. host_tac.
  - apply uninstalls_cmd_Retry. exists (UninstallCmd (GetContainerd pm "")). naive_solver.
  - apply uninstalls_RemoveAll; [by right; right|done].
Qed.

Lemma clears_daemons :
  services_only →
  clears uninstalls removed
    ((if Kubelet a then kubelet_paths else []) ++ (if Ssm a then ssm_paths else []))
    (uninstallDaemons u).
Proof.
  intros HS. unfold uninstallDaemons. cbv zeta. fold a.
  apply clears_bind; [apply _|by apply clears_when; [apply _|]; intros; apply clears_kubelet|].
  rewrite <- (app_nil_r (if Ssm a then _ else _)).
  apply clears_bind; [apply _|by apply clears_when; [apply _|]; intros; apply clears_ssm|].
  apply (clears_bind _ _ [] []).
  - destruct (IamRolesAnywhere a); [by apply clears_signing_helper_daemon|].
    apply clears_preserves, preserves_pure, _.
  - destruct (String.eqb_spec (Containerd a) ContainerdSourceNone); cbn [negb when];
      [apply clears_preserves, preserves_pure, _|by apply clears_containerd].
Qed.

Lemma owned_binary p :
  p ∈ (if Kubectl a then ["/usr/local/bin/kubectl"] else []) ++
      (if CniPlugins a then ["/opt/cni"] else []) ++
      (if IamAuthenticator a then ["/usr/local/bin/aws-iam-authenticator"] else []) ++
      (if IamRolesAnywhere a
       then ["/etc/systemd/system/aws_signing_helper_update.service"; "/eks-hybrid/.aws";
             "/usr/local/bin/aws_signing_helper"] else []) ++
      (if ImageCredentialProvider a then ["/etc/eks/image-credential-provider"] else []) ++
      ["/etc/eks"] →
  p ∈ owned a.
Proof. intros Hp. unfold owned. apply elem_of_app. right. apply elem_of_app. by right. Qed.

Lemma clears_binaries :
  CNIUninstall u = cni_Uninstall →
  clears uninstalls removed
    ((if Kubectl a then ["/usr/local/bin/kubectl"] else []) ++
     (if CniPlugins a then ["/opt/cni"] else []) ++
     (if IamAuthenticator a then ["/usr/local/bin/aws-iam-authenticator"] else []) ++
     (if IamRolesAnywhere a
      then ["/etc/systemd/system/aws_signing_helper_update.service"; "/eks-hybrid/.aws";
            "/usr/local/bin/aws_signing_helper"] else []) ++
     (if ImageCredentialProvider a then ["/etc/eks/image-credential-provider"] else []))
    (uninstallBinaries u).
Proof.
  intros Hcni. unfold uninstallBinaries. cbv zeta. fold a. rewrite Hcni.
  repeat (apply clears_bind; [apply _|apply clears_when; [apply _|intros Hb]|]).
  - apply clears_owned, owned_binary. rewrite Hb. set_solver.
  - apply clears_owned, owned_binary. rewrite Hb. set_solver.
  - apply clears_owned, owned_binary. rewrite Hb. set_solver.
  - unfold ira_Uninstall.
    change [ ?x; ?y; ?z] with ([x] ++ [y] ++ [z]).
    repeat (apply clears_bind; [apply _|..]); apply clears_owned, owned_binary; rewrite Hb; set_solver.
  - rewrite <- (app_nil_r (if ImageCredentialProvider a then _ else _)). apply clears_bind; [apply _|..].
    + apply clears_when; [apply _|]. intros Hb. apply clears_owned, owned_binary. rewrite Hb. set_solver.
    + destruct (Iptables a) eqn:Hi; cbn [when]; [|apply clears_preserves, preserves_pure, _].
      apply clears_preserves. unfold iptables_Uninstall, isIptablesInstalled. host_tac.
      apply uninstalls_cmd_Retry. exists (UninstallCmd (GetIptables pm)). naive_solver.
Qed.

Lemma clears_cleanup : clears uninstalls removed ["/etc/eks"] (cleanup u).
Proof.
  unfold cleanup. apply clears_after; [apply _| |intros _; apply clears_owned, owned_binary; set_solver].
  unfold pm_Cleanup. fold pm. destruct (String.eqb_spec (dockerRepo pm) ""); [apply preserves_pure, _|].
  unfold uninstallDockerRepo, removeRepoFile. host_tac;
    try apply uninstalls_Stat; apply uninstalls_Remove; split; try done; set_solver.
Qed.

(** Everything but the removal of the tracker. *)
Definition uninstall_body : M Host unit := (uninstallDaemons u;; uninstallBinaries u;; cleanup u).

Lemma clears_body :
  services_only → CNIUninstall u = cni_Uninstall → clears uninstalls removed (owned a) uninstall_body.
Proof.
  intros HS Hcni. unfold owned. rewrite app_assoc. apply clears_bind; [apply _|by apply clears_daemons|].
  rewrite !app_assoc. apply clears_bind; [apply _| |apply clears_cleanup].
  rewrite <- !app_assoc. by apply clears_binaries.
Qed.

Lemma Uninstaller_Run_body h : Uninstaller_Run u h = (uninstall_body;; Clear) h.
Proof.
  unfold Uninstaller_Run, uninstall_body. cbv [mbind M_bind].
  destruct (uninstallDaemons u h) as [[[]|e|] h1]; [|done..].
  destruct (uninstallBinaries u h1) as [[[]|e|] h2]; [|done..].
  by destruct (cleanup u h2) as [[[]|e|] h3].
Qed.

(** C10. An uninstall only removes what belongs to components the tracker
    lists (plus the target of the kubelet's certificate link, containerd's
    configuration and the docker repository when nodeadm installed them),
    only uninstalls their packages, and writes nothing.  It forgets the
    tracker last of all: once the tracker's directory is removed, every path
    the listed components own has been, and nothing happens any more; a
    successful uninstall did remove it, and an earlier failure leaves it. *)
Theorem uninstall_owned h o h' :
  services_only → CNIUninstall u = cni_Uninstall →
  (∀ h, (evalSymlinks kubeletCurrentCertPath h).1 ≠ tracker_dir) →
  Uninstaller_Run u h = (o, h') →
  ∃ evs last, journal h' = journal h ++ evs ++ last ∧
    Forall uninstall_event evs ∧ ¬ (EvRemoveAll tracker_dir ∈ evs) ∧
    (last = [] ∨ last = [EvRemoveAll tracker_dir] ∧
       ∀ p, p ∈ owned a → EvRemoveAll p ∈ evs) ∧
    (o = Return tt → last = [EvRemoveAll tracker_dir]).
Proof.
  intros HS Hcni Hlink E.
  assert (∀ evs, Forall uninstall_event evs → EvRemoveAll tracker_dir ∉ evs) as Hno.
  { intros evs HF Hin. rewrite Forall_elem in HF.
    destruct (HF _ Hin) as [Ho|[[_ [h0 Hs]]|[_ Hs]]]; [|by apply (Hlink h0)|done].
    by apply (tracker_dir_not_owned a). }
  rewrite Uninstaller_Run_body in E. cbv [mbind M_bind] in E.
  destruct (uninstall_body h) as [[[]|e|] h1] eqn:Eb;
    destruct (clears_body HS Hcni _ _ _ Eb) as [[(evs & J & F) _] R].
  - apply sys_tracker in E as [_ J2]. exists evs, [EvRemoveAll tracker_dir].
    rewrite J2, J, <- app_assoc. split; [done|]. split; [done|]. split; [by apply Hno|].
    split; [|done]. right. split; [done|]. intros p Hp.
    destruct (R eq_refl p Hp) as [(evs' & J' & Hin) _]. rewrite J in J'.
    by apply app_inv_head in J' as ->.
  - injection E as <- <-. exists evs, []. rewrite app_nil_r. repeat split; auto. done.
  - injection E as <- <-. exists evs, []. rewrite app_nil_r. repeat split; auto. done.
Qed.

(** What a successful uninstall leaves: nothing in any place that belongs to
    a tracked component, nor in the tracker's directory. *)
Lemma Uninstaller_Run_leaves h h' p q :
  services_only → tidy → CNIUninstall u = cni_Uninstall →
  Uninstaller_Run u h = (Return tt, h') →
  p ∈ places → under p q = true → fs h' !! q = None.
Proof.
  intros HS HT Hcni E Hp Hq. rewrite Uninstaller_Run_body in E.
  apply bind_Return in E as ([] & h1 & Eb & Ec).
  apply sys_Return in Ec as (f & [= <-] & ->). cbn [fs set_fs record].
  change (path_Dir trackerFile) with tracker_dir. rewrite remove_all_lookup by done.
  destruct (under tracker_dir q) eqn:Et; [done|].
  apply elem_of_cons in Hp as Hp'. destruct Hp' as [->|Ho]; [congruence|].
  destruct (clears_body HS Hcni _ _ _ Eb) as [_ R]. by destruct (R eq_refl p Ho) as [_ ->].
Qed.
End Uninstall.

Example quiet_manager : DaemonManager := {|
  StartDaemon n := external (EvDaemon "start" n); StopDaemon n := external (EvDaemon "stop" n);
  RestartDaemon n _ := external (EvDaemon "restart" n);
  GetDaemonStatus _ h := ((DaemonStatusRunning, None), h);
  EnableDaemon n := external (EvDaemon "enable" n);
  DisableDaemon n := external (EvDaemon "disable" n);
  DaemonReload := external (EvCall "daemon-reload") |}.

Example some_uninstaller : Uninstaller := {|
  un_Artifacts := {| Containerd := ContainerdSourceDistro; CniPlugins := true;
    IamAuthenticator := true; IamRolesAnywhere := false; ImageCredentialProvider := true;
    Kubectl := false; Kubelet := true; Ssm := true; Iptables := true |};
  un_DaemonManager := quiet_manager;
  un_PackageManager := {| manager := "yum"; installVerb := "install"; updateVerb := "update";
    deleteVerb := "remove"; refreshMetadataVerb := "makecache"; dockerRepo := "" |};
  CNIUninstall := cni_Uninstall;
  LoadDefaultConfig _ := (external (EvCall "config");;
    mret {| DescribeInstanceInformation _ := (external (EvCall "describe");; mret 1%nat);
            DeregisterManagedInstance _ := external (EvCall "deregister") |}) |}.

Lemma some_services : services_only some_uninstaller.
Proof.
  split.
  - intros n. cbn. by host_tac.
  - intros n h r h' [= <- <-]. exists []. by rewrite app_nil_r.
  - intros r. cbn [LoadDefaultConfig some_uninstaller]. by host_tac.
  - intros r h client h' E. apply bind_Return in E as ([] & h1 & _ & [= <- <-]).
    split; intros i; cbn [DescribeInstanceInformation DeregisterManagedInstance]; by host_tac.
Qed.

Lemma uninstall_owned_witness :
  let h := {| fs := ∅; tracker := no_artifacts; journal := []; provider := no_provider |} in
  let r := Uninstaller_Run (H2 := plain_runtime) some_uninstaller h in
  r.1 = Return tt ∧ ∃ evs, journal r.2 = evs ++ [EvRemoveAll tracker_dir] ∧
    ¬ (EvRemoveAll tracker_dir ∈ evs).
Proof.
  cbv zeta. match goal with |- ?r.1 = _ ∧ _ => destruct r as [o h'] eqn:E end.
  assert (o = Return tt) as ->.
  { change o with (o, h').1. rewrite <- E. vm_compute. reflexivity. }
  split; [reflexivity|].
  destruct (uninstall_owned (H0 := plain_runtime) some_uninstaller _ _ _ some_services eq_refl
    (λ _, ltac:(vm_compute; discriminate)) E) as (evs & last & J & _ & Hn & _ & Hl).
  exists evs. cbn [snd]. rewrite J, (Hl eq_refl). split; [reflexivity|exact Hn].
Defined.
