(* ===== verification/Lifecycle.v ===== *)
(** * Install followed by uninstall (internal/flows)

    What nodeadm itself puts on a host during an install, and that a later
    uninstall, whatever happened in between, takes all of it away again:
    the composition of the two flows through the tracker. *)

From S2P Require Import Prelude GoStrings Host HttpFile Semver Artifact Tracker Installers PackageManager Aws Daemon Ssm Api Flows FlowProps.
#[local] Open Scope Z_scope.

(** ** Paths below paths *)

Lemma under_spec d p : d ≠ "/" → under d p = true ↔ p = d ∨ ∃ t, p = d +:+ "/" +:+ t.
Proof.
  intros Hd. unfold under. rewrite (proj2 (String.eqb_neq _ _) Hd).
  rewrite orb_true_iff, String.eqb_eq, HasPrefix_spec. setoid_rewrite app_assoc_str. done.
Qed.

Lemma under_trans d e p : d ≠ "/" → e ≠ "/" → under d e = true → under e p = true → under d p = true.
Proof.
  intros Hd He. rewrite !under_spec by done.
  intros [->|[t ->]] [->|[t' ->]]; [by left|by right; eexists..|].
  right. exists (t +:+ "/" +:+ t'). by rewrite !app_assoc_str.
Qed.

(** [p] is at or below one of the paths [ds]. *)
Definition below (ds : list string) (p : string) : Prop := ∃ d, d ∈ ds ∧ under d p = true.

Lemma below_at ds p : p ∈ ds → below ds p.
Proof. intros Hp. exists p. split; [done|apply under_refl]. Qed.

(** Membership in a list that is written out. *)
Ltac decide_in :=
  match goal with |- ?x ∈ ?l => apply (bool_decide_unpack (x ∈ l)); vm_compute; exact I end.

(** ** What an install puts on the host *)

Section Placed.
Context `{Env} `{Semver} `{TrackerYaml} `{Runtime} (i : Installer).

(** The binaries, archives, units and configuration files of the components
    an install brings, and the tracker. *)
Definition component_files : list string :=
  [kubelet_BinPath; kubelet_UnitPath; kubectl_BinPath; cni_rootDir; icp_BinPath;
   IAMAuthenticatorBinPath; trackerFile] ++
  (if String.eqb (inst_CredentialProvider i) IamRolesAnywhereCredentialProvider
   then [SigningHelperBinPath] else [defaultInstallerPath; defaultSSMCongigPath]).

(** The settings of other programs it writes on the way: gpg's, for the SSM
    setup program, and the sources of the docker repository. *)
Definition gpg_conf : string := path_Join [default "/root" home; ".gnupg"; "gpg.conf"].
Definition settings_files : list string :=
  (if String.eqb (inst_CredentialProvider i) SsmCredentialProvider then [gpg_conf] else []) ++
  (if inst_PrivateMode i then [] else [ubuntuDockerGpgKeyPath; aptDockerRepoSourceFilePath]).

Definition placed (p : string) : Prop := below component_files p ∨ p ∈ settings_files.

Definition install_event (ev : event) : Prop :=
  match ev with EvCreate p _ | EvWrite p _ => placed p | _ => True end.

Lemma placed_component p : p ∈ component_files → placed p.
Proof. intros Hp. left. by apply below_at. Qed.

(** ** The parts of an install *)

(** Parts that put no file anywhere. *)
Definition fetches (ev : event) : Prop := match ev with EvGet _ => True | _ => False end.
Lemma fetches_install ev : fetches ev → install_event ev.
Proof. by destruct ev. Qed.

Lemma GetHttpFileReader_fetches uri : journaled fetches (GetHttpFileReader uri).
Proof.
  intros h o h' E. apply GetHttpFileReader_spec in E as (_ & _ & k & _ & J & _).
  eexists. split; [exact J|]. by apply Forall_replicate.
Qed.
Hint Resolve GetHttpFileReader_fetches : nodeadm.

Lemma GetHttpFile_fetches uri : journaled fetches (GetHttpFile uri).
Proof. unfold GetHttpFile. host_tac. Qed.
Hint Resolve GetHttpFile_fetches : nodeadm.

Lemma getSource_fetches name l : journaled fetches (getSource goarch goos sha256 gunzip name l).
Proof.
  induction l as [|x l IH]; cbn [getSource]; [apply (journaled_pure _ (λ _, Throw _))|].
  unfold open_artifact. host_tac.
Qed.

Lemma LookPath_installs name : journaled install_event (LookPath name).
Proof. apply (journaled_pure _ (λ h, Return _)). Qed.
Lemma cmd_Retry_installs c : journaled install_event (cmd_Retry c).
Proof. by apply cmd_Retry_journaled. Qed.
Lemma Add_installs name : journaled install_event (Add name).
Proof.
  intros h o h' E. exists []. rewrite app_nil_r. split; [|done].
  unfold Add in E. by destruct (add_artifact _ _); injection E as <- <-.
Qed.
Lemma GetCurrentState_installs : journaled install_event GetCurrentState.
Proof.
  unfold GetCurrentState, GetInstalledArtifacts. host_tac; try done.
Qed.
Lemma Save_installs : journaled install_event Save.
Proof.
  unfold Save, WriteFileWithDir. host_tac; try (by apply journaled_modify); try done;
    apply placed_component, elem_of_app; left; set_solver.
Qed.
Hint Resolve LookPath_installs cmd_Retry_installs Add_installs : nodeadm.

Lemma WriteFileWithDir_installs p data perm :
  placed p → journaled install_event (WriteFileWithDir p data perm).
Proof. intros Hp. unfold WriteFileWithDir. by host_tac. Qed.

Lemma InstallFile_installs p src perms :
  placed p → journaled install_event (InstallFile p src perms).
Proof. intros Hp. unfold InstallFile, io_Copy. by host_tac. Qed.

Lemma downloadFileTo_installs x y z p perms get :
  placed p → journaled fetches get → journaled install_event (downloadFileTo x y z p perms get).
Proof.
  intros Hp Hg. unfold downloadFileTo. host_tac; [|by apply InstallFile_installs].
  eapply journaled_impl; [apply fetches_install|done].
Qed.

Lemma retry_download_installs n f err :
  journaled install_event f → journaled install_event (retry_download n f err).
Proof. intros Hf. revert err. induction n as [|n IH]; intros err; cbn; host_tac. Qed.

Lemma ssm_retry_installs n f err :
  journaled install_event f → journaled install_event (ssm_retry n f err).
Proof. intros Hf. revert err. induction n as [|n IH]; intros err; cbn; host_tac. Qed.
Hint Resolve retry_download_installs ssm_retry_installs : nodeadm.

Lemma binary_installs n x y z p perms name l err :
  p ∈ component_files →
  journaled install_event (retry_download n
    (downloadFileTo x y z p perms (getSource goarch goos sha256 gunzip name l)) err).
Proof.
  intros Hp. apply retry_download_installs, downloadFileTo_installs; [by apply placed_component|].
  apply getSource_fetches.
Qed.

Lemma member_component p : p ∈ [kubelet_BinPath; kubelet_UnitPath; kubectl_BinPath; cni_rootDir;
  icp_BinPath; IAMAuthenticatorBinPath; trackerFile] → p ∈ component_files.
Proof. intros Hp. apply elem_of_app. by left. Qed.

Lemma installEksArtifacts_installs : journaled install_event (installEksArtifacts i).
Proof.
  unfold installEksArtifacts, kubelet_Install, kubelet_installFromSource, kubelet_installSystemdUnit,
    kubectl_Install, kubectl_installFromSource, cni_Install, cni_installFromSource, icp_Install,
    icp_installFromSource, auth_Install, auth_installFromSource, kubectl_downloadFileWithRetries,
    cni_downloadFileWithRetries, icp_downloadFileWithRetries, auth_downloadFileWithRetries.
  host_tac; try (apply binary_installs, member_component; set_solver).
  - apply InstallFile_installs, placed_component, member_component.
    change (path_Join [""; kubelet_UnitPath]) with kubelet_UnitPath. set_solver.
  - apply retry_download_installs, downloadFileTo_installs; [|apply getSource_fetches].
    left. exists cni_rootDir. split; [apply member_component; set_solver|done].
  - change (path_Join [""; cni_BinPath]) with (abs ["opt"; "cni"; "bin"]).
    eapply journaled_impl; [|apply InstallTarGz_journaled; [done|]].
    + assert (∀ p, inside_or_parent ["opt"; "cni"; "bin"] p → placed p) as Hin.
      { intros p Hp. left. exists cni_rootDir. split; [apply member_component; set_solver|].
        destruct Hp as [(ext & _ & ->)| ->]; [|done].
        apply under_spec; [done|]. right. by exists (Join ("bin" :: ext) "/"). }
      intros [] Hev; try done; by apply Hin.
    + repeat constructor; discriminate.
Qed.

(** An install of the SSM agent; its configuration is below /etc/amazon. *)
Lemma ssm_Install_installs region suffix :
  inst_CredentialProvider i = SsmCredentialProvider →
  journaled install_event (ssm_Install pgp_verify json_Unmarshal json_MarshalIndent home "" region
    (ssm_source region suffix)).
Proof.
  intros Hs. assert (defaultInstallerPath ∈ component_files ∧ defaultSSMCongigPath ∈ component_files)
    as [H3 H4] by (unfold component_files; rewrite Hs; cbn; split; set_solver).
  assert (placed gpg_conf) as H5 by (right; unfold settings_files; rewrite Hs; by left).
  assert (∀ order, journaled install_event (detectPlatformVariant order)) as Hd.
  { intros order. induction order as [|[m v] l IH]; cbn [detectPlatformVariant]; host_tac. }
  assert (∀ uri, journaled install_event (GetHttpFileReader uri)) as Hg.
  { intros uri. eapply journaled_impl; [apply fetches_install|apply GetHttpFileReader_fetches]. }
  unfold ssm_Install, ssm_installFromSource, writeGpgConfig, WriteFileUniqueLine,
    ssm_downloadFileWithRetries, runInstallWithRetries, configureSSMAgent.
  fold gpg_conf. host_tac; try done; try (by apply placed_component).
  apply ssm_retry_installs. unfold ssm_downloadFileTo, ssm_source, GetSSMInstaller,
    GetSSMInstallerSignature, NewSSMInstaller, defaultBuildSSMURL. cbn.
  unfold defaultBuildSSMURL. host_tac. by apply InstallFile_installs, placed_component.
Qed.

Lemma installCredentialProcess_installs : journaled install_event (installCredentialProcess i).
Proof.
  unfold installCredentialProcess.
  destruct (String.eqb_spec (inst_CredentialProvider i) IamRolesAnywhereCredentialProvider) as [Hi|].
  - unfold ira_Install, ira_installFromSource, ira_downloadFileWithRetries. host_tac. apply binary_installs.
    unfold component_files. rewrite Hi. cbn. set_solver.
  - destruct (String.eqb_spec (inst_CredentialProvider i) SsmCredentialProvider);
      [by apply ssm_Install_installs|apply (journaled_pure _ (λ _, Throw _))].
Qed.

Lemma installDistroPackages_installs pm :
  journaled install_event (containerd_Install pm (inst_ContainerdSource i)
    (Version (Eks (inst_AwsSource i)));; try GetContainerdVersion;; iptables_Install pm).
Proof.
  unfold containerd_Install, areContainerdAndRuncInstalled, set_containerd, GetContainerdVersion,
    GetContainerdVersionRaw, iptables_Install, isIptablesInstalled. host_tac; try done;
    by apply journaled_modify.
Qed.

Lemma pm_Configure_installs pm :
  inst_PrivateMode i = false →
  journaled install_event (PackageManager.Configure GetHttpFile goarch codename pm).
Proof.
  intros Hp. assert (∀ p, p ∈ [ubuntuDockerGpgKeyPath; aptDockerRepoSourceFilePath] → placed p) as Hs.
  { intros p Hin. right. unfold settings_files. rewrite Hp. apply elem_of_app. by right. }
  assert (∀ uri, journaled install_event (GetHttpFile uri)) as Hg.
  { intros uri. eapply journaled_impl; [apply fetches_install|apply GetHttpFile_fetches]. }
  unfold PackageManager.Configure, configureYumPackageManagerWithDockerRepo,
    configureAptPackageManagerWithDockerRepo, RefreshMetadataCache. host_tac; try done;
    apply WriteFileWithDir_installs, Hs; set_solver.
Qed.

Lemma Installer_Run_installs : journaled install_event (Installer_Run i).
Proof.
  pose proof GetCurrentState_installs as H3. pose proof Save_installs as H4.
  pose proof installCredentialProcess_installs as H5. pose proof installEksArtifacts_installs as H6.
  unfold Installer_Run, with_pm, installDistroPackages, with_pm.
  apply journaled_bind; [done|intros t]. apply journaled_bind; [by apply journaled_modify|intros _].
  destruct (inst_PrivateMode i) eqn:Hp; [host_tac|].
  destruct (inst_PackageManager i) as [pm|]; [|apply (journaled_pure _ (λ _, Panic))].
  pose proof (pm_Configure_installs pm Hp) as H7. pose proof (installDistroPackages_installs pm) as H8.
  repeat (apply journaled_bind; [done|intros _]). done.
Qed.

(** Every component file belongs to a component the tracker lists after a
    successful install, or is the tracker. *)
Lemma component_files_tracked u h h1 :
  Installer_Run i h = (Return tt, h1) → un_Artifacts u = tracker h1 →
  ∀ d, d ∈ component_files → d ≠ "/" ∧ ∃ p, p ∈ places u ∧ p ≠ "/" ∧ under p d = true.
Proof.
  intros E Hu. destruct (Installer_Run_tracks _ _ _ E) as (t0 & h0 & h4 & src & ipt & _ & Hc & _ & _ & _ & Ht).
  assert (∀ n, n ∈ credential_artifact (inst_CredentialProvider i) :: eks_artifacts →
    tracked (tracker h1) n = true) as Hin.
  { intros n Hm. rewrite Ht, bool_decide_eq_true_2 by done. by rewrite orb_true_r. }
  assert (∀ n, n ∈ eks_artifacts → tracked (tracker h1) n = true) as Heks.
  { intros n Hn. apply Hin. by right. }
  pose proof (Heks art_Kubelet ltac:(decide_in)) as Tk.
  pose proof (Heks art_Kubectl ltac:(decide_in)) as Tc.
  pose proof (Heks art_CniPlugins ltac:(decide_in)) as Tn.
  pose proof (Heks art_IamAuthenticator ltac:(decide_in)) as Ta.
  pose proof (Hin (credential_artifact (inst_CredentialProvider i)) ltac:(by left)) as Tp.
  cbn in Tk, Tc, Tn, Ta.
  assert (∀ d p, d ≠ "/" → p ∈ owned (un_Artifacts u) → p ≠ "/" → under p d = true →
    d ≠ "/" ∧ ∃ p, p ∈ places u ∧ p ≠ "/" ∧ under p d = true) as Hat.
  { intros d p Hd Hp Hne Hud. split; [done|]. exists p. split; [by right|done]. }
  intros d Hd. apply elem_of_app in Hd as [Hd|Hd].
  - assert (∀ p, p ∈ kubelet_paths ++ ["/usr/local/bin/kubectl"; "/opt/cni";
      "/usr/local/bin/aws-iam-authenticator"; "/etc/eks"] → p ∈ owned (un_Artifacts u)) as Ho.
    { rewrite Hu. unfold owned. rewrite Tk, Tc, Tn, Ta. intros p.
      rewrite !elem_of_app, !elem_of_cons, elem_of_nil, ?list_elem_of_singleton. tauto. }
    rewrite !elem_of_cons in Hd. destruct Hd as [->|[->|[->|[->|[->|[->|[->|Hd]]]]]]].
    + apply (Hat _ "/usr/bin/kubelet"); [done|apply Ho; decide_in|done|done].
    + apply (Hat _ kubelet_UnitPath); [done|apply Ho; decide_in|done|done].
    + apply (Hat _ kubectl_BinPath); [done|apply Ho; decide_in|done|done].
    + apply (Hat _ cni_rootDir); [done|apply Ho; decide_in|done|done].
    + apply (Hat _ "/etc/eks"); [done|apply Ho; decide_in|done|done].
    + apply (Hat _ IAMAuthenticatorBinPath); [done|apply Ho; decide_in|done|done].
    + split; [done|]. exists tracker_dir. split; [by left|done].
    + by apply not_elem_of_nil in Hd.
  - unfold credential_artifact in Tp. destruct (String.eqb _ IamRolesAnywhereCredentialProvider).
    + assert (SigningHelperBinPath ∈ owned (un_Artifacts u)) as Ho.
      { rewrite Hu. unfold owned. cbn in Tp. rewrite Tp, !elem_of_app, !elem_of_cons. tauto. }
      apply list_elem_of_singleton in Hd as ->. apply (Hat _ SigningHelperBinPath); done.
    + assert (∀ p, p ∈ ssm_paths → p ∈ owned (un_Artifacts u)) as Ho.
      { rewrite Hu. unfold owned. cbn in Tp. rewrite Tp. intros p. rewrite !elem_of_app. tauto. }
      rewrite !elem_of_cons in Hd. destruct Hd as [->|[->|Hd]].
      * apply (Hat _ defaultInstallerPath); [done|apply Ho; decide_in|done|done].
      * apply (Hat _ "/etc/amazon"); [done|apply Ho; decide_in|done|done].
      * by apply not_elem_of_nil in Hd.
Qed.

(** What an install saved is what a later command loads, as long as the
    tracker file is the same. *)
Lemma Save_loads h4 h1 h2 t h2' :
  Save h4 = (Return tt, h1) →
  read_file (fs h2) trackerFile = read_file (fs h1) trackerFile →
  GetInstalledArtifacts h2 = (Return t, h2') → t = tracker h1.
Proof.
  intros Es Hr E. assert (fault h2 (EvRead trackerFile) = None) as Hf.
  { unfold GetInstalledArtifacts, os_ReadFile in E. cbv [mbind M_bind sys] in E.
    by destruct (fault h2 (EvRead trackerFile)) as [[e f]|]. }
  destruct (Save_persists _ _ _ Es Hr Hf) as (c & _ & _ & HG). unfold GetCurrentState, try in HG.
  cbv [mbind M_bind] in HG. rewrite E in HG. by injection HG as ->.
Qed.

(** C8. Whatever a successful install did on a host, and whatever happened to
    the host since but for the tracker file, a successful uninstall for the
    tracker it loads takes every file nodeadm itself created away:
    binaries, archives and what was unpacked from them, units, configuration
    and the tracker.  The exceptions are settings of other programs: gpg's,
    when the SSM agent was installed, and the sources of the docker
    repository (which the package manager's clean-up has to remove). *)
Theorem uninstall_undoes_install u h h1 evs h2 h2' h3 q perm :
  Installer_Run i h = (Return tt, h1) → journal h1 = journal h ++ evs →
  EvCreate q perm ∈ evs →
  read_file (fs h2) trackerFile = read_file (fs h1) trackerFile →
  GetInstalledArtifacts h2 = (Return (un_Artifacts u), h2') →
  services_only u → tidy u → CNIUninstall u = cni_Uninstall →
  Uninstaller_Run u h2' = (Return tt, h3) →
  fs h3 !! q = None ∨ q ∈ settings_files.
Proof.
  intros Ei J Hq Hr Hl HS HT Hcni Eu.
  destruct (Installer_Run_tracks _ _ _ Ei) as (_ & _ & h4 & _ & _ & _ & _ & Es & _).
  pose proof (Save_loads _ _ _ _ _ Es Hr Hl) as Hu.
  destruct (Installer_Run_installs _ _ _ Ei) as (evs' & J' & F).
  rewrite J in J'. apply app_inv_head in J' as <-. rewrite Forall_elem in F.
  destruct (F _ Hq) as [(d & Hd & Hdq)|]; [left|by right].
  destruct (component_files_tracked u _ _ Ei Hu d Hd) as (Hd1 & p & Hp & Hp1 & Hpd).
  apply (Uninstaller_Run_leaves u h2' h3 p q HS HT Hcni Eu Hp).
  exact (under_trans p d q Hp1 Hd1 Hpd Hdq).
Qed.
End Placed.

(** ** A concrete life *)

(** The uninstaller for what an install left. *)
Example uninstaller_of (t : InstalledArtifacts) : Uninstaller := {|
  un_Artifacts := t; un_DaemonManager := quiet_manager;
  un_PackageManager := un_PackageManager some_uninstaller; CNIUninstall := cni_Uninstall;
  LoadDefaultConfig := LoadDefaultConfig some_uninstaller |}.

Lemma calm_services t : services_only (uninstaller_of t).
Proof. destruct some_services as [A B C D]. by split. Qed.

Lemma quiet_external ev o h h' :
  external (H := calm) ev h = (o, h') → o = Return tt ∧ fs h' = fs h.
Proof. by intros [= <- <-]. Qed.

Lemma calm_tidy t : tidy (H := checksum_everywhere) (H0 := plain_runtime) (uninstaller_of t).
Proof.
  assert (∀ h f, f = fs h → stays_gone (uninstaller_of t) (fs h) f) as Hsame
    by (intros h f -> p q _ _; done).
  split.
  - done.
  - intros h cmd args _. by apply Hsame.
  - intros n h o h' E. apply Hsame. by apply quiet_external in E as [_ ?].
  - intros n h r h' [= <- <-]. by apply Hsame.
  - intros r h o h' E. cbn in E. cbv [mbind M_bind] in E.
    destruct (external (EvCall "config") h) as [o1 h1] eqn:E1.
    apply quiet_external in E1 as [-> Hf]. injection E as <- <-. split; [by apply Hsame|].
    intros client [= <-] i h0. split; intros o1 h2 E; cbn in E.
    + cbv [mbind M_bind] in E. destruct (external (EvCall "describe") h0) as [o2 h3] eqn:E1.
      apply quiet_external in E1 as [-> Hf1]. injection E as <- <-. by apply Hsame.
    + apply quiet_external in E as [_ ?]. by apply Hsame.
Qed.

Lemma uninstall_undoes_install_witness :
  let h := {| fs := ∅; tracker := no_artifacts; journal := []; provider := no_provider |} in
  let r := Installer_Run (H := checksum_everywhere) (H2 := plain_runtime) private_installer h in
  let l := GetInstalledArtifacts (H := checksum_everywhere) r.2 in
  let t := match l.1 with Return t => t | _ => no_artifacts end in
  let s := Uninstaller_Run (H := checksum_everywhere) (H2 := plain_runtime) (uninstaller_of t) l.2 in
  r.1 = Return tt ∧ EvCreate "/opt/cni/bin/bridge" 493 ∈ journal r.2 ∧ s.1 = Return tt ∧
  fs r.2 !! "/opt/cni/bin/bridge" = Some (File "ELF" 493) ∧ fs s.2 !! "/opt/cni/bin/bridge" = None.
Proof.
  cbv zeta. match goal with |- ?r.1 = _ ∧ _ => destruct r as [o h1] eqn:E end. cbn [snd].
  assert (o = Return tt) as ->.
  { change o with (o, h1).1. rewrite <- E. vm_compute. reflexivity. }
  pose proof (f_equal snd E) as Eh. cbn [snd] in Eh.
  destruct (GetInstalledArtifacts (H := checksum_everywhere) h1) as [ol h2] eqn:El.
  destruct ol as [t|e|];
    [|exfalso; apply (f_equal fst) in El; rewrite <- Eh in El; vm_compute in El; discriminate El..].
  cbn [fst snd]. destruct (Uninstaller_Run (H := checksum_everywhere) (H2 := plain_runtime) (uninstaller_of t) h2) as [o2 h3] eqn:E2.
  assert (EvCreate "/opt/cni/bin/bridge" 493 ∈ journal h1) as Hin.
  { rewrite <- Eh.
    match goal with |- ?x ∈ ?l => apply (bool_decide_unpack (x ∈ l)) end. vm_compute. exact I. }
  assert (o2 = Return tt) as ->.
  { pose (f x := (Uninstaller_Run (H := checksum_everywhere) (H2 := plain_runtime)
      (uninstaller_of match (x : outcome _ * Host).1 with Return t => t | _ => no_artifacts end) x.2).1).
    assert (f (GetInstalledArtifacts (H := checksum_everywhere) h1) = o2) as <-
      by (unfold f; rewrite El; cbn [fst snd]; by rewrite E2).
    rewrite <- Eh. vm_compute. reflexivity. }
  split; [reflexivity|]. split; [exact Hin|]. split; [reflexivity|]. split.
  - rewrite <- Eh. vm_compute. reflexivity.
  - destruct (uninstall_undoes_install (H := checksum_everywhere) (H2 := plain_runtime)
      private_installer (uninstaller_of t) _ _ _ h1 h2 _ "/opt/cni/bin/bridge" 493 E eq_refl Hin
      eq_refl El (calm_services _) (calm_tidy _) eq_refl E2) as [Hn|Hs]; [exact Hn|].
    exfalso. apply not_elem_of_nil in Hs. exact Hs.
Defined.

(** The settings of gpg are left behind: an uninstall removes nothing below
    the home directory but the AWS configuration. *)
Example gpg_settings_left :
  let i := {| inst_AwsSource := aws_130; inst_ContainerdSource := ContainerdSourceNone;
    inst_PackageManager := None; inst_CredentialProvider := SsmCredentialProvider;
    SsmRegion := "us-west-2"; inst_PrivateMode := true |} in
  let h := {| fs := ∅; tracker := no_artifacts; journal := []; provider := no_provider |} in
  let e := {| fault _ _ := None; run_output _ _ _ := ("", None); run_effect h _ _ := fs h;
    http_do _ _ := Ok (200, ("6b6c kubelet", None)); bad_url _ := None;
    look_path _ n := if String.eqb n "yum" then Some "/usr/bin/yum" else None; ticks _ := 0%nat; read_part _ _ := "" |} in
  let r := Installer_Run (H := e) (H2 := plain_runtime) i h in
  let s := Uninstaller_Run (H := e) (H2 := plain_runtime) (uninstaller_of (tracker r.2)) r.2 in
  r.1 = Return tt ∧ s.1 = Return tt ∧
  fs s.2 !! "/root/.gnupg/gpg.conf" = Some (File ("no-tty" +:+ newline) 493).
Proof. vm_compute. repeat split. Qed.
