(* ===== verification/Commands.v ===== *)
(** * The commands (cmd/nodeadm: install, init, upgrade, uninstall)

    The commands' own logic: which checks come before which flow, and what
    each check refuses.  [Cli] gathers what the commands obtain from other
    parts: the user, the daemon manager, the node provider of a
    configuration source, the Kubernetes client and the decoders of the
    node's files.  Help that ends the process is an error here. *)

From S2P Require Import Prelude GoStrings Host HttpFile Semver Retry Artifact Tracker Installers PackageManager Aws Daemon Ssm Api Node Flows.
#[local] Open Scope Z_scope.

(** [system.NewFirewallManager]'s result, the part the commands use. *)
Record FirewallManager := {
  IsEnabled : M Host bool;
  FlushRules : M Host unit;
  IsPortOpen : string → string → M Host bool;
}.

Class Cli := {
  IsRunningAsRoot : M Host bool;
  NewDaemonManager : M Host DaemonManager;
  NewNodeProvider : string → list string → M Host NodeProvider;
  NewFirewallManager : M Host FirewallManager;
  LoadAwsConfig : option string → M Host SSMClient;
  OsName : Host → string;
  KubeClientFromKubeConfig : list (string * string) → M Host KubeClient;
  ObjectMeta_of_yaml : string → result string;
  ProviderID_of_yaml : string → result (option string);
}.

Section Commands.
Context `{Env} `{Semver} `{TrackerYaml} `{Runtime} `{BackoffLoop} `{Cli}.

Definition ErrMustRunAsRoot : error := ENew "must run as root".
Definition must_be_root : M Host unit :=
  root ← IsRunningAsRoot; if root : bool then mret tt else throw ErrMustRunAsRoot.
Definition ShowHelpAndExit (msg : string) : M Host unit := throw (ENew msg).

(** ** install *)

Record InstallCommand := {
  ic_kubernetesVersion : string;
  ic_credentialProvider : string;
  ic_containerdSource : string;
  ic_region : string;
  ic_manifestOverride : string;
  ic_privateMode : bool;
  ic_timeout : Z;
}.

Definition get_source (manifestOverride kubernetesVersion region : string) : M Host AwsSource :=
  if String.eqb manifestOverride "" then GetLatestSource manifest_url yaml_manifest kubernetesVersion region
  else GetLatestSourceFromManifest yaml_manifest kubernetesVersion region manifestOverride.

Definition private_mode_needs_manifest (privateMode : bool) (manifestOverride : string)
    : M Host unit :=
  when (privateMode && String.eqb manifestOverride "")
    (throw (ENew "--private-mode requires --manifest-override to be specified")).

Definition Install_Run (c : InstallCommand) : M Host unit :=
  must_be_root;;
  when (String.eqb (ic_credentialProvider c) "")
    (ShowHelpAndExit "--credential-provider is a required flag. Allowed values are ssm & iam-ra");;
  private_mode_needs_manifest (ic_privateMode c) (ic_manifestOverride c);;
  credentialProvider ← of_result (GetCredentialProvider (ic_credentialProvider c));
  containerdSource ← of_result (ContainerdSource (ic_containerdSource c));
  osName ← gets OsName;
  of_option (ValidateContainerdSource osName containerdSource);;
  awsSource ← get_source (ic_manifestOverride c) (ic_kubernetesVersion c) (ic_region c);
  packageManager ←
    if ic_privateMode c then mret None else pm ← pm_New containerdSource; mret (Some pm);
  Installer_Run {|
    inst_AwsSource := awsSource; inst_ContainerdSource := containerdSource;
    inst_PackageManager := packageManager; inst_CredentialProvider := credentialProvider;
    SsmRegion := ic_region c; inst_PrivateMode := ic_privateMode c |}.

(** ** The check that a running node may be touched (uninstall, upgrade) *)

Definition skipPodPreflightCheck : string := "pod-validation".
Definition skipNodePreflightCheck : string := "node-validation".

Definition not_drained_error : error :=
  ENew "only static pods and pods controlled by daemon-sets can be running on the node. Please move pods to different node or use --skip pod-validation".

Definition node_IsDrained : Ctx → M Host bool :=
  IsDrained ObjectMeta_of_yaml ProviderID_of_yaml KubeClientFromKubeConfig.
Definition node_IsUnscheduled : Ctx → M Host unit :=
  IsUnscheduled ProviderID_of_yaml KubeClientFromKubeConfig.
Definition node_IsInitialized : Ctx → M Host unit :=
  IsInitialized ProviderID_of_yaml KubeClientFromKubeConfig.

(** [status, err := daemonManager.GetDaemonStatus(name)], an error being
    returned. *)
Definition daemon_status (dm : DaemonManager) (name : string) : M Host DaemonStatus := λ h,
  match GetDaemonStatus dm name h with
  | ((_, Some e), h') => (Throw e, h')
  | ((status, None), h') => (Return status, h')
  end.

Definition check_running_kubelet (ctx : Ctx) (skipPhases : list string) (dm : DaemonManager)
    (installed : InstalledArtifacts) : M Host unit :=
  when (Kubelet installed) (
    kubeletStatus ← daemon_status dm KubeletDaemonName;
    when (bool_decide (kubeletStatus = DaemonStatusRunning)) (
      when (negb (slices_Contains skipPhases skipPodPreflightCheck)) (
        drained ← map_err (EWrap "validating if node has been drained") (node_IsDrained ctx);
        if drained : bool then mret tt else throw not_drained_error);;
      when (negb (slices_Contains skipPhases skipNodePreflightCheck))
        (map_err (EWrap "please drain or cordon node to mark it unschedulable or use --skip node-validation")
           (node_IsUnscheduled ctx)))).

(** ** uninstall *)

Record UninstallCommand := { uc_skipPhases : list string; uc_force : bool }.

(** [cleanup.Force.Cleanup] (internal/cleanup). *)
Definition cleanupDirs : list string := ["/var/lib/cni"; "/etc/cni/net.d"].
Definition Force_Cleanup (rootDir : string) : M Host unit :=
  for_each (λ dir,
    map_err (EWrap ("removing directory " +:+ dir))
      (os_RemoveAll (path_Join [rootDir; TrimPrefix dir "/"]))) cleanupDirs.

(** Everything up to the flow; [None]: already uninstalled. *)
Definition uninstall_prepare (ctx : Ctx) (c : UninstallCommand) : M Host (option Uninstaller) :=
  must_be_root;;
  r ← try GetInstalledArtifacts;
  match r with
  | Err e => if os_IsNotExist e then mret None else throw e
  | Ok installed =>
      daemonManager ← NewDaemonManager;
      check_running_kubelet ctx (uc_skipPhases c) daemonManager installed;;
      packageManager ← pm_New (Containerd installed);
      mret (Some {| un_Artifacts := installed; un_DaemonManager := daemonManager;
                    un_PackageManager := packageManager; CNIUninstall := cni_Uninstall;
                    LoadDefaultConfig := LoadAwsConfig |})
  end.

Definition Uninstall_Run (ctx : Ctx) (c : UninstallCommand) : M Host unit :=
  u ← uninstall_prepare ctx c;
  match u with
  | None => mret tt
  | Some uninstaller =>
      Uninstaller_Run uninstaller;;
      when (uc_force c) (map_err (EWrap "cleaning up additional directories") (Force_Cleanup "/"))
  end.

(** ** upgrade *)

Definition initNodePreflightCheck : string := "init-validation".

Record UpgradeCommand := {
  upc_configSource : string;
  upc_skipPhases : list string;
  upc_kubernetesVersion : string;
  upc_manifestOverride : string;
  upc_privateMode : bool;
  upc_timeout : Z;
}.

Definition upgrade_prepare (ctx : Ctx) (c : UpgradeCommand) : M Host (option Upgrader) :=
  must_be_root;;
  when (String.eqb (upc_configSource c) "")
    (ShowHelpAndExit "--config-source is a required flag. The format is a URI with supported schemes: [file, imds]. For example on hybrid nodes --config-source file://nodeConfig.yaml");;
  private_mode_needs_manifest (upc_privateMode c) (upc_manifestOverride c);;
  r ← try GetInstalledArtifacts;
  match r with
  | Err e => if os_IsNotExist e then mret None else throw e
  | Ok installed =>
      when (negb (slices_Contains (upc_skipPhases c) initNodePreflightCheck))
        (map_err (λ e, ENew ("node not initialized. Please use nodeadm init command to bootstrap a node. err: " +:+ error_text e))
           (node_IsInitialized ctx));;
      nodeProvider ← NewNodeProvider (upc_configSource c) (upc_skipPhases c);
      PopulateNodeConfigDefaults nodeProvider;;
      ValidateConfig nodeProvider;;
      nodeConfig ← gets (GetNodeConfig nodeProvider);
      credsProvider ← of_result (GetCredentialProviderFromNodeConfig nodeConfig);
      let region := cluster_Region (Cluster (Spec nodeConfig)) in
      installedCredsProvider ← of_result (GetCredentialProviderFromInstalledArtifacts installed);
      when (negb (String.eqb installedCredsProvider credsProvider))
        (throw (ENew "upgrade does not support changing credential providers. Please uninstall and install with new credential provider"));;
      awsSource ← get_source (upc_manifestOverride c) (upc_kubernetesVersion c) region;
      daemonManager ← NewDaemonManager;
      check_running_kubelet ctx (upc_skipPhases c) daemonManager installed;;
      packageManager ←
        if upc_privateMode c then mret None
        else pm ← pm_New (Containerd installed); mret (Some pm);
      mret (Some {| up_NodeProvider := nodeProvider; up_AwsSource := awsSource;
                    up_PackageManager := packageManager; up_CredentialProvider := credsProvider;
                    up_Artifacts := installed; up_SkipPhases := upc_skipPhases c;
                    up_PrivateMode := upc_privateMode c |})
  end.

Definition Upgrade_Run (ctx : Ctx) (c : UpgradeCommand) : M Host unit :=
  u ← upgrade_prepare ctx c;
  match u with None => mret tt | Some upgrader => Upgrader_Run upgrader end.

(** ** init *)

Definition installValidation : string := "install-validation".
Definition cniPortCheckValidation : string := "cni-validation".
Definition calicoVxLanPort : string := "4789".
Definition ciliumVxLanPort : string := "8472".
Definition vxLanProtocol : string := "udp".

Record InitCommand := {
  initc_configSource : string;
  initc_skipPhases : list string;
  initc_daemons : list string;
  initc_manifestOverride : string;
  initc_privateMode : bool;
}.

Definition validateFirewallOpenPorts : M Host unit :=
  firewallManager ← NewFirewallManager;
  enabled ← IsEnabled firewallManager;
  if negb enabled then mret tt else
  FlushRules firewallManager;;
  ciliumVxlanPortOpen ← IsPortOpen firewallManager ciliumVxLanPort vxLanProtocol;
  calicoVxlanPortOpen ← IsPortOpen firewallManager calicoVxLanPort vxLanProtocol;
  if negb ciliumVxlanPortOpen && negb calicoVxlanPortOpen
  then throw (ENew "both cilium and calico vxlan ports are closed")
  else mret tt.

(** [containerd.ValidateSystemdUnitFile]: a status that is an error, or
    unknown, is the same error. *)
Definition containerd_found (dm : DaemonManager) : M Host unit := λ h,
  match GetDaemonStatus dm ContainerdDaemonName h with
  | ((status, err), h') =>
      if bool_decide (status = DaemonStatusUnknown) || (if err is Some _ then true else false)
      then (Throw (ENew "containerd daemon not found"), h')
      else (Return tt, h')
  end.
Definition ValidateSystemdUnitFile : M Host unit :=
  daemonManager ← NewDaemonManager;
  DaemonReload daemonManager;;
  containerd_found daemonManager.

(** [None]: the components are not installed, and the command ends. *)
Definition init_prepare (c : InitCommand) : M Host (option Initer) :=
  must_be_root;;
  when (String.eqb (initc_configSource c) "")
    (ShowHelpAndExit "--config-source is a required flag. The format is a URI with supported schemes: [file, imds]. For example on hybrid nodes --config-source file://nodeConfig.yaml");;
  private_mode_needs_manifest (initc_privateMode c) (initc_manifestOverride c);;
  installed ←
    if slices_Contains (initc_skipPhases c) installValidation then mret true else
    r ← try GetInstalledArtifacts;
    match r with
    | Err e => if os_IsNotExist e then mret false else throw e
    | Ok _ =>
        map_err (EWrap "a systemd unit file for containerd is required to init the node")
          ValidateSystemdUnitFile;;
        mret true
    end;
  if negb installed then mret None else
  when (negb (slices_Contains (initc_skipPhases c) cniPortCheckValidation))
    (map_err (λ _, ENew "Cilium (8472/udp) or Calico (4789/udp) VxLan ports are not open on the host. If you are not using VxLan, this validation can by bypassed with --skip cni-validation")
       validateFirewallOpenPorts);;
  nodeProvider ← NewNodeProvider (initc_configSource c) (initc_skipPhases c);
  mret (Some {| init_NodeProvider := nodeProvider; init_SkipPhases := initc_skipPhases c;
                ManifestOverride := initc_manifestOverride c |}).

Definition Init_Run (c : InitCommand) : M Host unit :=
  i ← init_prepare c;
  match i with None => mret tt | Some initer => Initer_Run initer end.
End Commands.
