(* ===== verification/CommandProps.v ===== *)
(** * What the commands check before they change a node

    A flow is only entered after the command's checks, and until then
    nothing on the host is touched. *)

From S2P Require Import Prelude GoStrings Host HttpFile Semver Retry Artifact Tracker Installers PackageManager Aws Daemon Ssm Api Node Flows FlowProps Commands.
#[local] Open Scope Z_scope.

(** Reading files, downloading, and calling systemd or a service. *)
Definition harmless (ev : event) : Prop :=
  match ev with
  | EvRead _ | EvStat _ | EvGet _ | EvDaemon _ _ | EvCall _ => True
  | EvRemoveAll _ | EvRemove _ | EvMkdirAll _ _ | EvCreate _ _ | EvWrite _ _ | EvRun _ _ => False
  end.

(** [h'] was reached from [h] by harmless calls only. *)
Definition untouched (h h' : Host) : Prop :=
  ∃ evs, journal h' = journal h ++ evs ∧ Forall harmless evs.

Lemma untouched_refl h : untouched h h.
Proof. exists []. by rewrite app_nil_r. Qed.
Lemma untouched_trans h1 h2 h3 : untouched h1 h2 → untouched h2 h3 → untouched h1 h3.
Proof.
  intros (e1 & J1 & F1) (e2 & J2 & F2). exists (e1 ++ e2).
  rewrite J2, J1, app_assoc. split; [done|by apply Forall_app_2].
Qed.

Section Gates.
Context `{Env} `{Semver} `{TrackerYaml} `{Runtime} `{BackoffLoop} `{Cli}.

(** What the commands get from elsewhere only makes harmless calls. *)
Record quiet_cli := {
  quiet_root : journaled harmless IsRunningAsRoot;
  quiet_dm : journaled harmless NewDaemonManager;
  quiet_status h dm h1 name h2 r h3 :
    NewDaemonManager h = (Return dm, h1) → GetDaemonStatus dm name h2 = (r, h3) → untouched h2 h3;
  quiet_kube env : journaled harmless (KubeClientFromKubeConfig env);
  quiet_client env h client h1 :
    KubeClientFromKubeConfig env h = (Return client, h1) →
    (∀ name ctx h a h', get_node client name ctx h = (a, h') → untouched h h') ∧
    (∀ sel ctx h a h', list_pods client sel ctx h = (a, h') → untouched h h');
  quiet_provider src skip : journaled harmless (NewNodeProvider src skip);
  quiet_config src skip h np h1 :
    NewNodeProvider src skip h = (Return np, h1) →
    journaled harmless (PopulateNodeConfigDefaults np) ∧ journaled harmless (ValidateConfig np);
}.

(** [journaled_bind] that remembers what the first program returned. *)
Lemma journaled_bind' {A B} P (m : M Host A) (k : A → M Host B) :
  journaled P m → (∀ h a h', m h = (Return a, h') → journaled P (k a)) → journaled P (m ≫= k).
Proof.
  intros Hm Hk h o h' E. cbv [mbind M_bind] in E.
  destruct (m h) as [[a|e|] h1] eqn:Em; destruct (Hm _ _ _ Em) as (e1 & J1 & F1).
  - destruct (Hk _ _ _ Em _ _ _ E) as (e2 & J2 & F2). exists (e1 ++ e2).
    rewrite J2, J1, app_assoc. split; [done|by apply Forall_app_2].
  - injection E as <- <-. eauto.
  - injection E as <- <-. eauto.
Qed.

Lemma fetch_quiet {O} ctx (get : Ctx → Host → (O * option error) * Host) zero :
  (∀ ctx h a h', get ctx h = (a, h') → untouched h h') →
  journaled harmless (fetch (GetRetry ctx get zero)).
Proof.
  intros Hg h o h' E. unfold fetch in E.
  destruct (GetRetry ctx get zero h) as [r [h1 obj]] eqn:Er.
  apply (GetRetry_preserves untouched) in Er;
    [|apply untouched_refl|apply untouched_trans|exact Hg].
  destruct r; by injection E as <- <-.
Qed.

Hypothesis HQ : quiet_cli.

Lemma root_quiet : journaled harmless must_be_root.
Proof. unfold must_be_root. host_tac. apply quiet_root, HQ. Qed.

Lemma BuildKubeClient_quiet : journaled harmless (BuildKubeClient KubeClientFromKubeConfig).
Proof. unfold BuildKubeClient, file_Exists. host_tac; [done|apply quiet_kube, HQ]. Qed.

Lemma BuildKubeClient_client h client h1 :
  BuildKubeClient KubeClientFromKubeConfig h = (Return client, h1) →
  (∀ name ctx h a h', get_node client name ctx h = (a, h') → untouched h h') ∧
  (∀ sel ctx h a h', list_pods client sel ctx h = (a, h') → untouched h h').
Proof.
  unfold BuildKubeClient. intros E. apply bind_Return in E as (c & h2 & _ & E).
  by eapply quiet_client.
Qed.

Lemma GetNodeName_quiet : journaled harmless (GetNodeName ProviderID_of_yaml).
Proof. unfold GetNodeName. by host_tac. Qed.

Lemma getCurrentNode_quiet ctx :
  journaled harmless (getCurrentNode ProviderID_of_yaml KubeClientFromKubeConfig ctx).
Proof.
  unfold getCurrentNode. apply journaled_bind; [apply GetNodeName_quiet|]. intros name.
  apply journaled_bind'; [apply BuildKubeClient_quiet|]. intros h client h' E.
  apply fetch_quiet. intros c h2 a h3 Hg. apply BuildKubeClient_client in E as [Hn _].
  by eapply Hn.
Qed.

Lemma static_names_quiet l : journaled harmless (static_names ObjectMeta_of_yaml l).
Proof. induction l as [|f l IH]; cbn; by host_tac. Qed.

Lemma node_IsDrained_quiet ctx : journaled harmless (node_IsDrained ctx).
Proof.
  unfold node_IsDrained, IsDrained. apply journaled_bind; [apply journaled_map_err, GetNodeName_quiet|].
  intros name. apply journaled_bind'; [apply journaled_map_err, BuildKubeClient_quiet|].
  intros h client h' E. apply map_err_Return in E. apply journaled_bind.
  - apply journaled_map_err, journaled_map_err.
    apply (fetch_quiet _ (list_pods client ("spec.nodeName=" +:+ name))).
    intros c h2 a h3 Hg. apply BuildKubeClient_client in E as [_ Hl]. by eapply Hl.
  - intros pods. unfold isDrained, staticPodsFilter, getStaticPodsOnNode, os_ReadDir.
    host_tac; try done. apply static_names_quiet.
Qed.

Lemma node_IsUnscheduled_quiet ctx : journaled harmless (node_IsUnscheduled ctx).
Proof.
  unfold node_IsUnscheduled, IsUnscheduled. host_tac. apply getCurrentNode_quiet.
Qed.
Lemma node_IsInitialized_quiet ctx : journaled harmless (node_IsInitialized ctx).
Proof.
  unfold node_IsInitialized, IsInitialized. host_tac. apply getCurrentNode_quiet.
Qed.

Lemma check_running_kubelet_quiet ctx skip h dm h1 installed :
  NewDaemonManager h = (Return dm, h1) →
  journaled harmless (check_running_kubelet ctx skip dm installed).
Proof.
  intros Hdm. unfold check_running_kubelet. host_tac;
    [|apply node_IsDrained_quiet|apply node_IsUnscheduled_quiet].
  intros h2 o h3 E. unfold daemon_status in E.
  destruct (GetDaemonStatus dm _ h2) as [[st err] h4] eqn:Es.
  apply (quiet_status HQ _ _ _ _ _ _ _ Hdm) in Es. destruct err; by injection E as <- <-.
Qed.

(** What let the command past the check of a running kubelet. *)
Definition may_touch (ctx : Ctx) (skip : list string) (dm : DaemonManager)
    (installed : InstalledArtifacts) : Prop :=
  Kubelet installed = true →
  ∃ h status h1, GetDaemonStatus dm KubeletDaemonName h = ((status, None), h1) ∧
    (status = DaemonStatusRunning →
      ("pod-validation" ∈ skip ∨ ∃ h2 h3, node_IsDrained ctx h2 = (Return true, h3)) ∧
      ("node-validation" ∈ skip ∨ ∃ h2 h3, node_IsUnscheduled ctx h2 = (Return tt, h3))).

Lemma check_running_kubelet_passed ctx skip dm installed h h' :
  check_running_kubelet ctx skip dm installed h = (Return tt, h') →
  may_touch ctx skip dm installed.
Proof.
  intros E Hk. unfold check_running_kubelet in E. rewrite Hk in E. cbn [when] in E.
  apply bind_Return in E as (status & h1 & Es & E). unfold daemon_status in Es.
  destruct (GetDaemonStatus dm _ h) as [[st [e|]] h2] eqn:Eg; [done|].
  injection Es as -> ->. exists h, status, h1. split; [done|]. intros ->.
  rewrite bool_decide_eq_true_2 in E by done. cbn [when] in E.
  apply bind_Return in E as ([] & h2 & Ed & Eu). split.
  - destruct (slices_Contains skip skipPodPreflightCheck) eqn:Hs.
    + left. by apply slices_Contains_spec.
    + right. cbn [negb when] in Ed. apply bind_Return in Ed as (d & h3 & Ed & Er).
      apply map_err_Return in Ed. destruct d; [eauto|done].
  - destruct (slices_Contains skip skipNodePreflightCheck) eqn:Hs.
    + left. by apply slices_Contains_spec.
    + right. cbn [negb when] in Eu. apply map_err_Return in Eu. eauto.
Qed.

Lemma GetInstalledArtifacts_quiet : journaled harmless GetInstalledArtifacts.
Proof. unfold GetInstalledArtifacts. by host_tac. Qed.

Lemma LookPath_quiet name : journaled harmless (LookPath name).
Proof. apply (journaled_pure _ (λ h, Return _)). Qed.
Lemma pm_New_quiet s : journaled harmless (pm_New s).
Proof.
  unfold pm_New, getOsPackageManager. cbn [first_installed]. host_tac; apply LookPath_quiet.
Qed.

Lemma uninstall_prepare_quiet ctx c : journaled harmless (uninstall_prepare ctx c).
Proof.
  unfold uninstall_prepare. apply journaled_bind; [apply root_quiet|intros _].
  apply journaled_bind; [apply journaled_try, GetInstalledArtifacts_quiet|].
  intros [installed|e]; [|by host_tac].
  apply journaled_bind'; [apply quiet_dm, HQ|]. intros h dm h1 Hdm.
  apply journaled_bind; [by eapply check_running_kubelet_quiet|intros _].
  host_tac. apply pm_New_quiet.
Qed.

Lemma GetHttpFile_quiet uri : journaled harmless (GetHttpFile uri).
Proof.
  unfold GetHttpFile. apply journaled_bind; [|intros [d err]; by host_tac].
  intros h o h' E. apply GetHttpFileReader_spec in E as (_ & _ & k & _ & J & _).
  eexists. split; [exact J|]. by apply Forall_replicate.
Qed.

Lemma get_source_quiet uri version region : journaled harmless (get_source uri version region).
Proof.
  unfold get_source, GetLatestSource, GetLatestSourceFromManifest, getReleaseManifest,
    getReleaseManifestFromURI, parse_manifest. host_tac; try done; apply GetHttpFile_quiet.
Qed.

Lemma journaled_mret_if {A} P (b : bool) (m : M Host A) (a : A) :
  journaled P m → journaled P (if b then mret a else m).
Proof. intros Hm. destruct b; [apply (journaled_pure _ (λ _, Return a))|done]. Qed.

Lemma upgrade_prepare_quiet ctx c : journaled harmless (upgrade_prepare ctx c).
Proof.
  unfold upgrade_prepare, ShowHelpAndExit, private_mode_needs_manifest.
  apply journaled_bind; [apply root_quiet|intros _].
  apply journaled_bind; [by host_tac|intros _]. apply journaled_bind; [by host_tac|intros _].
  apply journaled_bind; [apply journaled_try, GetInstalledArtifacts_quiet|].
  intros [installed|e]; [|by host_tac].
  apply journaled_bind; [host_tac; apply node_IsInitialized_quiet|intros _].
  apply journaled_bind'; [apply quiet_provider, HQ|]. intros h np h1 Hnp.
  destruct (quiet_config HQ _ _ _ _ _ Hnp) as [Hpop Hval].
  apply journaled_bind; [done|intros _]. apply journaled_bind; [done|intros _].
  apply journaled_bind; [apply (journaled_pure _ (λ h, Return _))|intros cfg].
  apply journaled_bind; [by host_tac|intros provider]. cbv zeta.
  apply journaled_bind; [by host_tac|intros provider']. apply journaled_bind; [by host_tac|intros _].
  apply journaled_bind; [apply get_source_quiet|intros src].
  apply journaled_bind'; [apply quiet_dm, HQ|]. intros h2 dm h3 Hdm.
  apply journaled_bind; [by eapply check_running_kubelet_quiet|intros _].
  apply journaled_bind; [|intros pm; by host_tac]. apply journaled_mret_if. host_tac.
  apply pm_New_quiet.
Qed.

Lemma prepare_gate {A} (prepare : M Host (option A)) (flow : A → M Host unit) h o h' :
  journaled harmless prepare →
  (u ← prepare; match u with None => mret tt | Some u => flow u end) h = (o, h') →
  untouched h h' ∨
  ∃ u h1, untouched h h1 ∧ prepare h = (Return (Some u), h1) ∧ flow u h1 = (o, h').
Proof.
  intros Hp E. cbv [mbind M_bind] in E.
  destruct (prepare h) as [[[u|]|e|] h1] eqn:Ep; pose proof (Hp _ _ _ Ep) as Hu.
  - right. exists u, h1. done.
  - injection E as <- <-. by left.
  - injection E as <- <-. by left.
  - injection E as <- <-. by left.
Qed.

(** C1. [nodeadm uninstall] either ends having touched nothing, or hands over
    to the uninstall flow having touched nothing so far.  It hands over
    only with the artifacts the tracker file lists and, when kubelet is
    among them and running, only if the node was seen drained and
    unschedulable, each unless the user skipped that very check. *)
Theorem uninstall_gate ctx c h o h' :
  Uninstall_Run ctx c h = (o, h') →
  untouched h h' ∨
  ∃ u h1, untouched h h1 ∧
    (∃ h2 h3, GetInstalledArtifacts h2 = (Return (un_Artifacts u), h3)) ∧
    may_touch ctx (uc_skipPhases c) (un_DaemonManager u) (un_Artifacts u) ∧
    (Uninstaller_Run u;;
     when (uc_force c) (map_err (EWrap "cleaning up additional directories") (Force_Cleanup "/")))
      h1 = (o, h').
Proof using HQ.
  intros E. apply prepare_gate in E as [E|(u & h1 & Hu & Ep & E)];
    [by left| |apply uninstall_prepare_quiet].
  right. exists u, h1. split; [done|]. unfold uninstall_prepare in Ep.
  apply bind_Return in Ep as (_ & h2 & _ & Ep). apply bind_Return in Ep as (r & h3 & Er & Ep).
  destruct r as [installed|e].
  2: { destruct (os_IsNotExist e); [by injection Ep|done]. }
  apply bind_Return in Ep as (dm & h4 & _ & Ep).
  apply bind_Return in Ep as ([] & h5 & Ec & Ep).
  apply bind_Return in Ep as (pm & h6 & _ & Ep). injection Ep as <- <-.
  cbn [un_Artifacts un_DaemonManager]. split; [|split; [|done]].
  - exists h2, h3. unfold try in Er.
    destruct (GetInstalledArtifacts h2) as [[a|e|] h7]; by simplify_eq.
  - by eapply check_running_kubelet_passed.
Qed.

(** C2. [nodeadm upgrade] is guarded the same way: it touches nothing before
    handing over to the upgrade flow, and hands over only for a node that
    is registered (unless skipped), whose kubelet, when running, was seen
    drained and unschedulable (unless skipped), with the release source of
    the requested version, and with the credential provider that is
    already installed: a configuration that names the other one is refused.
    The flow gets a package manager exactly outside private mode. *)
Theorem upgrade_gate ctx c h o h' :
  Upgrade_Run ctx c h = (o, h') →
  untouched h h' ∨
  ∃ u h1 dm, untouched h h1 ∧ Upgrader_Run u h1 = (o, h') ∧
    (∃ h2 h3, GetInstalledArtifacts h2 = (Return (up_Artifacts u), h3)) ∧
    ("init-validation" ∈ upc_skipPhases c ∨ ∃ h2 h3, node_IsInitialized ctx h2 = (Return tt, h3)) ∧
    GetCredentialProviderFromInstalledArtifacts (up_Artifacts u) = Ok (up_CredentialProvider u) ∧
    (∃ h2, GetCredentialProviderFromNodeConfig (GetNodeConfig (up_NodeProvider u) h2) =
       Ok (up_CredentialProvider u) ∧
       ∃ h3 h4, get_source (upc_manifestOverride c) (upc_kubernetesVersion c)
         (cluster_Region (Cluster (Spec (GetNodeConfig (up_NodeProvider u) h2)))) h3 =
           (Return (up_AwsSource u), h4)) ∧
    may_touch ctx (upc_skipPhases c) dm (up_Artifacts u) ∧
    (up_PackageManager u = None ↔ upc_privateMode c = true) ∧
    up_PrivateMode u = upc_privateMode c.
Proof using HQ.
  intros E. apply prepare_gate in E as [E|(u & h1 & Hu & Ep & E)];
    [by left| |apply upgrade_prepare_quiet].
  right. exists u, h1. unfold upgrade_prepare in Ep. do 3 apply bind_Return in Ep as (_ & ? & _ & Ep).
  apply bind_Return in Ep as (r & h3 & Er & Ep).
  destruct r as [installed|e]; [|destruct (os_IsNotExist e); by inversion Ep].
  apply bind_Return in Ep as ([] & h4 & Ei & Ep).
  apply bind_Return in Ep as (np & h5 & _ & Ep). do 2 apply bind_Return in Ep as (_ & ? & _ & Ep).
  apply bind_Return in Ep as (cfg & h6 & [= <- <-] & Ep).
  apply bind_Return in Ep as (provider & h7 & Hp & Ep). cbv zeta in Ep.
  apply bind_Return in Ep as (provider' & h8 & Hp' & Ep).
  apply bind_Return in Ep as ([] & h9 & Hsame & Ep).
  apply bind_Return in Ep as (src & h10 & Hsrc & Ep).
  apply bind_Return in Ep as (dm & h11 & _ & Ep). apply bind_Return in Ep as ([] & h12 & Hc & Ep).
  apply bind_Return in Ep as (pm & h13 & Hpm & Ep). injection Ep as <- <-.
  exists dm. cbn [up_Artifacts up_CredentialProvider up_NodeProvider up_AwsSource
    up_PackageManager up_PrivateMode]. unfold of_result in Hp, Hp'.
  destruct (GetCredentialProviderFromNodeConfig _) as [p|] eqn:Hcfg; [|done]. injection Hp as -> <-.
  destruct (GetCredentialProviderFromInstalledArtifacts installed) as [p'|]; [|done].
  injection Hp' as -> <-.
  destruct (String.eqb_spec provider' provider) as [->|]; [|done]. injection Hsame as <-.
  split; [done|]. split; [done|]. split; [|split; [|split; [done|split; [|split; [|split; [|done]]]]]].
  - unfold try in Er. match type of Er with context [GetInstalledArtifacts ?s] => exists s, h3 end.
    destruct (GetInstalledArtifacts _) as [[a|e|] h14]; by simplify_eq.
  - destruct (slices_Contains (upc_skipPhases c) initNodePreflightCheck) eqn:Hs.
    + left. by apply slices_Contains_spec.
    + right. cbn [negb when] in Ei. apply map_err_Return in Ei. eauto.
  - eauto.
  - by eapply check_running_kubelet_passed.
  - destruct (upc_privateMode c).
    + by injection Hpm as <- <-.
    + apply bind_Return in Hpm as (p & h14 & _ & [= <- <-]). done.
Qed.
End Gates.

(** ** Concrete runs *)

Example cordoned_cli : Cli := {|
  IsRunningAsRoot := mret true;
  NewDaemonManager := mret quiet_manager;
  NewNodeProvider _ _ := throw (ENew "no configuration");
  NewFirewallManager := mret {| IsEnabled := mret false; FlushRules := mret tt;
                                IsPortOpen _ _ := mret false |};
  LoadAwsConfig _ := throw (ENew "no credentials");
  OsName _ := "amzn";
  KubeClientFromKubeConfig _ := mret
    {| get_node _ _ h := (({| Unschedulable := true |}, None), h);
       list_pods _ _ h := (([], None), h) |};
  ObjectMeta_of_yaml s := Ok s;
  ProviderID_of_yaml s := Ok (Some s) |}.

Lemma cordoned_quiet : quiet_cli (H4 := cordoned_cli).
Proof.
  split.
  - cbn. by host_tac.
  - cbn. by host_tac.
  - intros h dm h1 name h2 r h3 [= <- <-] [= <- <-]. apply untouched_refl.
  - intros env. cbn. by host_tac.
  - intros env h client h1 [= <- <-]. split; intros ? ? ? ? ? [= <- <-]; apply untouched_refl.
  - intros src skip. cbn. by host_tac.
  - by intros src skip h np h1 E.
Qed.

Example installed_host : Host := {|
  fs := <["/opt/nodeadm/tracker" := File "none,00000100" 420]>
        (<[kubelet_config_path := File "eks-hybrid:///us-west-2/prod/mi-0123" 420]> ∅);
  tracker := no_artifacts; journal := []; provider := no_provider |}.

(** A host with yum. *)
Example yum_host : Env := {|
  fault _ _ := None; run_output _ _ _ := ("", None); run_effect h _ _ := fs h;
  http_do _ _ := Err (ENew "offline"); bad_url _ := None;
  look_path _ n := if String.eqb n "yum" then Some "/usr/bin/yum" else None; ticks _ := 0%nat; read_part _ _ := "" |}.

Lemma untouched_harmless h h' :
  journal h = [] → untouched h h' →
  forallb (λ ev, match ev with EvRemoveAll _ | EvMkdirAll _ _ => false | _ => true end) (journal h')
    = true.
Proof.
  intros Hj (evs & -> & F). rewrite Hj. cbn. induction F as [|ev evs Hev _ IH]; [done|].
  cbn. rewrite IH. by destruct ev.
Qed.

Lemma uninstall_gate_witness :
  let ctx := {| ctx_base := 0; ctx_timeouts := [] |} in
  let r := Uninstall_Run (H := yum_host) (H2 := plain_runtime) (H4 := cordoned_cli) ctx
             {| uc_skipPhases := []; uc_force := true |} installed_host in
  r.1 = Return tt ∧
  ∃ u h1, untouched installed_host h1 ∧
    may_touch (H := yum_host) (H4 := cordoned_cli) ctx [] (un_DaemonManager u) (un_Artifacts u).
Proof.
  cbv zeta. match goal with |- ?r.1 = _ ∧ _ => destruct r as [o h'] eqn:E end.
  assert (o = Return tt) as ->.
  { change o with (o, h').1. rewrite <- E. vm_compute. reflexivity. }
  split; [reflexivity|].
  destruct (uninstall_gate (H := yum_host) (H2 := plain_runtime) (H4 := cordoned_cli)
    cordoned_quiet _ _ _ _ _ E) as [Hl|(u & h1 & Hu & _ & Hm & _)].
  - exfalso. apply untouched_harmless in Hl; [|reflexivity].
    change h' with (Return tt, h').2 in Hl. rewrite <- E in Hl. vm_compute in Hl. discriminate Hl.
  - exists u, h1. split; [exact Hu|exact Hm].
Defined.

Example ssm_cli : Cli := {|
  IsRunningAsRoot := mret true;
  NewDaemonManager := mret quiet_manager;
  NewNodeProvider _ _ := mret
    {| GetNodeConfig _ := hybrid_node; PopulateNodeConfigDefaults := mret tt;
       ValidateConfig := mret tt; PreProcessDaemon := mret tt; GetDaemons := mret [];
       GetAspects := mret []; Validate := mret tt; np_Cleanup := mret tt; Enrich _ := mret tt;
       ConfigureAws := mret tt |};
  NewFirewallManager := mret {| IsEnabled := mret false; FlushRules := mret tt;
                                IsPortOpen _ _ := mret false |};
  LoadAwsConfig _ := throw (ENew "no credentials");
  OsName _ := "amzn";
  KubeClientFromKubeConfig _ := mret
    {| get_node _ _ h := (({| Unschedulable := true |}, None), h);
       list_pods _ _ h := (([], None), h) |};
  ObjectMeta_of_yaml s := Ok s;
  ProviderID_of_yaml s := Ok (Some s) |}.

Lemma ssm_cli_quiet : quiet_cli (H4 := ssm_cli).
Proof.
  split.
  - cbn. by host_tac.
  - cbn. by host_tac.
  - intros h dm h1 name h2 r h3 [= <- <-] [= <- <-]. apply untouched_refl.
  - intros env. cbn. by host_tac.
  - intros env h client h1 [= <- <-]. split; intros ? ? ? ? ? [= <- <-]; apply untouched_refl.
  - intros src skip. cbn. by host_tac.
  - intros src skip h np h1 [= <- <-]. split; cbn; by host_tac.
Qed.

Example ssm_host : Host := {|
  fs := <["/opt/nodeadm/tracker" := File "none,00000110" 420]>
        (<["/manifest.yaml" := File "manifest" 420]>
        (<[kubelet_config_path := File "eks-hybrid:///us-west-2/prod/mi-0123" 420]> ∅));
  tracker := no_artifacts; journal := []; provider := no_provider |}.

Lemma upgrade_gate_witness :
  let ctx := {| ctx_base := 0; ctx_timeouts := [] |} in
  let c := {| upc_configSource := "file:///c.yaml"; upc_skipPhases := [];
              upc_kubernetesVersion := "1.30"; upc_manifestOverride := "file:///manifest.yaml";
              upc_privateMode := true; upc_timeout := 1200000000000 |} in
  ∃ u h1, untouched ssm_host h1 ∧
    GetCredentialProviderFromInstalledArtifacts (up_Artifacts u) = Ok (up_CredentialProvider u) ∧
    Upgrader_Run (H := yum_host) (H2 := plain_runtime) u h1 =
      Upgrade_Run (H := yum_host) (H2 := plain_runtime) (H4 := ssm_cli) ctx c ssm_host.
Proof.
  cbv zeta. match goal with |- ∃ u h1, _ ∧ _ ∧ _ = ?r => destruct r as [o h'] eqn:E end.
  destruct (upgrade_gate (H := yum_host) (H2 := plain_runtime) (H4 := ssm_cli)
    ssm_cli_quiet _ _ _ _ _ E)
    as [Hl|(u & h1 & dm & Hu & Hrun & _ & _ & Hcred & _)].
  - exfalso. apply untouched_harmless in Hl; [|reflexivity].
    change h' with (o, h').2 in Hl. rewrite <- E in Hl. vm_compute in Hl. discriminate Hl.
  - exists u, h1. split; [exact Hu|]. split; [exact Hcred|exact Hrun].
Defined.
