(* ===== verification/Validators.v ===== *)
(** * System validators (internal/system: ntp.go, ulimit_validator.go;
      internal/certificate and internal/kubernetes/cert.go)

    Every validator of the code announces itself to the informer, runs, and
    reports through a deferred [informer.Done] the error it returns; that
    shared frame is [informed].  What the validators here decide is modelled
    with their errors and the remediation they attach. *)

From S2P Require Import Prelude GoStrings Host Validation.
#[local] Open Scope Z_scope.

(** ** The frame of a validator

    [informer.Starting(ctx, name, msg)], then the body, with
    [defer func() { informer.Done(ctx, name, err) }()]: the deferred call
    runs also when the body panics, with the error still nil. *)
Definition deferred_done {W} (i : Informer W) (name : string) (body : M W unit) : M W unit :=
  λ w, match body w with
       | (Return _, w') => Done i name None w'
       | (Throw e, w') =>
           match Done i name (Some e) w' with
           | (Return _, w'') => (Throw e, w'')
           | o => o
           end
       | (Panic, w') => (Panic, (Done i name None w').2)
       end.
Definition informed {W} (i : Informer W) (name msg : string) (body : M W unit) : M W unit :=
  Starting i name msg;; deferred_done i name body.

(** [informed] around a validator that never fails to inform: the error the
    informer gets is the error the validator returns. *)
Lemma informed_spec {W} (i : Informer W) name msg body w w1 :
  Starting i name msg w = (Return tt, w1) →
  (∀ e w, (Done i name e w).1 = Return tt) →
  let '(o, w2) := body w1 in
  let err := match o with Throw e => Some e | _ => None end in
  informed i name msg body w =
    (match o with Return _ => Return tt | Throw e => Throw e | Panic => Panic end,
     (Done i name err w2).2).
Proof.
  intros HS HD. unfold informed, deferred_done. cbv [mbind M_bind]. rewrite HS.
  destruct (body w1) as [[[]|e|] w2]; [| |done].
  - specialize (HD None w2). destruct (Done i name None w2) as [o w3]. cbn in *. by subst.
  - specialize (HD (Some e) w2). destruct (Done i name (Some e) w2) as [o w3].
    cbn in *. by subst.
Qed.

Lemma informed_Return {W} (i : Informer W) name msg body w w' :
  informed i name msg body w = (Return tt, w') → ∃ w1 w2, body w1 = (Return tt, w2).
Proof.
  unfold informed, deferred_done. intros E. apply bind_Return in E as ([] & w1 & _ & E).
  destruct (body w1) as [[[]|e|] w2] eqn:EB; [by exists w1, w2| |done].
  by destruct (Done i name (Some e) w2) as [[]].
Qed.

(** ** NTP (ntp.go) *)

Section Validators.
Context `{Env}.

Definition localhostReferenceIDs : list string :=
  ["(00000000)"; "(0.0.0.0)"; "(127.0.0.1)"].

Definition commandExists (command : string) : M Host bool :=
  gets (λ h, match look_path h command with Some _ => true | None => false end).

(** [cmd.CombinedOutput()] with the output kept when the command fails. *)
Definition CombinedOutput (cmd : string) (args : list string)
    : M Host (string * option error) :=
  λ h, let '(r, h') := run_raw cmd args h in (Return r, h').

(** The two loops over the output lines, as what they look for. *)
Definition has_reference (line : string) : bool :=
  let line := TrimSpace line in
  Contains line "Reference ID" &&
  match Fields line !! 4%nat with
  | Some id => negb (slices_Contains localhostReferenceIDs id)
  | None => false
  end.
Definition leap_normal (line : string) : bool :=
  let line := TrimSpace line in
  Contains line "Leap status" && Contains line "Normal".
Definition clock_synchronized (line : string) : bool :=
  Contains (TrimSpace line) "System clock synchronized: yes".

(** The pair is [commandFailed] and the error. *)
Definition checkChronyc : M Host (bool * option error) :=
  '(output, err) ← CombinedOutput "chronyc" ["tracking"];
  match err with
  | Some e => mret (true, Some (EWrap ("getting system clock settings from chronyc: " +:+
                                       TrimSpace output +:+ ", error") e))
  | None =>
      let lines := Split "010" output in
      mret (false,
        if negb (existsb has_reference lines) || negb (existsb leap_normal lines)
        then Some (ENew "chronyd not synchronized") else None)
  end.
Definition checkTimedatectl : M Host (bool * option error) :=
  '(output, err) ← CombinedOutput "timedatectl" ["status"];
  match err with
  | Some e => mret (true, Some (EWrap ("getting system clock settings from timedatectl: " +:+
                                       TrimSpace output +:+ ", error") e))
  | None =>
      mret (false, if negb (existsb clock_synchronized (Split "010" output))
                   then Some (ENew "System clock not synchronized") else None)
  end.

(** One block of [Validate]: a program that is not installed is skipped. *)
Definition ntp_check (command : string) (check : M Host (bool * option error))
    (wrap : error → error) : M Host unit :=
  exists_ ← commandExists command;
  if exists_ : bool then
    '(commandFailed, err) ← check;
    match err with
    | Some e => throw (if commandFailed : bool then e else wrap e)
    | None => mret tt
    end
  else mret tt.
Definition NTP_Validate : M Host unit :=
  ntp_check "chronyc" checkChronyc
    (λ e, EChronyc (EWrap "validating NTP synchronization via chronyc" e));;
  ntp_check "timedatectl" checkTimedatectl
    (λ e, ETimedatectl (EWrap "validating NTP synchronization via timedatectl" e)).

(** The type switch sees [err] itself; for the two synchronization errors
    the context that was wrapped around it is dropped. *)
Definition addNTPRemediation (err : error) : error :=
  match err with
  | EChronyc _ => WithRemediation err
      "Ensure the hybrid node is synchronized with NTP through chronyd services. Verify NTP server configuration in /etc/chrony.conf. If using airgapped networks, ensure chrony is configured with local NTP sources and adjusted manually."
  | ETimedatectl _ => WithRemediation err
      "Ensure the hybrid node is synchronized with NTP by running `timedatectl set-ntp true`."
  | _ => EWrap "validating NTP synchronization" err
  end.

Definition NTPValidator_Run (i : Informer Host) : M Host unit :=
  informed i "ntp-sync" "Validating NTP synchronization status"
    (map_err addNTPRemediation NTP_Validate).

(** ** Ulimits (ulimit.go, ulimit_validator.go) *)

Definition ulimitOptions (limitType : string) : string :=
  if String.eqb limitType "nofile" then "-n"
  else if String.eqb limitType "nproc" then "-u" else "".

Definition getUlimit (limitType : string) : M Host Z :=
  '(output, err) ← CombinedOutput "bash" ["-c"; "ulimit " +:+ ulimitOptions limitType];
  match err with
  | Some e => throw (EWrap "failed to execute ulimit command" e)
  | None =>
      let limit := TrimSpace output in
      if String.eqb limit "unlimited" then mret (2 ^ 64 - 1)
      else of_result (wrap_err ("failed to parse ulimit value " +:+ limit) (ParseUint limit 64))
  end.
Definition getUlimits : M Host (Z * Z) :=
  noFileLimit ← map_err (EWrap "failed to get nofile ulimit") (getUlimit "nofile");
  nProcLimit ← map_err (EWrap "failed to get nproc ulimit") (getUlimit "nproc");
  mret (noFileLimit, nProcLimit).

Definition noFileRecommendedLimit : Z := 1024.
Definition nProcRecommendedLimit : Z := 4096.

Definition limit_issue (count limit recommended : Z) (what : string) : string :=
  "        " +:+ Itoa count +:+ ". max " +:+ what +:+ " limit is " +:+ Itoa limit +:+
  ", which is lower than the recommended value of " +:+ Itoa recommended.

Definition checkCriticalLimits (noFileLimit nProcLimit : Z) : list string :=
  let noFile := noFileLimit <? noFileRecommendedLimit in
  let count := if noFile then 1 else 0 in
  (if noFile then [limit_issue 1 noFileLimit noFileRecommendedLimit "open file descriptors"]
   else []) ++
  (if nProcLimit <? nProcRecommendedLimit
   then [limit_issue (count + 1) nProcLimit nProcRecommendedLimit "processes"] else []).

Definition UlimitValidator_Run (i : Informer Host) : M Host unit :=
  informed i "ulimit" "Validating ulimit configuration"
    ('(noFileLimit, nProcLimit) ← map_err (EWrap "unable to read ulimit configuration") getUlimits;
     match checkCriticalLimits noFileLimit nProcLimit with
     | [] => mret tt
     | issues =>
         throw (WithRemediation
           (ENew ("ulimit configuration issues detected: " +:+ Itoa (Z.of_nat (length issues)) +:+
                  " issues found:" +:+ newline +:+ Join issues newline))
           "Consider adjusting the above ulimit values for optimal Kubernetes node operation")
     end).

(** ** The kubelet's certificate (certificate_validator.go, cert.go)

    PEM and X.509 are outside code: decoding a PEM block, parsing it,
    reading the cluster's CA into a pool and verifying against the pool at a
    time.  Times are the seconds of [time.Time]. *)

Record Certificate := { NotBefore : Z; NotAfter : Z; raw_cert : string }.
Context (pem_Decode : string → option string)
        (x509_ParseCertificate : string → result Certificate)
        (AppendCertsFromPEM : string → option (list string))
        (Verify : Certificate → list string → Z → option error)
        (time_Now : Host → Z).

Definition cert_err (kind : cert_error_kind) (msg : string) (cause : option error)
    : M Host unit := throw (ECert kind msg cause).

(** [certificate.Validate]: the validity interval includes both ends. *)
Definition check_cert (ca : string) (cert : Certificate) : M Host unit :=
  now ← gets time_Now;
  if now <? NotBefore cert then
    cert_err CertClockSkewError "server certificate is not yet valid" None
  else if NotAfter cert <? now then
    cert_err CertExpiredError "server certificate has expired" None
  else if String.eqb ca "" then mret tt
  else match AppendCertsFromPEM ca with
       | None => cert_err CertParseCAError "parsing cluster CA certificate" None
       | Some caPool =>
           match Verify cert caPool now with
           | Some e => cert_err CertInvalidCAError
               "certificate is not valid for the current cluster" (Some e)
           | None => mret tt
           end
       end.
Definition certificate_Validate (certPath ca : string) : M Host unit :=
  r ← try (os_Stat certPath);
  match r with
  | Err e => if os_IsNotExist e
             then cert_err CertNotFoundError "no certificate found" (Some e)
             else cert_err CertFileError "checking certificate" (Some e)
  | Ok _ =>
      certData ← map_err (λ e, ECert CertReadError "reading certificate" (Some e))
                   (os_ReadFile certPath);
      match pem_Decode certData with
      | None => cert_err CertInvalidFormatError "parsing certificate" None
      | Some block =>
          match x509_ParseCertificate block with
          | Err e => cert_err CertInvalidFormatError "parsing certificate" (Some e)
          | Ok cert => check_cert ca cert
          end
      end
  end.

(** [errors.As] for a pointer to one of the kinds [ks]. *)
Fixpoint errors_As_cert (ks : cert_error_kind → bool) (e : error) : bool :=
  match e with
  | ECert k _ cause =>
      ks k || match cause with Some c => errors_As_cert ks c | None => false end
  | EWrap _ c | EChronyc c | ETimedatectl c => errors_As_cert ks c
  | EJoin es => existsb (errors_As_cert ks) es
  | _ => false
  end.
Definition IsDateValidationError : error → bool :=
  errors_As_cert (λ k, match k with CertClockSkewError | CertExpiredError => true | _ => false end).
Definition IsNoCertError : error → bool :=
  errors_As_cert (λ k, match k with CertNotFoundError => true | _ => false end).

Definition KubeletCertValidation : string := "kubelet-cert-validation".
Definition AddKubeletRemediation (certPath : string) (err : error) : error :=
  let errWithContext := EWrap "validating kubelet certificate" err in
  match err with
  | ECert (CertNotFoundError | CertFileError | CertReadError) _ _ =>
      WithRemediation errWithContext "Kubelet certificate will be created when the kubelet is able to authenticate with the API server. Check previous authentication remediation advice."
  | ECert CertInvalidFormatError _ _ =>
      WithRemediation errWithContext ("Delete the kubelet server certificate file " +:+ certPath +:+ " and restart kubelet")
  | ECert CertClockSkewError _ _ =>
      WithRemediation errWithContext "Verify the system time is correct and restart the kubelet."
  | ECert CertExpiredError _ _ =>
      WithRemediation errWithContext ("Delete the kubelet server certificate file " +:+ certPath +:+ " and restart kubelet. Validate `serverTLSBootstrap` is true in the kubelet config /etc/kubernetes/kubelet/config.json to automatically rotate the certificate")
  | ECert CertParseCAError _ _ =>
      WithRemediation errWithContext "Ensure the cluster CA certificate is valid"
  | ECert CertInvalidCAError _ _ =>
      WithRemediation errWithContext ("Please remove the kubelet server certificate file " +:+ certPath +:+ " or use " +:+ dquote +:+ "--skip " +:+ KubeletCertValidation +:+ dquote +:+ " if this is expected")
  | _ => errWithContext
  end.

Definition kubeletCurrentCertPath : string := "/var/lib/kubelet/pki/kubelet-server-current.pem".
Record KubeletCertificateValidator := {
  certPath : string;
  cert_cluster : string;
  ignoreDateAndNoCertErrors : bool;
}.
Definition WithCertPath (path : string) (v : KubeletCertificateValidator) : KubeletCertificateValidator :=
  {| certPath := path; cert_cluster := cert_cluster v;
     ignoreDateAndNoCertErrors := ignoreDateAndNoCertErrors v |}.
Definition WithIgnoreDateAndNoCertErrors (ignore : bool) (v : KubeletCertificateValidator)
    : KubeletCertificateValidator :=
  {| certPath := certPath v; cert_cluster := cert_cluster v; ignoreDateAndNoCertErrors := ignore |}.
(** [NewKubeletCertificateValidator]; of the cluster only the CA is read. *)
Definition NewKubeletCertificateValidator (clusterCA : string)
    (opts : list (KubeletCertificateValidator → KubeletCertificateValidator))
    : KubeletCertificateValidator :=
  fold_left (λ v opt, opt v) opts
    {| certPath := kubeletCurrentCertPath; cert_cluster := clusterCA;
       ignoreDateAndNoCertErrors := false |}.

Definition check_kubelet_cert (v : KubeletCertificateValidator) : M Host unit :=
  r ← try (certificate_Validate (certPath v) (cert_cluster v));
  match r with
  | Ok _ => mret tt
  | Err e =>
      if ignoreDateAndNoCertErrors v && (IsDateValidationError e || IsNoCertError e)
      then mret tt
      else throw (AddKubeletRemediation (certPath v) e)
  end.
Definition KubeletCertificateValidator_Run (v : KubeletCertificateValidator)
    (i : Informer Host) : M Host unit :=
  informed i "kubernetes-kubelet-certificate" "Validating kubelet server certificate"
    (check_kubelet_cert v).

(** *** What the certificate check accepts *)

(** An error that is none of this package's, as everything outside returns. *)
Definition foreign (e : error) : Prop := ∀ ks, errors_As_cert ks e = false.

(** The file at [certPath] is there, is read, and holds certificate [cert]
    when the check reaches state [h']. *)
Definition holds_cert (path : string) (h : Host) (cert : Certificate) (h' : Host) : Prop :=
  ∃ data block h1,
    os_Stat path h = (Return tt, h1) ∧ os_ReadFile path h1 = (Return data, h') ∧
    pem_Decode data = Some block ∧ x509_ParseCertificate block = Ok cert.
Definition in_date (cert : Certificate) (h : Host) : Prop :=
  NotBefore cert <= time_Now h <= NotAfter cert.
(** Verified against the cluster's CA, when one is given. *)
Definition trusted (ca : string) (cert : Certificate) (h : Host) : Prop :=
  ca = "" ∨ ∃ pool, AppendCertsFromPEM ca = Some pool ∧ Verify cert pool (time_Now h) = None.

(** The three ways [certificate.Validate] ends for a certificate it read. *)
Lemma check_cert_cases ca cert h :
  ∃ o, check_cert ca cert h = (o, h) ∧
  ((in_date cert h ∧ trusted ca cert h ∧ o = Return tt) ∨
   (¬ in_date cert h ∧ ∃ k m, o = Throw (ECert k m None) ∧
      (k = CertClockSkewError ∨ k = CertExpiredError)) ∨
   (in_date cert h ∧ ¬ trusted ca cert h ∧
      (o = Throw (ECert CertParseCAError "parsing cluster CA certificate" None) ∨
       ∃ pool e, Verify cert pool (time_Now h) = Some e ∧
         o = Throw (ECert CertInvalidCAError
               "certificate is not valid for the current cluster" (Some e))))).
Proof using Type.
  clear pem_Decode x509_ParseCertificate.
  unfold check_cert, gets, cert_err, throw, in_date, trusted. cbv [mbind M_bind mret M_ret].
  destruct (Z.ltb_spec (time_Now h) (NotBefore cert)).
  { eexists. split; [done|]. right; left. split; [lia|eauto]. }
  destruct (Z.ltb_spec (NotAfter cert) (time_Now h)).
  { eexists. split; [done|]. right; left. split; [lia|eauto]. }
  destruct (String.eqb_spec ca "") as [->|Hca]; [eauto 10|].
  destruct (AppendCertsFromPEM ca) as [pool|];
    [destruct (Verify cert pool (time_Now h)) as [e|] eqn:V|]; eexists; (split; [done|]).
  - right; right. split; [lia|]. split; [naive_solver|eauto].
  - left. eauto 10 with lia.
  - right; right. split; [lia|]. split; [naive_solver|eauto].
Qed.

(** Everything outside answers with errors of its own. *)
Record foreign_errors : Prop := {
  foreign_fault : ∀ h ev e f, fault h ev = Some (e, f) → foreign e;
  foreign_parse : ∀ b e, x509_ParseCertificate b = Err e → foreign e;
  foreign_verify : ∀ c pool t e, Verify c pool t = Some e → foreign e;
}.

Lemma sys_foreign ev eff h e h' :
  foreign_errors → (∀ f e, eff f = Err e → foreign e) →
  sys ev eff h = (Throw e, h') → foreign e.
Proof using Type.
  intros HF He. unfold sys. destruct (fault h ev) as [[e1 f]|] eqn:Ef.
  - intros [= <- _]. by eapply foreign_fault.
  - destruct (eff (fs h)) eqn:Ee; [done|]. intros [= <- _]. by eapply He.
Qed.

Lemma os_Stat_foreign p h e h' : foreign_errors → os_Stat p h = (Throw e, h') → foreign e.
Proof using Type.
  intros HF. apply sys_foreign; [done|]. intros f e' Hf ks.
  destruct (is_dir f p); [done|]. destruct (f !! p); [done|]. by injection Hf as <-.
Qed.

Lemma os_ReadFile_foreign p h e h' :
  foreign_errors → os_ReadFile p h = (Throw e, h') → foreign e.
Proof using Type.
  intros HF HR. unfold os_ReadFile in HR. apply bind_Throw in HR as [HR|([] & h1 & _ & HR)].
  - eapply sys_foreign; [done| |exact HR]. done.
  - apply bind_Throw in HR as [HR|(f & h2 & HG & HR)]; [done|].
    unfold of_result, read_file in HR. destruct (f !! p) as [[]|]; by simplify_eq.
Qed.

(** One end of the check against the specification, both directions. *)
#[local] Ltac cert_cases :=
  cbn; split;
  [ intros ?; simplify_eq; eauto 12 using or_introl, or_intror, conj
  | intros [(? & (? & ? & ? & ? & ? & ? & ?) & ?)|(? & ? & ? & ?)];
    simplify_eq; try congruence; try done ].

(** C30. During init the kubelet's certificate may be missing or out of date,
    and nothing else: with [ignoreDateAndNoCertErrors] the check passes
    exactly when there is no certificate file, or a certificate was read
    that is outside its validity interval or that the cluster's CA, when one
    is given, verifies.  Without the option only a certificate inside its
    interval (both ends included) and verified passes. *)
Theorem kubelet_cert_accepted v h h' :
  foreign_errors →
  check_kubelet_cert v h = (Return tt, h') ↔
  (∃ cert, holds_cert (certPath v) h cert h' ∧
     (in_date cert h' ∧ trusted (cert_cluster v) cert h' ∨
      ignoreDateAndNoCertErrors v = true ∧ ¬ in_date cert h')) ∨
  (ignoreDateAndNoCertErrors v = true ∧
   ∃ e, os_Stat (certPath v) h = (Throw e, h') ∧ os_IsNotExist e = true).
Proof using Type.
  intros HF. unfold check_kubelet_cert, certificate_Validate, holds_cert, try, map_err,
    IsDateValidationError, IsNoCertError, cert_err, throw.
  cbv [mbind M_bind mret M_ret]. destruct v as [path ca ign]; cbn [certPath cert_cluster ignoreDateAndNoCertErrors].
  destruct (os_Stat path h) as [[[]|e|] h1] eqn:ES; [| |by cert_cases].
  2:{ pose proof (os_Stat_foreign _ _ _ _ HF ES) as Hf.
      destruct (os_IsNotExist e) eqn:EN; cbn; rewrite ?Hf; destruct ign; cert_cases. }
  destruct (os_ReadFile path h1) as [[data|e|] h2] eqn:ER; [| |by cert_cases].
  2:{ pose proof (os_ReadFile_foreign _ _ _ _ HF ER) as Hf. cbn. rewrite !Hf.
      destruct ign; cert_cases. }
  destruct (pem_Decode data) as [block|] eqn:ED; [|destruct ign; cert_cases].
  destruct (x509_ParseCertificate block) as [cert|e] eqn:EP.
  2:{ pose proof (foreign_parse HF _ _ EP) as Hf. cbn. rewrite !Hf. destruct ign; cert_cases. }
  assert (∀ c s, (∃ data block h3, (Return tt, h1) = (Return tt, h3) ∧
    os_ReadFile path h3 = (Return data, s) ∧ pem_Decode data = Some block ∧
    x509_ParseCertificate block = Ok c) ↔ c = cert ∧ s = h2) as Hh.
  { intros c s. split; [intros (? & ? & ? & ? & ? & ? & ?)|intros [-> ->]; eauto 10].
    split; congruence. }
  setoid_rewrite Hh. clear Hh ES ER ED EP.
  destruct (check_cert_cases ca cert h2) as (o & -> & [(Hd & Ht & ->)|[(Hd & k & m & -> & Hk)|(Hd & Ht & Ho)]]).
  - naive_solver.
  - destruct Hk as [-> | ->], ign; cbn; naive_solver.
  - destruct Ho as [-> |(pool & e & EV & ->)]; [destruct ign; cbn; naive_solver|].
    pose proof (foreign_verify HF _ _ _ _ EV) as Hf. cbn. rewrite !Hf.
    clear Hf HF EV. destruct ign; naive_solver.
Qed.
End Validators.

(** ** Concrete runs *)

Example old_cert : Certificate := {| NotBefore := 0; NotAfter := 100; raw_cert := "old" |}.
Example cert_host : Host := {|
  fs := <["/var/lib/kubelet/pki/kubelet-server-current.pem" := File "pem" 384]> ∅;
  tracker := no_artifacts; journal := []; provider := no_provider |}.
Example check_old (ignore : bool) : M Host unit :=
  check_kubelet_cert (λ s, if String.eqb s "pem" then Some "der" else None)
    (λ b, if String.eqb b "der" then Ok old_cert else Err (ENew "x509: malformed certificate"))
    (λ _, Some []) (λ _ _ _, None) (λ _, 101)
    (NewKubeletCertificateValidator "ca"
       [λ v, {| certPath := certPath v; cert_cluster := cert_cluster v;
                ignoreDateAndNoCertErrors := ignore |}]).

Lemma kubelet_cert_accepted_witness :
  (∃ h', check_old true cert_host = (Return tt, h')) ∧
  ¬ ∃ h', check_old false cert_host = (Return tt, h').
Proof.
  split; [|by intros [h' E]].
  eexists. unfold check_old. apply kubelet_cert_accepted.
  - split; [done| |done]. intros b e Hb ks. cbn in Hb.
    destruct (String.eqb b "der"); [done|by injection Hb as <-].
  - left. exists old_cert. split; [|right; split; [reflexivity|unfold in_date; cbn; lia]].
    exists "pem", "der". eexists. by repeat split.
Defined.

Example ulimit_issues :
  checkCriticalLimits 1024 4095 =
  ["        1. max processes limit is 4095, which is lower than the recommended value of 4096"].
Proof. reflexivity. Qed.
