(* ===== verification/Swap.v ===== *)
(** * The swap aspect and its validator (internal/system: swap.go,
      swap_validator.go)

    [Setup] turns swap off on the running host and takes the swap entries
    out of /etc/fstab so that it stays off.  The files are read line by line
    with a [bufio.Scanner]; the code does not look at [scanner.Err], so a line
    beyond its limit, or a failed read, ends the loop as the end of the file
    does. *)

From S2P Require Import Prelude GoStrings Scanner Host Validation Validators Flows.
#[local] Open Scope Z_scope.

(** ** Parsing *)

Record mount := { spec : string; mount_file : string; vfsType : string }.
Record swap := { filePath : string; swapType : string }.

Definition is_comment (line : string) : bool := String.eqb line "" || HasPrefix line "#".

Definition parseFstabLine (line : string) : result (option mount) :=
  let line := TrimSpace line in
  if is_comment line then Ok None else
  match Fields line with
  | spec :: file :: vfsType :: _ =>
      Ok (Some {| spec := spec; mount_file := file; vfsType := vfsType |})
  | fields => Err (ENew ("too few fields (" +:+ Itoa (Z.of_nat (length fields)) +:+
                         "), at least 4 are expected"))
  end.

(** [None] is the nil pointer a blank line or a comment gives. *)
Definition parseProcSwapsLine (line : string) : result (option swap) :=
  let line := TrimSpace line in
  if is_comment line then Ok None else
  match Fields line with
  | [path; type; _; _; _] => Ok (Some {| filePath := path; swapType := type |})
  | fields => Err (ENew ("Error in /proc/swaps file, line (" +:+ line +:+ ") has " +:+
                         Itoa (Z.of_nat (length fields)) +:+ " fields, 5 are expected"))
  end.

Definition swapAspectName : string := "swap".
Definition swapTypePartition : string := "partition".
Definition swapTypeFile : string := "file".

(** ** The operations *)

Section Swap.
Context `{Env}.
(** The variable [ACTIVE_SWAP_AREAS], empty when unset. *)
Context (ACTIVE_SWAP_AREAS : string).

Fixpoint parse_swaps (lineNo : Z) (lines : list string) : result (list (option swap)) :=
  match lines with
  | [] => Ok []
  | line :: lines =>
      match parseProcSwapsLine line with
      | Err err => Err (ENew ("/proc/swaps file syntax error at line " +:+ Itoa lineNo +:+
                              ": " +:+ error_text err))
      | Ok s => paths ← parse_swaps (lineNo + 1) lines; mret (s :: paths)
      end
  end.

(** The first line is the header; no file means no swap. *)
Definition activeSwapAreasFile : string :=
  if String.eqb ACTIVE_SWAP_AREAS "" then "/proc/swaps" else ACTIVE_SWAP_AREAS.
Definition getSwapfilePaths : M Host (list (option swap)) :=
  r ← try (os_Open false activeSwapAreasFile);
  match r with
  | Err e => if os_IsNotExist e then mret [] else throw e
  | Ok _ =>
      lines ← scan_file activeSwapAreasFile;
      of_result (parse_swaps 2 (drop 1 lines))
  end.

(** The error result is always nil; a nil element is dereferenced. *)
Fixpoint partitionSwapExists (swapfiles : list (option swap)) : M Host bool :=
  match swapfiles with
  | [] => mret false
  | None :: _ => panic
  | Some s :: swapfiles =>
      if String.eqb (swapType s) swapTypePartition then mret true
      else partitionSwapExists swapfiles
  end.

Definition swapoff1 (s : option swap) : M Host unit :=
  match s with
  | None => panic
  | Some s =>
      let path := filePath s in
      if String.eqb (swapType s) swapTypePartition then
        throw (ENew ("partition type swapfile " +:+ path +:+
                     " found in /proc/swaps, please remove the swapfile"))
      else
        r ← try (os_Stat path);
        match r with
        | Ok _ =>
            '(out, err) ← CombinedOutput "swapoff" [path];
            match err with
            | Some e => throw (ENew ("failed to turn of swap on " +:+ path +:+
                ", command output: " +:+ out +:+ ", " +:+ error_text e))
            | None => mret tt
            end
        | Err e =>
            if errors_Is_NotExist e then mret tt
            else throw (ENew ("unexpced error while trying to open /proc/swaps file: " +:+
                              error_text e))
        end
  end.
Definition swapOff (swapfiles : list (option swap)) : M Host unit :=
  for_each swapoff1 swapfiles.

Definition is_swap (m : option mount) : bool :=
  match m with Some m => String.eqb (vfsType m) "swap" | None => false end.

(** The scan loop: the text of the lines that stay. *)
Fixpoint fstab_scan (lineNo : Z) (lines : list string) (buf : string) : result string :=
  match lines with
  | [] => Ok buf
  | line :: lines =>
      match parseFstabLine line with
      | Err err => Err (ENew ("/etc/fstab syntax error at line " +:+ Itoa lineNo +:+
                              ": " +:+ error_text err))
      | Ok fstabMount =>
          fstab_scan (lineNo + 1) lines
            (if is_swap fstabMount then buf else buf +:+ line +:+ newline)
      end
  end.

Definition fstab : string := "/etc/fstab".
(** [file.Truncate(0)]. *)
Definition file_Truncate (p : string) : M Host unit :=
  sys (EvCall ("truncate " +:+ p))
    (λ f, match f !! p with
          | Some (File _ perm) => Ok (<[p := File "" perm]> f)
          | _ => Err (ENotExist p)
          end).
Definition disableSwapOnFstab : M Host unit :=
  os_Open true fstab;;
  lines ← scan_file fstab;
  buf ← of_result (fstab_scan 1 lines "");
  file_Truncate fstab;;
  when (negb (String.eqb buf "")) (file_Write fstab buf).

Definition swap_Setup : M Host unit :=
  swapfiles ← getSwapfilePaths;
  hasSwapPartition ← partitionSwapExists swapfiles;
  (if hasSwapPartition : bool
   then throw (ENew "failed to disable swap: partition type swap found on the host")
   else mret tt);;
  swapOff swapfiles;;
  disableSwapOnFstab.
Definition NewSwapAspect : SystemAspect :=
  {| aspect_Name := swapAspectName; Setup := swap_Setup |}.

(** ** The validator of [nodeadm debug] *)

Definition other_swap : string :=
  "All swap should be disabled before running debug. For partition swap, run 'sudo swapoff -a' and remove entries from /etc/fstab. For file swap, this indicates nodeadm init may not have completed successfully.".
Definition check_swap : M Host unit :=
  swapfiles ← map_err (EWrap "getting swapfile paths ") getSwapfilePaths;
  hasPartitionSwap ← partitionSwapExists swapfiles;
  if hasPartitionSwap : bool then
    throw (WithRemediation (ENew "partition swap detected on host")
      "Nodeadm can only disable file-based swap automatically. Please manually disable partition swap before running nodeadm init. Run 'sudo swapoff -a' to disable swap and remove swap entries from /etc/fstab to make the change persistent.")
  else match swapfiles with
  | [] => mret tt
  | _ =>
      let err := ENew ("swap still active on host: " +:+
                       Itoa (Z.of_nat (length swapfiles)) +:+ " swap entries found") in
      match swapfiles with
      | [Some s] =>
          if String.eqb (swapType s) swapTypeFile then
            throw (WithRemediation err
              ("File-based swap should have been disabled during nodeadm init. This may indicate init did not complete successfully. Try running 'sudo swapoff " +:+
               filePath s +:+ "' and re-run nodeadm init if needed."))
          else throw (WithRemediation err other_swap)
      | _ => throw (WithRemediation err other_swap)
      end
  end.
Definition SwapValidator_Run (i : Informer Host) : M Host unit :=
  informed i "swap" "Validating swap configuration" check_swap.
End Swap.

(** ** Lemmas on lines *)

Definition parses (line : string) : bool := is_ok (parseFstabLine line).
Definition swap_line (line : string) : bool :=
  match parseFstabLine line with Ok m => is_swap m | Err _ => false end.
Definition other_line (line : string) : bool := negb (swap_line line).
(** No line read back from [data] is a swap entry. *)
Definition swap_free (data : string) : Prop :=
  Forall (λ line, swap_line line = false) (scan_lines data).
Lemma fstab_scan_spec n lines buf :
  match fstab_scan n lines buf with
  | Ok out => Forall (λ l, parses l = true) lines ∧ out = buf +:+ unlines (keep other_line lines)
  | Err _ => ¬ Forall (λ l, parses l = true) lines
  end.
Proof.
  revert n buf. induction lines as [|l lines IH]; intros n buf; cbn.
  { by rewrite app_nil_r_str. }
  unfold other_line, swap_line.
  assert (parses l = is_ok (parseFstabLine l)) as Hp by done.
  destruct (parseFstabLine l) as [m|e]; [|cbn in Hp; intros HF; inversion HF; congruence].
  specialize (IH (n + 1) (if is_swap m then buf else buf +:+ l +:+ newline)).
  destruct (fstab_scan _ _ _) as [out|e].
  - destruct IH as [HF ->]. split; [by constructor|].
    destruct (is_swap m); cbn; [done|]. by rewrite !app_assoc_str.
  - intros HF. inversion HF. by apply IH.
Qed.

Lemma TrimSpace_cr s : TrimSpace (TrimSuffix s cr) = TrimSpace s.
Proof.
  destruct (TrimSuffix_cases s cr) as [(t & -> & ->)| ->]; [|done]. unfold TrimSpace, cr.
  induction t as [|c t IH]; [done|]. rewrite app_cons_str. cbn [trim_left].
  destruct (is_space c); [exact IH|]. symmetry. apply (trim_right_snoc _ (String c t)). done.
Qed.

Lemma parseFstabLine_cr l : parseFstabLine (TrimSuffix l cr) = parseFstabLine l.
Proof. unfold parseFstabLine. by rewrite TrimSpace_cr. Qed.

(** What is written back holds no swap entry when it is read again. *)
Lemma unlines_swap_free lines : Forall line_ok lines → swap_free (unlines (keep other_line lines)).
Proof.
  intros Hok. unfold swap_free. rewrite scan_unlines.
  - apply Forall_fmap, Forall_elem. intros l Hl. apply elem_of_keep in Hl as [_ Hl].
    unfold other_line, swap_line in *. cbn. rewrite parseFstabLine_cr. by apply negb_true_iff.
  - apply Forall_elem. intros l Hl. apply elem_of_keep in Hl as [Hl _].
    by apply (proj1 (Forall_elem _ _) Hok).
Qed.

(** ** Properties *)

Section SwapProps.
Context `{Env} (ACTIVE_SWAP_AREAS : string).

Lemma file_Truncate_Return p h h' u :
  file_Truncate p h = (Return u, h') →
  ∃ perm, fs h' = <[p := File "" perm]> (fs h) ∧ tracker h' = tracker h.
Proof.
  unfold file_Truncate. intros E. apply sys_Return in E as (f & Ef & ->). cbn.
  destruct (fs h !! p) as [[d perm|perm]|]; [|done..]. injection Ef as <-. eauto.
Qed.

Lemma file_Write_Return p data h h' u d perm :
  fs h !! p = Some (File d perm) →
  when (negb (String.eqb data "")) (file_Write p data) h = (Return u, h') →
  fs h' = <[p := File (d +:+ data) perm]> (fs h).
Proof.
  intros Hp. destruct (String.eqb_spec data "") as [->|Hd]; cbn.
  - intros [= _ <-]. rewrite app_nil_r_str. by rewrite insert_id.
  - unfold file_Write. intros E. apply sys_Return in E as (f & Ef & ->). cbn.
    unfold append in Ef. rewrite Hp in Ef. by injection Ef as <-.
Qed.

(** What a scanner delivers are lines, and when no read failed they are those
    of the file. *)
Lemma scan_file_Return p h lines h' :
  scan_file p h = (Return lines, h') →
  Forall line_ok lines ∧
  (fault h (EvRead p) = None →
     fs h' = fs h ∧ ∀ data, read_file (fs h) p = Ok data → lines = scan_lines data).
Proof using Type.
  unfold scan_file, os_ReadFile, try, sys. cbv [mbind M_bind gets mret M_ret of_result].
  destruct (fault h (EvRead p)) as [[e f]|].
  { intros [= <- <-]. split; [apply scan_lines_ok|done]. }
  cbn [fs set_fs record]. destruct (read_file (fs h) p) as [data|e]; intros [= <- <-];
    (split; [apply scan_lines_ok|intros _; split; [done|]]); [by intros ? [= <-]|done].
Qed.

Lemma disableSwapOnFstab_Return h h' u :
  disableSwapOnFstab h = (Return u, h') → ∃ h1 h2 lines,
  os_Open true fstab h = (Return tt, h1) ∧ scan_file fstab h1 = (Return lines, h2) ∧
  Forall (λ l, parses l = true) lines ∧ Forall line_ok lines ∧
  read_file (fs h') fstab = Ok (unlines (keep other_line lines)) ∧
  ∀ q, q ≠ fstab → fs h' !! q = fs h2 !! q.
Proof using Type.
  intros E. unfold disableSwapOnFstab in E.
  apply bind_Return in E as ([] & h1 & EO & E). apply bind_Return in E as (lines & h2 & ER & E).
  apply bind_Return in E as (buf & h3 & ES & E). unfold of_result in ES.
  pose proof (fstab_scan_spec 1 lines "") as HS.
  destruct (fstab_scan 1 lines "") as [out|]; [|done]. injection ES as <- <-.
  destruct HS as [HF ->]. rewrite app_nil_l_str in E.
  apply bind_Return in E as ([] & h3 & ET & EW).
  apply file_Truncate_Return in ET as (perm & Hfs & _).
  apply (file_Write_Return _ _ _ _ _ "" perm) in EW; [|by rewrite Hfs, lookup_insert_eq].
  exists h1, h2, lines. split_and!; [done..| | |].
  - by apply scan_file_Return in ER as [? _].
  - rewrite EW. unfold read_file. by rewrite lookup_insert_eq, app_nil_l_str.
  - intros q Hq. by rewrite EW, lookup_insert_ne, Hfs, lookup_insert_ne.
Qed.

(** C19. Taking swap out of /etc/fstab.  When the step succeeds, every line the
    scanner delivered parsed, the file now consists of exactly those of them
    that are not swap entries, in their order, each ended by one newline,
    reading it again finds no swap entry, and no other file changed.  Unless
    a read failed the delivered lines are those of the file, all of them if
    none has 64 KiB or more.  A delivered line with too few fields is an
    error that leaves every file as it was. *)
Theorem disableSwapOnFstab_spec h o h' :
  disableSwapOnFstab h = (o, h') →
  match o with
  | Return _ => ∃ h1 h2 lines,
      os_Open true fstab h = (Return tt, h1) ∧ scan_file fstab h1 = (Return lines, h2) ∧
      Forall (λ l, parses l = true) lines ∧
      read_file (fs h') fstab = Ok (unlines (keep other_line lines)) ∧
      swap_free (unlines (keep other_line lines)) ∧
      (∀ q, q ≠ fstab → fs h' !! q = fs h2 !! q) ∧
      (fault h1 (EvRead fstab) = None →
        fs h2 = fs h ∧ ∃ data, read_file (fs h) fstab = Ok data ∧ lines = scan_lines data ∧
          ∀ texts, Forall line_ok texts → data = unlines texts → lines = (λ l, TrimSuffix l cr) <$> texts)
  | Throw _ => ∀ h1 h2 lines,
      os_Open true fstab h = (Return tt, h1) → scan_file fstab h1 = (Return lines, h2) →
      ¬ Forall (λ l, parses l = true) lines → fs h' = fs h2
  | Panic => False
  end.
Proof using Type.
  intros E. destruct o as [u|e|].
  - destruct (disableSwapOnFstab_Return _ _ _ E) as (h1 & h2 & lines & EO & ER & ? & ? & ? & ?).
    exists h1, h2, lines. split_and!; [done..|by apply unlines_swap_free|done|].
    intros Hf. apply scan_file_Return in ER as [_ HR]. destruct (HR Hf) as [Hfs Hd].
    apply sys_Return in EO as (f & Ef & ->). cbn [fs set_fs record] in *. unfold read_file in *.
    destruct (fs h !! fstab) as [[data perm|perm]|] eqn:Ep; [|done..]. injection Ef as <-.
    split; [done|]. rewrite Ep in Hd. exists data. pose proof (Hd _ eq_refl) as ->. split_and!; [done..|].
    intros texts Ht ->. by apply scan_unlines.
  - intros h1 h2 lines EO ER HP. unfold disableSwapOnFstab in E. cbv [mbind M_bind] in E.
    rewrite EO, ER in E. unfold of_result in E.
    pose proof (fstab_scan_spec 1 lines "") as HS.
    destruct (fstab_scan 1 lines ""); [by destruct HS|]. by injection E as _ <-.
  - assert (no_panic disableSwapOnFstab) as HN by (unfold disableSwapOnFstab, file_Truncate; host_tac; done).
    by destruct (HN h h').
Qed.

(** ** The aspect *)

(** Swap area [s] was dealt with between [h] and [h']: its file is gone, or
    [swapoff] on it exited with success. *)
Definition turned_off (h h' : Host) (s : swap) : Prop :=
  ∃ g g1, journal h `prefix_of` journal g ∧
    ((∃ e, os_Stat (filePath s) g = (Throw e, g1) ∧ errors_Is_NotExist e = true) ∨
     (∃ out, os_Stat (filePath s) g = (Return tt, g1) ∧
        run_output g1 "swapoff" [filePath s] = (out, None) ∧
        journal g1 ++ [EvRun "swapoff" [filePath s]] `prefix_of` journal h')).

Lemma partitionSwapExists_cases l h :
  ∃ o, partitionSwapExists l h = (o, h) ∧
  match o with
  | Return b => b = false → ∃ swaps, l = Some <$> swaps ∧
                  Forall (λ s, swapType s ≠ swapTypePartition) swaps
  | Throw _ => False
  | Panic => None ∈ l
  end.
Proof using Type.
  induction l as [|[s|] l IH]; cbn [partitionSwapExists].
  - eexists. split; [done|]. intros _. by exists [].
  - destruct (String.eqb_spec (swapType s) swapTypePartition).
    + eexists. by split.
    + destruct IH as (o & -> & Ho). exists o. split; [done|]. destruct o as [b|e|]; [|done|by right].
      intros Hb. destruct (Ho Hb) as (swaps & -> & HF). exists (s :: swaps). by split; [|constructor].
  - eexists. split; [done|]. by left.
Qed.

Lemma swapoff1_Return s h h' :
  swapoff1 (Some s) h = (Return tt, h') →
  turned_off h h' s ∧ journal h `prefix_of` journal h'.
Proof using Type.
  unfold swapoff1, try, CombinedOutput, run_raw, throw. cbv [mbind M_bind mret M_ret].
  destruct (String.eqb _ _); [done|].
  destruct (os_Stat (filePath s) h) as [[[]|e|] h1] eqn:ES; [| |done].
  - destruct (run_output h1 "swapoff" [filePath s]) as [out [e|]] eqn:EO; [done|].
    intros [= <-]. unfold os_Stat in ES. pose proof (sys_tracker _ _ _ _ _ ES) as [_ HJ].
    split; [|cbn; rewrite HJ; do 2 apply prefix_app_r; done].
    exists h, h1. split; [done|]. right. exists out. by split_and!.
  - destruct (errors_Is_NotExist e) eqn:EN; [|done]. intros [= <-].
    unfold os_Stat in ES. pose proof (sys_tracker _ _ _ _ _ ES) as [_ HJ].
    split; [|rewrite HJ; by apply prefix_app_r].
    exists h, h1. split; [done|]. left. by exists e.
Qed.

Lemma turned_off_mono g h h' g' s :
  journal g `prefix_of` journal h → journal h' `prefix_of` journal g' →
  turned_off h h' s → turned_off g g' s.
Proof using Type.
  intros H1 H2 (a & b & Ha & Hb). exists a, b. split; [by etrans|].
  destruct Hb as [Hb|(out & Hb1 & Hb2 & Hb3)]; [by left|right]. exists out.
  split_and!; [done..|by etrans].
Qed.

Lemma swapOff_Return swaps h h' :
  swapOff (Some <$> swaps) h = (Return tt, h') →
  Forall (turned_off h h') swaps ∧ journal h `prefix_of` journal h'.
Proof using Type.
  unfold swapOff. revert h. induction swaps as [|s swaps IH]; intros h E.
  { injection E as <-. by split. }
  cbn [fmap list_fmap for_each] in E. apply bind_Return in E as ([] & h1 & E1 & E2).
  apply swapoff1_Return in E1 as [H1 J1]. apply IH in E2 as [H2 J2].
  split; [|by etrans]. constructor.
  - by eapply turned_off_mono; [| |exact H1].
  - eapply Forall_impl; [exact H2|]. intros x. by apply turned_off_mono.
Qed.

Lemma only_adds {A} (m : M Host A) h o h' :
  journaled (λ _, True) m → m h = (o, h') → journal h `prefix_of` journal h'.
Proof using Type. intros Hm E. destruct (Hm _ _ _ E) as (evs & -> & _). by eexists. Qed.

(** The steps that rewrite /etc/fstab. *)
Definition rewrites_fstab (ev : event) : bool :=
  match ev with
  | EvCall what => String.eqb what ("truncate " +:+ fstab)
  | EvWrite p _ => String.eqb p fstab
  | _ => false
  end.
Lemma swapOff_journaled l : journaled (λ ev, rewrites_fstab ev = false) (swapOff l).
Proof using Type.
  unfold swapOff, swapoff1, CombinedOutput. host_tac;
    first [done|apply (journaled_pure _ (λ _, Panic))|idtac].
  intros h o h' [= <- <-]. exists [EvRun "swapoff" [filePath s]].
  split; [done|by repeat constructor].
Qed.
Lemma swapOff_no_panic swaps : no_panic (swapOff (Some <$> swaps)).
Proof using Type.
  unfold swapOff. host_tac.
  match goal with H : _ ∈ _ |- _ => apply list_elem_of_fmap in H as (s & -> & _) end.
  unfold swapoff1, CombinedOutput. by host_tac.
Qed.

(** C18. The swap aspect, however it ends.  With a partition among the listed
    swap areas it stops there, with nothing turned off.  Otherwise
    /etc/fstab is left alone until every listed area has been dealt with,
    none of them a partition: its file is gone or a [swapoff] on it
    succeeded; the rest is the rewriting of /etc/fstab, after whose success
    no swap entry is left there.  It panics only when /proc/swaps listed a
    blank line or a comment, whose nil entry the code dereferences. *)
Theorem swap_Setup_safe h o h' l h1 :
  swap_Setup ACTIVE_SWAP_AREAS h = (o, h') →
  getSwapfilePaths ACTIVE_SWAP_AREAS h = (Return l, h1) →
  (∀ s, Some s ∈ l → swapType s = swapTypePartition → h' = h1 ∧ o ≠ Return tt) ∧
  (o = Panic → None ∈ l) ∧
  ((∃ evs, journal h' = journal h1 ++ evs ∧ Forall (λ ev, rewrites_fstab ev = false) evs ∧ o ≠ Return tt) ∨
   (∃ swaps h2 evs, l = Some <$> swaps ∧
      Forall (λ s, swapType s ≠ swapTypePartition ∧ turned_off h1 h2 s) swaps ∧
      journal h2 = journal h1 ++ evs ∧ Forall (λ ev, rewrites_fstab ev = false) evs ∧
      disableSwapOnFstab h2 = (o, h'))) ∧
  (o = Return tt → ∃ data, read_file (fs h') fstab = Ok data ∧ swap_free data).
Proof using Type.
  unfold swap_Setup. intros E EG. cbv [mbind M_bind] in E. rewrite EG in E.
  destruct (partitionSwapExists_cases l h1) as (b & EP & Ho). rewrite EP in E.
  destruct b as [[]|e|]; [| |done|].
  - injection E as <- <-. split_and!; [done..| |done]. left. exists []. by rewrite app_nil_r.
  - destruct (Ho eq_refl) as (swaps & -> & HF). cbn [mret M_ret] in E.
    destruct (swapOff (Some <$> swaps) h1) as [r h2] eqn:ES.
    destruct (swapOff_journaled _ _ _ _ ES) as (evs & J & Hevs).
    split_and!.
    + intros s (t & [= <-] & Ht)%list_elem_of_fmap Hs. rewrite Forall_elem in HF. by destruct (HF _ Ht).
    + intros ->. exfalso. destruct r as [[]|e|].
      * assert (no_panic disableSwapOnFstab) as HN by (unfold disableSwapOnFstab, file_Truncate; host_tac; done).
        by destruct (HN h2 h').
      * done.
      * by destruct (swapOff_no_panic _ _ _ ES).
    + destruct r as [[]|e|]; [right|left; injection E as <- <-; by exists evs..].
      exists swaps, h2, evs. apply swapOff_Return in ES as [HT _]. split_and!; [done| |done..].
      by apply Forall_and.
    + intros ->. destruct r as [[]|e|]; [|done..].
      destruct (disableSwapOnFstab_Return _ _ _ E) as (_ & _ & lines & _ & _ & _ & Hok & HD & _).
      eexists. split; [exact HD|by apply unlines_swap_free].
  - injection E as <- <-. split_and!; [done|by intros _| |done]. left. exists []. by rewrite app_nil_r.
Qed.
End SwapProps.

(** ** Concrete runs *)

Definition root_line : string := "/dev/sda1 / ext4 defaults 0 1".
Example swap_host (table : string) : Host := {|
  fs := <["/proc/swaps" := File ("Filename Type Size Used Priority" +:+ newline +:+
              "/swapfile file 524280 0 -1" +:+ newline) 292]>
        (<["/swapfile" := File "" 384]>
        (<["/etc/fstab" := File table 420]> ∅));
  tracker := no_artifacts; journal := []; provider := no_provider |}.
Example a_table : string :=
  unlines ["# static file system information"; root_line; "/swapfile none swap sw 0 0"].

Lemma disableSwapOnFstab_spec_witness :
  (disableSwapOnFstab (swap_host a_table)).1 = Return tt ∧
  ∃ data, read_file (fs (disableSwapOnFstab (swap_host a_table)).2) fstab = Ok data ∧
    swap_free data ∧ data = unlines ["# static file system information"; root_line].
Proof.
  destruct (disableSwapOnFstab (swap_host a_table)) as [o h'] eqn:E.
  assert (o = Return tt) as ->.
  { change o with (o, h').1. rewrite <- E. vm_compute. reflexivity. }
  split; [reflexivity|].
  destruct (disableSwapOnFstab_spec _ _ _ E) as (h1 & h2 & lines & HO & HL & _ & HR & HS & _).
  vm_compute in HO. injection HO as <-. vm_compute in HL. injection HL as <- <-.
  eexists. split; [exact HR|]. split; [exact HS|]. vm_compute. reflexivity.
Defined.

Lemma swap_Setup_safe_witness :
  (swap_Setup "" (swap_host a_table)).1 = Return tt ∧
  ∃ data, read_file (fs (swap_Setup "" (swap_host a_table)).2) fstab = Ok data ∧ swap_free data.
Proof.
  destruct (swap_Setup "" (swap_host a_table)) as [o h'] eqn:E.
  assert (o = Return tt) as ->.
  { change o with (o, h').1. rewrite <- E. vm_compute. reflexivity. }
  split; [reflexivity|]. destruct (getSwapfilePaths "" (swap_host a_table)) as [r h1] eqn:EG.
  pose proof EG as EV. vm_compute in EV. injection EV as <- <-.
  destruct (swap_Setup_safe _ _ _ _ _ _ E EG) as (_ & _ & _ & HD). exact (HD eq_refl).
Defined.

(** A line of 64 KiB or more ends the scan without an error: the lines from
    it on, here the entry of the root file system, are lost. *)
Fixpoint repeat_char (n : nat) (c : ascii) : string :=
  match n with O => "" | S n => String c (repeat_char n c) end.
Theorem fstab_long_line_lost :
  let long := String "#" (repeat_char (Nat.pow 2 16) "x") in
  let '(o, h') := disableSwapOnFstab (swap_host (unlines [long; root_line])) in
  o = Return tt ∧ read_file (fs h') fstab = Ok "".
Proof. vm_compute. by split. Qed.

(** A blank line in /proc/swaps makes [Setup] panic. *)
Example blank_swaps_panic :
  (swap_Setup "" {| fs := <["/proc/swaps" := File (newline +:+ newline) 292]> ∅;
                    tracker := no_artifacts; journal := []; provider := no_provider |}).1 = Panic.
Proof. reflexivity. Qed.
