(* ===== verification/Resources.v ===== *)
(** * CPU and memory of the machine (internal/system/resources.go)

    The topology under /sys and /proc/meminfo, read through the file model;
    entries of /sys that are links appear as the directories they lead to. *)

From S2P Require Import Prelude GoStrings Host Node.
#[local] Open Scope Z_scope.

(** ** Machine integers *)

(** Go's [int] and [uint64]: 64 bits, wrapping. *)
Definition int64 (z : Z) : Z := (z + 2 ^ 63) mod 2 ^ 64 - 2 ^ 63.
Definition uint64 (z : Z) : Z := z mod 2 ^ 64.
Definition uint16 (z : Z) : Z := z mod 2 ^ 16.

Lemma int64_id z : - 2 ^ 63 <= z < 2 ^ 63 → int64 z = z.
Proof. intros Hz. unfold int64. rewrite Z.mod_small; lia. Qed.
Lemma uint64_id z : 0 <= z < 2 ^ 64 → uint64 z = z.
Proof. apply Z.mod_small. Qed.
Lemma uint16_id z : 0 <= z < 2 ^ 16 → uint16 z = z.
Proof. apply Z.mod_small. Qed.

(** ** Regular expressions *)

(** The longest prefix of digits and the rest. *)
Fixpoint span_digits (s : string) : string * string :=
  match s with
  | String c s' =>
      if is_digit c then let '(d, r) := span_digits s' in (String c d, r) else ("", s)
  | "" => ("", "")
  end.

(** [r.FindSubmatch]: [at_] at the leftmost position where it matches. *)
Fixpoint find_first {A} (at_ : string → option A) (s : string) : option A :=
  match at_ s with
  | Some a => Some a
  | None => match s with "" => None | String _ s => find_first at_ s end
  end.

Lemma find_first_here {A} (at_ : string → option A) s a : at_ s = Some a → find_first at_ s = Some a.
Proof. intros Ha. destruct s; cbn; by rewrite Ha. Qed.
(** [at_] fails at the first [n] positions: the search goes on after them. *)
Fixpoint misses {A} (at_ : string → option A) (n : nat) (s : string) : bool :=
  match n, s with
  | O, _ => true
  | S n, String _ s' => match at_ s with None => misses at_ n s' | Some _ => false end
  | S _, "" => false
  end.
Lemma find_first_misses {A} (at_ : string → option A) n s :
  misses at_ n s = true → find_first at_ s = find_first at_ (drop_str n s).
Proof.
  revert s. induction n as [|n IH]; intros s Hm; [by destruct s|].
  destruct s as [|c s]; [done|]. cbn [misses find_first drop_str] in *.
  destruct (at_ (String c s)); [done|]. by apply IH.
Qed.

(** [/cpu(\d+)], the greedy digits being the only way to match them. *)
Definition cpuDirRegExp (s : string) : option string :=
  find_first (λ s, match CutPrefix s "/cpu" with
    | (rest, true) => match (span_digits rest).1 with "" => None | d => Some d end
    | (_, false) => None
    end) s.

(** [\s] of RE2, which unlike [unicode.IsSpace] has no vertical tab. *)
Definition re_space (c : ascii) : bool := is_space c && negb (Ascii.eqb c "011").

(** [MemTotal:\s*([0-9]+) kB]. *)
Definition memoryCapacityRegexp (s : string) : option string :=
  find_first (λ s, match CutPrefix s "MemTotal:" with
    | (rest, true) =>
        let '(d, rest) := span_digits (trim_left re_space rest) in
        if negb (String.eqb d "") && HasPrefix rest " kB" then Some d else None
    | (_, false) => None
    end) s.

(** [filepath.Glob(dir/prefix*[0-9])]: sorted, and empty when the directory
    cannot be listed; the pattern itself is well formed. *)
Fixpoint last_char (s : string) : option ascii :=
  match s with
  | "" => None
  | String c "" => Some c
  | String _ s => last_char s
  end.
Definition glob_match (prefix name : string) : bool :=
  match CutPrefix name prefix with
  | (rest, true) => match last_char rest with Some c => is_digit c | None => false end
  | (_, false) => false
  end.

Record core := { core_Id : Z; Threads : list Z; SocketID : Z }.

Section Resources.
Context `{Env}.
(** The package variables, which the environment may override. *)
Context (nodeDir cpusPath : string).

Definition Glob (dir prefix : string) : M Host (list string) :=
  r ← try (os_ReadDir dir);
  mret match r with
       | Ok names => (λ n, path_Join [dir; n]) <$> keep (glob_match prefix) names
       | Err _ => []
       end.
Definition getNodesPaths : M Host (list string) := Glob nodeDir "node".
Definition getCPUsPaths (dir : string) : M Host (list string) := Glob dir "cpu".

Definition getCPUCount : M Host Z :=
  cpusPaths ← getCPUsPaths cpusPath;
  match cpusPaths with
  | [] => throw (ENew ("Any CPU is not available, cpusPath: " +:+ cpusPath))
  | _ => mret (Z.of_nat (length cpusPaths))
  end.

Definition getCPUPhysicalPackageID (cpuPath : string) : M Host string :=
  packageID ← os_ReadFile (cpuPath +:+ "/topology/physical_package_id");
  mret (TrimSpace packageID).
Definition getCoreID (cpuPath : string) : M Host string :=
  coreID ← os_ReadFile (cpuPath +:+ "/topology/core_id");
  mret (TrimSpace coreID).

Definition getCPUID (str : string) : result Z :=
  match cpuDirRegExp str with
  | None => Err (ENew ("failed to match regexp, str: " +:+ str))
  | Some d => Atoi d
  end.

(** One element of the list of online CPUs: [None] to go on, [Some true]
    when the CPU is in it. *)
Definition online_part (path : string) (cpuID : Z) (s : string) : result bool :=
  match SplitN "-" 3 s with
  | [min; max] =>
      min ← ParseUint min 16;
      max ← ParseUint max 16;
      if max <? min then Err (ENew ("invalid values in " +:+ path))
      else Ok ((uint16 min <=? cpuID) && (cpuID <=? uint16 max))
  | [_] =>
      value ← ParseUint s 16;
      Ok (uint16 value =? cpuID)
  | _ => Err (ENew ("invalid values in " +:+ path))
  end.
Fixpoint online_parts (path : string) (cpuID : Z) (parts : list string) : result bool :=
  match parts with
  | [] => Ok false
  | s :: parts =>
      b ← online_part path cpuID s;
      if b : bool then Ok true else online_parts path cpuID parts
  end.
Definition isCpuOnline (path : string) (cpuID : Z) : M Host bool :=
  fileContent ← os_ReadFile path;
  if String.eqb fileContent "" then throw (ENew (path +:+ " found to be empty"))
  else of_result (online_parts path cpuID (Split "," (TrimSpace fileContent))).

Definition IsCPUOnline (cpuID : Z) : M Host bool :=
  let cpuOnlinePath := path_Clean (cpusPath +:+ "/online") in
  st ← try (os_Stat cpuOnlinePath);
  match st with
  | Err e =>
      if os_IsNotExist e then mret true
      else r ← try (isCpuOnline cpuOnlinePath (uint16 cpuID));
           mret match r with Ok b => b | Err _ => false end
  | Ok _ =>
      r ← try (isCpuOnline cpuOnlinePath (uint16 cpuID));
      mret match r with Ok b => b | Err _ => false end
  end.

(** [coreIDx]: the last core with this id and socket. *)
Definition coreIDx (physicalID package : Z) (cores : list core) : option nat :=
  fold_left (λ idx '(i, c),
      if (core_Id c =? physicalID) && (SocketID c =? package) then Some i else idx)
    (imap pair cores) None.
Definition add_thread (physicalID package cpuID : Z) (cores : list core) : list core :=
  let grow c := {| core_Id := physicalID; Threads := Threads c ++ [cpuID]; SocketID := package |} in
  match coreIDx physicalID package cores with
  | None => cores ++ [{| core_Id := physicalID; Threads := [cpuID]; SocketID := package |}]
  | Some i => alter grow i cores
  end.

Fixpoint cores_loop (cpuDirs : list string) (cores : list core) : M Host (list core) :=
  match cpuDirs with
  | [] => mret cores
  | cpuDir :: cpuDirs =>
      match getCPUID cpuDir with
      | Err _ => throw (ENew ("unexpected format of CPU directory, cpuDirRegExp /cpu(\d+), cpuDir: "
                              +:+ cpuDir))
      | Ok cpuID =>
          online ← IsCPUOnline cpuID;
          if negb online then cores_loop cpuDirs cores else
          r ← try (getCoreID cpuDir);
          match r with
          | Err e => if os_IsNotExist e then cores_loop cpuDirs cores else throw e
          | Ok rawPhysicalID =>
              physicalID ← of_result (Atoi rawPhysicalID);
              r ← try (getCPUPhysicalPackageID cpuDir);
              match r with
              | Err e => if os_IsNotExist e then cores_loop cpuDirs cores else throw e
              | Ok rawPhysicalPackageID =>
                  physicalPackageID ← of_result (Atoi rawPhysicalPackageID);
                  cores_loop cpuDirs (add_thread physicalID physicalPackageID cpuID cores)
              end
          end
      end
  end.
Definition getCoresInfo (cpuDirs : list string) : M Host (list core) := cores_loop cpuDirs [].

Fixpoint count_nodes (dirs : list string) (count : Z) : M Host Z :=
  match dirs with
  | [] => mret count
  | dir :: dirs =>
      cpuDirs ← getCPUsPaths dir;
      match cpuDirs with
      | [] => count_nodes dirs count
      | _ => cores ← getCoresInfo cpuDirs;
             count_nodes dirs (fold_left (λ n c, n + Z.of_nat (length (Threads c))) cores count)
      end
  end.
Definition GetMilliNumCores : M Host Z :=
  nodesDirs ← getNodesPaths;
  match nodesDirs with
  | [] => cpuCount ← getCPUCount; mret (int64 (cpuCount * 1000))
  | _ => count ← count_nodes nodesDirs 0; mret (int64 (count * 1000))
  end.

Definition parseCapacity (b : string) : result Z :=
  match memoryCapacityRegexp b with
  | None => Err (ENew ("failed to match regexp in output: " +:+ b))
  | Some d => m ← ParseUint d 64; Ok (uint64 (m * 1024))
  end.
Definition GetMachineMemoryCapacity : M Host Z :=
  out ← os_ReadFile "/proc/meminfo";
  of_result (parseCapacity out).
End Resources.

(** ** Lemmas and properties *)

(** The kernel's list format: single CPUs and ranges, both ends included. *)
Definition range_text (r : Z * Z) : string :=
  if r.1 =? r.2 then Itoa r.1 else Itoa r.1 +:+ "-" +:+ Itoa r.2.
Definition range_ok (r : Z * Z) : Prop := 0 <= r.1 <= r.2 ∧ r.2 < 2 ^ 16.
Definition in_range (cpu : Z) (r : Z * Z) : bool := (r.1 <=? cpu) && (cpu <=? r.2).

Lemma online_part_range path cpu r :
  range_ok r → online_part path cpu (range_text r) = Ok (in_range cpu r).
Proof.
  destruct r as [lo hi]. intros [Hlo Hhi]. cbn in Hlo, Hhi. unfold range_text, in_range, online_part.
  cbn [fst snd]. destruct (Z.eqb_spec lo hi) as [<-|Hne].
  - cbn [SplitN]. rewrite Cut_none by (apply Itoa_free; [lia|done]).
    rewrite Itoa_nonneg, ParseUint_itoa by lia. cbn. rewrite uint16_id by lia.
    f_equal. apply eq_true_iff_eq. rewrite andb_true_iff, !Z.leb_le, Z.eqb_eq. lia.
  - cbn [SplitN].
    assert (Cut "-" (Itoa lo +:+ "-" +:+ Itoa hi) = Some (Itoa lo, Itoa hi)) as ->
      by (apply Cut_spec; split; [done|apply Itoa_free; [lia|done]]).
    rewrite Cut_none by (apply Itoa_free; [lia|done]).
    rewrite !Itoa_nonneg, !ParseUint_itoa by lia. cbn.
    rewrite (proj2 (Z.ltb_ge _ _)), !uint16_id by lia. done.
Qed.

Lemma online_parts_ranges path cpu rs :
  Forall range_ok rs →
  online_parts path cpu (range_text <$> rs) = Ok (existsb (in_range cpu) rs).
Proof.
  induction 1 as [|r rs Hr _ IH]; [done|]. cbn [fmap list_fmap online_parts existsb].
  rewrite online_part_range by done. cbn. by destruct (in_range cpu r).
Qed.

Lemma range_text_chars r : range_ok r →
  all_chars (λ c, is_digit c || Ascii.eqb c "-") (range_text r) = true ∧ range_text r ≠ "".
Proof.
  destruct r as [lo hi]. intros [Hlo _]. cbn in Hlo.
  assert (∀ n, all_chars (λ c, is_digit c || Ascii.eqb c "-") (itoa_nonneg n) = true) as Hd.
  { intros n. eapply all_chars_impl; [|apply itoa_nonneg_digits]. intros c ->. done. }
  pose proof (itoa_nonneg_nonempty lo) as Hne. pose proof (Hd lo) as H1.
  unfold range_text. cbn [fst snd]. rewrite !Itoa_nonneg by lia. destruct (lo =? hi); [done|].
  rewrite !all_chars_app, Hd, Hd. split; [done|]. by destruct (itoa_nonneg lo).
Qed.

Lemma range_char_no_space c :
  is_digit c || Ascii.eqb c "-" = true → negb (is_space c) = true.
Proof. by destruct c as [[] [] [] [] [] [] [] []]. Qed.

(** The list of online CPUs is read as the kernel writes it: for any
    non-empty list of single CPUs and ranges of 16-bit numbers, printed with
    commas and a final newline, CPU [cpu] counts as online exactly when one
    of the ranges holds it. *)
Theorem isCpuOnline_ranges `{Env} path cpu rs h :
  rs ≠ [] → Forall range_ok rs →
  fault h (EvRead path) = None →
  read_file (fs h) path = Ok (Join (range_text <$> rs) "," +:+ newline) →
  isCpuOnline path cpu h = (Return (existsb (in_range cpu) rs), record (EvRead path) h).
Proof.
  intros Hne Hrs Hf Hd. unfold isCpuOnline, os_ReadFile, sys, gets, of_result.
  cbv [mbind M_bind]. rewrite Hf. cbn [fs set_fs record]. rewrite Hd.
  set (t := Join _ ","). assert (String.eqb (t +:+ newline) "" = false) as ->
    by (by destruct t).
  assert (t ≠ "" ∧ all_chars (λ c, negb (is_space c)) t = true) as [Ht1 Ht2].
  { subst t. destruct Hrs as [|r rs Hr Hrs]; [done|]. clear Hne Hd.
    destruct (range_text_chars r Hr) as [Hc Hn]. cbn [fmap list_fmap].
    split; [by destruct rs; cbn; destruct (range_text r)|].
    revert r Hr Hc Hn. induction Hrs as [|r' rs Hr' _ IH]; intros r Hr Hc Hn; cbn [fmap list_fmap].
    - by eapply all_chars_impl; [|exact Hc]; intros c; apply range_char_no_space.
    - rewrite Join_cons, !all_chars_app. destruct (range_text_chars r' Hr') as [Hc' Hn'].
      rewrite IH by done. erewrite all_chars_impl; [done| |exact Hc].
      intros c. apply range_char_no_space. }
  rewrite TrimSpace_newline by done. subst t.
  rewrite (Split_Join "," (range_text <$> rs)).
  - rewrite online_parts_ranges by done. by destruct h.
  - by destruct rs.
  - apply Forall_fmap. eapply Forall_impl; [exact Hrs|]. intros r Hr. cbn.
    destruct (range_text_chars r Hr) as [Hc _]. eapply all_chars_free; [exact Hc|done].
Qed.

(** ** Concrete runs *)

Example cpu_host : Host := {|
  fs := <["/sys/devices/system/cpu/online" := File ("0-1,3" +:+ newline) 292]>
        (<["/sys/devices/system/node" := Dir 493]>
        (<["/sys/devices/system/node/node0" := Dir 493]>
        (<["/sys/devices/system/node/node0/cpu0" := Dir 493]>
        (<["/sys/devices/system/node/node0/cpu0/topology/core_id" := File ("0" +:+ newline) 292]>
        (<["/sys/devices/system/node/node0/cpu0/topology/physical_package_id" := File ("0" +:+ newline) 292]>
        (<["/sys/devices/system/node/node0/cpu1" := Dir 493]>
        (<["/sys/devices/system/node/node0/cpu1/topology/core_id" := File ("0" +:+ newline) 292]>
        (<["/sys/devices/system/node/node0/cpu1/topology/physical_package_id" := File ("0" +:+ newline) 292]>
        (<["/sys/devices/system/node/node0/cpu2" := Dir 493]>
        (<["/sys/devices/system/node/node0/cpulist" := File "0-2" 292]>
        (<["/proc/meminfo" := File ("MemTotal:        2097152 kB" +:+ newline) 292]> ∅)))))))))));
  tracker := {| Containerd := ""; CniPlugins := false; IamAuthenticator := false;
    IamRolesAnywhere := false; ImageCredentialProvider := false; Kubectl := false;
    Kubelet := false; Ssm := false; Iptables := false |};
  journal := []; provider := no_provider |}.

Lemma isCpuOnline_ranges_witness :
  isCpuOnline "/sys/devices/system/cpu/online" 3 cpu_host =
    (Return true, record (EvRead "/sys/devices/system/cpu/online") cpu_host) ∧
  isCpuOnline "/sys/devices/system/cpu/online" 2 cpu_host =
    (Return false, record (EvRead "/sys/devices/system/cpu/online") cpu_host).
Proof.
  assert (Forall range_ok [(0, 1); (3, 3)]) as Hr by (repeat constructor; cbn; lia).
  split.
  - change true with (existsb (in_range 3) [(0, 1); (3, 3)]). by apply isCpuOnline_ranges.
  - change false with (existsb (in_range 2) [(0, 1); (3, 3)]). by apply isCpuOnline_ranges.
Defined.

(** Two threads of one core, and a third CPU that is not online. *)
Example two_threads :
  (GetMilliNumCores "/sys/devices/system/node" "/sys/devices/system/cpu" cpu_host).1 = Return 2000.
Proof. vm_compute. reflexivity. Qed.

Example two_gib : (GetMachineMemoryCapacity cpu_host).1 = Return (2 * 2 ^ 30).
Proof. vm_compute. reflexivity. Qed.
