(* ===== verification/Base64.v ===== *)
(** * Base64 (Go's [encoding/base64], [StdEncoding])

    What the code decodes certificate authorities with.  The decoder skips
    line ends, wants the padding and does not look at the bits that the
    padding leaves over; the position that Go adds to the error's text is
    left out. *)

From S2P Require Import Prelude GoStrings.
#[local] Open Scope Z_scope.

(** Six bits, the highest first. *)
Inductive sextet := Sx (b5 b4 b3 b2 b1 b0 : bool).

Definition alphabet : string :=
  "ABCDEFGHIJKLMNOPQRSTUVWXYZabcdefghijklmnopqrstuvwxyz0123456789+/".
Definition bit_value (b : bool) (weight : nat) : nat := if b then weight else 0%nat.
Definition sextet_index (s : sextet) : nat :=
  let '(Sx b5 b4 b3 b2 b1 b0) := s in
  (bit_value b5 32 + bit_value b4 16 + bit_value b3 8 + bit_value b2 4 + bit_value b1 2 + bit_value b0 1)%nat.
Definition b64_char (s : sextet) : ascii := default "A"%char (String.get (sextet_index s) alphabet).

Fixpoint index_of (c : ascii) (s : string) : option nat :=
  match s with
  | "" => None
  | String d s => if Ascii.eqb c d then Some 0%nat else S <$> index_of c s
  end.
Definition sextet_of (n : nat) : sextet :=
  let bit (w : nat) := Nat.odd (n / w) in Sx (bit 32%nat) (bit 16%nat) (bit 8%nat) (bit 4%nat) (bit 2%nat) (bit 1%nat).
Definition b64_val (c : ascii) : option sextet := sextet_of <$> index_of c alphabet.

(** Bits of a byte are written lowest first by [Ascii]. *)
Definition split3 (a b c : ascii) : sextet * sextet * sextet * sextet :=
  let '(Ascii a0 a1 a2 a3 a4 a5 a6 a7) := a in
  let '(Ascii b0 b1 b2 b3 b4 b5 b6 b7) := b in
  let '(Ascii c0 c1 c2 c3 c4 c5 c6 c7) := c in
  (Sx a7 a6 a5 a4 a3 a2, Sx a1 a0 b7 b6 b5 b4, Sx b3 b2 b1 b0 c7 c6, Sx c5 c4 c3 c2 c1 c0).
Definition join4 (s t u v : sextet) : ascii * ascii * ascii :=
  let '(Sx s5 s4 s3 s2 s1 s0) := s in
  let '(Sx t5 t4 t3 t2 t1 t0) := t in
  let '(Sx u5 u4 u3 u2 u1 u0) := u in
  let '(Sx v5 v4 v3 v2 v1 v0) := v in
  (Ascii t4 t5 s0 s1 s2 s3 s4 s5, Ascii u2 u3 u4 u5 t0 t1 t2 t3, Ascii v0 v1 v2 v3 v4 v5 u0 u1).

Definition corrupt : error := ENew "illegal base64 data".
Definition zero_sextet : sextet := Sx false false false false false false.

(** Quanta of four characters; only the last may be padded. *)
Fixpoint decode_quanta (fuel : nat) (s : string) : result string :=
  match fuel with
  | O => Err corrupt
  | S fuel =>
      match s with
      | "" => Ok ""
      | String c1 (String c2 (String c3 (String c4 rest))) =>
          match b64_val c1, b64_val c2 with
          | Some s1, Some s2 =>
              match b64_val c3, b64_val c4 with
              | Some s3, Some s4 =>
                  tail ← decode_quanta fuel rest;
                  let '(a, b, c) := join4 s1 s2 s3 s4 in Ok (String a (String b (String c tail)))
              | Some s3, None =>
                  if Ascii.eqb c4 "=" && String.eqb rest ""
                  then let '(a, b, _) := join4 s1 s2 s3 zero_sextet in Ok (String a (String b ""))
                  else Err corrupt
              | None, _ =>
                  if Ascii.eqb c3 "=" && Ascii.eqb c4 "=" && String.eqb rest ""
                  then let '(a, _, _) := join4 s1 s2 zero_sextet zero_sextet in Ok (String a "")
                  else Err corrupt
              end
          | _, _ => Err corrupt
          end
      | _ => Err corrupt
      end
  end.
(** A quantum shortens the text, so its length is fuel enough. *)
Definition base64_DecodeString (s : string) : result string :=
  let s := RemoveByte "010" (RemoveByte "013" s) in decode_quanta (S (String.length s)) s.

(** ** The encoder *)

Fixpoint base64_Encode (s : string) : string :=
  match s with
  | "" => ""
  | String a "" =>
      let '(s1, s2, _, _) := split3 a "000" "000" in
      String (b64_char s1) (String (b64_char s2) "==")
  | String a (String b "") =>
      let '(s1, s2, s3, _) := split3 a b "000" in
      String (b64_char s1) (String (b64_char s2) (String (b64_char s3) "="))
  | String a (String b (String c rest)) =>
      let '(s1, s2, s3, s4) := split3 a b c in
      String (b64_char s1) (String (b64_char s2) (String (b64_char s3) (String (b64_char s4)
        (base64_Encode rest))))
  end.

Lemma b64_val_char s : b64_val (b64_char s) = Some s.
Proof. by destruct s as [[] [] [] [] [] []]. Qed.
Lemma b64_char_plain s :
  Ascii.eqb "010" (b64_char s) = false ∧ Ascii.eqb "013" (b64_char s) = false.
Proof. by destruct s as [[] [] [] [] [] []]. Qed.

(** Induction three bytes at a time, as the encoder goes. *)
Lemma string_ind3 (P : string → Prop) :
  P "" → (∀ a, P (String a "")) → (∀ a b, P (String a (String b ""))) →
  (∀ a b c s, P s → P (String a (String b (String c s)))) → ∀ s, P s.
Proof.
  intros P0 P1 P2 P3. fix IH 1. intros [|a [|b [|c s]]]; [done|done|done|]. apply P3, IH.
Qed.

Lemma RemoveByte_free c s : free_of c s = true → RemoveByte c s = s.
Proof.
  induction s as [|d s IH]; [done|]. cbn [free_of RemoveByte].
  intros [Hd%negb_true_iff Hs]%andb_true_iff. rewrite Ascii.eqb_sym, Hd. by rewrite IH.
Qed.

Lemma b64_char_free c s : c = "010"%char ∨ c = "013"%char → Ascii.eqb (b64_char s) c = false.
Proof. destruct (b64_char_plain s) as [H1 H2]. intros [-> | ->]; by rewrite Ascii.eqb_sym. Qed.

Lemma base64_Encode_free c s : c = "010"%char ∨ c = "013"%char → free_of c (base64_Encode s) = true.
Proof.
  intros Hc. assert (Ascii.eqb "=" c = false) as He by (by destruct Hc as [-> | ->]).
  induction s using string_ind3; [done| | |].
  - cbn [base64_Encode]. destruct (split3 _ _ _) as [[[s1 s2] s3] s4]. cbn [free_of].
    by rewrite !b64_char_free, He.
  - cbn [base64_Encode]. destruct (split3 _ _ _) as [[[s1 s2] s3] s4]. cbn [free_of].
    by rewrite !b64_char_free, He.
  - cbn [base64_Encode]. destruct (split3 _ _ _) as [[[s1 s2] s3] s4]. cbn [free_of].
    by rewrite !b64_char_free, IHs.
Qed.

Lemma join4_split3 a b c : let '(s1, s2, s3, s4) := split3 a b c in join4 s1 s2 s3 s4 = (a, b, c).
Proof. by destruct a, b, c. Qed.

Lemma b64_char_not_pad s : b64_val "=" = None ∧ Ascii.eqb (b64_char s) "=" = false.
Proof. by destruct s as [[] [] [] [] [] []]. Qed.

Lemma decode_quanta_encode s fuel :
  (String.length (base64_Encode s) < fuel)%nat → decode_quanta fuel (base64_Encode s) = Ok s.
Proof.
  revert fuel. induction s as [|a|a b|a b c s IH] using string_ind3; intros fuel Hf;
    (destruct fuel as [|fuel]; [cbn in Hf; lia|]); [done| | |].
  - cbn [base64_Encode]. pose proof (join4_split3 a "000" "000") as Hj.
    destruct a. cbn [split3] in *. cbn [decode_quanta]. rewrite !b64_val_char. cbn in Hj |- *. done.
  - cbn [base64_Encode]. destruct a, b. cbn [split3 decode_quanta]. by rewrite !b64_val_char.
  - cbn [base64_Encode] in *. pose proof (join4_split3 a b c) as Hj.
    destruct (split3 a b c) as [[[s1 s2] s3] s4]. cbn [decode_quanta]. rewrite !b64_val_char.
    rewrite IH by (cbn in Hf; lia). cbn [mbind result_bind]. by rewrite Hj.
Qed.

(** Decoding undoes encoding. *)
Lemma base64_roundtrip s : base64_DecodeString (base64_Encode s) = Ok s.
Proof.
  unfold base64_DecodeString.
  rewrite (RemoveByte_free "013"), (RemoveByte_free "010") by (apply base64_Encode_free; eauto).
  apply decode_quanta_encode. lia.
Qed.

Example decode_hello : base64_DecodeString "aGVsbG8=" = Ok "hello".
Proof. reflexivity. Qed.
Example decode_unpadded : base64_DecodeString "aGVsbG8" = Err corrupt.
Proof. reflexivity. Qed.
