(* ===== verification/Net.v ===== *)
(** * Go's package net: addresses and networks

    The parts of [net] and [net/netip] that the network checks and the
    kubelet's configuration use: parsing and printing of addresses, CIDR
    notation, and membership.  An address is the list of its bytes, 4 or 16
    of them; the nil address is the empty list. *)

From S2P Require Import Prelude GoStrings.
#[local] Open Scope Z_scope.

Definition IP : Type := list Z.

(** ** Parsing (net/netip) *)

(** [parseIPv4Fields]: four numbers up to 255 without leading zeros. *)
Definition parse_octet (s : string) : option Z :=
  match s with
  | "" => None
  | String "0" (String _ _) => None
  | _ => match parse_digits 255 0 s with Ok n => Some n | Err _ => None end
  end.
Definition parseIPv4 (s : string) : option IP :=
  match Split "." s with
  | [a; b; c; d] =>
      a ← parse_octet a; b ← parse_octet b; c ← parse_octet c; d ← parse_octet d;
      Some [a; b; c; d]
  | _ => None
  end.

Definition hex_val (c : ascii) : option Z :=
  let n := Z.of_N (N_of_ascii c) in
  if (48 <=? n) && (n <=? 57) then Some (n - 48)
  else if (97 <=? n) && (n <=? 102) then Some (n - 87)
  else if (65 <=? n) && (n <=? 70) then Some (n - 55) else None.

(** The hexadecimal digits at the head: their number, value and the rest. *)
Fixpoint span_hex (acc : Z) (n : nat) (s : string) : nat * Z * string :=
  match s with
  | String c s' =>
      match hex_val c with
      | Some d => span_hex (acc * 16 + d) (S n) s'
      | None => (n, acc, s)
      end
  | "" => (n, acc, "")
  end.

(** The loop of [parseIPv6]: the bytes read so far, those before the [::]
    when one was seen, and what is left of the string.  Every turn reads at
    least one digit; eight turns fill the address. *)
Fixpoint ipv6_fields (fuel : nat) (ip : IP) (ellipsis : option nat) (s : string)
    : option (IP * option nat * string) :=
  match fuel with
  | O => Some (ip, ellipsis, s)
  | S fuel =>
      let '(off, acc, rest) := span_hex 0 0 s in
      if (off =? 0)%nat || (4 <? off)%nat then None else
      match rest with
      | String "." _ =>
          if (if ellipsis is None then negb (length ip =? 12)%nat else false) ||
             (16 <? length ip + 4)%nat then None
          else v4 ← parseIPv4 s; Some (ip ++ v4, ellipsis, "")
      | "" => Some (ip ++ [acc / 256; acc mod 256], ellipsis, "")
      | String ":" "" => None
      | String ":" (String ":" rest) =>
          if ellipsis is Some _ then None else
          let ip := ip ++ [acc / 256; acc mod 256] in
          if String.eqb rest "" then Some (ip, Some (length ip), "")
          else ipv6_fields fuel ip (Some (length ip)) rest
      | String ":" rest => ipv6_fields fuel (ip ++ [acc / 256; acc mod 256]) ellipsis rest
      | _ => None
      end
  end.
Definition parseIPv6 (s : string) : option IP :=
  let '(ellipsis, s) :=
    match CutPrefix s "::" with (r, true) => (Some O, r) | (_, false) => (None, s) end in
  if (if ellipsis is Some _ then String.eqb s "" else false) then Some (repeat 0 16) else
  '(ip, ellipsis, rest) ← ipv6_fields 8 [] ellipsis s;
  if negb (String.eqb rest "") then None
  else if (length ip <? 16)%nat then
    n ← ellipsis;
    Some (take n ip ++ repeat 0 (16 - length ip) ++ drop n ip)
  else if ellipsis is Some _ then None else Some ip.

(** [netip.ParseAddr]: the first of the characters [.], [:] and [%] tells
    the family; an address with a zone is refused by all callers here. *)
Fixpoint addr_family (s : string) : option bool :=
  match s with
  | "" => None
  | String "." _ => Some true
  | String ":" _ => Some false
  | String "%" _ => None
  | String _ s => addr_family s
  end.
(** The address and its bit length, 32 or 128. *)
Definition ParseAddr (s : string) : option (IP * Z) :=
  match addr_family s with
  | Some true => ip ← parseIPv4 s; Some (ip, 32)
  | Some false => ip ← (if free_of "%" s then parseIPv6 s else None); Some (ip, 128)
  | None => None
  end.

(** ** Addresses (net) *)

Definition v4InV6Prefix : list Z := repeat 0 10 ++ [255; 255].

Definition As16 (ip : IP) : IP :=
  if (length ip =? 4)%nat then v4InV6Prefix ++ ip else ip.
Definition ParseIP (s : string) : option IP := '(ip, _) ← ParseAddr s; Some (As16 ip).

Definition To4 (ip : IP) : option IP :=
  if (length ip =? 4)%nat then Some ip
  else if (length ip =? 16)%nat && bool_decide (take 12 ip = v4InV6Prefix)
  then Some (drop 12 ip) else None.
Definition To16 (ip : IP) : option IP :=
  if (length ip =? 4)%nat then Some (v4InV6Prefix ++ ip)
  else if (length ip =? 16)%nat then Some ip else None.

Definition ip_Equal (a b : IP) : bool :=
  if (length a =? length b)%nat then bool_decide (a = b)
  else if (length a =? 4)%nat && (length b =? 16)%nat then
    bool_decide (take 12 b = v4InV6Prefix) && bool_decide (a = drop 12 b)
  else if (length a =? 16)%nat && (length b =? 4)%nat then
    bool_decide (take 12 a = v4InV6Prefix) && bool_decide (drop 12 a = b)
  else false.

Definition byte (ip : IP) (i : nat) : Z := nth i ip 0.

Definition IsUnspecified (ip : IP) : bool :=
  ip_Equal ip (v4InV6Prefix ++ [0; 0; 0; 0]) || ip_Equal ip (repeat 0 16).
Definition IsLoopback (ip : IP) : bool :=
  match To4 ip with
  | Some ip4 => byte ip4 0 =? 127
  | None => ip_Equal ip (repeat 0 15 ++ [1])
  end.
Definition IsMulticast (ip : IP) : bool :=
  match To4 ip with
  | Some ip4 => Z.land (byte ip4 0) 240 =? 224
  | None => (length ip =? 16)%nat && (byte ip 0 =? 255)
  end.
Definition IsLinkLocalUnicast (ip : IP) : bool :=
  match To4 ip with
  | Some ip4 => (byte ip4 0 =? 169) && (byte ip4 1 =? 254)
  | None => (length ip =? 16)%nat && (byte ip 0 =? 254) && (Z.land (byte ip 1) 192 =? 128)
  end.

(** ** Networks *)

Record IPNet := { net_IP : IP; Mask : list Z }.

(** [CIDRMask(ones, bits)]: byte by byte. *)
Fixpoint cidr_mask (n : Z) (bytes : nat) : list Z :=
  match bytes with
  | O => []
  | S bytes =>
      if 8 <=? n then 255 :: cidr_mask (n - 8) bytes
      else (255 - Z.shiftr 255 n) :: cidr_mask 0 bytes
  end.
Definition and_bytes (a m : list Z) : list Z := zip_with Z.land a m.

(** [dtoi]: at least one digit, nothing else, and below 0xFFFFFF. *)
Definition dtoi (s : string) : option Z :=
  match ParseUint s 64 with
  | Ok n => if n <? 16777215 then Some n else None
  | Err _ => None
  end.

Definition ParseCIDR (s : string) : result (IP * IPNet) :=
  match
    '(addr, mask) ← Cut "/" s;
    '(ip, bits) ← ParseAddr addr;
    n ← dtoi mask;
    if bits <? n then None else
    let m := cidr_mask n (if bits =? 32 then 4 else 16) in
    Some (As16 ip, {| net_IP := and_bytes ip m; Mask := m |})
  with
  | Some r => Ok r
  | None => Err (ENew ("invalid CIDR address: " +:+ s))
  end.

(** [IPNet.Contains] through [networkNumberAndMask]. *)
Definition networkNumberAndMask (n : IPNet) : option (IP * list Z) :=
  let ip := match To4 (net_IP n) with Some ip => ip | None => net_IP n end in
  if negb ((length ip =? 4)%nat || (length ip =? 16)%nat) then None else
  if (length (Mask n) =? 4)%nat then
    if (length ip =? 4)%nat then Some (ip, Mask n) else None
  else if (length (Mask n) =? 16)%nat then
    Some (ip, if (length ip =? 4)%nat then drop 12 (Mask n) else Mask n)
  else None.
Definition net_Contains (n : IPNet) (ip : IP) : bool :=
  let ip := match To4 ip with Some x => x | None => ip end in
  match networkNumberAndMask n with
  | Some (nn, m) =>
      (length ip =? length nn)%nat && bool_decide (and_bytes nn m = and_bytes ip m)
  | None => (length ip =? 0)%nat
  end.

(** ** Printing *)

Definition ipv4_text (ip : IP) : string := Join (Itoa <$> ip) ".".

Definition hex_char (d : Z) : ascii := if d <? 10 then digit_char d else ascii_of_N (Z.to_N (87 + d)).
Definition group_text (g : Z) : string :=
  let ds := [g / 4096; g / 256 mod 16; g / 16 mod 16] in
  (fix go ds := match ds with
     | [] => String (hex_char (g mod 16)) ""
     | d :: ds =>
         if d =? 0 then go ds
         else foldr String "" (hex_char <$> d :: ds ++ [g mod 16])
     end) ds.
Fixpoint groups (ip : IP) : list Z :=
  match ip with a :: b :: ip => a * 256 + b :: groups ip | _ => [] end.
(** The first of the longest runs of at least two zero groups. *)
Fixpoint zero_run (gs : list Z) : nat :=
  match gs with g :: gs => if g =? 0 then S (zero_run gs) else O | [] => O end.
Definition longest_zeros (gs : list Z) : option (nat * nat) :=
  fold_left (λ best i,
      let n := zero_run (drop i gs) in
      if (2 <=? n)%nat && match best with Some (_, m) => (m <? n)%nat | None => true end
      then Some (i, n) else best) (seq 0 8) None.
Definition ipv6_text (ip : IP) : string :=
  let gs := groups ip in
  match longest_zeros gs with
  | Some (i, n) =>
      Join (group_text <$> take i gs) ":" +:+ "::" +:+ Join (group_text <$> drop (i + n) gs) ":"
  | None => Join (group_text <$> gs) ":"
  end.
Definition ip_String (ip : IP) : string :=
  match To4 ip with
  | Some ip4 => ipv4_text ip4
  | None => if (length ip =? 16)%nat then ipv6_text ip
            else if (length ip =? 0)%nat then "<nil>" else "?"
  end.

(** ** Tests of the model on addresses of each shape *)

Example parse_v4 : ParseIP "10.0.0.255" = Some (v4InV6Prefix ++ [10; 0; 0; 255]).
Proof. reflexivity. Qed.
Example parse_v4_bad :
  (ParseIP <$> ["10.0.0"; "10.0.0.256"; "10.00.0.1"; "10.0.0.1.2"; "10..0.1"; "a"; ""; "10.0.0.1%eth0"])
  = repeat None 8.
Proof. reflexivity. Qed.
Example parse_v6 :
  (λ s, ip_String <$> ParseIP s) <$>
    ["2001:DB8:0:0:1::1"; "::"; "::1"; "fe80::"; "1:2:3:4:5:6:7:8"; "::ffff:10.0.0.1"; "64:ff9b::1.2.3.4"]
  = [Some "2001:db8::1:0:0:1"; Some "::"; Some "::1"; Some "fe80::"; Some "1:2:3:4:5:6:7:8";
     Some "10.0.0.1"; Some "64:ff9b::102:304"].
Proof. reflexivity. Qed.
Example parse_v6_bad :
  (ParseIP <$> ["1:2:3:4:5:6:7"; "1:2:3:4:5:6:7:8:9"; "1::2::3"; "12345::"; ":1"; "1:"; "fe80::1%eth0";
                "1:2:3:4:5:6:7::8"; "::1.2.3"]) = repeat None 9.
Proof. reflexivity. Qed.

(** ** Network prefixes

    Masking two addresses byte by byte and comparing is comparing the
    numbers their bytes make, divided by the size of the host part. *)

Fixpoint be_combine (bs : list Z) : Z :=
  match bs with
  | [] => 0
  | b :: bs => b * 2 ^ (8 * Z.of_nat (length bs)) + be_combine bs
  end.
Definition is_byte (b : Z) : Prop := 0 <= b < 256.

Lemma be_combine_bound bs :
  Forall is_byte bs → 0 <= be_combine bs < 2 ^ (8 * Z.of_nat (length bs)).
Proof.
  induction 1 as [|b bs Hb _ IH]; [done|]. unfold is_byte in Hb. cbn [be_combine length].
  replace (8 * Z.of_nat (S (length bs))) with (8 + 8 * Z.of_nat (length bs)) by lia.
  rewrite Z.pow_add_r by lia. change (2 ^ 8) with 256. nia.
Qed.

(** The 2048 cases of a byte under a mask byte, by computation. *)
Lemma mask_byte a n : is_byte a → 0 <= n < 8 →
  Z.land a (255 - Z.shiftr 255 n) = a / 2 ^ (8 - n) * 2 ^ (8 - n).
Proof.
  intros Ha Hn. unfold is_byte in Ha.
  assert (forallb (λ a, forallb (λ n,
      let a := Z.of_nat a in let n := Z.of_nat n in
      Z.land a (255 - Z.shiftr 255 n) =? a / 2 ^ (8 - n) * 2 ^ (8 - n)) (seq 0 8))
    (seq 0 256) = true) as H by (vm_compute; reflexivity).
  rewrite forallb_forall in H. specialize (H (Z.to_nat a)).
  rewrite forallb_forall in H. specialize (H ltac:(apply in_seq; lia) (Z.to_nat n)).
  rewrite !Z2Nat.id, Z.eqb_eq in H by lia. apply H. apply in_seq. lia.
Qed.

Lemma div_cons a b k n : 0 <= b < 2 ^ k → 0 <= n <= k →
  (a * 2 ^ k + b) / 2 ^ (k - n) = a * 2 ^ n + b / 2 ^ (k - n) ∧ 0 <= b / 2 ^ (k - n) < 2 ^ n.
Proof.
  intros Hb Hn. assert (2 ^ k = 2 ^ n * 2 ^ (k - n)) as E by (rewrite <- Z.pow_add_r by lia; f_equal; lia).
  assert (0 < 2 ^ (k - n)) by (apply Z.pow_pos_nonneg; lia). split.
  - rewrite E, Z.mul_assoc, Z.div_add_l by lia. done.
  - split; [apply Z.div_pos; lia|]. apply Z.div_lt_upper_bound; lia.
Qed.

Lemma and_bytes_zero a b : length a = length b →
  and_bytes a (cidr_mask 0 (length a)) = and_bytes b (cidr_mask 0 (length b)).
Proof.
  revert b. induction a as [|x a IH]; intros [|y b]; try done. intros [= Hl].
  cbn [length]. change (cidr_mask 0 (S ?n)) with (0 :: cidr_mask 0 n).
  unfold and_bytes. cbn [zip_with]. rewrite !Z.land_0_r. f_equal. by apply IH.
Qed.

Lemma same_prefix a b n :
  length a = length b → Forall is_byte a → Forall is_byte b →
  0 <= n <= 8 * Z.of_nat (length a) →
  and_bytes a (cidr_mask n (length a)) = and_bytes b (cidr_mask n (length a)) ↔
  be_combine a / 2 ^ (8 * Z.of_nat (length a) - n) =
  be_combine b / 2 ^ (8 * Z.of_nat (length a) - n).
Proof.
  revert b n. induction a as [|x a IH]; intros [|y b] n Hl Ha Hb Hn; try done.
  injection Hl as Hl. inversion Ha as [|? ? Hx Ha']; inversion Hb as [|? ? Hy Hb']; subst.
  pose proof (be_combine_bound a Ha') as Ba. pose proof (be_combine_bound b Hb') as Bb.
  rewrite <- Hl in Bb. cbn [length] in *. cbn [cidr_mask be_combine and_bytes zip_with].
  rewrite <- Hl. set (k := 8 * Z.of_nat (length a)) in *.
  replace (8 * Z.of_nat (S (length a))) with (8 + k) in * by lia.
  destruct (Z.leb_spec 8 n) as [Hge|Hlt].
  - unfold and_bytes. cbn [zip_with]. fold (and_bytes a) (and_bytes b).
    replace (8 + k - n) with (k - (n - 8)) by lia.
    destruct (div_cons x (be_combine a) k (n - 8)) as [-> Qa]; [done|lia|].
    destruct (div_cons y (be_combine b) k (n - 8)) as [-> Qb]; [done|lia|].
    assert (Z.land x 255 = x ∧ Z.land y 255 = y) as [-> ->].
    { change 255 with (Z.ones 8). unfold is_byte in *. split; rewrite Z.land_ones, Z.mod_small; lia. }
    specialize (IH b (n - 8) Hl Ha' Hb' ltac:(lia)). fold k in IH. split.
    + intros [= -> E]. f_equal. by apply IH.
    + intros E. assert (x = y) as -> by nia. f_equal. apply IH. lia.
  - unfold and_bytes. cbn [zip_with]. fold (and_bytes a) (and_bytes b).
    rewrite !mask_byte by (done || lia).
    pose proof (and_bytes_zero a b Hl) as Hz. rewrite <- Hl in Hz. unfold and_bytes in Hz.
    rewrite Hz.
    replace (8 + k - n) with (k + (8 - n)) by lia.
    rewrite Z.pow_add_r, <- !Z.div_div, !Z.div_add_l by lia.
    rewrite !(Z.div_small (be_combine _)), !Z.add_0_r by lia.
    split; [intros [= E]|intros ->; done].
    apply Z.mul_reg_r in E; [done|]. apply Z.pow_nonzero; lia.
Qed.

(** ** Printed addresses parse back *)

Lemma parse_octet_Itoa n : is_byte n → parse_octet (Itoa n) = Some n.
Proof.
  intros Hn. unfold is_byte in Hn.
  assert (forallb (λ n, bool_decide (parse_octet (Itoa (Z.of_nat n)) = Some (Z.of_nat n)))
    (seq 0 256) = true) as H by (vm_compute; reflexivity).
  rewrite forallb_forall in H. specialize (H (Z.to_nat n) ltac:(apply in_seq; lia)).
  rewrite Z2Nat.id in H by lia. by apply bool_decide_eq_true in H.
Qed.

Lemma ipv4_text_free c ip :
  is_digit c = false → c ≠ "."%char → Forall is_byte ip → free_of c (ipv4_text ip) = true.
Proof.
  intros Hc Hd HF. unfold ipv4_text. apply all_chars_free with (f := λ x, is_digit x || Ascii.eqb x ".").
  2:{ rewrite Hc. by apply Ascii.eqb_neq. }
  assert (∀ n, is_byte n → all_chars (λ x, is_digit x || Ascii.eqb x ".") (Itoa n) = true) as Hn.
  { intros n Hn. rewrite Itoa_nonneg by (unfold is_byte in Hn; lia).
    eapply all_chars_impl; [|apply itoa_nonneg_digits]. by intros x ->. }
  induction HF as [|n ip Hb HF IH]; [done|]. cbn [fmap list_fmap]. destruct ip as [|m ip].
  - by apply Hn.
  - cbn [fmap list_fmap] in *. rewrite Join_cons, !all_chars_app, Hn by done. by rewrite IH.
Qed.

Lemma parseIPv4_text a b c d :
  Forall is_byte [a; b; c; d] → parseIPv4 (ipv4_text [a; b; c; d]) = Some [a; b; c; d].
Proof.
  intros HF. unfold parseIPv4, ipv4_text. change "." with (String "." "").
  rewrite Split_Join; [|done|].
  - inversion HF as [|? ? Ha HF1]; inversion HF1 as [|? ? Hb HF2]; subst.
    inversion HF2 as [|? ? Hc HF3]; inversion HF3 as [|? ? Hd _]; subst.
    cbn [fmap list_fmap]. by rewrite !parse_octet_Itoa.
  - apply Forall_fmap. eapply Forall_impl; [exact HF|]. intros n Hn. unfold is_byte in Hn.
    apply Itoa_free; [lia|done].
Qed.

Lemma addr_family_digits s t :
  all_chars is_digit s = true → addr_family (s +:+ String "." t) = Some true.
Proof.
  induction s as [|c s IH]; [done|]. cbn [all_chars]. rewrite andb_true_iff, app_cons_str.
  intros [Hc Hs]. rewrite <- (IH Hs). by destruct c as [[] [] [] [] [] [] [] []].
Qed.

Lemma ParseAddr_text a b c d :
  Forall is_byte [a; b; c; d] → ParseAddr (ipv4_text [a; b; c; d]) = Some ([a; b; c; d], 32).
Proof.
  intros HF. unfold ParseAddr.
  assert (addr_family (ipv4_text [a; b; c; d]) = Some true) as ->.
  { inversion HF as [|? ? Ha _]; subst. unfold ipv4_text. cbn [fmap list_fmap]. rewrite Join_cons.
    unfold is_byte in Ha. rewrite Itoa_nonneg by lia.
    apply addr_family_digits, itoa_nonneg_digits. }
  by rewrite parseIPv4_text.
Qed.

(** The network that CIDR notation of an IPv4 prefix gives. *)
Lemma ParseCIDR_text a b c d n :
  Forall is_byte [a; b; c; d] → 0 <= n <= 32 →
  ParseCIDR (ipv4_text [a; b; c; d] +:+ "/" +:+ Itoa n) =
    Ok (As16 [a; b; c; d],
        {| net_IP := and_bytes [a; b; c; d] (cidr_mask n 4); Mask := cidr_mask n 4 |}).
Proof.
  intros HF Hn. unfold ParseCIDR.
  assert (Cut "/" (ipv4_text [a; b; c; d] +:+ "/" +:+ Itoa n) =
          Some (ipv4_text [a; b; c; d], Itoa n)) as ->.
  { apply Cut_spec. split; [done|]. by apply ipv4_text_free. }
  cbn [mbind option_bind]. rewrite ParseAddr_text by done. cbn [mbind option_bind].
  unfold dtoi. rewrite Itoa_nonneg, ParseUint_itoa by lia.
  rewrite (proj2 (Z.ltb_lt n 16777215)) by lia. cbn [mbind option_bind].
  by rewrite (proj2 (Z.ltb_ge 32 n)) by lia.
Qed.

Lemma length_cidr_mask n k : length (cidr_mask n k) = k.
Proof. revert n. induction k as [|k IH]; intros n; [done|]. cbn. by destruct (8 <=? n); cbn; rewrite IH. Qed.

Lemma land_idemp a m : Z.land (Z.land a m) m = Z.land a m.
Proof. by rewrite <- Z.land_assoc, Z.land_diag. Qed.

Lemma To4_As16 ip : length ip = 4%nat → To4 (As16 ip) = Some ip.
Proof. by destruct ip as [|? [|? [|? [|? [|]]]]]. Qed.

(** Membership in an IPv4 network is equality of the network parts. *)
Lemma net_Contains_v4 ip net n :
  length ip = 4%nat → length net = 4%nat → Forall is_byte ip → Forall is_byte net →
  0 <= n <= 32 →
  net_Contains {| net_IP := and_bytes net (cidr_mask n 4); Mask := cidr_mask n 4 |} (As16 ip) =
    (be_combine net / 2 ^ (32 - n) =? be_combine ip / 2 ^ (32 - n)).
Proof.
  intros Hip Hnet Fip Fnet Hn. unfold net_Contains. rewrite To4_As16 by done.
  assert (length (and_bytes net (cidr_mask n 4)) = 4%nat) as Hl
    by (unfold and_bytes; rewrite length_zip_with, length_cidr_mask; lia).
  unfold networkNumberAndMask. cbn [net_IP Mask].
  assert (To4 (and_bytes net (cidr_mask n 4)) = Some (and_bytes net (cidr_mask n 4))) as ->
    by (unfold To4; by rewrite Hl).
  rewrite Hl, length_cidr_mask. cbn [Nat.eqb orb negb]. rewrite Hl, Hip. cbn [Nat.eqb andb].
  assert (and_bytes (and_bytes net (cidr_mask n 4)) (cidr_mask n 4) =
          and_bytes net (cidr_mask n 4)) as ->.
  { clear Hl. generalize (cidr_mask n 4). intros m. revert m.
    clear -net. unfold and_bytes. induction net as [|x l IH]; intros [|y m]; try done.
    cbn. by rewrite land_idemp, IH. }
  pose proof (same_prefix net ip n ltac:(congruence) Fnet Fip) as HS.
  rewrite Hnet in HS. specialize (HS Hn). change (8 * Z.of_nat 4 - n) with (32 - n) in HS.
  apply eq_true_iff_eq. by rewrite bool_decide_eq_true, Z.eqb_eq, HS.
Qed.
