(* ===== verification/Network.v ===== *)
(** * Network checks (internal/network: utils.go, interface.go, proxy.go,
      proxy_validator.go, connection.go)

    Which address the node will have, whether the cluster routes to it, and
    whether the proxy settings of the host agree with one another. *)

From S2P Require Import Prelude GoStrings Host Validation Validators Net Api Node.
#[local] Open Scope Z_scope.

(** ** Addresses in networks (utils.go) *)

Definition ContainsIP (cidr : string) (ip : IP) : result bool :=
  '(_, ipnet) ← ParseCIDR cidr;
  Ok (net_Contains ipnet ip).

Fixpoint in_cidrs (ip : IP) (cidrs : list string) : result bool :=
  match cidrs with
  | [] => Ok false
  | cidr :: cidrs =>
      match ContainsIP cidr ip with
      | Err e => Err (EWrap ("error checking IP in CIDR " +:+ cidr) e)
      | Ok true => Ok true
      | Ok false => in_cidrs ip cidrs
      end
  end.
Definition IsIPInCIDRs (ip : IP) (cidrs : list string) : result bool :=
  match To4 ip with
  | None => Err (ENew "error: ip is invalid")
  | Some _ => in_cidrs ip cidrs
  end.

Definition ExtractCIDRsFromNodeNetworks (networks : list RemoteNodeNetwork) : list string :=
  networks ≫= λ n, keep (λ cidr, negb (String.eqb cidr "")) (Cidrs n).

(** The last argument of the form [--flag=value], [value] not empty. *)
Definition ExtractFlagValue (args : list string) (flag : string) : string :=
  let flagPrefix := "--" +:+ flag +:+ "=" in
  fold_left (λ flagValue arg,
    if (String.length flagPrefix <? String.length arg)%nat && HasPrefix arg flagPrefix
    then drop_str (String.length flagPrefix) arg else flagValue) args "".

(** [None] when the flag is not set. *)
Definition ExtractNodeIPFromFlags (kubeletArgs : list string) : result (option IP) :=
  let ipStr := ExtractFlagValue kubeletArgs "node-ip" in
  if String.eqb ipStr "" then Ok None else
  match ParseIP ipStr with
  | None => Err (ENew ("invalid ip " +:+ ipStr +:+
                       " in --node-ip flag. only 1 IPv4 address is allowed"))
  | Some ip =>
      match To4 ip with
      | None => Err (ENew ("invalid IPv6 address " +:+ ipStr +:+
                           " in --node-ip flag. only IPv4 is supported"))
      | Some _ => Ok (Some ip)
      end
  end.

(** [ValidateMTU]. *)
Definition ValidateMTU (mtu : Z) : option error :=
  if mtu <=? 0 then Some (ENew ("MTU must be a positive value, got " +:+ Itoa mtu))
  else if (68 <=? mtu) && (mtu <=? 1500) then None
  else if (8000 <=? mtu) && (mtu <=? 9001) then None
  else Some (ENew ("MTU " +:+ Itoa mtu +:+
    " is not in acceptable ranges: 68-1500 (standard) or 8000-9001 (jumbo frames)")).

(** The [Network] interface; an address of an interface is nil when it is
    neither an [IPNet] nor an [IPAddr]. *)
Record Network := {
  LookupIP : string → M Host (list IP);
  ResolveBindAddress : option IP → M Host (option IP);
  InterfaceAddrs : M Host (list (option IP));
}.

Section NodeIP.
Context `{Env} (network : Network).

Definition is_addr (nodeIP : IP) (addr : option IP) : bool :=
  match addr with Some ip => ip_Equal ip nodeIP | None => false end.

Definition ValidateNodeIP (nodeIP : IP) : M Host unit :=
  if (if To4 nodeIP is None then if To16 nodeIP is None then true else false else false)
  then throw (ENew "nodeIP must be a valid IP address")
  else if IsLoopback nodeIP then throw (ENew "nodeIP can't be loopback address")
  else if IsMulticast nodeIP then throw (ENew "nodeIP can't be a multicast address")
  else if IsLinkLocalUnicast nodeIP then throw (ENew "nodeIP can't be a link-local unicast address")
  else if IsUnspecified nodeIP then throw (ENew "nodeIP can't be an all zeros address")
  else
    addrs ← InterfaceAddrs network;
    if existsb (is_addr nodeIP) addrs then mret tt
    else throw (ENew ("node IP: " +:+ dquote +:+ ip_String nodeIP +:+ dquote +:+
                      " not found in the host's network interfaces")).

(** The loop over the addresses a name resolves to: the first IPv4 address
    that is one of the host's. *)
Fixpoint first_node_ip (addrs : list IP) : M Host (option IP) :=
  match addrs with
  | [] => mret None
  | addr :: addrs =>
      r ← try (ValidateNodeIP addr);
      match To4 addr, r with
      | Some _, Ok _ => mret (Some addr)
      | _, _ => first_node_ip addrs
      end
  end.

Definition GetNodeIP (kubeletArgs : list string) (nodeName : string) : M Host IP :=
  nodeIP ← of_result (ExtractNodeIPFromFlags kubeletArgs);
  let specified := match nodeIP with
    | Some ip => (if To4 ip is Some _ then true else false) && negb (IsUnspecified ip)
    | None => false
    end in
  match specified, nodeIP with
  | true, Some ip => mret ip
  | _, _ =>
      ipAddr ← (if String.eqb nodeName "" then mret None else
                r ← try (LookupIP network nodeName);
                first_node_ip match r with Ok addrs => addrs | Err _ => [] end);
      match ipAddr with
      | Some ip => mret ip
      | None =>
          r ← try (ResolveBindAddress network nodeIP);
          match r with
          | Ok (Some ip) => mret ip
          | Ok None => throw (ENew "couldn't get ip address of node: %!w(<nil>)")
          | Err e => throw (EWrap "couldn't get ip address of node" e)
          end
      end
  end.

Definition ValidateIPInRemoteNodeNetwork (ipAddr : IP) (remoteNodeNetwork : list RemoteNodeNetwork)
    : result unit :=
  let nodeNetworkCidrs := ExtractCIDRsFromNodeNetworks remoteNodeNetwork in
  validIP ← IsIPInCIDRs ipAddr nodeNetworkCidrs;
  if validIP : bool then Ok tt
  else Err (ENew ("node IP " +:+ ip_String ipAddr +:+
    " is not in any of the remote network CIDR blocks: [" +:+ Join nodeNetworkCidrs " " +:+
    "]. See https://docs.aws.amazon.com/eks/latest/userguide/hybrid-nodes-troubleshooting.html or use --skip node-ip-validation")).

Definition ValidateClusterRemoteNetworkConfig (cluster : EksCluster)
    : M Host (list RemoteNodeNetwork) :=
  match RemoteNetworkConfig cluster with
  | None => name ← deref (eks_Name cluster);
            throw (ENew ("remote network config is not set for cluster " +:+ name))
  | Some c =>
      match RemoteNodeNetworks c with
      | None => name ← deref (eks_Name cluster);
                throw (ENew ("remote node networks not found in remote network config for cluster " +:+ name))
      | Some networks => mret networks
      end
  end.

(** *** Interfaces of the host *)

Record Interface := {
  if_Name : string;
  MTU : Z;
  FlagLoopback : bool;
  FlagUp : bool;
  Addrs : result (list (option IP));
}.
Context (net_Interfaces : M Host (list Interface)).

Definition has_ip (nodeIP : IP) (iface : Interface) : bool :=
  negb (FlagLoopback iface) && FlagUp iface &&
  match Addrs iface with Ok addrs => existsb (is_addr nodeIP) addrs | Err _ => false end.
Definition FindNetworkInterfaceForIP (nodeIP : IP) : M Host Interface :=
  interfaces ← map_err (EWrap "failed to get network interfaces") net_Interfaces;
  match find (has_ip nodeIP) interfaces with
  | Some iface => mret iface
  | None => throw (ENew ("no active network interface found with IP " +:+ ip_String nodeIP))
  end.
Definition ValidateNetworkInterfaceMTUForIP (nodeIP : IP) : M Host unit :=
  iface ← FindNetworkInterfaceForIP nodeIP;
  match ValidateMTU (MTU iface) with
  | None => mret tt
  | Some e => throw (EWrap ("interface " +:+ if_Name iface +:+ " (IP: " +:+ ip_String nodeIP +:+
                            ") has invalid MTU " +:+ Itoa (MTU iface)) e)
  end.

(** ** The interface validator (interface.go) *)

Record NetworkInterfaceValidator := { validateMTU : bool; niv_cluster : option EksCluster }.
Definition NewNetworkInterfaceValidator
    (opts : list (NetworkInterfaceValidator → NetworkInterfaceValidator))
    : NetworkInterfaceValidator :=
  fold_left (λ v opt, opt v) opts {| validateMTU := true; niv_cluster := None |}.
Definition WithMTUValidation (b : bool) (v : NetworkInterfaceValidator) :=
  {| validateMTU := b; niv_cluster := niv_cluster v |}.
Definition niv_WithCluster (c : option EksCluster) (v : NetworkInterfaceValidator) :=
  {| validateMTU := validateMTU v; niv_cluster := c |}.

Definition check_interface (v : NetworkInterfaceValidator) (cluster : EksCluster)
    (node : NodeConfig) : M Host unit :=
  networks ← map_err (λ e, WithRemediation e
      "Ensure the EKS cluster has remote network configuration set up properly. The cluster must have remote node networks configured to validate hybrid node connectivity.")
    (ValidateClusterRemoteNetworkConfig cluster);
  let iamNodeName := if IsIAMRolesAnywhere node then status_NodeName (Status node) else "" in
  nodeIP ← map_err (λ e, WithRemediation e
      "Ensure the node has a valid network interface configuration. Check that the node can resolve its hostname or has a valid --node-ip flag set. See https://docs.aws.amazon.com/eks/latest/userguide/hybrid-nodes-troubleshooting.html")
    (GetNodeIP (Flags (spec_Kubelet (Spec node))) iamNodeName);
  map_err (λ e, WithRemediation e
      "Ensure the node IP is within the configured remote network CIDR blocks. Update the remote network configuration in the EKS cluster or adjust the node's network configuration. See https://docs.aws.amazon.com/eks/latest/userguide/hybrid-nodes-troubleshooting.html")
    (of_result (ValidateIPInRemoteNodeNetwork nodeIP networks));;
  when (validateMTU v)
    (map_err (λ e, WithRemediation e
      "Ensure the network interface with the node IP has a valid MTU value. MTU should be <= 1500 (standard Ethernet) or between 8000-9001 (jumbo frames). Update the network interface configuration to use acceptable MTU values. See https://docs.aws.amazon.com/vpc/latest/tgw/transit-gateway-quotas.html#mtu-quotas")
      (ValidateNetworkInterfaceMTUForIP nodeIP)).

(** A validator with nothing to check: announced and reported as done. *)
Definition skipped {W} (i : Informer W) (name msg : string) : M W unit :=
  Starting i name msg;; Done i name None.

Definition NetworkInterfaceValidator_Run (v : NetworkInterfaceValidator)
    (node : NodeConfig) (i : Informer Host) : M Host unit :=
  let name := "network-interface-validation" in
  match niv_cluster v with
  | None => skipped i name
      "Skipping network interface validation due to node IAM role missing EKS DescribeCluster permission"
  | Some cluster =>
      informed i name "Validating hybrid node network interface" (check_interface v cluster node)
  end.
End NodeIP.

(** ** Properties *)

(** An IPv4 prefix: the four bytes of an address and the prefix length. *)
Definition prefix_ok (p : list Z * Z) : Prop :=
  length p.1 = 4%nat ∧ Forall is_byte p.1 ∧ 0 <= p.2 <= 32.
Definition prefix_text (p : list Z * Z) : string := ipv4_text p.1 +:+ "/" +:+ Itoa p.2.
(** The reference: addresses as 32-bit numbers, the prefix by division. *)
Definition in_prefix (ip : list Z) (p : list Z * Z) : bool :=
  be_combine p.1 / 2 ^ (32 - p.2) =? be_combine ip / 2 ^ (32 - p.2).

Lemma ContainsIP_prefix ip p :
  length ip = 4%nat → Forall is_byte ip → prefix_ok p →
  ContainsIP (prefix_text p) (As16 ip) = Ok (in_prefix ip p).
Proof.
  destruct p as [net n]. intros Hl Hip (Hn & Hnet & Hr). cbn in *.
  unfold ContainsIP, prefix_text. cbn [fst snd].
  destruct net as [|a [|b [|c [|d [|]]]]]; try done.
  rewrite ParseCIDR_text by done. cbn [mbind result_bind].
  by rewrite net_Contains_v4.
Qed.

(** C35. Whether the node's IPv4 address lies in one of the cluster's remote
    networks, decided by parsing CIDR text and masking byte by byte, agrees
    with arithmetic on 32-bit numbers: for any address and any list of
    printed prefixes of length 0 to 32, the answer is whether address and
    network are equal after dividing by the size of the host part. *)
Theorem IsIPInCIDRs_arith ip nets :
  length ip = 4%nat → Forall is_byte ip → Forall prefix_ok nets →
  IsIPInCIDRs (As16 ip) (prefix_text <$> nets) = Ok (existsb (in_prefix ip) nets).
Proof.
  intros Hl Hip Hn. unfold IsIPInCIDRs. rewrite To4_As16 by done.
  induction Hn as [|p nets Hp _ IH]; [done|]. cbn [fmap list_fmap in_cidrs existsb].
  rewrite ContainsIP_prefix by done. by destruct (in_prefix ip p).
Qed.

Lemma IsIPInCIDRs_arith_witness :
  IsIPInCIDRs (As16 [10; 129; 0; 7]) ["192.168.0.0/16"; "10.128.0.0/9"] = Ok true ∧
  IsIPInCIDRs (As16 [10; 127; 0; 7]) ["192.168.0.0/16"; "10.128.0.0/9"] = Ok false.
Proof.
  change ["192.168.0.0/16"; "10.128.0.0/9"]
    with (prefix_text <$> [([192; 168; 0; 0], 16); ([10; 128; 0; 0], 9)]).
  assert (Forall prefix_ok [([192; 168; 0; 0], 16); ([10; 128; 0; 0], 9)]) as Hp.
  { unfold prefix_ok, is_byte. repeat constructor; cbn; lia. }
  split.
  - change true with (existsb (in_prefix [10; 129; 0; 7]) [([192; 168; 0; 0], 16); ([10; 128; 0; 0], 9)]).
    apply IsIPInCIDRs_arith; [done| |done]. unfold is_byte. repeat constructor; lia.
  - change false with (existsb (in_prefix [10; 127; 0; 7]) [([192; 168; 0; 0], 16); ([10; 128; 0; 0], 9)]).
    apply IsIPInCIDRs_arith; [done| |done]. unfold is_byte. repeat constructor; lia.
Defined.

(** The comment of [ValidateMTU] allows any value up to 1500. *)
Example mtu_67 : ValidateMTU 67 ≠ None ∧ ValidateMTU 68 = None.
Proof. by split. Qed.
