(* ===== verification/Proxy.v ===== *)
(** * Proxy settings and connections (internal/network: proxy.go,
      proxy_validator.go, connection.go)

    The proxy environment of the process against the files that give the
    package manager and the services theirs, and the check that a host can
    be reached, through the proxy when there is one. *)

From S2P Require Import Prelude GoStrings Host Validation Validators Api Node.
#[local] Open Scope Z_scope.

Section Proxy.
Context `{Env}.
(** [os.Getenv]: unset is empty. *)
Context (Getenv : string → string).
(** [httpproxy.FromEnvironment]: its HTTP and HTTPS proxies. *)
Context (FromEnvironment : string * string).
(** [system.GetOsName], the [ID] of /etc/os-release as an INI file. *)
Context (GetOsName : Host → string).

Definition nonempty (s : string) : bool := negb (String.eqb s "").

Definition IsProxyEnabled : bool :=
  nonempty FromEnvironment.1 || nonempty FromEnvironment.2 ||
  nonempty (Getenv "HTTP_PROXY") || nonempty (Getenv "HTTPS_PROXY") ||
  nonempty (Getenv "http_proxy") || nonempty (Getenv "https_proxy").

Definition proxyVars : list (string * string) :=
  [("HTTP_PROXY", "http_proxy"); ("HTTPS_PROXY", "https_proxy"); ("NO_PROXY", "no_proxy")].

Definition consistent (vars : string * string) : bool :=
  let upperValue := Getenv vars.1 in
  let lowerValue := Getenv vars.2 in
  negb (nonempty upperValue && nonempty lowerValue && negb (String.eqb upperValue lowerValue)).

Definition validateProxyVariableConsistency : M Host unit :=
  for_each (λ vars,
    if consistent vars then mret tt else
    let '(upper, lower) := vars in
    throw (WithRemediation
      (ENew (upper +:+ " and " +:+ lower +:+ " environment variables have different values: " +:+
             upper +:+ "=" +:+ Getenv upper +:+ ", " +:+ lower +:+ "=" +:+ Getenv lower))
      ("Ensure " +:+ upper +:+ " and " +:+ lower +:+ " have the same value in your environment")))
  proxyVars.

Definition getEffectiveProxyValue (upperVar lowerVar : string) : string :=
  let upperValue := Getenv upperVar in
  if nonempty upperValue then upperValue else Getenv lowerVar.
Definition httpProxy : string := getEffectiveProxyValue "HTTP_PROXY" "http_proxy".
Definition httpsProxy : string := getEffectiveProxyValue "HTTPS_PROXY" "https_proxy".
Definition noProxy : string := getEffectiveProxyValue "NO_PROXY" "no_proxy".

(** *** Configuration files

    Every check looks for a file, reads it, and for its settings as
    substrings. *)

(** [need] is the setting, the text looked for; the error and the
    remediation when the text is not there. *)
Definition require_text (content need : string) (err remediation : string) : M Host unit :=
  if Contains content need then mret tt
  else throw (WithRemediation (ENew err) remediation).

(** A missing file is [not_found]; a file that cannot be read is an error
    without remediation. *)
Definition config_file (path : string) (not_found : error) (read_msg : string) : M Host string :=
  found ← file_Exists path;
  if negb found then throw not_found else
  map_err (EWrap read_msg) (os_ReadFile path).

Definition validateAptProxyConfig (httpProxy httpsProxy : string) : M Host unit :=
  let aptConfPath := "/etc/apt/apt.conf.d/proxy.conf" in
  let http := "Acquire::http::Proxy " +:+ dquote +:+ httpProxy +:+ dquote in
  let https := "Acquire::https::Proxy " +:+ dquote +:+ httpsProxy +:+ dquote in
  content ← config_file aptConfPath
    (WithRemediation (ENew ("apt proxy configuration file not found: " +:+ aptConfPath))
      ("Create the apt proxy configuration file at " +:+ aptConfPath +:+
       " with the following content:" +:+ newline +:+ http +:+ ";" +:+ newline +:+ https +:+ ";"))
    "failed to read apt proxy configuration file";
  when (nonempty httpProxy) (require_text content http
    "apt proxy configuration file does not contain correct HTTP proxy setting"
    ("Update the apt proxy configuration file at " +:+ aptConfPath +:+
     " with the correct HTTP proxy setting: " +:+ http +:+ ";"));;
  when (nonempty httpsProxy) (require_text content https
    "apt proxy configuration file does not contain correct HTTPS proxy setting"
    ("Update the apt proxy configuration file at " +:+ aptConfPath +:+
     " with the correct HTTPS proxy setting: " +:+ https +:+ ";")).

(** [validateYumProxyConfig] and [validateDnfProxyConfig] differ in the name
    and the path; only the HTTP proxy is looked for. *)
Definition validate_main_proxy (name path httpProxy : string) : M Host unit :=
  content ← config_file path
    (WithRemediation (ENew (name +:+ " configuration file not found: " +:+ path))
      ("Create the " +:+ name +:+ " configuration file at " +:+ path +:+
       " with the following content:" +:+ newline +:+ "[main]" +:+ newline +:+ "proxy=" +:+ httpProxy))
    ("failed to read " +:+ name +:+ " configuration file");
  when (nonempty httpProxy) (require_text content ("proxy=" +:+ httpProxy)
    (name +:+ " configuration file does not contain correct proxy setting")
    ("Update the " +:+ name +:+ " configuration file at " +:+ path +:+
     " with the correct proxy setting: proxy=" +:+ httpProxy)).
Definition validateYumProxyConfig (httpProxy httpsProxy : string) : M Host unit :=
  validate_main_proxy "yum" "/etc/yum.conf" httpProxy.
Definition validateDnfProxyConfig (httpProxy httpsProxy : string) : M Host unit :=
  validate_main_proxy "dnf" "/etc/dnf/dnf.conf" httpProxy.

Definition UbuntuOsName : string := "ubuntu".
Definition RhelOsName : string := "rhel".
Definition AmazonOsName : string := "amzn".

Definition validatePackageManagerProxyConfig (osName : string) : M Host unit :=
  if negb (nonempty httpProxy) && negb (nonempty httpsProxy) then mret tt
  else if String.eqb osName UbuntuOsName then validateAptProxyConfig httpProxy httpsProxy
  else if String.eqb osName RhelOsName then validateYumProxyConfig httpProxy httpsProxy
  else if String.eqb osName AmazonOsName then validateDnfProxyConfig httpProxy httpsProxy
  else throw (ENew ("unsupported operating system: " +:+ osName)).

(** Both settings are required here, also one that is empty. *)
Definition validateSystemdServiceProxyConfig (serviceName servicePath : string) : M Host unit :=
  if negb (nonempty httpProxy) && negb (nonempty httpsProxy) then mret tt else
  let env v := "Environment=" +:+ dquote +:+ v +:+ dquote in
  content ← config_file servicePath
    (WithRemediation
      (ENew (serviceName +:+ " proxy configuration file not found: " +:+ servicePath))
      ("Create the " +:+ serviceName +:+ " proxy configuration file at " +:+ servicePath +:+
       " with the following content:" +:+ newline +:+ "[Service]" +:+ newline +:+
       env ("HTTP_PROXY=" +:+ httpProxy) +:+ newline +:+ env ("HTTPS_PROXY=" +:+ httpsProxy) +:+
       newline +:+ env ("NO_PROXY=" +:+ noProxy)))
    ("failed to read " +:+ serviceName +:+ " proxy configuration file");
  require_text content ("HTTP_PROXY=" +:+ httpProxy)
    (serviceName +:+ " proxy configuration file does not contain correct HTTP_PROXY value")
    ("Update the " +:+ serviceName +:+ " proxy configuration file at " +:+ servicePath +:+
     " with the correct HTTP_PROXY value: " +:+ httpProxy);;
  require_text content ("HTTPS_PROXY=" +:+ httpsProxy)
    (serviceName +:+ " proxy configuration file does not contain correct HTTPS_PROXY value")
    ("Update the " +:+ serviceName +:+ " proxy configuration file at " +:+ servicePath +:+
     " with the correct HTTPS_PROXY value: " +:+ httpsProxy).

Definition kubeletServicePath : string := "/etc/systemd/system/kubelet.service.d/http-proxy.conf".
Definition containerdServicePath : string :=
  "/usr/lib/systemd/system/containerd.service.d/http-proxy.conf".
Definition validateKubeletProxyConfig : M Host unit :=
  validateSystemdServiceProxyConfig "kubelet" kubeletServicePath.
Definition validateContainerdProxyConfig : M Host unit :=
  validateSystemdServiceProxyConfig "containerd" containerdServicePath.
Definition validateSSMProxyConfig (osName : string) : M Host unit :=
  if String.eqb osName UbuntuOsName then
    validateSystemdServiceProxyConfig "SSM"
      "/etc/systemd/system/snap.amazon-ssm-agent.amazon-ssm-agent.service.d/http-proxy.conf"
  else if String.eqb osName RhelOsName || String.eqb osName AmazonOsName then
    validateSystemdServiceProxyConfig "SSM"
      "/etc/systemd/system/amazon-ssm-agent.service.d/http-proxy.conf"
  else throw (ENew ("unsupported operating system: " +:+ osName)).

Definition proxy_Validate (node : NodeConfig) : M Host unit :=
  if negb IsProxyEnabled then mret tt else
  validateProxyVariableConsistency;;
  osName ← gets GetOsName;
  when (nonempty osName)
    (validatePackageManagerProxyConfig osName;;
     validateKubeletProxyConfig;;
     validateContainerdProxyConfig;;
     when (IsSSM node) (validateSSMProxyConfig osName)).
Definition ProxyValidator_Run (node : NodeConfig) (i : Informer Host) : M Host unit :=
  informed i "proxy-configuration" "Validating proxy configuration on the hybrid node"
    (proxy_Validate node).

(** ** Reaching a host (connection.go) *)

Record URL := { Scheme : string; Hostname : string; url_Port : string }.
(** The proxy for a URL, if any, as its host and port. *)
Context (ProxyFunc : URL → result (option string)).
(** What the proxy answers to CONNECT: the status code. *)
Context (connect_status : Host → string → result Z).

Definition CheckConnectionToHost (targetURL : URL) : M Host unit :=
  let port := if String.eqb (url_Port targetURL) "" && String.eqb (Scheme targetURL) "https"
              then "443" else url_Port targetURL in
  let target := Hostname targetURL +:+ ":" +:+ port in
  proxyURL ← map_err (EWrap "getting proxy URL") (of_result (ProxyFunc targetURL));
  let host := match proxyURL with Some p => p | None => target end in
  map_err (EWrap ("dialing " +:+ host)) (external (EvCall ("dial tcp " +:+ host)));;
  match proxyURL with
  | None => mret tt
  | Some _ =>
      map_err (EWrap "proxy: writing CONNECT request")
        (external (EvCall ("CONNECT " +:+ target)));;
      status ← map_err (EWrap "proxy: reading CONNECT response")
                 (λ h, of_result (connect_status h target) h);
      if status =? 200 then mret tt
      else throw (ENew ("proxy: returned status: " +:+ Itoa status))
  end.
End Proxy.
