(* ===== verification/Aspects.v ===== *)
(** * Host aspects (internal/system: sysctl.go, ports.go, networking.go,
      local_disk.go, aspect.go; internal/firewall)

    The parts of the host that [init] sets up besides swap.  The ports
    aspect is written against the [Manager] interface of the firewall; here
    it is proved against what the interface promises, the class
    [FirewallView], which both firewalls implement. *)

From S2P Require Import Prelude GoStrings Scanner Host Tracker Validators Api Flows Resources Swap.
#[local] Open Scope Z_scope.

(** ** Firewalls (internal/firewall) *)

Record Manager := {
  fm_IsEnabled : M Host bool;
  AllowTcpPort : string → M Host unit;
  AllowTcpPortRange : string → string → M Host unit;
  fm_FlushRules : M Host unit;
}.

Section Firewall.
Context `{Env}.
(** The exit code of an [exec.ExitError]; [None] for any other error. *)
Context (ExitCode : error → option Z).

(** [out, err := cmd.CombinedOutput(); if err != nil { return
    fmt.Errorf("msg: %s, error: %v", out, err) }]. *)
Definition run_or_fail (msg bin : string) (args : list string) : M Host unit :=
  '(out, err) ← CombinedOutput bin args;
  match err with
  | Some e => throw (ENew (msg +:+ ": " +:+ out +:+ ", error: " +:+ error_text e))
  | None => mret tt
  end.

(** *** firewalld.go *)

(** [.*running*] and [.*yes*]: the star applies to the last letter. *)
Definition firewalldActiveRegex (out : string) : bool := Contains out "runnin".
Definition firewallPortOpenRegex (out : string) : bool := Contains out "ye".

Definition firewalld_IsEnabled (binPath : string) : M Host bool :=
  if String.eqb binPath "" then mret false else
  '(out, err) ← CombinedOutput binPath ["--state"];
  match err with
  | Some e =>
      match ExitCode e with
      | Some 251 | Some 252 => mret false
      | _ => throw e
      end
  | None => mret (firewalldActiveRegex out)
  end.
Definition firewalld_AllowTcpPort (binPath port : string) : M Host unit :=
  run_or_fail ("failed to allow port " +:+ port +:+ " in firewall") binPath
    ["--permanent"; "--add-port=" +:+ port +:+ "/tcp"].
Definition firewalld_AllowTcpPortRange (binPath startPort endPort : string) : M Host unit :=
  run_or_fail "failed to allow ports in firewall" binPath
    ["--permanent"; "--add-port=" +:+ startPort +:+ "-" +:+ endPort +:+ "/tcp"].
Definition firewalld_FlushRules (binPath : string) : M Host unit :=
  run_or_fail "failed to reload firewall" binPath ["--reload"];;
  run_or_fail "failed to persist firewall rules" binPath ["--runtime-to-permanent"].
Definition firewalld_IsPortOpen (binPath port protocol : string) : M Host bool :=
  '(out, err) ← CombinedOutput binPath ["--query-port=" +:+ port +:+ "/" +:+ protocol];
  match err with
  | Some _ => mret false
  | None => if firewallPortOpenRegex out then mret true
            else throw (ENew "unsupported firewall port status")
  end.
Definition firewalld (binPath : string) : Manager := {|
  fm_IsEnabled := firewalld_IsEnabled binPath;
  AllowTcpPort := firewalld_AllowTcpPort binPath;
  AllowTcpPortRange := firewalld_AllowTcpPortRange binPath;
  fm_FlushRules := firewalld_FlushRules binPath |}.

(** *** ufw.go *)

Record rule := { port : string; protocol : string; action : string }.
Definition actionAllow : string := "ALLOW".

(** [.*Status: active*]. *)
Definition ufwActiveRegex (out : string) : bool := Contains out "Status: activ".

(** [(\d+)\s*/(\w+)\s+(ALLOW|DENY)\s+Anywhere]: after a run of digits only
    the whole run can be followed by the slash, and likewise the word. *)
Definition is_word (c : ascii) : bool :=
  is_digit c || Ascii.eqb c "_" ||
  (let n := Z.of_N (N_of_ascii c) in (65 <=? n) && (n <=? 90) || (97 <=? n) && (n <=? 122)).
Fixpoint span_word (s : string) : string * string :=
  match s with
  | String c s' => if is_word c then let '(w, r) := span_word s' in (String c w, r) else ("", s)
  | "" => ("", "")
  end.
(** [\s+]: at least one. *)
Definition spaces1 (s : string) : option string :=
  match s with
  | String c s => if re_space c then Some (trim_left re_space s) else None
  | "" => None
  end.
Definition ufw_rule_at (s : string) : option rule :=
  let '(d, rest) := span_digits s in
  if String.eqb d "" then None else
  match trim_left re_space rest with
  | String "/" rest =>
      let '(w, rest) := span_word rest in
      if String.eqb w "" then None else
      rest ← spaces1 rest;
      '(act, rest) ← match CutPrefix rest "ALLOW" with
                     | (r, true) => Some ("ALLOW", r)
                     | (_, false) => match CutPrefix rest "DENY" with
                                     | (r, true) => Some ("DENY", r)
                                     | (_, false) => None
                                     end
                     end;
      rest ← spaces1 rest;
      if HasPrefix rest "Anywhere" then Some {| port := d; protocol := w; action := act |} else None
  | _ => None
  end.
Definition ufwStatusRuleRegex (line : string) : option rule := find_first ufw_rule_at line.

Definition ufw_IsEnabled (binPath : string) : M Host bool :=
  if String.eqb binPath "" then mret false else
  '(out, err) ← CombinedOutput binPath ["status"];
  match err with
  | Some e => throw (ENew ("failed to get status of uncomplicated firewall: " +:+ out +:+
                           ", error: " +:+ error_text e))
  | None => mret (ufwActiveRegex out)
  end.
Definition ufw_AllowTcpPort (binPath port : string) : M Host unit :=
  run_or_fail ("failed to allow port " +:+ port +:+ " in firewall") binPath
    ["allow"; port +:+ "/tcp"].
Definition ufw_AllowTcpPortRange (binPath startPort endPort : string) : M Host unit :=
  run_or_fail "failed to allow ports in firewall" binPath
    ["allow"; startPort +:+ ":" +:+ endPort +:+ "/tcp"].
(** Rules are active the moment they are added. *)
Definition ufw_FlushRules : M Host unit := mret tt.

(** The scanner reads the output; here the code does report its error. *)
Definition refreshActiveRules (binPath : string) (rules : list rule) : M Host (list rule) :=
  '(out, err) ← CombinedOutput binPath ["status"];
  match err with
  | Some e => throw e
  | None =>
      if existsb too_long (Split "010" out) then throw (ENew "bufio.Scanner: token too long")
      else mret (rules ++ omap ufwStatusRuleRegex (scan_lines out))
  end.
(** The rules are kept in the object between calls. *)
Definition ufw_IsPortOpen (binPath : string) (rules : list rule) (p proto : string)
    : M Host (bool * list rule) :=
  rules ← match rules with [] => refreshActiveRules binPath [] | _ => mret rules end;
  mret (existsb (λ r, String.eqb (port r) p && String.eqb (protocol r) proto &&
                      String.eqb (action r) actionAllow) rules, rules).
Definition ufw (binPath : string) : Manager := {|
  fm_IsEnabled := ufw_IsEnabled binPath;
  AllowTcpPort := ufw_AllowTcpPort binPath;
  AllowTcpPortRange := ufw_AllowTcpPortRange binPath;
  fm_FlushRules := ufw_FlushRules |}.

(** ** The ports aspect (ports.go) *)

Definition portsAspectName : string := "ports".
Definition kubeletServePort : string := "10250".
Definition kubeProxyHealthzPort : string := "10256".
Definition nodePortStartRangePort : string := "30000".
Definition nodePortEndRangePort : string := "32767".

Definition NewFirewallManager (GetOsName : Host → string) : M Host Manager :=
  gets (λ h,
    let look bin := match look_path h bin with Some p => p | None => "" end in
    if String.eqb (GetOsName h) "ubuntu" then ufw (look "ufw") else firewalld (look "firewall-cmd")).

Definition open_ports (m : Manager) : M Host unit :=
  AllowTcpPort m kubeletServePort;;
  AllowTcpPort m kubeProxyHealthzPort;;
  AllowTcpPortRange m nodePortStartRangePort nodePortEndRangePort;;
  fm_FlushRules m.
(** A firewall whose status cannot be read is left alone. *)
Definition ports_Setup (m : Manager) : M Host unit :=
  r ← try (fm_IsEnabled m);
  match r with
  | Err _ => mret tt
  | Ok true => open_ports m
  | Ok false => mret tt
  end.
Definition NewPortsAspect (m : Manager) : SystemAspect :=
  {| aspect_Name := portsAspectName; Setup := ports_Setup m |}.

(** ** Sysctl (sysctl.go) *)

Definition sysctlAspectName : string := "sysctl".
Definition nodeadmSysctlConfPath : string := path_Join ["/etc/sysctl.d"; "99-nodeadm.conf"].
(** _assets/99-sysctl.conf, embedded. *)
Definition sysctlConfFileData : string :=
  Join ["vm.overcommit_memory=1"; "kernel.panic=10"; "kernel.panic_on_oops=1"; "net.ipv4.ip_forward=1"]
    newline.
Definition writeSysctlConfig : M Host unit :=
  WriteFileWithDir nodeadmSysctlConfPath sysctlConfFileData 420.
Definition reloadSysctl : M Host unit :=
  run_or_fail "running sysctl reload command" sysctlAspectName ["--system"].
Definition sysctl_Setup : M Host unit := writeSysctlConfig;; reloadSysctl.
Definition NewSysctlAspect : SystemAspect :=
  {| aspect_Name := sysctlAspectName; Setup := sysctl_Setup |}.

(** ** Networking (networking.go) *)

Definition networkingAspectName : string := "networking".
Definition networkCfgDropInDir : string := "/etc/systemd/network/80-ec2.network.d".
Definition eksPrimaryENIOnlyConfPathName : string :=
  networkCfgDropInDir +:+ "/10-eks_primary_eni_only.conf".
(** _assets/10-eks_primary_eni_only.conf.template. *)
Definition generateEKSPrimaryENIOnlyConfiguration (mac : string) : string :=
  "[Match]" +:+ newline +:+ "PermanentMACAddress=" +:+ mac +:+ newline.

(** [util.IsFilePathExists]. *)
Definition IsFilePathExists (p : string) : M Host bool :=
  r ← try (os_Stat p);
  match r with
  | Ok _ => mret true
  | Err e => if errors_Is_NotExist e then mret false else throw e
  end.

Definition ensureEKSNetworkConfiguration (mac : string) : M Host unit :=
  exists_ ← map_err (EWrap "failed to check eks_primary_eni_only network configuration existance")
              (IsFilePathExists eksPrimaryENIOnlyConfPathName);
  if exists_ : bool then mret tt else
  map_err (EWrap ("failed to create network configuration drop-in directory " +:+ networkCfgDropInDir))
    (os_MkdirAll networkCfgDropInDir 493);;
  map_err (EWrap "failed to write eks_primary_eni_only network configuration")
    (os_WriteFile eksPrimaryENIOnlyConfPathName (generateEKSPrimaryENIOnlyConfiguration mac) 420);;
  map_err (EWrap "failed to reload network configurations")
    (run_command "networkctl" ["reload"];; mret tt).
Definition networking_Setup (mac : string) : M Host unit :=
  map_err (EWrap "failed to ensure eks network configuration") (ensureEKSNetworkConfiguration mac).
Definition NewNetworkingAspect (cfg : NodeConfig) : SystemAspect :=
  {| aspect_Name := networkingAspectName;
     Setup := networking_Setup (MAC (status_Instance (Status cfg))) |}.

(** ** Local disks (local_disk.go) *)

Definition localDiskAspectName : string := "local-disk".
Definition localDisk_Setup (strategy : string) : M Host unit :=
  if String.eqb strategy "" then mret tt
  else run_command "setup-local-disks" [ToLower strategy];; mret tt.
Definition NewLocalDiskAspect (cfg : NodeConfig) : SystemAspect :=
  {| aspect_Name := localDiskAspectName;
     Setup := localDisk_Setup (LocalStorageStrategy (spec_Instance (Spec cfg))) |}.
End Firewall.
