(* ===== verification/AspectProps.v ===== *)
(** * The ports aspect refines opening three ranges of ports

    What the commands sent to a firewall mean is given abstractly, as an
    effect on the rules that survive a restart and the rules in force
    ([fw_state]); [FirewallView] states how the [Manager] operations act on
    that view, both implementations discharge it, and the aspect is proved
    against the class alone. *)

From S2P Require Import Prelude GoStrings Host Validators Aspects.

(** ** The abstract firewall *)

Record fw_state := { permanent : gset string; runtime : gset string }.
Definition fw_init : fw_state := {| permanent := ∅; runtime := ∅ |}.

(** The specification of the aspect: the ranges are allowed for good, and
    the rules in force are those allowed for good. *)
Definition open_spec (specs : list string) (s : fw_state) : fw_state :=
  let p := permanent s ∪ list_to_set specs in {| permanent := p; runtime := p |}.

(** What a manager promises: [view] is the firewall after the commands of
    the journal, [spec lo hi] the manager's way of writing a TCP range. *)
Class FirewallView `{Env} (m : Manager) := {
  view : Host → fw_state;
  spec : string → string → string;
  view_enabled h o h' : fm_IsEnabled m h = (o, h') → view h' = view h;
  view_allow p h h' : AllowTcpPort m p h = (Return tt, h') →
    permanent (view h') = permanent (view h) ∪ {[ spec p p ]};
  view_range a b h h' : a ≠ b → AllowTcpPortRange m a b h = (Return tt, h') →
    permanent (view h') = permanent (view h) ∪ {[ spec a b ]};
  view_flush h h' : fm_FlushRules m h = (Return tt, h') →
    permanent (view h') = permanent (view h) ∧ runtime (view h') = permanent (view h);
}.

(** ** The two implementations *)

Definition fold_events (step : fw_state → event → fw_state) (h : Host) : fw_state :=
  fold_left step (journal h) fw_init.

Lemma fold_events_snoc step h ev f :
  fold_events step (set_fs f (record ev h)) = step (fold_events step h) ev.
Proof. unfold fold_events. cbn. by rewrite fold_left_app. Qed.

(** firewalld: a permanent rule takes effect at the next reload, and
    [--runtime-to-permanent] keeps exactly the rules in force. *)
Definition firewalld_step (bin : string) (s : fw_state) (ev : event) : fw_state :=
  match ev with
  | EvRun b args =>
      if negb (String.eqb b bin) then s else
      match args with
      | ["--permanent"; a] =>
          match CutPrefix a "--add-port=" with
          | (r, true) => {| permanent := permanent s ∪ {[ r ]}; runtime := runtime s |}
          | (_, false) => s
          end
      | ["--reload"] => {| permanent := permanent s; runtime := permanent s |}
      | ["--runtime-to-permanent"] => {| permanent := runtime s; runtime := runtime s |}
      | _ => s
      end
  | _ => s
  end.

(** ufw: an added rule is in force and kept at once. *)
Definition ufw_step (bin : string) (s : fw_state) (ev : event) : fw_state :=
  match ev with
  | EvRun b ["allow"; r] =>
      if String.eqb b bin
      then {| permanent := permanent s ∪ {[ r ]}; runtime := permanent s ∪ {[ r ]} |} else s
  | _ => s
  end.

Section Refinement.
Context `{Env}.

Lemma CombinedOutput_view step bin args h o h' :
  CombinedOutput bin args h = (o, h') →
  fold_events step h' = step (fold_events step h) (EvRun bin args) ∧ o = Return (run_output h bin args).
Proof.
  unfold CombinedOutput, run_raw. intros [= <- <-]. by rewrite fold_events_snoc.
Qed.

Lemma run_or_fail_view step msg bin args h o h' :
  run_or_fail msg bin args h = (o, h') →
  fold_events step h' = step (fold_events step h) (EvRun bin args).
Proof.
  unfold run_or_fail. cbv [mbind M_bind]. destruct (CombinedOutput bin args h) as [o1 h1] eqn:E.
  apply (CombinedOutput_view step) in E as [Hv ->].
  destruct (run_output h bin args) as [out [e|]]; by intros [= _ <-].
Qed.

Lemma ufw_runtime bin h :
  runtime (fold_events (ufw_step bin) h) = permanent (fold_events (ufw_step bin) h).
Proof.
  unfold fold_events. induction (journal h) as [|ev l IH] using rev_ind; [done|].
  rewrite fold_left_app. cbn. destruct ev; try done. cbn.
  destruct args as [|a [|r [|]]]; try done; repeat (case_match; try done).
Qed.

#[export, refine] Instance firewalld_view ExitCode bin : FirewallView (firewalld ExitCode bin) := {|
  view := fold_events (firewalld_step bin);
  spec a b := (if String.eqb a b then a else a +:+ "-" +:+ b) +:+ "/tcp";
|}.
Proof.
  - intros h o h'. cbn. unfold firewalld_IsEnabled. destruct (String.eqb bin ""); [by intros [= _ <-]|].
    cbv [mbind M_bind]. destruct (CombinedOutput bin ["--state"] h) as [o1 h1] eqn:E.
    apply (CombinedOutput_view (firewalld_step bin)) in E as [Hv ->].
    cbn in Hv. rewrite String.eqb_refl in Hv. cbn in Hv.
    destruct (run_output _ _ _) as [out [e|]]; [|by intros [= _ <-]].
    intros E. repeat case_match; by injection E as _ <-.
  - intros p h h' E. apply (run_or_fail_view (firewalld_step bin)) in E. rewrite E.
    cbn [firewalld_step]. rewrite !String.eqb_refl. cbn [negb]. by rewrite CutPrefix_app.
  - intros a b h h' Hab E. apply (run_or_fail_view (firewalld_step bin)) in E. rewrite E.
    cbn [firewalld_step]. rewrite String.eqb_refl. cbn [negb]. rewrite CutPrefix_app.
    rewrite (proj2 (String.eqb_neq a b)) by done. by rewrite !app_assoc_str.
  - intros h h' E. apply bind_Return in E as ([] & h1 & E1 & E2).
    apply (run_or_fail_view (firewalld_step bin)) in E1.
    apply (run_or_fail_view (firewalld_step bin)) in E2. rewrite E2, E1.
    cbn [firewalld_step]. by rewrite String.eqb_refl.
Defined.

#[export, refine] Instance ufw_view bin : FirewallView (ufw bin) := {|
  view := fold_events (ufw_step bin);
  spec a b := (if String.eqb a b then a else a +:+ ":" +:+ b) +:+ "/tcp";
|}.
Proof.
  - intros h o h'. cbn. unfold ufw_IsEnabled. destruct (String.eqb bin ""); [by intros [= _ <-]|].
    cbv [mbind M_bind]. destruct (CombinedOutput bin ["status"] h) as [o1 h1] eqn:E.
    apply (CombinedOutput_view (ufw_step bin)) in E as [Hv ->].
    destruct (run_output _ _ _) as [out [e|]]; by intros [= _ <-].
  - intros p h h' E. apply (run_or_fail_view (ufw_step bin)) in E. rewrite E.
    cbn [ufw_step]. by rewrite !String.eqb_refl.
  - intros a b h h' Hab E. apply (run_or_fail_view (ufw_step bin)) in E. rewrite E.
    cbn [ufw_step]. rewrite String.eqb_refl, (proj2 (String.eqb_neq a b)) by done.
    by rewrite !app_assoc_str.
  - intros h h' [= <-]. split; [done|]. apply ufw_runtime.
Defined.

(** ** The refinement *)

(** The ranges a node must accept. *)
Definition node_ports (m : Manager) `{!FirewallView m} : list string :=
  [spec kubeletServePort kubeletServePort; spec kubeProxyHealthzPort kubeProxyHealthzPort;
   spec nodePortStartRangePort nodePortEndRangePort].

(** C15. For every firewall that keeps the manager's promises, firewalld and
    ufw among them: when the ports aspect succeeds on a host whose firewall
    reports that it is enabled, the firewall has gone from its state to the
    one the specification gives, the kubelet's, kube-proxy's and the node
    ports allowed for good and in force; on a host whose firewall is
    disabled or cannot tell, its state is untouched. *)
Theorem ports_Setup_refines m `{!FirewallView m} h h' :
  ports_Setup m h = (Return tt, h') →
  (∃ h1, fm_IsEnabled m h = (Return true, h1) ∧
         view h' = open_spec (node_ports m) (view h)) ∨
  (∃ o, fm_IsEnabled m h = (o, h') ∧ o ≠ Return true ∧ view h' = view h).
Proof.
  unfold ports_Setup, try. cbv [mbind M_bind mret M_ret].
  destruct (fm_IsEnabled m h) as [[[]|e|] h1] eqn:EE.
  - intros E. left. exists h1. split; [done|]. unfold open_ports in E.
    apply bind_Return in E as ([] & h2 & E1 & E). apply bind_Return in E as ([] & h3 & E2 & E).
    apply bind_Return in E as ([] & h4 & E3 & E4).
    apply view_enabled in EE. apply view_allow in E1, E2. apply view_range in E3; [|done].
    apply view_flush in E4 as [Hp Hr]. unfold open_spec, node_ports.
    assert (permanent (view h') = permanent (view h) ∪ list_to_set
      [spec kubeletServePort kubeletServePort; spec kubeProxyHealthzPort kubeProxyHealthzPort;
       spec nodePortStartRangePort nodePortEndRangePort]) as Hpp.
    { rewrite Hp, E3, E2, E1, EE. set_solver. }
    rewrite <- Hpp. destruct (view h') as [p r]. cbn in *. by rewrite Hr, Hp.
  - intros [= <-]. right. exists (Return false). split; [done|]. split; [done|by eapply view_enabled].
  - intros [= <-]. right. exists (Throw e). split; [done|]. split; [done|by eapply view_enabled].
  - done.
Qed.
End Refinement.

(** ** Concrete runs *)

(** Both programs are installed and report that they run. *)
Example firewall_env : Env := {|
  fault _ _ := None;
  run_output _ _ args := match args with
                         | ["--state"] => ("running" +:+ newline, None)
                         | ["status"] => ("Status: active" +:+ newline, None)
                         | _ => ("", None)
                         end;
  run_effect h _ _ := fs h;
  http_do _ _ := Ok (200%Z, ("", None));
  bad_url _ := None;
  look_path _ _ := None;
  ticks _ := 0; read_part _ _ := "";
|}.
Example bare_host : Host := {| fs := ∅; tracker := no_artifacts; journal := []; provider := no_provider |}.

Lemma ports_Setup_refines_witness :
  (ports_Setup (@firewalld firewall_env (λ _, None) "firewall-cmd") bare_host).1 = Return tt ∧
  let h' := (ports_Setup (@firewalld firewall_env (λ _, None) "firewall-cmd") bare_host).2 in
  (∃ h1, fm_IsEnabled (@firewalld firewall_env (λ _, None) "firewall-cmd") bare_host = (Return true, h1) ∧
         @view firewall_env _ (@firewalld_view firewall_env (λ _, None) "firewall-cmd") h' =
         open_spec ["10250/tcp"; "10256/tcp"; "30000-32767/tcp"] fw_init) ∨
  (∃ o, fm_IsEnabled (@firewalld firewall_env (λ _, None) "firewall-cmd") bare_host = (o, h') ∧
         o ≠ Return true ∧
         @view firewall_env _ (@firewalld_view firewall_env (λ _, None) "firewall-cmd") h' = fw_init).
Proof.
  destruct (ports_Setup (@firewalld firewall_env (λ _, None) "firewall-cmd") bare_host) as [o h'] eqn:E.
  assert (o = Return tt) as ->.
  { change o with (o, h').1. rewrite <- E. vm_compute. reflexivity. }
  split; [reflexivity|].
  exact (@ports_Setup_refines firewall_env _ (@firewalld_view firewall_env (λ _, None) "firewall-cmd") _ _ E).
Defined.
