(* ===== verification/Reserve.v ===== *)
(** * Resources kept for the kubelet (internal/kubelet/config.go)

    CPU in integer millicores and memory in gibibytes, the latter computed by
    the code in binary64 arithmetic, modelled with the IEEE 754 operations of
    the standard library.  Go may fuse a multiplication and an addition into
    one rounding and does so on some processors, so the operation is a
    parameter of the memory table. *)

From Stdlib Require Import SpecFloat.
From S2P Require Import Prelude GoStrings Host Resources.
#[local] Open Scope Z_scope.

(** [lia] with division and remainder by constants. *)
#[local] Ltac div_lia := Z.to_euclidean_division_equations; lia.

(** ** CPU *)

(** Go's [int] division truncates. *)
Definition getResourceToReserveInRange (totalCPU startRange endRange percentage : Z) : Z :=
  if totalCPU <=? startRange then 0
  else
    let reserved := if endRange <? totalCPU then endRange else totalCPU in
    Z.quot (int64 (int64 (reserved - startRange) * percentage)) 10000.

Definition cpuPercentageReservedForRanges : list Z := [600; 100; 50; 25].
(** The loop: range [i] goes from [cpuRanges[i]] to [cpuRanges[i+1]]. *)
Fixpoint reserve_ranges (total : Z) (ranges percentages : list Z) (acc : Z) : Z :=
  match ranges, percentages with
  | startRange :: (endRange :: _) as ranges', p :: percentages =>
      reserve_ranges total (tail ranges) percentages
        (int64 (acc + getResourceToReserveInRange total startRange endRange p))
  | _, _ => acc
  end.
Definition cpu_to_reserve (totalCPUMillicores : Z) : Z :=
  reserve_ranges totalCPUMillicores [0; 1000; 2000; 4000; totalCPUMillicores]
    cpuPercentageReservedForRanges 0.
(** An error while counting the cores reserves nothing. *)
Definition getCPUMillicoresToReserve `{Env} (nodeDir cpusPath : string) : M Host Z :=
  r ← try (GetMilliNumCores nodeDir cpusPath);
  mret match r with Ok total => cpu_to_reserve total | Err _ => 0 end.

(** 32-bit arithmetic. *)
Definition int32 (z : Z) : Z := (z + 2 ^ 31) mod 2 ^ 32 - 2 ^ 31.
Definition getMemoryMebibytesToReserve (maxPods : Z) : Z := int32 (11 * maxPods + 255).

(** The rate in ten-thousandths within each range, as the documentation of
    the percentages reads: 6% of the first core, 1% of the second, 0.5% of
    the next two and 0.25% of the others. *)
Definition cpu_spec (total : Z) : Z :=
  Z.min total 1000 * 600 / 10000 + Z.max 0 (Z.min total 2000 - 1000) * 100 / 10000 +
  Z.max 0 (Z.min total 4000 - 2000) * 50 / 10000 + Z.max 0 (total - 4000) * 25 / 10000.

Lemma range_spec total a b p :
  0 <= a <= b → 0 <= total <= 2 ^ 58 → 0 <= p <= 600 → b <= 2 ^ 52 ∨ b = total →
  p <= 25 ∨ b <= 2 ^ 52 →
  getResourceToReserveInRange total a b p = Z.max 0 (Z.min total b - a) * p / 10000.
Proof.
  intros Ha Ht Hp Hb Hb'. unfold getResourceToReserveInRange.
  destruct (Z.leb_spec total a).
  { by replace (Z.max 0 (Z.min total b - a)) with 0 by lia. }
  replace (Z.max 0 (Z.min total b - a)) with ((if b <? total then b else total) - a)
    by (destruct (Z.ltb_spec b total); lia).
  set (d := (if b <? total then b else total) - a).
  assert (0 <= d <= 2 ^ 52 ∨ (0 <= d <= 2 ^ 58 ∧ p <= 25)) as Hd.
  { subst d. destruct (Z.ltb_spec b total); lia. }
  rewrite (int64_id d) by lia. rewrite int64_id by nia.
  apply Z.quot_div_nonneg; nia.
Qed.

(** The CPU kept for the kubelet on a machine of up to 2^58 millicores
    is the tiered share the percentages describe, computed without
    overflow; it never shrinks as the machine grows, is less than the whole
    machine, and is at least 60 millicores from one core up. *)
Theorem cpu_to_reserve_tiers total :
  0 <= total <= 2 ^ 58 →
  cpu_to_reserve total = cpu_spec total ∧
  (0 < total → 0 <= cpu_to_reserve total < total) ∧
  (∀ more, total <= more <= 2 ^ 58 → cpu_to_reserve total <= cpu_to_reserve more) ∧
  (1000 <= total → 60 <= cpu_to_reserve total).
Proof.
  intros Ht.
  assert (∀ t, 0 <= t <= 2 ^ 58 → cpu_to_reserve t = cpu_spec t) as Hspec.
  { clear. intros t Ht. unfold cpu_to_reserve, cpuPercentageReservedForRanges.
    cbn [reserve_ranges tail].
    assert (getResourceToReserveInRange t 4000 t 25 = Z.max 0 (t - 4000) * 25 / 10000) as ->.
    { destruct (Z.leb_spec t 4000).
      - unfold getResourceToReserveInRange. rewrite (proj2 (Z.leb_le _ _)) by done.
        by replace (Z.max 0 (t - 4000)) with 0 by lia.
      - rewrite range_spec by lia. by rewrite Z.min_id. }
    rewrite !range_spec by lia. unfold cpu_spec.
    replace (Z.max 0 (Z.min t 1000 - 0)) with (Z.min t 1000) by lia.
    set (a := Z.min t 1000 * 600 / 10000). set (b := Z.max 0 (Z.min t 2000 - 1000) * 100 / 10000).
    set (c := Z.max 0 (Z.min t 4000 - 2000) * 50 / 10000).
    set (d := Z.max 0 (t - 4000) * 25 / 10000).
    assert (0 <= a <= 60 ∧ 0 <= b <= 10 ∧ 0 <= c <= 10 ∧ 0 <= d <= 2 ^ 58) as Hb
      by (subst a b c d; div_lia). clearbody a b c d.
    rewrite (int64_id (0 + a)), (int64_id (0 + a + b)), (int64_id (0 + a + b + c)) by lia.
    rewrite int64_id; lia. }
  split; [by apply Hspec|]. rewrite (Hspec total Ht). unfold cpu_spec.
  split; [intros; div_lia|]. split; [|intros; div_lia].
  intros more Hm. rewrite (Hspec more) by lia. unfold cpu_spec.
  repeat apply Z.add_le_mono; (apply Z.div_le_mono; lia).
Qed.

Lemma cpu_to_reserve_tiers_witness :
  0 <= 8000 <= 2 ^ 58 ∧ cpu_to_reserve 8000 = cpu_spec 8000 ∧ cpu_to_reserve 8000 = 90.
Proof.
  split; [lia|]. split; [|reflexivity].
  apply (cpu_to_reserve_tiers 8000). lia.
Defined.

(** ** Memory

    binary64: 53 bits of precision, exponents below 1024. *)

Definition prec : Z := 53.
Definition emax : Z := 1024.
(** [float64(z)], and the constant [n/d]: Go rounds an exact constant once,
    and so does the division of two exactly represented integers. *)
Definition float_of_Z (z : Z) : spec_float := binary_normalize prec emax z 0 false.
Definition float_const (n d : Z) : spec_float := SFdiv prec emax (float_of_Z n) (float_of_Z d).

(** [c + x * y] with one rounding, on finite numbers that are not negative. *)
Definition fma (x y c : spec_float) : spec_float :=
  match x, y, c with
  | S754_finite false mx ex, S754_finite false my ey, S754_finite false mc ec =>
      let e := Z.min (ex + ey) ec in
      binary_normalize prec emax
        (Z.pos mx * Z.pos my * 2 ^ (ex + ey - e) + Z.pos mc * 2 ^ (ec - e)) e false
  | _, _, _ => SFadd prec emax c (SFmul prec emax x y)
  end.
Definition mul_add (fused : bool) (c x y : spec_float) : spec_float :=
  if fused then fma x y c else SFadd prec emax c (SFmul prec emax x y).

(** [int(math.Round(x))]: halves go away from zero. *)
Definition int_Round (x : spec_float) : Z :=
  match x with
  | S754_finite s m e =>
      let v := if 0 <=? e then Z.pos m * 2 ^ e
               else (2 * Z.pos m + 2 ^ (- e)) / (2 * 2 ^ (- e)) in
      if s then - v else v
  | _ => 0
  end.

Section Memory.
Context (fused : bool).

(** The gibibytes of the [switch], from 1 GiB on. *)
Definition memory_gib (totalMemoryGiB : Z) : Z :=
  let tier c base rate :=
    int_Round (mul_add fused c (float_of_Z (totalMemoryGiB - base)) rate) in
  if totalMemoryGiB <? 4 then
    int_Round (SFmul prec emax (float_of_Z totalMemoryGiB) (float_const 25 100))
  else if totalMemoryGiB <? 8 then tier (float_of_Z 1) 4 (float_const 20 100)
  else if totalMemoryGiB <? 16 then tier (float_const 180 100) 8 (float_const 10 100)
  else if totalMemoryGiB <=? 128 then tier (float_const 260 100) 16 (float_const 6 100)
  else tier (float_const 932 100) 128 (float_const 2 100).
Definition reserveMemoryString (totalMemory : Z) : string :=
  let totalMemoryGiB := totalMemory / (1024 * 1024 * 1024) in
  if totalMemoryGiB <? 1 then Itoa 255 +:+ "Mi" else Itoa (memory_gib totalMemoryGiB) +:+ "Gi".
End Memory.

(** The table of the comment in hundredths of a gibibyte, exactly. *)
Definition memory_share (x : Z) : Z :=
  25 * Z.min x 4 + 20 * Z.max 0 (Z.min x 8 - 4) + 10 * Z.max 0 (Z.min x 16 - 8) +
  6 * Z.max 0 (Z.min x 128 - 16) + 2 * Z.max 0 (x - 128).
Definition round_share (x : Z) : Z := (2 * memory_share x + 100) / 200.

Definition memory_agrees (n : nat) : bool :=
  let x := Z.of_nat n in
  (memory_gib false x =? round_share x) && (memory_gib true x =? round_share x).
Lemma memory_agrees_to_1024 : forallb memory_agrees (seq 1 1024) = true.
Proof. vm_compute. reflexivity. Qed.

(** C34. On machines of 1 to 1024 GiB the floating-point table gives the exact
    tiered share of the documentation, in hundredths, rounded to the nearest
    gibibyte with halves up: no rounding error of binary64 shows, whether or
    not the processor fuses the multiplication and the addition. *)
Theorem memory_gib_exact fused x :
  1 <= x <= 1024 → memory_gib fused x = round_share x.
Proof.
  intros Hx. pose proof memory_agrees_to_1024 as H. rewrite forallb_forall in H.
  specialize (H (Z.to_nat x) ltac:(apply in_seq; lia)). unfold memory_agrees in H.
  rewrite Z2Nat.id in H by lia. apply andb_true_iff in H as [H1 H2].
  destruct fused; by apply Z.eqb_eq.
Qed.

Lemma memory_gib_exact_witness : 1 <= 31 <= 1024 ∧ memory_gib true 31 = 4 ∧ memory_gib false 31 = 4.
Proof.
  split; [lia|]. change 4 with (round_share 31).
  split; apply memory_gib_exact; lia.
Defined.

(** A machine of one GiB keeps nothing, one just below it 255 MiB. *)
Theorem one_gib_reserves_nothing fused :
  reserveMemoryString fused (2 ^ 30) = "0Gi" ∧ reserveMemoryString fused (2 ^ 30 - 1) = "255Mi".
Proof. destruct fused; vm_compute; by split. Qed.
