(* ===== verification/ContainerdDaemon.v ===== *)
(** * containerd as a daemon (internal/containerd: config.go, daemon.go,
      sandbox.go, and the token of internal/aws/ecr/ecr.go)

    The configuration init writes for containerd, the start of the service,
    and the pull of the sandbox image that containerd's effective
    configuration names.  containerd's image service and the ECR API are
    outside code. *)

From S2P Require Import Prelude GoStrings Host Tracker Api Daemon Retry Resources.
#[local] Open Scope Z_scope.

(** ** Configuration (config.go, config.template.toml) *)

Definition containerdConfigFile : string := "/etc/containerd/config.toml".
Definition containerdConfigImportDir : string := "/etc/containerd/config.d".
Definition containerdKernelModulesConfigFile : string := "/etc/modules-load.d/containerd.conf".
Definition containerdConfigPerm : Z := 420.
Definition containerdKernelModulesFileData : string := "overlay" +:+ newline +:+ "br_netfilter".

(** A table of the plugin ["io.containerd.grpc.v1.cri"]. *)
Definition cri_table (sub : string) : string :=
  "  [plugins." +:+ quoted "io.containerd.grpc.v1.cri" +:+ sub +:+ "]".
Definition setting (key value : string) : string := key +:+ " = " +:+ quoted value.

(** The template up to the sandbox image, and from there on. *)
Definition config_head : list string :=
  ["version = 2"; setting "root" "/var/lib/containerd"; setting "state" "/run/containerd";
   "# Users can use the following import directory to add additional";
   "# configuration to containerd. The imports do not behave exactly like overrides.";
   "# see: https://github.com/containerd/containerd/blob/main/docs/man/containerd-config.toml.5.md#format";
   "imports = [" +:+ quoted "/etc/containerd/config.d/*.toml" +:+ "]"; "";
   "[grpc]"; "  " +:+ setting "address" "/run/containerd/containerd.sock"; "";
   "[plugins]"; cri_table ".containerd";
   "    " +:+ setting "default_runtime_name" "runc"; "    discard_unpacked_layers = true";
   cri_table ""].
Definition config_tail : list string :=
  [cri_table ".registry";
   "    " +:+ setting "config_path" "/etc/containerd/certs.d:/etc/docker/certs.d";
   cri_table ".containerd.runtimes.runc";
   "    " +:+ setting "runtime_type" "io.containerd.runc.v2";
   cri_table ".containerd.runtimes.runc.options"; "    SystemdCgroup = true";
   cri_table ".cni"; "    " +:+ setting "bin_dir" "/opt/cni/bin";
   "    " +:+ setting "conf_dir" "/etc/cni/net.d"].
Definition generateContainerdConfig (cfg : NodeConfig) : string :=
  lines (config_head ++ ("    " +:+ setting "sandbox_image" (SandboxImage (Status cfg))) :: config_tail).

(** ** The sandbox image of a configuration (sandbox.go) *)

Definition containerdSandboxImagePinnedConfigVersion : Z := 3.
Definition is_quote (c : ascii) : bool := Ascii.eqb c "'" || Ascii.eqb c "034".

(** [version = (\d+)]. *)
Definition containerdConfigVersionRegex : string → option string :=
  find_first (λ s, match CutPrefix s "version = " with
    | (rest, true) => match (span_digits rest).1 with "" => None | d => Some d end
    | (_, false) => None
    end).

(** What is before the first quote, when there is one; it may go over the
    end of the line. *)
Fixpoint until_quote (s : string) : option string :=
  match s with
  | "" => None
  | String c s => if is_quote c then Some "" else String c <$> until_quote s
  end.
(** The text between quotes of either kind after [key = ]. *)
Definition quoted_setting (key : string) : string → option string :=
  find_first (λ s, match CutPrefix s (key +:+ " = ") with
    | (String c rest, true) => if is_quote c then until_quote rest else None
    | _ => None
    end).
Definition containerdSandboxImageV2Regex : string → option string := quoted_setting "sandbox_image".
Definition containerdSandboxImageV3Regex : string → option string := quoted_setting "sandbox".

Definition sandboxImageRegexForConfigVersion (configVersion : Z)
    : result (string → option string) :=
  if containerdSandboxImagePinnedConfigVersion <=? configVersion
  then Ok containerdSandboxImageV3Regex
  else if configVersion =? 2 then Ok containerdSandboxImageV2Regex
  else Err (ENew ("unsupported containerd config version: " +:+ Itoa configVersion)).

Definition parseConfigVersion (dump : string) : result Z :=
  match containerdConfigVersionRegex dump with
  | None => Err (ENew "config version not found in containerd config dump")
  | Some versionStr =>
      wrap_err ("failed to parse config version '" +:+ versionStr +:+ "'") (Atoi versionStr)
  end.

(** The image [cacheSandboxImage] finds in a dump. *)
Definition sandbox_image_of (dump : string) : result string :=
  configVersion ← wrap_err "failed to parse containerd config version" (parseConfigVersion dump);
  sandboxRegex ← sandboxImageRegexForConfigVersion configVersion;
  match sandboxRegex dump with
  | None => Err (ENew ("sandbox image could not be found in containerd config (version " +:+
                       Itoa configVersion +:+ " format)"))
  | Some image => Ok image
  end.

(** The ECR API and containerd's image service.  The tokens are pointers in
    a slice; a pull may leave the host as it likes but for what the
    process holds. *)
Class ImageService := {
  ecr_GetAuthorizationToken : AwsConfig → Host → result (list (option string));
  NewImageService : Host → option error;
  PullImage : string → string → Host → option error;
}.

Section Containerd.
Context `{Env} `{ImageService}.

Definition GetAuthorizationToken (awsConfig : option AwsConfig) : M Host string :=
  match awsConfig with
  | None => panic
  | Some awsConfig =>
      tokens ← call "ecr:GetAuthorizationToken" (ecr_GetAuthorizationToken awsConfig);
      match tokens with
      | Some authData :: _ => mret authData
      | _ => panic
      end
  end.

Definition pull_attempt (image token : string) (h : Host) : option error * Host :=
  match call "PullImage" (λ h, if PullImage image token h is Some e then Err e else Ok tt) h with
  | (Throw e, h') => (Some e, h')
  | (_, h') => (None, h')
  end.
Definition pull (image token : string) : M Host unit := λ h,
  match RetryExponentialBackoff 3 (2 * Second) (pull_attempt image token) h with
  | (None, (h', _)) => (Return tt, h')
  | (Some e, (h', _)) => (Throw e, h')
  end.

Definition cacheSandboxImage (awsConfig : option AwsConfig) : M Host unit :=
  dump ← run_command "containerd" ["config"; "dump"];
  sandboxImage ← of_result (sandbox_image_of dump);
  ecrUserToken ← GetAuthorizationToken awsConfig;
  call "NewImageService" (λ h, if NewImageService h is Some e then Err e else Ok tt);;
  pull sandboxImage ecrUserToken.

(** ** The daemon (daemon.go) *)

Definition kernelModulesSystemdUnit : string := "systemd-modules-load".

Definition writeContainerdConfig (cfg : NodeConfig) : M Host unit :=
  WriteFileWithDir containerdConfigFile (generateContainerdConfig cfg) containerdConfigPerm;;
  let user := containerd_Config (spec_Containerd (Spec cfg)) in
  when (negb (String.eqb user ""))
    (WriteFileWithDir (path_Join [containerdConfigImportDir; "00-nodeadm.toml"]) user
       containerdConfigPerm).
Definition writeContainerdKernelModulesConfig : M Host unit :=
  WriteFileWithDir containerdKernelModulesConfigFile containerdKernelModulesFileData
    containerdConfigPerm.

Definition containerd_Configure (cfg : NodeConfig) : M Host unit :=
  writeContainerdConfig cfg;;
  writeContainerdKernelModulesConfig.

Definition containerd_EnsureRunning (m : DaemonManager) : M Host unit :=
  RestartDaemon m kernelModulesSystemdUnit [];;
  EnableDaemon m "containerd";;
  RestartDaemon m "containerd" [];;
  map_err (EWrap "waiting for containerd to be running")
    (λ h, WaitForStatus (ticks h) m "containerd" DaemonStatusRunning (ECtx true) h).

Definition NewContainerdDaemon (m : DaemonManager) (cfg : NodeConfig)
    (awsConfig : option AwsConfig) : Daemon := {|
  Configure := containerd_Configure cfg;
  EnsureRunning := containerd_EnsureRunning m;
  PostLaunch := cacheSandboxImage awsConfig;
  Stop := StopDaemon m "containerd";
  DaemonName := "containerd" |}.
End Containerd.

(** ** The image of the generated configuration *)

Lemma until_quote_app img q rest :
  all_chars (λ c, negb (is_quote c)) img = true → is_quote q = true →
  until_quote (img +:+ String q rest) = Some img.
Proof.
  intros Hi Hq. induction img as [|c img IH].
  { rewrite app_nil_l_str. cbn [until_quote]. by rewrite Hq. }
  cbn [all_chars] in Hi. apply andb_true_iff in Hi as [Hc%negb_true_iff Hi].
  rewrite app_cons_str. cbn [until_quote]. by rewrite Hc, IH.
Qed.

Lemma quoted_setting_here key q rest img :
  is_quote q = true → until_quote rest = Some img →
  quoted_setting key (key +:+ " = " +:+ String q rest) = Some img.
Proof.
  intros Hq Hr. apply find_first_here. rewrite <- app_assoc_str, CutPrefix_app. by rewrite Hq.
Qed.

Definition image_prefix : string :=
  lines config_head +:+ "    sandbox_image = " +:+ dquote.

Lemma generate_split cfg :
  generateContainerdConfig cfg =
  image_prefix +:+ SandboxImage (Status cfg) +:+ String "034" (newline +:+ lines config_tail).
Proof.
  unfold generateContainerdConfig, lines, image_prefix, lines.
  assert (∃ y l, config_tail = y :: l) as (y & l & ->) by (by eexists _, _).
  rewrite Join_app by done. rewrite Join_cons. unfold setting, quoted.
  by rewrite !app_assoc_str.
Qed.

(** What init writes, containerd's own reader aside, is what the pull
    reads: the version of the generated configuration selects the format
    the image is written in, and the image found is the node's sandbox
    image, whatever it is as long as it holds no quotes; nothing before it
    in the file is taken for it. *)
Theorem sandbox_image_roundtrip cfg :
  all_chars (λ c, negb (is_quote c)) (SandboxImage (Status cfg)) = true →
  sandbox_image_of (generateContainerdConfig cfg) = Ok (SandboxImage (Status cfg)).
Proof.
  intros Hi. rewrite generate_split. set (rest := _ +:+ String "034" _).
  assert (sandbox_image_of (image_prefix +:+ rest) =
    match containerdSandboxImageV2Regex (image_prefix +:+ rest) with
    | None => Err (ENew "sandbox image could not be found in containerd config (version 2 format)")
    | Some image => Ok image
    end) as -> by reflexivity.
  unfold containerdSandboxImageV2Regex, quoted_setting.
  rewrite (find_first_misses _ (String.length image_prefix - 17)) by (vm_compute; reflexivity).
  replace (drop_str _ _) with ("sandbox_image" +:+ " = " +:+ String "034" rest)
    by (vm_compute; reflexivity).
  assert (quoted_setting "sandbox_image" ("sandbox_image" +:+ " = " +:+ String "034" rest) =
          Some (SandboxImage (Status cfg))) as Hs
    by (apply quoted_setting_here; [done|by apply until_quote_app]).
  unfold quoted_setting in Hs. by rewrite Hs.
Qed.

Example pause_cfg : NodeConfig := {|
  Spec := Spec empty_config;
  Status := {| status_Instance := status_Instance (Status empty_config); status_NodeName := "";
    SandboxImage := "602401143452.dkr.ecr.us-west-2.amazonaws.com/eks/pause:3.5" |} |}.

Lemma sandbox_image_roundtrip_witness :
  sandbox_image_of (generateContainerdConfig pause_cfg) =
    Ok "602401143452.dkr.ecr.us-west-2.amazonaws.com/eks/pause:3.5".
Proof. apply (sandbox_image_roundtrip pause_cfg). reflexivity. Defined.
