(* ===== verification/KubeletConfig.v ===== *)
(** * The kubelet's configuration (internal/kubelet: config.go, version.go,
      eni_max_pods.go; internal/api/net.go)

    What [init] computes for the kubelet from the node configuration and the
    machine, and the files it is written to.  JSON encoding, document
    merging, the metadata service of EC2 and name resolution are outside
    code. *)

From S2P Require Import Prelude GoStrings Host Tracker Semver Api Node Net Resources Reserve.
From S2P Require Import Proxy.
#[local] Open Scope Z_scope.

(** ** Cluster DNS (internal/api/net.go) *)

Inductive IPFamily := IPFamilyIPv4 | IPFamilyIPv6.

Definition GetCIDRIpFamily (cidr : string) : result IPFamily :=
  match ParseCIDR cidr with
  | Err e => Err (ENew (cidr +:+ " is not a valid IP Address. error: " +:+ error_text e))
  | Ok (ip, _) => Ok (match To4 ip with Some _ => IPFamilyIPv4 | None => IPFamilyIPv6 end)
  end.

(** [CIDR[:strings.LastIndex(CIDR, ".")]] is a slice up to -1, a panic, when
    there is no dot. *)
Definition GetClusterDns {S} (cidr : string) : M S string :=
  ipFamily ← of_result (GetCIDRIpFamily cidr);
  match ipFamily with
  | IPFamilyIPv4 =>
      match CutLast "." cidr with
      | Some (prefix, _) => mret (prefix +:+ ".10")
      | None => panic
      end
  | IPFamilyIPv6 =>
      match Split "/" cidr with
      | first :: _ => mret (first +:+ "a")
      | [] => panic
      end
  end.

(** ** Versions (version.go)

    [v[0-9]+\.[0-9]+.[0-9]+]: the last dot is any character but a newline, so
    the engine gives back digits of the minor version until the rest
    matches, most digits first. *)
Fixpoint patch_after (k : nat) (d rest : string) : option string :=
  match k with
  | O => None
  | S k' =>
      match drop_str k d +:+ rest with
      | String c after =>
          let patch := (span_digits after).1 in
          if negb (Ascii.eqb c "010") && negb (String.eqb patch "")
          then Some (take_str k d +:+ String c patch) else patch_after k' d rest
      | "" => patch_after k' d rest
      end
  end.
Definition semVer_at (s : string) : option string :=
  match s with
  | String "v" s =>
      let '(major, rest) := span_digits s in
      if String.eqb major "" then None else
      match rest with
      | String "." rest =>
          let '(minor, rest) := span_digits rest in
          tail ← patch_after (String.length minor) minor rest;
          Some ("v" +:+ major +:+ "." +:+ tail)
      | _ => None
      end
  | _ => None
  end.
(** [FindString]: empty when nothing matches. *)
Definition parseSemVer (rawVersion : string) : string := default "" (find_first semVer_at rawVersion).

Definition GetKubeletVersionRaw `{Env} : M Host string := run_command "kubelet" ["--version"].
Definition GetKubeletVersion `{Env} : M Host string :=
  raw ← GetKubeletVersionRaw; mret (parseSemVer raw).

(** ** Pods per instance type (eni_max_pods.go)

    The embedded table by its text; later lines replace earlier ones. *)
Definition eni_line (m : gmap string Z) (line : string) : gmap string Z :=
  let line := TrimSpace line in
  if String.eqb line "" || HasPrefix line "#" then m else
  match Fields line with
  | [instanceType; pods] =>
      match Atoi pods with Ok n => <[instanceType := n]> m | Err _ => m end
  | _ => m
  end.
Definition MaxPodsPerInstanceType (eniMaxPods : string) : gmap string Z :=
  fold_left eni_line (Split "010" eniMaxPods) ∅.

Definition defaultMaxPods : Z := 110.
(** ** The configuration *)

(** The fields that operations change; those that keep the values of
    [defaultKubeletSubConfig] are in [SubConfig]. *)
Record SubConfig := {
  Kind : string;
  APIVersion : string;
  Address : string;
  Anonymous : bool;
  Webhook : bool;
  WebhookCacheTTL : Z;
  X509ClientCAFile : string;
  AuthorizationMode : string;
  CacheAuthorizedTTL : Z;
  CacheUnauthorizedTTL : Z;
  CgroupDriver : string;
  CgroupRoot : string;
  ClusterDomain : string;
  ContainerRuntimeEndpoint : string;
  EvictionHard : list (string * string);
  FeatureGates : list (string * bool);
  HairpinMode : string;
  ProtectKernelDefaults : bool;
  ReadOnlyPort : Z;
  LoggingVerbosity : Z;
  SerializeImagePulls : bool;
  ServerTLSBootstrap : bool;
  TLSCipherSuites : list string;
}.

Record kubeletConfig := {
  kc_defaults : SubConfig;
  ClusterDNS : list string;
  KubeReserved : gmap string string;
  KubeReservedCgroup : option string;
  SystemReservedCgroup : option string;
  MaxPods : Z;
  ProviderID : option string;
  ResolvConf : string;
}.

Definition caCertificatePath : string := "/etc/kubernetes/pki/ca.crt".
Definition seconds (n : Z) : Z := n * 1000000000.

Definition defaultKubeletSubConfig : kubeletConfig := {|
  kc_defaults := {|
    Kind := "KubeletConfiguration";
    APIVersion := "kubelet.config.k8s.io/v1beta1";
    Address := "0.0.0.0";
    Anonymous := false;
    Webhook := true;
    WebhookCacheTTL := seconds 120;
    X509ClientCAFile := caCertificatePath;
    AuthorizationMode := "Webhook";
    CacheAuthorizedTTL := seconds 300;
    CacheUnauthorizedTTL := seconds 30;
    CgroupDriver := "systemd";
    CgroupRoot := "/";
    ClusterDomain := "cluster.local";
    ContainerRuntimeEndpoint := "unix:///run/containerd/containerd.sock";
    EvictionHard := [("memory.available", "100Mi"); ("nodefs.available", "10%");
                     ("nodefs.inodesFree", "5%")];
    FeatureGates := [("RotateKubeletServerCertificate", true)];
    HairpinMode := "hairpin-veth";
    ProtectKernelDefaults := true;
    ReadOnlyPort := 0;
    LoggingVerbosity := 2;
    SerializeImagePulls := false;
    ServerTLSBootstrap := true;
    TLSCipherSuites :=
      ["TLS_ECDHE_ECDSA_WITH_AES_128_GCM_SHA256"; "TLS_ECDHE_ECDSA_WITH_AES_256_GCM_SHA384";
       "TLS_ECDHE_ECDSA_WITH_CHACHA20_POLY1305"; "TLS_ECDHE_RSA_WITH_AES_128_GCM_SHA256";
       "TLS_ECDHE_RSA_WITH_AES_256_GCM_SHA384"; "TLS_ECDHE_RSA_WITH_CHACHA20_POLY1305";
       "TLS_RSA_WITH_AES_128_GCM_SHA256"; "TLS_RSA_WITH_AES_256_GCM_SHA384"] |};
  ClusterDNS := [];
  KubeReserved := ∅;
  KubeReservedCgroup := None;
  SystemReservedCgroup := None;
  MaxPods := 0;
  ProviderID := None;
  ResolvConf := "" |}.

Definition set_ClusterDNS (dns : list string) (c : kubeletConfig) : kubeletConfig :=
  {| kc_defaults := kc_defaults c; ClusterDNS := dns; KubeReserved := KubeReserved c;
     KubeReservedCgroup := KubeReservedCgroup c; SystemReservedCgroup := SystemReservedCgroup c;
     MaxPods := MaxPods c; ProviderID := ProviderID c; ResolvConf := ResolvConf c |}.
Definition set_ProviderID (id : string) (c : kubeletConfig) : kubeletConfig :=
  {| kc_defaults := kc_defaults c; ClusterDNS := ClusterDNS c; KubeReserved := KubeReserved c;
     KubeReservedCgroup := KubeReservedCgroup c; SystemReservedCgroup := SystemReservedCgroup c;
     MaxPods := MaxPods c; ProviderID := Some id; ResolvConf := ResolvConf c |}.
Definition withResolvConf (resolvConfPath : string) (c : kubeletConfig) : kubeletConfig :=
  {| kc_defaults := kc_defaults c; ClusterDNS := ClusterDNS c; KubeReserved := KubeReserved c;
     KubeReservedCgroup := KubeReservedCgroup c; SystemReservedCgroup := SystemReservedCgroup c;
     MaxPods := MaxPods c; ProviderID := ProviderID c; ResolvConf := resolvConfPath |}.
(** Both cgroups are named whenever resources are reserved. *)
Definition set_reserved (reserved : gmap string string) (maxPods : Z) (c : kubeletConfig)
    : kubeletConfig :=
  {| kc_defaults := kc_defaults c; ClusterDNS := ClusterDNS c; KubeReserved := reserved;
     KubeReservedCgroup := Some "/runtime"; SystemReservedCgroup := Some "/system";
     MaxPods := maxPods; ProviderID := ProviderID c; ResolvConf := ResolvConf c |}.

(** [flags] and [environment] of the kubelet object. *)
Record Kubelet := { flags : gmap string string; environment : gmap string string }.
Definition set_flag (k v : string) (d : Kubelet) : Kubelet :=
  {| flags := <[k := v]> (flags d); environment := environment d |}.
Definition setEnv (k v : string) (d : Kubelet) : Kubelet :=
  {| flags := flags d; environment := <[k := v]> (environment d) |}.

(** What lies outside for the kubelet. *)
Class KubeletEnv := {
  (** The processor fuses multiplications and additions. *)
  fused : bool;
  nodeDir : string;
  cpusPath : string;
  (** [system.GetOsName]. *)
  os_name : Host → string;
  (** [imdsClient.GetMetadata] and reading its content. *)
  metadata : string → Host → result string;
  (** [url.Parse]: the host. *)
  url_Host : string → result string;
  lookup_host : string → Host → result (list string);
  (** eni-max-pods.txt. *)
  eniMaxPods : string;
  (** Why no AWS configuration loads for a region. *)
  ec2_config : string → Host → option error;
  (** [DescribeInstanceTypes] in a region of a type: of each type found, the
      interfaces and the addresses per interface, both pointers to 32 bits. *)
  DescribeInstanceTypes : string → string → Host → result (list (option Z * option Z));
  (** [json.MarshalIndent] of the configuration. *)
  json_config : kubeletConfig → string;
  (** [DocumentMerge] of the configuration with the user's, as JSON. *)
  merged_config : kubeletConfig → gmap string string → result string;
  (** [DocumentMerge] of the type metadata with the user's document. *)
  dropin_config : gmap string string → result string;
}.

Section KubeletConfig.
Context `{Env} `{Semver} `{KubeletEnv}.

Definition GetMetadata (path : string) : M Host string := call "imds:GetMetadata" (metadata path).
Definition LookupHost (host : string) : M Host (list string) := call "LookupHost" (lookup_host host).

Definition getNodeIp (cfg : NodeConfig) : M Host string :=
  ipFamily ← of_result (GetCIDRIpFamily (CIDR (Cluster (Spec cfg))));
  match ipFamily with
  | IPFamilyIPv4 => GetMetadata "local-ipv4"
  | IPFamilyIPv6 =>
      GetMetadata ("network/interfaces/macs/" +:+ MAC (status_Instance (Status cfg)) +:+ "/ipv6s")
  end.

Definition withFallbackClusterDns (cluster : ClusterDetails) (c : kubeletConfig)
    : M Host kubeletConfig :=
  clusterDns ← GetClusterDns (CIDR cluster);
  mret (set_ClusterDNS [clusterDns] c).

(** One line per address, appended to an existing /etc/hosts. *)
Definition withOutpostSetup (cfg : NodeConfig) : M Host unit :=
  when (IsOutpostNode cfg)
    (if String.eqb (cluster_ID (Cluster (Spec cfg))) "" then
       throw (ENew "clusterId cannot be empty when outpost is enabled.")
     else
       host ← of_result (url_Host (APIServerEndpoint (Cluster (Spec cfg))));
       ipAddresses ← LookupHost host;
       let output := Join ((λ ip, ip +:+ tab +:+ host) <$> ipAddresses) newline +:+ newline in
       sys (EvCall "open /etc/hosts") (λ f, match f !! "/etc/hosts" with
                                            | Some (File _ _) => Ok f
                                            | _ => Err (ENotExist "/etc/hosts")
                                            end);;
       file_Write "/etc/hosts" output).

Definition withNodeIp (cfg : NodeConfig) (d : Kubelet) : M Host Kubelet :=
  nodeIp ← getNodeIp cfg;
  mret (set_flag "node-ip" nodeIp d).

Definition withCloudProvider (cfg : NodeConfig) (c : kubeletConfig) (d : Kubelet)
    : kubeletConfig * Kubelet :=
  let i := status_Instance (Status cfg) in
  (set_ProviderID (getProviderId (AvailabilityZone i) (instance_ID i)) c,
   set_flag "hostname-override" (PrivateDNSName i) (set_flag "cloud-provider" "external" d)).
Definition withHybridCloudProvider (cfg : NodeConfig) (c : kubeletConfig) (d : Kubelet)
    : kubeletConfig * Kubelet :=
  (set_ProviderID (getHybridProviderId cfg) c,
   set_flag "hostname-override" (status_NodeName (Status cfg)) (set_flag "cloud-provider" "" d)).

Definition hybridNodeLabel : string := "eks.amazonaws.com/compute-type=hybrid".
Definition credentialProviderLabelKey : string := "eks.amazonaws.com/hybrid-credential-provider".
Definition withHybridNodeLabels (cfg : NodeConfig) (d : Kubelet) : Kubelet :=
  set_flag "node-labels"
    (Join [hybridNodeLabel;
           credentialProviderLabelKey +:+ "=" +:+ NodeType_string (GetNodeType cfg)] ",") d.

Definition reserved (cpu : Z) (memory : string) : gmap string string :=
  <["cpu" := Itoa cpu +:+ "m"]> (<["ephemeral-storage" := "1Gi"]> (<["memory" := memory]> ∅)).

(** *** Addresses of an instance type (util/ec2.go, eni_max_pods.go) *)

Definition GetEniInfoForInstanceType (region instanceType : string) : M Host (Z * Z) :=
  types ← map_err (EWrap ("error describing instance type " +:+ instanceType))
            (call "ec2:DescribeInstanceTypes" (DescribeInstanceTypes region instanceType));
  match types with
  | (eniCount, podsPerEni) :: _ =>
      eniCount ← deref eniCount;
      podsPerEni ← deref podsPerEni;
      mret (eniCount, podsPerEni)
  | [] => throw (ENew ("no instance found for type: " +:+ instanceType))
  end.

Definition CalcMaxPods (awsRegion instanceType : string) : M Host Z :=
  r ← try (external (EvCall "LoadDefaultConfig");;
           err ← gets (ec2_config awsRegion);
           of_option err;;
           GetEniInfoForInstanceType awsRegion instanceType);
  mret match r with
    | Err _ => defaultMaxPods
    | Ok (eniCount, podsPerEni) => int32 (eniCount * (podsPerEni - 1) + 2)
    end.

Definition withDefaultReservedResources (cfg : NodeConfig) (c : kubeletConfig)
    : M Host kubeletConfig :=
  let i := status_Instance (Status cfg) in
  maxPods ← match MaxPodsPerInstanceType eniMaxPods !! instance_Type i with
    | Some n => mret (int32 n)
    | None => CalcMaxPods (instance_Region i) (instance_Type i)
    end;
  cpu ← getCPUMillicoresToReserve nodeDir cpusPath;
  mret (set_reserved (reserved cpu (Itoa (getMemoryMebibytesToReserve maxPods) +:+ "Mi")) maxPods c).

Definition withHybridReservedResources (c : kubeletConfig) : M Host kubeletConfig :=
  totalMemory ← GetMachineMemoryCapacity;
  cpu ← getCPUMillicoresToReserve nodeDir cpusPath;
  mret (set_reserved (reserved cpu (reserveMemoryString fused totalMemory)) (MaxPods c) c).

Definition withPodInfraContainerImage (cfg : NodeConfig) (kubeletVersion : string) (d : Kubelet)
    : Kubelet :=
  if semver_Compare kubeletVersion "v1.29.0" <? 0
  then set_flag "pod-infra-container-image" (SandboxImage (Status cfg)) d else d.

Definition UbuntuResolvConfPath : string := "/run/systemd/resolve/resolv.conf".

Definition GenerateKubeletConfig (cfg : NodeConfig) (d : Kubelet) : M Host (kubeletConfig * Kubelet) :=
  kubeletVersion ← GetKubeletVersion;
  c ← withFallbackClusterDns (Cluster (Spec cfg)) defaultKubeletSubConfig;
  withOutpostSetup cfg;;
  let d := withPodInfraContainerImage cfg kubeletVersion d in
  if IsHybridNode cfg then
    let '(c, d) := withHybridCloudProvider cfg c d in
    let d := withHybridNodeLabels cfg d in
    c ← withHybridReservedResources c;
    osName ← gets os_name;
    mret (if String.eqb osName UbuntuOsName then withResolvConf UbuntuResolvConfPath c else c, d)
  else
    d ← withNodeIp cfg d;
    let '(c, d) := withCloudProvider cfg c d in
    c ← withDefaultReservedResources cfg c;
    mret (c, d).

(** ** Writing it *)

Definition kubeletConfigRoot : string := "/etc/kubernetes/kubelet".
Definition configPath : string := path_Join [kubeletConfigRoot; "config.json"].
Definition configDirPath : string := path_Join [kubeletConfigRoot; "config.json.d"].
Definition has_user_config (cfg : NodeConfig) : bool :=
  negb (bool_decide (Config (spec_Kubelet (Spec cfg)) = ∅)).

Definition writeKubeletConfigToFile (cfg : NodeConfig) (d : Kubelet) : M Host Kubelet :=
  '(c, d) ← GenerateKubeletConfig cfg d;
  bytes ← (if has_user_config cfg
           then of_result (merged_config c (Config (spec_Kubelet (Spec cfg))))
           else mret (json_config c));
  let d := set_flag "config" configPath d in
  WriteFileWithDir configPath bytes 420;;
  mret d.

Definition writeKubeletConfigToDir (cfg : NodeConfig) (d : Kubelet) : M Host Kubelet :=
  '(c, d) ← GenerateKubeletConfig cfg d;
  let d := set_flag "config" configPath d in
  WriteFileWithDir configPath (json_config c) 420;;
  if has_user_config cfg then
    let d := set_flag "config-dir" configDirPath d in
    let d := setEnv "KUBELET_CONFIG_DROPIN_DIR_ALPHA" "on" d in
    bytes ← of_result (dropin_config (Config (spec_Kubelet (Spec cfg))));
    WriteFileWithDir (path_Join [configDirPath; "00-nodeadm.conf"]) bytes 420;;
    mret d
  else mret d.

Definition writeKubeletConfig (cfg : NodeConfig) (d : Kubelet) : M Host Kubelet :=
  kubeletVersion ← GetKubeletVersion;
  if semver_Compare kubeletVersion "v1.29.0" <? 0
  then writeKubeletConfigToFile cfg d else writeKubeletConfigToDir cfg d.
End KubeletConfig.
