(* ===== verification/KubeletDaemon.v ===== *)
(** * The kubelet as a daemon (internal/kubelet: daemon.go, environment.go,
      kubeconfig.go, cert.go, image-credential-provider.go)

    Everything the kubelet reads is written here, in one pass whose last step
    turns the flags collected on the way into the environment of its unit. *)

From S2P Require Import Prelude GoStrings Host Tracker Semver Api Daemon Installers Validation.
From S2P Require Import KubeletConfig.
#[local] Open Scope Z_scope.

(** ** The kubeconfig (kubeconfig.go and its templates) *)

Record kubeconfigTemplateVars := {
  kct_Cluster : string;
  kct_Region : string;
  kct_APIServerEndpoint : string;
  kct_CaCertPath : string;
  kct_AwsConfigPath : string;
  kct_AwsIamAuthenticatorPath : string;
  kct_AwsProfile : string;
}.
Definition newKubeconfigTemplateVars (cfg : NodeConfig) : kubeconfigTemplateVars := {|
  kct_Cluster := cluster_Name (Cluster (Spec cfg));
  kct_Region := instance_Region (status_Instance (Status cfg));
  kct_APIServerEndpoint := APIServerEndpoint (Cluster (Spec cfg));
  kct_CaCertPath := caCertificatePath;
  kct_AwsConfigPath := ""; kct_AwsIamAuthenticatorPath := ""; kct_AwsProfile := "" |}.
Definition withOutpostVars (cfg : NodeConfig) (k : kubeconfigTemplateVars) :=
  {| kct_Cluster := cluster_ID (Cluster (Spec cfg)); kct_Region := kct_Region k;
     kct_APIServerEndpoint := kct_APIServerEndpoint k; kct_CaCertPath := kct_CaCertPath k;
     kct_AwsConfigPath := kct_AwsConfigPath k;
     kct_AwsIamAuthenticatorPath := kct_AwsIamAuthenticatorPath k;
     kct_AwsProfile := kct_AwsProfile k |}.
(** [iamrolesanywhere.ProfileName]. *)
Definition ProfileName : string := "default".
Definition withHybridTemplateVars (cfg : NodeConfig) (k : kubeconfigTemplateVars) :=
  let region := cluster_Region (Cluster (Spec cfg)) in
  let iam := match Hybrid (Spec cfg) with Some h => hybrid_IAMRolesAnywhere h | None => None end in
  {| kct_Cluster := kct_Cluster k;
     kct_Region := if IsIAMRolesAnywhere cfg || IsSSM cfg then region else kct_Region k;
     kct_APIServerEndpoint := kct_APIServerEndpoint k; kct_CaCertPath := kct_CaCertPath k;
     kct_AwsConfigPath := match iam with Some i => AwsConfigPath i | None => kct_AwsConfigPath k end;
     kct_AwsIamAuthenticatorPath := IAMAuthenticatorBinPath;
     kct_AwsProfile := match iam with Some _ => ProfileName | None => kct_AwsProfile k end |}.

(** The part the two templates share. *)
Definition kubeconfig_head (k : kubeconfigTemplateVars) : list string :=
  ["---"; "apiVersion: v1"; "kind: Config"; "clusters:"; "  - name: kubernetes"; "    cluster:";
   "      certificate-authority: " +:+ kct_CaCertPath k; "      server: " +:+ kct_APIServerEndpoint k;
   "current-context: kubelet"; "contexts:"; "  - name: kubelet"; "    context:";
   "      cluster: kubernetes"; "      user: kubelet"; "users:"; "  - name: kubelet"; "    user:";
   "      exec:"; "        apiVersion: client.authentication.k8s.io/v1beta1"].
Definition kubeconfigTemplate (k : kubeconfigTemplateVars) : string :=
  lines (kubeconfig_head k ++
    ["        command: aws"; "        args:"; "          - " +:+ quoted "eks";
     "          - " +:+ quoted "get-token"; "          - " +:+ quoted "--cluster-name";
     "          - " +:+ quoted (kct_Cluster k); "          - " +:+ quoted "--region";
     "          - " +:+ quoted (kct_Region k)]).
Definition hybridKubeconfigTemplate (k : kubeconfigTemplateVars) : string :=
  lines (kubeconfig_head k ++
    ["        command: " +:+ quoted (kct_AwsIamAuthenticatorPath k)] ++
    (if String.eqb (kct_AwsConfigPath k) "" then [] else
       ["        env:"; "          - name: " +:+ quoted "AWS_PROFILE";
        "            value: " +:+ quoted (kct_AwsProfile k);
        "          - name: " +:+ quoted "AWS_CONFIG_FILE";
        "            value: " +:+ quoted (kct_AwsConfigPath k)]) ++
    ["        args:"; "          - " +:+ quoted "token"; "          - " +:+ quoted "--cluster-id";
     "          - " +:+ quoted (kct_Cluster k); "          - " +:+ quoted "--region";
     "          - " +:+ quoted (kct_Region k)]).

Definition generateKubeconfig (cfg : NodeConfig) : string :=
  let k := newKubeconfigTemplateVars cfg in
  let k := if IsOutpostNode cfg then withOutpostVars cfg k else k in
  if IsHybridNode cfg then hybridKubeconfigTemplate (withHybridTemplateVars cfg k)
  else kubeconfigTemplate k.

Definition kubeconfigBootstrapPath : string := "/var/lib/kubelet/bootstrap-kubeconfig".

(** ** Credential provider configuration *)

Record CredentialProviderAwsConfig := { cp_Profile : string; CredentialsPath : string }.

Definition imageCredentialProviderRoot : string := "/etc/eks/image-credential-provider".
Definition imageCredentialProviderConfigPath : string :=
  path_Join [imageCredentialProviderRoot; "config.json"].

Record CredentialProviderConfig := {
  provider_Name : string;
  MatchImages : list string;
  DefaultCacheDuration : Z;
  provider_Env : list (string * string);
}.
Definition generateImageCredentialProviderConfig (cfg : NodeConfig) (binPath : string)
    (aws : CredentialProviderAwsConfig) : CredentialProviderConfig :=
  let iam := match Hybrid (Spec cfg) with Some h => hybrid_IAMRolesAnywhere h | None => None end in
  {| provider_Name := path_Base binPath;
     MatchImages := ["*.dkr.ecr.*.amazonaws.com"; "*.dkr.ecr.*.amazonaws.com.cn";
       "*.dkr.ecr-fips.*.amazonaws.com"; "*.dkr.ecr.*.c2s.ic.gov"; "*.dkr.ecr.*.sc2s.sgov.gov"];
     DefaultCacheDuration := seconds (12 * 3600);
     provider_Env :=
       match iam with Some i => [("AWS_CONFIG_FILE", AwsConfigPath i)] | None => [] end ++
       (if String.eqb (cp_Profile aws) "" then [] else [("AWS_PROFILE", cp_Profile aws)]) ++
       (if String.eqb (CredentialsPath aws) "" then []
        else [("AWS_SHARED_CREDENTIALS_FILE", CredentialsPath aws)]) |}.

(** ** The daemon *)

Definition kubeletEnvironmentFilePath : string := "/etc/eks/kubelet/environment".
Definition kubeletArgsEnvironmentName : string := "NODEADM_KUBELET_ARGS".
Definition kubernetesAuthenticationValidation : string := "k8s-authentication-validation".

Section KubeletDaemon.
Context `{Env} `{Semver} `{KubeletEnv} `{MapOrder}.
(** The [ECR_CREDENTIAL_PROVIDER_BIN_PATH] of the process, [json.MarshalIndent]
    of the provider configuration, the printer of the validation runner and
    the validation against the API server that [Configure] runs when init
    gave the phases to skip. *)
Context (ECR_CREDENTIAL_PROVIDER_BIN_PATH : option string)
        (json_provider : CredentialProviderConfig → string)
        (printer : Informer Host)
        (MakeAuthenticatedRequest : Validate (O := NodeConfig) (W := Host)).

Definition writeKubeconfig (cfg : NodeConfig) (d : Kubelet) : M Host Kubelet :=
  let kubeconfig := generateKubeconfig cfg in
  if IsOutpostNode cfg then
    let d := set_flag "bootstrap-kubeconfig" kubeconfigBootstrapPath d in
    WriteFileWithDir kubeconfigBootstrapPath kubeconfig 420;; mret d
  else
    let d := set_flag "kubeconfig" kubeconfigPath d in
    WriteFileWithDir kubeconfigPath kubeconfig 420;; mret d.

Definition ensureCredentialProviderBinaryExists (binPath : string) : M Host unit :=
  map_err (λ e, ENew ("image credential provider binary was not found on path " +:+ binPath +:+
                      ". error: " +:+ error_text e)) (os_Stat binPath).
Definition writeImageCredentialProviderConfig (cfg : NodeConfig)
    (aws : CredentialProviderAwsConfig) (d : Kubelet) : M Host Kubelet :=
  let binPath := default (path_Join [imageCredentialProviderRoot; "ecr-credential-provider"])
                   ECR_CREDENTIAL_PROVIDER_BIN_PATH in
  ensureCredentialProviderBinaryExists binPath;;
  let d := set_flag "image-credential-provider-config" imageCredentialProviderConfigPath
             (set_flag "image-credential-provider-bin-dir" (path_Dir binPath) d) in
  WriteFileWithDir imageCredentialProviderConfigPath
    (json_provider (generateImageCredentialProviderConfig cfg binPath aws)) 420;;
  mret d.

Definition writeClusterCaCert (caCert : option string) : M Host unit :=
  WriteFileWithDir caCertificatePath (default "" caCert) 420.

(** The generated flags in any order, then the user's. *)
Definition flag_text (kv : string * string) : string := "--" +:+ kv.1 +:+ "=" +:+ kv.2.
Definition kubelet_args (cfg : NodeConfig) (d : Kubelet) : list string :=
  (flag_text <$> map_order (flags d)) ++ Flags (spec_Kubelet (Spec cfg)).
Definition env_text (kv : string * string) : string := kv.1 +:+ "=" +:+ quoted kv.2.
Definition writeKubeletEnvironment (cfg : NodeConfig) (d : Kubelet) : M Host Kubelet :=
  let d := setEnv kubeletArgsEnvironmentName (Join (kubelet_args cfg d) " ") d in
  WriteFileWithDir kubeletEnvironmentFilePath
    (Join (env_text <$> map_order (environment d)) newline) 420;;
  mret d.

(** [kubelet_write]: the writes of [Configure], in order. *)
Definition kubelet_write (cfg : NodeConfig) (aws : CredentialProviderAwsConfig) (d : Kubelet)
    : M Host Kubelet :=
  d ← writeKubeletConfig cfg d;
  d ← writeKubeconfig cfg d;
  d ← writeImageCredentialProviderConfig cfg aws d;
  writeClusterCaCert (CertificateAuthority (Cluster (Spec cfg)));;
  writeKubeletEnvironment cfg d.

(** [skipPhases] is nil for EC2 nodes, which run no validation here. *)
Definition kubelet_Configure (cfg : NodeConfig) (aws : CredentialProviderAwsConfig)
    (skipPhases : option (list string)) : M Host unit :=
  kubelet_write cfg aws {| flags := ∅; environment := ∅ |};;
  match skipPhases with
  | None => mret tt
  | Some names =>
      Sequentially
        (Register (NewRunner printer [WithSkipValidations names])
           [New kubernetesAuthenticationValidation MakeAuthenticatedRequest]) cfg
  end.

Definition kubelet_EnsureRunning (m : DaemonManager) : M Host unit :=
  DaemonReload m;;
  EnableDaemon m "kubelet";;
  RestartDaemon m "kubelet" [];;
  map_err (EWrap "waiting for kubelet to be running")
    (λ h, WaitForStatus (ticks h) m "kubelet" DaemonStatusRunning (ECtx true) h).

Definition NewKubeletDaemon (m : DaemonManager) (cfg : NodeConfig)
    (aws : CredentialProviderAwsConfig) (skipPhases : option (list string)) : Daemon := {|
  Configure := kubelet_Configure cfg aws skipPhases;
  EnsureRunning := kubelet_EnsureRunning m;
  PostLaunch := mret tt;
  Stop := StopDaemon m "kubelet";
  DaemonName := "kubelet" |}.
End KubeletDaemon.
