(* ===== verification/KubeClient.v ===== *)
(** * The Kubernetes client of the node (internal/kubelet/kubeconfig.go)

    The kubeconfig on the disk is loaded, the environment of its credential
    program is extended, and a client is made of it. *)

From S2P Require Import Prelude Host Installers KubeletConfig KubeletDaemon.
#[local] Open Scope Z_scope.

(** [clientcmdapi.Config]: of a user, who may be absent, the program that gets
    its credentials, which may be absent too; of the program its environment. *)
Record ExecConfig := { exec_Command : string; exec_Env : list (string * string) }.
Record AuthInfo := { auth_Exec : option ExecConfig }.
Record ApiConfig := { CurrentContext : string; AuthInfos : gmap string AuthInfo }.

Definition set_Env (env : list (string * string)) (e : ExecConfig) : ExecConfig :=
  {| exec_Command := exec_Command e; exec_Env := env |}.
Definition set_AuthInfo (user : string) (info : AuthInfo) (c : ApiConfig) : ApiConfig :=
  {| CurrentContext := CurrentContext c; AuthInfos := <[user := info]> (AuthInfos c) |}.

Section KubeClient.
Context `{Env} `{MapOrder}.
(** [clientcmd]'s decoder, the configuration of the REST client it makes, and
    [kubernetes.NewForConfig]. *)
Context {Rest Client : Type} (Load : string → result ApiConfig)
        (ClientConfig : ApiConfig → result Rest) (NewForConfig : Rest → result Client).

(** [AuthInfos] of a user that is absent is a nil pointer. *)
Definition add_env (awsEnvVars : gmap string string) (config : ApiConfig) : M Host ApiConfig :=
  info ← deref (AuthInfos config !! "kubelet");
  exec ← deref (auth_Exec info);
  mret (set_AuthInfo "kubelet"
    {| auth_Exec := Some (set_Env (exec_Env exec ++ map_order awsEnvVars) exec) |} config).

Record KubeClientOptions := { awsEnvVars : gmap string string }.
Definition WithAwsEnvironmentVariables (envVars : gmap string string) : KubeClientOptions → KubeClientOptions :=
  λ _, {| awsEnvVars := envVars |}.

Definition GetKubeClientFromKubeConfig (opts : list (KubeClientOptions → KubeClientOptions)) : M Host Client :=
  let options := fold_left (λ o opt, opt o) opts {| awsEnvVars := ∅ |} in
  config ← map_err (EWrap "loading kubeconfig")
             (data ← os_ReadFile kubeconfigPath; of_result (Load data));
  config ← if bool_decide (awsEnvVars options = ∅) then mret config
           else add_env (awsEnvVars options) config;
  rest ← of_result (wrap_err "building config from kubeconfig" (ClientConfig config));
  of_result (NewForConfig rest).
Definition Kubeconfig_BuildClient : M Host Client := GetKubeClientFromKubeConfig [].

(** A client that is made with variables gets its credentials from the
    program of the file, run with the file's environment and, after it, those
    variables. *)
Lemma client_env vars h client h' :
  vars ≠ ∅ → GetKubeClientFromKubeConfig [WithAwsEnvironmentVariables vars] h = (Return client, h') →
  ∃ data config info exec rest env,
    read_file (fs h) kubeconfigPath = Ok data ∧ Load data = Ok config ∧
    AuthInfos config !! "kubelet" = Some info ∧ auth_Exec info = Some exec ∧
    env ≡ₚ map_to_list vars ∧
    ClientConfig (set_AuthInfo "kubelet" {| auth_Exec := Some (set_Env (exec_Env exec ++ env) exec) |} config) = Ok rest ∧
    NewForConfig rest = Ok client.
Proof using Type.
  intros Hv E. unfold GetKubeClientFromKubeConfig in E. cbn [fold_left] in E.
  change (awsEnvVars _) with vars in E.
  apply bind_Return in E as (config & h1 & EL & E). apply map_err_Return in EL.
  apply bind_Return in EL as (data & h2 & ER & EL).
  rewrite bool_decide_eq_false_2 in E by done.
  apply bind_Return in E as (config' & h3 & EA & E). unfold add_env in EA.
  apply bind_Return in EA as (info & h4 & EI & EA). apply bind_Return in EA as (exec & h5 & EX & EA).
  apply bind_Return in E as (rest & h6 & EC & E).
  assert (read_file (fs h) kubeconfigPath = Ok data) as Hd.
  { revert ER. unfold os_ReadFile, sys, gets, of_result, mbind, M_bind. cbn.
    destruct (fault h (EvRead kubeconfigPath)) as [[]|]; [done|].
    cbn. destruct (read_file (fs h) kubeconfigPath) eqn:EF; cbn; intros [= <- _]; done. }
  unfold of_result in EL, EC, E. destruct (Load data) as [c|] eqn:EL'; [|done]. injection EL as -> _.
  unfold deref in EI, EX. destruct (AuthInfos config !! "kubelet") as [i|] eqn:EI'; [|done]. injection EI as -> _.
  destruct (auth_Exec info) as [x|] eqn:EX'; [|done]. injection EX as -> _. injection EA as <- _.
  destruct (ClientConfig _) as [r|] eqn:EC' in EC; cbn in EC; [|done]. injection EC as -> _.
  destruct (NewForConfig rest) as [cl|] eqn:EN; [|done]. injection E as -> _.
  exists data, config, info, exec, rest, (map_order vars). repeat split; try done. apply map_order_perm.
Qed.
End KubeClient.
