(* ===== verification/KubeletProps.v ===== *)
(** * Properties of the kubelet's configuration and command line *)

From S2P Require Import Prelude GoStrings Host Tracker Semver Api Node Resources Reserve.
From S2P Require Import Network Proxy KubeletConfig KubeletDaemon.
#[local] Open Scope Z_scope.

(** ** The last value of a flag wins *)

Lemma fold_flag_default f l v :
  fold_left (λ flagValue arg,
    if (String.length f <? String.length arg)%nat && HasPrefix arg f
    then drop_str (String.length f) arg else flagValue) l v =
  let w := fold_left (λ flagValue arg,
    if (String.length f <? String.length arg)%nat && HasPrefix arg f
    then drop_str (String.length f) arg else flagValue) l "" in
  if String.eqb w "" then v else w.
Proof.
  cbv zeta. revert v. induction l as [|a l IH] using rev_ind; intros v; [done|].
  rewrite !fold_left_app. cbn [fold_left].
  destruct ((String.length f <? String.length a)%nat && HasPrefix a f) eqn:E; [|apply IH].
  apply andb_true_iff in E as [Hl%Nat.ltb_lt Hp]. apply HasPrefix_spec in Hp as [t ->].
  rewrite length_app_str in Hl. rewrite drop_app_str. destruct t; [cbn in Hl; lia|done].
Qed.

Lemma ExtractFlagValue_app a b flag :
  ExtractFlagValue (a ++ b) flag =
  if String.eqb (ExtractFlagValue b flag) "" then ExtractFlagValue a flag else ExtractFlagValue b flag.
Proof. unfold ExtractFlagValue. rewrite fold_left_app. apply fold_flag_default. Qed.

(** One flag of the generated part against the prefix that is looked for. *)
Lemma flag_text_prefix k v flag :
  free_of "=" k = true → free_of "=" flag = true →
  HasPrefix (flag_text (k, v)) ("--" +:+ flag +:+ "=") = bool_decide (k = flag).
Proof.
  intros Hk Hf. apply eq_true_iff_eq. rewrite bool_decide_eq_true, HasPrefix_spec.
  unfold flag_text. cbn [fst snd]. split; [intros [t Ht]|intros ->; exists v; by rewrite !app_assoc_str].
  rewrite !app_assoc_str in Ht. apply app_inj_l_str in Ht.
  assert (Cut "=" (k +:+ "=" +:+ v) = Some (k, v)) as E1 by (by apply Cut_spec).
  rewrite Ht in E1. assert (Cut "=" (flag +:+ "=" +:+ t) = Some (flag, t)) as E2 by (by apply Cut_spec).
  rewrite E2 in E1. by injection E1.
Qed.

Lemma ExtractFlagValue_generated l flag :
  NoDup l.*1 → Forall (λ kv, free_of "=" kv.1 = true) l → free_of "=" flag = true →
  ExtractFlagValue (flag_text <$> l) flag = default "" (list_to_map (M := gmap string string) l !! flag).
Proof.
  intros Hnd Hk Hf. induction l as [|[k v] l IH]; [done|].
  inversion Hnd as [|? ? Hnot Hnd']; inversion Hk as [|? ? Hfk Hk']; subst. cbn [fst] in *.
  change (flag_text <$> (k, v) :: l) with ([flag_text (k, v)] ++ (flag_text <$> l)).
  rewrite ExtractFlagValue_app, IH by done. cbn [list_to_map foldr fst snd].
  assert (ExtractFlagValue [flag_text (k, v)] flag = if decide (k = flag) then v else "") as ->.
  { unfold ExtractFlagValue. cbn [fold_left]. rewrite flag_text_prefix by done.
    case_decide as Hkf.
    - subst. rewrite bool_decide_true, andb_true_r by done. unfold flag_text. cbn [fst snd].
      rewrite <- !app_assoc_str. destruct (_ <? _)%nat eqn:El; [apply drop_app_str|].
      apply Nat.ltb_ge in El. rewrite (length_app_str _ v) in El. destruct v; [done|cbn in El; lia].
    - by rewrite bool_decide_false, andb_false_r by done. }
  case_decide as Hkf.
  - subst. rewrite lookup_insert_eq. rewrite not_elem_of_list_to_map_1 by done. done.
  - rewrite lookup_insert_ne by done. by destruct (String.eqb_spec (default "" (list_to_map (M := gmap string string) l !! flag)) "") as [->|].
Qed.

Section KubeletProps.
Context `{Env} `{Semver} `{KubeletEnv} `{MapOrder}.

(** The value that the code's own search for a flag finds among the arguments:
    the user's last one when that is not empty, and otherwise the generated
    one, if any. *)
Lemma ExtractFlagValue_args cfg d flag :
  map_Forall (λ k _, free_of "=" k = true) (flags d) → free_of "=" flag = true →
  ExtractFlagValue (kubelet_args cfg d) flag =
    let user := ExtractFlagValue (Flags (spec_Kubelet (Spec cfg))) flag in
    if String.eqb user "" then default "" (flags d !! flag) else user.
Proof using Type.
  intros Hk Hf. unfold kubelet_args. rewrite ExtractFlagValue_app. cbv zeta.
  destruct (String.eqb _ ""); [|done].
  rewrite ExtractFlagValue_generated; [|by rewrite map_order_perm; apply NoDup_fst_map_to_list| |done].
  - f_equal. rewrite <- (list_to_map_to_list (flags d)) at 2. f_equal.
    symmetry. apply list_to_map_proper; [apply NoDup_fst_map_to_list|]. by rewrite map_order_perm.
  - rewrite map_order_perm. apply Forall_elem. intros [k v] Hin.
    apply elem_of_map_to_list in Hin. by apply (Hk k v).
Qed.


End KubeletProps.

(** ** What the kubelet makes of its arguments

    The kubelet's parser is pflag's.  Of it this is assumed: an argument
    [--name=value] of a flag it knows, the empty value included, applies that
    flag's setter, and setters of different flags commute. *)
Section Parser.
Context `{MapOrder} {S : Type} (known : string → Prop)
        (set : string → string → S → S) (parse : list string → S → S).
Context (set_comm : ∀ f g v w s, f ≠ g → set f v (set g w s) = set g w (set f v s))
        (parse_nil : ∀ s, parse [] s = s)
        (parse_flag : ∀ f v args s, known f → parse (flag_text (f, v) :: args) s = parse args (set f v s)).

(** A flag with one value: a later setting replaces an earlier one.  (Those
    that hold a map, such as node-labels, add to it.) *)
Definition replaces (f : string) : Prop := ∀ v w s, set f v (set f w s) = set f v s.
Definition set_all (l : list (string * string)) (s : S) : S := foldl (λ s kv, set kv.1 kv.2 s) s l.

Lemma parse_all l s : Forall known l.*1 → parse (flag_text <$> l) s = set_all l s.
Proof using parse_nil parse_flag.
  revert s. induction l as [|[f v] l IH]; intros s Hk; [apply parse_nil|].
  inversion Hk; subst. cbn [fmap list_fmap]. rewrite parse_flag by done. by apply IH.
Qed.
Lemma set_all_app k l s : set_all (k ++ l) s = set_all l (set_all k s).
Proof using Type. apply foldl_app. Qed.
(** The order of different flags does not matter. *)
Lemma set_all_perm k l s : k ≡ₚ l → NoDup k.*1 → set_all k s = set_all l s.
Proof using set_comm.
  intros Hp. revert s. induction Hp as [|[f v] k l Hp IH|[f v] [g w] k|k l m H1 IH1 H2 IH2]; intros s Hn; [done|..].
  - inversion Hn; subst. by apply IH.
  - inversion Hn as [|? ? Hf]; subst. cbn in *. f_equal. apply set_comm. intros ->. apply Hf. by left.
  - rewrite IH1 by done. apply IH2. by rewrite <- H1.
Qed.
Lemma set_all_past f v l s : f ∉ l.*1 → set_all l (set f v s) = set f v (set_all l s).
Proof using set_comm.
  revert s. induction l as [|[g w] l IH]; intros s Hf; [done|]. cbn in *.
  rewrite not_elem_of_cons in Hf. rewrite set_comm by (intros ->; by destruct Hf). by apply IH, Hf.
Qed.
Definition others (f : string) (l : list (string * string)) : list (string * string) :=
  filter (λ kv, kv.1 ≠ f) l.
Lemma others_not f l : f ∉ (others f l).*1.
Proof using Type. intros ([g w] & -> & [Hg _]%list_elem_of_filter)%list_elem_of_fmap. done. Qed.
Lemma set_all_replaced f v l s : replaces f → set f v (set_all l s) = set f v (set_all (others f l) s).
Proof using set_comm.
  intros Hr. revert s. induction l as [|[g w] l IH]; intros s; [done|]. cbn [set_all foldl fst snd].
  change (set f v (set_all l (set g w s)) = set f v (set_all (others f ((g, w) :: l)) s)). rewrite IH.
  unfold others. rewrite filter_cons. cbn [fst]. case_decide as Hg; [done|].
  subst g. fold (others f l). rewrite set_all_past by apply others_not. apply Hr.
Qed.
Lemma others_delete f (m : gmap string string) : others f (map_to_list m) ≡ₚ map_to_list (delete f m).
Proof using Type.
  apply NoDup_Permutation; [by apply NoDup_filter, NoDup_map_to_list|apply NoDup_map_to_list|].
  intros [g w]. unfold others. rewrite list_elem_of_filter, !elem_of_map_to_list, lookup_delete_Some. naive_solver.
Qed.

(** C33. The flags a user gives win over the generated ones.  Whatever order
    Go ranges over the generated flags in, the kubelet makes of its arguments
    what setting the generated flags and then the user's, in their order,
    makes; and a flag with one value ends with the last value the user gives
    it, the empty one included, on top of what the other flags make: the
    generated value and earlier ones are as if they had not been given. *)
Theorem user_flags_win cfg d us s :
  map_Forall (λ f _, known f) (flags d) → Forall known us.*1 →
  Flags (spec_Kubelet (Spec cfg)) = flag_text <$> us →
  parse (kubelet_args cfg d) s = set_all (map_to_list (flags d) ++ us) s ∧
  ∀ f v pre post, us = pre ++ (f, v) :: post → f ∉ post.*1 → replaces f →
    parse (kubelet_args cfg d) s =
      set f v (set_all (map_to_list (delete f (flags d)) ++ others f pre ++ post) s).
Proof using Type*.
  intros Hd Hu Hus.
  assert (parse (kubelet_args cfg d) s = set_all (map_to_list (flags d) ++ us) s) as HP.
  { unfold kubelet_args. rewrite Hus, <- fmap_app, parse_all.
    - rewrite !set_all_app. f_equal. apply set_all_perm; [apply map_order_perm|].
      rewrite map_order_perm. apply NoDup_fst_map_to_list.
    - rewrite fmap_app. apply Forall_app. split; [|done]. rewrite map_order_perm. apply Forall_elem.
      intros f ([g w] & -> & Hg%elem_of_map_to_list)%list_elem_of_fmap. by apply (Hd g w). }
  split; [done|]. intros f v pre post -> Hf Hr. rewrite HP.
  set (m := map_to_list (flags d)) in *. set (m' := map_to_list (delete f (flags d))).
  assert (set f v (set_all m' s) = set f v (set_all m s)) as Hm.
  { rewrite (set_all_replaced f v m) by done. f_equal. symmetry.
    unfold m. apply set_all_perm; [apply others_delete|]. rewrite others_delete. apply NoDup_fst_map_to_list. }
  rewrite !set_all_app. change (set_all ((f, v) :: post) ?x) with (set_all post (set f v x)).
  rewrite (set_all_replaced f v pre), <- (set_all_past f v post) by done. f_equal.
  rewrite <- !(set_all_past f v (others f pre)) by apply others_not. by rewrite Hm.
Qed.
End Parser.

Section KubeletProps.
Context `{Env} `{Semver} `{KubeletEnv} `{MapOrder}.

(** C32. The configuration generated for a hybrid node.  Every field of it is
    as specified: the defaults, with the DNS server of the service network,
    the provider id made of region, cluster and node name, the resolver's
    file of systemd on Ubuntu and none elsewhere, no limit on pods, and both
    cgroups named, with the CPU of the machine's cores and the memory of its
    capacity reserved.  Of the flags, the node registers under its name with
    the labels of its credential provider, the cloud provider is empty, the
    sandbox image is given before Kubernetes 1.29, and the others stay.  The
    values are those read in the steps from [h] to [h'], in this order. *)
Theorem hybrid_config_spec cfg d c d' h h' :
  IsHybridNode cfg = true →
  GenerateKubeletConfig cfg d h = (Return (c, d'), h') →
  ∃ version h1 dns h2 h3 total h4 cpu,
    GetKubeletVersion h = (Return version, h1) ∧
    GetClusterDns (CIDR (Cluster (Spec cfg))) h1 = (Return dns, h2) ∧
    withOutpostSetup cfg h2 = (Return tt, h3) ∧
    GetMachineMemoryCapacity h3 = (Return total, h4) ∧
    getCPUMillicoresToReserve nodeDir cpusPath h4 = (Return cpu, h') ∧
    c = {| kc_defaults := kc_defaults defaultKubeletSubConfig;
           ClusterDNS := [dns];
           KubeReserved := reserved cpu (reserveMemoryString fused total);
           KubeReservedCgroup := Some "/runtime"; SystemReservedCgroup := Some "/system";
           MaxPods := 0;
           ProviderID := Some ("eks-hybrid:///" +:+ cluster_Region (Cluster (Spec cfg)) +:+ "/" +:+
             cluster_Name (Cluster (Spec cfg)) +:+ "/" +:+ status_NodeName (Status cfg));
           ResolvConf := if String.eqb (os_name h') "ubuntu" then "/run/systemd/resolve/resolv.conf" else "" |} ∧
    flags d' !! "hostname-override" = Some (status_NodeName (Status cfg)) ∧
    flags d' !! "cloud-provider" = Some "" ∧
    flags d' !! "node-labels" = Some ("eks.amazonaws.com/compute-type=hybrid,eks.amazonaws.com/hybrid-credential-provider=" +:+
      NodeType_string (GetNodeType cfg)) ∧
    flags d' !! "pod-infra-container-image" =
      (if semver_Compare version "v1.29.0" <? 0 then Some (SandboxImage (Status cfg))
       else flags d !! "pod-infra-container-image") ∧
    environment d' = environment d ∧
    ∀ f, f ∉ ["hostname-override"; "cloud-provider"; "node-labels"; "pod-infra-container-image"] →
         flags d' !! f = flags d !! f.
Proof using Type.
  intros Hh E. unfold GenerateKubeletConfig in E. rewrite Hh in E.
  apply bind_Return in E as (ver & h1 & EV & E).
  apply bind_Return in E as (c1 & h2 & EC & E). unfold withFallbackClusterDns in EC.
  apply bind_Return in EC as (dns & h3 & ED & [= <- <-]).
  apply bind_Return in E as ([] & h4 & EO & E). unfold withHybridCloudProvider in E.
  apply bind_Return in E as (c2 & h5 & ER & E). unfold withHybridReservedResources in ER.
  apply bind_Return in ER as (total & h6 & ET & ER).
  apply bind_Return in ER as (cpu & h7 & EP & [= <- <-]).
  apply bind_Return in E as (os & h8 & [= <- <-] & [= <- <- <-]).
  exists ver, h1, dns, h3, h4, total, h6, cpu. do 5 (split; [done|]).
  split; [by destruct (String.eqb (os_name h7) _)|].
  set (d0 := withPodInfraContainerImage cfg ver d).
  assert (flags (withHybridNodeLabels cfg (set_flag "hostname-override" (status_NodeName (Status cfg))
    (set_flag "cloud-provider" "" d0))) =
    <["node-labels" := Join [hybridNodeLabel; credentialProviderLabelKey +:+ "=" +:+
        NodeType_string (GetNodeType cfg)] ","]>
    (<["hostname-override" := status_NodeName (Status cfg)]> (<["cloud-provider" := ""]> (flags d0))))
    as -> by done.
  split_and!.
  - by rewrite lookup_insert_ne, lookup_insert_eq.
  - by rewrite lookup_insert_ne, lookup_insert_ne, lookup_insert_eq.
  - by rewrite lookup_insert_eq.
  - rewrite !lookup_insert_ne by done. subst d0. unfold withPodInfraContainerImage.
    destruct (_ <? _); [|done]. cbn. by rewrite lookup_insert_eq.
  - cbn. subst d0. unfold withPodInfraContainerImage. by destruct (_ <? _).
  - intros f Hf. rewrite !lookup_insert_ne by set_solver.
    subst d0. unfold withPodInfraContainerImage. destruct (_ <? _); [|done].
    cbn. by rewrite lookup_insert_ne by set_solver.
Qed.
End KubeletProps.

(** ** Witnesses *)

Example kubelet_131 : Env := {|
  fault _ _ := None;
  run_output _ cmd _ := (if String.eqb cmd "kubelet" then "Kubernetes v1.31.2" else "", None);
  run_effect h _ _ := fs h;
  http_do _ _ := Ok (200, ("", None));
  bad_url _ := None;
  look_path _ _ := None;
  ticks _ := 0%nat; read_part _ _ := "" |}.

Example ubuntu_node : KubeletEnv := {|
  fused := false;
  nodeDir := "/sys/devices/system/node";
  cpusPath := "/sys/devices/system/cpu";
  os_name _ := UbuntuOsName;
  metadata _ _ := Err (ENew "no metadata service");
  url_Host u := Ok u;
  lookup_host _ _ := Ok [];
  eniMaxPods := "";
  ec2_config _ _ := None; DescribeInstanceTypes _ _ _ := Ok [];
  json_config _ := "{}";
  merged_config _ _ := Ok "{}";
  dropin_config _ := Ok "{}" |}.

Definition hybrid_cfg : NodeConfig :=
  {| Spec := {| Cluster := {| cluster_Name := "prod"; cluster_Region := "us-west-2";
      APIServerEndpoint := "https://api"; CertificateAuthority := None; CIDR := "10.100.0.0/16";
      EnableOutpost := None; cluster_ID := "" |};
    spec_Containerd := {| containerd_Config := "" |};
    spec_Instance := {| LocalStorageStrategy := "" |};
    spec_Kubelet := {| Config := ∅; Flags := ["--v=4"; "--hostname-override="] |};
    Hybrid := Hybrid (Spec hybrid_node) |};
     Status := Status hybrid_node |}.

Definition two_gib_host : Host :=
  {| fs := <["/proc/meminfo" := File ("MemTotal:        2097152 kB" +:+ newline) 292]> ∅;
     tracker := no_artifacts; journal := []; provider := no_provider |}.

(** A parser over one value for each flag. *)
Example one_value (args : list string) (s : gmap string string) : gmap string string :=
  foldl (λ s arg, match Cut "=" (TrimPrefix arg "--") with Some (f, v) => <[f := v]> s | None => s end) s args.

Lemma user_flags_win_witness :
  one_value (kubelet_args (H2 := plain_order) hybrid_cfg
     {| flags := <["cloud-provider" := "external"]> (<["hostname-override" := "mi-1"]> ∅); environment := ∅ |}) ∅ =
  <["hostname-override" := ""]> (<["cloud-provider" := "external"]> (<["v" := "4"]> ∅)).
Proof.
  refine (proj2 (user_flags_win (λ f, free_of "=" f = true) (λ f v s, <[f := v]> s) one_value _ _ _ hybrid_cfg _
    [("v", "4"); ("hostname-override", "")] ∅ _ _ _) "hostname-override" "" [("v", "4")] [] _ _ _).
  - intros f g v w s Hf. by apply insert_insert_ne.
  - done.
  - intros f v args s Hf. unfold one_value. cbn [foldl].
    assert (TrimPrefix (flag_text (f, v)) "--" = f +:+ "=" +:+ v) as ->
      by apply (TrimPrefix_app "--").
    by rewrite (proj2 (Cut_spec "=" (f +:+ "=" +:+ v) f v)).
  - apply map_Forall_insert_2; [reflexivity|]. apply map_Forall_insert_2; [reflexivity|]. apply map_Forall_empty.
  - repeat constructor.
  - reflexivity.
  - reflexivity.
  - by apply not_elem_of_nil.
  - intros v w s. apply insert_insert_eq.
Defined.

Lemma hybrid_config_spec_witness :
  ∃ c d', (GenerateKubeletConfig (H := kubelet_131) (H1 := ubuntu_node) hybrid_cfg
             {| flags := ∅; environment := ∅ |} two_gib_host).1 = Return (c, d') ∧
    ClusterDNS c = ["10.100.0.10"] ∧
    flags d' !! "cloud-provider" = Some "" ∧ flags d' !! "node-ip" = None.
Proof.
  destruct (GenerateKubeletConfig (H := kubelet_131) (H1 := ubuntu_node) hybrid_cfg
    {| flags := ∅; environment := ∅ |} two_gib_host) as [o h'] eqn:E.
  assert (∃ c d', o = Return (c, d') ∧ ClusterDNS c = ["10.100.0.10"]) as (c & d' & -> & Hdns).
  { change o with (o, h').1. rewrite <- E. eexists _, _. split; vm_compute; reflexivity. }
  exists c, d'. split; [reflexivity|]. split; [exact Hdns|].
  destruct (hybrid_config_spec (H := kubelet_131) (H1 := ubuntu_node) _ _ _ _ _ _
    (eq_refl : IsHybridNode hybrid_cfg = true) E)
    as (? & ? & ? & ? & ? & ? & ? & ? & _ & _ & _ & _ & _ & _ & _ & Hcp & _ & _ & _ & Hrest).
  split; [exact Hcp|]. rewrite Hrest; [reflexivity|set_solver].
Defined.
