(* ===== verification/Credentials.v ===== *)
(** * AWS credentials of a hybrid node (internal/iamrolesanywhere:
      aws_config.go, daemon.go, validate.go; internal/ssm: daemon.go, config.go,
      credentials.go, validate.go; internal/aws/sts/validate.go;
      internal/creds: aws.go and validation.go)

    The AWS configuration file and the unit that keeps the credentials of IAM
    Roles Anywhere fresh, the registration with SSM, the waits for the
    credentials file of either, and the checks that the services answer. *)

From S2P Require Import Prelude GoStrings Host Tracker Api Daemon Retry Installers Ssm Node.
From S2P Require Import PackageManager Aws Validation Validators Proxy KubeletConfig KubeletDaemon.
#[local] Open Scope Z_scope.

(** What lies outside: the environment of the process, the proxy, the
    AWS SDK and time.  A client is its configuration. *)
Class CloudEnv := {
  LookupEnv : string → option string;
  (** [httpproxy.FromEnvironment]: its HTTP and HTTPS proxies. *)
  FromEnvironment : string * string;
  ProxyFunc : URL → result (option string);
  (** The status with which the proxy answers CONNECT. *)
  connect_status : Host → string → result Z;
  (** The files after a wait: what other processes did meanwhile. *)
  elapsed : Host → files;
  (** What the [select] on an operation of the daemon manager sees first. *)
  op_outcome : Host → option string;
  (** [config.LoadDefaultConfig] with these options fails, or loads them.  A
      region that is not given, which the empty one counts as, is resolved
      from the environment, the shared configuration and, when that is asked
      for, the metadata service. *)
  load_config : AwsConfig → Host → option error;
  resolve_region : AwsConfig → Host → string;
  (** [EndpointResolverV2.ResolveEndpoint] of a service. *)
  resolve_endpoint : string → AwsConfig → result URL;
  GetCallerIdentity : AwsConfig → Host → result (option string);
}.

Definition background : Ctx := {| ctx_base := 0; ctx_timeouts := [] |}.

(** A program as a request of the retrier.  The requests below do not panic. *)
Definition as_request (m : M Host unit) : Request Host := λ _ h,
  match m h with
  | (Throw e, h') => (Some e, h')
  | (_, h') => (None, h')
  end.

Section Credentials.
Context `{Env} `{CloudEnv} `{KubeletEnv} `{BackoffLoop}.

Definition Getenv (key : string) : string := default "" (LookupEnv key).
Definition proxy_enabled : bool := IsProxyEnabled Getenv FromEnvironment.

(** ** Waiting for a file

    [ticks] waits elapse before the context is done. *)
Definition sleep : M Host unit :=
  λ h, (Return tt, set_fs (elapsed h) (record (EvCall "wait") h)).
Fixpoint wait_for_file (ticks : nat) (path : string) (late : error) : M Host unit :=
  found ← file_Exists path;
  if found : bool then mret tt
  else match ticks with
       | O => throw late
       | S ticks => sleep;; wait_for_file ticks path late
       end.

(** ** IAM Roles Anywhere: the AWS configuration (aws_config.go) *)

Definition DefaultAWSConfigPath : string := "/etc/aws/hybrid/config".

Record AWSConfig := {
  c_TrustAnchorARN : string;
  c_ProfileARN : string;
  c_RoleARN : string;
  c_Region : string;
  c_NodeName : string;
  c_ConfigPath : string;
  c_SigningHelperBinPath : string;
  c_CertificatePath : string;
  c_PrivateKeyPath : string;
}.

Definition validateAWSConfig (cfg : AWSConfig) : option error :=
  let required (field name : string) := if String.eqb field "" then [ENew (name +:+ " cannot be empty")] else [] in
  errors_Join
    (required (c_TrustAnchorARN cfg) "TrustAnchorARN" ++
     required (c_ProfileARN cfg) "ProfileARN" ++
     required (c_RoleARN cfg) "RoleARN" ++
     required (c_Region cfg) "Region" ++
     required (c_NodeName cfg) "NodeName" ++
     required (c_SigningHelperBinPath cfg) "Signing helper path" ++
     required (c_CertificatePath cfg) "CertificatePath" ++
     required (c_PrivateKeyPath cfg) "PrivateKeyPath").

(** The template, the profile's name in it: the same lines for the profile
    and for the one kept for older versions. *)
Definition profile_lines (name : string) (cfg : AWSConfig) : list string :=
  ["[profile " +:+ name +:+ "]";
   "region = " +:+ c_Region cfg;
   "credential_process = " +:+ c_SigningHelperBinPath cfg +:+ " credential-process --certificate " +:+
     c_CertificatePath cfg +:+ " --private-key " +:+ c_PrivateKeyPath cfg +:+
     " --trust-anchor-arn " +:+ c_TrustAnchorARN cfg +:+ " --profile-arn " +:+ c_ProfileARN cfg +:+
     " --role-arn " +:+ c_RoleARN cfg +:+ " --role-session-name " +:+ c_NodeName cfg +:+
     (if proxy_enabled then " --with-proxy" else "")].
Definition awsConfigTpl (cfg : AWSConfig) : string :=
  lines (profile_lines ProfileName cfg ++
         ["";
          "# hybrid profile is maintained for backwards compatibility, nodeadm no longer uses it"] ++
         profile_lines "hybrid" cfg).

(** The permission bits of [os.ModeDir] alone are none. *)
Definition writeConfigFile (cfg : AWSConfig) : M Host unit :=
  os_MkdirAll (path_Dir (c_ConfigPath cfg)) 0;;
  map_err (EWrap "writing AWS config file") (os_WriteFile (c_ConfigPath cfg) (awsConfigTpl cfg) 420).

Definition with_ConfigPath (path : string) (cfg : AWSConfig) : AWSConfig :=
  {| c_TrustAnchorARN := c_TrustAnchorARN cfg; c_ProfileARN := c_ProfileARN cfg;
     c_RoleARN := c_RoleARN cfg; c_Region := c_Region cfg; c_NodeName := c_NodeName cfg;
     c_ConfigPath := path; c_SigningHelperBinPath := c_SigningHelperBinPath cfg;
     c_CertificatePath := c_CertificatePath cfg; c_PrivateKeyPath := c_PrivateKeyPath cfg |}.
Definition WriteAWSConfig (cfg : AWSConfig) : M Host unit :=
  let cfg := if String.eqb (c_ConfigPath cfg) "" then with_ConfigPath DefaultAWSConfigPath cfg else cfg in
  of_option (validateAWSConfig cfg);;
  writeConfigFile cfg.

(** ** IAM Roles Anywhere: the signing helper (daemon.go)

    The node is an IAM Roles Anywhere node: a nil pointer panics otherwise. *)

Definition spec_iam (node : NodeConfig) : option IAMRolesAnywhere :=
  match Hybrid (Spec node) with Some h => hybrid_IAMRolesAnywhere h | None => None end.

Definition GenerateUpdateSystemdService (node : NodeConfig) : M Host string :=
  match spec_iam node with
  | None => panic
  | Some i =>
      mret (lines
        ["[Unit]";
         "Description=Service that runs aws_signing_helper update to keep the AWS credentials refreshed in " +:+
           EksHybridAwsCredentialsPath +:+ ".";
         ""; "[Service]"; "User=root";
         "Environment=AWS_SHARED_CREDENTIALS_FILE=" +:+ EksHybridAwsCredentialsPath;
         "ExecStart=" +:+ SigningHelperBinPath +:+ " update \";
         "        --certificate " +:+ CertificatePath i +:+ " \";
         "        --private-key " +:+ PrivateKeyPath i +:+ " \";
         "        --trust-anchor-arn " +:+ TrustAnchorARN i +:+ " \";
         "        --profile-arn " +:+ ProfileARN i +:+ " \";
         "        --role-arn " +:+ RoleARN i +:+ " \";
         "        --role-session-name " +:+ iam_NodeName i +:+ " \";
         "        --region " +:+ cluster_Region (Cluster (Spec node)) +:+
           (if proxy_enabled then " --with-proxy" else "");
         "StandardOutput=journal"; "StandardError=journal"; "Restart=always"; "RestartSec=10";
         "CPUAccounting=true"; "MemoryAccounting=true"; ""; "[Install]";
         "WantedBy=multi-user.target"])
  end.

Definition SigningHelper_Configure (m : DaemonManager) (node : NodeConfig) : M Host unit :=
  service ← GenerateUpdateSystemdService node;
  map_err (λ e, ENew ("writing aws_signing_helper_update service file " +:+
                      EksHybridAwsCredentialsPath +:+ ": " +:+ error_text e))
    (WriteFileWithDir SigningHelperServiceFilePath service 420);;
  map_err (λ e, ENew ("reloading systemd daemon: " +:+ error_text e)) (DaemonReload m).
Definition signing_helper : string := "aws_signing_helper_update".
Definition SigningHelper_EnsureRunning (m : DaemonManager) : M Host unit :=
  EnableDaemon m signing_helper;;
  RestartDaemon m signing_helper [].

Definition EnableCredentials (node : NodeConfig) : bool :=
  match Hybrid (Spec node) with Some h => EnableCredentialsFile h | None => false end.

Definition waitForIAMRolesAnywhereCreds (ticks : nat) (awsCredsFile : string) : M Host unit :=
  wait_for_file ticks awsCredsFile
    (EWrap ("iam-roles-anywhere AWS creds file " +:+ awsCredsFile +:+ " hasn't been created on time")
       (ECtx true)).
Definition SigningHelper_PostLaunch (node : NodeConfig) : M Host unit :=
  when (EnableCredentials node)
    (map_err (EWrap "waiting for AWS credentials file")
       (λ h, waitForIAMRolesAnywhereCreds (ticks h) EksHybridAwsCredentialsPath h)).

Definition NewSigningHelperDaemon (m : DaemonManager) (node : NodeConfig) : Daemon := {|
  Daemon.Configure := SigningHelper_Configure m node;
  EnsureRunning := SigningHelper_EnsureRunning m;
  PostLaunch := SigningHelper_PostLaunch node;
  Stop := StopDaemon m signing_helper;
  DaemonName := signing_helper |}.

(** ** SSM: registration (config.go) and the agent (daemon.go) *)

Context (json_Unmarshal_registration : string → result HybridInstanceRegistration).

Definition possibleAgentPaths : list string :=
  ["/usr/bin/amazon-ssm-agent"; "/snap/amazon-ssm-agent/current/amazon-ssm-agent"].
Fixpoint first_existing (paths : list string) : M Host (option string) :=
  match paths with
  | [] => mret None
  | p :: paths =>
      found ← file_Exists p;
      if found : bool then mret (Some p) else first_existing paths
  end.
Definition agentBinaryPath : M Host string :=
  p ← first_existing possibleAgentPaths;
  match p with
  | Some p => mret p
  | None => throw (ENew ("ssm agent binary not found in any of the well known paths [[" +:+
                         Join possibleAgentPaths " " +:+ "]]"))
  end.

(** The configuration of the node is shared: the name is set in place. *)
Definition modify_config (f : NodeConfig → NodeConfig) : M Host unit :=
  modify (λ h, let p := provider h in
    set_provider {| hnp_nodeConfig := f (hnp_nodeConfig p); hnp_awsConfig := hnp_awsConfig p;
                    hnp_cluster := hnp_cluster p |} h).
Definition set_NodeName (name : string) (cfg : NodeConfig) : NodeConfig :=
  {| Spec := Spec cfg;
     Status := {| status_Instance := status_Instance (Status cfg); status_NodeName := name;
                  SandboxImage := SandboxImage (Status cfg) |} |}.
Definition set_SandboxImage (image : string) (cfg : NodeConfig) : NodeConfig :=
  {| Spec := Spec cfg;
     Status := {| status_Instance := status_Instance (Status cfg);
                  status_NodeName := status_NodeName (Status cfg); SandboxImage := image |} |}.
Definition shared_config : M Host NodeConfig := gets (λ h, hnp_nodeConfig (provider h)).

Definition spec_ssm (node : NodeConfig) : option SSM :=
  match Hybrid (Spec node) with Some h => hybrid_SSM h | None => None end.

(** [registerMachine]: registration is skipped when it was done before, and
    the node's name is the registered one either way. *)
Definition registerMachine : M Host unit :=
  cfg ← shared_config;
  registered ← isRegistered json_Unmarshal_registration "";
  (if registered : bool then mret tt else
     agentPath ← map_err (EWrap "can't register without ssm agent installed") agentBinaryPath;
     match spec_ssm cfg with
     | None => panic
     | Some s =>
         map_err (EWrap "failed to register machine with SSM after multiple attempts")
           (cmd_Retry (NewCmd agentPath
              ["-register"; "-y"; "-region"; cluster_Region (Cluster (Spec cfg));
               "-code"; ActivationCode s; "-id"; ActivationID s]))
     end);;
  registeredNodeName ← GetManagedHybridInstanceId json_Unmarshal_registration "";
  modify_config (set_NodeName registeredNodeName).

(** [.*ActivationExpired*]: the last letter any number of times. *)
Definition activationExpiredRegex (s : string) : bool := Contains s "ActivationExpire".
Definition invalidActivationRegex (s : string) : bool := Contains s "InvalidActivatio".
Definition registration_error (err : error) : error :=
  if activationExpiredRegex (error_text err)
  then ENew "SSM activation expired. Please use a valid activation"
  else if invalidActivationRegex (error_text err)
  then ENew "invalid SSM activation. Please use a valid activation code, activation id and region"
  else err.
Definition ssm_Configure : M Host unit := map_err registration_error registerMachine.

(** [setDaemonName] on the variable's initial value. *)
Definition ssm_daemon_name (osName : string) : string :=
  if String.eqb osName UbuntuOsName then "snap.amazon-ssm-agent.amazon-ssm-agent"
  else "amazon-ssm-agent".

Definition ssm_EnsureRunning (m : DaemonManager) (name : string) : M Host unit :=
  EnableDaemon m name;;
  map_err (EWrap "restarting SSM agent")
    (λ h, RetryOperation (ticks h) op_outcome (ECtx true) (RestartDaemon m) name [] h);;
  map_err (EWrap "waiting for SSM agent to be running")
    (λ h, WaitForStatus (ticks h) m name DaemonStatusRunning (ECtx true) h).

(** A symbolic link is an entry whose mode has [os.ModeSymlink], its target
    as its data; it fails when there is an entry already. *)
Definition ModeSymlink : Z := 134217728.
Definition os_Symlink (old new : string) : M Host unit :=
  sys (EvCall ("symlink " +:+ old +:+ " " +:+ new)) (λ f,
    match f !! new with
    | Some _ => Err (ENew ("symlink " +:+ old +:+ " " +:+ new +:+ ": file exists"))
    | None => if is_dir f (path_Dir new) then Ok (<[new := File old (ModeSymlink + 511)]> f)
              else Err (ENotExist new)
    end).

Definition eksHybridPath : string := "/eks-hybrid".
Definition ssm_PostLaunch : M Host unit :=
  cfg ← shared_config;
  when (EnableCredentials cfg)
    (map_err (λ e, ENew ("creating path: " +:+ error_text e)) (os_MkdirAll eksHybridPath 493);;
     (r ← try (os_RemoveAll symlinkedAWSConfigPath);
      match r with
      | Ok _ => mret tt
      | Err e => if os_IsNotExist e then mret tt
                 else throw (ENew ("removing directory " +:+ symlinkedAWSConfigPath +:+ ": " +:+ error_text e))
      end);;
     map_err (λ e, ENew ("creating symlink: " +:+ error_text e))
       (os_Symlink defaultAWSConfigPath symlinkedAWSConfigPath)).

Definition NewSsmDaemon (m : DaemonManager) : M Host Daemon :=
  name ← gets (λ h, ssm_daemon_name (os_name h));
  mret {| Daemon.Configure := ssm_Configure;
          EnsureRunning := ssm_EnsureRunning m name;
          PostLaunch := ssm_PostLaunch;
          Stop := StopDaemon m name;
          DaemonName := name |}.

(** ** Loading a configuration (credentials.go, creds/aws.go) *)

Definition with_region (region : string) (o : AwsConfig) : AwsConfig :=
  {| aws_Region := region; SharedConfigFiles := SharedConfigFiles o; SharedCredentialsFiles := SharedCredentialsFiles o;
     SharedConfigProfile := SharedConfigProfile o; IMDSDisabled := IMDSDisabled o |}.
Definition LoadDefaultConfig (o : AwsConfig) : M Host AwsConfig :=
  external (EvCall "LoadDefaultConfig");;
  err ← gets (load_config o);
  of_option err;;
  region ← gets (resolve_region o);
  mret (if String.eqb (aws_Region o) "" then with_region region o else o).

Definition awsCredentialsFilePath : string := defaultAWSConfigPath +:+ "/credentials".
Definition awsCredsFile : string := default awsCredentialsFilePath (LookupEnv "AWS_SHARED_CREDENTIALS_FILE").

Definition WaitForAWSConfig (nodeConfig : NodeConfig) (ticks : nat) : M Host AwsConfig :=
  wait_for_file ticks awsCredsFile
    (EWrap ("ssm AWS creds file " +:+ awsCredsFile +:+ " hasn't been created on time") (ECtx true));;
  LoadDefaultConfig {| aws_Region := cluster_Region (Cluster (Spec nodeConfig));
    SharedConfigFiles := Some []; SharedCredentialsFiles := Some [awsCredsFile];
    SharedConfigProfile := ""; IMDSDisabled := true |}.

(** Without options. *)
Definition ReadConfigAsKubelet (node : NodeConfig) : M Host AwsConfig :=
  let region := cluster_Region (Cluster (Spec node)) in
  let plain := {| aws_Region := region; SharedConfigFiles := None; SharedCredentialsFiles := None;
                  SharedConfigProfile := ""; IMDSDisabled := false |} in
  if negb (IsHybridNode node) || IsSSM node then LoadDefaultConfig plain else
  match spec_iam node with
  | Some i =>
      let awsConfigPath := if String.eqb (AwsConfigPath i) "" then DefaultAWSConfigPath
                           else AwsConfigPath i in
      LoadDefaultConfig {| aws_Region := region; SharedConfigFiles := Some [awsConfigPath];
        SharedCredentialsFiles := None; SharedConfigProfile := ProfileName; IMDSDisabled := false |}
  | None => throw (ENew "don't know how to build aws config for node config: only EC2, SSM or IAM Roles Anywhere are supported")
  end.

(** ** Reaching the services (validate.go of ssm, iamrolesanywhere and sts) *)

Definition check_host (u : URL) : M Host unit := CheckConnectionToHost ProxyFunc connect_status u.
(** [retry.NetworkRequest] around the connection check. *)
Definition reach (u : URL) : M Host unit := NetworkRequest background (as_request (check_host u)) [].

Definition CheckEndpointAccess (service label : string) (config : AwsConfig) : M Host unit :=
  endpoint ← map_err (EWrap ("resolving " +:+ label +:+ " endpoint"))
               (of_result (resolve_endpoint service config));
  map_err (EWrap ("checking connection to " +:+ label +:+ " endpoint")) (reach endpoint).

Definition remedied (remediation : string) (m : M Host unit) : M Host unit :=
  map_err (λ e, WithRemediation e remediation) m.

(** The same in the packages of SSM and STS. *)
Definition ssm_CheckEndpointAccess : AwsConfig → M Host unit := CheckEndpointAccess "ssm" "ssm".
Definition sts_CheckEndpointAccess : AwsConfig → M Host unit := CheckEndpointAccess "sts" "sts".

Definition ssm_AccessValidator_Run (aws : AwsConfig) (i : Informer Host) : M Host unit :=
  informed i "ssm-endpoint-access" "Validating access to AWS SSM API endpoint"
    (remedied "Ensure your network configuration allows access to the AWS SSM API endpoint"
       (ssm_CheckEndpointAccess aws)).
Definition iamra_AccessValidator_Run (aws : AwsConfig) (i : Informer Host) : M Host unit :=
  informed i "iam-roles-anywhere-endpoint-access"
    "Validating access to AWS IAM Roles Anywhere API endpoint"
    (remedied "Ensure your network configuration allows access to the AWS IAM Roles Anywhere API endpoint"
       (CheckEndpointAccess "rolesanywhere" "IAM Roles Anywhere" aws)).

(** An endpoint that is out of reach is no failure. *)
Definition AuthenticationValidator_Run (aws : AwsConfig) (i : Informer Host) : M Host unit :=
  r ← try (sts_CheckEndpointAccess aws);
  match r with
  | Err _ => mret tt
  | Ok _ =>
      informed i "sts-authentication" "Validating authentication against AWS"
        (remedied "Check your AWS configuration and make sure you can obtain valid AWS credentials."
           (call "sts:GetCallerIdentity" (GetCallerIdentity aws);; mret tt))
  end.

(** ** The validations of a credential provider (creds/validation.go) *)

(** A validation that reads neither the node nor writes to it. *)
Definition on_host (run : Informer Host → M Host unit) : Validate (O := NodeConfig) (W := Host) :=
  λ i s, let '(o, h') := run i s.2 in (o, (s.1, h')).

Definition creds_Validations (config : AwsConfig) (node : NodeConfig)
    : list (Validation (O := NodeConfig) (W := Host)) :=
  if IsSSM node then [New "ssm-api-network" (on_host (ssm_AccessValidator_Run config))]
  else if IsIAMRolesAnywhere node
  then [New "iam-ra-api-network" (on_host (iamra_AccessValidator_Run config))]
  else [].

(** ** The partition of the caller (aws/partition.go) *)

Definition GetPartitionFromConfig (cfg : AwsConfig) : M Host string :=
  arn ← map_err (EWrap "failed to get caller identity")
          (call "sts:GetCallerIdentity" (GetCallerIdentity cfg));
  match arn with
  | None => throw (ENew "caller identity ARN is nil")
  | Some arn => of_result (ParsePartitionFromARN arn)
  end.
End Credentials.
