(* ===== verification/CredentialProps.v ===== *)
(** * Properties of the credentials of a hybrid node *)

From S2P Require Import Prelude GoStrings Host Tracker Api Daemon Retry Installers Ssm Node.
From S2P Require Import PackageManager Validation Validators Proxy KubeletConfig KubeletDaemon Credentials.
#[local] Open Scope Z_scope.

Section Waiting.
Context `{Env} `{CloudEnv}.

Lemma file_Exists_Return p h : ∃ b h', file_Exists p h = (Return b, h').
Proof.
  unfold file_Exists, os_Stat. cbv [mbind M_bind try sys].
  destruct (fault h (EvStat p)) as [[e f]|]; [by eexists _, _|].
  destruct (if is_dir _ _ then _ else _); by eexists _, _.
Qed.

(** The file is there when it is looked for in [h]. *)
Definition there (p : string) (h : Host) : Prop := (file_Exists p h).1 = Return true.
(** The host after [n] looks at the path that each are followed by a wait. *)
Fixpoint waited (n : nat) (p : string) (h : Host) : Host :=
  match n with
  | O => h
  | S n => waited n p (sleep (file_Exists p h).2).2
  end.

Lemma wait_for_file_spec ticks p late h :
  (∃ k, (k <= ticks)%nat ∧ there p (waited k p h) ∧ (∀ j, (j < k)%nat → ¬ there p (waited j p h)) ∧
     wait_for_file ticks p late h = (Return tt, (file_Exists p (waited k p h)).2)) ∨
  ((∀ j, (j <= ticks)%nat → ¬ there p (waited j p h)) ∧
   wait_for_file ticks p late h = (Throw late, (file_Exists p (waited ticks p h)).2)).
Proof.
  revert h. induction ticks as [|ticks IH]; intros h;
    destruct (file_Exists_Return p h) as (b & h1 & E); destruct b.
  1, 3: left; exists 0%nat; split; [lia|]; split; [unfold there; cbn; by rewrite E|];
    split; [lia|]; cbn; cbv [mbind M_bind]; by rewrite E.
  - right. split.
    + intros j Hj. replace j with 0%nat by lia. unfold there. cbn. by rewrite E.
    + cbn. cbv [mbind M_bind]. by rewrite E.
  - assert (wait_for_file (S ticks) p late h = wait_for_file ticks p late (sleep h1).2) as Hw
      by (cbn [wait_for_file]; cbv [mbind M_bind]; by rewrite E).
    assert (∀ j, waited (S j) p h = waited j p (sleep h1).2) as Hs by (intros j; cbn [waited]; by rewrite E).
    assert (¬ there p h) as Hn by (unfold there; by rewrite E).
    rewrite Hw. destruct (IH (sleep h1).2) as [(k & Hk & Ht & Hj & Hr)|(Hj & Hr)].
    + left. exists (S k). split; [lia|]. rewrite Hs. split; [done|]. split; [|done].
      intros [|j] Hlt; [done|]. rewrite Hs. apply Hj. lia.
    + right. rewrite Hs. split; [|done]. intros [|j] Hlt; [done|]. rewrite Hs. apply Hj. lia.
Qed.

(** C29. The wait for the credentials of IAM Roles Anywhere ends, and it
    succeeds exactly when the file turns up in time: with [ticks] waits
    before the context is done, it returns at the first of the [ticks + 1]
    looks that finds the file, having waited no longer, and otherwise fails
    with the context's error after the last look. *)
Theorem creds_wait_live ticks awsCredsFile h :
  (∃ k, (k <= ticks)%nat ∧ there awsCredsFile (waited k awsCredsFile h) ∧
     (∀ j, (j < k)%nat → ¬ there awsCredsFile (waited j awsCredsFile h)) ∧
     waitForIAMRolesAnywhereCreds ticks awsCredsFile h =
       (Return tt, (file_Exists awsCredsFile (waited k awsCredsFile h)).2)) ∨
  ((∀ j, (j <= ticks)%nat → ¬ there awsCredsFile (waited j awsCredsFile h)) ∧
   waitForIAMRolesAnywhereCreds ticks awsCredsFile h =
     (Throw (EWrap ("iam-roles-anywhere AWS creds file " +:+ awsCredsFile +:+
                    " hasn't been created on time") (ECtx true)),
      (file_Exists awsCredsFile (waited ticks awsCredsFile h)).2)).
Proof. apply wait_for_file_spec. Qed.
End Waiting.

Section Registration.
Context `{Env} `{CloudEnv} `{KubeletEnv} `{BackoffLoop}.
Context (json : string → result HybridInstanceRegistration).

Definition not_a_run (ev : event) : Prop := match ev with EvRun _ _ => False | _ => True end.

Lemma isRegistered_journaled : journaled not_a_run (isRegistered json "").
Proof. unfold isRegistered, GetManagedHybridInstanceId, getRegistration. host_tac; done. Qed.
Lemma GetManagedHybridInstanceId_journaled : journaled not_a_run (GetManagedHybridInstanceId json "").
Proof. unfold GetManagedHybridInstanceId, getRegistration. host_tac; done. Qed.

Lemma modify_config_journaled f : journaled not_a_run (modify_config f).
Proof. intros h o h' [= <- <-]. exists []. by rewrite app_nil_r. Qed.

(** Registration with SSM is done at most once per machine: when the
    agent's registration can be read, configuring the daemon runs no
    command at all, so the activation is not used a second time, and the
    node takes the registered instance id as its name, its configuration
    otherwise unchanged; when there is none, the agent's own registration
    comes first, and the name is the one it registered. *)
Theorem ssm_registered_once h h' :
  ssm_Configure json h = (Return tt, h') →
  ∃ id h1 h2, GetManagedHybridInstanceId json "" h1 = (Return id, h2) ∧
    h' = (modify_config (set_NodeName id) h2).2 ∧
    (∀ h0, (isRegistered json "" h = (Return true, h0)) → h1 = h0 ∧
       ∃ evs, journal h' = journal h ++ evs ∧ Forall not_a_run evs) ∧
    (∀ h0, isRegistered json "" h = (Return false, h0) →
       ∃ s agent ha, spec_ssm (hnp_nodeConfig (provider h)) = Some s ∧
         agentBinaryPath h0 = (Return agent, ha) ∧
         cmd_Retry (NewCmd agent ["-register"; "-y"; "-region";
            cluster_Region (Cluster (Spec (hnp_nodeConfig (provider h))));
            "-code"; ActivationCode s; "-id"; ActivationID s]) ha = (Return tt, h1)).
Proof.
  intros E. apply map_err_Return in E. unfold registerMachine in E.
  apply bind_Return in E as (cfg & h0 & [= <- <-] & E).
  apply bind_Return in E as (reg & h0 & ER & E).
  apply bind_Return in E as ([] & h1 & EM & E).
  apply bind_Return in E as (id & h2 & EI & EC).
  exists id, h1, h2. split; [done|]. split; [by injection EC as <-|]. split.
  - intros h0' ER'. rewrite ER' in ER. injection ER as <- <-. injection EM as <-. split; [done|].
    destruct (isRegistered_journaled _ _ _ ER') as (e1 & J1 & F1).
    destruct (GetManagedHybridInstanceId_journaled _ _ _ EI) as (e2 & J2 & F2).
    exists (e1 ++ e2). injection EC as <-. cbn. rewrite J2, J1, app_assoc.
    split; [done|by apply Forall_app_2].
  - intros h0' ER'. rewrite ER' in ER. injection ER as <- <-.
    apply bind_Return in EM as (agent & ha & EA & EM). apply map_err_Return in EA.
    destruct (spec_ssm _) as [s|]; [|done]. apply map_err_Return in EM. by exists s, agent, ha.
Qed.
End Registration.

(** ** Witness *)

Example registered_host : Host :=
  {| fs := <["/var/lib/amazon/ssm/registration" := File "mi-0abc" 384]> ∅;
     tracker := no_artifacts; journal := []; provider := no_provider |}.
Example plain_json (s : string) : result HybridInstanceRegistration :=
  Ok {| ManagedInstanceID := s; RegRegion := "us-west-2" |}.

Lemma ssm_registered_once_witness :
  ∃ h', ssm_Configure plain_json registered_host = (Return tt, h') ∧
    status_NodeName (Status (hnp_nodeConfig (provider h'))) = "mi-0abc" ∧
    ∃ evs, journal h' = evs ∧ Forall not_a_run evs.
Proof.
  destruct (ssm_Configure plain_json registered_host) as [o h'] eqn:E.
  assert (o = Return tt) as ->.
  { change o with (o, h').1. rewrite <- E. vm_compute. reflexivity. }
  exists h'. split; [reflexivity|].
  destruct (ssm_registered_once plain_json _ _ E) as (id & h1 & h2 & Hid & Hh & Hyes & _).
  destruct (isRegistered plain_json "" registered_host) as [r h0] eqn:ER.
  assert (r = Return true) as ->.
  { change r with (r, h0).1. rewrite <- ER. vm_compute. reflexivity. }
  destruct (Hyes h0 eq_refl) as (Hh1 & evs & J & F). split.
  - change h' with (Return tt, h').2. rewrite <- E. vm_compute. reflexivity.
  - exists evs. split; [exact J|exact F].
Defined.
