(* ===== verification/KubeAccess.v ===== *)
(** * Access to the cluster (internal/kubernetes: connection.go,
      unauthenticated.go, validate.go, access.go, cluster.go;
      internal/aws/eks/cluster.go)

    What is known of the cluster, from the node's configuration or from the
    EKS API, and the checks that its API server answers: its name resolves,
    its port accepts connections, it refuses a request without credentials,
    and it takes the node for a node. *)

From S2P Require Import Prelude GoStrings Host Tracker Semver Api Base64 Network Retry Validation.
From S2P Require Import Installers Validators Proxy KubeletConfig Credentials Node.
#[local] Open Scope Z_scope.

(** An element of [Subsets] of an [Endpoints] object: its ports by name and
    number, its addresses. *)
Record EndpointSubset := { Ports : list (string * Z); Addresses : list string }.
(** [Status.UserInfo] of a [SelfSubjectReview], [Extra["arn"]] included. *)
Record UserInfo := { Username : string; Groups : list string; arns : list string }.
#[local] Instance UserInfo_inhabited : Inhabited UserInfo :=
  populate {| Username := ""; Groups := []; arns := [] |}.

(** The calls of the Kubernetes client used here. *)
Record ApiClient := {
  get_kubernetes_endpoints : Ctx → Host → (list EndpointSubset * option error) * Host;
  create_review : UserInfo → Ctx → Host → (UserInfo * option error) * Host;
}.

Class ClusterEnv := {
  (** [eks.DescribeCluster] with a client, by the cluster's name. *)
  DescribeCluster : AwsConfig → string → Host → result EksCluster;
  (** [url.ParseRequestURI]. *)
  ParseRequestURI : string → result URL;
  (** [net.DefaultResolver.LookupIPAddr]. *)
  LookupIPAddr : string → Host → result (list string);
  (** [AppendCertsFromPEM] on an empty pool: the certificates, if any. *)
  AppendCertsFromPEM : string → option (list string);
  (** A GET with the given root certificates: the status and the body, with
      the error that reading it may end with. *)
  https_get : string → string → Host → result (Z * (string * option error));
  (** [json.Unmarshal] into [apiServerResponse]: its message. *)
  json_Message : string → result string;
  (** The client of the kubelet's kubeconfig. *)
  BuildClient : M Host ApiClient;
}.

Section KubeAccess.
Context `{Env} `{Semver} `{CloudEnv} `{BackoffLoop} `{ClusterEnv}.

(** ** Cluster details (eks/cluster.go, kubernetes/cluster.go) *)

Definition eks_ReadCluster (config : AwsConfig) (node : NodeConfig) : M Host EksCluster :=
  map_err (λ e, WithRemediation e
    "Ensure the node has access and permissions to call DescribeCluster EKS API. Check AWS credentials and IAM permissions.")
    (call "eks:DescribeCluster" (DescribeCluster config (cluster_Name (Cluster (Spec node))))).

Definition complete_details (c : ClusterDetails) : bool :=
  negb (String.eqb (APIServerEndpoint c) "") &&
  (if CertificateAuthority c is Some _ then true else false) &&
  negb (String.eqb (CIDR c) "").

Definition set_APIServerEndpoint (v : string) (c : ClusterDetails) : ClusterDetails :=
  {| cluster_Name := cluster_Name c; cluster_Region := cluster_Region c; APIServerEndpoint := v;
     CertificateAuthority := CertificateAuthority c; CIDR := CIDR c;
     EnableOutpost := EnableOutpost c; cluster_ID := cluster_ID c |}.
Definition set_CertificateAuthority (v : option string) (c : ClusterDetails) : ClusterDetails :=
  {| cluster_Name := cluster_Name c; cluster_Region := cluster_Region c;
     APIServerEndpoint := APIServerEndpoint c; CertificateAuthority := v; CIDR := CIDR c;
     EnableOutpost := EnableOutpost c; cluster_ID := cluster_ID c |}.
Definition set_CIDR (v : string) (c : ClusterDetails) : ClusterDetails :=
  {| cluster_Name := cluster_Name c; cluster_Region := cluster_Region c;
     APIServerEndpoint := APIServerEndpoint c; CertificateAuthority := CertificateAuthority c;
     CIDR := v; EnableOutpost := EnableOutpost c; cluster_ID := cluster_ID c |}.

(** The three details, each where the configuration has none.  The code is
    the same in eks/cluster.go and in the hybrid provider, which fills the
    shared configuration in place: what was filled before an error stays. *)
Definition fill_endpoint (cluster : EksCluster) (c : ClusterDetails) : M Host ClusterDetails :=
  if String.eqb (APIServerEndpoint c) ""
  then v ← deref (eks_Endpoint cluster); mret (set_APIServerEndpoint v c) else mret c.
Definition fill_ca (cluster : EksCluster) (c : ClusterDetails) : M Host ClusterDetails :=
  match CertificateAuthority c with
  | Some _ => mret c
  | None =>
      data ← deref (eks_CertificateAuthority cluster);
      data ← deref data;
      decoded ← of_result (base64_DecodeString data);
      mret (set_CertificateAuthority (Some decoded) c)
  end.
Definition fill_cidr (cluster : EksCluster) (c : ClusterDetails) : M Host ClusterDetails :=
  if String.eqb (CIDR c) ""
  then v ← deref (eks_ServiceIpv4Cidr cluster); v ← deref v; mret (set_CIDR v c) else mret c.

Definition ClusterStatusActive : string := "ACTIVE".
Definition eks_ReadClusterDetails (config : AwsConfig) (node : NodeConfig) : M Host ClusterDetails :=
  let details := Cluster (Spec node) in
  if complete_details details then mret details else
  cluster ← eks_ReadCluster config node;
  (if String.eqb (eks_Status cluster) ClusterStatusActive then mret tt
   else name ← deref (eks_Name cluster);
        throw (ENew ("eks cluster " +:+ name +:+ " is not active")));;
  details ← fill_endpoint cluster details;
  details ← fill_ca cluster details;
  fill_cidr cluster details.

(** The cache of the cluster provider is the second component. *)
Definition ReadClusterDetails (config : AwsConfig) (node : NodeConfig)
    (cache : option ClusterDetails) : M Host (ClusterDetails * option ClusterDetails) :=
  let details := Cluster (Spec node) in
  if complete_details details then mret (details, cache) else
  match cache with
  | Some c => mret (c, cache)
  | None =>
      c ← map_err (λ e, WithRemediation e "Either provide the Kubernetes API server endpoint or ensure the node has access and permissions to call DescribeCluster EKS API.")
            (eks_ReadClusterDetails config node);
      mret (c, Some c)
  end.

(** ** The endpoint (connection.go) *)

Definition validateEndpointResolution (hostname : string) : M Host unit :=
  if String.eqb hostname "" then throw (ENew "hostname is empty") else
  ips ← map_err (EWrap ("failed to resolve hostname " +:+ hostname))
          (call "LookupIPAddr" (LookupIPAddr hostname));
  match ips with
  | [] => throw (ENew ("hostname " +:+ hostname +:+ " did not resolve to any IP addresses"))
  | _ => mret tt
  end.

Definition checkAPIServerConnection (node : NodeConfig) : M Host unit :=
  endpoint ← map_err (λ e, WithRemediation e "Ensure the Kubernetes API server endpoint provided is correct.")
               (of_result (ParseRequestURI (APIServerEndpoint (Cluster (Spec node)))));
  remedied "Ensure DNS server settings and network connectivity are correct, and verify the hostname is reachable"
    (validateEndpointResolution (Hostname endpoint));;
  remedied "Ensure your network configuration allows the node to access the Kubernetes API endpoint."
    (reach endpoint).

(** A validation that reads the node. *)
Definition on_node (run : Informer Host → NodeConfig → M Host unit)
    : Validate (O := NodeConfig) (W := Host) :=
  λ i s, let '(o, h') := run i s.1 s.2 in (o, (s.1, h')).

Definition ValidateAPIServerEndpointResolution (i : Informer Host) (node : NodeConfig) : M Host unit :=
  informed i "kubernetes-endpoint-access" "Validating access to Kubernetes API endpoint"
    (checkAPIServerConnection node).

(** ** A request without credentials (unauthenticated.go)

    The state of the retried request is [resp] and [body]. *)
Definition unauthenticated_attempt (ca endpoint : string) : Request (Host * (Z * string)) :=
  λ _ st, let '(h, (status, body)) := st in
    match call ("GET " +:+ endpoint) (https_get ca endpoint) h with
    | (Return (status, (body, None)), h') => (None, (h', (status, body)))
    | (Return (status, (body, Some e)), h') =>
        (Some (EWrap "reading unauthenticated request response body" e), (h', (status, body)))
    | (Throw e, h') => (Some e, (h', (0, body)))
    | (Panic, h') => (None, (h', (status, body)))
    end.

Definition StatusForbidden : Z := 403.
Definition StatusUnauthorized : Z := 401.
Definition endpoint_ca_remediation : string :=
  "Ensure the Kubernetes API server endpoint provided is correct and the CA certificate is valid for that endpoint.".

Definition MakeUnauthenticatedRequest (endpoint caCertificate : string) : M Host unit :=
  if (if AppendCertsFromPEM caCertificate is Some _ then false else true)
  then throw (WithRemediation (ENew "failed to parse Cluster CA certificate")
                "Ensure the Cluster CA certificate provided is correct.")
  else
  match bad_url endpoint with
  | Some e => throw (WithRemediation e "Ensure the Kubernetes API server endpoint provided is correct.")
  | None =>
      '(status, body) ← map_err (λ e, WithRemediation e "Ensure the provided Kubernetes API server endpoint is correct and the CA certificate is valid for that endpoint.")
        (fetch (λ h, retryRequest background (unauthenticated_attempt caCertificate endpoint) (h, (0, ""))));
      message ← map_err (EWrap "unmarshalling unauthenticated request response")
                  (of_result (json_Message body));
      if (status =? StatusForbidden) || (status =? StatusUnauthorized) then mret tt
      else throw (WithRemediation
             (ENew ("expected status code from unauthenticated request 403 or 401, got " +:+
                    Itoa status +:+ ". Message: " +:+ message))
             endpoint_ca_remediation)
  end.

Definition CheckUnauthenticatedAccess (i : Informer Host) (node : NodeConfig) : M Host unit :=
  informed i "kubernetes-unauthenticated-request"
    "Validating unauthenticated request to Kubernetes API endpoint"
    (MakeUnauthenticatedRequest (APIServerEndpoint (Cluster (Spec node)))
       (default "" (CertificateAuthority (Cluster (Spec node))))).

(** The two checks on a copy of the node with the cluster's details. *)
Definition with_Cluster (c : ClusterDetails) (node : NodeConfig) : NodeConfig :=
  {| Spec := {| Cluster := c; spec_Containerd := spec_Containerd (Spec node);
                spec_Instance := spec_Instance (Spec node); spec_Kubelet := spec_Kubelet (Spec node);
                Hybrid := Hybrid (Spec node) |};
     Status := Status node |}.
Definition AccessValidator_Run (cluster : ClusterDetails) (i : Informer Host) (node : NodeConfig)
    : M Host unit :=
  λ h, let '(o, (_, h')) :=
    UntilError [on_node ValidateAPIServerEndpointResolution; on_node CheckUnauthenticatedAccess] i
      (with_Cluster cluster node, h) in (o, h').

(** ** Requests with credentials (validate.go) *)

Definition badPermissionsRemediation : string :=
  "Verify the Kubernetes identity and permissions assigned to the IAM roles on this node, it should belong to the group 'system:nodes'. Check your Access Entries or aws-auth ConfigMap.".

Definition api_client : M Host ApiClient :=
  map_err (λ e, WithRemediation e ("Ensure the kubeconfig at " +:+ kubeconfigPath +:+ " has been created and is valid."))
    BuildClient.
Definition kubernetes_endpoints (client : ApiClient) : M Host (list EndpointSubset) :=
  map_err (λ e, WithRemediation e badPermissionsRemediation)
    (fetch (GetRetry background (get_kubernetes_endpoints client) [])).

Definition MakeAuthenticatedRequest (i : Informer Host) (node : NodeConfig) : M Host unit :=
  informed i "kubernetes-authenticated-request" "Validating authenticated request to Kubernetes API endpoint"
    (client ← api_client; kubernetes_endpoints client;; mret tt).

Definition principalARN (self : UserInfo) : string := default "" (head (arns self)).

Definition review_attempt (client : ApiClient) : Request (Host * UserInfo) := λ ctx st,
  let '((self, err), h') := create_review client st.2 ctx st.1 in (err, (h', self)).

(** The closing checks on the identity. *)
Definition check_identity (self : UserInfo) : option error :=
  let who := "node identity " +:+ Username self +:+ " for principal " +:+ principalARN self in
  if negb (slices_Contains (Groups self) "system:nodes")
  then Some (WithRemediation (ENew (who +:+ " does not belong to the group 'system:nodes'"))
               badPermissionsRemediation)
  else if negb (HasPrefix (Username self) "system:node:")
  then Some (WithRemediation
               (ENew (who +:+ " does not match a node identity, username should start with 'system:node:'"))
               badPermissionsRemediation)
  else None.
Definition CheckIdentity (i : Informer Host) (node : NodeConfig) : M Host unit :=
  kubeletVersion ← GetKubeletVersion;
  if semver_Compare kubeletVersion "v1.28.0" <? 0 then mret tt else
  informed i "kubernetes-node-identity" "Validating Kubernetes identity matches a Node identity"
    (client ← api_client;
     self ← map_err (λ e, WithRemediation e badPermissionsRemediation)
       (fetch (λ h, NetworkRequest background (review_attempt client)
                      [] (h, {| Username := ""; Groups := []; arns := [] |})));
     of_option (check_identity self)).

(** The first port with the name, 0 without one. *)
Fixpoint https_port (ports : list (string * Z)) : Z :=
  match ports with
  | [] => 0
  | (name, port) :: ports => if String.eqb name "https" then port else https_port ports
  end.
(** [url.URL{Scheme: "https", Host: ip:port}]: its host without the port,
    which is one when it is digits. *)
Definition address_url (ip : string) (port : Z) : URL :=
  if 0 <=? port
  then {| Scheme := "https"; Hostname := ip; url_Port := Itoa port |}
  else {| Scheme := "https"; Hostname := ip +:+ ":" +:+ Itoa port; url_Port := "" |}.
Definition check_subset (subset : EndpointSubset) : M Host unit :=
  let port := https_port (Ports subset) in
  if port =? 0 then mret tt else
  for_each (λ ip,
    if String.eqb ip "" then mret tt else
    remedied ("Ensure the node has access to the Kube-API server endpoint " +:+ ip +:+ " in the VPC")
      (reach (address_url ip port))) (Addresses subset).
Definition CheckVPCEndpointAccess (i : Informer Host) (node : NodeConfig) : M Host unit :=
  informed i "kubernetes-vpc-api-server-access" "Validating access to Kube-API server through VPC IPs"
    (client ← api_client;
     subsets ← kubernetes_endpoints client;
     match subsets with
     | [] => throw (ENew "no subsets found in the Kubernetes endpoint, can't validate VPC API server access")
     | _ => for_each check_subset subsets
     end).
End KubeAccess.
