(* ===== verification/HybridProvider.v ===== *)
(** * The provider of hybrid nodes (internal/node/hybrid)

    Defaults and static validation of the configuration, its completion from
    the EKS API, the credentials, the validations before a node joins, and
    the aspects and daemons of the node.  The provider's configuration, AWS
    configuration and cached cluster are the shared state [provider] of the
    host. *)

From S2P Require Import Prelude GoStrings Host Tracker Semver Api Daemon Installers Validation.
From S2P Require Import Base64 Net Network Validators Proxy Retry Node Aws Ssm Swap Aspects Flows.
From S2P Require Import ContainerdDaemon KubeletConfig KubeletDaemon Credentials KubeAccess.
#[local] Open Scope Z_scope.

(** ** Regular expressions of the validator *)

(** The width of the first character by Go's [utf8.DecodeRune]; what does
    not start a character is one of width 1. *)
Definition in_byte_range (c : ascii) (lo hi : nat) : bool :=
  let n := nat_of_ascii c in (lo <=? n)%nat && (n <=? hi)%nat.
Definition continuation (c : ascii) : bool := in_byte_range c 128 191.
Definition rune_width (s : string) : nat :=
  match s with
  | String a (String b rest) =>
      if in_byte_range a 194 223 then if continuation b then 2%nat else 1%nat else
      match rest with
      | String c rest =>
          let ok3 := ((in_byte_range a 224 224 && in_byte_range b 160 191) ||
                      ((in_byte_range a 225 236 || in_byte_range a 238 239) && continuation b) ||
                      (in_byte_range a 237 237 && in_byte_range b 128 159)) && continuation c in
          if ok3 then 3%nat else
          match rest with
          | String d _ =>
              if ((in_byte_range a 240 240 && in_byte_range b 144 191) ||
                  (in_byte_range a 241 243 && continuation b) ||
                  (in_byte_range a 244 244 && in_byte_range b 128 143)) &&
                 continuation c && continuation d then 4%nat else 1%nat
          | "" => 1%nat
          end
      | "" => 1%nat
      end
  | _ => 1%nat
  end.
Fixpoint rune_count_go (fuel : nat) (s : string) : nat :=
  match fuel, s with
  | S fuel, String _ _ => S (rune_count_go fuel (drop_str (rune_width s) s))
  | _, _ => 0%nat
  end.
Definition RuneCount (s : string) : nat := rune_count_go (String.length s) s.

(** [^.{20,250}$]: the dot is any character but a newline. *)
Definition ssmActivationCodePattern (s : string) : bool :=
  let n := RuneCount s in free_of "010" s && (20 <=? n)%nat && (n <=? 250)%nat.

Definition hex_digit (c : ascii) : bool := is_digit c || in_byte_range c 97 102.
(** [^[0-9a-f]{8}-[0-9a-f]{4}-[0-9a-f]{4}-[0-9a-f]{4}-[0-9a-f]{12}$]. *)
Definition hex_group (n : nat) (s : string) : bool :=
  (String.length s =? n)%nat && all_chars hex_digit s.
Definition ssmActivationIDPattern (s : string) : bool :=
  match Split "-" s with
  | [a; b; c; d; e] =>
      hex_group 8 a && hex_group 4 b && hex_group 4 c && hex_group 4 d && hex_group 12 e
  | _ => false
  end.

(** The last value of the flag, also when it is empty. *)
Definition extractFlagValue (args : list string) (flag : string) : string :=
  let flagPrefix := "--" +:+ flag +:+ "=" in
  fold_left (λ flagValue arg, if HasPrefix arg flagPrefix then TrimPrefix arg flagPrefix else flagValue)
    args "".

(** ** Defaults (defaults.go) *)

Definition defaultCertificatePath : string := "/etc/iam/pki/server.pem".
Definition defaultKeyPath : string := "/etc/iam/pki/server.key".
Definition or_default (v d : string) : string := if String.eqb v "" then d else v.
Definition default_iam (i : IAMRolesAnywhere) : IAMRolesAnywhere :=
  {| iam_NodeName := iam_NodeName i; TrustAnchorARN := TrustAnchorARN i; ProfileARN := ProfileARN i;
     RoleARN := RoleARN i;
     AwsConfigPath := or_default (AwsConfigPath i) DefaultAWSConfigPath;
     CertificatePath := or_default (CertificatePath i) defaultCertificatePath;
     PrivateKeyPath := or_default (PrivateKeyPath i) defaultKeyPath |}.
Definition with_iam (i : IAMRolesAnywhere) (cfg : NodeConfig) : NodeConfig :=
  {| Spec := {| Cluster := Cluster (Spec cfg); spec_Containerd := spec_Containerd (Spec cfg);
                spec_Instance := spec_Instance (Spec cfg); spec_Kubelet := spec_Kubelet (Spec cfg);
                Hybrid := (λ h, {| EnableCredentialsFile := EnableCredentialsFile h;
                                   hybrid_IAMRolesAnywhere := Some i;
                                   hybrid_SSM := hybrid_SSM h |}) <$> Hybrid (Spec cfg) |};
     Status := Status cfg |}.
Definition populate_defaults (cfg : NodeConfig) : NodeConfig :=
  match spec_iam cfg with
  | Some i => with_iam (default_iam i) (set_NodeName (iam_NodeName i) cfg)
  | None => cfg
  end.
Definition hybrid_PopulateNodeConfigDefaults : M Host unit := modify_config populate_defaults.

(** ** Outside code *)

Record ARN := { arn_Service : string; arn_Resource : string }.

Class HybridEnv := {
  pem_Decode : string → option string;
  x509_ParseCertificate : string → result Certificate;
  Verify : Certificate → list string → Z → option error;
  time_Now : Host → Z;
  (** [blang/semver.Parse]: major, minor and patch, 64-bit unsigned. *)
  semver_Parse : string → result (Z * Z * Z);
  arn_Parse : string → result ARN;
  (** One page of the access entries after a token, and the next token. *)
  ListAccessEntries : AwsConfig → string → option string → Host → result (list string * option string);
  (** How many pages a listing may have in the model. *)
  max_pages : nat;
  json_provider : CredentialProviderConfig → string;
  (** The exit code that the error of a command carries. *)
  exit_code : error → option Z;
  parse_registration : string → result HybridInstanceRegistration;
}.

Section HybridProvider.
Context `{Env} `{Semver} `{BackoffLoop} `{KubeletEnv} `{MapOrder} `{ImageService}
        `{CloudEnv} `{ClusterEnv} `{HybridEnv}.

(** The fields of the provider that stay; the printer is the logger as an
    informer. *)
Record HybridNodeProvider := {
  hnp_daemonManager : DaemonManager;
  hnp_skipPhases : list string;
  hnp_network : Network;
  hnp_interfaces : M Host (list Interface);
  hnp_certPath : string;
  hnp_printer : Informer Host;
}.

Definition validate_certificate (path ca : string) : M Host unit :=
  certificate_Validate pem_Decode x509_ParseCertificate AppendCertsFromPEM Verify time_Now path ca.

(** ** Static validation (validator.go) *)

Definition iamRolesCertGuideURL : string :=
  "To generate a new IAM Roles Anywhere (IAM-RA) certificate, see the steps in the documentation: https://docs.aws.amazon.com/eks/latest/userguide/hybrid-nodes-creds.html#hybrid-nodes-role".
Definition addIAMRARemediation (certPath : string) (err : error) : error :=
  let errWithContext := EWrap "validating iam-roles-anywhere certificate" err in
  let remedy (s : string) := WithRemediation errWithContext (s +:+ " " +:+ iamRolesCertGuideURL) in
  match err with
  | ECert (CertNotFoundError | CertFileError | CertReadError) _ _ =>
      remedy ("Verify the IAM role anywhere certificate at " +:+ certPath +:+ ".")
  | ECert CertInvalidFormatError _ _ => remedy "Verify the IAM Role certificate format."
  | ECert CertClockSkewError _ _ =>
      remedy "Verify the IAM Role certificate validity or system time is correct."
  | ECert CertExpiredError _ _ =>
      remedy "Generate a new IAM Roles Anywhere certificate as the current one has expired."
  | ECert CertParseCAError _ _ => remedy "Ensure the IAM Roles Anywhere certificate is valid."
  | ECert CertInvalidCAError _ _ =>
      remedy ("Please remove the IAM Roles Anywhere certificate file at " +:+ certPath +:+ ".")
  | _ => errWithContext
  end.

Definition ensure (b : bool) (msg : string) : M Host unit :=
  if b then mret tt else throw (ENew msg).
Definition present (s : string) : bool := negb (String.eqb s "").

Definition validateRolesAnywhereNode (i : IAMRolesAnywhere) : M Host unit :=
  ensure (present (RoleARN i)) "RoleARN is missing in hybrid iam roles anywhere configuration";;
  ensure (present (ProfileARN i)) "ProfileARN is missing in hybrid iam roles anywhere configuration";;
  ensure (present (TrustAnchorARN i)) "TrustAnchorARN is missing in hybrid iam roles anywhere configuration";;
  ensure (present (iam_NodeName i)) "NodeName can't be empty in hybrid iam roles anywhere configuration";;
  ensure (String.length (iam_NodeName i) <=? 64)%nat
    "NodeName can't be longer than 64 characters in hybrid iam roles anywhere configuration";;
  ensure (present (CertificatePath i)) "CertificatePath is missing in hybrid iam roles anywhere configuration";;
  found ← file_Exists (CertificatePath i);
  ensure found ("IAM Roles Anywhere certificate " +:+ CertificatePath i +:+ " not found");;
  map_err (addIAMRARemediation (CertificatePath i)) (validate_certificate (CertificatePath i) "");;
  ensure (present (PrivateKeyPath i)) "PrivateKeyPath is missing in hybrid iam roles anywhere configuration";;
  found ← file_Exists (PrivateKeyPath i);
  ensure found ("IAM Roles Anywhere private key " +:+ PrivateKeyPath i +:+ " not found").

Definition validateSSMNode (s : SSM) : M Host unit :=
  ensure (present (ActivationCode s)) "ActivationCode is missing in hybrid ssm configuration";;
  ensure (present (ActivationID s)) "ActivationID is missing in hybrid ssm configuration";;
  ensure (ssmActivationCodePattern (ActivationCode s))
    ("invalid ActivationCode format: " +:+ ActivationCode s +:+ ". Must be 20-250 characters");;
  ensure (ssmActivationIDPattern (ActivationID s))
    ("invalid ActivationID format: " +:+ ActivationID s +:+
     ". Must be in format: ^[0-9a-f]{8}-[0-9a-f]{4}-[0-9a-f]{4}-[0-9a-f]{4}-[0-9a-f]{12}$").

Definition hostnameOverrideFlag : string := "hostname-override".
Definition withHybridValidators (cfg : NodeConfig) : M Host unit :=
  ensure (present (cluster_Name (Cluster (Spec cfg)))) "Name is missing in cluster configuration";;
  ensure (present (cluster_Region (Cluster (Spec cfg)))) "Region is missing in cluster configuration";;
  let hostnameOverride := extractFlagValue (Flags (spec_Kubelet (Spec cfg))) hostnameOverrideFlag in
  ensure (negb (present hostnameOverride))
    ("hostname-override kubelet flag is not supported for hybrid nodes but found override: " +:+ hostnameOverride);;
  ensure (IsIAMRolesAnywhere cfg || IsSSM cfg)
    "Either IAMRolesAnywhere or SSM must be provided for hybrid node configuration";;
  ensure (negb (IsIAMRolesAnywhere cfg && IsSSM cfg))
    "Only one of IAMRolesAnywhere or SSM must be provided for hybrid node configuration";;
  match spec_iam cfg with Some i => validateRolesAnywhereNode i | None => mret tt end;;
  match spec_ssm cfg with Some s => validateSSMNode s | None => mret tt end.
Definition hybrid_ValidateConfig : M Host unit := cfg ← shared_config; withHybridValidators cfg.

(** ** Completing the configuration (configenricher.go) *)

Definition set_cluster (c : EksCluster) : M Host unit :=
  modify (λ h, let p := provider h in
    set_provider {| hnp_nodeConfig := hnp_nodeConfig p; hnp_awsConfig := hnp_awsConfig p;
                    hnp_cluster := Some c |} h).
Definition set_awsConfig (c : AwsConfig) : M Host unit :=
  modify (λ h, let p := provider h in
    set_provider {| hnp_nodeConfig := hnp_nodeConfig p; hnp_awsConfig := Some c;
                    hnp_cluster := hnp_cluster p |} h).

Definition readCluster (config : AwsConfig) (node : NodeConfig) : M Host EksCluster :=
  call "eks:DescribeCluster" (DescribeCluster config (cluster_Name (Cluster (Spec node)))).
(** [*hnp.awsConfig] panics when there is none. *)
Definition getCluster : M Host EksCluster :=
  p ← gets provider;
  match hnp_cluster p with
  | Some c => mret c
  | None =>
      config ← deref (hnp_awsConfig p);
      c ← readCluster config (hnp_nodeConfig p);
      set_cluster c;;
      mret c
  end.

Definition needsClusterDetails (cfg : NodeConfig) : bool := negb (complete_details (Cluster (Spec cfg))).
(** One detail of the shared configuration, filled in place. *)
Definition update_details (fill : ClusterDetails → M Host ClusterDetails) : M Host unit :=
  cfg ← shared_config;
  c ← fill (Cluster (Spec cfg));
  modify_config (with_Cluster c).
Definition ensureClusterDetails : M Host unit :=
  cluster ← getCluster;
  ensure (String.eqb (eks_Status cluster) ClusterStatusActive) "eks cluster is not active";;
  ensure (if RemoteNetworkConfig cluster is Some _ then true else false)
    "eks cluster does not have remoteNetworkConfig enabled, which is required for Hybrid Nodes";;
  update_details (fill_endpoint cluster);;
  update_details (fill_ca cluster);;
  update_details (fill_cidr cluster).

Definition hybrid_Enrich (regionConfig : option RegionData) : M Host unit :=
  cfg ← shared_config;
  eksRegistry ← GetEKSHybridRegistry LookupHost (cluster_Region (Cluster (Spec cfg))) regionConfig;
  modify_config (set_SandboxImage (GetSandboxImage eksRegistry));;
  cfg ← shared_config;
  when (needsClusterDetails cfg) ensureClusterDetails.

(** ** AWS (aws.go) *)

(** A daemon configured and started outside of the flow. *)
Definition launch (d : Daemon) : M Host unit :=
  Daemon.Configure d;; EnsureRunning d;; PostLaunch d.

Definition SSMAWSConfigurator_Configure (m : DaemonManager) : M Host unit :=
  ssmDaemon ← NewSsmDaemon parse_registration m; launch ssmDaemon.

(** The configuration is an IAM Roles Anywhere one here, or a nil pointer. *)
Definition RolesAnywhere_Configure (m : DaemonManager) (cfg : NodeConfig) : M Host unit :=
  i ← deref (spec_iam cfg);
  WriteAWSConfig {| c_TrustAnchorARN := TrustAnchorARN i; c_ProfileARN := ProfileARN i;
    c_RoleARN := RoleARN i; c_Region := cluster_Region (Cluster (Spec cfg));
    c_NodeName := status_NodeName (Status cfg); c_ConfigPath := AwsConfigPath i;
    c_SigningHelperBinPath := SigningHelperBinPath; c_CertificatePath := CertificatePath i;
    c_PrivateKeyPath := PrivateKeyPath i |};;
  when (EnableCredentials cfg) (launch (NewSigningHelperDaemon m cfg)).
Definition LoadAWSConfigForRolesAnywhere (cfg : NodeConfig) : M Host AwsConfig :=
  i ← deref (spec_iam cfg);
  LoadDefaultConfig {| aws_Region := cluster_Region (Cluster (Spec cfg));
    SharedConfigFiles := Some [AwsConfigPath i];
    SharedCredentialsFiles := Some [EksHybridAwsCredentialsPath];
    SharedConfigProfile := ProfileName; IMDSDisabled := true |}.

Definition hybrid_ConfigureAws (np : HybridNodeProvider) : M Host unit :=
  cfg ← shared_config;
  if IsSSM cfg then
    map_err (EWrap "configuring aws credentials with SSM")
      (SSMAWSConfigurator_Configure (hnp_daemonManager np));;
    cfg ← shared_config;
    awsConfig ← map_err (EWrap "reading aws config for SSM") (λ h, WaitForAWSConfig cfg (ticks h) h);
    set_awsConfig awsConfig
  else
    map_err (EWrap "configuring aws credentials with IAM Roles Anywhere")
      (RolesAnywhere_Configure (hnp_daemonManager np) cfg);;
    awsConfig ← map_err (EWrap "generating aws config for IAM Roles Anywhere")
                  (LoadAWSConfigForRolesAnywhere cfg);
    set_awsConfig awsConfig.

(** ** Version skew (versionskew_validator.go) *)

Definition maxVersionSkew : Z := 3.
Definition skew_remediation : string :=
  "Ensure the hybrid node's Kubernetes version follows the version skew policy of the EKS cluster. Update the node's Kubernetes components using 'nodeadm upgrade' or reinstall with a compatible version. https://kubernetes.io/releases/version-skew-policy/#kubelet".
Definition parseK8sVersion (version : string) : result (Z * Z * Z) :=
  let version := TrimPrefix version "v" in
  semver_Parse (if (length (Split "." version) =? 2)%nat then version +:+ ".0" else version).

Definition minor (v : Z * Z * Z) : Z := v.1.2.
(** The comparison: 64-bit unsigned, the difference as a signed integer. *)
Inductive skew := Newer | TooOld.
Definition skew_check (apiServer kubelet : Z * Z * Z) : option skew :=
  if minor apiServer <? minor kubelet then Some Newer
  else if maxVersionSkew <? Resources.int64 (Resources.uint64 (minor apiServer - minor kubelet))
  then Some TooOld else None.
Definition validateSkew (cluster : EksCluster) : M Host unit :=
  kubeApiServerVersion ← deref (eks_Version cluster);
  remedied skew_remediation
    (kubeletVersion ← map_err (EWrap "failed to get kubelet version") GetKubeletVersion;
     apiServerSemver ← map_err (EWrap ("failed to parse kube-apiserver version " +:+ kubeApiServerVersion))
                         (of_result (parseK8sVersion kubeApiServerVersion));
     kubeletSemver ← map_err (EWrap ("failed to parse kubelet version " +:+ kubeletVersion))
                       (of_result (parseK8sVersion kubeletVersion));
     match skew_check apiServerSemver kubeletSemver with
     | None => mret tt
     | Some Newer => throw (ENew ("kubelet version " +:+ kubeletVersion +:+
                       " is newer than kube-apiserver version " +:+ kubeApiServerVersion))
     | Some TooOld => throw (ENew ("kubelet version " +:+ kubeletVersion +:+
                       " is too old for kube-apiserver version " +:+ kubeApiServerVersion +:+
                       "; maximum supported version skew is 3 minor versions"))
     end).

Definition kubeletVersionSkew : string := "kubelet-version-skew-validation".
Definition ValidateKubeletVersionSkew (i : Informer Host) (node : NodeConfig) : M Host unit :=
  p ← gets provider;
  match hnp_cluster p with
  | None => skipped i kubeletVersionSkew
      "Skipping kubelet version skew validation due to node IAM role missing EKS DescribeCluster permission"
  | Some cluster => informed i kubeletVersionSkew "Validating kubelet version skew" (validateSkew cluster)
  end.

(** ** An inactive node (nodeinactive_validator.go) *)

Definition etcKubernetesDir : string := "/etc/kubernetes".
Definition nodeInactiveValidation : string := "node-inactive-validation".
Definition nodeActiveRemediation : string :=
  "Ensure the hybrid node is made inactive by running 'nodeadm uninstall' before attaching to the EKS cluster".
Definition active (e : error) : M Host unit := throw (WithWarning e nodeActiveRemediation).
(** [os.Stat] must say that the path does not exist. *)
Definition must_not_exist (path exists_msg check_msg : string) : M Host unit :=
  r ← try (os_Stat path);
  match r with
  | Ok _ => active (ENew exists_msg)
  | Err e => if os_IsNotExist e then mret tt else active (EWrap check_msg e)
  end.
Definition kubelet_inactive (m : DaemonManager) : M Host unit := λ h,
  match GetDaemonStatus m "kubelet" h with
  | ((_, Some e), h') => active e h'
  | ((status, None), h') =>
      if decide (status = DaemonStatusRunning)
      then active (ENew "kubelet service is still active and may be connected to a previous cluster") h'
      else (Return tt, h')
  end.
Definition check_inactive (m : DaemonManager) : M Host unit :=
  must_not_exist kubeletEnvironmentFilePath
    ("kubelet args environment file " +:+ kubeletEnvironmentFilePath +:+ " exists")
    ("checking kubelet environment file " +:+ kubeletEnvironmentFilePath +:+ " cleanup");;
  must_not_exist etcKubernetesDir
    ("kubernetes directory " +:+ etcKubernetesDir +:+ " still exists")
    ("checking kubernetes directory " +:+ etcKubernetesDir +:+ " cleanup");;
  kubelet_inactive m.
Definition ValidateNodeIsInactive (np : HybridNodeProvider) (i : Informer Host) : M Host unit :=
  informed i nodeInactiveValidation "Validating that the node is inactive"
    (check_inactive (hnp_daemonManager np)).

(** ** Access entries (hybrid_role_validator.go) *)

Definition accessEntryRemediation : string :=
  "Ensure your EKS cluster has at least one access entry of type HYBRID_LINUX with the hybrid node IAM role as principal.".
Definition extractRoleNameFromARN (a : ARN) : option string :=
  let splitArn := Split "/" (arn_Resource a) in
  if String.eqb (arn_Service a) "sts" && HasPrefix (arn_Resource a) "assumed-role" &&
     (2 <=? length splitArn)%nat
  then splitArn !! 1%nat
  else if String.eqb (arn_Service a) "iam" && HasPrefix (arn_Resource a) "role" &&
          (2 <=? length splitArn)%nat
  then last splitArn else None.

Definition list_page (config : AwsConfig) (clusterName : string) (nextToken : option string)
    : M Host (list string * option string) :=
  map_err (EWrap "failed to list access entries")
    (call "eks:ListAccessEntries" (ListAccessEntries config clusterName nextToken)).
Definition is_last (nextToken : option string) : bool :=
  match nextToken with None => true | Some t => String.eqb t "" end.
(** The loop has no bound of its own. *)
Fixpoint fetch_pages (fuel : nat) (config : AwsConfig) (clusterName : string)
    (nextToken : option string) (accessEntries : list string) : M Host (list string) :=
  match fuel with
  | O => throw (ENew "more pages than the model reads")
  | S fuel =>
      '(entries, token) ← list_page config clusterName nextToken;
      if is_last token then mret (accessEntries ++ entries)
      else fetch_pages fuel config clusterName token (accessEntries ++ entries)
  end.
Definition fetchAllAccessEntries (config : AwsConfig) (clusterName : string) : M Host (list string) :=
  fetch_pages max_pages config clusterName None [].

Definition names_role (roleName accessEntry : string) : bool :=
  Contains accessEntry ("role/" +:+ roleName) || Contains accessEntry ("role/" +:+ roleName +:+ "/") ||
  HasSuffix accessEntry roleName.
Definition check_access (config : AwsConfig) (clusterName : string) : M Host unit :=
  remedied accessEntryRemediation
    (identity ← map_err (EWrap "getting caller identity")
                  (call "sts:GetCallerIdentity" (GetCallerIdentity config));
     match identity with
     | None => throw (ENew "caller identity ARN is nil")
     | Some roleArn =>
         parsedARN ← map_err (EWrap "parsing role ARN") (of_result (arn_Parse roleArn));
         let bad := throw (ENew ("extracting role name from ARN: " +:+ roleArn)) in
         match extractRoleNameFromARN parsedARN with
         | None => bad
         | Some roleName =>
             if String.eqb roleName "" then bad else
             accessEntries ← map_err (EWrap "fetching access entries from cluster")
                               (fetchAllAccessEntries config clusterName);
             ensure (existsb (names_role roleName) accessEntries)
               ("missing access entry of type HYBRID_LINUX with Hybrid Node role principal: " +:+ roleName)
         end
     end).
Definition clusterAccessValidation : string := "cluster-access-validation".
Definition ValidateClusterAccess (i : Informer Host) : M Host unit :=
  p ← gets provider;
  match hnp_awsConfig p with
  | None => throw (ENew "AWS config not set")
  | Some config =>
      match hnp_cluster p ≫= eks_Name with
      | None => skipped i clusterAccessValidation
          "Skipping cluster access validation due to node IAM role missing EKS DescribeCluster permission"
      | Some name => informed i clusterAccessValidation
          "Validating cluster access through EKS access entry" (check_access config name)
      end
  end.

(** ** The validations of a node (hybrid.go) *)

Definition provider_validations (np : HybridNodeProvider) (p : ProviderState)
    : list (Validation (O := NodeConfig) (W := Host)) :=
  let cfg := hnp_nodeConfig p in
  match hnp_awsConfig p with
  | Some config =>
      creds_Validations config cfg ++ [New "aws-auth-validation" (on_host (AuthenticationValidator_Run config))]
  | None => []
  end ++
  [New "node-ip-validation" (on_node (λ i node,
     NetworkInterfaceValidator_Run (hnp_network np) (hnp_interfaces np)
       (NewNetworkInterfaceValidator [WithMTUValidation false; niv_WithCluster (hnp_cluster p)]) node i));
   New "kubelet-cert-validation" (on_host
     (KubeletCertificateValidator_Run pem_Decode x509_ParseCertificate AppendCertsFromPEM Verify time_Now
       (NewKubeletCertificateValidator (default "" (CertificateAuthority (Cluster (Spec cfg))))
          [WithCertPath (hnp_certPath np); WithIgnoreDateAndNoCertErrors true])));
   New kubeletVersionSkew (on_node ValidateKubeletVersionSkew);
   New "api-server-endpoint-resolution-validation" (on_node ValidateAPIServerEndpointResolution);
   New "proxy-validation" (on_node (λ i node, ProxyValidator_Run Getenv FromEnvironment os_name node i));
   New nodeInactiveValidation (on_host (ValidateNodeIsInactive np));
   New clusterAccessValidation (on_host ValidateClusterAccess)].
Definition hybrid_Validate (np : HybridNodeProvider) : M Host unit :=
  p ← gets provider;
  Sequentially
    (Register (NewRunner (hnp_printer np) [WithSkipValidations (hnp_skipPhases np)])
       (provider_validations np p)) (hnp_nodeConfig p).

(** ** Aspects and daemons (aspects.go, daemons.go) *)

Definition hybrid_GetAspects : M Host (list SystemAspect) :=
  firewall ← Aspects.NewFirewallManager exit_code os_name;
  mret [NewSysctlAspect; NewSwapAspect (Getenv "ACTIVE_SWAP_AREAS"); NewPortsAspect firewall].

(** The phases to skip, from the command line: a nil slice, which the kubelet
    daemon tells from others, until a flag names one. *)
Definition as_slice (l : list string) : option (list string) :=
  match l with [] => None | _ => Some l end.

Definition hybrid_GetDaemons (np : HybridNodeProvider) : M Host (list Daemon) :=
  p ← gets provider;
  match hnp_awsConfig p with
  | None => throw (ENew "aws config not set")
  | Some _ =>
      let cfg := hnp_nodeConfig p in
      let credentialProviderAwsConfig :=
        if IsIAMRolesAnywhere cfg
        then {| cp_Profile := ProfileName; CredentialsPath := EksHybridAwsCredentialsPath |}
        else {| cp_Profile := ""; CredentialsPath := "" |} in
      mret [NewContainerdDaemon (hnp_daemonManager np) cfg (hnp_awsConfig p);
            NewKubeletDaemon (LookupEnv "ECR_CREDENTIAL_PROVIDER_BIN_PATH") json_provider
              (hnp_printer np) (on_node MakeAuthenticatedRequest) (hnp_daemonManager np) cfg
              credentialProviderAwsConfig (as_slice (hnp_skipPhases np))]
  end.

(** The provider as the interface the flows use. *)
Definition hybrid_NodeProvider (np : HybridNodeProvider) : NodeProvider := {|
  GetNodeConfig h := hnp_nodeConfig (provider h);
  PopulateNodeConfigDefaults := hybrid_PopulateNodeConfigDefaults;
  ValidateConfig := hybrid_ValidateConfig;
  PreProcessDaemon := mret tt;
  GetDaemons := hybrid_GetDaemons np;
  GetAspects := hybrid_GetAspects;
  Flows.Validate := hybrid_Validate np;
  np_Cleanup := mret tt;
  Enrich := hybrid_Enrich;
  ConfigureAws := hybrid_ConfigureAws np |}.

(** [NewHybridNodeProvider] without options, on the configuration read. *)
Definition NewHybridNodeProvider (connect : M Host DaemonManager) (network : Network)
    (interfaces : M Host (list Interface)) (printer : Informer Host) (nodeConfig : NodeConfig)
    (skipPhases : list string) : M Host NodeProvider :=
  modify (set_provider {| hnp_nodeConfig := nodeConfig; hnp_awsConfig := None; hnp_cluster := None |});;
  manager ← connect;
  mret (hybrid_NodeProvider
    {| hnp_daemonManager := manager; hnp_skipPhases := skipPhases; hnp_network := network;
       hnp_interfaces := interfaces; hnp_certPath := kubeletCurrentCertPath; hnp_printer := printer |}).
End HybridProvider.
