(* ===== verification/HybridProps.v ===== *)
(** * Properties of the provider of hybrid nodes *)

From S2P Require Import Prelude GoStrings Host Tracker Semver Api Daemon Installers Validation.
From S2P Require Import Base64 Net Network Validators Proxy Retry Node Aws Ssm Swap Aspects Flows Resources.
From S2P Require Import ContainerdDaemon KubeletConfig KubeletDaemon Credentials KubeAccess HybridProvider.
#[local] Open Scope Z_scope.

(** ** Tests of a validation *)

Lemma ensure_Return b msg h h' : ensure b msg h = (Return tt, h') ↔ b = true ∧ h' = h.
Proof.
  unfold ensure. destruct b; split; [by intros [= <-]|by intros [_ ->]|done|by intros [? _]].
Qed.
Lemma present_true s : present s = true ↔ s ≠ "".
Proof. unfold present. by destruct (String.eqb_spec s ""). Qed.

Lemma present_false s : present s = false ↔ s = "".
Proof. unfold present. by destruct (String.eqb_spec s ""). Qed.

(** Takes the tests of a validation apart. *)
Ltac inv_ensure E :=
  repeat (let h1 := fresh "h" in let E1 := fresh "E" in
    apply bind_Return in E as ([] & h1 & E1 & E);
    apply ensure_Return in E1 as [E1 ->]).

Section HybridProps.
Context `{Env} `{Semver} `{BackoffLoop} `{KubeletEnv} `{MapOrder} `{ImageService}
        `{CloudEnv} `{ClusterEnv} `{HybridEnv}.

(** ** Version skew *)

Lemma skew_check_window a k :
  0 <= minor a < 2 ^ 63 → 0 <= minor k < 2 ^ 63 →
  skew_check a k = None ↔ 0 <= minor a - minor k <= maxVersionSkew.
Proof.
  intros Ha Hk. unfold skew_check, maxVersionSkew. destruct (Z.ltb_spec (minor a) (minor k)); [split; [done|lia]|].
  unfold Resources.int64, Resources.uint64. rewrite (Z.mod_small (_ - _)) by lia.
  rewrite (Z.mod_small (_ + _)) by lia. destruct (Z.ltb_spec 3 (minor a - minor k + 2 ^ 63 - 2 ^ 63)); (split; [done || lia|done || lia]).
Qed.

(** C31. The kubelet may join a cluster whose API server is at most three
    minor versions ahead, and never one that is behind: for versions that
    parse, with minors that fit a signed 64-bit integer, the check passes
    exactly in that window, and it only ever runs the kubelet. *)
Theorem version_skew_window cluster v a k b h h1 :
  eks_Version cluster = Some v → parseK8sVersion v = Ok a →
  GetKubeletVersion h = (Return k, h1) → parseK8sVersion k = Ok b →
  0 <= minor a < 2 ^ 63 → 0 <= minor b < 2 ^ 63 →
  (validateSkew cluster h).2 = h1 ∧
  ((validateSkew cluster h).1 = Return tt ↔ 0 <= minor a - minor b <= 3).
Proof using Type.
  intros Hv Ha Hk Hb Ba Bb. rewrite <- (skew_check_window a b) by done.
  unfold validateSkew, remedied. cbv [mbind M_bind]. rewrite Hv. cbn [deref mret M_ret].
  unfold map_err. cbv [mbind M_bind]. rewrite Hk, Ha, Hb. cbn [of_result].
  destruct (skew_check a b) as [[]|]; split; naive_solver.
Qed.

(** ** Access entries *)

(** The service's listing from a token on: [n] pages, the last without a
    token for another. *)
Inductive listing (config : AwsConfig) (name : string) :
    option string → Host → nat → list string → Host → Prop :=
  | listing_last tok h es next h' :
      list_page config name tok h = (Return (es, next), h') → is_last next = true →
      listing config name tok h 1 es h'
  | listing_more tok h es next h1 n rest h' :
      list_page config name tok h = (Return (es, next), h1) → is_last next = false →
      listing config name next h1 n rest h' →
      listing config name tok h (S n) (es ++ rest) h'.

Lemma fetch_pages_spec config name fuel tok acc h es h' :
  fetch_pages fuel config name tok acc h = (Return es, h') ↔
  ∃ n rest, (n <= fuel)%nat ∧ es = acc ++ rest ∧ listing config name tok h n rest h'.
Proof using Type.
  revert tok acc h. induction fuel as [|fuel IH]; intros tok acc h; cbn [fetch_pages].
  - split; [done|]. intros (n & rest & Hn & _ & Hl). destruct n; [inversion Hl|lia].
  - split.
    + intros E. apply bind_Return in E as ([page next] & h1 & EP & E).
      destruct (is_last next) eqn:El.
      * injection E as <- <-. exists 1%nat, page. split; [lia|]. split; [done|].
        by eapply listing_last.
      * apply IH in E as (n & rest & Hn & -> & Hl). exists (S n), (page ++ rest).
        split; [lia|]. split; [by rewrite app_assoc|]. by eapply listing_more.
    + intros (n & rest & Hn & -> & Hl). cbv [mbind M_bind].
      inversion Hl as [? ? ? ? ? EP El|? ? ? ? ? ? ? ? EP El Hr]; subst; rewrite EP, El; [done|].
      apply IH. eexists _, _. split; [|split; [|exact Hr]]; [lia|]. by rewrite app_assoc.
Qed.

(** C27. Reading the access entries ends with the whole listing whenever the
    listing itself ends: for a service that gives [n] pages, and a bound of
    at least that many, the entries of all pages are returned in order, and
    nothing else ever is. *)
Theorem access_entries_complete config name h es h' :
  fetchAllAccessEntries config name h = (Return es, h') ↔
  ∃ n, (n <= max_pages)%nat ∧ listing config name None h n es h'.
Proof using Type.
  unfold fetchAllAccessEntries. rewrite fetch_pages_spec. split.
  - intros (n & rest & Hn & -> & Hl). by exists n.
  - intros (n & Hn & Hl). by exists n, es.
Qed.

(** An access entry of another role passes for the node's when the node's
    role name is a prefix of the other's. *)
Theorem other_role_accepted role suffix account :
  names_role role ("arn:aws:iam::" +:+ account +:+ ":role/" +:+ role +:+ suffix) = true.
Proof using Type.
  unfold names_role. apply orb_true_iff. left. apply orb_true_iff. left.
  apply Contains_spec. exists ("arn:aws:iam::" +:+ account +:+ ":"), suffix.
  by rewrite !app_assoc_str.
Qed.

(** ** The authentication check of a new node *)

(** Without a [--skip] flag the slice of phases is nil, and the kubelet
    daemon of the provider writes its files and checks nothing. *)
Theorem no_skip_no_authentication np h ds h' :
  hnp_skipPhases np = [] → hybrid_GetDaemons np h = (Return ds, h') →
  ∃ c k, ds = [c; k] ∧ DaemonName k = "kubelet" ∧
    ∃ aws, Daemon.Configure k =
      (kubelet_write (LookupEnv "ECR_CREDENTIAL_PROVIDER_BIN_PATH") json_provider
         (hnp_nodeConfig (provider h)) aws {| flags := ∅; environment := ∅ |};; mret tt).
Proof using Type.
  intros Hs E. unfold hybrid_GetDaemons in E. apply bind_Return in E as (p & h1 & [= <- <-] & E).
  destruct (hnp_awsConfig (provider h)); [|done]. injection E as <- <-. rewrite Hs.
  eexists _, _. split; [done|]. split; [done|]. by eexists.
Qed.

(** ** The configuration that passes static validation *)

Record iam_wf (i : IAMRolesAnywhere) : Prop := {
  wf_role : RoleARN i ≠ "";
  wf_profile : ProfileARN i ≠ "";
  wf_anchor : TrustAnchorARN i ≠ "";
  wf_node : iam_NodeName i ≠ "";
  wf_node_length : (String.length (iam_NodeName i) <= 64)%nat;
  wf_config : AwsConfigPath i ≠ "";
  wf_cert : CertificatePath i ≠ "";
  wf_key : PrivateKeyPath i ≠ "";
}.
Definition ssm_wf (s : SSM) : Prop :=
  ssmActivationCodePattern (ActivationCode s) = true ∧ ssmActivationIDPattern (ActivationID s) = true.

(** One credential provider, complete, a named cluster and region, and no
    node name but the provider's. *)
Record hybrid_wf (cfg : NodeConfig) : Prop := {
  wf_name : cluster_Name (Cluster (Spec cfg)) ≠ "";
  wf_region : cluster_Region (Cluster (Spec cfg)) ≠ "";
  wf_no_override : extractFlagValue (Flags (spec_Kubelet (Spec cfg))) "hostname-override" = "";
  wf_provider : match spec_iam cfg, spec_ssm cfg with
    | Some i, None => iam_wf i ∧ status_NodeName (Status cfg) = iam_NodeName i ∧ GetNodeType cfg = NodeType_IamRolesAnywhere
    | None, Some s => ssm_wf s ∧ GetNodeType cfg = NodeType_Ssm
    | _, _ => False
    end;
}.

Lemma validateRolesAnywhereNode_wf i h h' :
  AwsConfigPath i ≠ "" → validateRolesAnywhereNode i h = (Return tt, h') → iam_wf i.
Proof using Type.
  intros Hc E. unfold validateRolesAnywhereNode in E. inv_ensure E.
  apply bind_Return in E as (found & h1 & _ & E). inv_ensure E.
  apply bind_Return in E as ([] & h2 & _ & E). inv_ensure E.
  rewrite present_true in *. rewrite Nat.leb_le in *. by constructor.
Qed.
Lemma validateSSMNode_wf s h h' : validateSSMNode s h = (Return tt, h') → ssm_wf s.
Proof using Type.
  intros E. unfold validateSSMNode in E. inv_ensure E. apply ensure_Return in E as [E ->]. by split.
Qed.

Lemma spec_iam_IsIAM cfg : IsIAMRolesAnywhere cfg = if spec_iam cfg is Some _ then true else false.
Proof using Type. unfold IsIAMRolesAnywhere, spec_iam. by destruct (Hybrid (Spec cfg)) as [[]|]. Qed.
Lemma spec_ssm_IsSSM cfg : IsSSM cfg = if spec_ssm cfg is Some _ then true else false.
Proof using Type. unfold IsSSM, spec_ssm. by destruct (Hybrid (Spec cfg)) as [[]|]. Qed.

Lemma spec_iam_populate cfg : spec_iam (populate_defaults cfg) = default_iam <$> spec_iam cfg.
Proof using Type.
  unfold populate_defaults. destruct (spec_iam cfg) as [i|] eqn:E; [|done].
  unfold spec_iam in *. cbn. by destruct (Hybrid (Spec cfg)) as [[]|].
Qed.

Lemma or_default_nonempty v d : d ≠ "" → or_default v d ≠ "".
Proof using Type. unfold or_default. by destruct (String.eqb_spec v ""). Qed.

Lemma hybrid_ValidateConfig_provider : preserves same_provider hybrid_ValidateConfig.
Proof using Type.
  unfold hybrid_ValidateConfig, withHybridValidators, shared_config, validateRolesAnywhereNode,
    validateSSMNode, ensure, file_Exists, validate_certificate, certificate_Validate, check_cert, cert_err.
  host_tac.
Qed.

Lemma validators_wf c h h' :
  withHybridValidators (populate_defaults c) h = (Return tt, h') → hybrid_wf (populate_defaults c).
Proof using Type.
  set (cfg := populate_defaults c). intros E. unfold withHybridValidators in E. inv_ensure E.
  apply bind_Return in E as ([] & h1 & EI & ES).
  rewrite negb_true_iff, spec_iam_IsIAM, spec_ssm_IsSSM in *. rewrite !present_true, !present_false in *.
  split; [done|done|done|].
  unfold GetNodeType. rewrite spec_iam_IsIAM, spec_ssm_IsSSM.
  destruct (spec_iam cfg) as [i|] eqn:Hi, (spec_ssm cfg) as [s|]; try done.
  - split; [|split; [|done]].
    + subst cfg. rewrite spec_iam_populate in Hi. destruct (spec_iam c) as [i0|]; [|done].
      injection Hi as <-. eapply validateRolesAnywhereNode_wf; [|exact EI]. by apply or_default_nonempty.
    + subst cfg. pose proof Hi as Hi'. rewrite spec_iam_populate in Hi'. unfold populate_defaults.
      destruct (spec_iam c) as [i0|]; [|done]. by injection Hi' as <-.
  - split; [|done]. by eapply validateSSMNode_wf.
Qed.

(** C14. What static validation lets through is well formed: when the
    defaults are filled in and the configuration is accepted, exactly one
    credential provider is configured and it is complete, the activation
    has the form SSM gives it, the paths of IAM Roles Anywhere have their
    defaults, the node has the name it is configured with and the kubelet
    is not told another; so writing the AWS configuration later finds no
    field missing.  Validation changes nothing in the configuration. *)
Theorem accepted_config_wf h h1 h2 :
  hybrid_PopulateNodeConfigDefaults h = (Return tt, h1) →
  hybrid_ValidateConfig h1 = (Return tt, h2) →
  hnp_nodeConfig (provider h2) = populate_defaults (hnp_nodeConfig (provider h)) ∧
  hybrid_wf (hnp_nodeConfig (provider h2)) ∧
  ∀ i region bin, spec_iam (hnp_nodeConfig (provider h2)) = Some i → region ≠ "" → bin ≠ "" →
    validateAWSConfig {| c_TrustAnchorARN := TrustAnchorARN i; c_ProfileARN := ProfileARN i;
      c_RoleARN := RoleARN i; c_Region := region;
      c_NodeName := status_NodeName (Status (hnp_nodeConfig (provider h2)));
      c_ConfigPath := AwsConfigPath i; c_SigningHelperBinPath := bin;
      c_CertificatePath := CertificatePath i; c_PrivateKeyPath := PrivateKeyPath i |} = None.
Proof using Type.
  intros [= <-] EV. set (cfg := populate_defaults _).
  pose proof (hybrid_ValidateConfig_provider _ _ _ EV) as Hp. unfold same_provider in Hp.
  assert (hnp_nodeConfig (provider h2) = cfg) as Hc by by rewrite Hp.
  rewrite Hc. split; [done|]. assert (hybrid_wf cfg) as Hwf by (eapply validators_wf; exact EV).
  split; [done|]. intros i region bin Hi Hr Hb.
  pose proof (wf_provider cfg Hwf) as Hw. rewrite Hi in Hw.
  destruct (spec_ssm cfg); [done|]. destruct Hw as ([] & Hn & _).
  unfold validateAWSConfig. cbn. rewrite Hn. by rewrite !(proj2 (String.eqb_neq _ _)).
Qed.

(** ** Completing the configuration *)

Lemma registry_provider rc region : preserves same_provider (GetEKSHybridRegistry LookupHost region rc).
Proof using Type.
  unfold GetEKSHybridRegistry, getEksRegistryWithServiceDomainAndRegionConfig, LookupHost, call, GetFipsInfo.
  host_tac.
Qed.

Lemma preserves_call {A} what (answer : Host → result A) : preserves same_provider (call what answer).
Proof using Type. unfold call. host_tac. Qed.

(** One detail filled in the shared configuration. *)
Lemma update_details_Return fill h h' :
  update_details fill h = (Return tt, h') →
  ∃ c h1, fill (Cluster (Spec (hnp_nodeConfig (provider h)))) h = (Return c, h1) ∧
    (h1 = h → provider h' = {| hnp_nodeConfig := with_Cluster c (hnp_nodeConfig (provider h));
                     hnp_awsConfig := hnp_awsConfig (provider h); hnp_cluster := hnp_cluster (provider h) |}).
Proof using Type.
  intros E. unfold update_details in E. apply bind_Return in E as (cfg & h0 & [= <- <-] & E).
  apply bind_Return in E as (c & h1 & EF & E). injection E as <-.
  exists c, h1. split; [done|]. by intros ->.
Qed.

Lemma fill_endpoint_Return c d d' h h' :
  fill_endpoint c d h = (Return d', h') → h' = h ∧
  if String.eqb (APIServerEndpoint d) ""
  then ∃ v, eks_Endpoint c = Some v ∧ d' = set_APIServerEndpoint v d else d' = d.
Proof using Type.
  unfold fill_endpoint. cbv [mbind M_bind deref mret M_ret throw panic]. destruct (String.eqb _ ""); [|by intros [= <- <-]].
  destruct (eks_Endpoint c) as [v|]; [|done]. intros [= <- <-]. eauto.
Qed.
Lemma fill_cidr_Return c d d' h h' :
  fill_cidr c d h = (Return d', h') → h' = h ∧
  if String.eqb (CIDR d) ""
  then ∃ v, eks_ServiceIpv4Cidr c = Some (Some v) ∧ d' = set_CIDR v d else d' = d.
Proof using Type.
  unfold fill_cidr. cbv [mbind M_bind deref mret M_ret throw panic]. destruct (String.eqb _ ""); [|by intros [= <- <-]].
  destruct (eks_ServiceIpv4Cidr c) as [[v|]|]; [|done|done]. intros [= <- <-]. eauto.
Qed.
Lemma fill_ca_Return c d d' h h' :
  fill_ca c d h = (Return d', h') → h' = h ∧
  if CertificateAuthority d is Some _ then d' = d
  else ∃ data ca, eks_CertificateAuthority c = Some (Some data) ∧ base64_DecodeString data = Ok ca ∧
         d' = set_CertificateAuthority (Some ca) d.
Proof using Type.
  unfold fill_ca. cbv [mbind M_bind deref mret M_ret throw panic of_result].
  destruct (CertificateAuthority d); [by intros [= <- <-]|].
  destruct (eks_CertificateAuthority c) as [[data|]|]; [|done|done]. destruct (base64_DecodeString data) as [ca|] eqn:Eb; [|done]. intros [= <- <-].
  split; [done|]. by exists data, ca.
Qed.

Lemma getCluster_Return h h' c :
  getCluster h = (Return c, h') →
  provider h' = {| hnp_nodeConfig := hnp_nodeConfig (provider h); hnp_awsConfig := hnp_awsConfig (provider h);
                   hnp_cluster := Some c |}.
Proof using Type.
  intros E. unfold getCluster in E. apply bind_Return in E as (p & h0 & [= <- <-] & E).
  destruct (hnp_cluster (provider h)) as [c0|] eqn:Hc.
  { injection E as <- <-. destruct (provider h). cbn in *. by subst. }
  apply bind_Return in E as (config & h1 & ED & E).
  destruct (hnp_awsConfig (provider h)) as [aws|] eqn:Ha; [|done]. injection ED as <- <-.
  apply bind_Return in E as (c1 & h2 & ER & E).
  assert (same_provider h h2) as Hp by (revert ER; apply preserves_call).
  apply bind_Return in E as ([] & h3 & [= <-] & E). injection E as <- <-.
  cbn. by rewrite Hp, Ha.
Qed.

(** C25. Completing the configuration takes the cluster's word only for what
    the node does not have.  When the endpoint, the certificate authority
    and the service network are all configured, the EKS API is not asked
    and no cluster is kept (so that the validations that need one are
    skipped, whatever the node's permissions); otherwise the cluster kept is
    active and has a remote network, each detail that was missing is the
    cluster's, the authority base64-decoded, and each that was there stays. *)
Theorem enrich_details rc h h' :
  hybrid_Enrich rc h = (Return tt, h') →
  let d := Cluster (Spec (hnp_nodeConfig (provider h))) in
  let d' := Cluster (Spec (hnp_nodeConfig (provider h'))) in
  hnp_awsConfig (provider h') = hnp_awsConfig (provider h) ∧
  (complete_details d = true → d' = d ∧ hnp_cluster (provider h') = hnp_cluster (provider h)) ∧
  (complete_details d = false → ∃ c, hnp_cluster (provider h') = Some c ∧
     eks_Status c = "ACTIVE" ∧ RemoteNetworkConfig c ≠ None ∧
     (if String.eqb (APIServerEndpoint d) "" then eks_Endpoint c = Some (APIServerEndpoint d')
      else APIServerEndpoint d' = APIServerEndpoint d) ∧
     (if CertificateAuthority d is Some _ then CertificateAuthority d' = CertificateAuthority d
      else ∃ data, eks_CertificateAuthority c = Some (Some data) ∧
        ∀ ca, data = base64_Encode ca → CertificateAuthority d' = Some ca) ∧
     (if String.eqb (CIDR d) "" then eks_ServiceIpv4Cidr c = Some (Some (CIDR d'))
      else CIDR d' = CIDR d) ∧
     cluster_Name d' = cluster_Name d ∧ cluster_Region d' = cluster_Region d).
Proof using Type.
  intros E. unfold hybrid_Enrich in E.
  apply bind_Return in E as (cfg & h1 & [= <- <-] & E).
  apply bind_Return in E as (reg & h1 & ER & E). apply registry_provider in ER. unfold same_provider in ER.
  apply bind_Return in E as ([] & h2 & EM & E).
  assert (provider h2 = {| hnp_nodeConfig := set_SandboxImage (GetSandboxImage reg) (hnp_nodeConfig (provider h));
    hnp_awsConfig := hnp_awsConfig (provider h); hnp_cluster := hnp_cluster (provider h) |}) as P2
    by (injection EM as <-; cbn; by rewrite ER).
  apply bind_Return in E as (cfg & h2' & [= <- <-] & E). unfold needsClusterDetails in E.
  rewrite P2 in E. cbn [hnp_nodeConfig set_SandboxImage Spec] in E. cbv zeta.
  set (d := Cluster (Spec (hnp_nodeConfig (provider h)))) in *.
  destruct (complete_details d) eqn:Ec; cbn [negb when] in E.
  { injection E as <-. rewrite P2. by split_and!. }
  unfold ensureClusterDetails in E. apply bind_Return in E as (c & h3 & EG & E).
  apply getCluster_Return in EG. rewrite P2 in EG. cbn in EG.
  apply bind_Return in E as ([] & h4 & Es & E). apply ensure_Return in Es as [Es%String.eqb_eq ->].
  apply bind_Return in E as ([] & h4 & En & E). apply ensure_Return in En as [En ->].
  apply bind_Return in E as ([] & h5 & E1 & E). apply update_details_Return in E1 as (d1 & ? & F1 & P5).
  apply fill_endpoint_Return in F1 as [-> F1]. specialize (P5 eq_refl). rewrite EG in F1, P5. cbn in F1, P5. fold d in F1.
  apply bind_Return in E as ([] & h6 & E2 & E). apply update_details_Return in E2 as (d2 & ? & F2 & P6).
  apply fill_ca_Return in F2 as [-> F2]. specialize (P6 eq_refl). rewrite P5 in F2, P6. cbn in F2, P6.
  apply update_details_Return in E as (d3 & ? & F3 & P7).
  apply fill_cidr_Return in F3 as [-> F3]. specialize (P7 eq_refl). rewrite P6 in F3, P7. cbn in F3, P7.
  rewrite P7. cbn.
  assert (CertificateAuthority d1 = CertificateAuthority d ∧ CIDR d1 = CIDR d ∧
          cluster_Name d1 = cluster_Name d ∧ cluster_Region d1 = cluster_Region d) as (A1 & A2 & A3 & A4)
    by (destruct (String.eqb (APIServerEndpoint d) ""); [by destruct F1 as (v & _ & ->)|by subst]).
  assert (APIServerEndpoint d2 = APIServerEndpoint d1 ∧ CIDR d2 = CIDR d1 ∧
          cluster_Name d2 = cluster_Name d1 ∧ cluster_Region d2 = cluster_Region d1) as (B1 & B2 & B3 & B4)
    by (destruct (CertificateAuthority d1); [by subst|by destruct F2 as (? & ? & _ & _ & ->)]).
  assert (APIServerEndpoint d3 = APIServerEndpoint d2 ∧ CertificateAuthority d3 = CertificateAuthority d2 ∧
          cluster_Name d3 = cluster_Name d2 ∧ cluster_Region d3 = cluster_Region d2) as (C1 & C2 & C3 & C4)
    by (destruct (String.eqb (CIDR d2) ""); [by destruct F3 as (v & _ & ->)|by subst]).
  rewrite A1 in F2. rewrite B2, A2 in F3.
  split; [done|]. split; [done|]. intros _. exists c. split; [done|]. split; [done|].
  split; [by destruct (RemoteNetworkConfig c)|]. rewrite C1, C2, B1, C3, C4, B3, B4, A3, A4.
  split; [|split; [|split; [|done]]].
  - destruct (String.eqb (APIServerEndpoint d) ""); [by destruct F1 as (v & Hv & ->)|by subst].
  - destruct (CertificateAuthority d); [by rewrite F2, A1|].
    destruct F2 as (data & x & Hd & Hb & ->). exists data. split; [done|].
    intros ca' ->. change (base64_DecodeString (base64_Encode ca') = Ok x) in Hb.
    rewrite base64_roundtrip in Hb. by injection Hb as <-.
  - destruct (String.eqb (CIDR d) ""); [by destruct F3 as (v & Hv & ->)|by rewrite F3, B2, A2].
Qed.
End HybridProps.

(** ** Witnesses *)

Example active_cluster : EksCluster := {|
  eks_Name := Some "prod"; eks_Version := Some "1.31"; eks_Status := "ACTIVE";
  eks_Endpoint := Some "https://api"; eks_CertificateAuthority := Some (Some (base64_Encode "CA"));
  eks_ServiceIpv4Cidr := Some (Some "10.100.0.0/16");
  RemoteNetworkConfig := Some {| RemoteNodeNetworks := Some [{| Cidrs := ["192.168.0.0/16"] |}] |} |}.

Definition numbers_of (s : string) : option (list Z) := mapM number (Split "." s).
Example small_cloud : HybridEnv := {|
  pem_Decode _ := None;
  x509_ParseCertificate _ := Err (ENew "no certificate");
  Verify _ _ _ := None;
  time_Now _ := 0;
  semver_Parse s := match numbers_of s with Some [a; b; c] => Ok (a, b, c) | _ => Err (ENew s) end;
  arn_Parse s := match Split ":" s with
                 | [_; _; service; _; _; resource] => Ok {| arn_Service := service; arn_Resource := resource |}
                 | _ => Err (ENew "not an ARN")
                 end;
  ListAccessEntries _ _ token _ :=
    match token with None => Ok (["arn:aws:iam::1:role/admin"], Some "more") | Some _ => Ok (["arn:aws:iam::1:role/node"], None) end;
  max_pages := 10%nat;
  json_provider _ := "{}";
  exit_code _ := None;
  parse_registration s := Ok {| ManagedInstanceID := s; RegRegion := "us-west-2" |} |}.
Example small_eks : ClusterEnv := {|
  DescribeCluster _ _ _ := Ok active_cluster;
  ParseRequestURI s := Ok {| Scheme := "https"; Hostname := s; url_Port := "" |};
  LookupIPAddr _ _ := Ok ["10.0.0.1"];
  AppendCertsFromPEM s := Some [s];
  https_get _ _ _ := Ok (401, ("{}", None));
  json_Message s := Ok s;
  BuildClient := throw (ENew "no kubeconfig") |}.
Example ubuntu_131 : KubeletEnv := {|
  fused := false; nodeDir := ""; cpusPath := ""; os_name _ := "ubuntu";
  metadata _ _ := Err (ENew "no metadata service"); url_Host u := Ok u; lookup_host _ _ := Ok [];
  eniMaxPods := ""; ec2_config _ _ := None; DescribeInstanceTypes _ _ _ := Ok []; json_config _ := "{}";
  merged_config _ _ := Ok "{}"; dropin_config _ := Ok "{}" |}.
Example kubelet_v131 : Env := {|
  fault _ _ := None;
  run_output _ cmd _ := (if String.eqb cmd "kubelet" then "Kubernetes v1.29.2" else "", None);
  run_effect h _ _ := fs h; http_do _ _ := Ok (200, ("", None)); bad_url _ := None;
  look_path _ _ := None; ticks _ := 0%nat; read_part _ _ := "" |}.

Example ssm_cfg : NodeConfig := {|
  Spec := {| Cluster := {| cluster_Name := "prod"; cluster_Region := "us-west-2"; APIServerEndpoint := "";
      CertificateAuthority := None; CIDR := ""; EnableOutpost := None; cluster_ID := "" |};
    spec_Containerd := {| containerd_Config := "" |}; spec_Instance := {| LocalStorageStrategy := "" |};
    spec_Kubelet := {| Config := ∅; Flags := ["--v=4"] |};
    Hybrid := Some {| EnableCredentialsFile := false; hybrid_IAMRolesAnywhere := None;
      hybrid_SSM := Some {| ActivationCode := "abcdefghijklmnopqrst";
                            ActivationID := "01234567-89ab-cdef-0123-456789abcdef" |} |} |};
  Status := Status empty_config |}.
Example aws_client : AwsConfig :=
  {| aws_Region := "us-west-2"; SharedConfigFiles := None; SharedCredentialsFiles := None;
     SharedConfigProfile := ""; IMDSDisabled := true |}.
Example registered_node : Host :=
  {| fs := ∅; tracker := no_artifacts; journal := [];
     provider := {| hnp_nodeConfig := ssm_cfg; hnp_awsConfig := Some aws_client; hnp_cluster := None |} |}.

Lemma version_skew_window_witness :
  (validateSkew (H := kubelet_v131) (H7 := small_cloud) active_cluster registered_node).1 = Return tt ∧
  0 <= minor (1, 31, 0) - minor (1, 29, 2) <= 3.
Proof.
  split; [|unfold minor; cbn; lia].
  destruct (GetKubeletVersion (H := kubelet_v131) registered_node) as [o h1] eqn:E.
  assert (o = Return "v1.29.2") as ->.
  { change o with (o, h1).1. rewrite <- E. vm_compute. reflexivity. }
  apply (version_skew_window (H := kubelet_v131) (H7 := small_cloud) active_cluster "1.31" (1, 31, 0)
    "v1.29.2" (1, 29, 2) registered_node h1); try reflexivity; try exact E; unfold minor; cbn; lia.
Defined.

Lemma accepted_config_wf_witness :
  ∃ h1 h2, hybrid_PopulateNodeConfigDefaults registered_node = (Return tt, h1) ∧
    (hybrid_ValidateConfig (H := kubelet_v131) (H6 := small_eks) (H7 := small_cloud) h1) = (Return tt, h2) ∧
    hybrid_wf (hnp_nodeConfig (provider h2)).
Proof.
  destruct (hybrid_PopulateNodeConfigDefaults registered_node) as [o h1] eqn:E1.
  assert (o = Return tt) as ->.
  { change o with (o, h1).1. rewrite <- E1. vm_compute. reflexivity. }
  destruct (hybrid_ValidateConfig (H := kubelet_v131) (H6 := small_eks) (H7 := small_cloud) h1) as [o h2] eqn:E2.
  assert (o = Return tt) as ->.
  { change o with (o, h2).1. rewrite <- E2. change h1 with (Return tt, h1).2. rewrite <- E1.
    vm_compute. reflexivity. }
  exists h1, h2. split; [reflexivity|]. split; [exact E2|].
  apply (accepted_config_wf (H := kubelet_v131) (H6 := small_eks) (H7 := small_cloud) registered_node h1 h2 E1 E2).
Defined.

Lemma enrich_details_witness :
  ∃ h', hybrid_Enrich (H := kubelet_v131) (H2 := ubuntu_131) (H6 := small_eks) None registered_node = (Return tt, h') ∧
    hnp_cluster (provider h') = Some active_cluster ∧
    CertificateAuthority (Cluster (Spec (hnp_nodeConfig (provider h')))) = Some "CA".
Proof.
  destruct (hybrid_Enrich (H := kubelet_v131) (H2 := ubuntu_131) (H6 := small_eks) None registered_node) as [o h'] eqn:E.
  assert (o = Return tt) as ->.
  { change o with (o, h').1. rewrite <- E. vm_compute. reflexivity. }
  exists h'. split; [reflexivity|].
  destruct (enrich_details (H := kubelet_v131) (H2 := ubuntu_131) (H6 := small_eks) None registered_node h' E)
    as (_ & _ & Hc).
  destruct (Hc eq_refl) as (c & Hcl & _ & _ & _ & Hca & _).
  assert (hnp_cluster (provider h') = Some active_cluster) as Hact.
  { change h' with (Return tt, h').2. rewrite <- E. vm_compute. reflexivity. }
  split; [exact Hact|]. rewrite Hact in Hcl. injection Hcl as <-. cbn in Hca.
  destruct Hca as (data & Hd & Hdec). apply Hdec. injection Hd as <-. reflexivity.
Defined.
