(* ===== verification/Ec2Provider.v ===== *)
(** * The provider of EC2 nodes (internal/node/ec2, internal/api/status.go,
      internal/aws/ec2/instance_waiter.go)

    The details of the instance, the wait for its private DNS name, and the
    provider over them.  The EC2 API and the metadata service are outside
    code; time is nanoseconds. *)

From S2P Require Import Prelude GoStrings Host Tracker Semver Api Daemon Validation Aws Aspects Flows Resources.
From S2P Require Import Retry ContainerdDaemon KubeletConfig KubeletDaemon Credentials KubeAccess HybridProvider HybridProps.
#[local] Open Scope Z_scope.

(** [DescribeInstancesOutput]: the reservations, each by the private DNS
    names of its instances. *)
Definition Reservations : Type := list (list (option string)).

Class Ec2Env := {
  DescribeInstances : string → Host → result Reservations;
  (** The code of a [smithy.APIError] in the chain of an error. *)
  api_error_code : error → option string;
  (** [time.Since(start)] of the request just made. *)
  request_time : Host → Z;
  (** [smithywaiter.ComputeDelay] of attempt, minimum, maximum and
      remaining time: it draws at random. *)
  ComputeDelay : Z → Z → Z → Z → Host → result Z;
  (** [smithytime.SleepWithContext] is cut short by the context. *)
  SleepWithContext : Z → Host → option error;
  (** id, region, type and availability zone. *)
  GetInstanceIdentityDocument : Host → result (string * string * string * string);
}.

Section Ec2.
Context `{Env} `{Semver} `{BackoffLoop} `{KubeletEnv} `{MapOrder} `{ImageService}
        `{CloudEnv} `{ClusterEnv} `{HybridEnv} `{Ec2Env}.

(** ** The waiter (instance_waiter.go) *)

(** The last return of [instanceRetryable] is reached by every API error. *)
Definition instanceRetryable (err : error) : result bool :=
  match api_error_code err with
  | None => Err (EWrap "expected err to be of type smithy.APIError, got" err)
  | Some code => if String.eqb code "InvalidInstanceID.NotFound" then Ok true else Ok true
  end.

Record WaiterOptions := { MinDelay : Z; MaxDelay : Z }.
Definition default_waiter : WaiterOptions := {| MinDelay := 15 * Second; MaxDelay := 120 * Second |}.

Section Waiter.
Context (options : WaiterOptions) (instanceID : string)
        (condition : option Reservations → result bool).

(** The turn of the loop after [attempt] was incremented, with the loop
    itself on the remaining time and [attempt]; the output of a failed call
    is nil. *)
Definition waiter_turn (loop : Z → Z → M Host (option Reservations)) (attempt remainingTime : Z)
    : M Host (option Reservations) :=
  r ← try (call "ec2:DescribeInstances" (DescribeInstances instanceID));
  done ← of_result match r with
    | Err err => retryable ← instanceRetryable err; Ok (if retryable : bool then None else Some None)
    | Ok out => met ← condition (Some out); Ok (if met : bool then Some (Some out) else None)
    end;
  match done with
  | Some out => mret out
  | None =>
      spent ← gets request_time;
      let remainingTime := remainingTime - spent in
      if (remainingTime <? MinDelay options) || (remainingTime <=? 0)
      then throw (ENew "exceeded max wait time for InstanceCondition waiter")
      else
        delay ← map_err (EWrap "error computing waiter delay,")
          (λ h, of_result (ComputeDelay attempt (MinDelay options) (MaxDelay options) remainingTime h) h);
        cancelled ← gets (SleepWithContext delay);
        match cancelled with
        | Some e => throw (EWrap "request cancelled while waiting," e)
        | None => loop (attempt + 1) (remainingTime - delay)
        end
  end.
Fixpoint waiter_loop (fuel : nat) (attempt remainingTime : Z) : M Host (option Reservations) :=
  match fuel with
  | O => throw (ENew "out of fuel")
  | S fuel => waiter_turn (waiter_loop fuel) attempt remainingTime
  end.

End Waiter.

(** The maximum that is not positive stands for the default.  A turn takes at
    least a nanosecond. *)
Definition WaitForOutput (options : WaiterOptions) (instanceID : string)
    (condition : option Reservations → result bool) (maxWaitDur : Z) : M Host (option Reservations) :=
  if maxWaitDur <=? 0
  then throw (ENew "maximum wait time for waiter must be greater than zero")
  else
  let options := {| MinDelay := MinDelay options;
                    MaxDelay := if MaxDelay options <=? 0 then 120 * Second else MaxDelay options |} in
  if MaxDelay options <? MinDelay options
  then throw (ENew "minimum waiter delay must be lesser than or equal to maximum waiter delay")
  else waiter_loop options instanceID condition (S (Z.to_nat maxWaitDur)) 1 maxWaitDur.

(** ** The instance's details (status.go) *)

Definition privateDNSNameAvailable (out : option Reservations) : result bool :=
  match out with
  | Some [[name]] => Ok (negb (String.eqb (default "" name) ""))
  | _ => Err (ENew "reservation or instance not found")
  end.
Definition privateDNSNameAvailableTimeout : Z := 3 * Minute.
Definition getPrivateDNSName (instanceID : string) : M Host string :=
  out ← WaitForOutput default_waiter instanceID privateDNSNameAvailable privateDNSNameAvailableTimeout;
  match out with
  | Some ((name :: _) :: _) => mret (default "" name)
  | _ => panic
  end.

Definition GetInstanceDetails : M Host InstanceDetails :=
  '(id, region, type, zone) ← call "imds:GetInstanceIdentityDocument" GetInstanceIdentityDocument;
  mac ← GetMetadata "mac";
  privateDNSName ← getPrivateDNSName id;
  mret {| instance_ID := id; instance_Region := region; instance_Type := type;
          AvailabilityZone := zone; MAC := mac; PrivateDNSName := privateDNSName |}.

(** ** Static validation (validator.go) *)

Definition withEc2NodeValidators (cfg : NodeConfig) : M Host unit :=
  let c := Cluster (Spec cfg) in
  ensure (present (cluster_Name c)) "Name is missing in cluster configuration";;
  ensure (present (APIServerEndpoint c)) "Apiserver endpoint is missing in cluster configuration";;
  ensure (if CertificateAuthority c is Some _ then true else false)
    "Certificate authority is missing in cluster configuration";;
  ensure (present (CIDR c)) "CIDR is missing in cluster configuration";;
  when (IsOutpostNode cfg) (ensure (present (cluster_ID c)) "CIDR is missing in cluster configuration").
Definition ec2_ValidateConfig : M Host unit := cfg ← shared_config; withEc2NodeValidators cfg.

(** ** Configuration (configenricher.go, aws.go) *)

Definition set_Instance (i : InstanceDetails) (cfg : NodeConfig) : NodeConfig :=
  {| Spec := Spec cfg;
     Status := {| status_Instance := i; status_NodeName := status_NodeName (Status cfg);
                  SandboxImage := SandboxImage (Status cfg) |} |}.

Definition GetEKSRegistry (region : string) (regionConfig : option RegionData) : M Host string :=
  servicesDomain ← GetMetadata "services/domain";
  getEksRegistryWithServiceDomainAndRegionConfig LookupHost region servicesDomain regionConfig.

Definition imds_config : AwsConfig :=
  {| aws_Region := ""; SharedConfigFiles := None; SharedCredentialsFiles := None;
     SharedConfigProfile := ""; IMDSDisabled := false |}.
Definition ec2_Enrich (regionConfig : option RegionData) : M Host unit :=
  LoadDefaultConfig imds_config;;
  instanceDetails ← GetInstanceDetails;
  modify_config (set_Instance instanceDetails);;
  eksRegistry ← GetEKSRegistry (instance_Region instanceDetails) regionConfig;
  modify_config (set_SandboxImage (GetSandboxImage eksRegistry)).

(** [config.WithRegion] alone. *)
Definition WithRegion (region : string) : AwsConfig :=
  {| aws_Region := region; SharedConfigFiles := None; SharedCredentialsFiles := None;
     SharedConfigProfile := ""; IMDSDisabled := false |}.
Definition ec2_ConfigureAws : M Host unit :=
  cfg ← shared_config;
  awsConfig ← LoadDefaultConfig (WithRegion (instance_Region (status_Instance (Status cfg))));
  set_awsConfig awsConfig.

(** ** Aspects, daemons, the provider (aspects.go, daemons.go, ec2node.go) *)

Definition ec2_GetAspects : M Host (list SystemAspect) :=
  cfg ← shared_config;
  mret [NewLocalDiskAspect cfg; NewNetworkingAspect cfg].

Definition ec2_GetDaemons (m : DaemonManager) (printer : Informer Host) : M Host (list Daemon) :=
  p ← gets provider;
  match hnp_awsConfig p with
  | None => throw (ENew "aws config not set")
  | Some _ =>
      let cfg := hnp_nodeConfig p in
      mret [NewContainerdDaemon m cfg (hnp_awsConfig p);
            NewKubeletDaemon (LookupEnv "ECR_CREDENTIAL_PROVIDER_BIN_PATH") json_provider
              printer (on_node MakeAuthenticatedRequest) m cfg
              {| cp_Profile := ""; CredentialsPath := "" |} None]
  end.

Definition ec2_NodeProvider (m : DaemonManager) (printer : Informer Host) : NodeProvider := {|
  GetNodeConfig h := hnp_nodeConfig (provider h);
  PopulateNodeConfigDefaults := mret tt;
  ValidateConfig := ec2_ValidateConfig;
  PreProcessDaemon := mret tt;
  GetDaemons := ec2_GetDaemons m printer;
  GetAspects := ec2_GetAspects;
  Flows.Validate := mret tt;
  np_Cleanup := mret tt;
  Enrich := ec2_Enrich;
  ConfigureAws := ec2_ConfigureAws |}.

Definition NewEc2NodeProvider (connect : M Host DaemonManager) (printer : Informer Host)
    (nodeConfig : NodeConfig) : M Host NodeProvider :=
  modify (set_provider {| hnp_nodeConfig := nodeConfig; hnp_awsConfig := None; hnp_cluster := None |});;
  manager ← connect;
  mret (ec2_NodeProvider manager printer).

(** ** Properties *)

Lemma waiter_turn_enough opts id cond f g attempt t h :
  (∀ h, 1 <= request_time h) → (∀ a b c d h delay, 0 <= b <= d → ComputeDelay a b c d h = Ok delay → 0 <= delay <= d) →
  0 <= MinDelay opts →
  (∀ attempt' t' h, 0 <= t' < t → f attempt' t' h = g attempt' t' h) →
  waiter_turn opts id cond f attempt t h = waiter_turn opts id cond g attempt t h.
Proof using Type.
  intros Ht Hd Hm Hfg. unfold waiter_turn. cbv [mbind M_bind].
  destruct (try _ h) as [[r|e|] h1]; [|done|done]. destruct (of_result _ h1) as [[ready|e|] h2]; [|done|done].
  destruct ready; [done|]. cbn [gets]. destruct (_ || _) eqn:Eb; [done|].
  apply orb_false_iff in Eb as [Em%Z.ltb_ge Eb%Z.leb_gt].
  unfold map_err, of_result. destruct (ComputeDelay _ _ _ _ h2) as [delay|e] eqn:Ec; [|done].
  destruct (SleepWithContext delay h2); [done|]. apply Hfg.
  apply Hd in Ec; [|lia]. specialize (Ht h2). lia.
Qed.

Lemma call_journal {A} what (answer : Host → result A) h o h' :
  call what answer h = (o, h') → journal h' = journal h ++ [EvCall what].
Proof using Type.
  unfold call, external, sys. intros E. cbv [mbind M_bind] in E.
  destruct (fault h _) as [[e f]|]; [by injection E as <- <-|].
  unfold gets, of_result in E. by injection E as _ <-.
Qed.

Lemma waiter_requests opts id cond fuel attempt t h o h' :
  waiter_loop opts id cond fuel attempt t h = (o, h') →
  ∃ n, (n ≤ fuel)%nat ∧ journal h' = journal h ++ replicate n (EvCall "ec2:DescribeInstances").
Proof using Type.
  revert attempt t h. induction fuel as [|fuel IH]; intros attempt t h E.
  { exists 0%nat. injection E as <- <-. split; [done|]. by rewrite app_nil_r. }
  cbn [waiter_loop] in E. unfold waiter_turn in E. cbv [mbind M_bind] in E.
  assert (∀ out h1, try (call "ec2:DescribeInstances" (DescribeInstances id)) h = (out, h1) →
            journal h1 = journal h ++ [EvCall "ec2:DescribeInstances"]) as J1.
  { intros out h1 E1. unfold try in E1. destruct (call _ _ h) as [r h2] eqn:Ec.
    apply call_journal in Ec. destruct r; by simplify_eq. }
  destruct (try _ h) as [r h1]. specialize (J1 _ _ eq_refl).
  assert (∀ o', (o', h1) = (o, h') → ∃ n, (n ≤ S fuel)%nat ∧
            journal h' = journal h ++ replicate n (EvCall "ec2:DescribeInstances")) as Stop.
  { intros o' [= _ <-]. exists 1%nat. split; [lia|done]. }
  destruct r as [r|e|]; [|by eapply Stop..].
  unfold of_result at 1 in E. destruct (match r with Ok _ => _ | Err _ => _ end) as [[out|]|e]; [by eapply Stop| |by eapply Stop].
  cbn [gets] in E. destruct (_ || _); [by eapply Stop|].
  unfold map_err, of_result in E. destruct (ComputeDelay _ _ _ _ h1) as [delay|e]; [|by eapply Stop].
  cbn [gets] in E. destruct (SleepWithContext delay h1); [by eapply Stop|].
  destruct (IH _ _ _ E) as (n & Hn & ->). exists (S n). split; [lia|]. rewrite J1. by rewrite <-app_assoc.
Qed.

(** C28. The wait for an instance ends: when every request takes a
    nanosecond or more and the delays drawn lie between zero and the
    time left when the minimum does, as the library documents, the loop makes at most one request per nanosecond of
    the time it was given and one more, the bound of the model is never met
    (more fuel never changes the result), and nothing but requests happens. *)
Theorem waiter_terminates opts id cond t attempt h fuel :
  (∀ h, 1 <= request_time h) → (∀ a b c d h delay, 0 <= b <= d → ComputeDelay a b c d h = Ok delay → 0 <= delay <= d) →
  0 <= MinDelay opts →
  (Z.to_nat t < fuel)%nat →
  waiter_loop opts id cond fuel attempt t h = waiter_loop opts id cond (S (Z.to_nat t)) attempt t h ∧
  (∃ n, (n ≤ S (Z.to_nat t))%nat ∧
     journal (waiter_loop opts id cond fuel attempt t h).2 =
       journal h ++ replicate n (EvCall "ec2:DescribeInstances")).
Proof using Type.
  intros Ht Hd Hm.
  assert (∀ fuel' fuel attempt t h, (Z.to_nat t < fuel)%nat → (Z.to_nat t < fuel')%nat →
    waiter_loop opts id cond fuel attempt t h = waiter_loop opts id cond fuel' attempt t h) as Enough.
  { clear h fuel t attempt. induction fuel' as [|fuel' IH]; intros fuel attempt t h Hf Hf'; [lia|].
    destruct fuel as [|fuel]; [lia|]. cbn [waiter_loop].
    apply waiter_turn_enough; [done..|]. intros a' t' h'' Hlt.
    apply IH; lia. }
  intros Hf. assert (Eq := Enough (S (Z.to_nat t)) fuel attempt t h Hf ltac:(lia)).
  split; [done|]. rewrite Eq.
  destruct (waiter_loop _ _ _ (S (Z.to_nat t)) attempt t h) as [o h'] eqn:E. by eapply waiter_requests.
Qed.
End Ec2.

(** *** An instance whose name appears at the second request *)

Example slow_name : Ec2Env := {|
  DescribeInstances _ h :=
    Ok (if (1 <? length (journal h))%nat then [[Some "ip-10-0-0-1.ec2.internal"]] else [[None]]);
  api_error_code _ := None;
  request_time _ := 100 * Millisecond;
  ComputeDelay _ minDelay _ _ _ := Ok minDelay;
  SleepWithContext _ _ := None;
  GetInstanceIdentityDocument _ := Ok ("i-0", "us-west-2", "m5.large", "us-west-2a") |}.
Example brief : WaiterOptions := {| MinDelay := 1 * Second; MaxDelay := 2 * Second |}.

Lemma waiter_terminates_witness :
  let wait fuel := waiter_loop (H := kubelet_v131) (H8 := slow_name) brief "i-0" privateDNSNameAvailable fuel 1
                     (5 * Second) registered_node in
  (wait 4%nat).1 = Return (Some [[Some "ip-10-0-0-1.ec2.internal"]]) ∧
  ∀ fuel, (Z.to_nat (5 * Second) < fuel)%nat → wait fuel = wait (S (Z.to_nat (5 * Second))).
Proof.
  split; [vm_compute; reflexivity|].
  intros fuel Hf.
  apply (waiter_terminates (H := kubelet_v131) (H8 := slow_name) brief "i-0" privateDNSNameAvailable
           (5 * Second) 1 registered_node fuel); [intros; apply Z.leb_le; reflexivity| |apply Z.leb_le; reflexivity|exact Hf].
  intros a b c d h delay Hb [= <-]. exact Hb.
Defined.
