(* ===== verification/SyncArtifacts.v ===== *)
(** * Copying the artifacts to a private bucket (cmd/nodeadm/sync_artifacts)

    The artifacts of a release are streamed to S3 under a time-stamped
    prefix, and a manifest is written that names the copies.  The state is
    the host and the objects of the bucket; S3 and the YAML encoder are
    outside code. *)

From S2P Require Import Prelude GoStrings Host HttpFile Semver Aws.
#[local] Open Scope Z_scope.

(** ** The host and the bucket *)

(** The objects of the bucket by their keys. *)
Definition Site : Type := Host * gmap string string.

Definition at_host {A} (m : M Host A) : M Site A :=
  λ s, let '(o, h) := m s.1 in (o, (h, s.2)).

Class S3Env := {
  (** Why an upload fails, and whether its object is stored all the same:
      the request is atomic, but its answer may be lost. *)
  upload_fault : Host → string → option (error * bool);
  (** [HeadBucket]. *)
  head_bucket : string → Host → option error;
  (** Why no configuration loads for a region. *)
  s3_config : string → Host → option error;
  (** [time.Now().Unix()]. *)
  unix_now : Host → Z;
  (** [resp.Status]. *)
  http_status : Z → string;
  yaml_Marshal : Manifest → result string;
}.

Record ArtifactInfo := {
  info_Name : string; info_URL : string; info_ChecksumURL : string; LocalPath : string }.

(** The S3 client and the logger apart. *)
Record Downloader := {
  dl_AwsSource : AwsSource;
  dl_Arch : string;
  dl_OS : string;
  dl_Region : string;
  S3Bucket : string;
  S3Prefix : string;
  SyncTimestamp : Z;
}.

(** ** What is copied *)

Section Artifacts.
Context (d : Downloader).

Fixpoint findArtifact (artifacts : list ArtifactEntry) (name : string) : option ArtifactEntry :=
  match artifacts with
  | [] => None
  | artifact :: artifacts =>
      if String.eqb (Name artifact) name && String.eqb (Arch artifact) (dl_Arch d) &&
         String.eqb (OS artifact) (dl_OS d)
      then Some artifact else findArtifact artifacts name
  end.

Definition detectPlatformVariant : result string :=
  if String.eqb (dl_OS d) "linux" then Ok "linux"
  else Err (ENew ("unsupported OS: " +:+ dl_OS d)).

Definition dns_suffix : string :=
  let dnsSuffix := DnsSuffix (RegionInfo (dl_AwsSource d)) in
  if String.eqb dnsSuffix ""
  then GetPartitionDNSSuffix (GetPartitionFromRegionFallback (dl_Region d)) else dnsSuffix.

Definition getSSMInstallerURL : result string :=
  variant ← detectPlatformVariant;
  Ok ("https://amazon-ssm-" +:+ dl_Region d +:+ ".s3." +:+ dl_Region d +:+ "." +:+ dns_suffix +:+
      "/latest/" +:+ variant +:+ "_" +:+ dl_Arch d +:+ "/ssm-setup-cli").

Definition info (name dir : string) (artifact : ArtifactEntry) : ArtifactInfo :=
  {| info_Name := name; info_URL := URI artifact; info_ChecksumURL := ChecksumURI artifact;
     LocalPath := dir +:+ name |}.
Definition eks_names : list string :=
  ["kubelet"; "kubectl"; "cni-plugins"; "ecr-credential-provider"; "aws-iam-authenticator"].
Definition signing_helper_name : string := "aws_signing_helper".

Definition collectArtifacts : result (list ArtifactInfo) :=
  let eksArtifacts :=
    omap (λ name, info name "eks/" <$> findArtifact (Artifacts (Eks (dl_AwsSource d))) name)
      eks_names in
  let iamArtifacts :=
    match findArtifact (IamArtifacts (Iam (dl_AwsSource d))) signing_helper_name with
    | Some artifact => [info signing_helper_name "iam-ra/" artifact]
    | None => []
    end in
  let ssmArtifacts :=
    match getSSMInstallerURL with
    | Ok installerURL =>
        [{| info_Name := "ssm-setup-cli"; info_URL := installerURL; info_ChecksumURL := "";
            LocalPath := "ssm/ssm-setup-cli" |};
         {| info_Name := "ssm-setup-cli.sig"; info_URL := installerURL +:+ ".sig";
            info_ChecksumURL := ""; LocalPath := "ssm/ssm-setup-cli.sig" |}]
    | Err _ => []
    end in
  match eksArtifacts ++ iamArtifacts ++ ssmArtifacts with
  | [] => Err (ENew ("no artifacts found for architecture " +:+ dl_Arch d +:+ " and OS " +:+ dl_OS d))
  | artifacts => Ok artifacts
  end.

(** ** The manifest of the copies *)

Definition key_prefix : string := TrimSuffix (S3Prefix d) "/" +:+ "/" +:+ Itoa (SyncTimestamp d).
Definition baseS3URL : string :=
  "https://" +:+ S3Bucket d +:+ ".s3." +:+ dl_Region d +:+ "." +:+ dns_suffix +:+ "/" +:+ key_prefix.

Definition awsArtifact (artifact : ArtifactInfo) : ArtifactEntry :=
  {| Name := info_Name artifact; Arch := dl_Arch d; OS := dl_OS d;
     URI := baseS3URL +:+ "/" +:+ LocalPath artifact;
     ChecksumURI := if String.eqb (info_ChecksumURL artifact) "" then ""
                    else baseS3URL +:+ "/" +:+ LocalPath artifact +:+ ".sha256";
     GzipURI := "" |}.

(** The artifacts of one directory, in order. *)
Definition in_dir (dir : string) (artifacts : list ArtifactInfo) : list ArtifactEntry :=
  awsArtifact <$> keep (λ a, HasPrefix (LocalPath a) dir) artifacts.

Definition extractMajorMinor (version : string) : string :=
  match Split "." version with
  | a :: b :: _ => a +:+ "." +:+ b
  | _ => version
  end.

Definition customManifest (artifacts : list ArtifactInfo) : Manifest :=
  let source := dl_AwsSource d in
  let cred name := default false (CredProviders (RegionInfo source) !! name) in
  let iamArtifacts := in_dir "iam-ra/" artifacts in
  let ssmArtifacts := in_dir "ssm/" artifacts in
  {| RegionConfig :=
       {[dl_Region d := {| EcrAccountID := EcrAccountID (RegionInfo source);
           Partition := ""; DnsSuffix := "";
           CredProviders := <["iam-ra" := cred "iam-ra"]> {["ssm" := cred "ssm"]} |}]};
     SsmReleases :=
       if ssmArtifacts is [] then [] else [{| SsmVersion := "latest"; SsmArtifacts := ssmArtifacts |}];
     SupportedEksReleases :=
       [{| MajorMinorVersion := extractMajorMinor (Version (Eks source));
           LatestPatchVersion := PatchVersion (Eks source);
           PatchReleases := [{| Version := Version (Eks source); PatchVersion := PatchVersion (Eks source);
             ReleaseDate := ReleaseDate (Eks source); Artifacts := in_dir "eks/" artifacts |}] |}];
     IamRolesAnywhereReleases :=
       if iamArtifacts is [] then []
       else [{| IamVersion := IamVersion (Iam source); IamArtifacts := iamArtifacts |}] |}.

Definition manifest_name : string :=
  "manifest-" +:+ Version (Eks (dl_AwsSource d)) +:+ "-" +:+ dl_Arch d +:+ "-" +:+ dl_OS d +:+ "-" +:+
  Itoa (SyncTimestamp d) +:+ ".yaml".
End Artifacts.

(** ** The copy *)

Section Sync.
Context `{Env} `{S3Env}.

(** [uploader.Upload]: it fails with the error its body ends with. *)
Definition Upload (s3Key : string) (body : string * option error) : M Site unit := λ '(h, b),
  let h' := record (EvCall ("s3:PutObject " +:+ s3Key)) h in
  match body.2, upload_fault h s3Key with
  | Some e, _ => (Throw e, (h', b))
  | None, None => (Return tt, (h', <[s3Key := body.1]> b))
  | None, Some (e, stored) => (Throw e, (h', if stored : bool then <[s3Key := body.1]> b else b))
  end.

Definition streamToS3 (url s3Key : string) : M Site unit :=
  match bad_url url with
  | Some e => throw (EWrap "creating request" e)
  | None =>
      '(status, body) ← map_err (EWrap "making request") (at_host (http_get url));
      if negb (status =? 200)
      then throw (ENew ("HTTP " +:+ Itoa status +:+ ": " +:+ http_status status))
      else map_err (EWrap "uploading to S3 using manager") (Upload s3Key body)
  end.

Section Run.
Context (d : Downloader).

Definition s3Key (artifact : ArtifactInfo) : string := key_prefix d +:+ "/" +:+ LocalPath artifact.

(** A checksum that is not copied is a warning. *)
Definition syncArtifactToS3 (artifact : ArtifactInfo) : M Site unit :=
  map_err (EWrap ("streaming " +:+ info_Name artifact +:+ " to S3"))
    (streamToS3 (info_URL artifact) (s3Key artifact));;
  when (negb (String.eqb (info_ChecksumURL artifact) ""))
    (_ ← try (streamToS3 (info_ChecksumURL artifact) (s3Key artifact +:+ ".sha256")); mret tt).

Definition generateCustomManifest (artifacts : list ArtifactInfo) : M Host unit :=
  yamlData ← map_err (EWrap "marshaling manifest to YAML")
               (of_result (yaml_Marshal (customManifest d artifacts)));
  map_err (EWrap ("writing manifest file " +:+ manifest_name d))
    (os_WriteFile (manifest_name d) yamlData 420).

Definition Downloader_Run : M Site unit :=
  artifacts ← map_err (EWrap "collecting artifacts") (of_result (collectArtifacts d));
  for_each (λ artifact, map_err (EWrap ("sync artifact " +:+ info_Name artifact))
                          (syncArtifactToS3 artifact)) artifacts;;
  map_err (EWrap "generating custom manifest") (at_host (generateCustomManifest artifacts)).
End Run.

(** Errors that name neither a missing bucket nor a refused access pass. *)
Definition validateS3Bucket (bucketName : string) : M Host unit :=
  r ← try (external (EvCall "s3:HeadBucket");; err ← gets (head_bucket bucketName); of_option err);
  match r with
  | Ok _ => mret tt
  | Err err =>
      let says := Contains (error_text err) in
      if says "NotFound" || says "NoSuchBucket" || says "MovedPermanently"
      then throw (ENew ("bucket '" +:+ bucketName +:+ "' does not exist"))
      else if says "Forbidden" || says "AccessDenied"
      then throw (ENew ("access denied to bucket '" +:+ bucketName +:+
                        "' - check your AWS credentials and bucket permissions"))
      else mret tt
  end.

Record SyncCommand := {
  sync_kubernetesVersion : string; sync_arch : string; sync_os : string; sync_region : string;
  sync_s3Bucket : string; sync_s3Prefix : string; sync_timeout : Z }.

Context `{Semver} (manifestUrl : string) (yaml_Unmarshal_manifest : string → result Manifest).

Definition Sync_Run (c : SyncCommand) : M Site unit :=
  awsSource ← at_host (GetLatestSource manifestUrl yaml_Unmarshal_manifest
                         (sync_kubernetesVersion c) (sync_region c));
  (if String.eqb (sync_s3Bucket c) "" then throw (ENew "--s3-bucket is required") else mret tt);;
  (if String.eqb (sync_s3Prefix c) "" then throw (ENew "--s3-prefix is required") else mret tt);;
  map_err (EWrap "failed to load AWS config")
    (at_host (external (EvCall "LoadDefaultConfig");;
              err ← gets (s3_config (sync_region c)); of_option err));;
  map_err (EWrap "S3 bucket validation failed") (at_host (validateS3Bucket (sync_s3Bucket c)));;
  now ← at_host (gets unix_now);
  Downloader_Run {| dl_AwsSource := awsSource; dl_Arch := sync_arch c; dl_OS := sync_os c;
    dl_Region := sync_region c; S3Bucket := sync_s3Bucket c; S3Prefix := sync_s3Prefix c;
    SyncTimestamp := now |}.
End Sync.

(** ** Properties *)

Section Properties.
Context `{Env} `{S3Env} (d : Downloader).

(** *** The keys *)

Definition local_paths : list string :=
  ((λ name, "eks/" +:+ name) <$> eks_names) ++ ["iam-ra/" +:+ signing_helper_name] ++
  ["ssm/ssm-setup-cli"; "ssm/ssm-setup-cli.sig"].

(** The keys an artifact is stored under. *)
Definition keys (a : ArtifactInfo) : list string :=
  [s3Key d a; s3Key d a +:+ ".sha256"].

Lemma collected_paths l :
  collectArtifacts d = Ok l → LocalPath <$> l `sublist_of` local_paths.
Proof using Type.
  unfold collectArtifacts. set (eks := omap _ _).
  set (iam := match findArtifact d (IamArtifacts _) _ with Some _ => _ | None => _ end).
  set (ssm := match getSSMInstallerURL d with Ok _ => _ | Err _ => _ end). intros E.
  assert (l = eks ++ iam ++ ssm) as -> by (destruct (eks ++ iam ++ ssm); [done|by injection E]).
  rewrite !fmap_app. unfold local_paths. repeat apply sublist_app.
  - unfold eks. clear. generalize eks_names. intros names.
    induction names as [|n names IH]; cbn; [done|].
    destruct (findArtifact d _ n); cbn; by constructor.
  - unfold iam. destruct (findArtifact d _ signing_helper_name); [done|apply sublist_nil_l].
  - unfold ssm. destruct (getSSMInstallerURL d); [done|apply sublist_nil_l].
Qed.

Lemma s3Key_inj a b : s3Key d a = s3Key d b → LocalPath a = LocalPath b.
Proof using Type. unfold s3Key. intros E%app_inj_l_str. by injection E. Qed.

(** No object is written over another. *)
Lemma keys_apart l a b :
  collectArtifacts d = Ok l → a ∈ l → b ∈ l → LocalPath a ≠ LocalPath b → s3Key d a ∉ keys b.
Proof using Type.
  intros El Ha Hb Hn. pose proof (collected_paths _ El) as Hs.
  assert (∀ x, x ∈ l → LocalPath x ∈ local_paths) as Hin.
  { intros x Hx. eapply elem_of_submseteq; [|by apply sublist_submseteq]. by apply list_elem_of_fmap_2. }
  assert (Forall (λ p, Forall (λ q, p ≠ q +:+ ".sha256") local_paths) local_paths) as HF
    by (apply (bool_decide_unpack _); vm_compute; exact I).
  rewrite Forall_forall in HF. specialize (HF _ (Hin _ Ha)). rewrite Forall_forall in HF.
  specialize (HF _ (Hin _ Hb)). unfold keys. rewrite !elem_of_cons, elem_of_nil.
  intros [E|[E|[]]]; [by apply Hn, s3Key_inj|]. apply HF. unfold s3Key in E.
  rewrite !app_assoc_str in E. apply app_inj_l_str in E. by injection E.
Qed.

(** *** Copying *)

Definition downloaded (url data : string) : Prop := ∃ h0, http_do h0 url = Ok (200, (data, None)).

Lemma streamToS3_spec url k st o st' :
  streamToS3 url k st = (o, st') →
  (∀ k', k' ≠ k → st'.2 !! k' = st.2 !! k') ∧ o ≠ Panic ∧
  (o = Return tt → ∃ data, downloaded url data ∧ st'.2 !! k = Some data).
Proof using Type.
  unfold streamToS3. destruct (bad_url url); [by intros [= <- <-]|].
  cbv [mbind M_bind map_err at_host http_get]. destruct st as [h b]. cbn [fst snd].
  destruct (http_do h url) as [[status [data e]]|e] eqn:Eh; cbn [fst snd]; [|by intros [= <- <-]].
  destruct (Z.eqb_spec status 200) as [->|]; cbn [negb]; [|by intros [= <- <-]].
  unfold Upload. cbn [fst snd]. destruct e as [e|]; [by intros [= <- <-]|].
  destruct (upload_fault _ k) as [[e []]|]; intros [= <- <-]; (split; [|split; [done|]]); try done;
    try (intros k' Hk; cbn [fst snd]; by rewrite lookup_insert_ne by congruence).
  intros _. exists data. split; [by exists h|]. cbn [fst snd]. by rewrite lookup_insert_eq.
Qed.

Definition published (b : gmap string string) (a : ArtifactInfo) : Prop :=
  ∃ data, downloaded (info_URL a) data ∧ b !! s3Key d a = Some data.

Lemma syncArtifactToS3_spec a st o st' :
  syncArtifactToS3 d a st = (o, st') →
  (∀ k, k ∉ keys a → st'.2 !! k = st.2 !! k) ∧ (o = Return tt → published st'.2 a).
Proof using Type.
  unfold syncArtifactToS3, keys. cbv [mbind M_bind map_err].
  destruct (streamToS3 (info_URL a) _ st) as [o1 st1] eqn:E1.
  apply streamToS3_spec in E1 as (K1 & _ & R1).
  assert (∀ k, k ∉ [s3Key d a; s3Key d a +:+ ".sha256"] → st1.2 !! k = st.2 !! k) as K
    by (intros k Hk; apply K1; set_solver).
  destruct o1 as [[]|e|]; [|by intros [= <- <-]..].
  specialize (R1 eq_refl) as (data & Hd & Hk1).
  destruct (negb _); cbn [when]; [|intros [= <- <-]; split; [done|]; intros _; by exists data].
  unfold try. destruct (streamToS3 _ (_ +:+ ".sha256") st1) as [o2 st2] eqn:E2.
  apply streamToS3_spec in E2 as (K2 & P2 & _). intros E.
  assert (st' = st2) as -> by (by destruct o2; injection E).
  split; [intros k Hk; rewrite K2 by set_solver; by apply K|].
  intros _. exists data. split; [done|]. rewrite K2; [done|].
  intros Hc%(f_equal String.length). rewrite length_app_str in Hc. cbn in Hc. lia.
Qed.

Lemma copy_all l st st' :
  (∀ a b, a ∈ l → b ∈ l → LocalPath a ≠ LocalPath b → s3Key d a ∉ keys b) → NoDup (LocalPath <$> l) →
  for_each (λ artifact, map_err (EWrap ("sync artifact " +:+ info_Name artifact))
                          (syncArtifactToS3 d artifact)) l st = (Return tt, st') →
  Forall (published st'.2) l ∧ (∀ k, (∀ a, a ∈ l → k ∉ keys a) → st'.2 !! k = st.2 !! k).
Proof using Type.
  revert st. induction l as [|a l IH]; intros st Hk Hn E; [by injection E as <-|].
  cbn [for_each] in E. apply bind_Return in E as ([] & st1 & E1%map_err_Return & E).
  apply syncArtifactToS3_spec in E1 as (K1 & P1). specialize (P1 eq_refl).
  cbn in Hn. apply NoDup_cons in Hn as [Hnin Hn].
  apply IH in E as (HF & K); [|by intros; apply Hk; [right..|]|done]. split.
  - constructor; [|done]. destruct P1 as (data & Hd & Hs). exists data. split; [done|].
    rewrite K; [done|]. intros b Hb. apply Hk; [by left|by right|].
    intros Eq. apply Hnin. rewrite Eq. by apply list_elem_of_fmap_2.
  - intros k Hnk. rewrite K by (intros b Hb; apply Hnk; by right). apply K1, Hnk. by left.
Qed.

(** *** What the manifest names *)

Definition entries (m : Manifest) : list ArtifactEntry :=
  (sr ← SupportedEksReleases m; r ← PatchReleases sr; Artifacts r) ++
  (r ← IamRolesAnywhereReleases m; IamArtifacts r) ++ (r ← SsmReleases m; SsmArtifacts r).

Definition bucket_url : string :=
  "https://" +:+ S3Bucket d +:+ ".s3." +:+ dl_Region d +:+ "." +:+ dns_suffix d +:+ "/".

Lemma entries_artifacts l e :
  e ∈ entries (customManifest d l) → ∃ a, a ∈ l ∧ e = awsArtifact d a.
Proof using Type.
  assert (∀ dir, e ∈ in_dir d dir l → ∃ a, a ∈ l ∧ e = awsArtifact d a) as Hd.
  { intros dir. unfold in_dir. intros (a & -> & Ha)%list_elem_of_fmap_1.
    apply elem_of_keep in Ha as [Ha _]. by exists a. }
  unfold entries, customManifest. cbn [SupportedEksReleases IamRolesAnywhereReleases SsmReleases].
  rewrite !elem_of_app. intros [He|[He|He]].
  - cbn in He. rewrite !app_nil_r in He. by apply Hd in He.
  - apply (Hd "iam-ra/"). destruct (in_dir d "iam-ra/" l); [done|]. cbn in He. by rewrite app_nil_r in He.
  - apply (Hd "ssm/"). destruct (in_dir d "ssm/" l); [done|]. cbn in He. by rewrite app_nil_r in He.
Qed.

(** C26. A sync that succeeds leaves a manifest that can be relied on: the
    file written is the encoding of the manifest of the artifacts collected,
    and each artifact it names, of whichever release, has the URL of an
    object in the bucket which holds exactly what a request for the
    original URL answered; no copy has been written over another.  (A
    checksum named in the manifest may be missing: failing to copy one is
    only a warning.) *)
Theorem sync_published st st' :
  Downloader_Run d st = (Return tt, st') →
  ∃ l yaml, collectArtifacts d = Ok l ∧ yaml_Marshal (customManifest d l) = Ok yaml ∧
    read_file (fs st'.1) (manifest_name d) = Ok yaml ∧
    ∀ e, e ∈ entries (customManifest d l) → ∃ a data,
      a ∈ l ∧ Name e = info_Name a ∧ URI e = bucket_url +:+ s3Key d a ∧
      downloaded (info_URL a) data ∧ st'.2 !! s3Key d a = Some data.
Proof using Type.
  intros E. apply bind_Return in E as (l & st1 & E1%map_err_Return & E).
  unfold of_result in E1. destruct (collectArtifacts d) as [l'|] eqn:El; [|done]. injection E1 as -> <-.
  apply bind_Return in E as ([] & st2 & E2 & E3%map_err_Return).
  apply copy_all in E2 as (HF & _); [|by intros a b; apply keys_apart|].
  2:{ eapply sublist_NoDup; [|by apply collected_paths]. apply (bool_decide_unpack _). vm_compute. exact I. }
  unfold at_host in E3. destruct (generateCustomManifest d l st2.1) as [o h3] eqn:Eg. injection E3 as -> <-.
  apply bind_Return in Eg as (yaml & h4 & E4%map_err_Return & E5%map_err_Return).
  unfold of_result in E4. destruct (yaml_Marshal _) as [y|] eqn:Ey; [|done]. injection E4 as -> <-.
  apply os_WriteFile_Return in E5 as (Hr & _).
  exists l, yaml. split; [done|]. split; [done|]. split; [exact Hr|].
  intros e (a & Ha & ->)%entries_artifacts. rewrite Forall_forall in HF.
  destruct (HF _ Ha) as (data & Hd & Hs). exists a, data.
  split; [done|]. split; [done|]. split; [|done].
  cbn. unfold baseS3URL, bucket_url, s3Key. by rewrite !app_assoc_str.
Qed.

(** *** Reading the manifest back *)

Lemma findArtifact_rebased a l name :
  findArtifact d (awsArtifact d a :: l) name =
    if String.eqb (info_Name a) name then Some (awsArtifact d a) else findArtifact d l name.
Proof using Type. cbn. by rewrite !String.eqb_refl, !andb_true_r. Qed.

Definition rebased (dir name : string) (e : ArtifactEntry) : ArtifactEntry :=
  awsArtifact d (info name dir e).

Lemma findArtifact_missing dir es names name :
  name ∉ names →
  findArtifact d (awsArtifact d <$> omap (λ n, info n dir <$> findArtifact d es n) names) name = None.
Proof using Type.
  induction names as [|n names IH]; [done|]. rewrite not_elem_of_cons. intros [Hn Hr]. cbn [omap list_omap].
  destruct (findArtifact d es n) as [e|]; cbn [fmap option_fmap option_map]; [|by apply IH].
  rewrite fmap_cons, findArtifact_rebased. cbn [info info_Name]. destruct (String.eqb_spec n name); [congruence|].
  by apply IH.
Qed.

Lemma findArtifact_copied dir es names name :
  NoDup names → name ∈ names →
  findArtifact d (awsArtifact d <$> omap (λ n, info n dir <$> findArtifact d es n) names) name =
    rebased dir name <$> findArtifact d es name.
Proof using Type.
  induction names as [|n names IH]; [by intros _ ?%not_elem_of_nil|].
  rewrite NoDup_cons, elem_of_cons. intros [Hn Hd] Hin. cbn [omap list_omap].
  destruct (decide (n = name)) as [->|Hne].
  - destruct (findArtifact d es name) as [e|] eqn:Ee; cbn [fmap option_fmap option_map].
    + rewrite fmap_cons, findArtifact_rebased. cbn [info info_Name]. by rewrite String.eqb_refl.
    + by apply findArtifact_missing.
  - assert (name ∈ names) as Hin' by naive_solver.
    destruct (findArtifact d es n) as [e|]; cbn [fmap option_fmap option_map]; [|by apply IH].
    rewrite fmap_cons, findArtifact_rebased. cbn [info info_Name]. destruct (String.eqb_spec n name); [done|].
    by apply IH.
Qed.

Lemma Forall_copied (P : ArtifactInfo → Prop) dir es names :
  (∀ n e, P (info n dir e)) → Forall P (omap (λ n, info n dir <$> findArtifact d es n) names).
Proof using Type.
  intros HP. induction names as [|n names IH]; cbn; [done|].
  destruct (findArtifact d es n); cbn; [by constructor|done].
Qed.

Lemma collected_dirs l :
  collectArtifacts d = Ok l →
  in_dir d "eks/" l = awsArtifact d <$>
    omap (λ n, info n "eks/" <$> findArtifact d (Artifacts (Eks (dl_AwsSource d))) n) eks_names ∧
  in_dir d "iam-ra/" l = awsArtifact d <$>
    omap (λ n, info n "iam-ra/" <$> findArtifact d (IamArtifacts (Iam (dl_AwsSource d))) n) [signing_helper_name].
Proof using Type.
  unfold collectArtifacts, in_dir. set (eks := omap _ eks_names).
  set (iam := match findArtifact d (IamArtifacts _) _ with Some _ => _ | None => _ end).
  set (iam' := omap _ [signing_helper_name]).
  assert (iam = iam') as -> by (unfold iam, iam'; cbn; by destruct (findArtifact d _ signing_helper_name)).
  set (ssm := match getSSMInstallerURL d with Ok _ => _ | Err _ => _ end). intros E.
  assert (l = eks ++ iam' ++ ssm) as -> by (destruct (eks ++ iam' ++ ssm); [done|by injection E]).
  rewrite !keep_app.
  assert (∀ dir : string, HasPrefix "ssm/ssm-setup-cli" dir = false → HasPrefix "ssm/ssm-setup-cli.sig" dir = false →
    keep (λ a, HasPrefix (LocalPath a) dir) ssm = []) as Hssm.
  { intros dir H1 H2. unfold ssm. destruct (getSSMInstallerURL d); cbn [keep LocalPath]; [by rewrite H1, H2|done]. }
  split; rewrite Hssm, app_nil_r by done.
  - rewrite (keep_all _ eks), (proj2 (keep_nil_iff _ iam')), app_nil_r; [done|apply Forall_copied; done|].
    apply Forall_copied. intros n e. apply (HasPrefix_app "eks/").
  - rewrite (keep_all _ iam'), (proj2 (keep_nil_iff _ eks)); [done|apply Forall_copied; done|].
    apply Forall_copied. intros n e. apply (HasPrefix_app "iam-ra/").
Qed.

Lemma getSource_find `{Semver} sha256 gunzip name l :
  getSource (dl_Arch d) (dl_OS d) sha256 gunzip name l =
    match findArtifact d l name with
    | Some a => open_artifact sha256 gunzip a
    | None => throw (ENew ("could not find artifact for " +:+ dl_Arch d +:+ " arch and " +:+ dl_OS d +:+ " os"))
    end.
Proof using Type.
  induction l as [|a l IH]; [done|]. cbn [getSource findArtifact]. unfold entry_matches. by destruct (_ && _).
Qed.

(** The one release of the custom manifest answers what the original did. *)
Lemma customManifest_release `{Semver} version m0 l :
  let eks := Eks (dl_AwsSource d) in
  getSourceFromManifest version (dl_Region d) m0 = Ok (dl_AwsSource d) →
  RemoveByte "v" (semver_MajorMinor ("v" +:+ Version eks)) = extractMajorMinor (Version eks) →
  getLatestEksSource version (customManifest d l) =
    Ok {| Version := Version eks; PatchVersion := PatchVersion eks; ReleaseDate := ReleaseDate eks;
          Artifacts := in_dir d "eks/" l |} ∧
  validateKubernetesVersionMatch version (Version eks) = Ok tt.
Proof using Type.
  intros eks Hs Hmm. destruct (getSourceFromManifest_spec _ _ _ _ Hs) as (Ha & Hr & _).
  unfold getSourceFromManifest in Hs. destruct (getLatestEksSource version m0) as [eks'|] eqn:HL; [|done].
  cbn in Hs. destruct (validateKubernetesVersionMatch version (Version eks')) as [[]|] eqn:HV; [|done].
  cbn in Hs. destruct (wrap_err _ (getLatestIamRolesAnywhereSource m0)) as [iam|]; [|done]. cbn in Hs.
  destruct (RegionConfig m0 !! dl_Region d) as [rc|]; [|done].
  assert (eks' = eks) as -> by (unfold eks; injection Hs as <-; done). split; [|done].
  unfold getLatestEksSource in HL |- *. destruct (String.eqb version ""); [done|].
  destruct (negb (semver_IsValid _)); [done|]. clear HL Hs.
  fold eks in Ha, Hr. unfold answers in Ha.
  assert ((split_version version).1 = RemoveByte "v" (semver_MajorMinor ("v" +:+ version))) as Hsp
    by (unfold split_version; destruct (CutPrefix _ _) as [? []]; done).
  destruct (split_version version) as [mm patch]. cbn [fst snd] in *.
  assert (matchedPatchReleases mm patch (customManifest d l) =
    [{| Version := Version eks; PatchVersion := PatchVersion eks; ReleaseDate := ReleaseDate eks;
        Artifacts := in_dir d "eks/" l |}]) as ->; [|done].
  unfold matchedPatchReleases, customManifest. cbn [SupportedEksReleases mbind list_bind].
  fold eks. cbn [MajorMinorVersion PatchReleases LatestPatchVersion keep PatchVersion].
  rewrite <- Hmm, <- Hr, <- Hsp, String.eqb_refl, app_nil_r.
  destruct Ha as (sr & _ & _ & _ & Hp). destruct patch as [p|]; cbn [default from_option] in *.
  - by rewrite Hp, String.eqb_refl.
  - by rewrite String.eqb_refl.
Qed.

(** C37. A private installation from the manifest of a sync gets the release
    that was synced.  When the source came from a release manifest for the
    version asked for, that version is well formed, so that the sync and
    semver read the same major and minor version in it, and a signing helper for
    the architecture was among the artifacts (without one
    [no_signing_helper_unusable] applies), the
    same version resolves in the custom manifest to the same EKS and IAM
    releases with the same dates, and a node of the synced architecture and
    system opens, for each artifact it knows, the copy of the original
    artifact (not a gzipped form of it, which is not copied). *)
Theorem sync_roundtrip `{Semver} sha256 gunzip version m0 l signer :
  getSourceFromManifest version (dl_Region d) m0 = Ok (dl_AwsSource d) →
  RemoveByte "v" (semver_MajorMinor ("v" +:+ Version (Eks (dl_AwsSource d)))) =
    extractMajorMinor (Version (Eks (dl_AwsSource d))) →
  collectArtifacts d = Ok l →
  findArtifact d (IamArtifacts (Iam (dl_AwsSource d))) signing_helper_name = Some signer →
  ∃ s, getSourceFromManifest version (dl_Region d) (customManifest d l) = Ok s ∧
    Version (Eks s) = Version (Eks (dl_AwsSource d)) ∧
    ReleaseDate (Eks s) = ReleaseDate (Eks (dl_AwsSource d)) ∧
    IamVersion (Iam s) = IamVersion (Iam (dl_AwsSource d)) ∧
    (∀ name e, name ∈ eks_names → findArtifact d (Artifacts (Eks (dl_AwsSource d))) name = Some e →
       getEksSource (dl_Arch d) (dl_OS d) sha256 gunzip s name =
         open_artifact sha256 gunzip (rebased "eks/" name e)) ∧
    aws_GetSigningHelper (dl_Arch d) (dl_OS d) sha256 gunzip s =
      open_artifact sha256 gunzip (rebased "iam-ra/" signing_helper_name signer).
Proof using Type.
  intros Hs Hmm El Hsign. destruct (collected_dirs _ El) as [Heks Hiam].
  pose proof (customManifest_release version m0 l Hs Hmm) as HE.
  assert (in_dir d "iam-ra/" l = [rebased "iam-ra/" signing_helper_name signer]) as Hi
    by (rewrite Hiam; cbn [omap list_omap]; by rewrite Hsign).
  assert (getLatestIamRolesAnywhereSource (customManifest d l) =
    Ok {| IamVersion := IamVersion (Iam (dl_AwsSource d)); IamArtifacts := in_dir d "iam-ra/" l |}) as HI.
  { unfold getLatestIamRolesAnywhereSource, customManifest. cbn [IamRolesAnywhereReleases].
    rewrite Hi. cbn. by destruct (_ <? 0). }
  destruct (getSourceFromManifest version (dl_Region d) (customManifest d l)) as [s|e] eqn:Es.
  2:{ unfold getSourceFromManifest in Es. destruct HE as [HE HV]. rewrite HE in Es. cbn in Es.
      rewrite HV in Es. cbn in Es. rewrite HI in Es. cbn in Es. by rewrite lookup_singleton_eq in Es. }
  unfold getSourceFromManifest in Es. destruct HE as [HE HV]. rewrite HE in Es. cbn in Es.
  rewrite HV in Es. cbn in Es. rewrite HI in Es. cbn in Es. rewrite lookup_singleton_eq in Es.
  injection Es as <-. eexists. split; [done|]. cbn [Eks Iam IamVersion Version ReleaseDate].
  split; [done|]. split; [done|]. split; [done|]. split.
  - intros name e Hn He. unfold getEksSource. rewrite getSource_find. cbn [Eks Artifacts].
    rewrite Heks, findArtifact_copied, He by (done || apply (bool_decide_unpack _); vm_compute; exact I). done.
  - unfold aws_GetSigningHelper. rewrite getSource_find. cbn [Iam IamArtifacts]. rewrite Hi.
    unfold rebased. rewrite findArtifact_rebased. cbn [info info_Name]. by rewrite String.eqb_refl.
Qed.

(** The manifest of a sync that found no signing helper, for the node's
    architecture, names no release of it and cannot be read back. *)
Theorem no_signing_helper_unusable `{Semver} version region l :
  collectArtifacts d = Ok l →
  findArtifact d (IamArtifacts (Iam (dl_AwsSource d))) signing_helper_name = None →
  is_ok (getSourceFromManifest version region (customManifest d l)) = false.
Proof using Type.
  intros El Hn. destruct (collected_dirs _ El) as [_ Hiam].
  assert (in_dir d "iam-ra/" l = []) as Hi by (rewrite Hiam; cbn [omap list_omap]; by rewrite Hn).
  unfold getSourceFromManifest.
  destruct (getLatestEksSource version _) as [eks|]; [|done]. cbn.
  destruct (validateKubernetesVersionMatch _ _) as [[]|]; [|done]. cbn.
  unfold getLatestIamRolesAnywhereSource, customManifest. cbn [IamRolesAnywhereReleases]. by rewrite Hi.
Qed.
End Properties.

(** *** A release of the kubelet and the signing helper *)

Example file_of (name : string) : ArtifactEntry :=
  {| Name := name; Arch := "amd64"; OS := "linux"; URI := "https://a/" +:+ name;
     ChecksumURI := "https://a/" +:+ name +:+ ".sha256"; GzipURI := "" |}.
Example source_131 : AwsSource := {|
  Eks := {| Version := "1.31.2"; PatchVersion := "2"; ReleaseDate := "2025-01-02"; Artifacts := [file_of "kubelet"] |};
  Iam := {| IamVersion := "v1.2.0"; IamArtifacts := [file_of "aws_signing_helper"] |};
  RegionInfo := {| EcrAccountID := "1"; Partition := "aws"; DnsSuffix := "amazonaws.com"; CredProviders := ∅ |} |}.
Example manifest_131 : Manifest := {|
  SupportedEksReleases := [{| MajorMinorVersion := "1.31"; LatestPatchVersion := "2"; PatchReleases := [Eks source_131] |}];
  IamRolesAnywhereReleases := [Iam source_131];
  SsmReleases := [];
  RegionConfig := {["us-west-2" := RegionInfo source_131]} |}.
Example sync_131 : Downloader := {|
  dl_AwsSource := source_131; dl_Arch := "amd64"; dl_OS := "linux"; dl_Region := "us-west-2";
  S3Bucket := "private"; S3Prefix := "deps/"; SyncTimestamp := 1700000000 |}.
Example open_bucket : S3Env := {|
  upload_fault _ _ := None; head_bucket _ _ := None; s3_config _ _ := None;
  unix_now _ := 1700000000; http_status _ := ""; yaml_Marshal _ := Ok "manifest" |}.
Example work_dir : Site :=
  ({| fs := {["." := Dir 493]}; tracker := no_artifacts; journal := []; provider := no_provider |}, ∅).

Lemma sync_published_witness :
  ∃ st', Downloader_Run (H := checksum_everywhere) (H0 := open_bucket) sync_131 work_dir = (Return tt, st') ∧
    read_file (fs st'.1) "manifest-1.31.2-amd64-linux-1700000000.yaml" = Ok "manifest".
Proof.
  destruct (Downloader_Run (H := checksum_everywhere) (H0 := open_bucket) sync_131 work_dir)
    as [o st'] eqn:E.
  assert (o = Return tt) as -> by (change o with (o, st').1; rewrite <- E; vm_compute; reflexivity).
  exists st'. split; [reflexivity|].
  destruct (sync_published (H := checksum_everywhere) (H0 := open_bucket) sync_131 _ _ E)
    as (l & yaml & _ & Hy & Hr & _).
  injection Hy as <-. exact Hr.
Defined.

Lemma sync_roundtrip_witness :
  ∃ l s, collectArtifacts sync_131 = Ok l ∧
    getSourceFromManifest "1.31" "us-west-2" (customManifest sync_131 l) = Ok s ∧
    Version (Eks s) = "1.31.2" ∧
    URI (rebased sync_131 "eks/" "kubelet" (file_of "kubelet")) =
      "https://private.s3.us-west-2.amazonaws.com/deps/1700000000/eks/kubelet".
Proof.
  destruct (collectArtifacts sync_131) as [l|e] eqn:El; [|vm_compute in El; discriminate El].
  destruct (sync_roundtrip sync_131 (λ s, s) (λ b, Ok b) "1.31" manifest_131 l (file_of "aws_signing_helper"))
    as (s & Hs & Hv & _); [vm_compute; reflexivity|vm_compute; reflexivity|exact El|vm_compute; reflexivity|].
  exists l, s. split; [reflexivity|]. split; [exact Hs|]. split; [exact Hv|]. vm_compute. reflexivity.
Defined.
