(* ===== verification/ConfigSource.v ===== *)
(** * Where the configuration of a node comes from (internal/configprovider,
      internal/api/merge.go, internal/api/bridge/decode.go,
      internal/node/node.go, cmd/nodeadm/config/check.go)

    A file, decoded strictly, or the user data of the instance, of which
    every part that is a NodeConfig is decoded and merged in order; then
    the provider for the kind of node it describes.  URL, mail and
    multipart parsing, the decoders and mergo are outside code. *)

From S2P Require Import Prelude GoStrings Host Tracker Semver Api Daemon Validation Network Aspects Flows.
From S2P Require Import Retry ContainerdDaemon KubeletConfig KubeletDaemon Credentials KubeAccess HybridProvider Ec2Provider.
#[local] Open Scope Z_scope.

(** A part of a multipart document: its Content-Type header, empty when
    there is none, and what reading it gives. *)
Record Part := { part_ContentType : string; part_data : result string }.

Class ConfigEnv := {
  (** [url.Parse]: scheme, host and path. *)
  url_Parse : string → result (string * string * string);
  user_data : Host → result string;
  (** [mail.ReadMessage]: the Content-Type header and the body. *)
  mail_ReadMessage : string → result (string * string);
  (** [mime.ParseMediaType]: the type and its parameters. *)
  ParseMediaType : string → result (string * gmap string string);
  (** What [NextPart] gives for a boundary and a body until the end. *)
  multipart_parts : string → string → list (result Part);
  (** The universal decoder: kind, group and the object, or its type when it
      is not the internal NodeConfig. *)
  UniversalDecode : string → result (string * string * (string + NodeConfig));
  yaml_UnmarshalStrict : string → result NodeConfig;
  (** JSON documents. *)
  json : Type;
  json_Unmarshal_value : string → result json;
  json_Marshal_value : json → result string;
  (** [mergo.Merge] with override, of JSON objects. *)
  mergo_maps : gmap string json → gmap string json → result (gmap string json);
  (** [mergo.Merge] with override and a transformer, of configurations. *)
  mergo_Merge : (KubeletOptions → KubeletOptions → result KubeletOptions) →
    NodeConfig → NodeConfig → result NodeConfig;
}.

Section Config.
Context `{Env} `{ConfigEnv}.

(** ** Merging (merge.go, util/merge.go) *)

Definition each {A B} (f : A → result B) (m : gmap string A) : result (gmap string B) :=
  l ← mapM (λ kv, b ← f kv.2; Ok (kv.1, b)) (map_to_list m); Ok (list_to_map l).

Definition DocumentMerge (a b : gmap string string) : result (gmap string json) :=
  aMap ← each json_Unmarshal_value a;
  bMap ← each json_Unmarshal_value b;
  mergo_maps aMap bMap.
Definition toInlineDocument (m : gmap string json) : result (gmap string string) :=
  each json_Marshal_value m.

Definition transformFlags (dst src : list string) : list string := dst ++ src.
Definition transformConfig (dst src : gmap string string) : result (gmap string string) :=
  if bool_decide (dst = ∅) then Ok src
  else if bool_decide (src = ∅) then Ok dst
  else mergedMap ← DocumentMerge dst src; toInlineDocument mergedMap.
Definition kubeletTransformer (dst src : KubeletOptions) : result KubeletOptions :=
  config ← transformConfig (Config dst) (Config src);
  Ok {| Config := config; Flags := transformFlags (Flags dst) (Flags src) |}.

Definition MergeConfig (dst src : NodeConfig) : result NodeConfig :=
  mergo_Merge kubeletTransformer dst src.

(** ** Decoding (bridge/decode.go) *)

Definition KindNodeConfig : string := "NodeConfig".
Definition GroupName : string := "node.eks.aws".
Definition DecodeNodeConfig (data : string) : result NodeConfig :=
  '(kind, group, obj) ← UniversalDecode data;
  if negb (String.eqb kind KindNodeConfig)
  then Err (ENew ("failed to decode " +:+ quoted kind +:+ " (wrong Kind)"))
  else if negb (String.eqb group GroupName)
  then Err (ENew ("failed to decode " +:+ quoted kind +:+ ", unexpected group: " +:+ group))
  else match obj with
       | inr internalConfig => Ok internalConfig
       | inl type => Err (ENew ("unable to convert " +:+ type +:+ " to internal NodeConfig"))
       end.
Definition DecodeStrictNodeConfig (data : string) : result NodeConfig := yaml_UnmarshalStrict data.

(** ** A file (file.go) *)

Definition file_Provide (path : string) : M Host NodeConfig :=
  sys (EvRead path) (λ f, if is_dir f path then Ok f else
    match f !! path with Some _ => Ok f | None => Err (ENotExist path) end);;
  f ← gets fs;
  if is_dir f path
  then throw (ENew ("path is a directory, which is not currently supported: " +:+ path))
  else data ← of_result (read_file f path);
       of_result (DecodeStrictNodeConfig data).

(** ** User data (userdata.go, imds.go) *)

Definition nodeConfigMediaType : string := "application/" +:+ GroupName.

Definition getMIMEMultipartReader (data : string) : result (list (result Part)) :=
  '(contentType, body) ← mail_ReadMessage data;
  '(mediaType, params) ← ParseMediaType contentType;
  if negb (HasPrefix mediaType "multipart/") then Err (ENew "MIME type is not multipart")
  else Ok (multipart_parts (default "" (params !! "boundary")) body).

(** The configurations of the parts that have their media type. *)
Fixpoint node_configs (parts : list (result Part)) : result (list NodeConfig) :=
  match parts with
  | [] => Ok []
  | part :: parts =>
      part ← part;
      if String.eqb (part_ContentType part) "" then node_configs parts
      else
        '(mediaType, _) ← ParseMediaType (part_ContentType part);
        if negb (String.eqb mediaType nodeConfigMediaType) then node_configs parts
        else
          nodeConfigPart ← part_data part;
          decodedConfig ← DecodeNodeConfig nodeConfigPart;
          nodeConfigs ← node_configs parts;
          Ok (decodedConfig :: nodeConfigs)
  end.

Fixpoint merge_all (config : NodeConfig) (nodeConfigs : list NodeConfig) : result NodeConfig :=
  match nodeConfigs with
  | [] => Ok config
  | nodeConfig :: nodeConfigs => config ← MergeConfig config nodeConfig; merge_all config nodeConfigs
  end.

Definition parseMultipart (parts : list (result Part)) : result NodeConfig :=
  nodeConfigs ← node_configs parts;
  match nodeConfigs with
  | config :: rest => merge_all config rest
  | [] => Err (ENew "Could not find NodeConfig within UserData")
  end.

(** What is not a multipart document is decoded as a whole. *)
Definition userdata_config (userData : string) : result NodeConfig :=
  match getMIMEMultipartReader userData with
  | Ok parts => parseMultipart parts
  | Err _ => DecodeNodeConfig userData
  end.
Definition GetUserData : M Host string := call "imds:GetUserData" user_data.
Definition userdata_Provide : M Host NodeConfig :=
  userData ← GetUserData; of_result (userdata_config userData).

(** ** Choosing the source (factory.go) *)

Definition BuildConfigProvider (rawConfigSourceURL : string) : result (M Host NodeConfig) :=
  '(scheme, host, path) ← url_Parse rawConfigSourceURL;
  if String.eqb scheme "imds" then Ok userdata_Provide
  else if String.eqb scheme "file" then Ok (file_Provide (host +:+ path))
  else Err (ENew ("unsupported scheme: " +:+ scheme)).
Definition read_config (configSource : string) : M Host NodeConfig :=
  provide ← of_result (BuildConfigProvider configSource); provide.

(** ** The provider of the node (node.go) *)

Section Provider.
Context `{Semver} `{BackoffLoop} `{KubeletEnv} `{MapOrder} `{ImageService}
        `{CloudEnv} `{ClusterEnv} `{HybridEnv} `{Ec2Env}.
Context (connect : M Host DaemonManager) (network : Network.Network)
        (interfaces : M Host (list Interface)) (printer : Informer Host).

Definition NewNodeProvider (configSource : string) (skipPhases : list string) : M Host NodeProvider :=
  nodeConfig ← read_config configSource;
  if IsHybridNode nodeConfig
  then NewHybridNodeProvider connect network interfaces printer nodeConfig skipPhases
  else NewEc2NodeProvider connect printer nodeConfig.

(** ** nodeadm config check

    The source is read twice, and the defaults are not filled in. *)
Definition Check_Run (configSource : string) : M Host unit :=
  read_config configSource;;
  nodeProvider ← NewNodeProvider configSource [];
  ValidateConfig nodeProvider.
End Provider.

(** ** Properties *)

(** The parts that are NodeConfigs. *)
Definition is_node_part (p : Part) : bool :=
  negb (String.eqb (part_ContentType p) "") &&
  match ParseMediaType (part_ContentType p) with
  | Ok (mediaType, _) => String.eqb mediaType nodeConfigMediaType
  | Err _ => false
  end.
Definition node_parts (parts : list (result Part)) : list Part :=
  omap (λ r, match r with Ok p => if is_node_part p then Some p else None | Err _ => None end) parts.

Definition decodes_to (p : Part) (cfg : NodeConfig) : Prop :=
  ∃ data, part_data p = Ok data ∧ DecodeNodeConfig data = Ok cfg.

Lemma node_configs_spec parts cfgs :
  node_configs parts = Ok cfgs → Forall2 decodes_to (node_parts parts) cfgs.
Proof using Type.
  revert cfgs. induction parts as [|r parts IH]; intros cfgs E; [injection E as <-; constructor|].
  cbn [node_configs] in E. apply result_bind_Ok in E as (p & -> & E).
  unfold node_parts. cbn [omap list_omap]. unfold is_node_part.
  destruct (String.eqb (part_ContentType p) ""); cbn [negb andb]; [by apply IH|].
  apply result_bind_Ok in E as ([mediaType params] & EM & E). rewrite EM.
  destruct (String.eqb mediaType nodeConfigMediaType); cbn [negb] in E; [|by apply IH].
  apply result_bind_Ok in E as (data & ED & E). apply result_bind_Ok in E as (cfg & EC & E).
  apply result_bind_Ok in E as (rest & ER & E). injection E as <-.
  constructor; [by exists data|by apply IH].
Qed.

Lemma transformConfig_empty_l src : transformConfig ∅ src = Ok src.
Proof using Type. unfold transformConfig. by rewrite bool_decide_true. Qed.
Lemma transformConfig_empty_r dst : transformConfig dst ∅ = Ok dst.
Proof using Type.
  unfold transformConfig. case_bool_decide as Hd; [by subst|]. by rewrite bool_decide_true.
Qed.

Section Merging.
(** What mergo documents of a transformer: where the type it is for is met,
    it does the merging. *)
Hypothesis mergo_transforms : ∀ transform dst src r,
  mergo_Merge transform dst src = Ok r →
  transform (spec_Kubelet (Spec dst)) (spec_Kubelet (Spec src)) = Ok (spec_Kubelet (Spec r)).

Lemma MergeConfig_kubelet dst src r :
  MergeConfig dst src = Ok r →
  Flags (spec_Kubelet (Spec r)) = Flags (spec_Kubelet (Spec dst)) ++ Flags (spec_Kubelet (Spec src)) ∧
  transformConfig (Config (spec_Kubelet (Spec dst))) (Config (spec_Kubelet (Spec src))) =
    Ok (Config (spec_Kubelet (Spec r))).
Proof using Type*.
  intros E%mergo_transforms. unfold kubeletTransformer in E.
  apply result_bind_Ok in E as (config & EC & E). injection E as E. rewrite <- E. done.
Qed.

Lemma merge_all_kubelet cfg cfgs r :
  merge_all cfg cfgs = Ok r →
  Flags (spec_Kubelet (Spec r)) =
    Flags (spec_Kubelet (Spec cfg)) ++ concat ((λ c, Flags (spec_Kubelet (Spec c))) <$> cfgs) ∧
  (Forall (λ c, Config (spec_Kubelet (Spec c)) = ∅) cfgs →
     Config (spec_Kubelet (Spec r)) = Config (spec_Kubelet (Spec cfg))) ∧
  (Config (spec_Kubelet (Spec cfg)) = ∅ → ∀ pre c post, cfgs = pre ++ c :: post →
     Forall (λ c, Config (spec_Kubelet (Spec c)) = ∅) (pre ++ post) →
     Config (spec_Kubelet (Spec r)) = Config (spec_Kubelet (Spec c))).
Proof using Type*.
  revert cfg. induction cfgs as [|c cfgs IH]; intros cfg E.
  { injection E as <-. rewrite app_nil_r. split; [done|]. split; [done|]. intros _ [|? ?] ? ? [=]. }
  cbn [merge_all] in E. apply result_bind_Ok in E as (m & EM & E).
  apply MergeConfig_kubelet in EM as [Hf Hc]. apply IH in E as (IF & IE & IC).
  split; [rewrite IF, Hf; by rewrite <- app_assoc|]. split.
  - intros [He HF]%Forall_cons. rewrite IE by done. rewrite He, transformConfig_empty_r in Hc. by injection Hc.
  - intros Hd pre c' post Hs HF. rewrite Hd, transformConfig_empty_l in Hc. injection Hc as Hc.
    destruct pre as [|p pre]; injection Hs as -> ->.
    + rewrite IE by done. by rewrite Hc.
    + apply Forall_cons in HF as [Hp HF]. eapply IC; [by rewrite <- Hc|done|done].
Qed.

(** C38. The configuration from a multipart user data is made of its NodeConfig
    parts and of nothing else, in their order: each decodes, the kubelet
    flags are those of all the parts, one after another, so that the flags of
    a later part win where the kubelet takes the last, and a kubelet
    document given in one part only arrives unchanged.  There is at least
    one such part. *)
Theorem userdata_parts parts cfg :
  parseMultipart parts = Ok cfg →
  ∃ cfgs, cfgs ≠ [] ∧ Forall2 decodes_to (node_parts parts) cfgs ∧
    Flags (spec_Kubelet (Spec cfg)) = concat ((λ c, Flags (spec_Kubelet (Spec c))) <$> cfgs) ∧
    ∀ pre c post, cfgs = pre ++ c :: post →
      Forall (λ c, Config (spec_Kubelet (Spec c)) = ∅) (pre ++ post) →
      Config (spec_Kubelet (Spec cfg)) = Config (spec_Kubelet (Spec c)).
Proof using Type*.
  unfold parseMultipart. intros E. apply result_bind_Ok in E as (cfgs & EN & E).
  apply node_configs_spec in EN. destruct cfgs as [|c0 rest]; [done|].
  apply merge_all_kubelet in E as (HF & HE & HC).
  exists (c0 :: rest). split; [done|]. split; [done|]. split; [by rewrite HF|].
  intros pre c post Hs Hn. destruct pre as [|p pre]; injection Hs as -> ->; [by apply HE|].
  apply Forall_cons in Hn as [Hp Hn]. by eapply HC.
Qed.
End Merging.
End Config.

(** *** Two parts among three *)

Example flags_config (flags : list string) : NodeConfig :=
  {| Spec := {| Cluster := Cluster (Spec empty_config); spec_Containerd := spec_Containerd (Spec empty_config);
       spec_Instance := spec_Instance (Spec empty_config);
       spec_Kubelet := {| Config := ∅; Flags := flags |}; Hybrid := Hybrid (Spec empty_config) |};
     Status := Status empty_config |}.
Example flag_documents : ConfigEnv := {|
  url_Parse _ := Ok ("imds", "", ""); user_data _ := Ok "";
  mail_ReadMessage _ := Ok ("", ""); ParseMediaType s := Ok (s, ∅);
  multipart_parts _ _ := [];
  UniversalDecode s := Ok (KindNodeConfig, GroupName, inr (flags_config [s]));
  yaml_UnmarshalStrict s := Ok (flags_config [s]);
  json := string; json_Unmarshal_value s := Ok s; json_Marshal_value s := Ok s;
  mergo_maps a b := Ok (b ∪ a);
  mergo_Merge t dst src :=
    k ← t (spec_Kubelet (Spec dst)) (spec_Kubelet (Spec src));
    Ok {| Spec := {| Cluster := Cluster (Spec dst); spec_Containerd := spec_Containerd (Spec dst);
            spec_Instance := spec_Instance (Spec dst); spec_Kubelet := k; Hybrid := Hybrid (Spec dst) |};
          Status := Status dst |} |}.
Example three_parts : list (result Part) :=
  [Ok {| part_ContentType := nodeConfigMediaType; part_data := Ok "--v=2" |};
   Ok {| part_ContentType := "text/x-shellscript"; part_data := Ok "echo" |};
   Ok {| part_ContentType := nodeConfigMediaType; part_data := Ok "--v=4" |}].

Lemma userdata_parts_witness :
  ∃ cfg cfgs, parseMultipart (H0 := flag_documents) three_parts = Ok cfg ∧
    Flags (spec_Kubelet (Spec cfg)) = ["--v=2"; "--v=4"] ∧
    Forall2 (decodes_to (H0 := flag_documents)) (node_parts (H0 := flag_documents) three_parts) cfgs.
Proof.
  destruct (parseMultipart (H0 := flag_documents) three_parts) as [cfg|e] eqn:E; [|vm_compute in E; discriminate E].
  destruct (userdata_parts (H0 := flag_documents)) with (2 := E) as (cfgs & _ & HF & _).
  - intros t dst src r. cbn. destruct (t _ _); [|discriminate]. intros [= <-]. reflexivity.
  - exists cfg, cfgs. split; [reflexivity|]. split; [|exact HF].
    vm_compute in E. injection E as <-. reflexivity.
Defined.
