(* ===== verification/Debug.v ===== *)
(** * Diagnosing a node (internal/nodevalidator, cmd/nodeadm/debug)

    The validators that wait for the node to register and to become ready,
    and the debug command, which runs the validators of the other parts one
    after another.  What the printer writes while stderr is captured is the
    subject of Capture.v. *)

From S2P Require Import Prelude GoStrings Host Tracker Semver Api Daemon Validation Validators Swap Network Proxy Aspects Flows.
From S2P Require Import Retry Node ContainerdDaemon KubeletConfig KubeletDaemon Credentials KubeAccess HybridProvider HybridProps Ec2Provider ConfigSource.
#[local] Open Scope Z_scope.

(** ** Nodes of the Kubernetes API *)

Record NodeAddress := { address_Type : string; Address_ : string }.
Record NodeCondition := { condition_Type : string; condition_Status : string }.
Record K8sNode := { NodeAddresses : list NodeAddress; Conditions : list NodeCondition }.

Class DebugEnv := {
  (** [CoreV1().Nodes().Get] of the client: the pointer and the error. *)
  get_k8s_node : ApiClient → string → Ctx → Host → (option K8sNode * option error) * Host;
  (** The provider id of the kubelet's configuration. *)
  yaml_ProviderID : string → result (option string);
  (** [time.Duration.String]. *)
  Duration_String : Z → string;
  printer_Init : M Host unit;
}.

(** ** Readiness (node_readiness.go) *)

Fixpoint hasReadyCondition (conditions : list NodeCondition) : bool :=
  match conditions with
  | [] => false
  | condition :: conditions =>
      if String.eqb (condition_Type condition) "Ready"
      then String.eqb (condition_Status condition) "True" else hasReadyCondition conditions
  end.
Definition hasInternalIP (node : K8sNode) : bool :=
  existsb (λ address, String.eqb (address_Type address) "InternalIP" &&
                      negb (String.eqb (Address_ address) "")) (NodeAddresses node).
Fixpoint isNetworkAvailable (conditions : list NodeCondition) : bool :=
  match conditions with
  | [] => true
  | condition :: conditions =>
      if String.eqb (condition_Type condition) "NetworkUnavailable"
      then String.eqb (condition_Status condition) "False" else isNetworkAvailable conditions
  end.
Definition isNodeReady (node : K8sNode) : bool :=
  if negb (hasInternalIP node) then false
  else if negb (isNetworkAvailable (Conditions node)) then false
  else hasReadyCondition (Conditions node).

Section Debug.
Context `{Env} `{Semver} `{BackoffLoop} `{CloudEnv} `{ClusterEnv} `{DebugEnv}.

Definition wait_for_node (ctx : Ctx) (timeout : Z) (client : ApiClient) (nodeName : string)
    (ready : option K8sNode → bool) : M Host (option K8sNode) :=
  fetch (GetAndWait ctx timeout (get_k8s_node client) nodeName ready None).

Record nodeReadinessChecker := { nrc_client : ApiClient; nrc_timeout : Z }.
Definition NewNodeReadinessChecker (client : ApiClient) (timeout : Z) : nodeReadinessChecker :=
  {| nrc_client := client; nrc_timeout := timeout |}.

Definition WaitForNodeReadiness (nrc : nodeReadinessChecker) (ctx : Ctx) (nodeName : string) : M Host unit :=
  map_err (EWrap ("node '" +:+ nodeName +:+ "' did not become ready within timeout " +:+
                  Duration_String (nrc_timeout nrc)))
    (wait_for_node ctx (nrc_timeout nrc) (nrc_client nrc) nodeName
       (λ node, match node with Some node => isNodeReady node | None => false end);;
     mret tt).

Definition waitForNodeReadiness (ctx : Ctx) (client : ApiClient) (nodeName : string) (timeout : Z)
    : M Host unit :=
  WaitForNodeReadiness (NewNodeReadinessChecker client timeout) ctx nodeName.

(** ** Registration (node_registration.go) *)

Record nodeRegistrationChecker := { nregc_client : ApiClient; nregc_timeout : Z }.
Definition NewNodeRegistrationChecker (client : ApiClient) (timeout : Z) : nodeRegistrationChecker :=
  {| nregc_client := client; nregc_timeout := timeout |}.

Definition WaitForNodeRegistration (nrc : nodeRegistrationChecker) (ctx : Ctx) : M Host string :=
  nodeName ← map_err (EWrap "failed to get node name from kubelet") (GetNodeName yaml_ProviderID);
  node ← map_err (λ err, if IsNotFound err
      then ENew ("node '" +:+ nodeName +:+ "' did not register with the cluster within timeout " +:+
                 Duration_String (nregc_timeout nrc))
      else EWrap "waiting for node registration" err)
    (wait_for_node ctx (nregc_timeout nrc) (nregc_client nrc) nodeName
       (λ node, if node is Some _ then true else false));
  deref node;;
  mret nodeName.

Definition waitForNodeRegistrationValidation (ctx : Ctx) (client : ApiClient) (timeout : Z)
    : M Host string :=
  WaitForNodeRegistration (NewNodeRegistrationChecker client timeout) ctx.

(** ** The node of the cluster (active_node_validator.go) *)

Record ActiveNodeValidator := { validateRegistration : bool; validateReadiness : bool; anv_timeout : Z }.
Definition NewActiveNodeValidator (opts : list (ActiveNodeValidator → ActiveNodeValidator)) : ActiveNodeValidator :=
  fold_left (λ v opt, opt v) opts
    {| validateRegistration := true; validateReadiness := true; anv_timeout := 5 * Minute |}.
Definition WithNodeRegistration (validate : bool) (v : ActiveNodeValidator) : ActiveNodeValidator :=
  {| validateRegistration := validate; validateReadiness := validateReadiness v; anv_timeout := anv_timeout v |}.
Definition WithNodeReadiness (validate : bool) (v : ActiveNodeValidator) : ActiveNodeValidator :=
  {| validateRegistration := validateRegistration v; validateReadiness := validate; anv_timeout := anv_timeout v |}.
Definition anv_WithTimeout (timeout : Z) (v : ActiveNodeValidator) : ActiveNodeValidator :=
  {| validateRegistration := validateRegistration v; validateReadiness := validateReadiness v; anv_timeout := timeout |}.

(** The host name of a failed registration is empty, which is printed as
    null; that of a node that did register matched [(.+)] and is not. *)
Definition active_node_body (v : ActiveNodeValidator) : M Host unit :=
  let ctx := WithTimeoutCtx background (anv_timeout v) in
  client ← map_err (λ e, WithRemediation e
    "Ensure kubelet is properly configured with valid kubeconfig and the API server is accessible.") BuildClient;
  hostname ← if validateRegistration v
    then map_err (λ e, WithRemediation e
           "Detected Hostname: null, verify this node's network connectivity and authentication credentials.")
           (waitForNodeRegistrationValidation ctx client (anv_timeout v))
    else mret "";
  when (validateReadiness v)
    (map_err (λ e, WithRemediation e
       "Check kubelet logs and ensure the node has joined the cluster properly.")
       (waitForNodeReadiness ctx client hostname (anv_timeout v))).
Definition ActiveNodeValidator_Run (v : ActiveNodeValidator) (i : Informer Host) (_ : NodeConfig) : M Host unit :=
  informed i "active-node-validation" "Validating active node status in Kubernetes cluster" (active_node_body v).

(** ** nodeadm debug (debug.go) *)

Section Command.
Context `{ConfigEnv} `{KubeletEnv} `{HybridEnv}.
Context (network : Network.Network) (interfaces : M Host (list Interface)).

(** The validations that need no cluster, then those of the cluster's
    details [clusterDetail], of the cluster read, if it could be, and of the
    node. *)
Definition local_validations (awsConfig : AwsConfig) (nodeConfig : NodeConfig)
    : list (Validation (O := NodeConfig) (W := Host)) :=
  creds_Validations awsConfig nodeConfig ++
  [New "ntp-sync" (on_host NTPValidator_Run);
   New "swap" (on_host (SwapValidator_Run (Getenv "ACTIVE_SWAP_AREAS")));
   New "ulimit" (on_host UlimitValidator_Run);
   New "aws-auth" (on_host (AuthenticationValidator_Run awsConfig));
   New "proxy-config" (on_node (λ i node, ProxyValidator_Run Getenv FromEnvironment os_name node i))].

Definition cluster_validations (runner : Runner) (clusterDetail : ClusterDetails)
    : list (Validation (O := NodeConfig) (W := Host)) :=
  [Runner_UntilError runner
     [New "k8s-endpoint-network" (on_node (AccessValidator_Run clusterDetail));
      New "k8s-authentication" (on_node MakeAuthenticatedRequest);
      New "k8s-identity" (on_node CheckIdentity);
      New "k8s-vpc-network" (on_node CheckVPCEndpointAccess)];
   New "k8s-certificate" (on_host
     (KubeletCertificateValidator_Run pem_Decode x509_ParseCertificate AppendCertsFromPEM Verify time_Now
        (NewKubeletCertificateValidator (default "" (CertificateAuthority clusterDetail)) [])))].

Definition node_validations (cluster : option EksCluster)
    : list (Validation (O := NodeConfig) (W := Host)) :=
  [New "network-interface" (on_node (λ i node,
     NetworkInterfaceValidator_Run network interfaces
       (NewNetworkInterfaceValidator [niv_WithCluster cluster]) node i));
   New "active-node-validation" (on_node (ActiveNodeValidator_Run (NewActiveNodeValidator [])))].

Definition Debug_Run (printer : Informer Host) (nodeConfigSource : string) : M Host unit :=
  when (String.eqb nodeConfigSource "")
    (throw (ENew "--config-source is a required flag. The format is a URI with supported schemes: [file, imds]. For example on hybrid nodes --config-source file://nodeConfig.yaml"));;
  nodeConfig ← read_config nodeConfigSource;
  awsConfig ← ReadConfigAsKubelet nodeConfig;
  printer_Init;;
  let runner := Register (NewRunner printer []) (local_validations awsConfig nodeConfig) in
  r ← try (ReadClusterDetails awsConfig nodeConfig None);
  match r with
  | Err err =>
      let err := WithRemediation err "Ensure the Kubernetes API server endpoint is provided or the node has access and permissions to call EKS DescribeCluster API." in
      Starting printer "cluster-details-retrieval" "Retrieving cluster details";;
      Done printer "cluster-details-retrieval" (Some err);;
      throw err
  | Ok (clusterDetail, _) =>
      let runner := Register runner (cluster_validations runner clusterDetail) in
      cluster ← try (eks_ReadCluster awsConfig nodeConfig);
      let cluster := match cluster with Ok c => Some c | Err _ => None end in
      let runner := Register runner (node_validations cluster) in
      map_err ESilent (Sequentially runner nodeConfig)
  end.
End Command.

(** ** Properties *)

(** The status of the first condition of a type. *)
Definition status_of (type : string) (conditions : list NodeCondition) : option string :=
  condition_Status <$> head (keep (λ c, String.eqb (condition_Type c) type) conditions).

(** A node that can run pods: it has an internal address, it is ready, and
    its network is not said to be missing. *)
Definition node_ready (n : K8sNode) : Prop :=
  (∃ a, a ∈ NodeAddresses n ∧ address_Type a = "InternalIP" ∧ Address_ a ≠ "") ∧
  status_of "Ready" (Conditions n) = Some "True" ∧
  (status_of "NetworkUnavailable" (Conditions n) = None ∨
   status_of "NetworkUnavailable" (Conditions n) = Some "False").

Lemma hasReadyCondition_spec l : hasReadyCondition l = true ↔ status_of "Ready" l = Some "True".
Proof using Type.
  unfold status_of. induction l as [|c l IH]; cbn; [done|].
  destruct (String.eqb (condition_Type c) "Ready"); cbn; [|exact IH].
  rewrite String.eqb_eq. split; [by intros ->|by intros [= ->]].
Qed.

Lemma isNetworkAvailable_spec l :
  isNetworkAvailable l = true ↔
  status_of "NetworkUnavailable" l = None ∨ status_of "NetworkUnavailable" l = Some "False".
Proof using Type.
  unfold status_of. induction l as [|c l IH]; cbn; [by split; [left|]|].
  destruct (String.eqb (condition_Type c) "NetworkUnavailable"); cbn; [|exact IH].
  rewrite String.eqb_eq. split; [by intros ->; right|by intros [|[= ->]]].
Qed.

Lemma hasInternalIP_spec n :
  hasInternalIP n = true ↔ ∃ a, a ∈ NodeAddresses n ∧ address_Type a = "InternalIP" ∧ Address_ a ≠ "".
Proof using Type.
  unfold hasInternalIP. rewrite existsb_exists. split.
  - intros (a & Ha%list_elem_of_In & [Ht%String.eqb_eq Hn%negb_true_iff%String.eqb_neq]%andb_true_iff). by exists a.
  - intros (a & Ha & Ht & Hn). exists a. split; [by apply list_elem_of_In|].
    apply andb_true_iff. split; [by apply String.eqb_eq|by apply negb_true_iff, String.eqb_neq].
Qed.

Lemma isNodeReady_spec n : isNodeReady n = true ↔ node_ready n.
Proof using Type.
  unfold isNodeReady, node_ready. rewrite <- hasInternalIP_spec, <- hasReadyCondition_spec, <- isNetworkAvailable_spec.
  destruct (hasInternalIP n), (isNetworkAvailable (Conditions n)), (hasReadyCondition (Conditions n)); cbn; naive_solver.
Qed.

Lemma wait_for_node_Return ctx timeout client name ready h n h' :
  wait_for_node ctx timeout client name ready h = (Return n, h') →
  ready n = true ∧ ∃ ctx' h1, get_k8s_node client name ctx' h1 = ((n, None), h').
Proof using Type.
  unfold wait_for_node, fetch, GetAndWait. intros E.
  destruct (WaitFor ctx timeout _ ready None h) as [o [h2 obj]] eqn:EW.
  apply WaitFor_spec in EW as [_ HO]. destruct o as [[]|e|]; [|done..]. injection E as -> ->.
  destruct HO as (Hr & h1 & Hg). split; [done|]. by eexists _, h1.
Qed.

(** The active-node check of the debug command ends well only for a node that
    works: the kubelet's configuration names a node, the API server returned
    it, and a later answer of the API server, the one the wait ended with,
    shows that very node with an internal address, its first Ready condition
    true, and its network not reported as unavailable. *)
Lemma active_body_ready h h' :
  active_node_body (NewActiveNodeValidator []) h = (Return tt, h') →
  ∃ name client n, (∃ h1 h2, GetNodeName yaml_ProviderID h1 = (Return name, h2)) ∧
    (∃ ctx h1 h2, get_k8s_node client name ctx h1 = ((Some n, None), h2)) ∧ node_ready n.
Proof using Type.
  intros E. unfold active_node_body in E.
  cbn [validateRegistration validateReadiness anv_timeout NewActiveNodeValidator fold_left when] in E.
  apply bind_Return in E as (client & h3 & _ & E). apply bind_Return in E as (name & h4 & ER%map_err_Return & E).
  unfold waitForNodeRegistrationValidation, WaitForNodeRegistration in ER. apply bind_Return in ER as (name' & h5 & EN%map_err_Return & ER).
  apply bind_Return in ER as (node & h6 & _ & ER). apply bind_Return in ER as (node' & h7 & _ & ER).
  injection ER as -> _.
  apply map_err_Return in E. unfold waitForNodeReadiness, WaitForNodeReadiness in E. apply map_err_Return in E.
  apply bind_Return in E as (n & h8 & EW & _). apply wait_for_node_Return in EW as (Hr & ctx & h9 & Hg).
  destruct n as [n|]; [|done]. exists name, client, n. split; [by eexists _, _|].
  split; [by eexists _, _, _|by apply isNodeReady_spec].
Qed.
(** Its errors are never warnings. *)
Lemma active_body_Throw v h e h' :
  active_node_body v h = (Throw e, h') → Unwrap e = [e] ∧ IsWarning e = false.
Proof using Type.
  assert (∀ A r (m : M Host A) h e h', map_err (λ e, WithRemediation e r) m h = (Throw e, h') →
    Unwrap e = [e] ∧ IsWarning e = false) as Hm.
  { intros A r m h0 e0 h0' E. unfold map_err in E. by destruct (m h0) as [[]]; simplify_eq. }
  unfold active_node_body. intros E. apply bind_Throw in E as [E|(c & h1 & _ & E)]; [by eapply Hm|].
  apply bind_Throw in E as [E|(n & h2 & _ & E)].
  - destruct (validateRegistration v); [by eapply Hm|done].
  - unfold when in E. destruct (validateReadiness v); [by eapply Hm|done].
Qed.
End Debug.

(** *** A node that becomes ready at the third look *)

Example debug_silent : Informer Host := {| Starting _ _ := mret tt; Done _ _ := mret tt |}.
Example joined : K8sNode := {|
  NodeAddresses := [{| address_Type := "InternalIP"; Address_ := "10.0.0.4" |}];
  Conditions := [{| condition_Type := "Ready"; condition_Status := "True" |}] |}.
Example no_calls : ApiClient := {|
  get_kubernetes_endpoints _ h := (([], None), h);
  create_review u _ h := ((u, None), h) |}.
Example with_client : ClusterEnv := {|
  DescribeCluster _ _ _ := Ok active_cluster;
  ParseRequestURI s := Err (ENew s); LookupIPAddr _ _ := Ok [];
  KubeAccess.AppendCertsFromPEM _ := None; https_get _ _ _ := Err (ENew "");
  json_Message s := Ok s; BuildClient := mret no_calls |}.
Example slow_node : DebugEnv := {|
  get_k8s_node _ name _ h :=
    let h' := record (EvCall ("get node " +:+ name)) h in
    ((Some (if (4 <=? length (journal h'))%nat then joined
            else {| NodeAddresses := NodeAddresses joined; Conditions := [] |}), None), h');
  yaml_ProviderID s := Ok (Some s);
  Duration_String _ := "5m0s";
  printer_Init := mret tt |}.
Example kubelet_host : Host :=
  {| fs := {["/etc/kubernetes/kubelet/config.json" := File "eks-hybrid:///us-west-2/prod/mi-1" 420]};
     tracker := no_artifacts; journal := []; provider := no_provider |}.
