(* ===== verification/InitProps.v ===== *)
(** * Initialising a hybrid node

    The flow of [init] over the provider of hybrid nodes: what a successful
    run says of the configuration, the cluster, the validations and the
    daemons together.  The first part is the frame of the provider's steps:
    which of them leave the configuration and the cluster alone, given that
    the interfaces they call (informer, network, daemon manager) do. *)

From S2P Require Import KubeletProps FlowProps.
From S2P Require Import Prelude GoStrings Host Tracker Semver Api Daemon Installers Validation PackageManager HttpFile.
From S2P Require Import Base64 Net Network Validators Proxy Retry Node Aws Ssm Swap Aspects Flows Resources.
From S2P Require Import ContainerdDaemon KubeletConfig KubeletDaemon Credentials KubeAccess HybridProvider HybridProps.
#[local] Open Scope Z_scope.

(** ** What the interfaces promise

    [R] relates the hosts before and after a call. *)

Class QuietInformer (R : Host → Host → Prop) (i : Informer Host) : Prop := {
  quiet_Starting name msg : preserves R (Starting i name msg);
  quiet_Done name err : preserves R (Done i name err);
  (** Neither has a result in the code. *)
  total_Starting name msg h : (Starting i name msg h).1 = Return tt;
  total_Done name err h : (Done i name err h).1 = Return tt;
}.
Class QuietNetwork (R : Host → Host → Prop) (n : Network) : Prop := {
  quiet_LookupIP name : preserves R (LookupIP n name);
  quiet_ResolveBindAddress ip : preserves R (ResolveBindAddress n ip);
  quiet_InterfaceAddrs : preserves R (InterfaceAddrs n);
}.
Class QuietManager (R : Host → Host → Prop) (m : DaemonManager) : Prop := {
  quiet_Restart name opts : preserves R (RestartDaemon m name opts);
  quiet_Status name h r h' : GetDaemonStatus m name h = (r, h') → R h h';
  quiet_Enable name : preserves R (EnableDaemon m name);
  quiet_Reload : preserves R (DaemonReload m);
}.
#[export] Hint Resolve quiet_Starting quiet_Done quiet_LookupIP quiet_ResolveBindAddress
  quiet_InterfaceAddrs quiet_Restart quiet_Enable quiet_Reload : nodeadm.

(** The configuration's specification and the cluster kept: what only the
    completion of the configuration changes. *)
Definition same_spec (h h' : Host) : Prop :=
  Spec (hnp_nodeConfig (provider h')) = Spec (hnp_nodeConfig (provider h)) ∧
  hnp_cluster (provider h') = hnp_cluster (provider h).
#[export] Instance same_spec_order : HostOrder same_spec.
Proof.
  split; [split; [by intros ?|intros h1 h2 h3 [] []; split; by etrans]|done|done].
Qed.

(** What leaves the provider alone leaves the specification alone. *)
Lemma same_provider_spec h h' : same_provider h h' → same_spec h h'.
Proof. unfold same_provider, same_spec. by intros ->. Qed.
#[export] Instance quiet_manager_spec m : QuietManager same_provider m → QuietManager same_spec m.
Proof.
  intros []. unfold preserves in *.
  split; unfold preserves; intros; eapply same_provider_spec; eauto.
Qed.

Section Frame.
Context (R : Host → Host → Prop) `{!HostOrder R}.
Context `{Env} `{Semver} `{BackoffLoop} `{KubeletEnv} `{MapOrder} `{ImageService}
        `{CloudEnv} `{ClusterEnv} `{HybridEnv}.

Lemma frame_call {A} what (answer : Host → result A) : preserves R (call what answer).
Proof using HostOrder0. unfold call. host_tac. Qed.
Lemma frame_ticks {A} (m : nat → M Host A) :
  (∀ n, preserves R (m n)) → preserves R (λ h, m (ticks h) h).
Proof using Type. intros Hm h o h'. apply Hm. Qed.
Lemma frame_exists p : preserves R (file_Exists p).
Proof using HostOrder0. unfold file_Exists. host_tac. Qed.
Lemma frame_CombinedOutput cmd args : preserves R (CombinedOutput cmd args).
Proof using HostOrder0.
  intros h o h' E. unfold CombinedOutput, run_raw in E. destruct (run_output _ _ _) as [out err].
  injection E as <- <-. etrans; [apply order_record|apply order_fs].
Qed.
Hint Resolve frame_call frame_exists frame_CombinedOutput : nodeadm.

(** A validator announced and reported leaves alone what its body does. *)
Lemma frame_informed i `{!QuietInformer R i} name msg body :
  preserves R body → preserves R (informed i name msg body).
Proof using HostOrder0.
  intros Hb. unfold informed. apply preserves_bind; [apply _|apply quiet_Starting|intros _].
  intros h o h' E. unfold deferred_done in E. destruct (body h) as [r h1] eqn:EB. apply Hb in EB.
  destruct (Done i name (match r with Throw e => Some e | _ => None end) h1) as [r2 h2] eqn:ED.
  apply quiet_Done in ED as HD. etrans; [exact EB|]. destruct r as [u|e|].
  - by rewrite ED in E; injection E as _ <-.
  - rewrite ED in E. by destruct r2; injection E as _ <-.
  - rewrite ED in E. by injection E as _ <-.
Qed.
Lemma frame_skipped i `{!QuietInformer R i} name msg : preserves R (skipped i name msg).
Proof using HostOrder0. unfold skipped. host_tac. Qed.
Lemma frame_remedied r m : preserves R m → preserves R (remedied r m).
Proof using HostOrder0. apply preserves_map_err. Qed.

(** *** Waits and retries *)

Lemma frame_reach u : preserves R (reach u).
Proof using HostOrder0.
  intros h o h' E. eapply (Do_preserves R); [..|exact E]; [by intros ?|intros ???; apply transitivity|done|].
  intros ctx s a s' Ha. unfold request_op, as_request in Ha.
  assert (preserves R (check_host u)) as Hc by (unfold check_host, CheckConnectionToHost; host_tac;
    apply (preserves_pure _ (λ h, match connect_status h _ with Ok a => Return a | Err e => Throw e end))).
  destruct (check_host u s) as [r s1] eqn:EC. apply Hc in EC. by destruct r; injection Ha as _ <-.
Qed.
Lemma frame_CheckEndpointAccess service label config : preserves R (CheckEndpointAccess service label config).
Proof using HostOrder0. unfold CheckEndpointAccess. host_tac. apply frame_reach. Qed.
Lemma frame_sleep : preserves R sleep.
Proof using HostOrder0. intros h o h' [= <- <-]. etrans; [apply order_record|apply order_fs]. Qed.
Lemma frame_wait_for_file n path late : preserves R (wait_for_file n path late).
Proof using HostOrder0.
  induction n as [|n IH]; cbn [wait_for_file]; host_tac. apply frame_sleep.
Qed.
Lemma frame_WaitForStatus m `{!QuietManager R m} n name desired late :
  preserves R (WaitForStatus n m name desired late).
Proof using HostOrder0.
  induction n as [|n IH]; intros h o h' E; cbn [WaitForStatus] in E;
    destruct (GetDaemonStatus m name h) as [[status err] h1] eqn:EG; apply quiet_Status in EG;
    destruct (_ && _); try (injection E as <- <-; done).
  etrans; [exact EG|]. by eapply IH.
Qed.
Lemma frame_RetryOperation outcome late op name opts n :
  (∀ opts, preserves R (op name opts)) → preserves R (RetryOperation n outcome late op name opts).
Proof using HostOrder0.
  intros Hop. unfold RetryOperation.
  assert (preserves R (WaitForOperation outcome late op name opts)) as Hw
    by (unfold WaitForOperation; host_tac; apply Hop).
  generalize 0. induction n as [|n IH]; intros k; cbn [RetryOperation_loop]; host_tac; apply IH.
Qed.
Lemma frame_cmd_Retry c : preserves R (cmd_Retry c).
Proof using HostOrder0.
  intros h o h' E. unfold cmd_Retry in E. destruct (CmdRetry _ _ _ _ _) as [err h1] eqn:EC.
  injection E as _ <-. revert EC. generalize (ticks h) as n. intros n. revert h err.
  assert (∀ h out err h1, run_raw (cmd_Path c) (cmd_Args c) h = (out, err, h1) → R h h1) as Hr.
  { intros h out err h2 E. unfold run_raw in E. destruct (run_output _ _ _). injection E as _ _ <-.
    etrans; [apply order_record|apply order_fs]. }
  induction n as [|n IH]; intros h err E; cbn [CmdRetry] in E;
    destruct (run_raw _ _ h) as [[out e] h2] eqn:ER; apply Hr in ER;
    destruct e; try (injection E as _ <-; done).
  etrans; [exact ER|]. by eapply IH.
Qed.

(** *** The validations of a node *)

Lemma frame_GetKubeletVersion : preserves R GetKubeletVersion.
Proof using HostOrder0. unfold GetKubeletVersion, GetKubeletVersionRaw. host_tac. Qed.
Lemma frame_validateSkew cluster : preserves R (validateSkew cluster).
Proof using HostOrder0.
  unfold validateSkew, remedied, deref. host_tac. all: apply frame_GetKubeletVersion.
Qed.
Lemma frame_config_file path not_found msg : preserves R (config_file path not_found msg).
Proof using HostOrder0. unfold config_file. host_tac. Qed.
Lemma frame_require_text content need err remediation : preserves R (require_text content need err remediation).
Proof using HostOrder0. unfold require_text. host_tac. Qed.
Hint Resolve frame_config_file frame_require_text : nodeadm.
Lemma frame_proxy getenv from_env os node :
  preserves R (proxy_Validate getenv from_env os node).
Proof using HostOrder0.
  unfold proxy_Validate, validateProxyVariableConsistency, validatePackageManagerProxyConfig,
    validateAptProxyConfig, validateYumProxyConfig, validateDnfProxyConfig, validate_main_proxy,
    validateKubeletProxyConfig, validateContainerdProxyConfig, validateSSMProxyConfig,
    validateSystemdServiceProxyConfig. host_tac.
Qed.
Lemma frame_certificate decode parse append verify now path ca :
  preserves R (certificate_Validate decode parse append verify now path ca).
Proof using HostOrder0. unfold certificate_Validate, check_cert, cert_err. host_tac. Qed.
Hint Resolve frame_certificate : nodeadm.
Lemma frame_kubelet_cert decode parse append verify now v :
  preserves R (check_kubelet_cert decode parse append verify now v).
Proof using HostOrder0. unfold check_kubelet_cert. host_tac. Qed.
Lemma frame_fetch_pages config name n tok acc : preserves R (fetch_pages n config name tok acc).
Proof using HostOrder0.
  revert tok acc. induction n as [|n IH]; intros tok acc; cbn [fetch_pages]; unfold list_page; host_tac.
Qed.
Lemma frame_check_access config name : preserves R (check_access config name).
Proof using HostOrder0.
  unfold check_access, remedied, fetchAllAccessEntries, ensure. host_tac; apply frame_fetch_pages.
Qed.
Lemma frame_kubelet_inactive m `{!QuietManager R m} : preserves R (kubelet_inactive m).
Proof using HostOrder0.
  intros h o h' E. unfold kubelet_inactive, active, throw in E.
  destruct (GetDaemonStatus m "kubelet" h) as [[status [e|]] h1] eqn:EG; apply quiet_Status in EG;
    [|case_decide]; by injection E as _ <-.
Qed.
Lemma frame_check_inactive m `{!QuietManager R m} : preserves R (check_inactive m).
Proof using HostOrder0.
  unfold check_inactive, must_not_exist, active. host_tac; by apply frame_kubelet_inactive.
Qed.
Lemma frame_server_connection node : preserves R (checkAPIServerConnection node).
Proof using HostOrder0.
  unfold checkAPIServerConnection, remedied, validateEndpointResolution. host_tac; apply frame_reach.
Qed.
Lemma frame_first_node_ip n `{!QuietNetwork R n} addrs : preserves R (first_node_ip n addrs).
Proof using HostOrder0.
  induction addrs as [|a addrs IH]; cbn [first_node_ip]; unfold ValidateNodeIP; host_tac.
Qed.
Lemma frame_check_interface n `{!QuietNetwork R n} interfaces v cluster node :
  preserves R interfaces → preserves R (check_interface n interfaces v cluster node).
Proof using HostOrder0.
  intros Hi. unfold check_interface, ValidateClusterRemoteNetworkConfig, GetNodeIP,
    ValidateNetworkInterfaceMTUForIP, FindNetworkInterfaceForIP, deref. host_tac.
  all: by apply frame_first_node_ip.
Qed.

(** *** The aspects *)

Lemma frame_run_or_fail msg bin args : preserves R (run_or_fail msg bin args).
Proof using HostOrder0. unfold run_or_fail. host_tac. Qed.
Hint Resolve frame_run_or_fail : nodeadm.
Lemma frame_ports code os h m h' :
  Aspects.NewFirewallManager code os h = (Return m, h') → preserves R (ports_Setup m).
Proof using HostOrder0.
  unfold Aspects.NewFirewallManager. intros [= <- _]. unfold ports_Setup, open_ports.
  destruct (String.eqb _ _); cbn [fm_IsEnabled AllowTcpPort AllowTcpPortRange fm_FlushRules ufw firewalld];
    unfold ufw_IsEnabled, ufw_AllowTcpPort, ufw_AllowTcpPortRange, ufw_FlushRules, firewalld_IsEnabled,
      firewalld_AllowTcpPort, firewalld_AllowTcpPortRange, firewalld_FlushRules; host_tac.
Qed.
Lemma frame_sysctl : preserves R (sysctl_Setup).
Proof using HostOrder0.
  unfold sysctl_Setup, writeSysctlConfig, reloadSysctl, WriteFileWithDir. host_tac.
Qed.
Lemma frame_swap areas : preserves R (swap_Setup areas).
Proof using HostOrder0.
  assert (∀ swaps, preserves R (partitionSwapExists swaps)) as Hp.
  { induction swaps as [|[s|] swaps IH]; cbn [partitionSwapExists]; host_tac. }
  unfold swap_Setup, getSwapfilePaths, swapOff, swapoff1, disableSwapOnFstab, file_Truncate. host_tac.
Qed.

(** The aspects of the provider leave alone what the interfaces do. *)
Lemma frame_aspects h aspects h1 o h2 :
  hybrid_GetAspects h = (Return aspects, h1) → for_each Setup aspects h1 = (o, h2) → R h h2.
Proof using HostOrder0.
  unfold hybrid_GetAspects. intros E E2. apply bind_Return in E as (m & h0 & EM & E).
  apply frame_ports in EM as HP. injection EM as _ <-. injection E as <- <-. revert E2.
  assert (preserves R (for_each Setup [NewSysctlAspect; NewSwapAspect (Getenv "ACTIVE_SWAP_AREAS");
    NewPortsAspect m])) as HF; [|apply HF].
  cbn [for_each Setup NewSysctlAspect NewSwapAspect NewPortsAspect].
  host_tac; first [apply frame_sysctl | apply frame_swap | exact HP].
Qed.

(** *** The credentials *)

Lemma frame_registration root : preserves R (isRegistered parse_registration root).
Proof using HostOrder0. unfold isRegistered, GetManagedHybridInstanceId, getRegistration. host_tac. Qed.
Lemma frame_instance_id root : preserves R (GetManagedHybridInstanceId parse_registration root).
Proof using HostOrder0. unfold GetManagedHybridInstanceId, getRegistration. host_tac. Qed.
Lemma frame_agentBinaryPath : preserves R agentBinaryPath.
Proof using HostOrder0.
  assert (∀ ps, preserves R (first_existing ps)) as Hp.
  { induction ps as [|p ps IH]; cbn [first_existing]; host_tac. }
  unfold agentBinaryPath. host_tac.
Qed.
Lemma frame_ssm_PostLaunch : preserves R ssm_PostLaunch.
Proof using HostOrder0. unfold ssm_PostLaunch, shared_config, os_Symlink. host_tac. Qed.
Lemma frame_ssm_EnsureRunning m `{!QuietManager R m} name : preserves R (ssm_EnsureRunning m name).
Proof using HostOrder0.
  unfold ssm_EnsureRunning. host_tac.
  - apply (frame_ticks (λ n, RetryOperation n op_outcome (ECtx true) (RestartDaemon m) name [])).
    intros n. apply frame_RetryOperation. intros opts. apply quiet_Restart.
  - apply (frame_ticks (λ n, WaitForStatus n m name DaemonStatusRunning (ECtx true))).
    intros n. by apply frame_WaitForStatus.
Qed.
Lemma frame_LoadDefaultConfig o : preserves R (LoadDefaultConfig o).
Proof using HostOrder0. unfold LoadDefaultConfig. host_tac. Qed.
Lemma frame_RolesAnywhere m `{!QuietManager R m} cfg : preserves R (RolesAnywhere_Configure m cfg).
Proof using HostOrder0.
  unfold RolesAnywhere_Configure, deref, WriteAWSConfig, writeConfigFile, launch. cbn.
  unfold SigningHelper_Configure, GenerateUpdateSystemdService, SigningHelper_EnsureRunning,
    SigningHelper_PostLaunch, WriteFileWithDir. host_tac.
  all: apply (frame_ticks (λ n, waitForIAMRolesAnywhereCreds n EksHybridAwsCredentialsPath));
    intros n; apply frame_wait_for_file.
Qed.
End Frame.

(** ** Credentials and completion *)

Section Provider.
Context `{Env} `{Semver} `{BackoffLoop} `{KubeletEnv} `{MapOrder} `{ImageService}
        `{CloudEnv} `{ClusterEnv} `{HybridEnv}.

(** The node's name, from the registration, is not part of the
    specification. *)
Lemma set_NodeName_spec name : preserves same_spec (modify_config (set_NodeName name)).
Proof using Type. by intros h o h' [= <- <-]. Qed.
Lemma set_awsConfig_spec c : preserves same_spec (set_awsConfig c).
Proof using Type. by intros h o h' [= <- <-]. Qed.
Lemma registerMachine_spec : preserves same_spec (registerMachine parse_registration).
Proof using Type.
  unfold registerMachine, shared_config. host_tac;
    first [apply frame_registration | apply frame_agentBinaryPath | apply frame_cmd_Retry
          | apply frame_instance_id | apply set_NodeName_spec | apply _ ]; apply _.
Qed.
Lemma ssm_launch_spec m `{!QuietManager same_spec m} : preserves same_spec (SSMAWSConfigurator_Configure m).
Proof using Type.
  intros h o h' E. unfold SSMAWSConfigurator_Configure, NewSsmDaemon in E.
  cbv [mbind M_bind gets mret M_ret] in E. revert E.
  set (name := ssm_daemon_name _). set (d := {| Daemon.Configure := _ |}).
  assert (preserves same_spec (launch d)) as Hl; [|apply Hl].
  unfold launch, d, ssm_Configure. cbn [Daemon.Configure EnsureRunning PostLaunch]. host_tac.
  - apply registerMachine_spec.
  - apply frame_ssm_EnsureRunning; apply _.
  - apply frame_ssm_PostLaunch, _.
Qed.

Lemma ConfigureAws_spec np `{!QuietManager same_spec (hnp_daemonManager np)} :
  preserves same_spec (hybrid_ConfigureAws np).
Proof using Type.
  unfold hybrid_ConfigureAws, shared_config. host_tac; try apply set_awsConfig_spec.
  - by apply ssm_launch_spec.
  - apply (frame_ticks _ (WaitForAWSConfig a1)). intros n. unfold WaitForAWSConfig. host_tac.
    + apply frame_wait_for_file, _.
    + apply frame_LoadDefaultConfig, _.
  - apply frame_RolesAnywhere; apply _.
  - unfold LoadAWSConfigForRolesAnywhere, deref. host_tac; apply frame_LoadDefaultConfig, _.
Qed.

Lemma update_details_cluster fill h h' :
  (∀ c h o h', fill c h = (o, h') → h' = h) →
  update_details fill h = (Return tt, h') → hnp_cluster (provider h') = hnp_cluster (provider h).
Proof using Type.
  intros Hf E. apply update_details_Return in E as (c & h1 & EF & HP). apply Hf in EF as ->.
  by rewrite (HP eq_refl).
Qed.
Lemma ensureClusterDetails_kept h h' :
  ensureClusterDetails h = (Return tt, h') →
  ∃ c, hnp_cluster (provider h') = Some c ∧ eks_Status c = "ACTIVE" ∧ RemoteNetworkConfig c ≠ None.
Proof using Type.
  intros E. unfold ensureClusterDetails in E. apply bind_Return in E as (c & h1 & EG & E).
  apply getCluster_Return in EG. exists c.
  apply bind_Return in E as ([] & h2 & Es & E). apply ensure_Return in Es as [Es%String.eqb_eq ->].
  apply bind_Return in E as ([] & h2 & En & E). apply ensure_Return in En as [En ->].
  apply bind_Return in E as ([] & h2 & E1 & E). apply bind_Return in E as ([] & h3 & E2 & E3).
  apply update_details_cluster in E1, E2, E3.
  - rewrite E3, E2, E1, EG. by split; [|split; [|by destruct (RemoteNetworkConfig c)]].
  - intros d g o g' EF. unfold fill_cidr, deref in EF.
    destruct (String.eqb _ _), (eks_ServiceIpv4Cidr c) as [[]|]; by injection EF as _ <-.
  - intros d g o g' EF. unfold fill_ca, deref in EF.
    destruct (CertificateAuthority d), (eks_CertificateAuthority c) as [[data|]|];
      try (by injection EF as _ <-).
    cbv [mbind M_bind mret M_ret of_result] in EF.
    destruct (base64_DecodeString data); by injection EF as _ <-.
  - intros d g o g' EF. unfold fill_endpoint, deref in EF.
    destruct (String.eqb _ _), (eks_Endpoint c); by injection EF as _ <-.
Qed.

(** The cluster kept after completion. *)
Lemma Enrich_kept rc h h' :
  hybrid_Enrich rc h = (Return tt, h') →
  complete_details (Cluster (Spec (hnp_nodeConfig (provider h)))) = false →
  ∃ c, hnp_cluster (provider h') = Some c ∧ eks_Status c = "ACTIVE" ∧ RemoteNetworkConfig c ≠ None.
Proof using Type.
  intros E Hd. unfold hybrid_Enrich in E. apply bind_Return in E as (cfg & h1 & [= <- <-] & E).
  apply bind_Return in E as (reg & h1 & ER & E). apply registry_provider in ER. unfold same_provider in ER.
  apply bind_Return in E as ([] & h2 & [= <-] & E). apply bind_Return in E as (cfg & h3 & [= <- <-] & E).
  unfold needsClusterDetails in E. cbn in E. rewrite ER, Hd in E. cbn [negb when] in E.
  by apply ensureClusterDetails_kept in E.
Qed.
(** Nothing is asked for when nothing is missing. *)
Lemma Enrich_complete rc h h' :
  hybrid_Enrich rc h = (Return tt, h') →
  complete_details (Cluster (Spec (hnp_nodeConfig (provider h)))) = true →
  Spec (hnp_nodeConfig (provider h')) = Spec (hnp_nodeConfig (provider h)) ∧
  hnp_cluster (provider h') = hnp_cluster (provider h).
Proof using Type.
  intros E Hd. unfold hybrid_Enrich in E. apply bind_Return in E as (cfg & h1 & [= <- <-] & E).
  apply bind_Return in E as (reg & h1 & ER & E). apply registry_provider in ER. unfold same_provider in ER.
  apply bind_Return in E as ([] & h2 & [= <-] & E). apply bind_Return in E as (cfg & h3 & [= <- <-] & E).
  unfold needsClusterDetails in E. cbn in E. rewrite ER, Hd in E. injection E as <-. by cbn.
Qed.
End Provider.

(** ** The runner *)

(** A validation that leaves the object alone, and the host up to [R]. *)
Definition quiet_validation (R : Host → Host → Prop) (i : Informer Host)
    (v : Validation (O := NodeConfig) (W := Host)) : Prop :=
  ∀ s o s', validate v i s = (o, s') → s'.1 = s.1 ∧ R s.2 s'.2.
(** The outcomes that do not make a run fail. *)
Definition passes (o : outcome unit) : Prop :=
  match o with
  | Return _ => True
  | Throw e => Forall (λ e, IsWarning e = true) (Unwrap e)
  | Panic => False
  end.

Section Runs.
Context (R : Host → Host → Prop) `{!HostOrder R} (i : Informer Host).

Lemma quiet_on_host name run :
  preserves R (run i) → quiet_validation R i (New name (on_host run)).
Proof using Type.
  intros Hr [obj h] o [obj' h'] E. cbn in E. unfold on_host in E. cbn in E.
  destruct (run i h) as [r h1] eqn:ER. injection E as _ <- <-. split; [done|]. by eapply Hr.
Qed.
Lemma quiet_on_node name run :
  (∀ node, preserves R (run i node)) → quiet_validation R i (New name (on_node run)).
Proof using Type.
  intros Hr [obj h] o [obj' h'] E. cbn in E. unfold on_node in E. cbn in E.
  destruct (run i obj h) as [r h1] eqn:ER. injection E as _ <- <-. split; [done|]. by eapply Hr.
Qed.

(** In a run of such validations every member sees the object and a host
    related to the first one. *)
Lemma runs_member vs s rs s' :
  runs i vs s rs s' → Forall (quiet_validation R i) vs → blocking rs = [] →
  s'.1 = s.1 ∧ R s.2 s'.2 ∧
  ∀ v, v ∈ vs → ∃ h1 o s2, R s.2 h1 ∧ validate v i (s.1, h1) = (o, s2) ∧ passes o.
Proof using HostOrder0.
  assert (∀ v vs s o s1 s', validate v i s = (o, s1) → passes o → quiet_validation R i v →
    (s'.1 = s1.1 ∧ R s1.2 s'.2 ∧
      ∀ v, v ∈ vs → ∃ h1 o s2, R s1.2 h1 ∧ validate v i (s1.1, h1) = (o, s2) ∧ passes o) →
    s'.1 = s.1 ∧ R s.2 s'.2 ∧
      ∀ u, u ∈ v :: vs → ∃ h1 o s2, R s.2 h1 ∧ validate u i (s.1, h1) = (o, s2) ∧ passes o) as Hstep.
  { intros v us t o t1 t' E Ho Hv (H1 & H2 & H3). apply Hv in E as HE. destruct HE as [He HR].
    rewrite He in *. split; [done|]. split; [by etrans|].
    intros u [->|Hu]%elem_of_cons; [exists t.2, o, t1; by destruct t|].
    apply H3 in Hu as (h1 & o' & s2 & H4 & H5 & H6). exists h1, o', s2. split; [by etrans|done]. }
  induction 1 as [s|v vs s s1 rs s2 E _ IH|v vs s e s1 rs s2 E _ IH]; intros Hf Hb.
  - split; [done|]. split; [done|]. by intros v ?%elem_of_nil.
  - apply Forall_cons in Hf as [Hv Hf]. eapply Hstep; [exact E|done|done|by apply IH].
  - apply Forall_cons in Hf as [Hv Hf]. apply app_eq_nil in Hb as [He Hb].
    eapply Hstep; [exact E| |done|by apply IH]. cbn. apply keep_nil_iff in He.
    eapply Forall_impl; [exact He|]. intros x. apply negb_false_iff.
Qed.

Lemma Sequentially_member r obj h h' :
  informer r = i → Forall (quiet_validation R i) (validations r) →
  Sequentially r obj h = (Return tt, h') →
  R h h' ∧ ∀ v, v ∈ validations r →
    ∃ h1 o s2, R h h1 ∧ validate v i (obj, h1) = (o, s2) ∧ passes o.
Proof using HostOrder0.
  intros Hi Hf E. destruct (Sequentially_Return_runs _ _ _ _ E) as (rs & copy & Hr).
  rewrite (Sequentially_runs _ _ _ _ _ _ Hr) in E. case_decide; [|done].
  assert (blocking rs = []) as Hb by (by destruct (blocking rs)).
  rewrite Hi in Hr. by apply runs_member in Hr as (_ & HR & Hm).
Qed.
End Runs.

(** A validator announced to such an informer passes when its body does. *)
Lemma informed_passes R i `{!QuietInformer R i} name msg body h o h' :
  informed i name msg body h = (o, h') → passes o →
  ∃ h1 o1 h2, R h h1 ∧ body h1 = (o1, h2) ∧ passes o1.
Proof.
  intros E Ho. destruct (Starting i name msg h) as [r h1] eqn:ES.
  pose proof (total_Starting (R := R) name msg h) as Hr. rewrite ES in Hr. cbn in Hr. subst r.
  apply quiet_Starting in ES as HR.
  pose proof (informed_spec i name msg body h h1 ES) as HI.
  destruct (body h1) as [o1 h2] eqn:EB. exists h1, o1, h2. split; [done|]. split; [done|].
  rewrite HI in E by (intros; apply (total_Done (R := R))). by destruct o1; injection E as <- _.
Qed.

(** ** The validations of the provider *)

Section Init.
Context `{Env} `{Semver} `{BackoffLoop} `{KubeletEnv} `{MapOrder} `{ImageService}
        `{CloudEnv} `{ClusterEnv} `{HybridEnv} `{TrackerYaml} `{Runtime}.

(** The kubelet on the host may join the cluster: its minor version is at
    most three behind the API server's, for minors that fit a signed 64-bit
    integer. *)
Definition within_skew (cluster : EksCluster) (h : Host) : Prop :=
  ∃ v k a b, eks_Version cluster = Some v ∧ (GetKubeletVersion h).1 = Return k ∧
    parseK8sVersion v = Ok a ∧ parseK8sVersion k = Ok b ∧
    (0 <= minor a < 2 ^ 63 → 0 <= minor b < 2 ^ 63 → 0 <= minor a - minor b <= 3).

Lemma remedied_Throw r (m : M Host unit) h e h' :
  remedied r m h = (Throw e, h') → Unwrap e = [e] ∧ IsWarning e = false.
Proof using Type.
  unfold remedied, map_err. by destruct (m h) as [[]]; intros [= <- _].
Qed.
Lemma validateSkew_passes cluster h o h' :
  validateSkew cluster h = (o, h') → passes o → within_skew cluster h.
Proof using Type.
  unfold validateSkew. destruct (eks_Version cluster) as [v|] eqn:Ev; [|by intros [= <- _]].
  cbv [mbind M_bind deref mret M_ret]. intros E Ho. destruct o as [[]|e|]; [|apply remedied_Throw in E as [Hu Hw]|done].
  2:{ cbn in Ho. rewrite Hu in Ho. inversion Ho. congruence. }
  unfold remedied in E. apply map_err_Return in E.
  apply bind_Return in E as (k & h1 & EK & E). apply map_err_Return in EK.
  apply bind_Return in E as (a & h2 & EA & E). apply map_err_Return in EA.
  apply bind_Return in E as (b & h3 & EB & E). apply map_err_Return in EB.
  unfold of_result in EA, EB. exists v, k, a, b. rewrite EK.
  destruct (parseK8sVersion v); [injection EA as <- <-|done].
  destruct (parseK8sVersion k); [injection EB as <- <-|done].
  split_and!; try done. intros Ha Hb. apply (proj1 (skew_check_window _ _ Ha Hb)).
  by destruct (skew_check _ _) as [[]|].
Qed.

Context (np : HybridNodeProvider)
  `{!QuietInformer same_provider (hnp_printer np)} `{!QuietNetwork same_provider (hnp_network np)}
  `{!QuietManager same_provider (hnp_daemonManager np)}
  (quiet_interfaces : preserves same_provider (hnp_interfaces np)).

Lemma quiet_informed name msg m :
  preserves same_provider m → preserves same_provider (informed (hnp_printer np) name msg m).
Proof using Type*. intros Hm. apply frame_informed; by try apply _. Qed.
Lemma quiet_skipped name msg : preserves same_provider (skipped (hnp_printer np) name msg).
Proof using Type*. apply frame_skipped; apply _. Qed.
Hint Resolve quiet_informed quiet_skipped frame_remedied frame_CheckEndpointAccess frame_call
  frame_check_interface frame_kubelet_cert frame_validateSkew frame_server_connection frame_proxy
  frame_check_inactive frame_check_access : nodeadm.

Lemma authentication_quiet config : preserves same_provider (AuthenticationValidator_Run config (hnp_printer np)).
Proof using Type*.
  unfold AuthenticationValidator_Run. host_tac; [eauto using same_provider_order with nodeadm|].
  apply quiet_informed, frame_remedied; [apply _|]. host_tac. apply frame_call, _.
Qed.
Hint Resolve authentication_quiet : nodeadm.
Lemma creds_validations_quiet config cfg :
  Forall (quiet_validation same_provider (hnp_printer np))
    (creds_Validations config cfg ++ [New "aws-auth-validation" (on_host (AuthenticationValidator_Run config))]).
Proof using Type*.
  unfold creds_Validations.
  destruct (IsSSM cfg), (IsIAMRolesAnywhere cfg); cbn [app];
    repeat first [apply Forall_nil_2 | apply Forall_cons_2]; apply quiet_on_host;
    unfold ssm_AccessValidator_Run, iamra_AccessValidator_Run.
  all: eauto 10 using same_provider_order with nodeadm.
Qed.
Lemma provider_validations_quiet p :
  Forall (quiet_validation same_provider (hnp_printer np)) (provider_validations np p).
Proof using Type*.
  unfold provider_validations. apply Forall_app. split.
  { destruct (hnp_awsConfig p); [apply creds_validations_quiet|constructor]. }
  repeat first [apply Forall_nil_2 | apply Forall_cons_2]; first [apply quiet_on_host | apply quiet_on_node; intros node];
    unfold NetworkInterfaceValidator_Run, KubeletCertificateValidator_Run, ValidateKubeletVersionSkew,
      ValidateAPIServerEndpointResolution, ProxyValidator_Run, ValidateNodeIsInactive, ValidateClusterAccess.
  all: host_tac.
  all: eauto 10 using same_provider_order with nodeadm.
Qed.

(** *** A run of the validations *)

Lemma hybrid_Validate_checked h h' :
  hybrid_Validate np h = (Return tt, h') →
  provider h' = provider h ∧
  (kubeletVersionSkew ∉ hnp_skipPhases np → ∀ c, hnp_cluster (provider h) = Some c →
    ∃ h1, provider h1 = provider h ∧ within_skew c h1).
Proof using Type*.
  intros E. unfold hybrid_Validate in E. apply bind_Return in E as (p & h0 & [= <- <-] & E).
  set (r := NewRunner (hnp_printer np) _) in *. set (vs := provider_validations np (provider h)) in *.
  destruct (Register_spec r vs) as (Hvs & _ & Hi). cbn in Hvs, Hi.
  apply (Sequentially_member same_provider (hnp_printer np)) in E as [HP Hm];
    [|done|rewrite Hvs; apply Forall_elem; intros v [Hv _]%elem_of_keep; revert v Hv; apply Forall_elem;
      apply provider_validations_quiet].
  split; [exact HP|]. intros Hskip c Hc.
  destruct (Hm (New kubeletVersionSkew (on_node ValidateKubeletVersionSkew))) as (h1 & o & s2 & H11 & HV & Ho).
  { rewrite Hvs. apply elem_of_keep. split.
    - unfold vs, provider_validations. apply elem_of_app. right. set_solver.
    - by apply shouldRegister_spec. }
  cbn in HV. unfold on_node in HV. cbn in HV.
  destruct (ValidateKubeletVersionSkew (hnp_printer np) (hnp_nodeConfig (provider h)) h1) as [o1 h2] eqn:EV.
  injection HV as -> _. unfold ValidateKubeletVersionSkew in EV. cbv [mbind M_bind gets] in EV.
  unfold same_provider in H11. rewrite H11, Hc in EV.
  apply (informed_passes same_provider) in EV as (h3 & o3 & h4 & H13 & EB & Ho3); [|apply _|done].
  exists h3. split; [unfold same_provider in H13; congruence|]. by eapply validateSkew_passes.
Qed.

(** *** The whole flow *)

Lemma http_get_provider uri : preserves same_provider (http_get uri).
Proof using Type. intros h o h' E. unfold http_get in E. by destruct (http_do h uri); injection E as _ <-. Qed.
Lemma GetHttpFile_provider uri : preserves same_provider (GetHttpFile uri).
Proof using Type.
  assert (∀ n err, preserves same_provider (retryHttp_Do n uri err)) as Hr.
  { induction n as [|n IH]; intros err; cbn [retryHttp_Do]; host_tac; apply http_get_provider. }
  unfold GetHttpFile, GetHttpFileReader. host_tac; apply Hr.
Qed.
Hint Resolve GetHttpFile_provider : nodeadm.
Lemma region_config_provider url f region override :
  preserves same_provider
    (try (if String.eqb override "" then GetRegionConfig url f region
          else GetRegionConfigFromManifest f region override)).
Proof using Type.
  unfold GetRegionConfig, GetRegionConfigFromManifest, getReleaseManifest, getReleaseManifestFromURI,
    parse_manifest, region_of. host_tac.
Qed.

(** C3. A successful [init] of a hybrid node checked what it then runs.  The
    configuration, with its defaults, was well formed.  When it lacks
    details of the cluster, the cluster kept is active, has a remote network, and
    -- unless that validation is skipped -- the kubelet installed is at most
    three minor versions behind its API server and not ahead; when it lacks
    none, the user's specification is taken as it is and no cluster is read,
    so that neither is known.  Either way the daemons that were then configured and started are built from exactly the
    configuration and cluster that were validated, the aspects in between
    leaving both alone. *)
Theorem hybrid_init_checked skip override h h' :
  Initer_Run {| init_NodeProvider := hybrid_NodeProvider np; init_SkipPhases := skip;
                ManifestOverride := override |} h = (Return tt, h') →
  let cfg := populate_defaults (hnp_nodeConfig (provider h)) in
  hybrid_wf cfg ∧
  ∃ h1 h2 ds,
    (hybrid_Validate np h1).1 = Return tt ∧ provider h2 = provider h1 ∧
    (complete_details (Cluster (Spec cfg)) = false →
      ∃ c, hnp_cluster (provider h1) = Some c ∧
        eks_Status c = "ACTIVE" ∧ RemoteNetworkConfig c ≠ None ∧
        (kubeletVersionSkew ∉ hnp_skipPhases np →
          ∃ hk, provider hk = provider h1 ∧ within_skew c hk)) ∧
    (complete_details (Cluster (Spec cfg)) = true →
      Spec (hnp_nodeConfig (provider h1)) = Spec cfg ∧
      (hnp_cluster (provider h) = None → hnp_cluster (provider h1) = None)) ∧
    hybrid_GetDaemons np h1 = (Return ds, h1) ∧
    initDaemons (hybrid_NodeProvider np) skip h2 = (Return tt, h') ∧
    hybrid_GetDaemons np h2 = (Return ds, h2).
Proof using Type*.
  intros E cfg. unfold Initer_Run in E. cbn [init_NodeProvider init_SkipPhases ManifestOverride hybrid_NodeProvider
    PopulateNodeConfigDefaults ValidateConfig ConfigureAws GetNodeConfig Enrich Flows.Validate GetAspects np_Cleanup] in E.
  apply bind_Return in E as ([] & ha & [= <-] & E).
  apply bind_Return in E as ([] & hb & EV & E). apply hybrid_ValidateConfig_provider in EV as PV.
  cbn in PV. split; [by apply validators_wf in EV|].
  apply bind_Return in E as ([] & hc & EC & E). apply ConfigureAws_spec in EC as [HS HC]; [|apply _].
  apply bind_Return in E as (cfg1 & hd & [= <- <-] & E).
  apply bind_Return in E as (rc & he & ER & E). apply region_config_provider in ER as PR.
  apply bind_Return in E as ([] & h1 & EE & E).
  apply bind_Return in E as ([] & hv & EH & E). apply hybrid_Validate_checked in EH as HV. destruct HV as [PH HV].
  apply bind_Return in E as (aspects & hw & EA & E). apply bind_Return in E as ([] & h2 & EF & E).
  apply (frame_aspects same_provider _ _ _ _ _ EA) in EF as PA.
  apply bind_Return in E as ([] & h3 & ED & [= <-]).
  unfold same_provider in *. assert (provider h2 = provider h1) as P2 by congruence.
  assert (∃ ds, hybrid_GetDaemons np h2 = (Return ds, h2)) as [ds Hds].
  { pose proof ED as ED'. unfold initDaemons in ED'. apply bind_Return in ED' as ([] & h4 & EP & ED').
    assert (h4 = h2) as -> by (by destruct (slices_Contains skip preprocessPhase); injection EP).
    apply bind_Return in ED' as (ds & h5 & EG & _). exists ds. cbn in EG. rewrite EG.
    unfold hybrid_GetDaemons in EG. cbv [mbind M_bind gets] in EG.
    by destruct (hnp_awsConfig (provider h2)); [injection EG as _ <-|]. }
  exists h1, h2, ds. split; [by rewrite EH|]. split; [done|].
  split; [|split; [|split; [|by split]]].
  - intros Hd. destruct (Enrich_kept _ _ _ EE) as (c & Hc & Hs & Hn).
    { rewrite PR, HS, PV. exact Hd. }
    exists c. split_and!; try done. intros Hk. by apply HV.
  - intros Hd. destruct (Enrich_complete _ _ _ EE) as [Hsp Hcl].
    { rewrite PR, HS, PV. exact Hd. }
    rewrite Hsp, Hcl, PR. split; [by rewrite HS, PV|]. intros Hn. by rewrite HC, PV.
  - unfold hybrid_GetDaemons in *. cbv [mbind M_bind gets] in *. rewrite P2 in Hds.
    destruct (hnp_awsConfig (provider h1)); [|done]. by injection Hds as <-.
Qed.
End Init.

(** ** Witness

    A machine registered with SSM, whose configuration lacks the details of
    its cluster; no validation and no phase is skipped. *)

Example west : CloudEnv := {|
  LookupEnv _ := None; FromEnvironment := ("", ""); ProxyFunc _ := Ok None;
  connect_status _ _ := Ok 200; elapsed := fs; op_outcome _ := Some "done";
  load_config _ _ := None; resolve_region _ _ := "us-west-2";
  resolve_endpoint s _ := Ok {| Scheme := "https"; Hostname := s; url_Port := "" |};
  GetCallerIdentity _ _ := Ok (Some "arn:aws:sts::1:assumed-role/node/i") |}.
Example installed_tools : Env := {|
  fault _ _ := None;
  run_output _ cmd _ :=
    (if String.eqb cmd "kubelet" then "Kubernetes v1.29.2"
     else if String.eqb cmd "containerd"
     then "version = 2" +:+ newline +:+ "sandbox_image = " +:+ dquote +:+ "pause" +:+ dquote +:+ newline
     else "", None);
  run_effect h _ _ := fs h; http_do _ _ := Ok (200, ("", None)); bad_url _ := None;
  look_path _ _ := None; ticks _ := 0%nat; read_part _ _ := "" |}.
Example pulled : ImageService := {|
  ecr_GetAuthorizationToken _ _ := Ok [Some (base64_Encode "user:password")];
  NewImageService _ := None; PullImage _ _ _ := None |}.
Example node_ip : IP := As16 [192; 168; 0; 7].
Example one_address : Network := {|
  LookupIP _ := mret [node_ip]; ResolveBindAddress _ := mret (Some node_ip);
  InterfaceAddrs := mret [Some node_ip] |}.
Example on_prem : HybridNodeProvider := {|
  hnp_daemonManager := quiet_manager; hnp_skipPhases := []; hnp_network := one_address;
  hnp_interfaces := mret []; hnp_certPath := "/none";
  hnp_printer := {| Starting _ _ := mret tt; Done _ _ := mret tt |} |}.
Example ready_node : Host := {|
  fs := <["/etc/eks/image-credential-provider/ecr-credential-provider" := File "" 493]>
        (<["/proc/meminfo" := File ("MemTotal:        2097152 kB" +:+ newline) 292]>
        (<["/etc/fstab" := File "/dev/sda1 / ext4 defaults 0 1" 420]>
        (<["/root/.aws/credentials" := File "" 384]>
        (<["/var/lib/amazon/ssm/registration" := File "mi-1" 384]> ∅))));
  tracker := no_artifacts; journal := [];
  provider := {| hnp_nodeConfig := ssm_cfg; hnp_awsConfig := None; hnp_cluster := None |} |}.

Lemma on_prem_quiet :
  QuietInformer same_provider (hnp_printer on_prem) ∧ QuietNetwork same_provider (hnp_network on_prem) ∧
  QuietManager same_provider (hnp_daemonManager on_prem).
Proof.
  split; [|split]; split; intros; cbn; try done; try (by intros h1 o h2 [= <- <-]); host_tac.
  match goal with H : _ = _ |- _ => by injection H as _ <- end.
Qed.

Lemma hybrid_init_checked_witness :
  let np := hybrid_NodeProvider (H := installed_tools) (H2 := ubuntu_node) (H3 := plain_order) (H4 := pulled)
              (H5 := west) (H6 := small_eks) (H7 := small_cloud) on_prem in
  ∃ h', Initer_Run (H := installed_tools) (H2 := plain_runtime)
    {| init_NodeProvider := np; init_SkipPhases := []; ManifestOverride := "" |} ready_node = (Return tt, h') ∧
  ∃ h1 h2 c hk, initDaemons np [] h2 = (Return tt, h') ∧ provider h2 = provider h1 ∧
    hnp_cluster (provider h1) = Some c ∧ eks_Status c = "ACTIVE" ∧
    within_skew (H := installed_tools) (H7 := small_cloud) c hk.
Proof.
  cbv zeta. match goal with |- ∃ h', ?r = _ ∧ _ => destruct r as [o h'] eqn:E end.
  assert (o = Return tt) as ->.
  { change o with (o, h').1. rewrite <- E. vm_compute. reflexivity. }
  exists h'. split; [reflexivity|]. destruct on_prem_quiet as (QI & QN & QM).
  assert (preserves same_provider (hnp_interfaces on_prem)) as QF by (by intros h o h2 [= <- <-]).
  destruct (hybrid_init_checked on_prem QF [] "" ready_node h' E)
    as (_ & h1 & h2 & ds & _ & P2 & HC & _ & _ & ED & _).
  destruct (HC eq_refl) as (c & Hc & Hs & _ & Hk). destruct Hk as (hk & _ & Hw); [by apply not_elem_of_nil|].
  exists h1, h2, c, hk. split; [exact ED|]. split; [exact P2|]. split; [exact Hc|]. split; [exact Hs|exact Hw].
Defined.
