(* ===== verification/Ec2InitProps.v ===== *)
(** * Initialising an EC2 node

    The flow of [init] over the provider of EC2 nodes, the counterpart of
    InitProps: what a successful run says of the configuration, the instance
    and the daemons together. *)

From S2P Require Import KubeletProps FlowProps InitProps.
From S2P Require Import Prelude GoStrings Host Tracker Semver Api Daemon Installers Validation PackageManager HttpFile.
From S2P Require Import Proxy Retry Aws Aspects Flows Resources ContainerdDaemon KubeletConfig KubeletDaemon.
From S2P Require Import Credentials KubeAccess HybridProvider HybridProps Ec2Provider.
#[local] Open Scope Z_scope.

(** What the static validation of an EC2 node asks for. *)
Record ec2_wf (cfg : NodeConfig) : Prop := {
  ec2_Name : cluster_Name (Cluster (Spec cfg)) ≠ "";
  ec2_Endpoint : APIServerEndpoint (Cluster (Spec cfg)) ≠ "";
  ec2_Ca : CertificateAuthority (Cluster (Spec cfg)) ≠ None;
  ec2_Cidr : CIDR (Cluster (Spec cfg)) ≠ "";
  ec2_Outpost : IsOutpostNode cfg = true → cluster_ID (Cluster (Spec cfg)) ≠ "";
}.

Section Ec2Init.
Context `{Env} `{Semver} `{BackoffLoop} `{KubeletEnv} `{MapOrder} `{ImageService}
        `{CloudEnv} `{ClusterEnv} `{HybridEnv} `{Ec2Env} `{TrackerYaml} `{Runtime}.

(** ** The steps of the provider *)

Lemma ec2_ValidateConfig_wf h h' :
  ec2_ValidateConfig h = (Return tt, h') → ec2_wf (hnp_nodeConfig (provider h)) ∧ h' = h.
Proof using Type.
  intros E. unfold ec2_ValidateConfig, withEc2NodeValidators in E.
  apply bind_Return in E as (cfg & h0 & [= <- <-] & E). inv_ensure E.
  unfold when in E. destruct (IsOutpostNode _) eqn:Eo; [apply ensure_Return in E as [E ->]|injection E as <-].
  all: split; [|done]; split; try by apply present_true.
  - by destruct (CertificateAuthority _).
  - intros _. by apply present_true.
  - by destruct (CertificateAuthority _).
  - by rewrite Eo.
Qed.

(** The wait for the instance returns an output that meets its condition. *)
Lemma waiter_met opts id cond fuel attempt t h o h' :
  waiter_loop opts id cond fuel attempt t h = (Return o, h') →
  ∃ out, o = Some out ∧ cond (Some out) = Ok true.
Proof using Type.
  revert attempt t h. induction fuel as [|fuel IH]; intros attempt t h E; [done|].
  cbn [waiter_loop] in E. unfold waiter_turn in E.
  apply bind_Return in E as (r & h1 & _ & E). apply bind_Return in E as (ready & h2 & ER & E).
  destruct ready as [out|].
  - injection E as <- _. destruct r as [reservations|e]; cbn in ER.
    + destruct (cond (Some reservations)) as [[]|] eqn:EC; [|done|done].
      injection ER as <- _. by exists reservations.
    + unfold instanceRetryable in ER. destruct (api_error_code e) as [c|]; [|done].
      by destruct (String.eqb c _).
  - apply bind_Return in E as (spent & h3 & _ & E). destruct (_ || _); [done|].
    apply bind_Return in E as (delay & h4 & _ & E). apply bind_Return in E as (c & h5 & _ & E).
    destruct c; [done|]. by eapply IH.
Qed.
Lemma waiter_turn_provider opts id cond loop attempt t :
  (∀ a t, preserves same_provider (loop a t)) →
  preserves same_provider (waiter_turn opts id cond loop attempt t).
Proof using Type.
  intros Hl. unfold waiter_turn. host_tac. all: eauto using frame_call, same_provider_order.
  intros h o h' E. by injection E as _ <-.
Qed.
Lemma waiter_provider opts id cond fuel attempt t :
  preserves same_provider (waiter_loop opts id cond fuel attempt t).
Proof using Type.
  revert attempt t. induction fuel as [|fuel IH]; intros attempt t; cbn [waiter_loop]; [host_tac|].
  by apply waiter_turn_provider.
Qed.

Lemma call_Return {A} what (answer : Host → result A) h a h' :
  call what answer h = (Return a, h') → ∃ h1, answer h1 = Ok a.
Proof using Type.
  unfold call. intros E. apply bind_Return in E as ([] & h1 & _ & E).
  apply bind_Return in E as (r & h2 & [= <- <-] & E). exists h1.
  unfold of_result in E. destruct (answer h1); by simplify_eq.
Qed.
Lemma GetInstanceDetails_Return h d h' :
  GetInstanceDetails h = (Return d, h') →
  provider h' = provider h ∧ PrivateDNSName d ≠ "" ∧
  ∃ h1, GetInstanceIdentityDocument h1 =
    Ok (instance_ID d, instance_Region d, instance_Type d, AvailabilityZone d).
Proof using Type.
  intros E. unfold GetInstanceDetails in E.
  apply bind_Return in E as ([[[id region] type] zone] & h1 & ED & E).
  pose proof (frame_call same_provider _ _ _ _ _ ED) as P1.
  apply bind_Return in E as (mac & h2 & EM & E). pose proof (frame_call same_provider _ _ _ _ _ EM) as P2.
  apply bind_Return in E as (name & h3 & EN & E). injection E as <- <-.
  unfold getPrivateDNSName in EN. apply bind_Return in EN as (out & h4 & EW & EN).
  unfold WaitForOutput in EW. cbv zeta in EW.
  destruct (privateDNSNameAvailableTimeout <=? 0); [done|]. destruct (_ <? MinDelay _); [done|].
  pose proof (waiter_provider _ _ _ _ _ _ _ _ _ EW) as P3.
  apply waiter_met in EW as (res & -> & Hmet).
  unfold same_provider in *. cbn.
  destruct res as [|[|nm [|]] [|]]; try done. cbn in Hmet, EN. injection EN as <- <-.
  injection Hmet as Hmet%negb_true_iff%String.eqb_neq.
  split; [congruence|]. split; [done|]. eapply call_Return. exact ED.
Qed.
Lemma GetEKSRegistry_provider region rc : preserves same_provider (GetEKSRegistry region rc).
Proof using Type.
  unfold GetEKSRegistry, getEksRegistryWithServiceDomainAndRegionConfig, LookupHost, GetFipsInfo, GetMetadata.
  host_tac; eauto using frame_call, same_provider_order.
Qed.
Lemma LoadDefaultConfig_Return o h c h' :
  LoadDefaultConfig o h = (Return c, h') →
  aws_Region c = (if String.eqb (aws_Region o) "" then resolve_region o h' else aws_Region o) ∧
  same_provider h h'.
Proof using Type.
  intros E. split; [|by eapply frame_LoadDefaultConfig; [apply _|exact E]].
  unfold LoadDefaultConfig in E. apply bind_Return in E as ([] & h1 & _ & E).
  apply bind_Return in E as (err & h2 & _ & E). apply bind_Return in E as ([] & h3 & _ & E).
  apply bind_Return in E as (region & h4 & [= <- <-] & E). injection E as <- <-.
  by destruct (String.eqb _ "").
Qed.

(** Enrichment changes the status alone. *)
Lemma ec2_Enrich_Return rc h h' :
  ec2_Enrich rc h = (Return tt, h') →
  ∃ d image h1, PrivateDNSName d ≠ "" ∧
    GetInstanceIdentityDocument h1 =
      Ok (instance_ID d, instance_Region d, instance_Type d, AvailabilityZone d) ∧
    provider h' = {|
      hnp_nodeConfig := set_SandboxImage image (set_Instance d (hnp_nodeConfig (provider h)));
      hnp_awsConfig := hnp_awsConfig (provider h); hnp_cluster := hnp_cluster (provider h) |}.
Proof using Type.
  intros E. unfold ec2_Enrich in E. apply bind_Return in E as (c & h1 & EL & E).
  apply LoadDefaultConfig_Return in EL as [_ P1].
  apply bind_Return in E as (d & h2 & ED & E). apply GetInstanceDetails_Return in ED as (P2 & Hd & h3 & Hdoc).
  apply bind_Return in E as ([] & h4 & [= <-] & E).
  apply bind_Return in E as (reg & h5 & ER & E). apply GetEKSRegistry_provider in ER as P3.
  injection E as <-. exists d, (GetSandboxImage reg), h3. split; [done|]. split; [done|].
  unfold same_provider in *. cbn in *. rewrite P3. cbn. by rewrite P2, P1.
Qed.

Lemma ec2_aspects h aspects h1 o h2 :
  ec2_GetAspects h = (Return aspects, h1) → for_each Setup aspects h1 = (o, h2) → same_provider h h2.
Proof using Type.
  unfold ec2_GetAspects. intros E E2. apply bind_Return in E as (cfg & h0 & [= <- <-] & E).
  injection E as <- <-. revert E2. generalize (hnp_nodeConfig (provider h)). intros cfg.
  assert (preserves same_provider (for_each Setup [NewLocalDiskAspect cfg; NewNetworkingAspect cfg]))
    as HF; [|apply HF].
  cbn [for_each Setup NewLocalDiskAspect NewNetworkingAspect].
  unfold localDisk_Setup, networking_Setup, ensureEKSNetworkConfiguration, IsFilePathExists. host_tac.
Qed.

Context (m : DaemonManager) (printer : Informer Host).

(** C4. A successful [init] of an EC2 node ran the daemons of the node it
    described.  The configuration named a cluster with endpoint, certificate
    authority and network, and an outpost's ID; its specification stayed as
    the user wrote it; the instance is the one of the identity document,
    with a private DNS name, which the kubelet needs; and the daemons that
    were configured and started are built from exactly that configuration
    and the AWS configuration loaded for the region in the status as it was
    before the instance was looked at: that region or, when the status names
    none, the one the SDK finds. *)
Theorem ec2_init_described skip override h h' :
  Initer_Run {| init_NodeProvider := ec2_NodeProvider m printer; init_SkipPhases := skip;
                ManifestOverride := override |} h = (Return tt, h') →
  let cfg := hnp_nodeConfig (provider h) in
  ec2_wf cfg ∧
  ∃ h1 h2 ds p d,
    provider h2 = p ∧ status_Instance (Status (hnp_nodeConfig p)) = d ∧
    Spec (hnp_nodeConfig p) = Spec cfg ∧
    GetInstanceIdentityDocument h1 =
      Ok (instance_ID d, instance_Region d, instance_Type d, AvailabilityZone d) ∧
    PrivateDNSName d ≠ "" ∧
    (let options := WithRegion (instance_Region (status_Instance (Status cfg))) in
     ∃ c g g', LoadDefaultConfig options g = (Return c, g') ∧ hnp_awsConfig p = Some c ∧
       aws_Region c = if String.eqb (aws_Region options) "" then resolve_region options g' else aws_Region options) ∧
    ec2_GetDaemons m printer h2 = (Return ds, h2) ∧
    initDaemons (ec2_NodeProvider m printer) skip h2 = (Return tt, h').
Proof using Type.
  intros E cfg. unfold Initer_Run in E. cbn [init_NodeProvider init_SkipPhases ManifestOverride ec2_NodeProvider
    PopulateNodeConfigDefaults ValidateConfig ConfigureAws GetNodeConfig Enrich Flows.Validate GetAspects np_Cleanup] in E.
  apply bind_Return in E as ([] & h0 & [= <-] & E).
  apply bind_Return in E as ([] & h1 & EV & E). apply ec2_ValidateConfig_wf in EV as [Hwf ->].
  split; [exact Hwf|]. apply bind_Return in E as ([] & h2 & EC & E).
  unfold ec2_ConfigureAws in EC. apply bind_Return in EC as (cfg0 & h3 & [= <- <-] & EC).
  apply bind_Return in EC as (c & h4 & EL & [= <-]). pose proof (LoadDefaultConfig_Return _ _ _ _ EL) as [HR P4].
  apply bind_Return in E as (cfg1 & h5 & [= <- <-] & E).
  apply bind_Return in E as (rc & h6 & ER & E). apply region_config_provider in ER as P6.
  apply bind_Return in E as ([] & h7 & EE & E).
  apply ec2_Enrich_Return in EE as (d & image & hd & Hd & Hdoc & P7).
  apply bind_Return in E as ([] & h8 & [= <-] & E).
  apply bind_Return in E as (aspects & h9 & EA & E). apply bind_Return in E as ([] & h10 & EF & E).
  apply (ec2_aspects _ _ _ _ _ EA) in EF as P10.
  apply bind_Return in E as ([] & h11 & ED & [= <-]).
  unfold same_provider in *. rewrite P6 in P7. cbn in P7. rewrite P4 in P7. rewrite <- P10 in P7.
  exists hd, h10. eexists _, _, d. split; [exact P7|]. split; [done|]. split; [done|].
  split; [exact Hdoc|]. split; [exact Hd|]. split; [by do 3 eexists|]. split; [|exact ED].
  unfold ec2_GetDaemons. cbv [mbind M_bind gets]. rewrite P7. reflexivity.
Qed.
End Ec2Init.

(** ** Witness

    An instance of the metadata service, whose name is known at the first
    request. *)

Example ec2_node : KubeletEnv := {|
  fused := false;
  nodeDir := "/sys/devices/system/node";
  cpusPath := "/sys/devices/system/cpu";
  os_name _ := UbuntuOsName;
  metadata path _ := Ok path;
  url_Host u := Ok u;
  lookup_host _ _ := Ok [];
  eniMaxPods := "";
  ec2_config _ _ := None;
  DescribeInstanceTypes _ _ _ := Ok [(Some 3, Some 10)];
  json_config _ := "{}";
  merged_config _ _ := Ok "{}";
  dropin_config _ := Ok "{}" |}.
Example named_instance : Ec2Env := {|
  DescribeInstances _ _ := Ok [[Some "ip-10-0-0-1.ec2.internal"]];
  api_error_code _ := None;
  request_time _ := 100 * Millisecond;
  ComputeDelay _ minDelay _ _ _ := Ok minDelay;
  SleepWithContext _ _ := None;
  GetInstanceIdentityDocument _ := Ok ("i-0", "us-west-2", "m5.large", "us-west-2a") |}.
Example ec2_cfg : NodeConfig :=
  {| Spec := {| Cluster := {| cluster_Name := "prod"; cluster_Region := "us-west-2";
      APIServerEndpoint := "https://api"; CertificateAuthority := Some "CA"; CIDR := "10.100.0.0/16";
      EnableOutpost := None; cluster_ID := "" |};
    spec_Containerd := {| containerd_Config := "" |};
    spec_Instance := {| LocalStorageStrategy := "" |};
    spec_Kubelet := {| Config := ∅; Flags := [] |};
    Hybrid := None |};
     Status := Status empty_config |}.
Example ec2_host : Host := {|
  fs := fs ready_node; tracker := no_artifacts; journal := [];
  provider := {| hnp_nodeConfig := ec2_cfg; hnp_awsConfig := None; hnp_cluster := None |} |}.
Example silent : Informer Host := {| Starting _ _ := mret tt; Done _ _ := mret tt |}.
Abbreviation ec2_provider :=
  (ec2_NodeProvider (H := installed_tools) (H2 := ec2_node) (H3 := plain_order) (H4 := pulled)
     (H5 := west) (H6 := small_eks) (H7 := small_cloud) (H8 := named_instance) quiet_manager silent).
Abbreviation ec2_initer :=
  {| init_NodeProvider := ec2_provider; init_SkipPhases := []; ManifestOverride := "" |}.

(** The fuel of the wait, 180 billion turns, stays a variable. *)
Lemma ec2_init_returns : (Initer_Run (H := installed_tools) (H2 := plain_runtime) ec2_initer ec2_host).1 = Return tt.
Proof.
  unfold ec2_NodeProvider, ec2_Enrich, GetInstanceDetails, getPrivateDNSName, WaitForOutput.
  generalize (Z.to_nat privateDNSNameAvailableTimeout). intros n. vm_compute. reflexivity.
Qed.

Lemma ec2_init_described_witness :
  ∃ h' h2 ds, Initer_Run (H := installed_tools) (H2 := plain_runtime) ec2_initer ec2_host = (Return tt, h') ∧
    instance_ID (status_Instance (Status (hnp_nodeConfig (provider h2)))) = "i-0" ∧
    aws_Region <$> hnp_awsConfig (provider h2) = Some "us-west-2" ∧
    initDaemons ec2_provider [] h2 = (Return tt, h') ∧
    GetDaemons ec2_provider h2 = (Return ds, h2).
Proof.
  destruct (Initer_Run (H := installed_tools) (H2 := plain_runtime) ec2_initer ec2_host) as [o h'] eqn:E.
  assert (o = Return tt) as -> by (change o with (o, h').1; rewrite <- E; exact ec2_init_returns).
  destruct (ec2_init_described quiet_manager silent [] "" ec2_host h' E)
    as (_ & h1 & h2 & ds & p & d & <- & Hi & _ & Hdoc & _ & Hr & HG & HD).
  exists h', h2, ds. split; [reflexivity|]. rewrite Hi. injection Hdoc as <- _ _ _.
  split; [reflexivity|]. destruct Hr as (c & g & g' & _ & Hc & Hr). rewrite Hc. cbn [fmap option_fmap option_map]. rewrite Hr.
  split; [reflexivity|]. split; [exact HD|exact HG].
Defined.
