(* ===== verification/ConfigCheck.v ===== *)
(** * nodeadm config check against init

    Both read the configuration from its source and validate it; init fills
    the defaults in first.  The check is exactly init's validation of
    configurations that leave nothing to the defaults. *)

From S2P Require Import KubeletProps FlowProps InitProps Ec2InitProps.
From S2P Require Import Prelude GoStrings Host Tracker Semver Api Daemon Validation Node Validators Proxy Retry Aws Aspects Flows.
From S2P Require Import Resources ContainerdDaemon KubeletConfig KubeletDaemon Credentials KubeAccess HybridProvider HybridProps.
From S2P Require Import Network Ec2Provider ConfigSource.
#[local] Open Scope Z_scope.

(** The paths the validation looks at are written in the configuration. *)
Definition paths_given (cfg : NodeConfig) : Prop :=
  match spec_iam cfg with
  | Some i => CertificatePath i ≠ "" ∧ PrivateKeyPath i ≠ ""
  | None => True
  end.

Section Check.
Context `{Env} `{Semver} `{BackoffLoop} `{KubeletEnv} `{MapOrder} `{ImageService}
        `{CloudEnv} `{ClusterEnv} `{HybridEnv} `{Ec2Env} `{ConfigEnv}.

Lemma or_default_given v d : v ≠ "" → or_default v d = v.
Proof using Type. intros Hv. unfold or_default. by rewrite (proj2 (String.eqb_neq _ _)). Qed.

(** Of the defaults the validation sees two paths. *)
Lemma defaults_unseen cfg h :
  paths_given cfg → withHybridValidators (populate_defaults cfg) h = withHybridValidators cfg h.
Proof using Type.
  unfold paths_given, populate_defaults. destruct (spec_iam cfg) as [i|] eqn:Hi; [|done].
  intros [Hc Hk]. unfold withHybridValidators, spec_iam, spec_ssm, IsIAMRolesAnywhere, IsSSM in *.
  destruct cfg as [[cl co ins k hy] st]. cbn in *. destruct hy as [[f iam ssm]|]; [|done].
  cbn in *. subst iam. unfold validateRolesAnywhereNode, default_iam. cbn.
  by rewrite !or_default_given.
Qed.
Lemma validated_paths cfg h h' : withHybridValidators cfg h = (Return tt, h') → paths_given cfg.
Proof using Type.
  intros E. unfold withHybridValidators in E. inv_ensure E.
  apply bind_Return in E as ([] & h1 & EI & _). unfold paths_given.
  destruct (spec_iam cfg) as [i|]; [|done]. unfold validateRolesAnywhereNode in EI. inv_ensure EI.
  apply bind_Return in EI as (f & h2 & _ & EI). inv_ensure EI.
  apply bind_Return in EI as ([] & h3 & _ & EI). inv_ensure EI.
  rewrite !present_true in *. done.
Qed.
Lemma checked_iff cfg h h' :
  withHybridValidators cfg h = (Return tt, h') ↔
  paths_given cfg ∧ withHybridValidators (populate_defaults cfg) h = (Return tt, h').
Proof using Type.
  split.
  - intros E. apply validated_paths in E as Hp. split; [done|]. by rewrite defaults_unseen.
  - intros [Hp E]. by rewrite defaults_unseen in E.
Qed.

Context (connect : M Host DaemonManager) (network : Network.Network)
        (interfaces : M Host (list Interface)) (printer : Informer Host).
Hypothesis connect_quiet : preserves same_provider connect.

(** The provider that was just made holds the configuration read. *)
Definition fresh_provider (cfg : NodeConfig) : ProviderState :=
  {| hnp_nodeConfig := cfg; hnp_awsConfig := None; hnp_cluster := None |}.

Lemma fresh_validates cfg skip h h' :
  (np ← (if IsHybridNode cfg
         then NewHybridNodeProvider connect network interfaces printer cfg skip
         else NewEc2NodeProvider connect printer cfg);
   ValidateConfig np) h = (Return tt, h') ↔
  ∃ m h2, connect (set_provider (fresh_provider cfg) h) = (Return m, h2) ∧
    (if IsHybridNode cfg then withHybridValidators cfg else withEc2NodeValidators cfg) h2 = (Return tt, h').
Proof using Type*.
  unfold fresh_provider.
  assert (∀ m h2, connect (set_provider {| hnp_nodeConfig := cfg; hnp_awsConfig := None;
    hnp_cluster := None |} h) = (Return m, h2) → hnp_nodeConfig (provider h2) = cfg) as HQ
    by (intros m h2 EC; apply connect_quiet in EC; unfold same_provider in EC; by rewrite EC).
  destruct (IsHybridNode cfg); unfold NewHybridNodeProvider, NewEc2NodeProvider; rewrite bind_Return; split.
  1,3: intros (np & h3 & E1 & E); apply bind_Return in E1 as ([] & hm & [= <-] & E1);
    apply bind_Return in E1 as (m & h2 & EC & [= <- <-]); exists m, h2; split; [done|];
    apply HQ in EC; revert E; unfold ValidateConfig; cbn [hybrid_NodeProvider ec2_NodeProvider];
    unfold hybrid_ValidateConfig, ec2_ValidateConfig, shared_config, mbind, M_bind, gets; by rewrite EC.
  all: intros (m & h2 & EC & E); apply HQ in EC as HC; eexists _, h2; split;
    [by unfold mbind, M_bind, modify; rewrite EC|];
    unfold ValidateConfig; cbn [hybrid_NodeProvider ec2_NodeProvider];
    unfold hybrid_ValidateConfig, ec2_ValidateConfig, shared_config, mbind, M_bind, gets; by rewrite HC.
Qed.

(** C6. [config check] succeeds exactly when its source reads twice, the
    daemon manager answers, and init's own validation -- of the second
    reading with the defaults filled in -- succeeds for a configuration that
    writes out the paths of an IAM Roles Anywhere certificate and key; an EC2
    configuration is validated as init does.  So what the check accepts init
    accepts, and only such defaults make the check stricter. *)
Theorem config_check_iff src h h' :
  Check_Run connect network interfaces printer src h = (Return tt, h') ↔
  ∃ c0 h0 cfg h1 m h2,
    read_config src h = (Return c0, h0) ∧ read_config src h0 = (Return cfg, h1) ∧
    connect (set_provider (fresh_provider cfg) h1) = (Return m, h2) ∧
    if IsHybridNode cfg
    then paths_given cfg ∧ withHybridValidators (populate_defaults cfg) h2 = (Return tt, h')
    else withEc2NodeValidators cfg h2 = (Return tt, h').
Proof using Type*.
  assert (∀ cfg h2,
    (if IsHybridNode cfg then withHybridValidators cfg else withEc2NodeValidators cfg) h2 = (Return tt, h') ↔
    if IsHybridNode cfg
    then paths_given cfg ∧ withHybridValidators (populate_defaults cfg) h2 = (Return tt, h')
    else withEc2NodeValidators cfg h2 = (Return tt, h')) as Hv
    by (intros cfg h2; destruct (IsHybridNode cfg); [apply checked_iff|done]).
  unfold Check_Run, NewNodeProvider. split.
  - intros E. apply bind_Return in E as (c0 & h0 & E0 & E).
    apply bind_Return in E as (np & h2 & E1 & E). apply bind_Return in E1 as (cfg & h1 & ER & E1).
    destruct (proj1 (fresh_validates cfg [] h1 h')) as (m & h3 & EC & EV).
    { apply bind_Return. by exists np, h2. }
    exists c0, h0, cfg, h1, m, h3. by rewrite <- Hv.
  - intros (c0 & h0 & cfg & h1 & m & h2 & E0 & E1 & EC & E). apply Hv in E.
    apply bind_Return. exists c0, h0. split; [done|].
    assert (∃ m h2, connect (set_provider (fresh_provider cfg) h1) = (Return m, h2) ∧
      (if IsHybridNode cfg then withHybridValidators cfg else withEc2NodeValidators cfg) h2 = (Return tt, h'))
      as HE by eauto.
    apply (fresh_validates cfg [] h1 h'), bind_Return in HE as (np & h3 & EN & EV).
    apply bind_Return. exists np, h3. split; [|done]. apply bind_Return. by exists cfg, h1.
Qed.
End Check.

(** *** Two configurations of the metadata service *)

Example served (cfg : NodeConfig) : ConfigEnv := {|
  url_Parse _ := Ok ("imds", "", ""); user_data _ := Ok "";
  mail_ReadMessage _ := Err (ENew "no header"); ParseMediaType s := Ok (s, ∅);
  multipart_parts _ _ := [];
  UniversalDecode _ := Ok (KindNodeConfig, GroupName, inr cfg);
  yaml_UnmarshalStrict _ := Ok cfg;
  json := string; json_Unmarshal_value s := Ok s; json_Marshal_value s := Ok s;
  mergo_maps a b := Ok (b ∪ a); mergo_Merge _ dst _ := Ok dst |}.
Example pem_cloud : HybridEnv := {|
  pem_Decode s := Some s;
  x509_ParseCertificate s := Ok {| NotBefore := 0; NotAfter := 10; raw_cert := s |};
  Verify _ _ _ := None; time_Now _ := 5;
  semver_Parse := semver_Parse (HybridEnv := small_cloud);
  arn_Parse := arn_Parse (HybridEnv := small_cloud);
  ListAccessEntries := ListAccessEntries (HybridEnv := small_cloud);
  max_pages := 1%nat; json_provider _ := "{}"; exit_code _ := None;
  parse_registration := parse_registration (HybridEnv := small_cloud) |}.
(** IAM Roles Anywhere with the certificate and key where the defaults have
    them. *)
Example default_paths : NodeConfig := {|
  Spec := {| Cluster := Cluster (Spec ssm_cfg); spec_Containerd := spec_Containerd (Spec ssm_cfg);
    spec_Instance := spec_Instance (Spec ssm_cfg); spec_Kubelet := spec_Kubelet (Spec ssm_cfg);
    Hybrid := Some {| EnableCredentialsFile := false; hybrid_SSM := None;
      hybrid_IAMRolesAnywhere := Some {| iam_NodeName := "node-1"; TrustAnchorARN := "anchor";
        ProfileARN := "profile"; RoleARN := "role"; AwsConfigPath := ""; CertificatePath := "";
        PrivateKeyPath := "" |} |} |};
  Status := Status empty_config |}.
Example pki_host : Host := {|
  fs := <["/etc/iam/pki/server.pem" := File "cert" 384]> (<["/etc/iam/pki/server.key" := File "key" 384]> ∅);
  tracker := no_artifacts; journal := []; provider := no_provider |}.

Abbreviation check cfg :=
  (Check_Run (H0 := served cfg) (H3 := ubuntu_node) (H4 := plain_order) (H5 := pulled) (H6 := west)
     (H7 := small_eks) (H8 := pem_cloud) (H9 := named_instance)
     (mret quiet_manager) one_address (mret []) silent "imds://").

(** The check accepts the activation of ssm_cfg; it rejects [default_paths],
    which init accepts. *)
Lemma config_check_iff_witness :
  (∃ h' h2, check ssm_cfg pki_host = (Return tt, h') ∧
    withHybridValidators (H6 := small_eks) (H7 := pem_cloud) (populate_defaults ssm_cfg) h2 = (Return tt, h')) ∧
  (∃ e, (check default_paths pki_host).1 = Throw e) ∧
  (withHybridValidators (H6 := small_eks) (H7 := pem_cloud) (populate_defaults default_paths) pki_host).1 = Return tt.
Proof.
  split; [|split; [by eexists; vm_compute|vm_compute; reflexivity]].
  destruct (check ssm_cfg pki_host) as [o h'] eqn:E.
  assert (o = Return tt) as -> by (change o with (o, h').1; rewrite <- E; vm_compute; reflexivity).
  exists h'. assert (preserves same_provider (mret quiet_manager : M Host DaemonManager)) as HQ
    by (intros h1 o1 h2 [= _ <-]; reflexivity).
  destruct (proj1 (config_check_iff (H9 := served ssm_cfg) _ _ _ _ HQ "imds://" pki_host h') E)
    as (c0 & h0 & cfg & h1 & m & h2 & E0 & E1 & EC & EV).
  assert (cfg = ssm_cfg) as -> by (vm_compute in E0; injection E0 as <- <-; vm_compute in E1; by injection E1 as <- <-).
  exists h2. split; [reflexivity|]. apply EV.
Defined.
