(* ===== verification/Skips.v ===== *)
(** * The names that --skip accepts (cmd/nodeadm/init, cmd/nodeadm/upgrade)

    The help of init and upgrade lists names for --skip, and the commands
    hand the list to the parts, which look for names of their own.  Two lists
    that agree on those, and on being empty, run a command alike: the proof
    relates the two runs step by step.  SkipProps has the converse. *)

From S2P Require Import Prelude GoStrings Host HttpFile Semver Tracker Api Node Retry Daemon Validation Validators Flows Commands.
From S2P Require Import Network Proxy Aspects ContainerdDaemon KubeletConfig KubeletDaemon Credentials KubeAccess HybridProvider.
From S2P Require Import Ec2Provider ConfigSource.
From S2P Require Import CommandProps KubeletProps FlowProps HybridProps InitProps Ec2InitProps ConfigCheck.
#[local] Open Scope Z_scope.

(** ** The lists of the help *)

Definition Phases : list string :=
  ["install-validation"; "cni-validation"; "node-ip-validation"; "credentials-validation";
   "kubelet-cert-validation"; "ssm-api-network-validation"; "iam-ra-api-network-validation";
   "aws-auth-validation"; "k8s-endpoint-network-validation"; "k8s-authentication-validation";
   "kubelet-version-skew-validation"; "api-server-endpoint-resolution-validation";
   "proxy-validation"; "node-inactive-validation"; "preprocess"; "config"; "run"].
Definition upgradePhases : list string :=
  Phases ++ ["init-validation"; "pod-validation"; "node-validation"].

(** ** The names the parts look for

    The flow looks for preprocess too, but neither node provider does anything
    before the daemons. *)

Definition daemon_names : list string :=
  [configPhase; runPhase; kubernetesAuthenticationValidation].
Definition provider_names : list string :=
  ["ssm-api-network"; "iam-ra-api-network"; "aws-auth-validation"; "node-ip-validation";
   "kubelet-cert-validation"; kubeletVersionSkew; "api-server-endpoint-resolution-validation";
   "proxy-validation"; nodeInactiveValidation; clusterAccessValidation].
Definition init_heeds : list string :=
  installValidation :: cniPortCheckValidation :: provider_names ++ daemon_names.
Definition upgrade_heeds : list string :=
  [initNodePreflightCheck; skipPodPreflightCheck; skipNodePreflightCheck; containerdMajorVersionUpgrade] ++
  daemon_names.

(** The names of a help that the parts do not look for. *)
Definition deaf (heeds names : list string) : list string :=
  keep (λ n, negb (slices_Contains heeds n)) names.
(** These work though the help has them not. *)
Example init_unlisted :
  deaf Phases init_heeds = ["ssm-api-network"; "iam-ra-api-network"; "cluster-access-validation"].
Proof. reflexivity. Qed.
Example upgrade_unlisted : deaf upgradePhases upgrade_heeds = ["containerd-major-version-upgrade"].
Proof. reflexivity. Qed.

(** ** Two runs side by side *)

Inductive orel {A B} (R : A → B → Prop) : outcome A → outcome B → Prop :=
  | orel_Return a b : R a b → orel R (Return a) (Return b)
  | orel_Throw e : orel R (Throw e) (Throw e)
  | orel_Panic : orel R Panic Panic.
Definition mrel {W A B} (R : A → B → Prop) (m : M W A) (m' : M W B) : Prop :=
  ∀ w, orel R (m w).1 (m' w).1 ∧ (m w).2 = (m' w).2.

Section Relation.
Context {W : Type}.

Lemma mrel_refl {A} (m : M W A) : mrel eq m m.
Proof. intros w. split; [destruct (m w).1; by constructor|done]. Qed.
Lemma mrel_eq {A} (m m' : M W A) : mrel eq m m' → ∀ w, m w = m' w.
Proof.
  intros H w. destruct (H w) as [Ho Hs]. destruct (m w), (m' w). cbn in *. subst.
  f_equal. by inversion Ho; subst.
Qed.
Lemma mrel_ret {A B} (R : A → B → Prop) a b : R a b → mrel R (mret a : M W A) (mret b).
Proof. intros H w. split; [by constructor|done]. Qed.
Lemma mrel_throw {A B} (R : A → B → Prop) e : mrel R (throw e : M W A) (throw e : M W B).
Proof. intros w. split; [by constructor|done]. Qed.
Lemma mrel_bind {A B C D} (R : A → B → Prop) (S : C → D → Prop)
    (m : M W A) (m' : M W B) (f : A → M W C) (f' : B → M W D) :
  mrel R m m' → (∀ a b, R a b → mrel S (f a) (f' b)) → mrel S (m ≫= f) (m' ≫= f').
Proof.
  intros Hm Hf w. unfold mbind, M_bind. destruct (Hm w) as [Ho Hs].
  destruct (m w) as [o w1], (m' w) as [o' w2]. cbn in *. subst w2.
  inversion Ho as [a b Hr|e|]; subst; [apply (Hf _ _ Hr w1)|by split; constructor..].
Qed.
(** The same step first. *)
Lemma mrel_step {A C D} (S : C → D → Prop) (m : M W A) (f : A → M W C) (f' : A → M W D) :
  (∀ a, mrel S (f a) (f' a)) → mrel S (m ≫= f) (m ≫= f').
Proof. intros H. apply (mrel_bind eq); [apply mrel_refl|]. by intros a _ <-. Qed.
Lemma mrel_read {A C D} (S : C → D → Prop) (g g' : W → A) (f : A → M W C) (f' : A → M W D) :
  (∀ w, g w = g' w) → (∀ a, mrel S (f a) (f' a)) → mrel S (gets g ≫= f) (gets g' ≫= f').
Proof. intros Hg H. apply (mrel_bind eq); [intros w; cbn; rewrite Hg; split; [by constructor|done]|]. by intros a _ <-. Qed.
End Relation.

(** ** Lists that agree *)

Definition agree (heeds l l' : list string) : Prop :=
  (l = [] ↔ l' = []) ∧ ∀ n, n ∈ heeds → (n ∈ l ↔ n ∈ l').

Lemma agree_mono heeds heeds' l l' :
  (∀ n, n ∈ heeds' → n ∈ heeds) → agree heeds l l' → agree heeds' l l'.
Proof. intros Hs [He Ha]. split; [exact He|auto]. Qed.
Lemma agree_Contains heeds l l' n :
  agree heeds l l' → n ∈ heeds → slices_Contains l n = slices_Contains l' n.
Proof.
  intros [_ Ha] Hn. destruct (slices_Contains l n) eqn:E.
  - symmetry. apply slices_Contains_spec, Ha, slices_Contains_spec; done.
  - symmetry. apply slices_Contains_false. rewrite <- Ha by done. by apply slices_Contains_false.
Qed.

(** A runner over validations with heeded names. *)
Lemma Register_agree (printer : Informer Host) heeds l l' (vs : list (Validation (O := NodeConfig))) cfg :
  agree heeds l l' → Forall (λ v, Name v ∈ heeds) vs →
  Sequentially (Register (NewRunner printer [WithSkipValidations l]) vs) cfg =
  Sequentially (Register (NewRunner printer [WithSkipValidations l']) vs) cfg.
Proof.
  intros Ha Hv. unfold Sequentially.
  set (r := NewRunner printer [WithSkipValidations l]). set (r' := NewRunner printer [WithSkipValidations l']).
  destruct (Register_spec r vs) as (-> & _ & ->). destruct (Register_spec r' vs) as (-> & _ & ->).
  assert (keep (λ v, shouldRegister r (Name v)) vs = keep (λ v, shouldRegister r' (Name v)) vs) as ->; [|done].
  induction Hv as [|v vs Hn _ IH]; cbn [keep]; [done|]. rewrite IH, !shouldRegister_Contains.
  change (skipValidations (config r)) with l. change (skipValidations (config r')) with l'.
  by rewrite (agree_Contains heeds l l').
Qed.

(** ** Node providers that act alike, but for their validation *)

Record np_like (np np' : NodeProvider) : Prop := {
  like_config : ∀ h, GetNodeConfig np h = GetNodeConfig np' h;
  like_defaults : mrel eq (PopulateNodeConfigDefaults np) (PopulateNodeConfigDefaults np');
  like_valid : mrel eq (ValidateConfig np) (ValidateConfig np');
  like_aws : mrel eq (ConfigureAws np) (ConfigureAws np');
  like_enrich r : mrel eq (Enrich np r) (Enrich np' r);
  like_aspects : mrel eq (GetAspects np) (GetAspects np');
  like_preprocess : PreProcessDaemon np = mret tt ∧ PreProcessDaemon np' = mret tt;
  like_daemons : mrel eq (GetDaemons np) (GetDaemons np');
  like_cleanup : mrel eq (np_Cleanup np) (np_Cleanup np');
}.
Lemma np_like_refl np : PreProcessDaemon np = mret tt → np_like np np.
Proof. by split; intros; try apply mrel_refl. Qed.

Section Skips.
Context `{Env} `{Semver} `{TrackerYaml} `{Runtime} `{BackoffLoop} `{KubeletEnv} `{MapOrder} `{ImageService}
        `{CloudEnv} `{ClusterEnv} `{HybridEnv} `{Ec2Env} `{ConfigEnv}.
Context (cli : Cli) (network : Network.Network) (interfaces : M Host (list Interface)) (printer : Informer Host).

(** The command line, with the provider of ConfigSource.v. *)
Definition nodeadm_cli : Cli := {|
  IsRunningAsRoot := IsRunningAsRoot;
  NewDaemonManager := NewDaemonManager;
  Commands.NewNodeProvider := NewNodeProvider NewDaemonManager network interfaces printer;
  Commands.NewFirewallManager := Commands.NewFirewallManager;
  LoadAwsConfig := LoadAwsConfig;
  OsName := OsName;
  KubeClientFromKubeConfig := KubeClientFromKubeConfig;
  ObjectMeta_of_yaml := ObjectMeta_of_yaml;
  ProviderID_of_yaml := ProviderID_of_yaml |}.

Lemma provider_names_heeded np p : Forall (λ v, Name v ∈ provider_names) (provider_validations np p).
Proof using Type.
  unfold provider_validations, creds_Validations.
  destruct (hnp_awsConfig p), (IsSSM (hnp_nodeConfig p)), (IsIAMRolesAnywhere (hnp_nodeConfig p)); cbn [app];
    repeat constructor; apply (bool_decide_unpack _); vm_compute; exact I.
Qed.

Definition with_skips (l : list string) (np : HybridNodeProvider) : HybridNodeProvider :=
  {| hnp_daemonManager := hnp_daemonManager np; hnp_skipPhases := l; hnp_network := hnp_network np;
     hnp_interfaces := hnp_interfaces np; hnp_certPath := hnp_certPath np; hnp_printer := hnp_printer np |}.

Lemma hybrid_like l l' np :
  agree daemon_names l l' →
  np_like (hybrid_NodeProvider (with_skips l np)) (hybrid_NodeProvider (with_skips l' np)).
Proof using Type.
  intros Ha. split; intros; cbn [hybrid_NodeProvider GetNodeConfig PopulateNodeConfigDefaults ValidateConfig
    ConfigureAws Enrich GetAspects PreProcessDaemon GetDaemons np_Cleanup]; try done; try apply mrel_refl.
  unfold hybrid_GetDaemons. apply mrel_step. intros p. destruct (hnp_awsConfig p); [|apply mrel_throw].
  apply mrel_ret. cbn [with_skips hnp_skipPhases hnp_daemonManager hnp_printer]. do 2 f_equal.
  unfold NewKubeletDaemon, kubelet_Configure. destruct Ha as [He Ha].
  assert (as_slice l = None ∧ as_slice l' = None ∨ as_slice l = Some l ∧ as_slice l' = Some l') as [[-> ->]|[-> ->]].
  { destruct l as [|x l], l' as [|x' l']; cbn; auto; exfalso; naive_solver. }
  { done. }
  rewrite (Register_agree _ daemon_names l l'); [done|by split|].
  repeat constructor.
Qed.
Lemma hybrid_Validate_like l l' np :
  agree provider_names l l' →
  mrel eq (hybrid_Validate (with_skips l np)) (hybrid_Validate (with_skips l' np)).
Proof using Type.
  intros Ha. unfold hybrid_Validate. apply mrel_step. intros p.
  cbn [with_skips hnp_skipPhases hnp_printer].
  change (provider_validations (with_skips l np) p) with (provider_validations (with_skips l' np) p).
  rewrite (Register_agree _ provider_names l l') by (done || apply provider_names_heeded).
  apply mrel_refl.
Qed.

Lemma NewNodeProvider_like src l l' :
  agree daemon_names l l' →
  mrel (λ np np', np_like np np' ∧ (agree provider_names l l' → mrel eq (Flows.Validate np) (Flows.Validate np')))
    (NewNodeProvider NewDaemonManager network interfaces printer src l)
    (NewNodeProvider NewDaemonManager network interfaces printer src l').
Proof using Type.
  intros Ha. unfold NewNodeProvider. apply mrel_step. intros cfg. destruct (IsHybridNode cfg).
  - unfold NewHybridNodeProvider. do 2 (apply mrel_step; intros ?). apply mrel_ret.
    pose (np := {| hnp_daemonManager := a0; hnp_skipPhases := l; hnp_network := network;
      hnp_interfaces := interfaces; hnp_certPath := kubeletCurrentCertPath; hnp_printer := printer |}).
    split; [exact (hybrid_like l l' np Ha)|exact (hybrid_Validate_like l l' np)].
  - unfold NewEc2NodeProvider. do 2 (apply mrel_step; intros ?). apply mrel_ret.
    split; [by apply np_like_refl|intros _; apply mrel_refl].
Qed.

Lemma when_like heeds l l' n (m m' : M Host unit) :
  agree heeds l l' → n ∈ heeds → mrel eq m m' →
  mrel eq (when (negb (slices_Contains l n)) m) (when (negb (slices_Contains l' n)) m').
Proof using Type.
  intros Ha Hn Hm. rewrite (agree_Contains heeds l l') by done.
  destruct (slices_Contains l' n); [apply mrel_refl|exact Hm].
Qed.

Lemma initDaemons_like l l' np np' :
  agree daemon_names l l' → np_like np np' → mrel eq (initDaemons np l) (initDaemons np' l').
Proof using Type.
  intros Ha Hl. unfold initDaemons.
  destruct (like_preprocess _ _ Hl) as [-> ->].
  apply (mrel_bind eq); [do 2 destruct (slices_Contains _ preprocessPhase); apply mrel_refl|intros _ _ _].
  apply (mrel_bind eq); [apply Hl|intros ds _ <-].
  apply (mrel_bind eq); [apply (when_like daemon_names); [done|by left|apply mrel_refl]|intros _ _ _].
  apply (when_like daemon_names); [done|by right; left|apply mrel_refl].
Qed.

Lemma Initer_Run_like l l' np np' override :
  agree daemon_names l l' → np_like np np' → mrel eq (Flows.Validate np) (Flows.Validate np') →
  mrel eq (Initer_Run {| init_NodeProvider := np; init_SkipPhases := l; ManifestOverride := override |})
          (Initer_Run {| init_NodeProvider := np'; init_SkipPhases := l'; ManifestOverride := override |}).
Proof using Type.
  intros Ha Hl Hv. unfold Initer_Run. cbn [init_NodeProvider init_SkipPhases ManifestOverride].
  do 3 (apply (mrel_bind eq); [apply Hl|intros _ _ _]).
  apply mrel_read; [apply Hl|intros cfg]. apply mrel_step. intros r.
  apply (mrel_bind eq); [apply Hl|intros _ _ _]. apply (mrel_bind eq); [exact Hv|intros _ _ _].
  apply (mrel_bind eq); [apply Hl|intros aspects _ <-]. apply mrel_step. intros _.
  apply (mrel_bind eq); [by apply initDaemons_like|intros _ _ _]. apply Hl.
Qed.

Lemma Upgrader_Run_like l l' np np' src pm creds installed priv :
  agree upgrade_heeds l l' → np_like np np' →
  mrel eq
    (Upgrader_Run {| up_NodeProvider := np; up_AwsSource := src; up_PackageManager := pm;
       up_CredentialProvider := creds; up_Artifacts := installed; up_SkipPhases := l; up_PrivateMode := priv |})
    (Upgrader_Run {| up_NodeProvider := np'; up_AwsSource := src; up_PackageManager := pm;
       up_CredentialProvider := creds; up_Artifacts := installed; up_SkipPhases := l'; up_PrivateMode := priv |}).
Proof using Type.
  intros Ha Hl. unfold Upgrader_Run, upgradeDistroPackages, upgradeCredentialProvider, upgradeEksArtifacts.
  cbn [up_NodeProvider up_AwsSource up_PackageManager up_CredentialProvider up_Artifacts up_SkipPhases up_PrivateMode].
  rewrite (agree_Contains upgrade_heeds l l' containerdMajorVersionUpgrade) by (done || (repeat constructor)).
  apply mrel_step. intros _. apply (mrel_bind eq).
  { repeat case_match; try apply mrel_refl. apply mrel_read; [apply Hl|intros cfg; apply mrel_refl]. }
  intros _ _ _. apply mrel_step. intros _. do 2 (apply (mrel_bind eq); [apply Hl|intros _ _ _]).
  apply (mrel_bind eq); [apply initDaemons_like; [|done]|intros _ _ _; apply Hl].
  revert Ha. apply agree_mono. intros n Hn. apply elem_of_app. by right.
Qed.

(** The flows of two preparations. *)
Definition flows_like {F} (run : F → M Host unit) (a b : option F) : Prop :=
  match a, b with
  | Some i, Some j => mrel eq (run i) (run j)
  | None, None => True
  | _, _ => False
  end.
Lemma run_like {F} (run : F → M Host unit) (p q : M Host (option F)) :
  mrel (flows_like run) p q →
  mrel eq (p ≫= λ a, match a with None => mret tt | Some i => run i end)
          (q ≫= λ a, match a with None => mret tt | Some i => run i end).
Proof using Type. intros Hp. apply (mrel_bind _ _ _ _ _ _ Hp). intros [i|] [j|] Hr; try done. apply mrel_refl. Qed.

#[local] Existing Instance nodeadm_cli.

Lemma init_like src daemons override priv l l' :
  agree init_heeds l l' →
  mrel (flows_like Initer_Run)
    (init_prepare {| initc_configSource := src; initc_skipPhases := l; initc_daemons := daemons;
       initc_manifestOverride := override; initc_privateMode := priv |})
    (init_prepare {| initc_configSource := src; initc_skipPhases := l'; initc_daemons := daemons;
       initc_manifestOverride := override; initc_privateMode := priv |}).
Proof using Type.
  intros Ha. unfold init_prepare. cbn [initc_configSource initc_skipPhases initc_daemons initc_manifestOverride initc_privateMode].
  assert (agree daemon_names l l') as Hd by (revert Ha; apply agree_mono; intros n Hn; do 2 right; apply elem_of_app; by right).
  assert (agree provider_names l l') as Hp by (revert Ha; apply agree_mono; intros n Hn; do 2 right; apply elem_of_app; by left).
  do 3 (apply mrel_step; intros _).
  rewrite (agree_Contains init_heeds l l' installValidation) by (done || by left).
  apply mrel_step. intros [|]; cbn [negb]; [|by apply mrel_ret].
  apply (mrel_bind eq); [apply (when_like init_heeds); [done|by right; left|apply mrel_refl]|intros _ _ _].
  apply (mrel_bind _ _ _ _ _ _ (NewNodeProvider_like src l l' Hd)). intros np np' [Hl Hv].
  apply mrel_ret. apply Initer_Run_like; auto.
Qed.

Lemma upgrade_like ctx src version override priv timeout l l' :
  agree upgrade_heeds l l' →
  mrel (flows_like Upgrader_Run)
    (upgrade_prepare ctx {| upc_configSource := src; upc_skipPhases := l; upc_kubernetesVersion := version;
       upc_manifestOverride := override; upc_privateMode := priv; upc_timeout := timeout |})
    (upgrade_prepare ctx {| upc_configSource := src; upc_skipPhases := l'; upc_kubernetesVersion := version;
       upc_manifestOverride := override; upc_privateMode := priv; upc_timeout := timeout |}).
Proof using Type.
  intros Ha. unfold upgrade_prepare.
  cbn [upc_configSource upc_skipPhases upc_kubernetesVersion upc_manifestOverride upc_privateMode upc_timeout].
  assert (agree daemon_names l l') as Hd by (revert Ha; apply agree_mono; intros n Hn; apply elem_of_app; by right).
  do 3 (apply mrel_step; intros _). apply mrel_step. intros [installed|e];
    [|destruct (os_IsNotExist e); [by apply mrel_ret|apply mrel_throw]].
  apply (mrel_bind eq); [apply (when_like upgrade_heeds); [done|by left|apply mrel_refl]|intros _ _ _].
  apply (mrel_bind _ _ _ _ _ _ (NewNodeProvider_like src l l' Hd)). intros np np' [Hl _].
  do 2 (apply (mrel_bind eq); [apply Hl|intros _ _ _]).
  apply mrel_read; [apply Hl|intros cfg]. do 5 (apply mrel_step; intros ?).
  apply (mrel_bind eq); [|intros _ _ _].
  { unfold check_running_kubelet.
    rewrite (agree_Contains upgrade_heeds l l' skipPodPreflightCheck) by (done || (repeat constructor)).
    rewrite (agree_Contains upgrade_heeds l l' skipNodePreflightCheck) by (done || (repeat constructor)).
    apply mrel_refl. }
  apply mrel_step. intros pm. apply mrel_ret. by apply Upgrader_Run_like.
Qed.

(** Init and upgrade see of the names given to --skip those the parts look
    for and nothing else: with two lists that hold the same of these names
    and are empty together, a command does the same steps with the same
    result from every state. *)
Theorem skips_agree :
  (∀ src daemons override priv l l' h, agree init_heeds l l' →
    Init_Run {| initc_configSource := src; initc_skipPhases := l; initc_daemons := daemons;
                initc_manifestOverride := override; initc_privateMode := priv |} h =
    Init_Run {| initc_configSource := src; initc_skipPhases := l'; initc_daemons := daemons;
                initc_manifestOverride := override; initc_privateMode := priv |} h) ∧
  (∀ ctx src version override priv timeout l l' h, agree upgrade_heeds l l' →
    Upgrade_Run ctx {| upc_configSource := src; upc_skipPhases := l; upc_kubernetesVersion := version;
                       upc_manifestOverride := override; upc_privateMode := priv; upc_timeout := timeout |} h =
    Upgrade_Run ctx {| upc_configSource := src; upc_skipPhases := l'; upc_kubernetesVersion := version;
                       upc_manifestOverride := override; upc_privateMode := priv; upc_timeout := timeout |} h).
Proof using Type.
  split; intros; apply mrel_eq, run_like; [by apply init_like|by apply upgrade_like].
Qed.
End Skips.
