(* ===== verification/SkipProps.v ===== *)
(** * Which names --skip makes a difference for (cmd/nodeadm/init,
      cmd/nodeadm/upgrade)

    A name is seen by a command when, on some machine and with some other
    names skipped as well, giving it changes the run.  Skips shows that no
    name but those the parts look for is seen; here a run of each of these
    names shows that it is. *)

From S2P Require Import Prelude GoStrings Host HttpFile Semver Tracker Artifact Installers PackageManager Aws Ssm Api Node Retry Daemon Validation Flows Commands.
From S2P Require Import Network ContainerdDaemon KubeletConfig KubeletDaemon Credentials KubeAccess HybridProvider.
From S2P Require Import Ec2Provider ConfigSource.
From S2P Require Import CommandProps KubeletProps FlowProps HybridProps InitProps Ec2InitProps ConfigCheck Skips.
#[local] Open Scope Z_scope.

(** ** A machine

    Everything outside of the program. *)

Record Machine := {
  m_env : Env; m_semver : Semver; m_yaml : TrackerYaml; m_runtime : Runtime; m_loop : BackoffLoop;
  m_kubelet : KubeletEnv; m_order : MapOrder; m_images : ImageService; m_cloud : CloudEnv;
  m_cluster : ClusterEnv; m_hybrid : HybridEnv; m_ec2 : Ec2Env; m_config : ConfigEnv;
  m_cli : Cli; m_network : Network; m_interfaces : M Host (list Interface); m_printer : Informer Host }.

Definition machine_cli (m : Machine) : Cli :=
  nodeadm_cli (H := m_env m) (H0 := m_semver m) (H3 := m_loop m) (H4 := m_kubelet m) (H5 := m_order m)
    (H6 := m_images m) (H7 := m_cloud m) (H8 := m_cluster m) (H9 := m_hybrid m) (H10 := m_ec2 m)
    (H11 := m_config m) (m_cli m) (m_network m) (m_interfaces m) (m_printer m).
Definition run_init (m : Machine) : InitCommand → M Host unit :=
  Init_Run (H := m_env m) (H1 := m_yaml m) (H2 := m_runtime m) (H4 := machine_cli m).
Definition run_upgrade (m : Machine) : Ctx → UpgradeCommand → M Host unit :=
  Upgrade_Run (H := m_env m) (H0 := m_semver m) (H1 := m_yaml m) (H2 := m_runtime m) (H3 := m_loop m)
    (H4 := machine_cli m).

(** The command with one more name. *)
Definition init_skip (n : string) (c : InitCommand) : InitCommand :=
  {| initc_configSource := initc_configSource c; initc_skipPhases := n :: initc_skipPhases c;
     initc_daemons := initc_daemons c; initc_manifestOverride := initc_manifestOverride c;
     initc_privateMode := initc_privateMode c |}.
Definition upgrade_skip (n : string) (c : UpgradeCommand) : UpgradeCommand :=
  {| upc_configSource := upc_configSource c; upc_skipPhases := n :: upc_skipPhases c;
     upc_kubernetesVersion := upc_kubernetesVersion c; upc_manifestOverride := upc_manifestOverride c;
     upc_privateMode := upc_privateMode c; upc_timeout := upc_timeout c |}.

(** The first name of all also makes the list one that is not nil, which the
    kubelet daemon tells from nil; that is not what the name does. *)
Definition init_sees (n : string) : Prop :=
  ∃ m c h, initc_skipPhases c ≠ [] ∧ run_init m (init_skip n c) h ≠ run_init m c h.
Definition upgrade_sees (n : string) : Prop :=
  ∃ m ctx c h, upc_skipPhases c ≠ [] ∧ run_upgrade m ctx (upgrade_skip n c) h ≠ run_upgrade m ctx c h.

Lemma agree_unheeded heeds n l : n ∉ heeds → l ≠ [] → agree heeds (n :: l) l.
Proof.
  intros Hn Hl. split; [by split|]. intros k Hk. rewrite elem_of_cons. split; [|by right].
  by intros [->|?].
Qed.
Lemma init_deaf n : n ∉ init_heeds → ¬ init_sees n.
Proof.
  intros Hn (m & [src l daemons override priv] & h & Hl & []).
  by apply (proj1 (skips_agree _ _ _ _)), agree_unheeded.
Qed.
Lemma upgrade_deaf n : n ∉ upgrade_heeds → ¬ upgrade_sees n.
Proof.
  intros Hn (m & ctx & [src l version override priv timeout] & h & Hl & []).
  by apply (proj2 (skips_agree _ _ _ _)), agree_unheeded.
Qed.

(** Two runs that make different numbers of calls differ. *)
Definition calls {A} (r : outcome A * Host) : nat := length (journal r.2).
Lemma init_seen m c h n :
  initc_skipPhases c ≠ [] → (calls (run_init m (init_skip n c) h) =? calls (run_init m c h))%nat = false →
  init_sees n.
Proof. intros Hl Hn. exists m, c, h. split; [done|]. intros E. by rewrite E, Nat.eqb_refl in Hn. Qed.
Lemma upgrade_seen m ctx c h n :
  upc_skipPhases c ≠ [] →
  (calls (run_upgrade m ctx (upgrade_skip n c) h) =? calls (run_upgrade m ctx c h))%nat = false →
  upgrade_sees n.
Proof. intros Hl Hn. exists m, ctx, c, h. split; [done|]. intros E. by rewrite E, Nat.eqb_refl in Hn. Qed.

(** ** Machines on which the names are seen *)

(** An informer whose reports are calls. *)
Example loud : Informer Host := {| Starting n _ := external (EvCall n); Done _ _ := mret tt |}.
(** A firewall is up, with the ports closed. *)
Example walled_cli : Cli := {|
  IsRunningAsRoot := IsRunningAsRoot (Cli := cordoned_cli);
  NewDaemonManager := Commands.NewDaemonManager (Cli := cordoned_cli);
  Commands.NewNodeProvider := Commands.NewNodeProvider (Cli := cordoned_cli);
  NewFirewallManager := mret {| IsEnabled := mret true; FlushRules := mret tt; IsPortOpen _ _ := mret false |};
  LoadAwsConfig := LoadAwsConfig (Cli := cordoned_cli); OsName := OsName (Cli := cordoned_cli);
  KubeClientFromKubeConfig := KubeClientFromKubeConfig (Cli := cordoned_cli);
  ObjectMeta_of_yaml := ObjectMeta_of_yaml (Cli := cordoned_cli);
  ProviderID_of_yaml := ProviderID_of_yaml (Cli := cordoned_cli) |}.
(** The machine of an SSM node, and of a node of IAM Roles Anywhere with a
    release to upgrade to, whose binaries are those it has. *)
Example ssm_machine (cli : Cli) : Machine := {|
  m_env := installed_tools; m_semver := plain_semver; m_yaml := plain_yaml; m_runtime := plain_runtime;
  m_loop := ten_polls; m_kubelet := ubuntu_node; m_order := plain_order; m_images := pulled; m_cloud := west;
  m_cluster := small_eks; m_hybrid := small_cloud; m_ec2 := named_instance; m_config := served ssm_cfg;
  m_cli := cli; m_network := one_address; m_interfaces := mret []; m_printer := loud |}.
Example release_131 : Manifest :=
  let entry n := {| Aws.Name := n; Arch := "amd64"; OS := "linux"; URI := "https://a/" +:+ n;
                    ChecksumURI := "https://a/" +:+ n +:+ ".sha256"; GzipURI := "" |} in
  {| SupportedEksReleases := [{| MajorMinorVersion := "1.30"; LatestPatchVersion := "4";
       PatchReleases := [{| Version := "1.30.4"; PatchVersion := "4"; ReleaseDate := "2025-01-02";
         Artifacts := entry <$> ["kubelet"; "kubectl"; "cni-plugins"; "ecr-credential-provider";
                                 "aws-iam-authenticator"] |}] |}];
     IamRolesAnywhereReleases := [{| IamVersion := "v1.2.0"; IamArtifacts := [entry "aws_signing_helper"] |}];
     SsmReleases := []; RegionConfig := RegionConfig manifest_130 |}.
Example ira_machine : Machine := {|
  m_env := {|
    fault _ _ := None; run_output := run_output (Env := installed_tools); run_effect h _ _ := fs h;
    http_do := http_do (Env := checksum_everywhere); bad_url _ := None;
    look_path := look_path (Env := yum_host); ticks _ := 0%nat; read_part _ _ := "" |};
  m_semver := plain_semver; m_yaml := plain_yaml;
  m_runtime := {|
    goarch := "amd64"; goos := "linux"; kubelet_unit := "[Unit]"; manifest_url := "https://m";
    home := None; variant_order := toVariant; codename _ := "noble";
    sha256 _ := "kl"; gunzip b := Ok b; untar := cni_tar; evalSymlinks _ _ := ("", None);
    pgp_verify _ _ _ := None; json_Unmarshal _ := Ok (Some []); json_MarshalIndent _ := Ok "{}";
    json_registration _ := Ok {| ManagedInstanceID := "mi-0"; RegRegion := "us-west-2" |};
    yaml_manifest _ := Ok release_131 |};
  m_loop := ten_polls; m_kubelet := ubuntu_node; m_order := plain_order; m_images := pulled; m_cloud := west;
  m_cluster := small_eks; m_hybrid := pem_cloud; m_ec2 := named_instance; m_config := served default_paths;
  m_cli := cordoned_cli; m_network := one_address; m_interfaces := mret []; m_printer := loud |}.
(** A node installed with containerd from this source. *)
Example ira_host (source : string) : Host := {|
  fs := <["/opt/nodeadm/tracker" := File (source +:+ ",00100100") 420]>
        (<[kubelet_config_path := File "eks-hybrid:///us-west-2/prod/mi-0123" 420]>
        (<["/usr/local/bin/aws_signing_helper" := File "" 493]> (<["/usr/bin/kubelet" := File "" 493]>
        (<["/usr/local/bin/kubectl" := File "" 493]> (<["/usr/local/bin/aws-iam-authenticator" := File "" 493]>
        (<["/etc/iam/pki/server.pem" := File "" 420]> (<["/etc/iam/pki/server.key" := File "" 420]>
        (fs ready_node))))))));
  tracker := no_artifacts; journal := []; provider := no_provider |}.

Abbreviation init_skipping l :=
  {| initc_configSource := "imds://"; initc_skipPhases := l; initc_daemons := []; initc_manifestOverride := "";
     initc_privateMode := false |}.
Abbreviation upgrade_skipping l :=
  {| upc_configSource := "imds://"; upc_skipPhases := l; upc_kubernetesVersion := "1.30";
     upc_manifestOverride := ""; upc_privateMode := false; upc_timeout := 0 |}.
Abbreviation two_names := ["install-validation"; "k8s-authentication-validation"].

Ltac seen_on m c h := apply (init_seen m c h); [done|vm_compute; reflexivity].
Lemma init_heeds_seen : Forall init_sees init_heeds.
Proof.
  unfold init_heeds, provider_names, daemon_names. cbn [app].
  repeat (apply Forall_cons_2; [|]); [..|by apply Forall_nil_2].
  1: seen_on (ssm_machine cordoned_cli) (init_skipping ["config"]) ready_node.
  14: seen_on (ssm_machine cordoned_cli) (init_skipping ["install-validation"]) ready_node.
  all: first [seen_on (ssm_machine cordoned_cli) (init_skipping two_names) ready_node
             |seen_on (ssm_machine walled_cli) (init_skipping two_names) ready_node
             |seen_on ira_machine (init_skipping two_names) (ira_host "none")].
Qed.
Ltac upgrade_seen_on l h :=
  apply (upgrade_seen ira_machine {| ctx_base := 0; ctx_timeouts := [] |} (upgrade_skipping l) h);
    [done|vm_compute; reflexivity].
Lemma upgrade_heeds_seen : Forall upgrade_sees upgrade_heeds.
Proof.
  unfold upgrade_heeds, daemon_names. cbn [app].
  repeat (apply Forall_cons_2; [|]); [..|by apply Forall_nil_2].
  all: first [upgrade_seen_on ["install-validation"] (ira_host "none")
             |upgrade_seen_on ["install-validation"] (ira_host "distro")
             |upgrade_seen_on ["k8s-authentication-validation"] (ira_host "none")].
Qed.

(** C7. A name given to --skip next to others can change a run of init exactly
    when it is one of the fifteen that its parts look for, and one of upgrade
    exactly when it is one of its seven.  Five of the names in the help of
    init, and fourteen of those in the help of upgrade, do nothing. *)
Theorem skips_heeded :
  (∀ n, init_sees n ↔ n ∈ init_heeds) ∧
  (∀ n, upgrade_sees n ↔ n ∈ upgrade_heeds) ∧
  deaf init_heeds Phases =
    ["credentials-validation"; "ssm-api-network-validation"; "iam-ra-api-network-validation";
     "k8s-endpoint-network-validation"; "preprocess"] ∧
  deaf upgrade_heeds upgradePhases =
    ["install-validation"; "cni-validation"; "node-ip-validation"; "credentials-validation";
     "kubelet-cert-validation"; "ssm-api-network-validation"; "iam-ra-api-network-validation";
     "aws-auth-validation"; "k8s-endpoint-network-validation"; "kubelet-version-skew-validation";
     "api-server-endpoint-resolution-validation"; "proxy-validation"; "node-inactive-validation"; "preprocess"].
Proof.
  split_and!; [intros n..|reflexivity|reflexivity].
  - destruct (decide (n ∈ init_heeds)) as [Hn|Hn].
    + split; [done|intros _]. by apply (proj1 (Forall_elem _ _) init_heeds_seen).
    + split; [intros Hs; by destruct (init_deaf n Hn)|done].
  - destruct (decide (n ∈ upgrade_heeds)) as [Hn|Hn].
    + split; [done|intros _]. by apply (proj1 (Forall_elem _ _) upgrade_heeds_seen).
    + split; [intros Hs; by destruct (upgrade_deaf n Hn)|done].
Qed.
