(* ===== verification/DebugProps.v ===== *)
(** * What a success of debug says

    The debug command registers validators of most parts of the program and
    runs them one after another.  Its success is taken apart into theirs. *)

From S2P Require Import KubeletProps FlowProps InitProps Ec2InitProps ConfigCheck.
From S2P Require Import Prelude GoStrings Host Tracker Semver Api Daemon Validation Validators Swap Network Proxy Aspects Flows.
From S2P Require Import Retry Node ContainerdDaemon KubeletConfig KubeletDaemon Credentials KubeAccess HybridProvider HybridProps.
From S2P Require Import Ec2Provider ConfigSource Debug.
#[local] Open Scope Z_scope.

(** Nothing is asked of the hosts. *)
Definition anywhere (_ _ : Host) : Prop := True.
#[export] Instance anywhere_order : HostOrder anywhere.
Proof. by split. Qed.

Section Debug.
Context `{Env} `{Semver} `{BackoffLoop} `{CloudEnv} `{ClusterEnv} `{DebugEnv}
        `{ConfigEnv} `{KubeletEnv} `{HybridEnv}.
Context (network : Network.Network) (interfaces : M Host (list Interface)) (printer : Informer Host) `{!QuietInformer anywhere printer}.

(** The validators do not write the configuration, whatever else they do. *)
Lemma keeps_UntilError i name vs :
  Forall (quiet_validation anywhere i) vs →
  quiet_validation anywhere i (New name (UntilError (validate <$> vs))).
Proof using Type.
  intros Hf s o s' E. cbn in E. split; [|done]. unfold UntilError in E. revert s E.
  induction Hf as [|v vs Hv _ IH]; intros s E; cbn in E; [by injection E as _ <-|].
  unfold mbind, M_bind in E. destruct (validate v i s) as [[[]|e|] s1] eqn:EV;
    apply Hv in EV as [EV _]; [apply IH in E; congruence| |]; by injection E as _ <-.
Qed.
Lemma keeps_registered aws cfg r d cluster :
  Forall (quiet_validation anywhere printer)
    (local_validations aws cfg ++ cluster_validations r d ++ node_validations network interfaces cluster).
Proof using Type.
  assert (∀ name run, quiet_validation anywhere printer (New name (on_host run))) as Hh
    by (intros; by apply quiet_on_host).
  assert (∀ name run, quiet_validation anywhere printer (New name (on_node run))) as Hn
    by (intros; by apply quiet_on_node).
  unfold local_validations, creds_Validations, cluster_validations, node_validations.
  rewrite !Forall_app. split_and!.
  - destruct (IsSSM cfg), (IsIAMRolesAnywhere cfg); repeat first [apply Forall_nil_2 | apply Forall_cons_2]; auto.
  - repeat first [apply Forall_nil_2 | apply Forall_cons_2]; auto.
  - apply Forall_cons_2; [|by apply Forall_cons_2; [auto|constructor]].
    apply keeps_UntilError. apply Forall_elem. intros v [Hv _]%elem_of_keep. revert v Hv.
    apply Forall_elem. repeat first [apply Forall_nil_2 | apply Forall_cons_2]; auto.
  - repeat first [apply Forall_nil_2 | apply Forall_cons_2]; auto.
Qed.

(** A runner that skips nothing. *)
Lemma Register_all (r : Runner (O := NodeConfig) (W := Host)) vs :
  skipValidations (config r) = [] →
  validations (Register r vs) = validations r ++ vs ∧
  config (Register r vs) = config r ∧ informer (Register r vs) = informer r.
Proof using Type.
  intros Hs. destruct (Register_spec r vs) as (Hv & Hc & Hi). split; [|done]. rewrite Hv, keep_all; [done|].
  apply Forall_elem. intros v _. apply shouldRegister_spec. rewrite Hs. apply not_elem_of_nil.
Qed.

(** C5. The debug command succeeds only for a node it found nothing wrong
    with: the configuration, the AWS configuration and the details of the
    cluster could be read, and every one of its validators -- of the
    credentials, the host, the proxies, the cluster and the node -- ran on
    that configuration and returned no error but warnings; in particular
    the API server shows the node ready.  Nothing is skipped, and one
    validator's success does not stand for another's. *)
Theorem debug_ok src h h' :
  Debug_Run network interfaces printer src h = (Return tt, h') →
  ∃ cfg aws d cluster,
    (∃ h1 h2, read_config src h1 = (Return cfg, h2)) ∧
    (∃ h1 h2, ReadConfigAsKubelet cfg h1 = (Return aws, h2)) ∧
    (∃ h1 cache h2, ReadClusterDetails aws cfg None h1 = (Return (d, cache), h2)) ∧
    (∀ v, v ∈ local_validations aws cfg ++
              cluster_validations (Register (NewRunner printer []) (local_validations aws cfg)) d ++
              node_validations network interfaces cluster →
      ∃ h1 o s, validate v printer (cfg, h1) = (o, s) ∧ passes o) ∧
    ∃ name client ctx n h1 h2,
      get_k8s_node client name ctx h1 = ((Some n, None), h2) ∧ node_ready n.
Proof using Type*.
  intros E. unfold Debug_Run in E. apply bind_Return in E as ([] & h0 & _ & E).
  apply bind_Return in E as (cfg & h1 & EC & E). apply bind_Return in E as (aws & h2 & EA & E).
  apply bind_Return in E as ([] & h3 & _ & E). apply bind_Return in E as (r & h4 & ER & E).
  destruct r as [[d cache]|e]; [|by repeat (apply bind_Return in E as ([] & ? & _ & E))].
  apply bind_Return in E as (cluster & h5 & _ & E). apply map_err_Return in E.
  set (cl := match cluster with Ok c => Some c | Err _ => None end) in *.
  exists cfg, aws, d, cl. split; [eauto|]. split; [eauto|]. split.
  { unfold try in ER. destruct (ReadClusterDetails aws cfg None h3) as [[x|e|] h6] eqn:EX; try done.
    injection ER as -> _. eauto. }
  set (r0 := NewRunner printer []) in *. set (ls := local_validations aws cfg) in *.
  destruct (Register_all r0 ls eq_refl) as (V1 & C1 & I1).
  destruct (Register_all (Register r0 ls) (cluster_validations (Register r0 ls) d)) as (V2 & C2 & I2);
    [by rewrite C1|].
  destruct (Register_all (Register (Register r0 ls) (cluster_validations (Register r0 ls) d))
    (node_validations network interfaces cl)) as (V3 & C3 & I3); [by rewrite C2, C1|].
  rewrite V2, V1, (eq_refl : validations r0 = []), app_nil_l, <- app_assoc in V3.
  apply (Sequentially_member anywhere printer) in E as [_ Hm];
    [|by rewrite I3, I2, I1|rewrite V3; apply keeps_registered].
  rewrite V3 in Hm. split.
  - intros v Hv. destruct (Hm v Hv) as (h6 & o & s & _ & HV & Ho). by exists h6, o, s.
  - destruct (Hm (New "active-node-validation" (on_node (ActiveNodeValidator_Run (NewActiveNodeValidator [])))))
      as (h6 & o & s & _ & HV & Ho); [rewrite !elem_of_app; right; right; by right; left|].
    cbn in HV. unfold on_node in HV. cbn in HV.
    destruct (ActiveNodeValidator_Run _ printer cfg h6) as [o1 h7] eqn:EV. injection HV as -> _.
    apply (informed_passes anywhere) in EV as (h8 & o2 & h9 & _ & EB & Ho2); [|done..].
    destruct o2 as [[]|e|]; [|apply active_body_Throw in EB as [Hu Hw]|done].
    + apply active_body_ready in EB as (name & client & n & _ & (ctx & h10 & h11 & Hg) & Hn). by eauto 10.
    + cbn in Ho2. rewrite Hu in Ho2. inversion Ho2. congruence.
Qed.
End Debug.

(** ** Witness

    A registered node of a cluster whose API server is reached. *)

Example healthy_tools : Env := {|
  fault _ _ := None;
  run_output _ cmd _ :=
    (if String.eqb cmd "kubelet" then "Kubernetes v1.31.2"
     else if String.eqb cmd "bash" then "unlimited" else "", None);
  run_effect h _ _ := fs h; http_do _ _ := Ok (200, ("", None)); bad_url _ := None;
  look_path _ _ := None; ticks _ := 0%nat; read_part _ _ := "" |}.
Example node_client : ApiClient := {|
  get_kubernetes_endpoints _ h :=
    (([{| Ports := [("https", 443)]; Addresses := ["10.0.0.1"] |}], None), h);
  create_review _ _ h :=
    (({| Username := "system:node:mi-1"; Groups := ["system:nodes"]; arns := [] |}, None), h) |}.
Example reached : ClusterEnv := {|
  DescribeCluster _ _ _ := Ok active_cluster;
  ParseRequestURI s := Ok {| Scheme := "https"; Hostname := s; url_Port := "" |};
  LookupIPAddr _ _ := Ok ["10.0.0.1"];
  KubeAccess.AppendCertsFromPEM s := Some [s];
  https_get _ _ _ := Ok (401, ("{}", None));
  json_Message s := Ok s;
  BuildClient := mret node_client |}.
Example one_interface : M Host (list Interface) := mret
  [{| if_Name := "eth0"; MTU := 1500; FlagLoopback := false; FlagUp := true; Addrs := Ok [Some node_ip] |}].
Example debug_host : Host :=
  {| fs := <["/var/lib/kubelet/pki/kubelet-server-current.pem" := File "cert" 384]>
       (<["/etc/fstab" := File "/dev/sda1 / ext4 defaults 0 1" 420]> (fs kubelet_host));
     tracker := no_artifacts; journal := []; provider := no_provider |}.
Abbreviation debug :=
  (Debug_Run (H := healthy_tools) (H2 := west) (H3 := reached) (H4 := slow_node) (H5 := served ssm_cfg)
     (H6 := ubuntu_node) (H7 := pem_cloud) one_address one_interface Debug.debug_silent "imds://").

Lemma debug_silent_quiet : QuietInformer anywhere Debug.debug_silent.
Proof. by split. Qed.

Lemma debug_ok_witness : ∃ h',
  debug debug_host = (Return tt, h') ∧
  ∃ name client ctx n h1 h2,
    get_k8s_node (DebugEnv := slow_node) client name ctx h1 = ((Some n, None), h2) ∧ node_ready n.
Proof.
  destruct (debug debug_host) as [o h'] eqn:E.
  assert (o = Return tt) as -> by (change o with (o, h').1; rewrite <- E; vm_compute; reflexivity).
  exists h'. split; [reflexivity|].
  destruct (debug_ok one_address one_interface Debug.debug_silent (QuietInformer0 := debug_silent_quiet) "imds://" debug_host h' E)
    as (cfg & aws & d & cluster & _ & _ & _ & _ & Hn).
  exact Hn.
Defined.
