(* ===== verification/CommandLine.v ===== *)
(** * The command line (cmd/nodeadm and cmd/e2e-test: the constructors of the
      commands; internal/cli: container.go, options.go, help.go)

    What each command registers with flaggy: its name, its help, its
    positional values and its flags, every flag with the field it fills in.
    Splitting the arguments and reading a value from its text is the
    library's; [store] stands for the latter. *)

From S2P Require Import Prelude GoStrings GoTime Host Retry Tracker Validation Main Ssm Flows Commands SyncArtifacts Skips E2e E2eCommands Sweeper.
#[local] Open Scope Z_scope.

(** ** Flags, positional values and subcommands *)

(** The types of variables a flag can fill in. *)
Inductive flag_type := FString | FBool | FInt | FDuration | FStringSlice.
Definition flag_value (t : flag_type) : Type :=
  match t with
  | FString => string
  | FBool => bool
  | FInt | FDuration => Z
  | FStringSlice => list string
  end.

Record Flag (C : Type) := NewFlag {
  ShortName : string;
  LongName : string;
  Description : string;
  type : flag_type;
  (** [&cmd.field]: reading it and assigning to it. *)
  read : C → flag_value type;
  write : flag_value type → C → C;
}.
Arguments NewFlag {C}. Arguments ShortName {C}. Arguments LongName {C}. Arguments Description {C}.
Arguments type {C}. Arguments read {C}. Arguments write {C}.

(** [AddPositionalValue], always of a string. *)
Record Positional (C : Type) := AddPositionalValue {
  pos_Name : string;
  pos_Position : Z;
  pos_Required : bool;
  pos_Description : string;
  pos_read : C → string;
  pos_write : string → C → C;
}.
Arguments AddPositionalValue {C}. Arguments pos_Name {C}. Arguments pos_Position {C}.
Arguments pos_Required {C}. Arguments pos_Description {C}. Arguments pos_read {C}. Arguments pos_write {C}.

(** What a constructor leaves: the subcommand and the options with their
    defaults. *)
Record Subcommand (C : Type) := NewSubcommand {
  sub_Name : string;
  sub_Description : string;
  AdditionalHelpPrepend : string;
  AdditionalHelpAppend : string;
  Positionals : list (Positional C);
  Flags : list (Flag C);
  Initial : C;
}.
Arguments NewSubcommand {C}. Arguments sub_Name {C}. Arguments sub_Description {C}.
Arguments AdditionalHelpPrepend {C}. Arguments AdditionalHelpAppend {C}.
Arguments Positionals {C}. Arguments Flags {C}. Arguments Initial {C}.

(** Assigning to one field of a record that [eta] rebuilds from its fields:
    the field [f] is replaced in it. *)
Ltac setter eta f :=
  let t := eval unfold eta in eta in
  let t := eval pattern f in t in
  match t with
  | ?g _ => let r := eval cbv beta in (λ v, g (λ _, v)) in exact r
  end.

Abbreviation flag_String eta f short long desc :=
  (NewFlag short long desc FString f ltac:(setter eta f)) (only parsing).
Abbreviation flag_Bool eta f short long desc :=
  (NewFlag short long desc FBool f ltac:(setter eta f)) (only parsing).
Abbreviation flag_Int eta f short long desc :=
  (NewFlag short long desc FInt f ltac:(setter eta f)) (only parsing).
Abbreviation flag_Duration eta f short long desc :=
  (NewFlag short long desc FDuration f ltac:(setter eta f)) (only parsing).
Abbreviation flag_StringSlice eta f short long desc :=
  (NewFlag short long desc FStringSlice f ltac:(setter eta f)) (only parsing).
Abbreviation positional eta f name pos required desc :=
  (AddPositionalValue name pos required desc f ltac:(setter eta f)) (only parsing).

(** ** install (install/install.go) *)

Definition install_eta (c : InstallCommand) : InstallCommand := {|
  ic_kubernetesVersion := ic_kubernetesVersion c; ic_credentialProvider := ic_credentialProvider c;
  ic_containerdSource := ic_containerdSource c; ic_region := ic_region c;
  ic_manifestOverride := ic_manifestOverride c; ic_privateMode := ic_privateMode c;
  ic_timeout := ic_timeout c |}.

Definition installHelpText : string :=
  "Examples:
  # Install Kubernetes version 1.31 with AWS Systems Manager (SSM) as the credential provider
  nodeadm install 1.31 --credential-provider ssm

  # Install Kubernetes version 1.31 with AWS IAM Roles Anywhere as the credential provider and Docker as the containerd source
  nodeadm install 1.31 --credential-provider iam-ra --containerd-source docker

  # Install from a private installation using a local custom manifest (for air-gapped environments)
  nodeadm install 1.31 --credential-provider ssm --manifest-override file://./manifest-1.31.13-arm64-linux-1765487946.yaml --private-mode

  # Install from a private installation using a remote custom manifest
  nodeadm install 1.31 --credential-provider ssm --manifest-override https://my-bucket.s3.us-west-2.amazonaws.com/manifests/manifest.yaml --private-mode

Documentation:
  https://docs.aws.amazon.com/eks/latest/userguide/hybrid-nodes-nodeadm.html#_install".

Definition install_NewCommand : Subcommand InstallCommand :=
  NewSubcommand "install" "Install components required to join an EKS cluster"
    "" installHelpText
    [positional install_eta ic_kubernetesVersion "KUBERNETES_VERSION" 1 true
       "The major[.minor[.patch]] version of Kubernetes to install."]
    [flag_String install_eta ic_credentialProvider "p" "credential-provider"
       "Credential process to install. Allowed values: [ssm, iam-ra].";
     flag_String install_eta ic_containerdSource "s" "containerd-source"
       "Source for containerd artifact. Allowed values: [none, distro, docker].";
     flag_String install_eta ic_region "r" "region"
       "AWS region for downloading regional artifacts.";
     flag_String install_eta ic_manifestOverride "m" "manifest-override"
       "URI to a manifest file containing custom artifact URLs. Supports file:// for local files and https:// for remote files.";
     flag_Bool install_eta ic_privateMode "" "private-mode"
       "Enable private installation mode (skips OS packages, requires --manifest-override).";
     flag_Duration install_eta ic_timeout "t" "timeout"
       "Maximum install command duration. Input follows duration format. Example: 1h23s"]
    {| ic_kubernetesVersion := ""; ic_credentialProvider := "";
       ic_containerdSource := ContainerdSourceDistro; ic_region := DefaultSsmInstallerRegion;
       ic_manifestOverride := ""; ic_privateMode := false; ic_timeout := 20 * Minute |}.

(** ** init (init/init.go) *)

Definition init_eta (c : InitCommand) : InitCommand := {|
  initc_configSource := initc_configSource c; initc_skipPhases := initc_skipPhases c;
  initc_daemons := initc_daemons c; initc_manifestOverride := initc_manifestOverride c;
  initc_privateMode := initc_privateMode c |}.

Definition initHelpText : string :=
  "Examples:
  # Initialize using configuration file
  nodeadm init --config-source file://nodeConfig.yaml

Documentation:
  https://docs.aws.amazon.com/eks/latest/userguide/hybrid-nodes-nodeadm.html#_init".

Definition NewInitCommand : Subcommand InitCommand :=
  NewSubcommand "init" "Initialize this instance as a node in an EKS cluster"
    "" initHelpText
    []
    [flag_String init_eta initc_configSource "c" "config-source"
       "Source of node configuration. The format is a URI with supported schemes: [file, imds].";
     flag_StringSlice init_eta initc_daemons "d" "daemon"
       "Specify one or more of `containerd` and `kubelet`. This is intended for testing and should not be used in a production environment.";
     flag_StringSlice init_eta initc_skipPhases "s" "skip"
       ("Phases of the bootstrap to skip. Allowed values: [" +:+ Join Skips.Phases ", " +:+ "].");
     flag_String init_eta initc_manifestOverride "m" "manifest-override"
       "URI to a manifest file containing custom artifact URLs. Supports file:// for local files and https:// for remote files.";
     flag_Bool init_eta initc_privateMode "" "private-mode"
       "Enable private init mode (requires --manifest-override for region config)."]
    {| initc_configSource := ""; initc_skipPhases := []; initc_daemons := [];
       initc_manifestOverride := ""; initc_privateMode := false |}.

(** ** upgrade (upgrade/upgrade.go) *)

Definition upgrade_eta (c : UpgradeCommand) : UpgradeCommand := {|
  upc_configSource := upc_configSource c; upc_skipPhases := upc_skipPhases c;
  upc_kubernetesVersion := upc_kubernetesVersion c;
  upc_manifestOverride := upc_manifestOverride c; upc_privateMode := upc_privateMode c;
  upc_timeout := upc_timeout c |}.

Definition upgradeHelpText : string :=
  "Examples:
  # Upgrade all components
  nodeadm upgrade 1.31 --config-source file:///root/nodeConfig.yaml

  # Upgrade all components with a custom timeout
  nodeadm upgrade 1.31 --config-source file:///root/nodeConfig.yaml --timeout 1h23s

Documentation:
  https://docs.aws.amazon.com/eks/latest/userguide/hybrid-nodes-nodeadm.html#_upgrade".

Definition NewUpgradeCommand : Subcommand UpgradeCommand :=
  NewSubcommand "upgrade" "Upgrade components installed using the install sub-command"
    "" upgradeHelpText
    [positional upgrade_eta upc_kubernetesVersion "KUBERNETES_VERSION" 1 true
       "The major[.minor[.patch]] version of Kubernetes to install."]
    [flag_String upgrade_eta upc_configSource "c" "config-source"
       "Source of node configuration. The format is a URI with supported schemes: [file, imds].";
     flag_StringSlice upgrade_eta upc_skipPhases "s" "skip"
       ("Phases of the upgrade to skip. Allowed values: [" +:+ Join upgradePhases ", " +:+ "].");
     flag_String upgrade_eta upc_manifestOverride "m" "manifest-override"
       "URI to a manifest file containing custom artifact URLs. Supports file:// for local files and https:// for remote files.";
     flag_Bool upgrade_eta upc_privateMode "" "private-mode"
       "Enable private upgrade mode (skips OS packages, requires --manifest-override).";
     flag_Duration upgrade_eta upc_timeout "t" "timeout"
       "Maximum upgrade command duration. Input follows duration format. Example: 1h23s"]
    {| upc_configSource := ""; upc_skipPhases := []; upc_kubernetesVersion := "";
       upc_manifestOverride := ""; upc_privateMode := false; upc_timeout := 20 * Minute |}.

(** ** uninstall (uninstall/uninstall.go) *)

Definition uninstall_eta (c : UninstallCommand) : UninstallCommand := {|
  uc_skipPhases := uc_skipPhases c; uc_force := uc_force c |}.

Definition forceWarningText : string :=
  "Force delete additional directories that might contain leftovers from the node process. " +:+
  "WARNING: This will delete all contents in default Kubernetes and CNI directories (/var/lib/cni, /etc/cni/net.d, etc). " +:+
  "Do not use this flag if you store your own data in these locations. " +:+
  "Starting from nodeadm v1.0.9, the --force command no longer deletes the /var/lib/kubelet directory " +:+
  "as it may contain Pod volumes and volume-subpath directories that sometimes include the mounted node filesystem. " +:+
  "SAFE-HANDLING-TIPS: Before manually deleting /var/lib/kubelet, carefully inspect all active mounts and unmount volumes safely to avoid data loss.".

Definition uninstallHelpText : string :=
  "Examples:
  # Uninstall all components
  nodeadm uninstall

  # Uninstall all components and skip pod-validation and node-validation pre-flight validation
  nodeadm uninstall --skip node-validation,pod-validation

Documentation:
  https://docs.aws.amazon.com/eks/latest/userguide/hybrid-nodes-nodeadm.html#_uninstall".

Definition uninstall_NewCommand : Subcommand UninstallCommand :=
  NewSubcommand "uninstall" "Uninstall components installed using the install sub-command"
    "" uninstallHelpText
    []
    [flag_StringSlice uninstall_eta uc_skipPhases "s" "skip"
       "Phases of uninstall to skip. Allowed values: [pod-validation, node-validation].";
     flag_Bool uninstall_eta uc_force "f" "force"
       (forceWarningText)]
    {| uc_skipPhases := []; uc_force := false |}.

(** ** config check (config/check.go, config/root.go) *)

Record fileCmd := { file_configSource : string }.

Definition check_eta (c : fileCmd) : fileCmd := {|
  file_configSource := file_configSource c |}.

Definition configHelpText : string :=
  "Examples:
  # Check configuration file
  nodeadm config check --config-source file:///root/nodeConfig.yaml
  
Documentation:
  https://docs.aws.amazon.com/eks/latest/userguide/hybrid-nodes-nodeadm.html#_config_check".

Definition NewCheckCommand : Subcommand fileCmd :=
  NewSubcommand "check" "Verify configuration"
    "" ""
    []
    [flag_String check_eta file_configSource "c" "config-source"
       "Source of node configuration. The format is a URI with supported schemes: [file, imds]."]
    {| file_configSource := "" |}.

(** ** debug (debug/debug.go) *)

Record debug := { debug_nodeConfigSource : string; debug_noColor : bool }.

Definition debug_eta (c : debug) : debug := {|
  debug_nodeConfigSource := debug_nodeConfigSource c; debug_noColor := debug_noColor c |}.

Definition debugHelpText : string :=
  "Examples:
  # Debug using a local config file
  nodeadm debug --config-source file://nodeConfig.yaml

Documentation:
  https://docs.aws.amazon.com/eks/latest/userguide/hybrid-nodes-nodeadm.html#_debug".

Definition debug_NewCommand : Subcommand debug :=
  NewSubcommand "debug" "Debug the node registration process"
    debugHelpText ""
    []
    [flag_String debug_eta debug_nodeConfigSource "c" "config-source"
       "Source of node configuration. The format is a URI with supported schemes: [file, imds].";
     flag_Bool debug_eta debug_noColor "" "no-color"
       "If set, suppresses color output."]
    {| debug_nodeConfigSource := ""; debug_noColor := false |}.

(** ** sync-artifacts (sync_artifacts/sync_artifacts.go) *)

Definition sync_eta (c : SyncCommand) : SyncCommand := {|
  sync_kubernetesVersion := sync_kubernetesVersion c; sync_arch := sync_arch c;
  sync_os := sync_os c; sync_region := sync_region c; sync_s3Bucket := sync_s3Bucket c;
  sync_s3Prefix := sync_s3Prefix c; sync_timeout := sync_timeout c |}.

Definition syncArtifactsHelpText : string :=
  "Examples:
  # Sync all Linux ARM64 dependencies for Kubernetes version 1.31 to S3
  nodeadm sync-artifacts 1.31 --arch arm64 --s3-bucket my-private-bucket --s3-prefix eks-deps/v1.31

  # Sync all Linux AMD64 dependencies for Kubernetes version 1.33 to S3
  nodeadm sync-artifacts 1.33 --arch arm64 --s3-bucket my-private-bucket --s3-prefix eks-deps/v1.33

  # Sync all Linux dependencies corresponding to host system's architecture to a non-default region in S3
  nodeadm sync-artifacts 1.34 --region ap-south-1 --s3-bucket my-private-bucket --s3-prefix eks-deps/ap-south-1/v1.34

Documentation:
  https://docs.aws.amazon.com/eks/latest/userguide/hybrid-nodes-nodeadm.html#_syncartifacts".

(** [goarch] is [runtime.GOARCH], of the machine the tool was built for. *)

Definition sync_NewCommand (goarch : string) : Subcommand SyncCommand :=
  NewSubcommand "sync-artifacts" "Sync EKS hybrid node dependencies directly to S3 for private installation"
    "" syncArtifactsHelpText
    [positional sync_eta sync_kubernetesVersion "KUBERNETES_VERSION" 1 true
       "The major[.minor[.patch]] version of Kubernetes to sync dependencies for."]
    [flag_String sync_eta sync_arch "a" "arch"
       "Target architecture for artifacts.";
     flag_String sync_eta sync_region "r" "region"
       "AWS region for downloading regional artifacts.";
     flag_String sync_eta sync_s3Bucket "" "s3-bucket"
       "S3 bucket to sync the dependencies to (required).";
     flag_String sync_eta sync_s3Prefix "" "s3-prefix"
       "S3 key prefix for the synced artifacts (required).";
     flag_Duration sync_eta sync_timeout "t" "timeout"
       "Maximum sync command duration."]
    {| sync_kubernetesVersion := ""; sync_arch := goarch; sync_os := "linux"; sync_region := "us-west-2";
       sync_s3Bucket := ""; sync_s3Prefix := ""; sync_timeout := 30 * Minute |}.

(** ** Global options (internal/cli/options.go)

    Registered on the parser itself, next to the subcommands. *)

Definition global_eta (c : GlobalOptions) : GlobalOptions := {| DevelopmentMode := DevelopmentMode c |}.
Definition global_flags : list (Flag GlobalOptions) :=
  [flag_Bool global_eta DevelopmentMode "d" "development" "Enable development mode for logging."].

(** ** e2e-test setup, cleanup and ssh (setup/setup.go, cleanup/cleanup.go, ssh/ssh.go) *)

Record SetupCommand := { setup_configFilePath : string }.

Definition setup_eta (c : SetupCommand) : SetupCommand := {|
  setup_configFilePath := setup_configFilePath c |}.

Definition setup_NewCommand : Subcommand SetupCommand :=
  NewSubcommand "setup" "Create the E2E test infrastructure"
    "This command will run the setup infrastructure for running E2E tests" ""
    []
    [flag_String setup_eta setup_configFilePath "s" "setup-config-path"
       "Path to setup config file"]
    {| setup_configFilePath := "" |}.

Record CleanupCommand := { cleanup_resourcesFilePath : string }.

Definition cleanup_eta (c : CleanupCommand) : CleanupCommand := {|
  cleanup_resourcesFilePath := cleanup_resourcesFilePath c |}.

Definition cleanup_NewCommand : Subcommand CleanupCommand :=
  NewSubcommand "cleanup" "Delete the E2E test infrastructure"
    "This command will cleanup E2E test infrastructure." ""
    []
    [flag_String cleanup_eta cleanup_resourcesFilePath "f" "filename"
       "Path to resources file"]
    {| cleanup_resourcesFilePath := "" |}.

Record SshCommand := { ssh_instanceIDOrName : string }.

Definition ssh_eta (c : SshCommand) : SshCommand := {|
  ssh_instanceIDOrName := ssh_instanceIDOrName c |}.

Definition ssh_NewCommand : Subcommand SshCommand :=
  NewSubcommand "ssh" "SSH into a E2E Hybrid Node running in the peered VPC through the jumpbox"
    "" ""
    [positional ssh_eta ssh_instanceIDOrName "INSTANCE_ID_OR_NAME" 1 true
       "The instance ID or name of the node to SSH into"]
    []
    {| ssh_instanceIDOrName := "" |}.

(** ** e2e-test node create and node delete (node/create.go, node/delete.go) *)

Definition create_eta (c : CreateCommand) : CreateCommand := {|
  cr_configFile := cr_configFile c; cr_instanceName := cr_instanceName c;
  cr_instanceSize := cr_instanceSize c; cr_instanceType := cr_instanceType c;
  cr_credsProvider := cr_credsProvider c; cr_os := cr_os c; cr_arch := cr_arch c |}.

Definition create_subcommand : Subcommand CreateCommand :=
  NewSubcommand "create" "Create a Hybrid Node"
    "" ""
    [positional create_eta cr_instanceName "INSTANCE_NAME" 1 true
       "Name of the instance to create."]
    [flag_String create_eta cr_configFile "f" "config-file"
       "Path tests config file.";
     flag_String create_eta cr_credsProvider "c" "creds-provider"
       "Credentials provider to use (iam-ra, ssm).";
     flag_String create_eta cr_os "o" "os"
       "OS to use (al23, ubuntu2004, ubuntu2204, ubuntu2404, rhel8, rhel9, bottlerocket).";
     flag_String create_eta cr_arch "a" "arch"
       "Architecture to use (amd64, arm64).";
     flag_String create_eta cr_instanceSize "s" "instance-size"
       "Instance size to use (Large, XLarge).";
     flag_String create_eta cr_instanceType "t" "instance-type"
       "Instance type to use (t3.large, g4dn.xlarge, etc). If provided, instance size and the default instance type fallbacks are ignored."]
    E2eCommands.NewCreateCommand.

Record DeleteCommand := { del_configFile : string; del_instanceName : string }.

Definition delete_eta (c : DeleteCommand) : DeleteCommand := {|
  del_configFile := del_configFile c; del_instanceName := del_instanceName c |}.

Definition NewDeleteCommand : Subcommand DeleteCommand :=
  NewSubcommand "delete" "Delete a Hybrid Node"
    "" ""
    [positional delete_eta del_instanceName "INSTANCE_NAME" 1 true
       "Name of the instance to delete."]
    [flag_String delete_eta del_configFile "f" "config-file"
       "Path tests config file."]
    {| del_configFile := ""; del_instanceName := "" |}.

(** ** e2e-test sweeper and run-e2e (sweeper/sweeper.go, rune2e/command.go) *)

Definition sweeper_eta (c : SweeperCommand) : SweeperCommand := {|
  sw_clusterPrefix := sw_clusterPrefix c; sw_clusterName := sw_clusterName c;
  sw_ageThreshold := sw_ageThreshold c; sw_dryRun := sw_dryRun c; sw_all := sw_all c;
  sw_eksEndpoint := sw_eksEndpoint c |}.

Definition sweeper_subcommand : Subcommand SweeperCommand :=
  NewSubcommand "sweeper" "Sweep and delete E2E test infrastructure based on criteria"
    "This command will sweep and cleanup E2E test infrastructure based on specified criteria." ""
    []
    [flag_String sweeper_eta sw_clusterPrefix "p" "cluster-prefix"
       "Cluster name prefix to cleanup (will append * for search)";
     flag_String sweeper_eta sw_clusterName "c" "cluster-name"
       "Specific cluster name to cleanup";
     flag_Duration sweeper_eta sw_ageThreshold "" "age"
       "Age threshold for instance deletion";
     flag_Bool sweeper_eta sw_dryRun "" "dry-run"
       "Simulate the cleanup without making any changes";
     flag_Bool sweeper_eta sw_all "" "all"
       "Include all resources based on the age threshold in the cleanup";
     flag_String sweeper_eta sw_eksEndpoint "e" "eks-endpoint"
       "EKS API endpoint"]
    Sweeper.NewSweeperCommand.

Definition run_eta (c : RunCommand) : RunCommand := {|
  E2e.artifactsDir := E2e.artifactsDir c; E2e.clusterName := E2e.clusterName c;
  E2e.cni := E2e.cni c; E2e.ginkgoBinaryPath := E2e.ginkgoBinaryPath c;
  E2e.k8sVersion := E2e.k8sVersion c; E2e.logsBucket := E2e.logsBucket c;
  E2e.noColor := E2e.noColor c; E2e.nodeadmAMDURL := E2e.nodeadmAMDURL c;
  E2e.nodeadmARMURL := E2e.nodeadmARMURL c; E2e.region := E2e.region c;
  E2e.setupConfigFile := E2e.setupConfigFile c; E2e.skipCleanup := E2e.skipCleanup c;
  E2e.skippedTests := E2e.skippedTests c; E2e.testConfigFile := E2e.testConfigFile c;
  E2e.testLabelFilter := E2e.testLabelFilter c; E2e.testProcs := E2e.testProcs c;
  E2e.testsBinaryOrPath := E2e.testsBinaryOrPath c; E2e.timeout := E2e.timeout c |}.

Definition run_subcommand : Subcommand RunCommand :=
  NewSubcommand "run-e2e" "Run E2E tests"
    "" ""
    []
    [flag_String run_eta E2e.clusterName "n" "name"
       "Cluster name (optional)";
     flag_String run_eta E2e.region "r" "region"
       "AWS region (optional)";
     flag_String run_eta E2e.k8sVersion "k" "kubernetes-version"
       "Kubernetes version (optional)";
     flag_String run_eta E2e.cni "c" "cni"
       "CNI plugin (optional)";
     flag_String run_eta E2e.nodeadmAMDURL "" "nodeadm-amd-url"
       "NodeADM AMD URL (optional)";
     flag_String run_eta E2e.nodeadmARMURL "" "nodeadm-arm-url"
       "NodeADM ARM URL (optional)";
     flag_String run_eta E2e.logsBucket "b" "logs-bucket"
       "S3 bucket for logs (optional)";
     flag_String run_eta E2e.artifactsDir "a" "artifacts-dir"
       "Directory for artifacts (optional, defaults to a new temp directory)";
     flag_String run_eta E2e.skippedTests "s" "skipped-tests"
       "ginkgo regex to skip tests (optional)";
     flag_Duration run_eta E2e.timeout "" "timeout"
       "Timeout for the test (optional)";
     flag_String run_eta E2e.testLabelFilter "f" "test-filter"
       "Filter for the test (optional)";
     flag_Bool run_eta E2e.skipCleanup "" "skip-cleanup"
       "Skip cleanup (optional)";
     flag_String run_eta E2e.testsBinaryOrPath "" "tests-binary"
       "Path to the tests binary (optional)";
     flag_Bool run_eta E2e.noColor "" "no-color"
       "Disable color output (optional)";
     flag_Int run_eta E2e.testProcs "p" "procs"
       "Number of processes to run (optional)";
     flag_String run_eta E2e.setupConfigFile "" "setup-config"
       "Path to a YAML file containing cluster.TestResources configuration (optional)";
     flag_String run_eta E2e.testConfigFile "" "test-config"
       "Path to a YAML file containing suite.TestConfig configuration (optional)";
     flag_String run_eta E2e.ginkgoBinaryPath "" "ginkgo-binary"
       "Path to the ginkgo binary (defaults to the ginkgo binary in the same folder as e2e-test or in the PATH)"]
    E2e.NewCommand.

(** ** The commands that are attached (main.go of each, node/node.go) *)

Record AnySubcommand := Attach { options : Type; subcommand : Subcommand options }.
Arguments Attach {options}.

(** A subcommand that only holds others ([NewCommandContainer], and
    [NewCommand] of node). *)
Definition container (name description help : string) : Subcommand unit :=
  NewSubcommand name description "" help [] [] tt.

Definition config_cmds : list AnySubcommand := [Attach NewCheckCommand].
Definition nodeadm_cmds (goarch : string) : list AnySubcommand :=
  [Attach (container "config" "Manage configuration" configHelpText);
   Attach (sync_NewCommand goarch); Attach NewInitCommand; Attach install_NewCommand;
   Attach uninstall_NewCommand; Attach NewUpgradeCommand; Attach debug_NewCommand].

Definition node_NewCommand : Subcommand unit := container "node" "Manage Hybrid Nodes" "".
Definition node_subcommands : list AnySubcommand :=
  [Attach create_subcommand; Attach NewDeleteCommand].
Definition e2e_cmds : list AnySubcommand :=
  [Attach setup_NewCommand; Attach cleanup_NewCommand; Attach ssh_NewCommand;
   Attach node_NewCommand; Attach sweeper_subcommand; Attach run_subcommand].

Definition all_commands (goarch : string) : list AnySubcommand :=
  nodeadm_cmds goarch ++ config_cmds ++ node_subcommands ++ e2e_cmds.

Definition attached_Name (s : AnySubcommand) : string := sub_Name (subcommand s).

(** ** Filling the options in *)

(** The names a flag goes by. *)
Definition flag_names {C} (f : Flag C) : list string :=
  keep (λ n, negb (String.eqb n "")) [ShortName f; LongName f].
Definition goes_by {C} (name : string) (f : Flag C) : bool := slices_Contains (flag_names f) name.

Section Parsing.
(** What the library makes of the text given for a flag and of the value the
    variable holds. *)
Context (store : ∀ t, flag_value t → string → result (flag_value t)).

Definition set_flag {C} (flags : list (Flag C)) (name text : string) (c : C) : result C :=
  match List.find (goes_by name) flags with
  | None => Err (ENew ("Unknown flag: " +:+ name))
  | Some f => v ← store (type f) (read f c) text; Ok (write f v c)
  end.
Fixpoint set_flags {C} (flags : list (Flag C)) (args : list (string * string)) (c : C) : result C :=
  match args with
  | [] => Ok c
  | (name, text) :: args => c ← set_flag flags name text c; set_flags flags args c
  end.

(** A variable after the texts given for it, the first one first. *)
Fixpoint store_all (t : flag_type) (v : flag_value t) (texts : list string) : result (flag_value t) :=
  match texts with
  | [] => Ok v
  | text :: texts => v ← store t v text; store_all t v texts
  end.
Definition texts_for {C} (f : Flag C) (args : list (string * string)) : list string :=
  (λ a, a.2) <$> keep (λ a, goes_by a.1 f) args.

(** ** Flags that do not interfere *)

(** The flag fills in its own variable and no other flag's, nor a positional
    value's; and no other flag goes by one of its names. *)
Definition own_variable {C} (s : Subcommand C) (f : Flag C) : Prop :=
  (∀ v c, read f (write f v c) = v) ∧
  (∀ p v c, p ∈ Positionals s → pos_read p (write f v c) = pos_read p c).
Definition apart {C} (f g : Flag C) : Prop :=
  (∀ v c, read g (write f v c) = read g c) ∧ (∀ v c, read f (write g v c) = read f c) ∧
  Forall (λ n, n ∉ flag_names g) (flag_names f).
Fixpoint pairwise {A} (R : A → A → Prop) (l : list A) : Prop :=
  match l with [] => True | x :: l => Forall (R x) l ∧ pairwise R l end.
Definition flags_apart {C} (s : Subcommand C) : Prop :=
  Forall (own_variable s) (Flags s) ∧ pairwise apart (Flags s).

Lemma pairwise_elem {A} (R : A → A → Prop) l x y :
  pairwise R l → x ∈ l → y ∈ l → x = y ∨ R x y ∨ R y x.
Proof using Type.
  induction l as [|z l IH]; [by intros _ ?%not_elem_of_nil|]. cbn [pairwise].
  rewrite Forall_elem, !elem_of_cons. intros [Hz Hl] [->|Hx] [->|Hy]; auto.
Qed.

Lemma find_goes_by {C} (flags : list (Flag C)) name f :
  List.find (goes_by name) flags = Some f → f ∈ flags ∧ goes_by name f = true.
Proof using Type. intros Hf. apply find_some in Hf as [Hin Hn]. by rewrite list_elem_of_In. Qed.

Lemma apart_goes_by {C} (f g : Flag C) name :
  (∀ n, n ∈ flag_names f → n ∉ flag_names g) → goes_by name f = true → goes_by name g = false.
Proof using Type.
  unfold goes_by. rewrite slices_Contains_spec, slices_Contains_false. auto.
Qed.

(** One argument: its flag's variable, and every other. *)
Lemma set_flag_spec {C} (s : Subcommand C) name text c c' :
  flags_apart s → set_flag (Flags s) name text c = Ok c' →
  (∀ f, f ∈ Flags s → if goes_by name f then store (type f) (read f c) text = Ok (read f c')
                      else read f c' = read f c) ∧
  (∀ p, p ∈ Positionals s → pos_read p c' = pos_read p c).
Proof using Type.
  intros [Ho Ha] E. unfold set_flag in E.
  destruct (List.find (goes_by name) (Flags s)) as [g|] eqn:Eg; [|done].
  apply find_goes_by in Eg as [Hg Hn]. rewrite Forall_elem in Ho. destruct (Ho g Hg) as [Hw Hp].
  destruct (store (type g) (read g c) text) as [v|e] eqn:Es; [|done].
  change (Ok (write g v c) = Ok c') in E. injection E as <-. split; [|by intros p ?; apply Hp].
  intros f Hf. destruct (pairwise_elem _ _ f g Ha Hf Hg) as [->|Hfg].
  - by rewrite Hn, Hw.
  - assert ((∀ n, n ∈ flag_names g → n ∉ flag_names f) ∧ ∀ v c, read f (write g v c) = read f c)
      as [Hd Hr] by (destruct Hfg as [(_ & ? & Hn')|(? & _ & Hn')]; rewrite Forall_elem in Hn';
        split; [intros n H1 H2; by apply (Hn' n)|done|auto|done]).
    by rewrite (apart_goes_by _ _ _ Hd Hn).
Qed.

Lemma set_flags_spec {C} (s : Subcommand C) args c c' :
  flags_apart s → set_flags (Flags s) args c = Ok c' →
  (∀ f, f ∈ Flags s → store_all (type f) (read f c) (texts_for f args) = Ok (read f c')) ∧
  (∀ p, p ∈ Positionals s → pos_read p c' = pos_read p c).
Proof using Type.
  intros Hs. revert c. induction args as [|[name text] args IH]; intros c E; [by injection E as <-|].
  cbn in E. destruct (set_flag (Flags s) name text c) as [c1|e] eqn:E1; [|done].
  destruct (set_flag_spec s name text c c1 Hs E1) as [Hf Hp].
  destruct (IH _ E) as [Hf' Hp']. split; [|intros p Hin; by rewrite Hp', Hp].
  intros f Hin. specialize (Hf f Hin). specialize (Hf' f Hin). unfold texts_for in *. cbn [keep fst].
  destruct (goes_by name f); cbn [fmap list_fmap store_all snd]; [by rewrite Hf|by rewrite <- Hf].
Qed.
End Parsing.

(** ** The flags of the commands *)

Ltac each := cbn; repeat match goal with |- Forall _ _ => constructor end.
Ltac flags_apart_tac :=
  split; cbn; each;
  [split; [by intros v []|intros p v [] Hp; cbn in Hp; rewrite ?elem_of_cons, elem_of_nil in Hp;
     by destruct_or?; subst]..
  |repeat split; each; (split; [by intros v []|split; [by intros v []|
     apply (bool_decide_unpack _); vm_compute; exact I]])].

(** No two flags of a command share a name or a variable, and no flag shares
    one with a positional value. *)
Lemma commands_flags_apart goarch :
  Forall (λ s, flags_apart (subcommand s)) (all_commands goarch).
Proof. each; flags_apart_tac. Qed.

(** Whatever arguments a command of either tool is given, each of its flags
    ends with what the texts given for that flag, in their order, make of its
    default; the texts of the other flags and the positional values do not
    matter to it, nor it to them. *)
Theorem options_filled_in store goarch s args c :
  s ∈ all_commands goarch →
  set_flags store (Flags (subcommand s)) args (Initial (subcommand s)) = Ok c →
  (∀ f, f ∈ Flags (subcommand s) →
     store_all store (type f) (read f (Initial (subcommand s))) (texts_for f args) = Ok (read f c)) ∧
  (∀ p, p ∈ Positionals (subcommand s) → pos_read p c = pos_read p (Initial (subcommand s))).
Proof.
  intros Hs. apply set_flags_spec. pose proof (commands_flags_apart goarch) as HF.
  rewrite Forall_elem in HF. by apply HF.
Qed.

Example filled_in :
  let store t (v : flag_value t) text :=
    match t return flag_value t → result (flag_value t) with
    | FString => λ _, Ok text
    | FBool => λ _, Ok true
    | FStringSlice => λ l, Ok (l ++ [text])
    | _ => λ _, Err (ENew "not a number")
    end v in
  set_flags store (Flags uninstall_NewCommand) [("skip", "a"); ("f", ""); ("s", "b")]
    (Initial uninstall_NewCommand) = Ok {| uc_skipPhases := ["a"; "b"]; uc_force := true |}.
Proof. reflexivity. Qed.

(** The subcommands next to each other are told apart by their names. *)
Lemma command_names_distinct goarch :
  NoDup (attached_Name <$> nodeadm_cmds goarch) ∧ NoDup (attached_Name <$> e2e_cmds) ∧ NoDup (attached_Name <$> node_subcommands).
Proof. repeat split; apply (bool_decide_unpack _); vm_compute; exact I. Qed.

(** The one name a command's flag shares with a global one is [-d] of init. *)
Lemma short_d_shared goarch :
  keep (λ s, existsb (λ f, existsb (λ n, existsb (goes_by n) global_flags) (flag_names f))
               (Flags (subcommand s))) (nodeadm_cmds goarch ++ config_cmds) = [Attach NewInitCommand] ∧
  existsb (goes_by "d") (Flags NewInitCommand) = true ∧ existsb (goes_by "d") global_flags = true.
Proof. by repeat split. Qed.

(** And what [--daemon] of init fills in is read nowhere. *)
Lemma init_daemons_unread `{Env} `{Semver.Semver} `{TrackerYaml} `{Runtime} `{Cli} c daemons h :
  Init_Run {| initc_configSource := initc_configSource c; initc_skipPhases := initc_skipPhases c;
              initc_daemons := daemons; initc_manifestOverride := initc_manifestOverride c;
              initc_privateMode := initc_privateMode c |} h = Init_Run c h.
Proof. by destruct c. Qed.
